(* ===== verification/_CoqProject ===== *)
-Q . S2P
Prelude.v
Float64.v
GoStrings.v
Utf8.v
JavaStrings.v
Sha256.v
JavaServices.v
JavaServiceFacts.v
FormatFloat.v
Json.v
JsonFacts.v
Scoring.v
Messages.v
Payloads.v
PayloadFacts.v
Effects.v
Telemetry.v
TenantConfig.v
DagConfig.v
Resilience.v
Loader.v
Kafka.v
Executor.v
Pipeline.v
PipelineFacts.v
RunProps.v
RunTiming.v
RunPrivacy.v
Transport.v
Servers.v
JavaGrpc.v
JavaThreads.v
JavaLifecycle.v
Gateway.v
GatewayProps.v
Startup.v
System.v
PlatformPrivacy.v
Platform.v
PlatformTiming.v
PlatformEvents.v
PlatformDelivery.v
JavaPlatform.v
JavaPrivacy.v
JavaHealthy.v
PlatformLogs.v
RepoTests.v
