(* ===== verification/Prelude.v ===== *)
(** * Claims-fraud platform: a verification library

    This library models the Go and Java code of the repository and proves what
    makes it correct.  Seven services cooperate on a claim:

    - claims-gateway ([services/claims-gateway]) accepts a REST request, draws a
      correlation id, asks tenant-config-svc whether the tenant is active and
      forwards the claim to orchestration over gRPC;
    - orchestration-service ([services/orchestration-service]) loads the DAG of
      (tenant, product, event type) and runs it: the three enrichment services,
      then the model, then Kafka;
    - claimant-id-hashing-svc, address-normalization-svc and policy-lookup-svc
      (Java) hash a claimant's name, normalize an address and look a policy up;
    - model-service ([services/model-service]) scores a feature map;
    - tenant-config-svc ([services/tenant-config-svc]) serves tenants and DAG
      versions from a file;
    - [pkg/telemetry] carries the tenant and correlation ids between them in
      contexts, gRPC metadata and log attributes.

    ** Files, and the code they model

    - [Prelude]: Go errors and two-valued returns, machine integers, durations,
      hint databases, tactics and generic lemmas.
    - [Float64]: IEEE binary64 ([spec_float]) with the [math] functions used.
    - [GoStrings]: [strconv], [encoding/hex] and [path/filepath] functions on
      byte strings, with the UTF-8 decoding that [%q] needs.
    - [Utf8]: [unicode/utf8] and the replacement of ill-formed bytes.
      [FormatFloat]: the shortest decimal of a [float64], as [encoding/json]
      prints it.  [Json], [JsonFacts]: the encoder of strings and flat objects,
      the decoder's scanner (a state machine over bytes) and string unquoting.
    - [JavaStrings]: the operations of Java's [String] that the services use, on
      lists of code points.  [Sha256]: the hash function.  [JavaServices]: the
      classes [ClaimantIdHasher], [AddressNormalizer] and [PolicyLookup];
      [JavaServiceFacts]: what they compute.  [JavaGrpc]: their gRPC adapters,
      with the thread's MDC and exceptions.  [JavaThreads]: the pool of threads
      that runs them, as a labelled transition system.  [JavaLifecycle]: the
      state machine of [GrpcServerLifecycle].
    - [Payloads], [PayloadFacts]: the request and response bodies of
      [handler/claims.go] and the event of [kafka/publisher.go], with their
      field tags: [Decode], [Encode], [Marshal] and their round trips.
    - [Scoring]: [model-service/internal/scoring/scoring.go].
    - [Messages]: the protobuf messages of [proto/] and their nil-safe getters,
      and the Kafka event.
    - [Effects]: [context.Context], the clock, [select] with a timer, log lines
      and calls as a write-only trace; the monad [M] in which every handler is
      written, with the projections [result_of], [final], [trace].
    - [Telemetry]: [context.go], [logging.go], [interceptor.go], [warmup.go];
      the gRPC metadata is a class with documented laws.
    - [TenantConfig]: [store.go] and [tenantconfig.go].
    - [DagConfig]: [dag/config.go] and the helpers of [executor.go] that read a
      configuration ([nodeTimeout], [dependsOn], [nodeFailureHandled]).
    - [Resilience]: [callWithResilience] of [executor.go].
    - [Loader]: [dag/loader.go].  [Kafka]: [kafka/publisher.go].
    - [Executor]: [Executor.Run], a loop per stage.
    - [Pipeline]: the abstract state machine of a run and the refinement of it
      by [Run]; [PipelineFacts]: its invariant.
    - [RunProps], [RunTiming], [RunPrivacy]: the theorems about [Run].
    - [Servers]: [model.go], [orchestration.go], the client wrappers of both
      services and the executor that [cmd/orchestration/main.go] builds.
    - [Gateway]: [handler/claims.go] and [correlation/id.go];
      [GatewayProps]: its theorems.
    - [Startup]: the [Dial] functions and [Close] of the clients and the four
      [main]s, over the class [GrpcConn] of a client connection with its laws.
    - [Transport]: what lies between a client interceptor and a server
      interceptor, as the class [Transport]: it may take time, refuse a call and
      lose an answer; [TransportLaws], [SilentTransport] and [PromptTransport]
      are what theorems ask of it; [rpc]: a call between two services over it.
    - [System]: gateway, tenant service and orchestration composed through the
      interceptors over a transport, and [exchange], the specification of a
      request with the [fate] it ends in; [PlatformPrivacy]: what that
      composition hides; [Platform]: the same with the repository's own model
      service and version lookup, down to the bytes of the answer;
      [PlatformTiming]: how long it takes; [PlatformEvents]: the answer against
      the event that is published, and [PlatformDelivery]: against what the
      broker acknowledged in the run; [JavaPlatform], [JavaPrivacy],
      [JavaHealthy]: with its Java services too, behind a network that may fail,
      that gives nothing away, and that works; [PlatformLogs]: the record of log
      lines and calls that a request leaves.
    - [RepoTests]: the unit tests of the repository and its manual test cases,
      evaluated on the model.

    ** What the theorems show

    - End to end, over a transport that may fail: the platform does for an
      accepted request what its exchange says (an id, the tenant within 2
      seconds, at most one run for that tenant, with 5 seconds) and answers 403,
      502 or 200 according to the fate it ends in; everything done for it
      concerns that request and its tenant; a 200 reads back as its own ids, the
      status, address and rule score of the path its run took.  When deadlines
      are kept the client has its answer within 7 seconds, and a run ends within
      5 seconds of its start and one file read.  No log line, response or event
      depends on the claimant's name other than through its hash, that is not on
      its case nor on the spaces around it.  On a platform whose calls are
      answered in time every claim is scored, within a call's time for each
      node, the version, the delivery and the tenant, with the score of its
      policy and its address; whatever fails, the score of a 200 only rises, to
      at most 0.50.
    - Observability: every line that a Go service logs for a request names the
      service and carries the request's correlation id and no other, and every
      call and message among the services carries it on; on the Java side, the
      lines of a thread are those of the calls it took, each under its own id,
      in whatever order calls come and lines interleave.
    - Java services: the hash identifies names up to case and outer spaces and
      nothing else, unless SHA-256 collides; addresses of the understood form are
      taken apart exactly; every known policy is found, however its number is
      written, and any other is [unknown]; handlers leave their thread's MDC clean and log no personal data; [isRunning] is
      true exactly when the server accepts calls.
    - Consistency: an event tells the consumers of the topic what the client is
      told: ids, tenant, score and model version; and an answer marked [scored]
      means that in its run the broker acknowledged such an event for each
      publishing node, in the state the run had reached.
    - Tests: each case of [scoring_test.go], [config_test.go],
      [executor_test.go] and the Java unit tests, and the manual test cases
      TC-01 to TC-11 and the failures the runbook describes, compute to what
      their authors expect.
    - Runs: [Run] refines a machine whose steps are the outcomes of node calls
      (the labels of a path are what the clients really returned, in the states
      in which they were called); from it, the exact result and status of a
      completed run, the causes of a failed one, what is published and when,
      which services are called, in which order, how often and with which
      features, and the time a run takes.
    - Retries: the outcome, the number of attempts, the duration and the
      cancellation behaviour of [callWithResilience], and what a negative
      [max_retries] does.
    - Scoring: the floating-point code returns exactly the [float64] nearest to
      the sum of the triggered rules, within [0.05, 0.50]; withholding features
      never lowers it; explanations hold no control character.
    - Bodies: requests, responses and events are read back as they were
      written, up to the replacement of ill-formed UTF-8; whatever a client
      sends, a forwarded claim is well-formed and an answer is one line free of
      HTML metacharacters; a score that is not finite is a 200 without a body.
    - Start-up: dialling terminates within 5 seconds, orchestration and the
      gateway serve within 25 and 10 seconds of their start even when every peer
      is down, and the message and the deferred calls of every way to stop.
    - Configuration and identifiers: plain keys of different tenants read
      different files, and an event type with [..] elements does not; the store
      answers as the directory of its file; identifiers survive the
      interceptors; timeouts are positive and do not overflow.

    ** Modelling choices

    Time is a clock in nanoseconds that only calls and back-offs advance;
    [context.WithTimeout] gives a child the earlier of the two deadlines, and a
    callee is trusted to honour it only where a theorem says so ([honours]).
    Code outside the repository is a parameter: generated stubs, the Kafka
    writer, the YAML library, the file system, the network to the Java services,
    the random source and the gRPC transport between the Go services.  The
    transport is two computations around the handler ([net_request],
    [net_reply]), which depend on the method, the client's context and the state,
    not on the message.  A handler is run to its end before its client goes on:
    when the client gives up at its deadline first, the clock shows the instant
    of the client again, while the effects of the handler stay; [encoding/json] is modelled for the types
    the services encode.  A Java string is its list of code points (no string
    here has a lone surrogate: it comes from UTF-8), an exception a value of
    [Throwable], and the MDC a map that a handler threads; the case mapping of
    characters beyond ASCII is the class [CaseTables], what gRPC-java makes of a
    handler that ran the class [JavaServer], each with the laws that are used.  [GoErr] keeps the structure of wrapped errors rather
    than their rendered text.  A [main] is a computation that returns or stops
    ([Stop]); [log.Fatalf] stops it and skips the deferred calls.  Three loops
    need care: the retry loop recurses over the attempt indices
    [0 .. max_retries], which exist for every [int32]; the string decoder's fuel
    is the length of its input; the warm-up loop takes fuel, and [WarmUp_returns],
    [WarmUp_more] and [dial_terminates] show that the number of state changes
    that fit in the timeout, plus two, is enough and that more changes nothing.
    The concrete services of the witnesses ([demo_executor], [demo_stubs],
    [down_conn], [demo_transport], [net_up], [ascii_tables]) and the shipped configuration ([claim_fnol_config],
    [shipped_tenants]) exhibit the hypotheses.

    ** Not modelled

    The [SpringApplication] mains of the Java services and the Spring container,
    the generated protobuf code and its wire format (and so the limits on the
    size of a message), the YAML library, what [net/http] does around a handler (redirects, request-body
    limits, connection errors while a body is read or written), and signals.
    Orchestration's run is one goroutine per request in the code and shares no
    state with another, so concurrent requests are separate computations here.
    The copies of [getenv], which are identical, are modelled once; the structs
    of the servers and of the gateway's handler are the arguments of their
    methods here.  What is left of the repository is data (the configuration,
    which the witnesses and the tests use), scripts and documentation. *)

From stdpp Require Export base tactics list option numbers strings gmap.
From Stdlib Require Export ZArith Lia.

Open Scope Z_scope.

Declare Scope claims_scope.
Delimit Scope claims_scope with claims.

(** Hint databases of the development: [claims] holds resolution hints,
    [claims_rw] the rewriting equations of the small accessors. *)
Create HintDb claims.
Create Rewrite HintDb claims_rw.
Create Rewrite HintDb m_run.
Create Rewrite HintDb m_calls.

(** ** Go errors and two-valued returns *)

(** [context.Canceled] and [context.DeadlineExceeded]. *)
Inductive CtxErr := Canceled | DeadlineExceeded.

(** The errors the program builds or forwards: [errors.New]/[fmt.Errorf]
    without a wrapped error, [fmt.Errorf("<prefix>: %w", err)], a gRPC status
    and the error of a context. *)
Inductive GoErr :=
  | ErrNew (msg : string)
  | ErrWrap (prefix : string) (err : GoErr)
  | ErrStatus (code : Z) (msg : string)
  | ErrCtx (c : CtxErr).

(** A Go function of type [(T, error)] whose first component is only read
    when the error is nil. *)
Inductive result (A : Type) : Type :=
  | Ok (a : A)
  | Err (err : GoErr).
Arguments Ok {_} _.
Arguments Err {_} _.

#[export] Instance CtxErr_eq_dec : EqDecision CtxErr.
Proof. solve_decision. Defined.
#[export] Instance GoErr_eq_dec : EqDecision GoErr.
Proof. solve_decision. Defined.
#[export] Instance result_eq_dec `{EqDecision A} : EqDecision (result A).
Proof. solve_decision. Defined.

Definition is_ok {A} (r : result A) : bool :=
  match r with Ok _ => true | Err _ => false end.

Definition is_err {A} (r : result A) : bool := negb (is_ok r).

(** [if err != nil { return zero, fmt.Errorf(prefix + ": %w", err) }]. *)
Definition wrap_err {A} (prefix : string) (r : result A) : result A :=
  match r with Ok a => Ok a | Err e => Err (ErrWrap prefix e) end.

(** ** Fixed-width integers *)

(** The range of Go's [int32] and [int64]; the width of [int] is 64. *)
Definition is_int32 (z : Z) : Prop := - 2 ^ 31 <= z < 2 ^ 31.
Definition is_int64 (z : Z) : Prop := - 2 ^ 63 <= z < 2 ^ 63.

(** Two's complement wrap-around of a 64-bit operation. *)
Definition wrap64 (z : Z) : Z := (z + 2 ^ 63) mod 2 ^ 64 - 2 ^ 63.

#[export] Instance is_int32_dec z : Decision (is_int32 z).
Proof. unfold is_int32. apply _. Defined.
#[export] Instance is_int64_dec z : Decision (is_int64 z).
Proof. unfold is_int64. apply _. Defined.

(** ** Durations, in nanoseconds as [time.Duration] *)
Definition Millisecond : Z := 1000000.
Definition Second : Z := 1000 * Millisecond.

(** ** Tactics *)

(** Case analysis on every [match] of the goal, closing the trivial cases. *)
Ltac break_match := repeat (case_match; simplify_eq/=; try done).

(** Decide a closed boolean or decidable goal by computation. *)
Ltac by_compute := vm_compute; try reflexivity; try done.

(** Turn a refuted disequality of decidable terms into the equality. *)
Ltac dec_eq := repeat match goal with
  | H : ¬ (?a <> ?b) |- _ => apply dec_stable in H
  end.

(** ** Lemmas shared by the components *)

Lemma wrap64_id (z : Z) : is_int64 z -> wrap64 z = z.
Proof. unfold is_int64, wrap64. intros ?. rewrite Z.mod_small; lia. Qed.

Lemma wrap64_range (z : Z) : is_int64 (wrap64 z).
Proof.
  unfold is_int64, wrap64.
  pose proof (Z.mod_pos_bound (z + 2 ^ 63) (2 ^ 64) ltac:(lia)). lia.
Qed.

Lemma wrap_err_is_ok {A} p (r : result A) : is_ok (wrap_err p r) = is_ok r.
Proof. by destruct r. Qed.

(** The last element that satisfies a test, as the [for] loops that keep
    overwriting a map entry or a variable compute it. *)
Fixpoint last_where {A} (f : A -> bool) (l : list A) : option A :=
  match l with
  | [] => None
  | x :: l' => match last_where f l' with
               | Some y => Some y
               | None => if f x then Some x else None
               end
  end.

Lemma last_where_app {A} (f : A -> bool) (l1 l2 : list A) :
  last_where f (l1 ++ l2) =
  match last_where f l2 with Some y => Some y | None => last_where f l1 end.
Proof. induction l1 as [|x l1 IH]; simpl; [by destruct (last_where f l2)|]. rewrite IH. by repeat case_match. Qed.

Lemma last_where_Some {A} (f : A -> bool) (l : list A) x :
  last_where f l = Some x -> x ∈ l /\ f x = true.
Proof.
  induction l as [|y l IH]; simpl; [done|].
  destruct (last_where f l) as [z|].
  - intros [= ->]. destruct IH as [??]; [done|]. split; [by right|done].
  - case_match; [|done]. intros [= ->]. split; [left|done].
Qed.

Lemma last_where_None {A} (f : A -> bool) (l : list A) :
  last_where f l = None <-> Forall (λ x, f x = false) l.
Proof.
  induction l as [|y l IH]; simpl; [by split|].
  rewrite Forall_cons, <- IH.
  destruct (last_where f l) as [z|].
  - split; [done|]. by intros [_ ?].
  - destruct (f y); split; try done. by intros [? _].
Qed.

Lemma string_cons_app c (a b : string) : String c a +:+ b = String c (a +:+ b).
Proof. done. Qed.

Lemma string_length_app (a b : string) :
  String.length (a +:+ b) = (String.length a + String.length b)%nat.
Proof.
  induction a as [|c a IH]; [done|].
  rewrite string_cons_app. cbn [String.length]. by rewrite IH.
Qed.

Lemma string_app_inj_r (a b c : string) : a +:+ c = b +:+ c -> a = b.
Proof.
  revert b. induction a as [|x a IH]; intros [|y b] Heq; [done| | |].
  1, 2: apply (f_equal String.length) in Heq; rewrite !string_length_app in Heq;
    simpl in Heq; lia.
  rewrite !string_cons_app in Heq. injection Heq as -> Heq. f_equal. by apply IH.
Qed.

(** Finite checks over an interval, decided by computation. *)
Lemma forallb_seqZ (f : Z -> bool) (lo n : Z) :
  forallb f (seqZ lo n) = true -> forall z, lo <= z < lo + n -> f z = true.
Proof.
  rewrite forallb_forall. intros Hall z Hz.
  apply Hall, list_elem_of_In, elem_of_seqZ, Hz.
Qed.

#[export] Hint Resolve last_where_Some wrap64_range : claims.
