(* ===== verification/Float64.v ===== *)
(** * IEEE-754 binary64 arithmetic as Go's [float64] uses it

    [float64] values are the [spec_float]s of the Standard Library at
    precision 53 and maximal exponent 1024; addition, multiplication and
    division are the correctly rounded (nearest, ties to even) operations of
    [SpecFloat].  [math.Round] and [math.Min] follow the Go standard library,
    special cases included.  Everything computes, so a score is evaluated to
    the exact bits the service returns. *)

From Stdlib Require Export SpecFloat.
From S2P Require Import Prelude.

Abbreviation float64 := spec_float.

#[export] Instance float64_eq_dec : EqDecision float64.
Proof. solve_decision. Defined.

(** ** Operations *)

Definition f64_of_Z (z : Z) : float64 := binary_normalize 53 1024 z 0 false.

(** The constant [n/d] of the source converted to [float64]: the quotient of
    two exactly represented integers is correctly rounded. *)
Definition f64_lit (n d : Z) : float64 :=
  SFdiv 53 1024 (f64_of_Z n) (f64_of_Z d).

Definition f64_add : float64 -> float64 -> float64 := SFadd 53 1024.
Definition f64_mul : float64 -> float64 -> float64 := SFmul 53 1024.
Definition f64_div : float64 -> float64 -> float64 := SFdiv 53 1024.

Definition f64_leb : float64 -> float64 -> bool := SFleb.
Definition f64_ltb : float64 -> float64 -> bool := SFltb.

Definition f64_is_nan (x : float64) : bool :=
  match x with S754_nan => true | _ => false end.
Definition f64_is_finite (x : float64) : bool :=
  match x with S754_nan | S754_infinity _ => false | _ => true end.
Definition f64_is_zero (x : float64) : bool :=
  match x with S754_zero _ => true | _ => false end.
Definition f64_signbit (x : float64) : bool :=
  match x with
  | S754_zero s | S754_infinity s | S754_finite s _ _ => s
  | S754_nan => false
  end.

(** [math.Round]: nearest integer, halves away from zero; zeros, infinities
    and NaN are returned as they are, and a result of zero keeps the sign. *)
Definition math_Round (x : float64) : float64 :=
  match x with
  | S754_finite s m e =>
      if 0 <=? e then x
      else let q := (Z.pos m + 2 ^ (- e - 1)) / 2 ^ (- e) in
           if q =? 0 then S754_zero s
           else binary_normalize 53 1024 (if s then - q else q) 0 s
  | _ => x
  end.

(** [math.Min], with its special cases in the order of the library. *)
Definition math_Min (x y : float64) : float64 :=
  if decide (x = S754_infinity true \/ y = S754_infinity true)
  then S754_infinity true
  else if f64_is_nan x || f64_is_nan y then S754_nan
  else if f64_is_zero x && f64_is_zero y
  then (if f64_signbit x then x else y)
  else if f64_ltb x y then x else y.

(** Floating-point terms are evaluated by [vm_compute] only. *)
Arguments f64_of_Z : simpl never.
Arguments f64_lit : simpl never.
Arguments f64_add : simpl never.
Arguments f64_mul : simpl never.
Arguments f64_div : simpl never.
Arguments math_Round : simpl never.
Arguments math_Min : simpl never.

(** ** Lemmas *)

Lemma SFcompare_refl (x : float64) :
  f64_is_nan x = false -> SFcompare x x = Some Eq.
Proof.
  destruct x as [s|s| |s m e]; try done; [by destruct s|].
  intros _. simpl. destruct s; rewrite Z.compare_refl.
  - by rewrite Pos.compare_cont_refl.
  - by rewrite Pos.compare_cont_refl.
Qed.

Lemma f64_leb_refl (x : float64) :
  f64_is_nan x = false -> f64_leb x x = true.
Proof. intros H. unfold f64_leb, SFleb. by rewrite SFcompare_refl. Qed.

Lemma f64_ltb_leb (x y : float64) :
  f64_ltb x y = true -> f64_leb x y = true.
Proof. unfold f64_ltb, f64_leb, SFltb, SFleb. by destruct (SFcompare x y) as [[]|]. Qed.

Lemma f64_leb_inf_l (x : float64) :
  f64_is_nan x = false -> f64_leb (S754_infinity true) x = true.
Proof. by destruct x as [s|[]| |[] m e]. Qed.

(** A comparison of two numbers that are not NaN goes one way or the other. *)
Lemma f64_ltb_total (x y : float64) :
  f64_is_nan x = false -> f64_is_nan y = false ->
  f64_ltb x y = false -> f64_leb y x = true.
Proof.
  unfold f64_ltb, f64_leb, SFltb, SFleb.
  destruct x as [[]|[]| |[] m e], y as [[]|[]| |[] m' e']; try done; simpl;
    rewrite (Z.compare_antisym e e'); destruct (Z.compare e e'); simpl; try done;
    pose proof (Pos.compare_antisym m m') as Hc; unfold Pos.compare in Hc;
    rewrite Hc; by destruct (Pos.compare_cont Eq m m').
Qed.

(** The clamp [math.Min(1.0, x)] never exceeds its first argument. *)
Lemma math_Min_le_l (x y : float64) :
  f64_is_nan x = false -> f64_is_nan y = false ->
  f64_leb (math_Min x y) x = true.
Proof.
  intros Hx Hy. unfold math_Min. case_decide as Hi; [by apply f64_leb_inf_l|].
  rewrite Hx, Hy. simpl.
  destruct (f64_is_zero x && f64_is_zero y) eqn:Hz.
  - apply andb_true_iff in Hz as [Hzx Hzy].
    by destruct x as [[]|[]| |], y as [[]|[]| |].
  - destruct (f64_ltb x y) eqn:Hlt; [by apply f64_leb_refl|].
    by apply f64_ltb_total.
Qed.

#[export] Hint Resolve f64_leb_refl f64_ltb_leb math_Min_le_l : claims.
