(* ===== verification/GoStrings.v ===== *)
(** * The string functions of the Go standard library the services call

    [strconv.FormatBool]/[ParseBool], [strconv.Quote] (through [fmt]'s [%q]),
    [hex.EncodeToString], [strings.Split] on the separator and
    [filepath.Join]/[filepath.Clean] for Unix paths.  A Go string is its bytes,
    so a Rocq [string] (a sequence of 8-bit characters) is one exactly. *)

From Stdlib Require Import Ascii String.
From S2P Require Import Prelude.

(** ** Bytes *)

Definition byte_of (c : ascii) : Z := Z.of_N (N_of_ascii c).
Definition char_of (b : Z) : ascii := ascii_of_N (Z.to_N b).
Definition bytes_of (s : string) : list Z := byte_of <$> list_ascii_of_string s.
Definition string_of (bs : list Z) : string := string_of_list_ascii (char_of <$> bs).

(** ** strconv: booleans *)

Definition FormatBool (b : bool) : string := if b then "true" else "false".

(** [ParseBool]: the value, and whether the error is nil; an unparseable
    string gives [false] and a syntax error. *)
Definition ParseBool (str : string) : bool * bool :=
  if bool_decide (str ∈ ["1"; "t"; "T"; "true"; "TRUE"; "True"]%string) then (true, true)
  else if bool_decide (str ∈ ["0"; "f"; "F"; "false"; "FALSE"; "False"]%string)
  then (false, true)
  else (false, false).

(** ** encoding/hex *)

Definition lowerhex (d : Z) : Z := if d <? 10 then 48 + d else 87 + d.

Definition hex_byte (b : Z) : list Z :=
  [lowerhex (Z.shiftr b 4); lowerhex (Z.land b 15)].

Definition hex_EncodeToString (src : list Z) : string :=
  string_of (src ≫= hex_byte).

(** ** unicode/utf8 *)

Definition RuneError : Z := 0xFFFD.

Definition in_range (b lo hi : Z) : bool := (lo <=? b) && (b <=? hi).

(** Accepted range of the second byte after the leading byte [p0], and the
    length of the sequence; [None] for a byte that starts no sequence. *)
Definition utf8_first (p0 : Z) : option (nat * Z * Z) :=
  if in_range p0 0xC2 0xDF then Some (2%nat, 0x80, 0xBF)
  else if p0 =? 0xE0 then Some (3%nat, 0xA0, 0xBF)
  else if in_range p0 0xE1 0xEC then Some (3%nat, 0x80, 0xBF)
  else if p0 =? 0xED then Some (3%nat, 0x80, 0x9F)
  else if in_range p0 0xEE 0xEF then Some (3%nat, 0x80, 0xBF)
  else if p0 =? 0xF0 then Some (4%nat, 0x90, 0xBF)
  else if in_range p0 0xF1 0xF3 then Some (4%nat, 0x80, 0xBF)
  else if p0 =? 0xF4 then Some (4%nat, 0x80, 0x8F)
  else None.

(** [utf8.DecodeRuneInString] on a non-empty string: the rune and the number
    of bytes it takes; an invalid sequence is [RuneError] of width 1. *)
Definition DecodeRune (p : list Z) : Z * nat :=
  match p with
  | [] => (RuneError, 0%nat)
  | p0 :: rest =>
      if p0 <? 0x80 then (p0, 1%nat)
      else match utf8_first p0, rest with
           | Some (2%nat, lo, hi), b1 :: _ =>
               if in_range b1 lo hi
               then (Z.lor (Z.shiftl (Z.land p0 0x1F) 6) (Z.land b1 0x3F), 2%nat)
               else (RuneError, 1%nat)
           | Some (3%nat, lo, hi), b1 :: b2 :: _ =>
               if in_range b1 lo hi && in_range b2 0x80 0xBF
               then (Z.lor (Z.shiftl (Z.land p0 0x0F) 12)
                       (Z.lor (Z.shiftl (Z.land b1 0x3F) 6) (Z.land b2 0x3F)), 3%nat)
               else (RuneError, 1%nat)
           | Some (4%nat, lo, hi), b1 :: b2 :: b3 :: _ =>
               if in_range b1 lo hi && in_range b2 0x80 0xBF && in_range b3 0x80 0xBF
               then (Z.lor (Z.shiftl (Z.land p0 0x07) 18)
                       (Z.lor (Z.shiftl (Z.land b1 0x3F) 12)
                          (Z.lor (Z.shiftl (Z.land b2 0x3F) 6) (Z.land b3 0x3F))), 4%nat)
               else (RuneError, 1%nat)
           | _, _ => (RuneError, 1%nat)
           end
  end.

(** ** strconv.Quote *)
Section Quote.
(** The Unicode tables behind [strconv.IsPrint] above U+00FF. *)
Variable isPrintTable : Z -> bool.

Definition IsPrint (r : Z) : bool :=
  if r <=? 0xFF
  then in_range r 0x20 0x7E || (in_range r 0xA1 0xFF && negb (r =? 0xAD))
  else isPrintTable r.

(** The digits of [r] in base 16, [n] of them. *)
Fixpoint hex_digits (n : nat) (r : Z) : list Z :=
  match n with
  | O => []
  | S n' => lowerhex (Z.land (Z.shiftr r (4 * Z.of_nat n')) 15) :: hex_digits n' r
  end.

(** [appendEscapedRune] with the double quote, not ASCII-only; [src] are the
    bytes the rune was decoded from, which [utf8.AppendRune] writes back. *)
Definition escape_rune (r : Z) (src : list Z) : list Z :=
  if (r =? 34) || (r =? 92) then [92; r]
  else if IsPrint r then src
  else if r =? 7 then [92; 97]
  else if r =? 8 then [92; 98]
  else if r =? 12 then [92; 102]
  else if r =? 10 then [92; 110]
  else if r =? 13 then [92; 114]
  else if r =? 9 then [92; 116]
  else if r =? 11 then [92; 118]
  else if (r <? 32) || (r =? 0x7F) then [92; 120] ++ hex_byte r
  else if r <? 0x10000 then [92; 117] ++ hex_digits 4 r
  else [92; 85] ++ hex_digits 8 r.

(** The loop of [appendQuotedWith]; it consumes at least one byte a turn, so
    [length s] turns are enough. *)
Fixpoint quote_loop (fuel : nat) (s : list Z) : list Z :=
  match fuel, s with
  | S fuel', b :: _ =>
      let '(r, width) := DecodeRune s in
      (if bool_decide (width = 1%nat /\ r = RuneError)
       then [92; 120] ++ hex_byte b
       else escape_rune r (take width s)) ++ quote_loop fuel' (drop width s)
  | _, _ => []
  end.

Definition Quote (s : string) : string :=
  let bs := bytes_of s in
  string_of ([34] ++ quote_loop (length bs) bs ++ [34]).
End Quote.

(** ** path/filepath on Unix *)

Definition slash : ascii := "/"%char.

(** The elements of a path between its separators. *)
Fixpoint split_slash (s : string) : list string :=
  match s with
  | EmptyString => [""%string]
  | String c s' =>
      if decide (c = slash) then ""%string :: split_slash s'
      else match split_slash s' with
           | e :: es => String c e :: es
           | [] => [String c EmptyString]
           end
  end.

Definition is_rooted (path : string) : bool :=
  match path with String c _ => bool_decide (c = slash) | EmptyString => false end.

(** One path element pushed on the elements kept so far, in reverse: empty
    elements and [.] vanish, [..] removes the previous element, stays at the
    front of a relative path and vanishes at the root. *)
Definition clean_push (rooted : bool) (stack : list string) (e : string) : list string :=
  if bool_decide (e = "" \/ e = ".")%string then stack
  else if bool_decide (e = "..")%string then
    match stack with
    | [] => if rooted then [] else [".."%string]
    | top :: below => if bool_decide (top = "..")%string then ".."%string :: stack else below
    end
  else e :: stack.

Definition clean_elems (rooted : bool) (es : list string) : list string :=
  rev (foldl (clean_push rooted) [] es).

Definition render_path (rooted : bool) (es : list string) : string :=
  match rooted, es with
  | false, [] => "."
  | false, _ => String.concat "/" es
  | true, _ => String slash (String.concat "/" es)
  end.

(** [filepath.Clean]. *)
Definition filepath_Clean (path : string) : string :=
  render_path (is_rooted path) (clean_elems (is_rooted path) (split_slash path)).

(** [filepath.Join]: leading empty elements are dropped, the rest is joined
    with separators and cleaned. *)
Fixpoint filepath_Join (elem : list string) : string :=
  match elem with
  | [] => ""
  | e :: rest =>
      if bool_decide (e = "")%string then filepath_Join rest
      else filepath_Clean (String.concat "/" elem)
  end.

(** A byte that is neither a C0 control character nor DEL. *)
Definition not_control (b : Z) : Prop := 32 <= b <= 255 /\ b <> 127.
Definition is_byte (b : Z) : Prop := 0 <= b <= 255.

(** ** Lemmas *)

Lemma ParseBool_FormatBool (b : bool) : ParseBool (FormatBool b) = (b, true).
Proof. by destruct b. Qed.

Lemma byte_of_range (c : ascii) : is_byte (byte_of c).
Proof.
  unfold is_byte, byte_of. pose proof (N_ascii_bounded c). lia.
Qed.

Lemma byte_of_char_of (b : Z) : is_byte b -> byte_of (char_of b) = b.
Proof.
  unfold is_byte, byte_of, char_of. intros ?.
  rewrite N_ascii_embedding; lia.
Qed.

Lemma bytes_of_range (s : string) : Forall is_byte (bytes_of s).
Proof.
  apply Forall_forall. intros b (c & -> & _)%list_elem_of_fmap. apply byte_of_range.
Qed.

Lemma bytes_of_string_of (bs : list Z) :
  Forall is_byte bs -> bytes_of (string_of bs) = bs.
Proof.
  intros Hbs. unfold bytes_of, string_of.
  rewrite list_ascii_of_string_of_list_ascii.
  induction Hbs as [|b bs Hb _ IH]; [done|].
  rewrite !fmap_cons. by rewrite byte_of_char_of, IH.
Qed.

Lemma bytes_of_app (s t : string) : bytes_of (s +:+ t) = bytes_of s ++ bytes_of t.
Proof.
  unfold bytes_of. rewrite <- fmap_app. f_equal.
  induction s as [|c s IH]; [done|]. by simpl; f_equal.
Qed.

Lemma lowerhex_not_control (d : Z) : 0 <= d <= 15 -> not_control (lowerhex d).
Proof. unfold lowerhex, not_control. intros ?. destruct (Z.ltb_spec d 10); lia. Qed.

Lemma land15_range (r : Z) : 0 <= Z.land r 15 <= 15.
Proof.
  assert (Z.land r 15 = r mod 16) as -> by (apply (Z.land_ones r 4); lia).
  pose proof (Z.mod_pos_bound r 16 ltac:(lia)). lia.
Qed.

Lemma hex_byte_not_control (r : Z) : is_byte r -> Forall not_control (hex_byte r).
Proof.
  unfold is_byte, hex_byte. intros Hr.
  apply Forall_cons; split; [|apply Forall_singleton];
    apply lowerhex_not_control; [|apply land15_range].
  rewrite Z.shiftr_div_pow2 by lia.
  split; [apply Z.div_pos; lia|]. change (2 ^ 4) with 16.
  assert (r / 16 < 16) by (apply Z.div_lt_upper_bound; lia). lia.
Qed.

Lemma hex_digits_not_control (n : nat) (r : Z) : Forall not_control (hex_digits n r).
Proof.
  induction n as [|n IH]; simpl; constructor; [|done].
  apply lowerhex_not_control, land15_range.
Qed.

Lemma not_control_byte (b : Z) : not_control b -> is_byte b.
Proof. unfold not_control, is_byte. lia. Qed.

Lemma high_not_control (b : Z) : 0x80 <= b <= 0xFF -> not_control b.
Proof. unfold not_control. lia. Qed.

Lemma utf8_first_range (p0 : Z) n lo hi :
  utf8_first p0 = Some (n, lo, hi) -> 0x80 <= lo /\ hi <= 0xBF.
Proof. unfold utf8_first. intros H. repeat case_match; simplify_eq; lia. Qed.

(** The shape of a decoded rune: an invalid byte, an ASCII byte, or a sequence
    of two to four bytes all at or above 0x80. *)
Lemma DecodeRune_shape (p0 : Z) (p : list Z) :
  Forall is_byte (p0 :: p) ->
  let '(r, w) := DecodeRune (p0 :: p) in
  0 <= r /\
  ((w = 1%nat /\ (r = RuneError \/ (r = p0 /\ p0 < 0x80))) \/
   (w <> 1%nat /\ Forall not_control (take w (p0 :: p)))).
Proof.
  intros [Hp0 Hp]%Forall_cons. unfold is_byte in *. simpl.
  destruct (p0 <? 0x80) eqn:Hlt.
  { apply Z.ltb_lt in Hlt. split; [lia|]. left. split; [done|]. right. lia. }
  apply Z.ltb_ge in Hlt.
  assert (Hh0 : not_control p0) by (apply high_not_control; lia).
  assert (Herr : 0 <= RuneError) by (unfold RuneError; lia).
  destruct (utf8_first p0) as [[[n lo] hi]|] eqn:Hf; [|by auto].
  apply utf8_first_range in Hf as [Hlo Hhi].
  destruct n as [|[|[|[|[|n]]]]]; try by auto.
  all: unfold in_range; repeat case_match; simplify_eq; try (by auto 6).
  all: repeat match goal with
         | H : Forall _ (_ :: _) |- _ => apply Forall_cons in H as [? ?]
         | H : (_ && _) = true |- _ => apply andb_true_iff in H as [? ?]
         | H : (_ <=? _) = true |- _ => apply Z.leb_le in H
         end.
  all: split; [repeat (apply Z.lor_nonneg; split);
               try (apply Z.shiftl_nonneg); apply Z.land_nonneg; lia|].
  all: right; split; [done|].
  all: simpl; repeat first
         [apply Forall_nil_2
         |apply Forall_cons_2; [first [done|apply high_not_control; lia]|]].
Qed.

Section QuoteFacts.
Context (isPrintTable : Z -> bool).

Lemma IsPrint_ascii (r : Z) : IsPrint isPrintTable r = true -> r <= 0x7F -> 32 <= r <= 126.
Proof.
  unfold IsPrint, in_range. intros Hp Hr.
  destruct (Z.leb_spec r 0xFF); [|lia]. lia.
Qed.

Lemma escape_rune_not_control (r : Z) (src : list Z) :
  0 <= r ->
  (src = [r] /\ r < 0x80) \/ Forall not_control src ->
  Forall not_control (escape_rune isPrintTable r src).
Proof.
  intros Hr Hsrc. unfold escape_rune.
  assert (Hlit : forall a b, 32 <= a <= 126 -> 32 <= b <= 126 -> Forall not_control [a; b]).
  { intros a b ??. repeat (apply Forall_cons_2; [unfold not_control; lia|]). apply Forall_nil_2. }
  destruct ((r =? 34) || (r =? 92)) eqn:E1.
  { apply orb_true_iff in E1. apply Hlit; lia. }
  destruct (IsPrint isPrintTable r) eqn:Hp.
  { destruct Hsrc as [[-> ?]|?]; [|done]. pose proof (IsPrint_ascii r Hp).
    apply Forall_singleton. unfold not_control. lia. }
  repeat (case_match; [by apply Hlit|]).
  destruct ((r <? 32) || (r =? 0x7F)) eqn:E2.
  { apply Forall_app_2; [by apply Hlit|]. apply hex_byte_not_control. unfold is_byte.
    apply orb_true_iff in E2. lia. }
  case_match; (apply Forall_app_2; [by apply Hlit|apply hex_digits_not_control]).
Qed.

Lemma quote_loop_not_control (fuel : nat) (s : list Z) :
  Forall is_byte s -> Forall not_control (quote_loop isPrintTable fuel s).
Proof.
  revert s. induction fuel as [|fuel IH]; intros [|b s] Hs; [by constructor..|].
  cbn [quote_loop].
  pose proof (DecodeRune_shape b s Hs) as Hshape.
  destruct (DecodeRune (b :: s)) as [r w]. destruct Hshape as [Hr Hshape].
  apply Forall_app_2; [|by apply IH, Forall_drop].
  case_bool_decide as Hbad.
  - apply Forall_app_2; [|apply hex_byte_not_control; by inversion Hs].
    repeat (apply Forall_cons_2; [unfold not_control; lia|]). apply Forall_nil_2.
  - apply escape_rune_not_control; [done|].
    destruct Hshape as [[-> [->|[-> ?]]]|[_ ?]]; [naive_solver|by left|by right].
Qed.

(** [Quote] never emits a control character, whatever bytes it is given. *)
Lemma Quote_not_control (s : string) :
  Forall not_control (bytes_of (Quote isPrintTable s)).
Proof.
  assert (H : Forall not_control ([34] ++ quote_loop isPrintTable (length (bytes_of s)) (bytes_of s) ++ [34])).
  { assert (Hq : Forall not_control [34]) by (apply Forall_singleton; unfold not_control; lia).
    repeat apply Forall_app_2; try done. apply quote_loop_not_control, bytes_of_range. }
  unfold Quote. rewrite bytes_of_string_of; [done|].
  eapply Forall_impl; [exact H|]. apply not_control_byte.
Qed.
End QuoteFacts.

(** ** Hex round trip *)

Definition hex_value (c : Z) : Z := if c <? 58 then c - 48 else c - 87.

Fixpoint hex_decode (cs : list Z) : list Z :=
  match cs with
  | h :: l :: cs' => (16 * hex_value h + hex_value l) :: hex_decode cs'
  | _ => []
  end.

Lemma hex_byte_value (b : Z) : is_byte b ->
  exists h l, hex_byte b = [h; l] /\ 16 * hex_value h + hex_value l = b.
Proof.
  intros Hb. eexists _, _. split; [reflexivity|].
  assert (Hall : forallb (λ z, 16 * hex_value (lowerhex (Z.shiftr z 4))
              + hex_value (lowerhex (Z.land z 15)) =? z) (seqZ 0 256) = true) by by_compute.
  apply Z.eqb_eq, (forallb_seqZ _ _ _ Hall). unfold is_byte in Hb. lia.
Qed.

Lemma hex_decode_encode (bs : list Z) :
  Forall is_byte bs -> hex_decode (bytes_of (hex_EncodeToString bs)) = bs.
Proof.
  intros Hbs. unfold hex_EncodeToString. rewrite bytes_of_string_of.
  - induction Hbs as [|b bs Hb _ IH]; [done|].
    destruct (hex_byte_value b Hb) as (h & l & He & Hv).
    rewrite bind_cons, He. simpl. by rewrite Hv, IH.
  - apply Forall_bind. eapply Forall_impl; [exact Hbs|]. intros b Hb.
    eapply Forall_impl; [by apply hex_byte_not_control|]. apply not_control_byte.
Qed.

Lemma length_hex_EncodeToString (bs : list Z) :
  String.length (hex_EncodeToString bs) = (2 * length bs)%nat.
Proof.
  unfold hex_EncodeToString, string_of.
  assert (Hl : forall cs, String.length (string_of_list_ascii cs) = length cs)
    by (induction cs; simpl; congruence).
  rewrite Hl, length_fmap. induction bs as [|b bs IH]; [done|].
  rewrite bind_cons, length_app, IH. simpl. lia.
Qed.
