(* ===== verification/Utf8.v ===== *)
(** * UTF-8: encoding, and its agreement with decoding

    [utf8.AppendRune], and the two halves of its agreement with
    [utf8.DecodeRune] of [GoStrings]: what is encoded decodes to the same rune,
    and what decodes without an error is the encoding of its rune.  A Go string
    may hold any bytes; [runes] is what [range] yields on it and [sanitize] what
    [encoding/json] keeps of it. *)

From S2P Require Import Prelude GoStrings.

(** ** Definitions *)

(** A Unicode scalar value. *)
Definition scalar (r : Z) : Prop := 0 <= r <= 0x10FFFF /\ ~ (0xD800 <= r <= 0xDFFF).

#[export] Instance scalar_dec r : Decision (scalar r).
Proof. unfold scalar. apply _. Defined.

(** [utf8.AppendRune(nil, r)]; a rune that is not a scalar value is encoded as
    [RuneError]. *)
Definition EncodeRune (r : Z) : list Z :=
  if in_range r 0 0x7F then [r]
  else if in_range r 0x80 0x7FF
  then [Z.lor 0xC0 (Z.shiftr r 6); Z.lor 0x80 (Z.land r 0x3F)]
  else if (r <? 0) || (0x10FFFF <? r) || in_range r 0xD800 0xDFFF then [0xEF; 0xBF; 0xBD]
  else if r <=? 0xFFFF
  then [Z.lor 0xE0 (Z.shiftr r 12); Z.lor 0x80 (Z.land (Z.shiftr r 6) 0x3F);
        Z.lor 0x80 (Z.land r 0x3F)]
  else [Z.lor 0xF0 (Z.shiftr r 18); Z.lor 0x80 (Z.land (Z.shiftr r 12) 0x3F);
        Z.lor 0x80 (Z.land (Z.shiftr r 6) 0x3F); Z.lor 0x80 (Z.land r 0x3F)].

(** The runes of a string, an invalid byte giving [RuneError]. *)
Fixpoint runes_loop (fuel : nat) (s : list Z) : list Z :=
  match fuel, s with
  | S fuel', _ :: _ =>
      let '(r, width) := DecodeRune s in r :: runes_loop fuel' (drop width s)
  | _, _ => []
  end.
Definition runes (s : list Z) : list Z := runes_loop (length s) s.

(** The string with every invalid byte replaced by the encoding of
    [RuneError]. *)
Definition sanitize (s : list Z) : list Z := runes s ≫= EncodeRune.

(** Well-formed UTF-8. *)
Definition valid_utf8 (s : list Z) : Prop := exists rs, Forall scalar rs /\ s = rs ≫= EncodeRune.

(** ** Bit fields *)

Lemma lor_field hi lo k :
  0 <= k -> 0 <= lo < 2 ^ k -> hi mod 2 ^ k = 0 -> Z.lor hi lo = hi + lo.
Proof.
  intros Hk Hlo Hhi. rewrite <- Z.lxor_lor, <- Z.add_nocarry_lxor; [done|..];
    apply Z.bits_inj'; intros n Hn; rewrite Z.land_spec, Z.bits_0;
    (destruct (Z.lt_ge_cases n k) as [Hnk|Hnk];
     [replace (Z.testbit hi n) with (Z.testbit (hi mod 2 ^ k) n)
        by (by rewrite Z.mod_pow2_bits_low);
      by rewrite Hhi, Z.bits_0
     |rewrite <- (Z.mod_small lo (2 ^ k)) by done;
      by rewrite Z.mod_pow2_bits_high, andb_false_r by lia]).
Qed.

Lemma land_low r k m : 0 <= k -> m = 2 ^ k - 1 -> Z.land r m = r mod 2 ^ k.
Proof. intros Hk ->. rewrite <- Z.land_ones by done. f_equal. rewrite Z.ones_equiv. lia. Qed.

(** The fields of the encodings as arithmetic. *)
Lemma cont_byte r : Z.lor 0x80 (Z.land r 0x3F) = 0x80 + r mod 64.
Proof.
  rewrite (land_low r 6) by lia. apply (lor_field _ _ 6); [lia| |done].
  apply Z.mod_pos_bound. lia.
Qed.
Lemma lead2 r : 0 <= r <= 0x7FF -> Z.lor 0xC0 (Z.shiftr r 6) = 0xC0 + r / 64.
Proof.
  intros Hr. rewrite Z.shiftr_div_pow2 by lia. apply (lor_field _ _ 6); [lia| |done].
  change (2 ^ 6) with 64. split; [apply Z.div_pos; lia|apply Z.div_lt_upper_bound; lia].
Qed.
Lemma lead3 r : 0 <= r <= 0xFFFF -> Z.lor 0xE0 (Z.shiftr r 12) = 0xE0 + r / 4096.
Proof.
  intros Hr. rewrite Z.shiftr_div_pow2 by lia. apply (lor_field _ _ 5); [lia| |done].
  change (2 ^ 12) with 4096. change (2 ^ 5) with 32.
  split; [apply Z.div_pos; lia|apply Z.div_lt_upper_bound; lia].
Qed.
Lemma lead4 r : 0 <= r <= 0x10FFFF -> Z.lor 0xF0 (Z.shiftr r 18) = 0xF0 + r / 262144.
Proof.
  intros Hr. rewrite Z.shiftr_div_pow2 by lia. apply (lor_field _ _ 4); [lia| |done].
  change (2 ^ 18) with 262144. change (2 ^ 4) with 16.
  split; [apply Z.div_pos; lia|apply Z.div_lt_upper_bound; lia].
Qed.

Lemma cont_low b : 0 <= b < 64 -> Z.land (0x80 + b) 0x3F = b.
Proof.
  intros Hb. rewrite (land_low _ 6) by lia. change (2 ^ 6) with 64.
  Z.to_euclidean_division_equations; lia.
Qed.

Lemma join_field hi lo k : 0 <= k -> 0 <= lo < 2 ^ k -> Z.lor (Z.shiftl hi k) lo = hi * 2 ^ k + lo.
Proof.
  intros Hk Hlo. rewrite Z.shiftl_mul_pow2 by done.
  apply (lor_field _ _ k); [done|done|]. apply Z.mod_mul. lia.
Qed.

(** A rune as its six-bit fields. *)
Lemma fields2 r : exists a b, r = a * 64 + b /\ 0 <= b < 64 /\ r / 64 = a /\ r mod 64 = b.
Proof.
  exists (r / 64), (r mod 64). pose proof (Z.mod_pos_bound r 64 ltac:(lia)).
  pose proof (Z.div_mod r 64 ltac:(lia)). lia.
Qed.

Ltac in_range_true :=
  rewrite ?andb_true_iff; unfold in_range; rewrite ?andb_true_iff, ?Z.leb_le; lia.
Ltac in_range_false := unfold in_range; rewrite ?andb_false_iff, ?Z.leb_gt; lia.

(** ** The decoder on each shape of sequence *)

Lemma Decode1 p0 rest : p0 < 0x80 -> DecodeRune (p0 :: rest) = (p0, 1%nat).
Proof. intros H. simpl. by rewrite (proj2 (Z.ltb_lt _ _) H). Qed.
Lemma Decode2 a b rest :
  2 <= a <= 31 -> 0 <= b < 64 ->
  DecodeRune (0xC0 + a :: 0x80 + b :: rest) = (a * 64 + b, 2%nat).
Proof.
  intros Ha Hb. unfold DecodeRune.
  replace (0xC0 + a <? 0x80) with false by lia. unfold utf8_first.
  replace (in_range (0xC0 + a) 0xC2 0xDF) with true by (symmetry; in_range_true).
  replace (in_range (0x80 + b) 0x80 0xBF) with true by (symmetry; in_range_true).
  f_equal. rewrite cont_low, join_field by lia. rewrite (land_low _ 5) by lia.
  change (2 ^ 5) with 32. change (2 ^ 6) with 64. Z.to_euclidean_division_equations; lia.
Qed.
Lemma Decode3 a b c rest :
  0 <= a <= 15 -> 0 <= b < 64 -> 0 <= c < 64 -> (a = 0 -> 32 <= b) -> (a = 13 -> b < 32) ->
  DecodeRune (0xE0 + a :: 0x80 + b :: 0x80 + c :: rest) = (a * 4096 + b * 64 + c, 3%nat).
Proof.
  intros Ha Hb Hc H0 H13. unfold DecodeRune.
  replace (0xE0 + a <? 0x80) with false by lia.
  assert (exists lo hi, utf8_first (0xE0 + a) = Some (3%nat, lo, hi) /\ lo <= 0x80 + b <= hi)
    as (lo & hi & -> & Hr).
  { unfold utf8_first, in_range. repeat case_match; try (exfalso; lia); eexists _, _; (split; [reflexivity|]); lia. }
  replace (in_range (0x80 + b) lo hi) with true by (symmetry; in_range_true).
  replace (in_range (0x80 + c) 0x80 0xBF) with true by (symmetry; in_range_true).
  cbn [andb]. f_equal. rewrite !cont_low by lia. rewrite (join_field b c 6) by lia.
  rewrite (join_field _ _ 12) by (change (2 ^ 6) with 64; change (2 ^ 12) with 4096; lia).
  rewrite (land_low _ 4) by lia. change (2 ^ 4) with 16. change (2 ^ 6) with 64.
  change (2 ^ 12) with 4096. Z.to_euclidean_division_equations; lia.
Qed.
Lemma Decode4 a b c d rest :
  0 <= a <= 4 -> 0 <= b < 64 -> 0 <= c < 64 -> 0 <= d < 64 -> (a = 0 -> 16 <= b) ->
  (a = 4 -> b < 16) ->
  DecodeRune (0xF0 + a :: 0x80 + b :: 0x80 + c :: 0x80 + d :: rest) =
    (a * 262144 + b * 4096 + c * 64 + d, 4%nat).
Proof.
  intros Ha Hb Hc Hd H0 H4. unfold DecodeRune.
  replace (0xF0 + a <? 0x80) with false by lia.
  assert (exists lo hi, utf8_first (0xF0 + a) = Some (4%nat, lo, hi) /\ lo <= 0x80 + b <= hi)
    as (lo & hi & -> & Hr).
  { unfold utf8_first, in_range. repeat case_match; try (exfalso; lia); eexists _, _; (split; [reflexivity|]); lia. }
  replace (in_range (0x80 + b) lo hi) with true by (symmetry; in_range_true).
  replace (in_range (0x80 + c) 0x80 0xBF) with true by (symmetry; in_range_true).
  replace (in_range (0x80 + d) 0x80 0xBF) with true by (symmetry; in_range_true).
  cbn [andb]. f_equal. rewrite !cont_low by lia. rewrite (join_field c d 6) by lia.
  rewrite (join_field b _ 12) by (change (2 ^ 6) with 64; change (2 ^ 12) with 4096; lia).
  rewrite (join_field _ _ 18)
    by (change (2 ^ 6) with 64; change (2 ^ 12) with 4096; change (2 ^ 18) with 262144; lia).
  rewrite (land_low _ 3) by lia. change (2 ^ 3) with 8. change (2 ^ 6) with 64.
  change (2 ^ 12) with 4096. change (2 ^ 18) with 262144.
  Z.to_euclidean_division_equations; lia.
Qed.

(** ** The encoder as arithmetic *)

(** The four shapes of the encoding of a scalar value. *)
Inductive encoded : Z -> list Z -> Prop :=
| enc1 r : 0 <= r < 0x80 -> encoded r [r]
| enc2 a b : 2 <= a <= 31 -> 0 <= b < 64 -> encoded (a * 64 + b) [0xC0 + a; 0x80 + b]
| enc3 a b c : 0 <= a <= 15 -> 0 <= b < 64 -> 0 <= c < 64 ->
    (a = 0 -> 32 <= b) -> (a = 13 -> b < 32) ->
    encoded (a * 4096 + b * 64 + c) [0xE0 + a; 0x80 + b; 0x80 + c]
| enc4 a b c d : 0 <= a <= 4 -> 0 <= b < 64 -> 0 <= c < 64 -> 0 <= d < 64 ->
    (a = 0 -> 16 <= b) -> (a = 4 -> b < 16) ->
    encoded (a * 262144 + b * 4096 + c * 64 + d) [0xF0 + a; 0x80 + b; 0x80 + c; 0x80 + d].

Lemma EncodeRune_encoded r : scalar r -> encoded r (EncodeRune r).
Proof.
  intros [Hr Hs]. unfold EncodeRune.
  destruct (in_range r 0 0x7F) eqn:E1.
  { unfold in_range in E1. constructor. lia. }
  assert (0x80 <= r) by (unfold in_range in E1; lia).
  destruct (in_range r 0x80 0x7FF) eqn:E2.
  { unfold in_range in E2. rewrite cont_byte, lead2 by lia.
    destruct (fields2 r) as (a & b & -> & Hb & -> & ->). constructor; lia. }
  assert (0x800 <= r) by (unfold in_range in E2; lia).
  replace ((r <? 0) || (0x10FFFF <? r) || in_range r 0xD800 0xDFFF) with false
    by (unfold in_range; lia).
  destruct (fields2 r) as (a & b & Hrab & Hb & Ha & Hbm).
  destruct (fields2 a) as (a' & b' & Hab & Hb' & Ha' & Hbm').
  assert (Hs6 : Z.shiftr r 6 = a) by (by rewrite Z.shiftr_div_pow2 by lia).
  destruct (r <=? 0xFFFF) eqn:E3.
  - rewrite Hs6, !cont_byte, lead3, Hbm, Hbm' by lia.
    replace (r / 4096) with a' by (Z.to_euclidean_division_equations; lia).
    replace r with (a' * 4096 + b' * 64 + b) by lia. constructor; lia.
  - destruct (fields2 a') as (a2 & b2 & Hab2 & Hb2 & Ha2 & Hbm2).
    assert (Hs12 : Z.shiftr r 12 = a').
    { rewrite Z.shiftr_div_pow2 by lia. change (2 ^ 12) with 4096.
      Z.to_euclidean_division_equations; lia. }
    rewrite Hs6, Hs12, !cont_byte, lead4, Hbm, Hbm', Hbm2 by lia.
    replace (r / 262144) with a2 by (Z.to_euclidean_division_equations; lia).
    replace r with (a2 * 262144 + b2 * 4096 + b' * 64 + b) by lia. constructor; lia.
Qed.

Lemma encoded_scalar r bs : encoded r bs -> scalar r.
Proof. unfold scalar. intros []; lia. Qed.

Lemma encoded_decode r bs rest : encoded r bs -> DecodeRune (bs ++ rest) = (r, length bs).
Proof.
  intros []; cbn [app length];
    [apply Decode1|apply Decode2|apply Decode3|apply Decode4]; lia.
Qed.

Lemma encoded_inj r bs bs' : encoded r bs -> encoded r bs' -> bs = bs'.
Proof. intros H H'. inversion H; inversion H'; subst; repeat f_equal; lia. Qed.

(** What is decoded without an error is the encoding of its rune. *)
Lemma DecodeRune_encoded p0 p :
  Forall is_byte (p0 :: p) ->
  DecodeRune (p0 :: p) = (RuneError, 1%nat) \/
  exists r bs rest, encoded r bs /\ p0 :: p = bs ++ rest.
Proof.
  intros [Hp0 Hp]%Forall_cons. unfold is_byte in *. simpl.
  destruct (p0 <? 0x80) eqn:Hlt; [right; exists p0, [p0], p; split; [constructor; lia|done]|].
  destruct (utf8_first p0) as [[[n lo] hi]|] eqn:Hf; [|by auto].
  destruct n as [|[|[|[|[|n]]]]]; try (by auto).
  all: destruct p as [|b1 p]; [by auto|]; try (destruct p as [|b2 p]; [by auto|]);
    try (destruct p as [|b3 p]; [by auto|]).
  all: match goal with |- context [if ?c then _ else _] => destruct c eqn:Hc end; [|by auto].
  all: right; unfold in_range in Hc.
  - exists ((p0 - 0xC0) * 64 + (b1 - 0x80)), [0xC0 + (p0 - 0xC0); 0x80 + (b1 - 0x80)], p.
    split; [|repeat f_equal; simpl; repeat f_equal; lia].
    unfold utf8_first, in_range in Hf. repeat case_match; simplify_eq; constructor; lia.
  - exists ((p0 - 0xE0) * 4096 + (b1 - 0x80) * 64 + (b2 - 0x80)),
      [0xE0 + (p0 - 0xE0); 0x80 + (b1 - 0x80); 0x80 + (b2 - 0x80)], p.
    split; [|simpl; repeat f_equal; lia].
    unfold utf8_first, in_range in Hf. repeat case_match; simplify_eq; constructor; lia.
  - exists ((p0 - 0xF0) * 262144 + (b1 - 0x80) * 4096 + (b2 - 0x80) * 64 + (b3 - 0x80)),
      [0xF0 + (p0 - 0xF0); 0x80 + (b1 - 0x80); 0x80 + (b2 - 0x80); 0x80 + (b3 - 0x80)], p.
    split; [|simpl; repeat f_equal; lia].
    unfold utf8_first, in_range in Hf. repeat case_match; simplify_eq; constructor; lia.
Qed.

Lemma DecodeRune_width p0 p : (DecodeRune (p0 :: p)).2 <> 0%nat.
Proof. simpl. repeat case_match; done. Qed.

(** ** Induction on the runes of a string *)

Lemma encoded_ne r bs : encoded r bs -> bs <> [].
Proof. by destruct 1. Qed.

Lemma encoded_bytes r bs : encoded r bs -> Forall is_byte bs.
Proof.
  unfold is_byte. destruct 1;
    repeat (apply Forall_cons_2; [lia|]); apply Forall_nil_2.
Qed.

(** A string of bytes is a sequence of encoded runes and of invalid bytes. *)
Lemma rune_ind (P : list Z -> Prop) :
  P [] ->
  (forall r bs s, encoded r bs -> P s -> P (bs ++ s)) ->
  (forall b s, is_byte b -> DecodeRune (b :: s) = (RuneError, 1%nat) -> P s -> P (b :: s)) ->
  forall s, Forall is_byte s -> P s.
Proof.
  intros Hnil Henc Herr s. remember (length s) as n eqn:Hn. revert s Hn.
  induction n as [n IH] using lt_wf_ind. intros [|b s] -> Hs; [done|].
  destruct (DecodeRune_encoded b s Hs) as [He|(r & bs & rest & He & Heq)].
  - apply Forall_cons in Hs as [Hb Hs]. apply Herr; [done|done|].
    apply (IH (length s)); simpl; [lia|done|done].
  - pose proof (encoded_ne _ _ He) as Hne. rewrite Heq in *. apply Forall_app in Hs as [_ Hs].
    apply Henc with r; [done|]. apply (IH (length rest)); [|done|done].
    rewrite length_app. destruct bs; simpl; [done|lia].
Qed.

(** ** The runes of a string *)

Lemma runes_loop_fuel n s : (length s <= n)%nat -> runes_loop n s = runes s.
Proof.
  unfold runes. intros Hn. assert (H : forall k l s, (length s <= k)%nat -> (length s <= l)%nat ->
    runes_loop k s = runes_loop l s); [|by apply H].
  clear. induction k as [|k IH]; intros [|l] [|b s] Hk Hl; try done; simpl in Hk, Hl; try lia.
  cbn [runes_loop]. destruct (DecodeRune (b :: s)) as [r w] eqn:E. f_equal.
  assert (w <> 0%nat) by (pose proof (DecodeRune_width b s) as Hw; by rewrite E in Hw).
  apply IH; rewrite length_drop; simpl; lia.
Qed.

Lemma runes_cons b s :
  runes (b :: s) = (DecodeRune (b :: s)).1 :: runes (drop (DecodeRune (b :: s)).2 (b :: s)).
Proof.
  pose proof (DecodeRune_width b s) as Hw. unfold runes at 1. cbn [length runes_loop].
  destruct (DecodeRune (b :: s)) as [r w]. f_equal. apply runes_loop_fuel.
  rewrite length_drop. simpl in *. lia.
Qed.

Lemma runes_encoded r bs s : encoded r bs -> runes (bs ++ s) = r :: runes s.
Proof.
  intros He. pose proof (encoded_decode r bs s He) as Hd. destruct bs as [|b bs]; [by destruct (encoded_ne r [])|].
  cbn [app] in *. rewrite runes_cons, Hd. cbn [fst snd]. f_equal. f_equal.
  exact (drop_app_length (b :: bs) s).
Qed.

Lemma runes_invalid b s : DecodeRune (b :: s) = (RuneError, 1%nat) -> runes (b :: s) = RuneError :: runes s.
Proof. intros He. by rewrite runes_cons, He. Qed.

Lemma EncodeRune_encoded_eq r bs : encoded r bs -> EncodeRune r = bs.
Proof. intros He. eapply encoded_inj; [|exact He]. by eapply EncodeRune_encoded, encoded_scalar. Qed.

Lemma sanitize_encoded r bs s : encoded r bs -> sanitize (bs ++ s) = bs ++ sanitize s.
Proof.
  intros He. unfold sanitize. rewrite (runes_encoded r), bind_cons by done.
  by rewrite (EncodeRune_encoded_eq r bs).
Qed.

Lemma sanitize_invalid b s :
  DecodeRune (b :: s) = (RuneError, 1%nat) -> sanitize (b :: s) = EncodeRune RuneError ++ sanitize s.
Proof. intros He. unfold sanitize. by rewrite runes_invalid, bind_cons. Qed.

(** A well-formed string is kept as it is. *)
Lemma sanitize_valid s : valid_utf8 s -> sanitize s = s.
Proof.
  intros (rs & Hrs & ->). induction Hrs as [|r rs Hr _ IH]; [done|].
  rewrite bind_cons, (sanitize_encoded r), IH; [done|]. by apply EncodeRune_encoded.
Qed.

(** An ASCII string is well formed. *)
Lemma ascii_valid s : Forall (fun b => 0 <= b < 0x80) s -> valid_utf8 s.
Proof.
  intros Hs. exists s. split; [eapply Forall_impl; [exact Hs|]; unfold scalar; intros; lia|].
  induction Hs as [|b s Hb _ IH]; [done|]. rewrite bind_cons, <- IH.
  by rewrite (EncodeRune_encoded_eq b [b]) by by constructor.
Qed.
