(* ===== verification/JavaStrings.v ===== *)
(** * Strings of the Java services

    A [java.lang.String] that came out of a protobuf message is well-formed
    Unicode; it is modelled by its code points.  The methods used treat a
    surrogate pair as its code point, or look only at characters below the
    surrogates, so nothing is lost.  The case mappings of the characters beyond
    ASCII are the JDK's tables, a class with what the model needs of them. *)

From S2P Require Import Prelude GoStrings Utf8.

Abbreviation jstring := (list Z).

(** The code points of an ASCII literal. *)
Definition lit (s : string) : jstring := bytes_of s.

(** ** Conversions at the wire *)

(** Parsing and serializing a protobuf string field; [getBytes(UTF_8)]. *)
Definition java_of (s : string) : jstring := runes (bytes_of s).
Definition getBytes (s : jstring) : list Z := s ≫= EncodeRune.
Definition go_of (s : jstring) : string := string_of (getBytes s).

(** ** Characters *)

(** [Character.isWhitespace]: the space, line and paragraph separators but the
    non-breaking ones, and the control characters listed by its documentation. *)
Definition isWhitespace (c : Z) : bool :=
  in_range c 0x09 0x0D || in_range c 0x1C 0x20 || (c =? 0x1680) || in_range c 0x2000 0x2006
  || in_range c 0x2008 0x200A || in_range c 0x2028 0x2029 || (c =? 0x205F) || (c =? 0x3000).

(** [\s] of [java.util.regex] without [UNICODE_CHARACTER_CLASS]. *)
Definition regex_space (c : Z) : bool := in_range c 0x09 0x0D || (c =? 0x20).

(** ** String methods *)

Definition isBlank (s : jstring) : bool := forallb isWhitespace s.

Fixpoint strip_left {A} (p : A -> bool) (s : list A) : list A :=
  match s with
  | c :: s' => if p c then strip_left p s' else s
  | [] => []
  end.
Definition strip_right {A} (p : A -> bool) (s : list A) : list A :=
  reverse (strip_left p (reverse s)).

(** [trim]: characters up to U+0020 at both ends. *)
Definition trimmed (c : Z) : bool := c <=? 0x20.
Definition trim (s : jstring) : jstring := strip_right trimmed (strip_left trimmed s).

(** The pieces between the characters that satisfy [p]. *)
Fixpoint pieces (p : Z -> bool) (s : jstring) : list jstring :=
  match s with
  | [] => [[]]
  | c :: s' =>
      if p c then [] :: pieces p s'
      else match pieces p s' with
           | x :: xs => (c :: x) :: xs
           | [] => [[c]]
           end
  end.

(** The pieces between the maximal runs of such characters. *)
Fixpoint run_pieces (p : Z -> bool) (s : jstring) : list jstring :=
  match s with
  | [] => [[]]
  | c :: s' =>
      if p c then
        match s' with
        | c' :: _ => if p c' then run_pieces p s' else [] :: run_pieces p s'
        | [] => [] :: run_pieces p s'
        end
      else match run_pieces p s' with
           | x :: xs => (c :: x) :: xs
           | [] => [[c]]
           end
  end.

(** [split] with limit 0: the string itself when nothing matches, else the
    pieces without the trailing empty ones. *)
Definition is_empty {A} (s : list A) : bool := match s with [] => true | _ => false end.
Definition split_comma (s : jstring) : list jstring :=
  if existsb (Z.eqb 44) s then strip_right is_empty (pieces (Z.eqb 44) s) else [s].
Definition split_spaces (s : jstring) : list jstring :=
  if existsb regex_space s then strip_right is_empty (run_pieces regex_space s) else [s].

(** [String.join]. *)
Fixpoint join (sep : jstring) (ss : list jstring) : jstring :=
  match ss with
  | [] => []
  | [s] => s
  | s :: ss' => s ++ sep ++ join sep ss'
  end.

(** The case mappings under [Locale.ROOT] beyond ASCII: a character may map to
    several, and the lower case of a sigma depends on what surrounds it. *)
Class CaseTables := {
  upper_table : Z -> list Z;
  lower_table : list Z -> Z -> list Z -> list Z }.
Class CaseTablesLaws (T : CaseTables) : Prop := {
  upper_scalar c : scalar c -> Forall scalar (upper_table c);
  lower_scalar before c after : scalar c -> Forall scalar (lower_table before c after) }.

Section Case.
Context `{CaseTables}.

Definition upper_char (c : Z) : list Z :=
  if in_range c 97 122 then [c - 32] else if c <? 128 then [c] else upper_table c.
Definition toUpperCase (s : jstring) : jstring := s ≫= upper_char.

Definition lower_char (before : list Z) (c : Z) (after : list Z) : list Z :=
  if in_range c 65 90 then [c + 32] else if c <? 128 then [c] else lower_table before c after.
Fixpoint lower_from (before : list Z) (s : jstring) : jstring :=
  match s with
  | [] => []
  | c :: s' => lower_char before c s' ++ lower_from (c :: before) s'
  end.
Definition toLowerCase (s : jstring) : jstring := lower_from [] s.
End Case.

(** Tables that leave everything beyond ASCII alone. *)
Definition ascii_tables : CaseTables := {|
  upper_table c := [c];
  lower_table _ c _ := [c] |}.
#[export] Instance ascii_tables_laws : CaseTablesLaws ascii_tables.
Proof. split; intros; by apply Forall_singleton. Qed.

Example split_examples :
  split_comma (lit "a,,b,,") = [lit "a"; []; lit "b"] /\ split_comma (lit ",,") = [] /\
  split_comma [] = [[]] /\ split_spaces (lit "IL  62704") = [lit "IL"; lit "62704"] /\
  split_spaces (lit " x ") = [[]; lit "x"] /\ trim (lit " x y ") = lit "x y".
Proof. by_compute. Qed.

(** ** Lemmas *)

(** *** The wire *)

Lemma runes_encode rs : Forall scalar rs -> runes (getBytes rs) = rs.
Proof.
  induction 1 as [|r rs Hr _ IH]; [done|]. unfold getBytes. rewrite bind_cons.
  rewrite (runes_encoded r) by by apply EncodeRune_encoded. by rewrite <- IH at 2.
Qed.

Lemma getBytes_range rs : Forall scalar rs -> Forall is_byte (getBytes rs).
Proof.
  induction 1 as [|r rs Hr _ IH]; [constructor|]. unfold getBytes. rewrite bind_cons.
  apply Forall_app_2; [|done]. eapply encoded_bytes. by apply EncodeRune_encoded.
Qed.

Lemma java_of_go_of s : Forall scalar s -> java_of (go_of s) = s.
Proof.
  intros Hs. unfold java_of, go_of. rewrite bytes_of_string_of by by apply getBytes_range.
  by apply runes_encode.
Qed.

(** *** Pieces *)

Lemma strip_left_idem {A} (p : A -> bool) s : strip_left p (strip_left p s) = strip_left p s.
Proof. induction s as [|c s IH]; [done|]. simpl. destruct (p c) eqn:Hc; [done|]. simpl. by rewrite Hc. Qed.

Lemma strip_left_head {A} (p : A -> bool) s c s' : strip_left p s = c :: s' -> p c = false.
Proof. induction s as [|d s IH]; [done|]. simpl. destruct (p d) eqn:Hd; [done|]. by intros [= <- <-]. Qed.

Lemma strip_left_none {A} (p : A -> bool) s :
  match s with [] => True | c :: _ => p c = false end -> strip_left p s = s.
Proof. destruct s as [|c s]; [done|]. simpl. by intros ->. Qed.

Lemma strip_right_none {A} (p : A -> bool) s c : p c = false -> strip_right p (s ++ [c]) = s ++ [c].
Proof.
  intros Hc. unfold strip_right. rewrite reverse_app, reverse_singleton. simpl. rewrite Hc.
  by rewrite reverse_cons, reverse_involutive.
Qed.

Lemma pieces_none p s : Forall (λ c, p c = false) s -> pieces p s = [s].
Proof. induction 1 as [|c s Hc _ IH]; [done|]. simpl. by rewrite Hc, IH. Qed.

Lemma pieces_app p s c s' :
  Forall (λ c, p c = false) s -> p c = true -> pieces p (s ++ c :: s') = s :: pieces p s'.
Proof.
  induction 1 as [|d s Hd _ IH]; intros Hc; simpl; [by rewrite Hc|]. by rewrite Hd, IH.
Qed.

Lemma pieces_ne p s : pieces p s <> [].
Proof. destruct s as [|c s]; [done|]. simpl. destruct (p c); [done|]. by destruct (pieces p s). Qed.

Lemma run_pieces_ne p s : run_pieces p s <> [].
Proof.
  induction s as [|c s IH]; [done|]. simpl. destruct (p c); [|by destruct (run_pieces p s)].
  destruct s as [|c' s]; [done|]. by destruct (p c').
Qed.

(** *** Trimming *)

(** A string that starts and ends with visible characters. *)
Definition tight (s : jstring) : Prop :=
  match s with [] => False | c :: _ => trimmed c = false end /\
  match last s with None => False | Some c => trimmed c = false end.

Lemma trim_tight s : tight s -> trim s = s.
Proof.
  intros [Hh Hl]. unfold trim. destruct s as [|c s]; [done|].
  rewrite strip_left_none by done. destruct (exists_last (l := c :: s) ltac:(done)) as (s' & d & Heq).
  rewrite Heq in *. rewrite last_snoc in Hl. by apply strip_right_none.
Qed.

Lemma strip_left_all {A} (p : A -> bool) s t : Forall (λ c, p c = true) s -> strip_left p (s ++ t) = strip_left p t.
Proof. induction 1 as [|c s Hc _ IH]; [done|]. simpl. by rewrite Hc. Qed.

(** Whatever is at most U+0020 around it is dropped. *)
Lemma trim_outer before s after :
  Forall (λ c, c <= 0x20) before -> Forall (λ c, c <= 0x20) after -> tight s ->
  trim (before ++ s ++ after) = s.
Proof.
  intros Hb Ha Hs. rewrite <- (trim_tight s Hs) at 2. destruct Hs as [Hh _]. unfold trim, strip_right.
  assert (Hall : forall l, Forall (λ c, c <= 0x20) l -> Forall (λ c, trimmed c = true) l).
  { intros l Hl. eapply Forall_impl; [exact Hl|]. intros c Hc. by apply Z.leb_le. }
  rewrite strip_left_all by auto. destruct s as [|c s]; [done|].
  rewrite (strip_left_none _ ((c :: s) ++ after)) by exact Hh.
  rewrite (strip_left_none _ (c :: s)) by exact Hh. rewrite reverse_app, strip_left_all; [done|].
  by apply Hall, Forall_reverse.
Qed.

Lemma trim_space s : trim (32 :: s) = trim s.
Proof. done. Qed.

Lemma trim_not_blank s : existsb (λ c, negb (trimmed c)) s = true -> trim s <> [].
Proof.
  unfold trim. intros Hex Hnil.
  assert (Hl : strip_left trimmed s <> []).
  { clear Hnil. induction s as [|c s IH]; [done|]. simpl in *. destruct (trimmed c); [|done]. by apply IH. }
  destruct (strip_left trimmed s) as [|c s'] eqn:Hs; [done|]. apply strip_left_head in Hs.
  unfold strip_right in Hnil. apply (f_equal reverse) in Hnil. rewrite reverse_involutive in Hnil.
  assert (Hin : forall l, c ∈ l -> strip_left trimmed l <> []).
  { intros l. induction l as [|d l IH]; [by intros ?%not_elem_of_nil|]. simpl.
    destruct (trimmed d) eqn:Hd; [|done]. intros [->|?]%elem_of_cons; [congruence|auto]. }
  apply (Hin (reverse (c :: s'))); [|done]. rewrite elem_of_reverse. by left.
Qed.

(** *** Splitting *)

(** The words of a string, separated by single spaces, are its split. *)
Definition word (s : jstring) : Prop := s <> [] /\ Forall (λ c, regex_space c = false) s.

Lemma run_pieces_word s : Forall (λ c, regex_space c = false) s -> run_pieces regex_space s = [s].
Proof. induction 1 as [|c s Hc _ IH]; [done|]. simpl. by rewrite Hc, IH. Qed.

Lemma run_pieces_cons s c s' :
  Forall (λ c, regex_space c = false) s -> regex_space c = false ->
  run_pieces regex_space (s ++ 32 :: c :: s') = s :: run_pieces regex_space (c :: s').
Proof.
  intros Hs Hc. induction Hs as [|d s Hd _ IH].
  - change ([] ++ 32 :: c :: s') with (32 :: c :: s'). cbn [run_pieces]. by rewrite Hc.
  - cbn [app]. cbn [run_pieces]. rewrite Hd. cbn [run_pieces] in IH. by rewrite IH.
Qed.

Lemma run_pieces_join w ws :
  Forall word (w :: ws) -> run_pieces regex_space (join (lit " ") (w :: ws)) = w :: ws.
Proof.
  revert w. induction ws as [|w' ws IH]; intros w Hws.
  - apply Forall_singleton in Hws as [_ Hw]. by apply run_pieces_word.
  - apply Forall_cons in Hws as [[_ Hw] Hws]. pose proof (IH w' Hws) as IHw.
    apply Forall_cons in Hws as [[Hne Hw'] _].
    change (join (lit " ") (w :: w' :: ws)) with (w ++ 32 :: join (lit " ") (w' :: ws)).
    destruct w' as [|c w']; [done|]. apply Forall_cons in Hw' as [Hc _].
    destruct ws as [|w'' ws]; cbn [join app] in *; rewrite run_pieces_cons by done; by rewrite IHw.
Qed.

Lemma split_spaces_join ws : Forall word ws -> ws <> [] -> split_spaces (join (lit " ") ws) = ws.
Proof.
  destruct ws as [|w ws]; [done|]. intros Hws _. unfold split_spaces.
  rewrite run_pieces_join by done.
  destruct (exists_last (l := w :: ws) ltac:(done)) as (ws' & l & Heq).
  assert (Hstrip : strip_right is_empty (w :: ws) = w :: ws).
  { rewrite Heq in Hws |- *. apply Forall_app in Hws as [_ [[Hl _]]%Forall_cons].
    apply strip_right_none. by destruct l. }
  rewrite Hstrip. destruct (existsb regex_space _) eqn:Hex; [done|].
  destruct ws as [|w' ws]; [done|]. exfalso.
  change (join (lit " ") (w :: w' :: ws)) with (w ++ 32 :: join (lit " ") (w' :: ws)) in Hex.
  rewrite existsb_app in Hex. simpl in Hex. by rewrite orb_true_r in Hex.
Qed.

(** *** Case *)

Lemma toUpperCase_app `{CaseTables} s t : toUpperCase (s ++ t) = toUpperCase s ++ toUpperCase t.
Proof. apply bind_app. Qed.

Lemma upper_char_scalar `{CaseTablesLaws} c : scalar c -> Forall scalar (upper_char c).
Proof.
  intros Hc. unfold upper_char, in_range.
  destruct (Z.leb_spec 97 c), (Z.leb_spec c 122), (c <? 128); simpl;
    first [by apply upper_scalar|apply Forall_singleton; first [done|unfold scalar in *; lia]].
Qed.

Lemma toUpperCase_scalar `{CaseTablesLaws} s : Forall scalar s -> Forall scalar (toUpperCase s).
Proof. intros Hs. apply Forall_bind. eapply Forall_impl; [exact Hs|]. apply upper_char_scalar. Qed.

Lemma lower_char_scalar `{CaseTablesLaws} before c after :
  scalar c -> Forall scalar (lower_char before c after).
Proof.
  intros Hc. unfold lower_char, in_range.
  destruct (Z.leb_spec 65 c), (Z.leb_spec c 90), (c <? 128); simpl;
    first [by apply lower_scalar|apply Forall_singleton; first [done|unfold scalar in *; lia]].
Qed.

Lemma lower_from_scalar `{CaseTablesLaws} before s :
  Forall scalar s -> Forall scalar (lower_from before s).
Proof.
  intros Hs. revert before. induction Hs as [|c s Hc _ IH]; intros before; [constructor|].
  simpl. apply Forall_app_2; [by apply lower_char_scalar|apply IH].
Qed.

Lemma Forall_strip_left {A} (P : A -> Prop) p s : Forall P s -> Forall P (strip_left p s).
Proof. induction 1 as [|c s Hc Hs IH]; [done|]. simpl. destruct (p c); [done|by constructor]. Qed.

Lemma Forall_trim P s : Forall P s -> Forall P (trim s).
Proof.
  intros Hs. unfold trim, strip_right. by apply Forall_reverse, Forall_strip_left, Forall_reverse, Forall_strip_left.
Qed.

Lemma Forall_strip_right {A} (P : A -> Prop) p s : Forall P s -> Forall P (strip_right p s).
Proof. intros Hs. by apply Forall_reverse, Forall_strip_left, Forall_reverse. Qed.

Lemma Forall_pieces (P : Z -> Prop) p s : Forall P s -> Forall (Forall P) (pieces p s).
Proof.
  induction 1 as [|c s Hc Hs IH]; simpl; [by repeat constructor|].
  destruct (p c); [by constructor|]. destruct IH as [|x xs]; [by repeat constructor|].
  constructor; [by constructor|done].
Qed.

Lemma Forall_run_pieces (P : Z -> Prop) p s : Forall P s -> Forall (Forall P) (run_pieces p s).
Proof.
  induction 1 as [|c s Hc Hs IH]; simpl; [by repeat constructor|].
  destruct (p c); [destruct s as [|c' s]; [|destruct (p c')]; by repeat constructor|].
  destruct IH as [|x xs]; [by repeat constructor|]. constructor; [by constructor|done].
Qed.

Lemma Forall_split_comma (P : Z -> Prop) s : Forall P s -> Forall (Forall P) (split_comma s).
Proof.
  intros Hs. unfold split_comma. case_match; [by apply Forall_strip_right, Forall_pieces|by apply Forall_singleton].
Qed.

Lemma Forall_split_spaces (P : Z -> Prop) s : Forall P s -> Forall (Forall P) (split_spaces s).
Proof.
  intros Hs. unfold split_spaces.
  case_match; [by apply Forall_strip_right, Forall_run_pieces|by apply Forall_singleton].
Qed.

Lemma Forall_join (P : Z -> Prop) sep ws :
  Forall P sep -> Forall (Forall P) ws -> Forall P (join sep ws).
Proof.
  intros Hsep. induction 1 as [|w ws Hw _ IH]; [constructor|].
  destruct ws as [|w' ws]; [done|]. by repeat apply Forall_app_2.
Qed.
