(* ===== verification/Sha256.v ===== *)
(** * SHA-256, as [java.security.MessageDigest] computes it (FIPS 180-4)

    Words are integers modulo [2 ^ 32].  The round constants and the initial
    state are computed from their definition, the fractional parts of the roots
    of the first primes. *)

From S2P Require Import Prelude GoStrings.

(** ** Words *)

Definition w32 (x : Z) : Z := x mod 2 ^ 32.
Definition rotr (n x : Z) : Z := Z.lor (Z.shiftr x n) (w32 (Z.shiftl x (32 - n))).

Definition choose (x y z : Z) : Z := Z.lxor (Z.land x y) (Z.land (Z.lxor x (2 ^ 32 - 1)) z).
Definition majority (x y z : Z) : Z := Z.lxor (Z.lxor (Z.land x y) (Z.land x z)) (Z.land y z).
Definition big_sigma0 (x : Z) : Z := Z.lxor (Z.lxor (rotr 2 x) (rotr 13 x)) (rotr 22 x).
Definition big_sigma1 (x : Z) : Z := Z.lxor (Z.lxor (rotr 6 x) (rotr 11 x)) (rotr 25 x).
Definition small_sigma0 (x : Z) : Z := Z.lxor (Z.lxor (rotr 7 x) (rotr 18 x)) (Z.shiftr x 3).
Definition small_sigma1 (x : Z) : Z := Z.lxor (Z.lxor (rotr 17 x) (rotr 19 x)) (Z.shiftr x 10).

(** ** Constants *)

(** The integer [k]-th root of [n], built from its bits below [2 ^ bits]. *)
Fixpoint iroot (bits : nat) (k n r : Z) : Z :=
  match bits with
  | O => r
  | S bits' =>
      let r' := r + 2 ^ Z.of_nat bits' in
      iroot bits' k n (if r' ^ k <=? n then r' else r)
  end.
(** The first 32 bits of the fractional part of the [k]-th root of [p]. *)
Definition frac_root (k p : Z) : Z := w32 (iroot 40 k (p * 2 ^ (32 * k)) 0).

Definition is_prime (p : Z) : bool := forallb (λ d, negb (p mod d =? 0)) (seqZ 2 (p - 2)).
Definition primes : list Z := List.filter is_prime (seqZ 2 310).

Definition round_constants : list Z := Eval vm_compute in frac_root 3 <$> primes.

(** The eight words of the state. *)
Record hash_state := mkState { ha : Z; hb : Z; hc : Z; hd : Z; he : Z; hf : Z; hg : Z; hh : Z }.
Definition initial_state : hash_state :=
  Eval vm_compute in
  match frac_root 2 <$> take 8 primes with
  | [a; b; c; d; e; f; g; h] => mkState a b c d e f g h
  | _ => mkState 0 0 0 0 0 0 0 0
  end.

(** ** Padding *)

(** [n] bytes, most significant first. *)
Fixpoint be_bytes (n : nat) (x : Z) : list Z :=
  match n with
  | O => []
  | S n' => x / 256 ^ Z.of_nat n' mod 256 :: be_bytes n' x
  end.

Definition pad (msg : list Z) : list Z :=
  let len := Z.of_nat (length msg) in
  msg ++ [128] ++ replicate (Z.to_nat ((55 - len) mod 64)) 0 ++ be_bytes 8 (8 * len).

Fixpoint be_words (bs : list Z) : list Z :=
  match bs with
  | a :: b :: c :: d :: bs' => (((a * 256 + b) * 256 + c) * 256 + d) :: be_words bs'
  | _ => []
  end.

(** ** Compression *)

(** The message schedule, latest word first. *)
Fixpoint extend (n : nat) (ws : list Z) : list Z :=
  match n with
  | O => ws
  | S n' =>
      let w := λ t, nth (t - 1) ws 0 in
      extend n' (w32 (small_sigma1 (w 2%nat) + w 7%nat + small_sigma0 (w 15%nat) + w 16%nat) :: ws)
  end.
Definition schedule (block : list Z) : list Z := rev (extend 48 (rev block)).

Definition sha_round (s : hash_state) (kw : Z * Z) : hash_state :=
  let t1 := hh s + big_sigma1 (he s) + choose (he s) (hf s) (hg s) + kw.1 + kw.2 in
  let t2 := big_sigma0 (ha s) + majority (ha s) (hb s) (hc s) in
  mkState (w32 (t1 + t2)) (ha s) (hb s) (hc s) (w32 (hd s + t1)) (he s) (hf s) (hg s).

Definition add_state (s t : hash_state) : hash_state :=
  mkState (w32 (ha s + ha t)) (w32 (hb s + hb t)) (w32 (hc s + hc t)) (w32 (hd s + hd t))
    (w32 (he s + he t)) (w32 (hf s + hf t)) (w32 (hg s + hg t)) (w32 (hh s + hh t)).

Definition compress (s : hash_state) (block : list Z) : hash_state :=
  add_state s (foldl sha_round s (zip round_constants (schedule block))).

(** The blocks of 16 words; a fuel of the number of words is enough. *)
Fixpoint digest_blocks (fuel : nat) (s : hash_state) (ws : list Z) : hash_state :=
  match fuel, ws with
  | S fuel', _ :: _ => digest_blocks fuel' (compress s (take 16 ws)) (drop 16 ws)
  | _, _ => s
  end.

(** [MessageDigest.getInstance("SHA-256").digest(msg)]. *)
Definition sha256 (msg : list Z) : list Z :=
  let ws := be_words (pad msg) in
  let s := digest_blocks (length ws) initial_state ws in
  [ha s; hb s; hc s; hd s; he s; hf s; hg s; hh s] ≫= be_bytes 4.

(** ** Lemmas *)

Example constants_count : length round_constants = 64%nat.
Proof. by_compute. Qed.

(** The examples of FIPS 180-4, of one and of two blocks. *)
Example sha256_abc :
  hex_EncodeToString (sha256 (bytes_of "abc")) =
    "ba7816bf8f01cfea414140de5dae2223b00361a396177a9cb410ff61f20015ad"%string.
Proof. by_compute. Qed.
Example sha256_two_blocks :
  hex_EncodeToString (sha256 (bytes_of "abcdbcdecdefdefgefghfghighijhijkijkljklmklmnlmnomnopnopq")) =
    "248d6a61d20638b8e5c026930c3e6039a33ce45964ff2167f6ecedd419db06c1"%string.
Proof. by_compute. Qed.

Lemma be_bytes_length n x : length (be_bytes n x) = n.
Proof. induction n as [|n IH]; simpl; congruence. Qed.

Lemma be_bytes_range n x : Forall is_byte (be_bytes n x).
Proof.
  induction n as [|n IH]; [constructor|]. cbn [be_bytes]. constructor; [|done].
  unfold is_byte. pose proof (Z.mod_pos_bound (x / 256 ^ Z.of_nat n) 256). lia.
Qed.

(** The padded message is a whole number of 64-byte blocks. *)
Lemma pad_length msg : Z.of_nat (length (pad msg)) mod 64 = 0.
Proof.
  unfold pad. rewrite !length_app, length_replicate, be_bytes_length. cbn [length].
  set (n := Z.of_nat (length msg)).
  rewrite !Nat2Z.inj_add, Z2Nat.id by (apply Z.mod_pos_bound; lia). fold n.
  pose proof (Z.div_mod (55 - n) 64 ltac:(lia)). apply Z.mod_divide; [lia|].
  exists (- ((55 - n) / 64) + 1). lia.
Qed.

Lemma sha256_length msg : length (sha256 msg) = 32%nat.
Proof. unfold sha256. simpl. by rewrite ?length_app, ?be_bytes_length. Qed.

Lemma sha256_range msg : Forall is_byte (sha256 msg).
Proof.
  unfold sha256. generalize (digest_blocks (length (be_words (pad msg))) initial_state (be_words (pad msg))).
  intros s. apply Forall_bind. apply Forall_forall. intros x _. apply be_bytes_range.
Qed.

(** Digests are evaluated by [vm_compute] only. *)
Arguments sha256 : simpl never.
