(* ===== verification/JavaServices.v ===== *)
(** * The three enrichment services: their logic

    [ClaimantIdHasher], [AddressNormalizer] and [PolicyLookup], the classes of
    the Java services that are free of gRPC and Spring.  A Java reference is an
    [option]: [None] is [null]. *)

From S2P Require Import Prelude GoStrings Utf8 JavaStrings Sha256.

(** ** claimant-id-hashing-svc: ClaimantIdHasher.java *)
Module ClaimantIdHasher.
Section Hasher.
Context `{CaseTables}.

Definition STATIC_SALT : jstring := lit "claim-fraud-platform-dev-salt-v1".

(** The [NoSuchAlgorithmException] of the source cannot happen: every JVM has
    SHA-256. *)
Definition hash (claimantName : option jstring) : jstring :=
  match claimantName with
  | None => []
  | Some claimantName =>
      if isBlank claimantName then []
      else
        let normalized := toLowerCase (trim claimantName) in
        let hashed := sha256 (getBytes (STATIC_SALT ++ normalized)) in
        lit (hex_EncodeToString hashed)
  end.
End Hasher.
End ClaimantIdHasher.

(** ** address-normalization-svc: AddressNormalizer.java *)
Module AddressNormalizer.

Record Normalized := mkNormalized {
  normalizedAddress : jstring;
  line1 : jstring;
  city : jstring;
  state : jstring;
  postalCode : jstring;
  country : jstring;
  valid : bool }.

Section Normalizer.
Context `{CaseTables}.

Definition DEFAULT_COUNTRY : jstring := lit "US".

(** The last element, and all the others. *)
Definition last_or_empty (parts : list jstring) : jstring := default [] (last parts).
Definition but_last (parts : list jstring) : list jstring := take (length parts - 1) parts.

Definition normalize (rawAddress : option jstring) : Normalized :=
  match rawAddress with
  | None => mkNormalized [] [] [] [] [] [] false
  | Some rawAddress =>
      if isBlank rawAddress then mkNormalized [] [] [] [] [] [] false
      else
        let parts := split_comma rawAddress in
        match parts with
        | part0 :: part1 :: part2 :: _ =>
            let line1 := toUpperCase (trim part0) in
            let city := toUpperCase (trim part1) in
            let stateZip := split_spaces (trim part2) in
            let postalCode :=
              if (0 <? length stateZip)%nat then toUpperCase (last_or_empty stateZip) else [] in
            let state :=
              if (1 <? length stateZip)%nat then toUpperCase (join (lit " ") (but_last stateZip))
              else [] in
            let fields := [line1; city] in
            let fields := if negb (isBlank state) then fields ++ [state] else fields in
            let fields := if negb (isBlank postalCode) then fields ++ [postalCode] else fields in
            let fields := fields ++ [DEFAULT_COUNTRY] in
            let normalizedAddress := join (lit ", ") fields in
            let valid := negb (isBlank line1) && negb (isBlank city) && negb (isBlank state)
                         && negb (isBlank postalCode) in
            mkNormalized normalizedAddress line1 city state postalCode DEFAULT_COUNTRY valid
        | _ =>
            let cleaned := toUpperCase (trim rawAddress) in
            mkNormalized cleaned cleaned [] [] [] [] false
        end
  end.
End Normalizer.
End AddressNormalizer.

(** ** policy-lookup-svc: PolicyLookup.java *)
Module PolicyLookup.

Record Result := mkResult { found : bool; status : jstring; coverageType : jstring }.
Definition notFound : Result := mkResult false (lit "unknown") [].

Definition KNOWN_POLICIES : gmap jstring Result :=
  {[ lit "POL-123456" := mkResult true (lit "active") (lit "full");
     lit "POL-654321" := mkResult true (lit "lapsed") (lit "liability_only");
     lit "POL-000000" := mkResult true (lit "cancelled") (lit "full") ]}.

Section Lookup.
Context `{CaseTables}.

Definition lookup (policyNumber : option jstring) : Result :=
  match policyNumber with
  | None => notFound
  | Some policyNumber =>
      if isBlank policyNumber then notFound
      else default notFound (KNOWN_POLICIES !! toUpperCase (trim policyNumber))
  end.
End Lookup.
End PolicyLookup.

(** The cases of the services' own tests. *)
Example hash_jane :
  ClaimantIdHasher.hash (H := ascii_tables) (Some (lit "  Jane DOE ")) =
    lit "7b9d77204ff21b167f8936bf0deefef40eee95574b6c9432fa890e5b6135065f".
Proof. by_compute. Qed.
Example normalize_well_formed :
  AddressNormalizer.normalize (H := ascii_tables) (Some (lit "123 Main St, Springfield, IL 62704")) =
    AddressNormalizer.mkNormalized (lit "123 MAIN ST, SPRINGFIELD, IL, 62704, US") (lit "123 MAIN ST")
      (lit "SPRINGFIELD") (lit "IL") (lit "62704") (lit "US") true.
Proof. by_compute. Qed.
Example normalize_unparseable :
  AddressNormalizer.normalize (H := ascii_tables) (Some (lit "not a real address")) =
    AddressNormalizer.mkNormalized (lit "NOT A REAL ADDRESS") (lit "NOT A REAL ADDRESS") [] [] [] [] false.
Proof. by_compute. Qed.
Example lookup_insensitive :
  PolicyLookup.lookup (H := ascii_tables) (Some (lit " pol-123456")) =
    PolicyLookup.mkResult true (lit "active") (lit "full").
Proof. by_compute. Qed.
