(* ===== verification/JavaServiceFacts.v ===== *)
(** * What the enrichment services compute

    The contract of the claimant hash, the addresses that the normalizer
    understands, and the answers of the policy lookup. *)

From S2P Require Import Prelude GoStrings Utf8 JavaStrings Sha256 JavaServices.

(** ** The claimant hash *)
Section Hash.
Context `{CaseTablesLaws}.

(** The form of a name that the hash identifies. *)
Definition claimant_form (name : jstring) : jstring := toLowerCase (trim name).
Definition salted (name : jstring) : list Z := getBytes (ClaimantIdHasher.STATIC_SALT ++ claimant_form name).

Lemma getBytes_inj s t : Forall scalar s -> Forall scalar t -> getBytes s = getBytes t -> s = t.
Proof. intros Hs Ht Heq. rewrite <- (runes_encode s), <- (runes_encode t) by done. by rewrite Heq. Qed.

Lemma salt_scalar : Forall scalar ClaimantIdHasher.STATIC_SALT.
Proof. apply (bool_decide_unpack _). by_compute. Qed.

Lemma form_scalar name : Forall scalar name -> Forall scalar (claimant_form name).
Proof. intros Hn. by apply lower_from_scalar, Forall_trim. Qed.

Lemma hash_nonblank name :
  isBlank name = false ->
  ClaimantIdHasher.hash (Some name) = lit (hex_EncodeToString (sha256 (salted name))).
Proof. intros Hb. unfold ClaimantIdHasher.hash. by rewrite Hb. Qed.

Lemma length_bytes_of s : length (bytes_of s) = String.length s.
Proof. unfold bytes_of. rewrite length_fmap. induction s; simpl; congruence. Qed.

(** C23: the hash of a claimant: empty for a missing or blank name, else 64
    hexadecimal digits, those of the SHA-256 digest of the salted name.  Names
    that agree up to case and surrounding spaces have the same hash, and names
    that do not are told apart unless SHA-256 itself collides on them. *)
Theorem hash_identifies name name' :
  Forall scalar name -> Forall scalar name' -> isBlank name = false -> isBlank name' = false ->
  let h := ClaimantIdHasher.hash (Some name) in
  let h' := ClaimantIdHasher.hash (Some name') in
  length h = 64%nat /\ hex_decode h = sha256 (salted name) /\
  (claimant_form name = claimant_form name' -> h = h') /\
  (h = h' -> claimant_form name = claimant_form name' \/
             (salted name <> salted name' /\ sha256 (salted name) = sha256 (salted name'))).
Proof.
  intros Hn Hn' Hb Hb'. cbv zeta. rewrite !hash_nonblank by done. unfold lit.
  split_and!.
  - rewrite length_bytes_of, length_hex_EncodeToString. by rewrite sha256_length.
  - apply hex_decode_encode, sha256_range.
  - unfold salted. by intros ->.
  - intros Heq. destruct (decide (claimant_form name = claimant_form name')) as [|Hne]; [by left|right].
    split.
    + intros Hs. apply Hne, (app_inv_head ClaimantIdHasher.STATIC_SALT), getBytes_inj; [..|exact Hs];
        apply Forall_app_2; auto using salt_scalar, form_scalar.
    + rewrite <- (hex_decode_encode (sha256 (salted name))), Heq by apply sha256_range.
      apply hex_decode_encode, sha256_range.
Qed.
End Hash.

(** ** The policy lookup *)
Section Lookup.
Context `{CaseTables}.

(** The key under which a policy number is looked up. *)
Definition policy_key (number : jstring) : jstring := toUpperCase (trim number).

Lemma known_policy key r :
  PolicyLookup.KNOWN_POLICIES !! key = Some r ->
  r ∈ [PolicyLookup.mkResult true (lit "active") (lit "full");
       PolicyLookup.mkResult true (lit "lapsed") (lit "liability_only");
       PolicyLookup.mkResult true (lit "cancelled") (lit "full")].
Proof.
  unfold PolicyLookup.KNOWN_POLICIES. intros Hr.
  repeat (apply lookup_insert_Some in Hr as [[_ <-]|[_ Hr]]; [set_solver|]).
  apply lookup_singleton_Some in Hr as [_ <-]. set_solver.
Qed.

(** An answer is the unknown policy or the one of the key. *)
Lemma lookup_answers number :
  PolicyLookup.lookup number = PolicyLookup.notFound \/
  exists n, number = Some n /\ isBlank n = false /\
    PolicyLookup.KNOWN_POLICIES !! policy_key n = Some (PolicyLookup.lookup number).
Proof.
  destruct number as [n|]; [|by left]. unfold PolicyLookup.lookup.
  destruct (isBlank n) eqn:Hb; [by left|]. fold (policy_key n).
  destruct (PolicyLookup.KNOWN_POLICIES !! policy_key n) as [r|] eqn:Hr; [right|by left]. by exists n.
Qed.

(** C25: every policy that the service knows is found, with its own status and
    coverage, in any case its number is written and whatever spaces and control
    characters surround it; any other number has the status [unknown] and no
    coverage, and so has a blank or a missing one. *)
Theorem lookup_cases before number after :
  Forall (λ c, c <= 0x20) before -> Forall (λ c, c <= 0x20) after -> tight number -> isBlank number = false ->
  let r := PolicyLookup.lookup (Some (before ++ number ++ after)) in
  let unknown := PolicyLookup.mkResult false (lit "unknown") [] in
  (toUpperCase number = lit "POL-123456" -> r = PolicyLookup.mkResult true (lit "active") (lit "full")) /\
  (toUpperCase number = lit "POL-654321" -> r = PolicyLookup.mkResult true (lit "lapsed") (lit "liability_only")) /\
  (toUpperCase number = lit "POL-000000" -> r = PolicyLookup.mkResult true (lit "cancelled") (lit "full")) /\
  (toUpperCase number ∉ [lit "POL-123456"; lit "POL-654321"; lit "POL-000000"] -> r = unknown) /\
  (forall blank, isBlank blank = true -> PolicyLookup.lookup (Some blank) = unknown) /\
  PolicyLookup.lookup None = unknown.
Proof.
  intros Hb Ha Ht Hnb. cbv zeta.
  assert (Hr : PolicyLookup.lookup (Some (before ++ number ++ after)) =
            default PolicyLookup.notFound (PolicyLookup.KNOWN_POLICIES !! toUpperCase number)).
  { unfold PolicyLookup.lookup. rewrite (trim_outer before number after Hb Ha Ht).
    assert (Hnot : isBlank (before ++ number ++ after) = false); [|by rewrite Hnot].
    unfold isBlank in *. by rewrite !forallb_app, Hnb, andb_false_r. }
  rewrite Hr. split_and!; try (intros ->; by_compute).
  - intros Hnot. rewrite !not_elem_of_cons in Hnot. destruct Hnot as (H1 & H2 & H3 & _).
    unfold PolicyLookup.KNOWN_POLICIES. rewrite !lookup_insert_ne by congruence.
    by rewrite lookup_singleton_ne by congruence.
  - intros blank Hblank. unfold PolicyLookup.lookup. by rewrite Hblank.
  - done.
Qed.
End Lookup.

(** ** The address normalizer *)

Lemma strip_left_app {A} (p : A -> bool) s x t :
  p x = false -> strip_left p (s ++ x :: t) = strip_left p s ++ x :: t.
Proof. intros Hx. induction s as [|c s IH]; simpl; [by rewrite Hx|]. by destruct (p c). Qed.

Lemma strip_right_app {A} (p : A -> bool) s x t :
  p x = false -> strip_right p (s ++ x :: t) = s ++ x :: strip_right p t.
Proof.
  intros Hx. unfold strip_right.
  rewrite reverse_app, reverse_cons, <- app_assoc. simpl.
  rewrite strip_left_app by done. rewrite reverse_app, reverse_cons, reverse_involutive.
  by rewrite <- app_assoc.
Qed.

Lemma join_snoc sep ws z : ws <> [] -> join sep (ws ++ [z]) = join sep ws ++ sep ++ z.
Proof.
  induction ws as [|w ws IH]; [done|]. intros _. destruct ws as [|w' ws]; [done|].
  change (w ++ sep ++ join sep ((w' :: ws) ++ [z]) = (w ++ sep ++ join sep (w' :: ws)) ++ sep ++ z).
  rewrite IH by done. by rewrite <- !app_assoc.
Qed.

Section Normalize.
Context `{CaseTables}.

(** Printable ASCII without a comma, and the same without spaces. *)
Definition printable (c : Z) : Prop := 0x20 <= c <= 0x7E /\ c <> 44.
Definition graphic (c : Z) : Prop := 0x21 <= c <= 0x7E /\ c <> 44.

(** A line or a city, and a word of the state or the postal code. *)
Definition component (s : jstring) : Prop := Forall printable s /\ tight s.
Definition token (s : jstring) : Prop := s <> [] /\ Forall graphic s.

Lemma upper_graphic c : graphic c -> exists c', upper_char c = [c'] /\ isWhitespace c' = false.
Proof.
  intros [Hc _]. unfold upper_char, in_range.
  assert (Hall : forallb (λ c, negb (isWhitespace (if (97 <=? c) && (c <=? 122) then c - 32 else c)))
                   (seqZ 0x21 0x5E) = true) by by_compute.
  pose proof (forallb_seqZ _ _ _ Hall c ltac:(lia)) as Hw. cbv beta in Hw. apply negb_true_iff in Hw.
  destruct ((97 <=? c) && (c <=? 122)); [by eexists|].
  destruct (Z.ltb_spec c 128); [by eexists|lia].
Qed.

Lemma upper_not_blank c s : graphic c -> isBlank (toUpperCase (c :: s)) = false.
Proof.
  intros Hc. unfold toUpperCase. rewrite bind_cons. destruct (upper_graphic c Hc) as (c' & -> & Hw).
  unfold isBlank. simpl. by rewrite Hw.
Qed.

Lemma tight_head s : component s -> exists c s', s = c :: s' /\ graphic c.
Proof.
  intros [Hp [Hh _]]. destruct s as [|c s]; [done|]. apply Forall_cons in Hp as [[? ?] _].
  exists c, s. split; [done|]. unfold trimmed in Hh. unfold graphic. lia.
Qed.

Lemma component_not_blank s : component s -> isBlank (toUpperCase s) = false.
Proof. intros (c & s' & -> & Hc)%tight_head. by apply upper_not_blank. Qed.

Lemma graphic_printable s : Forall graphic s -> Forall printable s.
Proof. intros Hs. eapply Forall_impl; [exact Hs|]. unfold graphic, printable. lia. Qed.

Lemma token_word s : token s -> word s.
Proof.
  intros [Hne Hs]. split; [done|]. eapply Forall_impl; [exact Hs|]. unfold graphic, regex_space, in_range. lia.
Qed.

Lemma printable_no_comma s : Forall printable s -> Forall (λ c, Z.eqb 44 c = false) s.
Proof. intros Hs. eapply Forall_impl; [exact Hs|]. unfold printable. lia. Qed.

(** The state and the postal code as they are written. *)
Lemma tokens_component ts : Forall token ts -> ts <> [] -> component (join (lit " ") ts).
Proof.
  intros Hts Hne. split.
  - apply Forall_join; [apply (bool_decide_unpack _); by_compute|].
    eapply Forall_impl; [exact Hts|]. intros t [_ Ht]. by apply graphic_printable.
  - split.
    + destruct ts as [|[|c t] ts]; [done|by apply Forall_cons in Hts as [[? _] _]|].
      apply Forall_cons in Hts as [[_ [[? _] _]%Forall_cons] _].
      unfold trimmed. destruct ts; simpl; lia.
    + destruct (exists_last Hne) as (ts' & t & ->). apply Forall_app in Hts as [_ [[Ht Hg] _]%Forall_cons].
      destruct (exists_last Ht) as (t' & c & ->). apply Forall_app in Hg as [_ [[? _] _]%Forall_cons].
      destruct ts' as [|u ts']; [simpl; rewrite last_snoc; unfold trimmed; lia|].
      rewrite join_snoc by done. rewrite !app_assoc, last_snoc. unfold trimmed. lia.
Qed.

(** The three first pieces of an address of that form. *)
Lemma split_comma_three l c p rest :
  component l -> component c -> component p -> rest = [] \/ (exists r, rest = 44 :: r) ->
  exists more, split_comma (l ++ lit ", " ++ c ++ lit ", " ++ p ++ rest)
               = l :: (32 :: c) :: (32 :: p) :: more.
Proof.
  intros [Hl _] [Hc _] Hp Hrest. unfold split_comma.
  assert (Hex : existsb (Z.eqb 44) (l ++ lit ", " ++ c ++ lit ", " ++ p ++ rest) = true).
  { rewrite existsb_app. change (lit ", " ++ c ++ lit ", " ++ p ++ rest) with (44 :: 32 :: c ++ lit ", " ++ p ++ rest).
    simpl. by rewrite orb_true_r. }
  rewrite Hex. change (lit ", " ++ c ++ lit ", " ++ p ++ rest) with (44 :: 32 :: c ++ 44 :: 32 :: p ++ rest).
  rewrite pieces_app by (done || by apply printable_no_comma).
  change (32 :: c ++ 44 :: 32 :: p ++ rest) with ((32 :: c) ++ 44 :: 32 :: p ++ rest).
  rewrite pieces_app by (done || (constructor; [done|by apply printable_no_comma])).
  assert (Hpp : exists more, pieces (Z.eqb 44) (32 :: p ++ rest) = (32 :: p) :: more).
  { destruct Hp as [Hp _]. destruct Hrest as [->|(r & ->)].
    - rewrite app_nil_r. exists []. apply pieces_none. constructor; [done|by apply printable_no_comma].
    - change (32 :: p ++ 44 :: r) with ((32 :: p) ++ 44 :: r).
      rewrite pieces_app by (done || (constructor; [done|by apply printable_no_comma])). by eexists. }
  destruct Hpp as (more & ->). exists (strip_right is_empty more).
  by apply (strip_right_app is_empty [l; 32 :: c] (32 :: p) more).
Qed.

(** C24: an address in the form that the service understands, [line1, city,
    state words postal-code] with anything after a further comma, is taken
    apart into exactly those fields, in upper case, and is valid; its
    normalized address lists them with the country. *)
Theorem normalize_formatted l c ws z rest :
  component l -> component c -> Forall token ws -> ws <> [] -> token z ->
  rest = [] \/ (exists r, rest = 44 :: r) ->
  let up := toUpperCase in
  let st := up (join (lit " ") ws) in
  AddressNormalizer.normalize
      (Some (l ++ lit ", " ++ c ++ lit ", " ++ (join (lit " ") ws ++ lit " " ++ z) ++ rest)) =
    AddressNormalizer.mkNormalized (join (lit ", ") [up l; up c; st; up z; lit "US"])
      (up l) (up c) st (up z) (lit "US") true.
Proof.
  intros Hl Hc Hws Hne Hz Hrest. cbv zeta. rewrite <- join_snoc by done.
  assert (Hts : Forall token (ws ++ [z])) by (by apply Forall_app_2; [|apply Forall_singleton]).
  assert (Hp : component (join (lit " ") (ws ++ [z]))) by (apply tokens_component; [done|by destruct ws]).
  destruct (split_comma_three l c _ rest Hl Hc Hp Hrest) as (more & Hsplit).
  unfold AddressNormalizer.normalize.
  rewrite Hsplit. rewrite !trim_space, !trim_tight by (apply Hl || apply Hc || apply Hp).
  rewrite split_spaces_join.
  2: { eapply Forall_impl; [exact Hts|]. apply token_word. }
  2: { by destruct ws. }
  unfold AddressNormalizer.last_or_empty, AddressNormalizer.but_last.
  rewrite last_snoc, length_app. cbn [length default].
  replace (length ws + 1 - 1)%nat with (length ws) by lia. rewrite take_app_length.
  assert (Hlen : (1 < length ws + 1)%nat) by (destruct ws; [done|simpl; lia]).
  rewrite !(proj2 (Nat.ltb_lt _ _)) by lia.
  assert (Hlb : isBlank (l ++ lit ", " ++ c ++ lit ", " ++ join (lit " ") (ws ++ [z]) ++ rest) = false).
  { destruct (tight_head l Hl) as (d & l' & -> & Hd). unfold isBlank. simpl.
    unfold graphic in Hd. unfold isWhitespace, in_range. lia. }
  rewrite Hlb.
  assert (Hwsc : component (join (lit " ") ws)) by (by apply tokens_component).
  assert (Hzc : component z) by (apply (tokens_component [z]); [by apply Forall_singleton|done]).
  by rewrite !component_not_blank.
Qed.
End Normalize.

(** A normalized address is well-formed. *)
Lemma normalize_scalar `{CaseTablesLaws} s :
  Forall scalar s -> Forall scalar (AddressNormalizer.normalizedAddress (AddressNormalizer.normalize (Some s))).
Proof.
  intros Hs. unfold AddressNormalizer.normalize. destruct (isBlank s); [constructor|].
  pose proof (Forall_split_comma scalar s Hs) as Hparts.
  destruct (split_comma s) as [|p0 [|p1 [|p2 ps]]]; simpl; [by apply toUpperCase_scalar, Forall_trim..|].
  apply Forall_cons in Hparts as [H0 [H1 [H2 _]%Forall_cons]%Forall_cons].
  pose proof (Forall_split_spaces scalar (trim p2) (Forall_trim _ _ H2)) as Hsz.
  set (sz := split_spaces (trim p2)) in *.
  assert (Hpostal : Forall scalar (toUpperCase (AddressNormalizer.last_or_empty sz))).
  { apply toUpperCase_scalar. unfold AddressNormalizer.last_or_empty.
    destruct (last sz) as [z|] eqn:Hz; [|constructor]. apply last_Some_elem_of in Hz.
    by eapply Forall_forall in Hsz. }
  assert (Hstate : Forall scalar (toUpperCase (join (lit " ") (AddressNormalizer.but_last sz)))).
  { apply toUpperCase_scalar, Forall_join; [apply (bool_decide_unpack _); by_compute|by apply Forall_take]. }
  apply Forall_join; [apply (bool_decide_unpack _); by_compute|].
  repeat case_match; simpl; repeat constructor; try done; try (by apply toUpperCase_scalar, Forall_trim);
    try (apply (bool_decide_unpack _); by_compute).
Qed.

(** ** Concrete inputs *)

Lemma hash_identifies_witness :
  let name := lit "  Jane DOE " in
  let name' := lit "jane doe" in
  let h := ClaimantIdHasher.hash (H := ascii_tables) (Some name) in
  let h' := ClaimantIdHasher.hash (H := ascii_tables) (Some name') in
  length h = 64%nat /\ hex_decode h = sha256 (salted (T := ascii_tables) name) /\
  (claimant_form (T := ascii_tables) name = claimant_form (T := ascii_tables) name' -> h = h') /\
  (h = h' -> claimant_form (T := ascii_tables) name = claimant_form (T := ascii_tables) name' \/
             (salted (T := ascii_tables) name <> salted (T := ascii_tables) name' /\
              sha256 (salted (T := ascii_tables) name) = sha256 (salted (T := ascii_tables) name'))).
Proof. apply hash_identifies; try reflexivity; apply (bool_decide_unpack _); by_compute. Defined.

Lemma normalize_formatted_witness :
  AddressNormalizer.normalize (H := ascii_tables) (Some (lit "1 Pine Rd, Saint Paul, New Mexico 87501, usa")) =
    AddressNormalizer.mkNormalized (lit "1 PINE RD, SAINT PAUL, NEW MEXICO, 87501, US")
      (lit "1 PINE RD") (lit "SAINT PAUL") (lit "NEW MEXICO") (lit "87501") (lit "US") true.
Proof.
  apply (normalize_formatted (H := ascii_tables) (lit "1 Pine Rd") (lit "Saint Paul") [lit "New"; lit "Mexico"]
           (lit "87501") (lit ", usa"));
    try (apply (bool_decide_unpack _); by_compute); try done.
  right. by eexists.
Defined.

(** A form that the service does not understand: with an apartment between the
    street and the city, the apartment is taken for the city and the city for
    the postal code, and the result is not valid. *)
Example normalize_apartment :
  AddressNormalizer.normalize (H := ascii_tables) (Some (lit "1 Pine Rd, Apt 2, Springfield, IL 62704")) =
    AddressNormalizer.mkNormalized (lit "1 PINE RD, APT 2, SPRINGFIELD, US") (lit "1 PINE RD") (lit "APT 2") []
      (lit "SPRINGFIELD") (lit "US") false.
Proof. by_compute. Qed.

(** A normalized address is not a fixed point: read again, the postal code is
    lost to the further comma and the state is taken for it. *)
Example normalize_again :
  let once := AddressNormalizer.normalize (H := ascii_tables) (Some (lit "1 Pine Rd, Springfield, IL 62704")) in
  AddressNormalizer.normalize (H := ascii_tables) (Some (AddressNormalizer.normalizedAddress once)) =
    AddressNormalizer.mkNormalized (lit "1 PINE RD, SPRINGFIELD, IL, US") (lit "1 PINE RD") (lit "SPRINGFIELD") []
      (lit "IL") (lit "US") false.
Proof. by_compute. Qed.

(** A name that is not blank for [isBlank] but that [trim] empties, such as a
    control character, hashes like the bare salt. *)
Example hash_control_character :
  isBlank [7] = false /\ claimant_form (T := ascii_tables) [7] = [].
Proof. by_compute. Qed.

(** Inner spaces count. *)
Example hash_inner_spaces :
  claimant_form (T := ascii_tables) (lit "Jane  Doe") <> claimant_form (T := ascii_tables) (lit "Jane Doe") /\
  ClaimantIdHasher.hash (H := ascii_tables) (Some (lit "Jane  Doe"))
    <> ClaimantIdHasher.hash (H := ascii_tables) (Some (lit "Jane Doe")).
Proof. split; apply (bool_decide_unpack _); by_compute. Qed.

(** A lapsed policy, in another spelling. *)
Lemma lookup_cases_witness :
  PolicyLookup.lookup (H := ascii_tables) (Some (lit "  Pol-654321" ++ [9])) =
    PolicyLookup.mkResult true (lit "lapsed") (lit "liability_only").
Proof.
  destruct (lookup_cases (H := ascii_tables) (lit "  ") (lit "Pol-654321") [9]) as (_ & Hlapsed & _).
  - apply (bool_decide_unpack _). by_compute.
  - apply (bool_decide_unpack _). by_compute.
  - split; vm_compute; reflexivity.
  - vm_compute. reflexivity.
  - apply Hlapsed. vm_compute. reflexivity.
Defined.
