(* ===== verification/FormatFloat.v ===== *)
(** * Decimal rendering of [float64] in JSON

    [strconv.FormatFloat(x, fmt, -1, 64)]: the shortest decimal that lies in
    the rounding interval of [x] (so that it reads back as [x]), as
    [roundShortest] finds it digit by digit, and the two layouts
    [encoding/json] chooses between. *)

From S2P Require Import Prelude Float64 GoStrings.

(** ** Decimal digits *)

Fixpoint digits_loop (fuel : nat) (n : Z) (acc : list Z) : list Z :=
  match fuel with
  | O => acc
  | S fuel' => if n <? 10 then 48 + n :: acc else digits_loop fuel' (n / 10) (48 + n mod 10 :: acc)
  end.

(** The digits of [n >= 0] in base 10. *)
Definition digits (n : Z) : list Z := digits_loop (S (Z.to_nat (Z.log2 n))) n [].

(** ** The shortest decimal *)

(** The positive number [m * 2^e] and the two ends of its rounding interval,
    all multiplied by [10^sc_exp], where they are integers. *)
Record Scaled := mkScaled { sc_exp : Z; sc_x : Z; sc_lower : Z; sc_upper : Z; sc_inclusive : bool }.

Definition scale (m e : Z) : Scaled :=
  let a := Z.max 0 (2 - e) in
  let unit := 2 ^ Z.max 0 (e - 2) * 5 ^ a in
  let lower := if (2 ^ 52 <? m) || (e =? -1074) then 4 * m - 2 else 4 * m - 1 in
  mkScaled a (4 * m * unit) (lower * unit) ((4 * m + 2) * unit) (Z.even m).

(** Rounding at the digit of weight [10^k], half to even. *)
Definition round_at (x k : Z) : Z :=
  let down := x / 10 ^ k in
  let rest := x mod 10 ^ k in
  if 2 * rest =? 10 ^ k then (if Z.even down then down else down + 1)
  else if 2 * rest <? 10 ^ k then down else down + 1.

(** The digit positions from [k] down: the first at which the number rounded
    down or up stays in the interval. *)
Fixpoint shortest_loop (s : Scaled) (k : nat) : Z * Z :=
  let unit := 10 ^ Z.of_nat k in
  let down := sc_x s / unit in
  let okdown := (sc_lower s <? down * unit) || (sc_inclusive s && (sc_lower s =? down * unit)) in
  let okup := ((down + 1) * unit <? sc_upper s) ||
              (sc_inclusive s && ((down + 1) * unit =? sc_upper s)) in
  if okdown && okup then (round_at (sc_x s) (Z.of_nat k), Z.of_nat k)
  else if okdown then (down, Z.of_nat k)
  else if okup then (down + 1, Z.of_nat k)
  else match k with
       | O => (sc_x s, 0)
       | S k' => shortest_loop s k'
       end.

(** [(n, j)] stands for [n * 10^j]. *)
Definition shortest (m e : Z) : Z * Z :=
  let s := scale m e in
  let '(n, k) := shortest_loop s (length (digits (sc_upper s)) - 1) in
  (n, k - sc_exp s).

(** ** Layouts *)

(** [%f]: no exponent. *)
Definition format_f (n j : Z) : list Z :=
  if 0 <=? j then digits n ++ replicate (Z.to_nat j) 48
  else
    let frac := digits (n mod 10 ^ (- j)) in
    digits (n / 10 ^ (- j)) ++ [46] ++ replicate (Z.to_nat (- j) - length frac) 48 ++ frac.

(** [%e], with the single-digit exponents [encoding/json] rewrites. *)
Definition format_e (n j : Z) : list Z :=
  match digits n with
  | [] => []
  | d :: ds =>
      let exp := Z.of_nat (length ds) + j in
      [d] ++ (if bool_decide (ds = []) then [] else 46 :: ds) ++ [101] ++
      (if exp <? 0 then [45] else [43]) ++ digits (Z.abs exp)
  end.

(** [floatEncoder]: [None] on NaN and infinities. *)
Definition json_float (x : float64) : option (list Z) :=
  match x with
  | S754_nan | S754_infinity _ => None
  | S754_zero s => Some ((if s then [45] else []) ++ [48])
  | S754_finite s m e =>
      let '(n, j) := shortest (Z.pos m) e in
      let abs := S754_finite false m e in
      let body := if f64_ltb abs (f64_lit 1 1000000) || f64_leb (f64_of_Z (10 ^ 21)) abs
                  then format_e n j else format_f n j in
      Some ((if s then [45] else []) ++ body)
  end.

Example json_float_tenth : string_of (default [] (json_float (f64_lit 1 10))) = "0.1"%string.
Proof. by_compute. Qed.
Example json_float_third : string_of (default [] (json_float (f64_lit 1 3))) = "0.3333333333333333"%string.
Proof. by_compute. Qed.
Example json_float_million : string_of (default [] (json_float (f64_of_Z (10^6)))) = "1000000"%string.
Proof. by_compute. Qed.
Example json_float_big : string_of (default [] (json_float (f64_of_Z (-12345 * 10^20)))) = "-1.2345e+24"%string.
Proof. by_compute. Qed.
Example json_float_small : string_of (default [] (json_float (f64_lit 15 (10^9)))) = "1.5e-8"%string.
Proof. by_compute. Qed.
Example json_float_den : string_of (default [] (json_float (S754_finite false 1 (-1074)))) = "5e-324"%string.
Proof. by_compute. Qed.
Example json_float_max : string_of (default [] (json_float (S754_finite false (2^53-1) 971))) = "1.7976931348623157e+308"%string.
Proof. by_compute. Qed.

(** ** The chosen decimal *)

(** [v / 10^sc_exp] rounds to the number. *)
Definition in_interval (s : Scaled) (v : Z) : Prop :=
  (sc_lower s < v \/ (sc_inclusive s = true /\ sc_lower s = v)) /\
  (v < sc_upper s \/ (sc_inclusive s = true /\ v = sc_upper s)).

Lemma round_at_cases x k : round_at x k = x / 10 ^ k \/ round_at x k = x / 10 ^ k + 1.
Proof. unfold round_at. repeat case_match; auto. Qed.

(** The two tests of the loop, on a value [v] below and above the number. *)
Lemma okdown_iff s v :
  v <= sc_x s < sc_upper s ->
  (sc_lower s <? v) || (sc_inclusive s && (sc_lower s =? v)) = true <-> in_interval s v.
Proof. unfold in_interval. rewrite orb_true_iff, andb_true_iff, Z.ltb_lt, Z.eqb_eq.
  split; [intros Hv; split; [exact Hv|left; lia]|by intros [Hv _]].
Qed.
Lemma okup_iff s v :
  sc_lower s < sc_x s < v ->
  (v <? sc_upper s) || (sc_inclusive s && (v =? sc_upper s)) = true <-> in_interval s v.
Proof. unfold in_interval. rewrite orb_true_iff, andb_true_iff, Z.ltb_lt, Z.eqb_eq.
  split; [intros Hv; split; [left; lia|exact Hv]|by intros [_ Hv]].
Qed.

(** The interval is convex. *)
Lemma in_interval_below s v w :
  in_interval s v -> v <= w -> w <= sc_x s < sc_upper s -> in_interval s w.
Proof.
  intros [Hl _] Hw Hx. split; [|left; lia]. destruct (Z.eq_dec v w) as [->|]; [done|].
  left. destruct Hl as [?|[_ ?]]; lia.
Qed.
Lemma in_interval_above s v w :
  in_interval s v -> sc_lower s < sc_x s < w -> w <= v -> in_interval s w.
Proof.
  intros [_ Hr] Hx Hw. split; [left; lia|]. destruct (Z.eq_dec v w) as [->|]; [done|].
  left. destruct Hr as [?|[_ ?]]; lia.
Qed.

(** Between the two candidates of a digit position there is no multiple of its
    weight. *)
Lemma no_candidate s down unit :
  0 < unit -> down * unit <= sc_x s < (down + 1) * unit ->
  ~ in_interval s (down * unit) -> ~ in_interval s ((down + 1) * unit) ->
  sc_lower s < sc_x s < sc_upper s -> forall n, ~ in_interval s (n * unit).
Proof.
  intros Hu Hx Hd Hup Hs n Hn. destruct (Z.le_gt_cases n down).
  - apply Hd, (in_interval_below s (n * unit)); [done|nia|lia].
  - apply Hup, (in_interval_above s (n * unit)); [done|lia|nia].
Qed.

(** The decimal found lies in the rounding interval, and no multiple of a
    larger power of ten does: it has as few digits as possible. *)
Lemma shortest_loop_spec s k :
  sc_lower s < sc_x s < sc_upper s ->
  exists n j, shortest_loop s k = (n, j) /\ 0 <= j <= Z.of_nat k /\
    in_interval s (n * 10 ^ j) /\
    (forall n' j', j < j' <= Z.of_nat k -> ~ in_interval s (n' * 10 ^ j')).
Proof.
  intros Hx.
  assert (Hround : forall k, 0 <= k ->
    sc_x s / 10 ^ k * 10 ^ k <= sc_x s < (sc_x s / 10 ^ k + 1) * 10 ^ k).
  { intros k' Hk'. assert (Hu : 0 < 10 ^ k') by (by apply Z.pow_pos_nonneg).
    rewrite Z.add_1_r, !(Z.mul_comm _ (10 ^ k')).
    split; [by apply Z.mul_div_le|by apply Z.mul_succ_div_gt]. }
  assert (Hself : in_interval s (sc_x s)) by (unfold in_interval; split; left; lia).
  induction k as [|k IH]; cbn [shortest_loop];
    match goal with |- context [10 ^ Z.of_nat ?n] => set (k' := Z.of_nat n) in * end;
    destruct (Hround k' ltac:(lia)) as [Hlo Hhi];
    pose proof (okdown_iff s _ (conj Hlo (proj2 Hx))) as Hd;
    pose proof (okup_iff s _ (conj (proj1 Hx) Hhi)) as Hu;
    (destruct (_ || (_ && (sc_lower s =? _)));
     [apply proj1 in Hd; specialize (Hd eq_refl)|]);
    (destruct (_ || (_ && (_ =? sc_upper s)));
     [apply proj1 in Hu; specialize (Hu eq_refl)|]);
    cbn [andb];
    try (eexists _, _; split; [reflexivity|]; split; [lia|]; split; [|lia];
         by first [exact Hd|exact Hu|destruct (round_at_cases (sc_x s) k') as [-> | ->]]).
  - exfalso. apply (no_candidate s (sc_x s / 10 ^ k') (10 ^ k')) with (sc_x s); try done.
    + by intros ?%Hd.
    + by intros ?%Hu.
    + by rewrite Z.mul_1_r.
  - destruct IH as (n & j & -> & Hj & Hin & Hmin). exists n, j.
    split_and!; [done|lia..|done|]. intros n' j' Hj' Hin'.
    destruct (Z.eq_dec j' k') as [->|]; [|apply (Hmin n' j'); [lia|done]].
    revert Hin'. apply (no_candidate s (sc_x s / 10 ^ k') (10 ^ k')); try done.
    + by apply Z.pow_pos_nonneg; [|lia].
    + by intros ?%Hd.
    + by intros ?%Hu.
Qed.
(** ** Digits *)

Definition is_digit (b : Z) : Prop := 48 <= b <= 57.

(** Non-empty, decimal digits only, and no leading zero but in [0] itself. *)
Definition numeral (l : list Z) : Prop :=
  Forall is_digit l /\ exists d ds, l = d :: ds /\ (d = 48 -> ds = []).

Lemma digits_loop_numeral fuel n acc :
  0 <= n < 10 ^ Z.of_nat fuel -> (fuel <> O) -> Forall is_digit acc ->
  exists d ds, digits_loop fuel n acc = d :: ds /\ Forall is_digit (d :: ds) /\
    (d = 48 -> n = 0 /\ ds = acc).
Proof.
  revert n acc. induction fuel as [|fuel IH]; intros n acc Hn Hf Hacc; [done|].
  cbn [digits_loop]. destruct (Z.ltb_spec n 10).
  - exists (48 + n), acc. split; [done|]. split; [constructor; [unfold is_digit; lia|done]|].
    intros ?. split; [lia|done].
  - rewrite Nat2Z.inj_succ, Z.pow_succ_r in Hn by lia.
    assert (1 <= n / 10) by (apply Z.div_le_lower_bound; lia).
    assert (n / 10 < 10 ^ Z.of_nat fuel) by (apply Z.div_lt_upper_bound; lia).
    destruct (IH (n / 10) (48 + n mod 10 :: acc)) as (d & ds & -> & Hd & H48).
    + lia.
    + intros ->. simpl in *. lia.
    + constructor; [|done]. unfold is_digit. pose proof (Z.mod_pos_bound n 10 ltac:(lia)). lia.
    + exists d, ds. split_and!; [done|done|]. intros ?%H48. lia.
Qed.

Lemma digits_cons n : 0 <= n ->
  exists d ds, digits n = d :: ds /\ Forall is_digit (d :: ds) /\ (d = 48 -> n = 0 /\ ds = []).
Proof.
  intros Hn. apply digits_loop_numeral; [|done|constructor]. split; [done|].
  rewrite Nat2Z.inj_succ, Z2Nat.id by apply Z.log2_nonneg.
  destruct (Z.eq_dec n 0) as [->|]; [done|].
  destruct (Z.log2_spec n ltac:(lia)) as [_ Hlt]. eapply Z.lt_le_trans; [exact Hlt|].
  apply Z.pow_le_mono_l. lia.
Qed.

Lemma digits_numeral n : 0 <= n -> numeral (digits n).
Proof.
  intros Hn. destruct (digits_cons n Hn) as (d & ds & -> & Hd & H48). split; [done|].
  exists d, ds. split; [done|]. by intros [_ ?]%H48.
Qed.

(** The text of a finite number is a JSON number: an optional sign, a numeral,
    then a fraction or an exponent. *)
Inductive number_text : list Z -> Prop :=
| number_int neg l : numeral l -> number_text ((if neg : bool then [45] else []) ++ l)
| number_frac neg l f : numeral l -> f <> [] -> Forall is_digit f ->
    number_text ((if neg : bool then [45] else []) ++ l ++ 46 :: f)
| number_exp neg d f sign x :
    is_digit d -> d <> 48 -> Forall is_digit f -> sign = 43 \/ sign = 45 -> x <> [] -> Forall is_digit x ->
    number_text ((if neg : bool then [45] else []) ++
                 [d] ++ (if bool_decide (f = []) then [] else 46 :: f) ++ [101; sign] ++ x).

Lemma scale_bounds m e : 1 <= m -> 0 < sc_lower (scale m e) < sc_x (scale m e) /\
  sc_x (scale m e) < sc_upper (scale m e).
Proof.
  intros Hm. unfold scale. cbn [sc_lower sc_x sc_upper].
  set (unit := 2 ^ Z.max 0 (e - 2) * 5 ^ Z.max 0 (2 - e)).
  assert (Hu : 0 < unit) by (apply Z.mul_pos_pos; apply Z.pow_pos_nonneg; lia).
  clearbody unit. case_match; nia.
Qed.

(** The decimal of a number is in its rounding interval, and positive. *)
Lemma shortest_in_interval m e n j :
  1 <= m -> shortest m e = (n, j) ->
  0 < n /\ exists k, 0 <= k /\ j = k - sc_exp (scale m e) /\ in_interval (scale m e) (n * 10 ^ k).
Proof.
  intros Hm. unfold shortest. destruct (scale_bounds m e Hm) as [[Hl Hx] Hup].
  destruct (shortest_loop_spec (scale m e) (length (digits (sc_upper (scale m e))) - 1))
    as (n' & k & -> & Hk & Hin & _); [done|].
  intros [= <- <-]. split; [|exists k; split_and!; [lia|done..]].
  assert (Hpow : 0 < 10 ^ k) by (apply Z.pow_pos_nonneg; lia).
  assert (Hpos : 0 < n' * 10 ^ k) by (destruct Hin as [[?|[_ ?]] _]; lia).
  by apply Z.mul_pos_cancel_r in Hpos.
Qed.

Lemma is_digit_zero : is_digit 48.
Proof. unfold is_digit. lia. Qed.

Lemma replicate_digits n : Forall is_digit (replicate n 48).
Proof. apply Forall_replicate, is_digit_zero. Qed.

Lemma format_f_text neg n j :
  0 < n -> number_text ((if neg : bool then [45] else []) ++ format_f n j).
Proof.
  intros Hn. unfold format_f. destruct (Z.leb_spec 0 j).
  - apply number_int. destruct (digits_cons n ltac:(lia)) as (d & ds & -> & Hd & H48).
    split; [by apply Forall_app_2; [|apply replicate_digits]|].
    exists d, (ds ++ replicate (Z.to_nat j) 48). split; [done|]. intros [? _]%H48. lia.
  - assert (0 < 10 ^ (- j)) by (apply Z.pow_pos_nonneg; lia).
    destruct (digits_cons (n mod 10 ^ (- j))) as (d & ds & -> & Hd & _);
      [by apply Z.mod_pos_bound|].
    apply number_frac.
    + apply digits_numeral, Z.div_pos; lia.
    + intros Hnil. by apply app_eq_nil in Hnil as [_ ?].
    + by apply Forall_app_2; [apply replicate_digits|].
Qed.

Lemma format_e_text neg n j :
  0 < n -> number_text ((if neg : bool then [45] else []) ++ format_e n j).
Proof.
  intros Hn. unfold format_e. destruct (digits_cons n ltac:(lia)) as (d & ds & -> & Hd & H48).
  apply Forall_cons in Hd as [Hd Hds].
  destruct (digits_cons (Z.abs (Z.of_nat (length ds) + j)) ltac:(lia)) as (x & xs & -> & Hx & _).
  set (sign := if Z.of_nat (length ds) + j <? 0 then 45 else 43).
  replace (if Z.of_nat (length ds) + j <? 0 then [45] else [43]) with [sign]
    by (unfold sign; by case_match).
  apply (number_exp neg d ds sign (x :: xs)); try done.
  - intros [? _]%H48. lia.
  - unfold sign. case_match; auto.
Qed.

(** Every finite number is printed as a JSON number. *)
Lemma json_float_text x l : json_float x = Some l -> number_text l.
Proof.
  destruct x as [s|s| |s m e]; cbn [json_float]; [|done..|].
  - intros [= <-]. apply number_int. split; [|by exists 48, []].
    apply Forall_singleton, is_digit_zero.
  - destruct (shortest (Z.pos m) e) as [n j] eqn:Hs. intros [= <-].
    destruct (shortest_in_interval (Z.pos m) e n j) as [Hn _]; [lia|done|].
    destruct (f64_ltb _ _ || _); [by apply format_e_text|by apply format_f_text].
Qed.
