(* ===== verification/Json.v ===== *)
(** * encoding/json: writing and reading

    The encoder's strings, numbers and objects, the scanner of [scanner.go] as
    a state machine over bytes, and [unquoteBytes].  The scanner's states carry
    the value read so far, so that scanning a text yields its syntax tree; a
    string literal keeps its raw contents, escapes included, as the decoder
    finds them. *)

From S2P Require Import Prelude Float64 GoStrings Utf8 FormatFloat.

(** ** Encoding *)

(** [htmlSafeSet]: the ASCII bytes a string holds as they are. *)
Definition html_safe (b : Z) : bool :=
  in_range b 0x20 0x7F && negb ((b =? 34) || (b =? 38) || (b =? 60) || (b =? 62) || (b =? 92)).

(** The escape of any other ASCII byte. *)
Definition ascii_escape (b : Z) : list Z :=
  if (b =? 92) || (b =? 34) then [92; b]
  else if b =? 8 then [92; 98]
  else if b =? 12 then [92; 102]
  else if b =? 10 then [92; 110]
  else if b =? 13 then [92; 114]
  else if b =? 9 then [92; 116]
  else [92; 117; 48; 48] ++ hex_byte b.

(** The loop of [appendString] with HTML escaping; it consumes at least one
    byte a turn. *)
Fixpoint string_loop (fuel : nat) (s : list Z) : list Z :=
  match fuel, s with
  | S fuel', b :: s' =>
      if b <? 0x80
      then (if html_safe b then [b] else ascii_escape b) ++ string_loop fuel' s'
      else
        let '(r, width) := DecodeRune s in
        (if bool_decide (width = 1%nat /\ r = RuneError) then [92; 117; 102; 102; 102; 100]
         else if (r =? 0x2028) || (r =? 0x2029)
         then [92; 117; 50; 48; 50; lowerhex (Z.land r 15)]
         else take width s) ++ string_loop fuel' (drop width s)
  | _, _ => []
  end.

Definition string_contents (s : list Z) : list Z := string_loop (length s) s.
Definition append_string (s : list Z) : list Z := [34] ++ string_contents s ++ [34].

(** The values the program encodes; [None]: [UnsupportedValueError]. *)
Inductive field_value := FString (s : string) | FFloat (x : float64).
Definition value_text (v : field_value) : option (list Z) :=
  match v with
  | FString s => Some (append_string (bytes_of s))
  | FFloat x => json_float x
  end.

(** An object of such fields, in order. *)
Fixpoint members_text (fields : list (string * field_value)) : option (list Z) :=
  match fields with
  | [] => Some []
  | (name, v) :: fields' =>
      text ← value_text v;
      rest ← members_text fields';
      mret (append_string (bytes_of name) ++ [58] ++ text ++
            (if bool_decide (fields' = []) then [] else [44]) ++ rest)
  end.
Definition object_text (fields : list (string * field_value)) : option (list Z) :=
  ms ← members_text fields; mret ([123] ++ ms ++ [125]).

(** ** Scanning *)

Inductive json :=
  | JNull
  | JBool (b : bool)
  | JNumber (text : list Z)
  | JString (raw : list Z)
  | JArray (elements : list json)
  | JObject (members : list (list Z * json)).

(** The stack of [parseObjectKey], [parseObjectValue] and [parseArrayValue],
    with what each open object or array holds so far. *)
Inductive frame :=
  | InKey (members : list (list Z * json))
  | InValue (members : list (list Z * json)) (key : list Z)
  | InArray (elements : list json).

(** The step functions, with the literal read so far. *)
Inductive step :=
  | BeginValueOrEmpty | BeginValue | BeginStringOrEmpty | BeginString
  | EndValue (v : json)
  | InString (raw : list Z) | InStringEsc (raw : list Z)
  | InStringEscU (digits_left : nat) (raw : list Z)
  | Neg (text : list Z) | Num1 (text : list Z) | Num0 (text : list Z)
  | Dot (text : list Z) | Dot0 (text : list Z)
  | NumE (text : list Z) | ESign (text : list Z) | E0 (text : list Z)
  | InLiteral (name : string) (rest : list Z) (v : json).

(** The result of a step: the scanner goes on, has read its first value, or
    fails with a syntax error. *)
Inductive scanned :=
  | Continue (st : step) (stack : list frame)
  | Done (v : json)
  | Invalid (err : string).

Definition is_space (c : Z) : bool := (c =? 32) || (c =? 9) || (c =? 13) || (c =? 10).
Definition is_dec (c : Z) : bool := in_range c 48 57.
Definition is_hex (c : Z) : bool := in_range c 48 57 || in_range c 97 102 || in_range c 65 70.

(** [quoteChar]. *)
Definition quoteChar (c : Z) : list Z :=
  if c =? 39 then [39; 92; 39; 39]
  else if c =? 34 then [39; 34; 39]
  else [39] ++ quote_loop (λ _, false) 4 (EncodeRune c) ++ [39].

(** [scanner.error]. *)
Definition scan_error (c : Z) (context : string) : scanned :=
  Invalid ("invalid character " +:+ string_of (quoteChar c) +:+ " " +:+ context).

Definition maxNestingDepth : Z := 10000.

Definition push (c : Z) (f : frame) (st : step) (stack : list frame) : scanned :=
  if Z.of_nat (length (f :: stack)) <=? maxNestingDepth then Continue st (f :: stack)
  else scan_error c "exceeded max depth".

(** A value closed by its last byte: the reader stops at once at top level. *)
Definition close (v : json) (stack : list frame) : scanned :=
  match stack with [] => Done v | _ => Continue (EndValue v) stack end.

(** [stateEndValue]. *)
Definition end_value (v : json) (stack : list frame) (c : Z) : scanned :=
  match stack with
  | [] => Done v
  | f :: stack' =>
      if is_space c then Continue (EndValue v) stack
      else match f, v with
           | InKey ms, JString key =>
               if c =? 58 then Continue BeginValue (InValue ms key :: stack')
               else scan_error c "after object key"
           | InKey _, _ => scan_error c "after object key"
           | InValue ms key, _ =>
               if c =? 44 then Continue BeginString (InKey (ms ++ [(key, v)]) :: stack')
               else if c =? 125 then close (JObject (ms ++ [(key, v)])) stack'
               else scan_error c "after object key:value pair"
           | InArray es, _ =>
               if c =? 44 then Continue BeginValue (InArray (es ++ [v]) :: stack')
               else if c =? 93 then close (JArray (es ++ [v])) stack'
               else scan_error c "after array element"
           end
  end.

(** [stateBeginValue] and [stateBeginString]. *)
Definition begin_value (stack : list frame) (c : Z) : scanned :=
  if is_space c then Continue BeginValue stack
  else if c =? 123 then push c (InKey []) BeginStringOrEmpty stack
  else if c =? 91 then push c (InArray []) BeginValueOrEmpty stack
  else if c =? 34 then Continue (InString []) stack
  else if c =? 45 then Continue (Neg [c]) stack
  else if c =? 48 then Continue (Num0 [c]) stack
  else if c =? 116 then Continue (InLiteral "true" [114; 117; 101] (JBool true)) stack
  else if c =? 102 then Continue (InLiteral "false" [97; 108; 115; 101] (JBool false)) stack
  else if c =? 110 then Continue (InLiteral "null" [117; 108; 108] JNull) stack
  else if in_range c 49 57 then Continue (Num1 [c]) stack
  else scan_error c "looking for beginning of value".
Definition begin_string (stack : list frame) (c : Z) : scanned :=
  if is_space c then Continue BeginString stack
  else if c =? 34 then Continue (InString []) stack
  else scan_error c "looking for beginning of object key string".

(** [state0]: after the integer part of a number. *)
Definition state0 (text : list Z) (stack : list frame) (c : Z) : scanned :=
  if c =? 46 then Continue (Dot (text ++ [c])) stack
  else if (c =? 101) || (c =? 69) then Continue (NumE (text ++ [c])) stack
  else end_value (JNumber text) stack c.
(** [stateESign]. *)
Definition stateESign (text : list Z) (stack : list frame) (c : Z) : scanned :=
  if is_dec c then Continue (E0 (text ++ [c])) stack
  else scan_error c "in exponent of numeric literal".

Definition scan_step (st : step) (stack : list frame) (c : Z) : scanned :=
  match st with
  | BeginValueOrEmpty =>
      if is_space c then Continue BeginValueOrEmpty stack
      else if c =? 93 then close (JArray []) (tail stack)
      else begin_value stack c
  | BeginValue => begin_value stack c
  | BeginStringOrEmpty =>
      if is_space c then Continue BeginStringOrEmpty stack
      else if c =? 125 then close (JObject []) (tail stack)
      else begin_string stack c
  | BeginString => begin_string stack c
  | EndValue v => end_value v stack c
  | InString raw =>
      if c =? 34 then Continue (EndValue (JString raw)) stack
      else if c =? 92 then Continue (InStringEsc (raw ++ [c])) stack
      else if c <? 32 then scan_error c "in string literal"
      else Continue (InString (raw ++ [c])) stack
  | InStringEsc raw =>
      if bool_decide (c ∈ [98; 102; 110; 114; 116; 92; 47; 34]) then Continue (InString (raw ++ [c])) stack
      else if c =? 117 then Continue (InStringEscU 4 (raw ++ [c])) stack
      else scan_error c "in string escape code"
  | InStringEscU n raw =>
      if is_hex c
      then Continue (match n with
                     | S (S n') => InStringEscU (S n') (raw ++ [c])
                     | _ => InString (raw ++ [c])
                     end) stack
      else scan_error c "in \u hexadecimal character escape"
  | Neg text =>
      if c =? 48 then Continue (Num0 (text ++ [c])) stack
      else if in_range c 49 57 then Continue (Num1 (text ++ [c])) stack
      else scan_error c "in numeric literal"
  | Num1 text =>
      if is_dec c then Continue (Num1 (text ++ [c])) stack else state0 text stack c
  | Num0 text => state0 text stack c
  | Dot text =>
      if is_dec c then Continue (Dot0 (text ++ [c])) stack
      else scan_error c "after decimal point in numeric literal"
  | Dot0 text =>
      if is_dec c then Continue (Dot0 (text ++ [c])) stack
      else if (c =? 101) || (c =? 69) then Continue (NumE (text ++ [c])) stack
      else end_value (JNumber text) stack c
  | NumE text =>
      if (c =? 43) || (c =? 45) then Continue (ESign (text ++ [c])) stack
      else stateESign text stack c
  | ESign text => stateESign text stack c
  | E0 text =>
      if is_dec c then Continue (E0 (text ++ [c])) stack else end_value (JNumber text) stack c
  | InLiteral name rest v =>
      match rest with
      | e :: rest' =>
          if c =? e
          then Continue (if bool_decide (rest' = []) then EndValue v else InLiteral name rest' v) stack
          else scan_error c ("in literal " +:+ name +:+ " (expecting " +:+ string_of [39; e; 39] +:+ ")")
      | [] => end_value v stack c
      end
  end.

(** The loop of [Decoder.readValue]: the first value of the input, whatever
    follows it; at the end of the input a space tells whether it is complete. *)
Fixpoint scan_loop (nonSpace : bool) (st : step) (stack : list frame) (s : list Z) : json + string :=
  match s with
  | [] =>
      match scan_step st stack 32 with
      | Done v => inl v
      | _ => inr (if nonSpace then "unexpected EOF" else "EOF")
      end
  | c :: s' =>
      match scan_step st stack c with
      | Continue st' stack' => scan_loop nonSpace st' stack' s'
      | Done v => inl v
      | Invalid err => inr err
      end
  end.
Definition readValue (buf : list Z) : json + string :=
  scan_loop (existsb (λ c, negb (is_space c)) buf) BeginValue [] buf.

(** ** Unquoting *)

Definition hex_val (c : Z) : option Z :=
  if in_range c 48 57 then Some (c - 48)
  else if in_range c 97 102 then Some (c - 87)
  else if in_range c 65 70 then Some (c - 55)
  else None.

(** [getu4]: the value of a leading [\uXXXX]; [None] for -1. *)
Definition getu4 (s : list Z) : option Z :=
  match s with
  | 92 :: 117 :: a :: b :: c :: d :: _ =>
      a ← hex_val a; b ← hex_val b; c ← hex_val c; d ← hex_val d;
      mret (((a * 16 + b) * 16 + c) * 16 + d)
  | _ => None
  end.

Definition is_surrogate (r : Z) : bool := in_range r 0xD800 0xDFFF.
(** [utf16.DecodeRune]. *)
Definition utf16_DecodeRune (r1 : Z) (r2 : option Z) : Z :=
  match r2 with
  | Some r2 =>
      if in_range r1 0xD800 0xDBFF && in_range r2 0xDC00 0xDFFF
      then (r1 - 0xD800) * 2 ^ 10 + (r2 - 0xDC00) + 0x10000
      else RuneError
  | None => RuneError
  end.

(** The byte a one-letter escape stands for. *)
Definition simple_escape (c : Z) : option Z :=
  if bool_decide (c ∈ [34; 92; 47; 39]) then Some c
  else if c =? 98 then Some 8
  else if c =? 102 then Some 12
  else if c =? 110 then Some 10
  else if c =? 114 then Some 13
  else if c =? 116 then Some 9
  else None.

(** [unquoteBytes] on the contents of a literal; [None]: not well formed. *)
Fixpoint unquote_loop (fuel : nat) (s : list Z) : option (list Z) :=
  match fuel, s with
  | _, [] => Some []
  | O, _ => None
  | S fuel', c :: s' =>
      if c =? 92 then
        match s' with
        | [] => None
        | e :: s'' =>
            if e =? 117 then
              rr ← getu4 s;
              let rest := drop 6 s in
              let '(r, rest) :=
                if is_surrogate rr then
                  let dec := utf16_DecodeRune rr (getu4 rest) in
                  if dec =? RuneError then (RuneError, rest) else (dec, drop 6 rest)
                else (rr, rest) in
              t ← unquote_loop fuel' rest;
              mret (EncodeRune r ++ t)
            else
              b ← simple_escape e;
              t ← unquote_loop fuel' s'';
              mret (b :: t)
        end
      else if (c =? 34) || (c <? 32) then None
      else if c <? 0x80 then t ← unquote_loop fuel' s'; mret (c :: t)
      else
        let '(r, width) := DecodeRune s in
        t ← unquote_loop fuel' (drop width s);
        mret (EncodeRune r ++ t)
  end.
Definition unquote (s : list Z) : option (list Z) := unquote_loop (length s) s.

(** A text with apostrophes for double quotes, for the examples. *)
Definition json_literal (s : string) : list Z := (λ b, if b =? 39 then 34 else b) <$> bytes_of s.

Example readValue_claim :
  readValue (json_literal "{ 'claim_id':'C-1','a':[1,-0.5e+3,null,true]} trailing") =
  inl (JObject [(bytes_of "claim_id", JString (bytes_of "C-1"));
                (bytes_of "a", JArray [JNumber (bytes_of "1"); JNumber (bytes_of "-0.5e+3"); JNull; JBool true])]).
Proof. by_compute. Qed.
Example readValue_errors :
  readValue (json_literal "{'a':1,}") =
    inr "invalid character '}' looking for beginning of object key string"%string /\
  readValue (json_literal "  ") = inr "EOF"%string /\
  readValue (json_literal "{'a':tru") = inr "unexpected EOF"%string /\
  readValue (json_literal "{'a':trx}") = inr "invalid character 'x' in literal true (expecting 'u')"%string.
Proof. by_compute. Qed.
Example unquote_surrogates :
  unquote (bytes_of "a\ud83d\ude00\n\u00e9\ud800x") =
    Some (97 :: EncodeRune 0x1F600 ++ [10] ++ EncodeRune 0xE9 ++ EncodeRune RuneError ++ [120]).
Proof. by_compute. Qed.
