(* ===== verification/JsonFacts.v ===== *)
(** * What is written can be read back

    The contents of an encoded string unquote to the string with its invalid
    bytes replaced; the scanner reads an encoded object as the list of its
    members whatever follows it; whatever the scanner accepts, unquoting
    succeeds on the string literals it found; and no text the encoder writes
    holds a control character or an HTML metacharacter. *)

From S2P Require Import Prelude Float64 GoStrings Utf8 FormatFloat Json.

(** ** The contents of a string literal *)

(** Plain bytes, one-letter escapes and [\u] escapes. *)
Inductive contents : list Z -> Prop :=
| contents_nil : contents []
| contents_plain c s : c <> 34 -> c <> 92 -> 32 <= c <= 255 -> contents s -> contents (c :: s)
| contents_escape e s : e ∈ [98; 102; 110; 114; 116; 92; 47; 34] -> contents s -> contents (92 :: e :: s)
| contents_u a b c d s :
    is_hex a = true -> is_hex b = true -> is_hex c = true -> is_hex d = true ->
    contents s -> contents (92 :: 117 :: a :: b :: c :: d :: s).
#[export] Hint Constructors contents : claims.

Lemma contents_app s t : contents s -> contents t -> contents (s ++ t).
Proof. induction 1; intros; simpl; auto with claims. Qed.

Lemma contents_plain_list s :
  Forall (λ c, c <> 34 /\ c <> 92 /\ 32 <= c <= 255) s -> contents s.
Proof. induction 1 as [|c s (?&?&?)]; by constructor. Qed.

(** ** The encoder, rune by rune *)

Lemma string_loop_fuel n s : (length s <= n)%nat -> string_loop n s = string_contents s.
Proof.
  intros Hn. assert (H : forall k l s, (length s <= k)%nat -> (length s <= l)%nat ->
    string_loop k s = string_loop l s); [|by apply H].
  clear. induction k as [|k IH]; intros [|l] [|b s] Hk Hl; simpl in Hk, Hl; try done; try lia.
  cbn [string_loop]. destruct (b <? 0x80); [by rewrite (IH l) by lia|].
  pose proof (DecodeRune_width b s) as Hw.
  destruct (DecodeRune (b :: s)) as [r w]. f_equal. cbn [snd] in Hw.
  apply IH; rewrite length_drop; simpl; lia.
Qed.

(** What the encoder writes for a rune and for an invalid byte. *)
Definition rune_chunk (r : Z) (bs : list Z) : list Z :=
  if r <? 0x80 then (if html_safe r then [r] else ascii_escape r)
  else if (r =? 0x2028) || (r =? 0x2029) then [92; 117; 50; 48; 50; lowerhex (Z.land r 15)]
  else bs.
Definition invalid_chunk : list Z := [92; 117; 102; 102; 102; 100].

(** An ASCII rune is one byte; any other starts with a byte above 0x80. *)
Lemma encoded_head r bs :
  encoded r bs -> (r < 0x80 /\ bs = [r]) \/ (0x80 <= r /\ exists b bs', bs = b :: bs' /\ 0x80 <= b).
Proof.
  destruct 1; [left; split; [lia|done]|right..]; (split; [lia|]); eexists _, _; (split; [done|lia]).
Qed.

Lemma encoded_width r bs : encoded r bs -> 0x80 <= r -> length bs <> 1%nat.
Proof. destruct 1; simpl; lia. Qed.

Lemma string_contents_encoded r bs s :
  encoded r bs -> string_contents (bs ++ s) = rune_chunk r bs ++ string_contents s.
Proof.
  intros He. pose proof (encoded_decode r bs s He) as Hd.
  unfold rune_chunk, string_contents at 1.
  destruct (encoded_head r bs He) as [[Hr ->]|(Hr & b & bs' & -> & Hb)].
  - cbn [app length string_loop]. rewrite (proj2 (Z.ltb_lt r 0x80)) by lia.
    by rewrite string_loop_fuel by lia.
  - pose proof (encoded_width _ _ He Hr) as Hw.
    cbn [app length string_loop] in *. rewrite !(proj2 (Z.ltb_ge _ 0x80)) by lia. rewrite Hd.
    rewrite bool_decide_false by (intros [? _]; done).
    change (S (length bs')) with (length (b :: bs')). change (b :: bs' ++ s) with ((b :: bs') ++ s).
    rewrite take_app_length, drop_app_length, string_loop_fuel by (rewrite length_app; lia). done.
Qed.

Lemma string_contents_invalid b s :
  DecodeRune (b :: s) = (RuneError, 1%nat) ->
  string_contents (b :: s) = invalid_chunk ++ string_contents s.
Proof.
  intros Hd. unfold string_contents at 1. cbn [length string_loop].
  assert (Hb : (b <? 0x80) = false).
  { destruct (Z.ltb_spec b 0x80) as [Hlt|]; [|done]. rewrite Decode1 in Hd by done.
    injection Hd as ->. unfold RuneError in Hlt. lia. }
  rewrite Hb, Hd. rewrite bool_decide_true by done. change (drop 1 (b :: s)) with s.
  by rewrite string_loop_fuel by lia.
Qed.

(** *** The chunks are contents *)

Lemma is_hex_lowerhex d : 0 <= d <= 15 -> is_hex (lowerhex d) = true.
Proof. unfold is_hex, lowerhex, in_range. intros ?. destruct (Z.ltb_spec d 10); lia. Qed.

Lemma ascii_escape_contents b : 0 <= b < 0x80 -> html_safe b = false -> contents (ascii_escape b).
Proof.
  intros Hb Hs. unfold ascii_escape, hex_byte.
  repeat match goal with
  | |- contents (if ?c then _ else _) => destruct c eqn:?
  end.
  - apply contents_escape; [|constructor].
    apply orb_true_iff in Heqb0 as [->%Z.eqb_eq| ->%Z.eqb_eq]; set_solver.
  - apply contents_escape; [set_solver|constructor].
  - apply contents_escape; [set_solver|constructor].
  - apply contents_escape; [set_solver|constructor].
  - apply contents_escape; [set_solver|constructor].
  - apply contents_escape; [set_solver|constructor].
  - apply contents_u; [done|done| |apply is_hex_lowerhex, land15_range|constructor].
    apply is_hex_lowerhex. rewrite Z.shiftr_div_pow2 by lia. change (2 ^ 4) with 16.
    Z.to_euclidean_division_equations; lia.
Qed.

Lemma html_safe_plain b : html_safe b = true -> b <> 34 /\ b <> 92 /\ 32 <= b /\ b <> 60 /\ b <> 62 /\ b <> 38.
Proof. unfold html_safe, in_range. intros H. split_and!; lia. Qed.

Lemma encoded_high r bs : encoded r bs -> 0x80 <= r -> Forall (λ b, 0x80 <= b <= 255) bs.
Proof. destruct 1; intros; repeat (apply Forall_cons_2; [lia|]); apply Forall_nil_2. Qed.

Lemma rune_chunk_contents r bs : encoded r bs -> contents (rune_chunk r bs).
Proof.
  intros He. unfold rune_chunk. destruct (Z.ltb_spec r 0x80) as [Hr|Hr].
  - pose proof (encoded_scalar _ _ He) as [Hs _].
    destruct (html_safe r) eqn:Hsafe; [|apply ascii_escape_contents; [lia|done]].
    destruct (html_safe_plain r Hsafe) as (?&?&?&_).
    apply contents_plain; [done|done|lia|constructor].
  - destruct ((r =? 0x2028) || (r =? 0x2029)).
    + apply contents_u; [done..|apply is_hex_lowerhex, land15_range|constructor].
    + apply contents_plain_list. eapply Forall_impl; [by eapply encoded_high|]. simpl. lia.
Qed.

Lemma string_contents_contents s : Forall is_byte s -> contents (string_contents s).
Proof.
  revert s. apply rune_ind; [constructor|intros r bs s He IH|intros b s _ Hd IH].
  - rewrite (string_contents_encoded r) by done. by apply contents_app; [apply rune_chunk_contents|].
  - rewrite string_contents_invalid by done. apply contents_app; [|done].
    by apply contents_u, contents_nil.
Qed.

(** ** Unquoting *)

Lemma hex_val_is_hex c : is_hex c = true -> exists v, hex_val c = Some v /\ 0 <= v <= 15.
Proof.
  unfold is_hex, hex_val, in_range. intros H.
  repeat case_match; first [exfalso; lia|eexists; split; [reflexivity|lia]].
Qed.

Lemma hex_val_lowerhex d : 0 <= d <= 15 -> hex_val (lowerhex d) = Some d.
Proof.
  intros Hd. unfold hex_val, lowerhex, in_range.
  destruct (Z.ltb_spec d 10); repeat case_match; f_equal; lia.
Qed.

Lemma unquote_loop_fuel n s : (length s <= n)%nat -> unquote_loop n s = unquote s.
Proof.
  intros Hn. assert (H : forall k l s, (length s <= k)%nat -> (length s <= l)%nat ->
    unquote_loop k s = unquote_loop l s); [|by apply H].
  clear. induction k as [|k IH]; intros [|l] [|b s] Hk Hl; simpl in Hk, Hl; try done; try lia.
  cbn [unquote_loop].
  assert (Hshort : forall t, (length t <= length s)%nat -> unquote_loop k t = unquote_loop l t)
    by (intros t Ht; apply IH; lia).
  destruct (b =? 92).
  { destruct s as [|e s]; [done|]. destruct (e =? 117).
    - destruct (getu4 (b :: e :: s)) as [rr|]; [|done]. cbn [mbind option_bind].
      assert (Hd : (length (drop 6 (b :: e :: s)) <= length (e :: s))%nat)
        by (rewrite length_drop; simpl; lia).
      destruct (is_surrogate rr); [|by rewrite Hshort].
      destruct (_ =? RuneError); rewrite Hshort; try done.
      rewrite length_drop. lia.
    - by rewrite Hshort by (simpl; lia). }
  destruct ((b =? 34) || (b <? 32)); [done|]. rewrite Hshort by done.
  destruct (b <? 0x80); [done|]. pose proof (DecodeRune_width b s) as Hw.
  destruct (DecodeRune (b :: s)) as [r w]. cbn [snd] in Hw.
  rewrite Hshort; [done|]. rewrite length_drop. simpl. lia.
Qed.

Lemma unquote_plain c s :
  c <> 34 -> c <> 92 -> 32 <= c < 0x80 -> unquote (c :: s) = cons c <$> unquote s.
Proof.
  intros H34 H92 Hc. unfold unquote at 1. cbn [length unquote_loop].
  rewrite (proj2 (Z.eqb_neq c 92)), (proj2 (Z.eqb_neq c 34)), (proj2 (Z.ltb_ge c 32)),
    (proj2 (Z.ltb_lt c 0x80)) by lia. cbn [orb]. rewrite unquote_loop_fuel by lia. by destruct (unquote s).
Qed.

(** [unquote] is its loop with any fuel that covers the rest. *)
Lemma unquote_more s : exists n, (length s <= n)%nat /\ forall c, unquote (c :: s) = unquote_loop (S n) (c :: s).
Proof. exists (length s). by split. Qed.

Lemma unquote_escape e v s :
  e <> 117 -> simple_escape e = Some v -> unquote (92 :: e :: s) = cons v <$> unquote s.
Proof.
  intros He Hv. destruct (unquote_more (e :: s)) as (n & Hn & ->). simpl in Hn.
  cbn [unquote_loop Z.eqb Pos.eqb].
  rewrite (proj2 (Z.eqb_neq e 117)), Hv by done. cbn [mbind option_bind].
  rewrite unquote_loop_fuel by lia. by destruct (unquote s).
Qed.

Lemma unquote_u a b c d rr s :
  getu4 [92; 117; a; b; c; d] = Some rr -> is_surrogate rr = false ->
  unquote (92 :: 117 :: a :: b :: c :: d :: s) = app (EncodeRune rr) <$> unquote s.
Proof.
  intros Hu Hs. destruct (unquote_more (117 :: a :: b :: c :: d :: s)) as (n & Hn & ->).
  simpl in Hn. cbn [unquote_loop Z.eqb Pos.eqb].
  change (getu4 (92 :: 117 :: a :: b :: c :: d :: s)) with (getu4 [92; 117; a; b; c; d]).
  rewrite Hu. cbn [mbind option_bind]. rewrite Hs.
  change (drop 6 (92 :: 117 :: a :: b :: c :: d :: s)) with s.
  rewrite unquote_loop_fuel by lia. by destruct (unquote s).
Qed.

Lemma unquote_multibyte r bs s :
  encoded r bs -> 0x80 <= r -> unquote (bs ++ s) = app bs <$> unquote s.
Proof.
  intros He Hr. pose proof (encoded_decode r bs s He) as Hd.
  destruct (encoded_head r bs He) as [[? _]|(_ & b & bs' & -> & Hb)]; [lia|].
  unfold unquote at 1. cbn [app length unquote_loop] in *.
  rewrite (proj2 (Z.eqb_neq b 92)), (proj2 (Z.eqb_neq b 34)), (proj2 (Z.ltb_ge b 32)),
    (proj2 (Z.ltb_ge b 0x80)) by lia. cbn [orb]. rewrite Hd.
  change (S (length bs')) with (length (b :: bs')). change (b :: bs' ++ s) with ((b :: bs') ++ s).
  rewrite drop_app_length, unquote_loop_fuel by (rewrite length_app; lia).
  rewrite (EncodeRune_encoded_eq r (b :: bs')) by done. by destruct (unquote s).
Qed.

Lemma unquote_nil : unquote [] = Some [].
Proof. done. Qed.

(** *** Unquoting what the encoder wrote *)

Lemma EncodeRune_ascii r : 0 <= r < 0x80 -> EncodeRune r = [r].
Proof. intros Hr. apply EncodeRune_encoded_eq. by constructor. Qed.

(** The two hexadecimal digits of a byte. *)
Lemma hex_byte_digits b : is_byte b ->
  exists h l, hex_byte b = [lowerhex h; lowerhex l] /\ 0 <= h <= 15 /\ 0 <= l <= 15 /\ h * 16 + l = b.
Proof.
  unfold is_byte. intros Hb. exists (b / 16), (b mod 16). unfold hex_byte.
  rewrite Z.shiftr_div_pow2, (land_low b 4) by lia. change (2 ^ 4) with 16.
  split; [done|]. Z.to_euclidean_division_equations; lia.
Qed.

Lemma unquote_ascii_escape b s :
  0 <= b < 0x80 -> unquote (ascii_escape b ++ s) = cons b <$> unquote s.
Proof.
  intros Hb. unfold ascii_escape.
  repeat match goal with
  | |- unquote ((if ?c then _ else _) ++ _) = _ =>
      let H := fresh in destruct c eqn:H; [|clear H];
      [first [apply Z.eqb_eq in H as ->|apply orb_true_iff in H as [->%Z.eqb_eq| ->%Z.eqb_eq]];
       by apply unquote_escape|]
  end.
  destruct (hex_byte_digits b) as (h & l & -> & Hh & Hl & <-); [unfold is_byte; lia|].
  cbn [app]. rewrite (unquote_u _ _ _ _ (h * 16 + l)).
  - by rewrite EncodeRune_ascii.
  - cbn [getu4]. by rewrite !hex_val_lowerhex.
  - unfold is_surrogate, in_range. lia.
Qed.

Lemma unquote_rune_chunk r bs s :
  encoded r bs -> unquote (rune_chunk r bs ++ s) = app bs <$> unquote s.
Proof.
  intros He. unfold rune_chunk. pose proof (encoded_scalar _ _ He) as [Hr _].
  destruct (Z.ltb_spec r 0x80).
  - destruct (encoded_head _ _ He) as [[_ ->]|[? _]]; [|lia].
    destruct (html_safe r) eqn:Hs; [|apply unquote_ascii_escape; lia].
    destruct (html_safe_plain r Hs) as (?&?&?&_). by apply unquote_plain; [..|lia].
  - destruct (_ || _) eqn:Hsep; [|by apply (unquote_multibyte r)].
    cbn [app]. rewrite (unquote_u _ _ _ _ r); [by rewrite (EncodeRune_encoded_eq r bs)|..];
      apply orb_true_iff in Hsep as [->%Z.eqb_eq| ->%Z.eqb_eq]; done.
Qed.

Lemma unquote_invalid_chunk s :
  unquote (invalid_chunk ++ s) = app (EncodeRune RuneError) <$> unquote s.
Proof. by apply (unquote_u 102 102 102 100 RuneError). Qed.

(** Reading a written string gives the string, its invalid bytes replaced. *)
Lemma unquote_string_contents s :
  Forall is_byte s -> unquote (string_contents s) = Some (sanitize s).
Proof.
  revert s. apply rune_ind; [done|intros r bs s He IH|intros b s _ Hd IH].
  - rewrite (string_contents_encoded r), unquote_rune_chunk, IH by done.
    by rewrite (sanitize_encoded r).
  - rewrite string_contents_invalid, unquote_invalid_chunk, IH by done.
    by rewrite sanitize_invalid.
Qed.

(** *** Unquoting whatever the scanner accepts *)

Lemma contents_inv c s : contents (c :: s) -> c <> 92 ->
  c <> 34 /\ 32 <= c <= 255 /\ contents s.
Proof. inversion 1; naive_solver. Qed.

Lemma contents_u_inv s :
  contents (92 :: 117 :: s) ->
  exists a b c d s', s = a :: b :: c :: d :: s' /\ contents s' /\ is_Some (getu4 [92; 117; a; b; c; d]).
Proof.
  inversion 1 as [|c s' H34 H92|e s' He|a b c d s' Ha Hb Hc Hd Hs]; [done|set_solver|]. subst.
  exists a, b, c, d, s'. split_and!; [done|done|].
  destruct (hex_val_is_hex a Ha) as (? & Ea & _), (hex_val_is_hex b Hb) as (? & Eb & _),
    (hex_val_is_hex c Hc) as (? & Ec & _), (hex_val_is_hex d Hd) as (? & Ed & _).
  cbn [getu4]. by rewrite Ea, Eb, Ec, Ed.
Qed.

Lemma getu4_inv s r : getu4 s = Some r -> exists t, s = 92 :: 117 :: t.
Proof.
  destruct s as [|a [|b s]]; [done| |].
  - unfold getu4. by repeat case_match.
  - intros Hu. exists s. unfold getu4 in Hu. repeat (case_match; try done).
Qed.

Lemma contents_escape_inv e s :
  contents (92 :: e :: s) -> e <> 117 -> is_Some (simple_escape e) /\ contents s.
Proof.
  inversion 1 as [|c s' _ H92|e' s' He Hs|]; [done| |done]. subst. intros _. split; [|done].
  rewrite !elem_of_cons, elem_of_nil in He. destruct_or!; subst; by eexists.
Qed.

Lemma is_hex_byte c : is_hex c = true -> is_byte c.
Proof. unfold is_hex, in_range, is_byte. lia. Qed.

Lemma contents_bytes s : contents s -> Forall is_byte s.
Proof.
  induction 1 as [|c s ??? _ IH|e s He _ IH|a b c d s Ha Hb Hc Hd _ IH]; [constructor|..].
  - constructor; [unfold is_byte; lia|done].
  - repeat apply Forall_cons_2; [unfold is_byte; lia| |done].
    rewrite !elem_of_cons, elem_of_nil in He. unfold is_byte. destruct_or!; subst; lia.
  - repeat apply Forall_cons_2; try (by apply is_hex_byte); try (unfold is_byte; lia). done.
Qed.

(** The bytes of a multi-byte sequence are plain. *)
Lemma contents_drop c s :
  0x80 <= c -> contents (c :: s) -> contents (drop (DecodeRune (c :: s)).2 (c :: s)).
Proof.
  intros Hc Hs. destruct (DecodeRune_encoded c s (contents_bytes _ Hs)) as [->|(r & bs & rest & He & Heq)].
  - simpl. apply (contents_inv c s Hs). lia.
  - rewrite Heq, (encoded_decode r bs rest He). cbn [snd]. rewrite drop_app_length.
    rewrite Heq in Hs. assert (Hr : 0x80 <= r).
    { destruct (encoded_head r bs He) as [[? ->]|[? _]]; [|lia]. injection Heq as -> _. lia. }
    pose proof (encoded_high r bs He Hr) as Hbs. clear He Heq.
    induction Hbs as [|b bs Hb _ IH]; [done|]. apply IH, (contents_inv b _ Hs). lia.
Qed.

Lemma contents_unquote s : contents s -> is_Some (unquote s).
Proof.
  remember (length s) as n eqn:Hn. revert s Hn.
  induction n as [n IH] using lt_wf_ind. intros [|c s] -> Hs; [done|].
  destruct (unquote_more s) as (m & Hm & ->). cbn [unquote_loop].
  assert (Hrest : forall t, (length t <= length s)%nat -> contents t -> is_Some (unquote_loop m t)).
  { intros t Ht Hc. rewrite unquote_loop_fuel by lia. apply (IH (length t)); simpl; [lia|done|done]. }
  destruct (Z.eqb_spec c 92) as [->|H92].
  - destruct s as [|e s]; [inversion Hs; done|]. destruct (Z.eqb_spec e 117) as [->|He].
    + destruct (contents_u_inv s Hs) as (a & b & d & f & s' & -> & Hs' & rr & Hrr).
      change (getu4 (92 :: 117 :: a :: b :: d :: f :: s')) with (getu4 [92; 117; a; b; d; f]).
      rewrite Hrr. cbn [mbind option_bind].
      change (drop 6 (92 :: 117 :: a :: b :: d :: f :: s')) with s'.
      assert (Hr' : is_Some (unquote_loop m s')) by (apply Hrest; [simpl; lia|done]).
      destruct (is_surrogate rr); [|by destruct Hr' as [t ->]].
      destruct (_ =? RuneError) eqn:Hdec; [by destruct Hr' as [t ->]|].
      assert (Hr2 : is_Some (unquote_loop m (drop 6 s'))).
      { destruct (getu4 s') as [r2|] eqn:Hu; [|done].
        apply Hrest; [rewrite length_drop; simpl; lia|].
        destruct (getu4_inv _ _ Hu) as [t ->].
        destruct (contents_u_inv t Hs') as (a' & b' & d' & f' & t' & -> & Ht & _). done. }
      by destruct Hr2 as [t ->].
    + destruct (contents_escape_inv e s Hs He) as [[v ->] Hs']. cbn [mbind option_bind].
      by destruct (Hrest s) as [t ->]; [simpl; lia|..].
  - destruct (contents_inv c s Hs H92) as (H34 & H32 & Hs').
    rewrite (proj2 (Z.eqb_neq c 34)), (proj2 (Z.ltb_ge c 32)) by lia. cbn [orb].
    destruct (Z.ltb_spec c 0x80).
    + by destruct (Hrest s) as [t ->].
    + pose proof (contents_drop c s ltac:(lia) Hs) as Hd. pose proof (DecodeRune_width c s) as Hw.
      destruct (DecodeRune (c :: s)) as [r w]. cbn [snd] in *.
      destruct (Hrest (drop w (c :: s))) as [t ->]; [rewrite length_drop; simpl; lia|done..].
Qed.

(** ** Scanning what the encoder wrote *)

(** The rest of a scan after one step. *)
Definition resume (nonSpace : bool) (r : scanned) (s : list Z) : json + string :=
  match r with
  | Continue st stack => scan_loop nonSpace st stack s
  | Done v => inl v
  | Invalid err => inr err
  end.

Section Scan.
Context (nonSpace : bool).
Local Abbreviation scan := (scan_loop nonSpace).

Lemma scan_cons st stack c s : scan st stack (c :: s) = resume nonSpace (scan_step st stack c) s.
Proof. done. Qed.

Lemma scan_contents raw acc stack rest :
  contents raw -> scan (InString acc) stack (raw ++ rest) = scan (InString (acc ++ raw)) stack rest.
Proof.
  intros Hraw. revert acc.
  induction Hraw as [|c s H34 H92 Hc _ IH|e s He _ IH|a b c d s Ha Hb Hc Hd _ IH]; intros acc.
  - by rewrite app_nil_r.
  - cbn [app]. rewrite scan_cons. cbn [scan_step].
    rewrite (proj2 (Z.eqb_neq c 34)), (proj2 (Z.eqb_neq c 92)), (proj2 (Z.ltb_ge c 32)) by lia.
    cbn [resume]. by rewrite IH, <- app_assoc.
  - cbn [app]. rewrite !scan_cons. cbn [scan_step resume Z.eqb Pos.eqb]. rewrite scan_cons. cbn [scan_step].
    rewrite bool_decide_true by done. cbn [resume]. by rewrite IH, <- !app_assoc.
  - cbn [app]. rewrite scan_cons. cbn [scan_step resume Z.eqb Pos.eqb].
    rewrite scan_cons. cbn [scan_step]. rewrite bool_decide_false by set_solver.
    cbn [resume Z.eqb Pos.eqb].
    do 4 (rewrite scan_cons; cbn [scan_step]; rewrite ?Ha, ?Hb, ?Hc, ?Hd; cbn [resume]).
    by rewrite IH, <- !app_assoc.
Qed.

(** A written string, where a value or a key is expected. *)
Lemma scan_string st stack s rest :
  Forall is_byte s -> st = BeginValue \/ st = BeginString \/ st = BeginStringOrEmpty ->
  scan st stack (append_string s ++ rest) = scan (EndValue (JString (string_contents s))) stack rest.
Proof.
  intros Hs Hst. unfold append_string. rewrite <- !app_assoc. cbn [app]. rewrite scan_cons.
  replace (scan_step st stack 34) with (Continue (InString []) stack)
    by (destruct Hst as [->|[->| ->]]; done).
  cbn [resume]. rewrite scan_contents by by apply string_contents_contents.
  by rewrite scan_cons.
Qed.

(** *** Numbers *)

Lemma is_digit_dec c : is_digit c -> is_dec c = true.
Proof. unfold is_digit, is_dec, in_range. lia. Qed.

Lemma scan_digits (mk : list Z -> step) ds acc stack rest :
  (forall text c, is_dec c = true -> scan_step (mk text) stack c = Continue (mk (text ++ [c])) stack) ->
  Forall is_digit ds -> scan (mk acc) stack (ds ++ rest) = scan (mk (acc ++ ds)) stack rest.
Proof.
  intros Hmk Hds. revert acc. induction Hds as [|c ds Hc _ IH]; intros acc; [by rewrite app_nil_r|].
  cbn [app]. rewrite scan_cons, Hmk by by apply is_digit_dec. cbn [resume].
  by rewrite IH, <- app_assoc.
Qed.

Lemma step_Num1 stack text c : is_dec c = true -> scan_step (Num1 text) stack c = Continue (Num1 (text ++ [c])) stack.
Proof. cbn [scan_step]. by intros ->. Qed.
Lemma step_Dot0 stack text c : is_dec c = true -> scan_step (Dot0 text) stack c = Continue (Dot0 (text ++ [c])) stack.
Proof. cbn [scan_step]. by intros ->. Qed.
Lemma step_E0 stack text c : is_dec c = true -> scan_step (E0 text) stack c = Continue (E0 (text ++ [c])) stack.
Proof. cbn [scan_step]. by intros ->. Qed.

(** The integer part of a number, up to the byte after it. *)
Lemma scan_numeral neg l c stack rest :
  numeral l -> is_dec c = false ->
  scan BeginValue stack (((if neg : bool then [45] else []) ++ l) ++ c :: rest) =
  resume nonSpace (state0 ((if neg : bool then [45] else []) ++ l) stack c) rest.
Proof.
  intros [Hl (d & ds & -> & H48)] Hc. apply Forall_cons in Hl as [Hd Hds].
  set (acc := if neg : bool then [45] else []).
  assert (Hfirst : scan BeginValue stack ((acc ++ d :: ds) ++ c :: rest) =
    scan (if d =? 48 then Num0 (acc ++ [d]) else Num1 (acc ++ [d])) stack (ds ++ c :: rest)).
  { unfold is_digit in Hd. rewrite <- app_assoc. cbn [app].
    unfold acc. destruct neg; cbn [app]; rewrite scan_cons; cbn [scan_step].
    - change (begin_value stack 45) with (Continue (Neg [45]) stack). cbn [resume].
      rewrite scan_cons. cbn [scan_step]. destruct (Z.eqb_spec d 48); [done|].
      replace (in_range d 49 57) with true by (unfold in_range; lia). done.
    - unfold begin_value. replace (is_space d) with false by (unfold is_space; lia).
      rewrite (proj2 (Z.eqb_neq d 123)), (proj2 (Z.eqb_neq d 91)), (proj2 (Z.eqb_neq d 34)),
        (proj2 (Z.eqb_neq d 45)) by lia.
      destruct (Z.eqb_spec d 48); [done|].
      rewrite (proj2 (Z.eqb_neq d 116)), (proj2 (Z.eqb_neq d 102)), (proj2 (Z.eqb_neq d 110)) by lia.
      replace (in_range d 49 57) with true by (unfold in_range; lia). done. }
  rewrite Hfirst. destruct (Z.eqb_spec d 48) as [->|].
  - rewrite (H48 eq_refl). cbn [app]. by rewrite scan_cons.
  - rewrite (scan_digits Num1) by (try apply step_Num1; done). rewrite scan_cons. cbn [scan_step].
    rewrite Hc, <- app_assoc. done.
Qed.

(** The fraction and the exponent, up to the byte after them. *)
Lemma scan_fraction text f c stack rest :
  f <> [] -> Forall is_digit f -> is_dec c = false ->
  scan (Dot text) stack (f ++ c :: rest) = resume nonSpace (scan_step (Dot0 (text ++ f)) stack c) rest.
Proof.
  intros Hne Hf Hc. destruct f as [|c0 f]; [done|]. apply Forall_cons in Hf as [Hc0 Hf].
  cbn [app]. rewrite scan_cons. cbn [scan_step]. rewrite (is_digit_dec c0) by done. cbn [resume].
  rewrite (scan_digits Dot0) by (try apply step_Dot0; done). by rewrite scan_cons, <- app_assoc.
Qed.

Lemma scan_exponent text sign x c stack rest :
  sign = 43 \/ sign = 45 -> x <> [] -> Forall is_digit x -> is_dec c = false ->
  scan (NumE text) stack (sign :: x ++ c :: rest) =
  resume nonSpace (end_value (JNumber (text ++ sign :: x)) stack c) rest.
Proof.
  intros Hsign Hne Hx Hc. destruct x as [|c0 x]; [done|]. apply Forall_cons in Hx as [Hc0 Hx].
  cbn [app]. rewrite scan_cons. cbn [scan_step].
  replace ((sign =? 43) || (sign =? 45)) with true by (by destruct Hsign as [->| ->]). cbn [resume].
  rewrite scan_cons. cbn [scan_step]. unfold stateESign. rewrite (is_digit_dec c0) by done. cbn [resume].
  rewrite (scan_digits E0) by (try apply step_E0; done). rewrite scan_cons. cbn [scan_step].
  by rewrite Hc, <- !app_assoc.
Qed.

(** A written number, up to the byte after it. *)
Lemma scan_number l c stack rest :
  number_text l -> c = 44 \/ c = 125 ->
  scan BeginValue stack (l ++ c :: rest) = scan (EndValue (JNumber l)) stack (c :: rest).
Proof.
  intros Hl Hc. assert (Hdec : is_dec c = false) by (destruct Hc as [->| ->]; done).
  rewrite (scan_cons (EndValue _)). cbn [scan_step].
  destruct Hl as [neg l Hl|neg l f Hl Hne Hf|neg d f sign x Hd Hd48 Hf Hsign Hne Hx].
  - rewrite scan_numeral by done. by destruct Hc as [->| ->].
  - rewrite app_assoc, <- (app_assoc _ (46 :: f)). cbn [app]. rewrite scan_numeral by done.
    change (state0 ?t stack 46) with (Continue (Dot (t ++ [46])) stack). cbn [resume].
    rewrite scan_fraction by done. cbn [scan_step]. rewrite Hdec, <- !app_assoc.
    by destruct Hc as [->| ->].
  - assert (Hone : numeral [d]) by (split; [by apply Forall_singleton|by exists d, []]).
    set (pre := if neg : bool then [45] else []).
    rewrite (app_assoc pre), <- (app_assoc (pre ++ [d])).
    case_bool_decide as Hempty.
    + cbn [app]. unfold pre. rewrite scan_numeral by done. fold pre.
      change (state0 (pre ++ [d]) stack 101) with (Continue (NumE ((pre ++ [d]) ++ [101])) stack).
      cbn [resume]. rewrite scan_exponent by done. by rewrite <- !app_assoc.
    + cbn [app]. unfold pre. rewrite scan_numeral by done. fold pre.
      change (state0 ?t stack 46) with (Continue (Dot (t ++ [46])) stack). cbn [resume].
      rewrite <- !app_assoc. cbn [app].
      rewrite (scan_fraction _ f 101 stack (sign :: x ++ c :: rest)) by done. cbn [scan_step].
      replace (is_dec 101) with false by done. cbn [Z.eqb Pos.eqb orb resume].
      rewrite scan_exponent by done. by rewrite <- !app_assoc.
Qed.

(** *** Objects *)

(** What is read of a written value and of a written member. *)
Definition field_json (v : field_value) : json :=
  match v with
  | FString s => JString (string_contents (bytes_of s))
  | FFloat x => JNumber (default [] (json_float x))
  end.
Definition member_json (m : string * field_value) : list Z * json :=
  (string_contents (bytes_of m.1), field_json m.2).

Lemma scan_value v text c stack rest :
  value_text v = Some text -> c = 44 \/ c = 125 ->
  scan BeginValue stack (text ++ c :: rest) = scan (EndValue (field_json v)) stack (c :: rest).
Proof.
  destruct v as [s|x]; cbn [value_text field_json].
  - intros [= <-] _. rewrite scan_string by (apply bytes_of_range || auto). done.
  - intros Hx Hc. rewrite Hx. apply scan_number; [|done]. by eapply json_float_text.
Qed.

Lemma scan_members st ms fields text rest :
  fields <> [] -> members_text fields = Some text -> st = BeginString \/ st = BeginStringOrEmpty ->
  scan st [InKey ms] (text ++ 125 :: rest) = inl (JObject (ms ++ (member_json <$> fields))).
Proof.
  revert st ms text. induction fields as [|[name v] fields IH]; intros st ms text Hne Htext Hst; [done|].
  cbn [members_text] in Htext.
  destruct (value_text v) as [vt|] eqn:Hv; [|done]. cbn [mbind option_bind] in Htext.
  destruct (members_text fields) as [more|] eqn:Hmore; [|done]. cbn [mbind option_bind] in Htext.
  apply (inj Some) in Htext as <-.
  rewrite <- !app_assoc. rewrite scan_string by (apply bytes_of_range || tauto).
  cbn [app]. rewrite scan_cons. cbn [scan_step end_value is_space Z.eqb Pos.eqb orb resume].
  case_bool_decide as Hlast.
  - subst fields. injection Hmore as <-. cbn [app].
    rewrite (scan_value v) by (done || auto). rewrite scan_cons.
    by cbn [scan_step end_value is_space Z.eqb Pos.eqb orb resume close].
  - cbn [app]. rewrite (scan_value v) by (done || auto). rewrite scan_cons.
    cbn [scan_step end_value is_space Z.eqb Pos.eqb orb resume].
    rewrite IH by (done || auto). by rewrite <- app_assoc.
Qed.
End Scan.

(** A written object is read back member by member, whatever follows it. *)
Lemma readValue_object fields text rest :
  object_text fields = Some text ->
  readValue (text ++ rest) = inl (JObject (member_json <$> fields)).
Proof.
  unfold object_text. destruct (members_text fields) as [ms|] eqn:Hms; [|done].
  cbn [mbind option_bind]. intros <-%(inj Some). unfold readValue.
  generalize (existsb (λ c, negb (is_space c)) (([123] ++ ms ++ [125]) ++ rest)) as b. intros b.
  rewrite <- !app_assoc. cbn [app]. rewrite scan_cons.
  change (scan_step BeginValue [] 123) with (Continue BeginStringOrEmpty [InKey []]). cbn [resume].
  destruct (decide (fields = [])) as [->|Hne].
  - injection Hms as <-. done.
  - rewrite (scan_members b BeginStringOrEmpty [] fields) by (done || auto). done.
Qed.

(** ** Whatever the scanner accepts is well formed *)

Definition literal_ok (v : json) : Prop := match v with JString raw => contents raw | _ => True end.
Definition member_ok (m : list Z * json) : Prop := contents m.1 /\ literal_ok m.2.
Definition value_ok (v : json) : Prop :=
  literal_ok v /\ match v with JObject ms => Forall member_ok ms | _ => True end.
Definition frame_ok (f : frame) : Prop :=
  match f with
  | InKey ms => Forall member_ok ms
  | InValue ms key => Forall member_ok ms /\ contents key
  | InArray _ => True
  end.
Definition step_ok (st : step) : Prop :=
  match st with
  | InString raw => contents raw
  | InStringEsc raw => exists p, raw = p ++ [92] /\ contents p
  | InStringEscU n raw => exists p hs, raw = p ++ 92 :: 117 :: hs /\ contents p /\
      Forall (λ h, is_hex h = true) hs /\ (length hs + n = 4)%nat /\ n <> 0%nat
  | EndValue v | InLiteral _ _ v => value_ok v
  | _ => True
  end.
Definition scanned_ok (r : scanned) : Prop :=
  match r with
  | Continue st stack => step_ok st /\ Forall frame_ok stack
  | Done v => value_ok v
  | Invalid _ => True
  end.

Lemma close_ok v stack : value_ok v -> Forall frame_ok stack -> scanned_ok (close v stack).
Proof. intros Hv Hs. by destruct stack. Qed.

Lemma push_ok c f st stack :
  frame_ok f -> step_ok st -> Forall frame_ok stack -> scanned_ok (push c f st stack).
Proof. intros ???. unfold push. case_match; [|done]. split; [done|by constructor]. Qed.

Lemma members_snoc_ok ms k v : Forall member_ok ms -> contents k -> value_ok v -> Forall member_ok (ms ++ [(k, v)]).
Proof. intros ?? [? _]. apply Forall_app_2; [done|]. by apply Forall_singleton. Qed.

Lemma end_value_ok v stack c : value_ok v -> Forall frame_ok stack -> scanned_ok (end_value v stack c).
Proof.
  intros Hv Hs. unfold end_value. destruct Hs as [|f stack Hf Hs]; [done|].
  assert (Hgo : forall st f', step_ok st -> frame_ok f' -> scanned_ok (Continue st (f' :: stack)))
    by (intros; split; [done|by apply Forall_cons_2]).
  destruct (is_space c); [by apply Hgo|]. destruct f as [ms|ms key|es]; cbn [frame_ok] in Hf.
  - destruct v; try done. destruct (c =? 58); [|done]. destruct Hv as [Hv _]. by apply Hgo.
  - destruct Hf as [Hms Hk]. pose proof (members_snoc_ok ms key v Hms Hk Hv).
    destruct (c =? 44); [by apply Hgo|]. destruct (c =? 125); [|done]. by apply close_ok.
  - destruct (c =? 44); [by apply Hgo|]. destruct (c =? 93); [|done]. by apply close_ok.
Qed.

Lemma begin_value_ok stack c : Forall frame_ok stack -> scanned_ok (begin_value stack c).
Proof.
  intros Hs. unfold begin_value.
  repeat match goal with
  | |- scanned_ok (if ?c then _ else _) => destruct c
  end; try (apply push_ok; [constructor|done..]); try done; split; try done; constructor.
Qed.

Lemma begin_string_ok stack c : Forall frame_ok stack -> scanned_ok (begin_string stack c).
Proof. intros Hs. unfold begin_string. repeat case_match; try done; split; try done; constructor. Qed.

Lemma state0_ok text stack c : Forall frame_ok stack -> scanned_ok (state0 text stack c).
Proof.
  intros Hs. unfold state0. repeat case_match; try by split. by apply end_value_ok.
Qed.

Lemma scan_step_ok st stack c :
  step_ok st -> Forall frame_ok stack -> is_byte c -> scanned_ok (scan_step st stack c).
Proof.
  intros Hst Hs Hc. pose proof (Forall_tail _ _ Hs) as Htl.
  destruct st; cbn [scan_step step_ok] in *.
  - repeat case_match; [by split|by apply close_ok|by apply begin_value_ok].
  - by apply begin_value_ok.
  - repeat case_match; [by split|by apply close_ok|by apply begin_string_ok].
  - by apply begin_string_ok.
  - by apply end_value_ok.
  - destruct (Z.eqb_spec c 34); [by repeat split|]. destruct (Z.eqb_spec c 92) as [->|].
    { split; [|done]. by exists raw. }
    destruct (Z.ltb_spec c 32); [done|]. split; [|done]. apply contents_app; [done|].
    unfold is_byte in Hc. apply contents_plain; [done|done|lia|constructor].
  - destruct Hst as (p & -> & Hp). case_bool_decide as He.
    { split; [|done]. cbn [step_ok]. rewrite <- app_assoc. apply contents_app; [done|].
      apply contents_escape; [done|constructor]. }
    destruct (Z.eqb_spec c 117) as [->|]; [|done]. split; [|done].
    exists p, []. rewrite <- app_assoc. by repeat split.
  - destruct Hst as (p & hs & -> & Hp & Hhs & Hlen & Hn). destruct (is_hex c) eqn:Hh; [|done].
    split; [|done].
    assert (Hhs' : Forall (λ h, is_hex h = true) (hs ++ [c])) by (apply Forall_app_2; [done|by apply Forall_singleton]).
    destruct digits_left as [|[|n]]; [done| |].
    + cbn [step_ok]. rewrite <- app_assoc. apply contents_app; [done|].
      assert (Hl : length (hs ++ [c]) = 4%nat) by (rewrite length_app; simpl; lia).
      cbn [app]. destruct (hs ++ [c]) as [|h1 [|h2 [|h3 [|h4 [|]]]]]; try done.
      repeat match goal with H : Forall _ (_ :: _) |- _ => apply Forall_cons in H as [? ?] end.
      by apply contents_u, contents_nil.
    + exists p, (hs ++ [c]). rewrite <- app_assoc, length_app. cbn [app length].
      split_and!; [done|done|done|lia|done].
  - repeat case_match; by repeat split.
  - case_match; [by split|]. by apply state0_ok.
  - by apply state0_ok.
  - case_match; by repeat split.
  - repeat case_match; try by repeat split. by apply end_value_ok.
  - unfold stateESign. repeat case_match; by repeat split.
  - unfold stateESign. repeat case_match; by repeat split.
  - case_match; [by split|]. by apply end_value_ok.
  - destruct rest as [|e rest]; [by apply end_value_ok|]. case_match; [|done].
    split; [|done]. by case_bool_decide.
Qed.

Lemma readValue_ok buf v : Forall is_byte buf -> readValue buf = inl v -> value_ok v.
Proof.
  unfold readValue. generalize (existsb (λ c, negb (is_space c)) buf) as b. intros b Hbuf.
  assert (H : forall st stack, step_ok st -> Forall frame_ok stack ->
    scan_loop b st stack buf = inl v -> value_ok v); [|by apply H].
  induction Hbuf as [|c buf Hc _ IH]; intros st stack Hst Hs; cbn [scan_loop].
  - pose proof (scan_step_ok st stack 32 Hst Hs ltac:(unfold is_byte; lia)) as Hok.
    destruct (scan_step st stack 32); try done. by intros [= ->].
  - pose proof (scan_step_ok st stack c Hst Hs Hc) as Hok.
    destruct (scan_step st stack c) as [st' stack'|v'|e]; [|by intros [= ->]|done].
    destruct Hok. by apply IH.
Qed.

(** ** No control characters, no HTML *)

(** A byte that is no C0 control and none of [<], [>], [&]. *)
Definition json_safe (b : Z) : Prop := 32 <= b <= 255 /\ b <> 60 /\ b <> 62 /\ b <> 38.

Lemma ascii_escape_safe b : is_byte b -> Forall json_safe (ascii_escape b).
Proof.
  intros Hb. unfold ascii_escape.
  assert (Hlit : forall x, 32 <= x <= 126 -> x <> 60 -> x <> 62 -> x <> 38 -> Forall json_safe [92; x])
    by (intros; repeat (apply Forall_cons_2; [unfold json_safe; lia|]); apply Forall_nil_2).
  destruct ((b =? 92) || (b =? 34)) eqn:E; [apply Hlit; apply orb_true_iff in E; lia|].
  repeat (case_match; [apply Hlit; lia|]).
  destruct (hex_byte_digits b Hb) as (h & l & -> & Hh & Hl & _).
  repeat (apply Forall_cons_2; [try (unfold json_safe; lia)|]); try apply Forall_nil_2;
    unfold json_safe, lowerhex; case_match; lia.
Qed.

Lemma rune_chunk_safe r bs : encoded r bs -> Forall json_safe (rune_chunk r bs).
Proof.
  intros He. unfold rune_chunk. pose proof (encoded_scalar _ _ He) as [Hr _].
  destruct (Z.ltb_spec r 0x80).
  - destruct (html_safe r) eqn:Hs; [|apply ascii_escape_safe; unfold is_byte; lia].
    destruct (html_safe_plain r Hs) as (?&?&?&?&?&?). apply Forall_singleton. unfold json_safe. lia.
  - destruct (_ || _).
    + repeat (apply Forall_cons_2; [try (unfold json_safe; lia)|]); try apply Forall_nil_2.
      pose proof (land15_range r). unfold json_safe, lowerhex. case_match; lia.
    + eapply Forall_impl; [by eapply encoded_high|]. unfold json_safe. simpl. lia.
Qed.

Lemma string_contents_safe s : Forall is_byte s -> Forall json_safe (string_contents s).
Proof.
  revert s. apply rune_ind; [constructor|intros r bs s He IH|intros b s _ Hd IH].
  - rewrite (string_contents_encoded r) by done. by apply Forall_app_2; [apply rune_chunk_safe|].
  - rewrite string_contents_invalid by done. apply Forall_app_2; [|done].
    repeat (apply Forall_cons_2; [unfold json_safe; lia|]). apply Forall_nil_2.
Qed.

Lemma digits_safe l : Forall is_digit l -> Forall json_safe l.
Proof. intros Hl. eapply Forall_impl; [exact Hl|]. unfold is_digit, json_safe. lia. Qed.

Lemma number_text_safe l : number_text l -> Forall json_safe l.
Proof.
  assert (Hsign : forall neg : bool, Forall json_safe (if neg then [45] else []))
    by (intros []; [apply Forall_singleton; unfold json_safe; lia|constructor]).
  destruct 1 as [neg l [Hl _]|neg l f [Hl _] _ Hf|neg d f sign x Hd _ Hf Hs _ Hx];
    apply Forall_app_2; try apply Hsign; try (by apply digits_safe).
  - apply Forall_app_2; [by apply digits_safe|].
    apply Forall_cons_2; [unfold json_safe; lia|by apply digits_safe].
  - apply Forall_app_2; [by apply digits_safe, Forall_singleton|]. apply Forall_app_2.
    + case_bool_decide; [constructor|]. apply Forall_cons_2; [unfold json_safe; lia|by apply digits_safe].
    + apply Forall_app_2; [|by apply digits_safe].
      repeat (apply Forall_cons_2; [unfold json_safe; lia|]). apply Forall_nil_2.
Qed.

Lemma append_string_safe s : Forall is_byte s -> Forall json_safe (append_string s).
Proof.
  intros Hs. assert (Hq : json_safe 34) by (unfold json_safe; lia).
  repeat apply Forall_app_2; [by apply Forall_singleton|by apply string_contents_safe|by apply Forall_singleton].
Qed.

Lemma object_text_safe fields text : object_text fields = Some text -> Forall json_safe text.
Proof.
  assert (Hp : forall c, c = 123 \/ c = 125 \/ c = 44 \/ c = 58 -> Forall json_safe [c])
    by (intros; apply Forall_singleton; unfold json_safe; lia).
  unfold object_text. destruct (members_text fields) as [ms|] eqn:Hms; [|done].
  cbn [mbind option_bind]. intros <-%(inj Some).
  assert (Hsafe : Forall json_safe ms); [|by repeat apply Forall_app_2; auto].
  revert ms Hms. induction fields as [|[name v] fields IH]; intros ms; cbn [members_text];
    [intros [= <-]; constructor|].
  destruct (value_text v) as [vt|] eqn:Hv; [|done]. cbn [mbind option_bind].
  destruct (members_text fields) as [more|]; [|done]. cbn [mbind option_bind]. intros <-%(inj Some).
  apply Forall_app_2; [apply append_string_safe, bytes_of_range|].
  apply Forall_app_2; [auto|]. apply Forall_app_2; [|apply Forall_app_2; [|by apply IH]].
  - destruct v; cbn [value_text] in Hv; [apply (inj Some) in Hv as <-; apply append_string_safe, bytes_of_range|].
    by eapply number_text_safe, json_float_text.
  - case_bool_decide; auto.
Qed.
