(* ===== verification/Scoring.v ===== *)
(** * model-service/internal/scoring: the fraud-risk formula

    [Score] follows [scoring.go] line by line on [float64] values.  The
    reference definition is a table of rules in whole cents; the theorems show
    that the floating-point code returns exactly the [float64] nearest to the
    sum of the triggered rules, that every score lies between 0.05 and 0.50
    (so the clamp to 1.0 is never taken), that withholding features never
    lowers a score, and that the explanations name exactly the rules that
    fired and hold no control character. *)

From Stdlib Require Import String.
From S2P Require Import Prelude Float64 GoStrings.

(** Reading a missing key of a Go [map[string]string] gives [""]. *)
Definition feature (features : gmap string string) (k : string) : string :=
  default "" (features !! k).

Definition ModelVersion : string := "rules-v1".
Definition baseScore : float64 := f64_lit 5 100.

Section Score.
(** Unicode printability above U+00FF, used only by [%q]. *)
Variable isPrintTable : Z -> bool.

(** [fmt.Sprintf("policy_status=%q (+0.30)", s)]. *)
Definition unknown_status_text (s : string) : string :=
  "policy_status=" +:+ Quote isPrintTable s +:+ " (+0.30)".

Definition Score (features : gmap string string) : float64 * list string :=
  let score := baseScore in
  let explanations := [] in
  let '(score, explanations) :=
    let status := feature features "policy_status" in
    if bool_decide (status = "active"%string) then (score, explanations)
    else if bool_decide (status = "lapsed"%string) then
      (f64_add score (f64_lit 15 100),
       explanations ++ ["policy_status=lapsed (+0.15)"]%string)
    else if bool_decide (status = "cancelled"%string) then
      (f64_add score (f64_lit 25 100),
       explanations ++ ["policy_status=cancelled (+0.25)"]%string)
    else
      (f64_add score (f64_lit 30 100),
       explanations ++ [unknown_status_text status]%string) in
  let '(score, explanations) :=
    if bool_decide (feature features "policy_coverage_type" = ""%string) then
      (f64_add score (f64_lit 5 100),
       explanations ++ ["coverage_type unknown (+0.05)"]%string)
    else (score, explanations) in
  let '(addressValid, _) := ParseBool (feature features "address_valid") in
  let '(score, explanations) :=
    if negb addressValid then
      (f64_add score (f64_lit 10 100),
       explanations ++ ["address invalid or unverified (+0.10)"]%string)
    else (score, explanations) in
  let score :=
    math_Min (f64_of_Z 1)
      (f64_div (math_Round (f64_mul score (f64_of_Z 100))) (f64_of_Z 100)) in
  let explanations :=
    if bool_decide (length explanations = 0%nat)
    then ["no risk factors detected"%string] else explanations in
  (score, explanations).

(** ** The reference: a table of rules in cents *)

Definition status_rule (features : gmap string string) : option (Z * string) :=
  let s := feature features "policy_status" in
  if bool_decide (s = "active"%string) then None
  else if bool_decide (s = "lapsed"%string) then Some (15, "policy_status=lapsed (+0.15)"%string)
  else if bool_decide (s = "cancelled"%string) then Some (25, "policy_status=cancelled (+0.25)"%string)
  else Some (30, unknown_status_text s).

Definition coverage_rule (features : gmap string string) : option (Z * string) :=
  if bool_decide (feature features "policy_coverage_type" = ""%string)
  then Some (5, "coverage_type unknown (+0.05)"%string) else None.

Definition address_rule (features : gmap string string) : option (Z * string) :=
  if (ParseBool (feature features "address_valid")).1 then None
  else Some (10, "address invalid or unverified (+0.10)"%string).

(** The rules that fire on a feature map, in the order they are tried. *)
Definition triggered (features : gmap string string) : list (Z * string) :=
  omap (λ rule, rule features) [status_rule; coverage_rule; address_rule].

Definition total_cents (fired : list (Z * string)) : Z :=
  foldr (λ r acc, r.1 + acc) 5 fired.

Definition risk_cents (features : gmap string string) : Z :=
  total_cents (triggered features).

Definition explain (fired : list (Z * string)) : list string :=
  match fired with [] => ["no risk factors detected"%string] | _ => fired.*2 end.
End Score.

(** The score before the clamp to 1.0: [math.Round(score*100)/100]. *)
Definition unclamped (x : float64) : float64 :=
  f64_div (math_Round (f64_mul x (f64_of_Z 100))) (f64_of_Z 100).

(** ** Lemmas *)

(** The float64 nearest to [c] cents is monotone on the range of scores. *)
Lemma cents_monotone (c d : Z) :
  5 <= c <= d -> d <= 50 -> f64_leb (f64_lit c 100) (f64_lit d 100) = true.
Proof.
  intros Hcd Hd.
  assert (Hall : forallb (λ x, forallb (λ y, (y <? x) || f64_leb (f64_lit x 100) (f64_lit y 100))
                    (seqZ 5 46)) (seqZ 5 46) = true) by by_compute.
  pose proof (forallb_seqZ _ _ _ (forallb_seqZ _ _ _ Hall c ltac:(lia)) d ltac:(lia)) as Hle.
  clear Hall. rename Hle into Hall. cbn beta in Hall.
  apply orb_true_iff in Hall as [Hlt|?]; [|done]. apply Z.ltb_lt in Hlt. lia.
Qed.

Section Facts.
Context (isPrintTable : Z -> bool).
Implicit Types features : gmap string string.

(** The cents of each rule, as far as the total depends on them. *)
Lemma risk_cents_cases features :
  exists s c a, risk_cents isPrintTable features = 5 + s + c + a /\
    s = from_option fst 0 (status_rule isPrintTable features) /\
    c = from_option fst 0 (coverage_rule features) /\
    a = from_option fst 0 (address_rule features).
Proof.
  eexists _, _, _. split; [|done].
  unfold risk_cents, triggered, total_cents. simpl.
  destruct (status_rule isPrintTable features) as [[]|],
    (coverage_rule features) as [[]|], (address_rule features) as [[]|]; simpl; lia.
Qed.

Lemma status_rule_range features :
  from_option fst 0 (status_rule isPrintTable features) ∈ [0; 15; 25; 30].
Proof. unfold status_rule. repeat case_match; simpl; set_solver. Qed.

Lemma coverage_rule_range features :
  from_option fst 0 (coverage_rule features) ∈ [0; 5].
Proof. unfold coverage_rule. repeat case_match; simpl; set_solver. Qed.

Lemma address_rule_range features :
  from_option fst 0 (address_rule features) ∈ [0; 10].
Proof. unfold address_rule. repeat case_match; simpl; set_solver. Qed.

Lemma risk_cents_range features : 5 <= risk_cents isPrintTable features <= 50.
Proof.
  destruct (risk_cents_cases features) as (s & c & a & -> & -> & -> & ->).
  pose proof (status_rule_range features) as Hs.
  pose proof (coverage_rule_range features) as Hc.
  pose proof (address_rule_range features) as Ha.
  set_unfold. lia.
Qed.

(** Fewer features, more risk: each rule taken alone. *)
Lemma feature_subseteq features features' k :
  features ⊆ features' ->
  feature features k = feature features' k \/ feature features k = "".
Proof.
  intros Hsub. unfold feature.
  destruct (features !! k) as [v|] eqn:E; [left|by right].
  by rewrite (lookup_weaken _ _ _ _ E Hsub).
Qed.

Lemma risk_cents_antitone features features' :
  features ⊆ features' ->
  risk_cents isPrintTable features' <= risk_cents isPrintTable features.
Proof.
  intros Hsub.
  destruct (risk_cents_cases features) as (s & c & a & -> & -> & -> & ->).
  destruct (risk_cents_cases features') as (s' & c' & a' & -> & -> & -> & ->).
  assert (Hs : from_option fst 0 (status_rule isPrintTable features')
               <= from_option fst 0 (status_rule isPrintTable features)).
  { pose proof (status_rule_range features') as Hr. set_unfold.
    unfold status_rule in *.
    destruct (feature_subseteq features features' "policy_status" Hsub) as [-> | ->]; [lia|].
    simpl. lia. }
  assert (Hc : from_option fst 0 (coverage_rule features')
               <= from_option fst 0 (coverage_rule features)).
  { pose proof (coverage_rule_range features') as Hr. set_unfold.
    unfold coverage_rule in *.
    destruct (feature_subseteq features features' "policy_coverage_type" Hsub) as [-> | ->]; [lia|].
    simpl. lia. }
  assert (Ha : from_option fst 0 (address_rule features')
               <= from_option fst 0 (address_rule features)).
  { pose proof (address_rule_range features') as Hr. set_unfold.
    unfold address_rule in *.
    destruct (feature_subseteq features features' "address_valid" Hsub) as [-> | ->]; [lia|].
    simpl. lia. }
  lia.
Qed.

(** The formula against the table, both components. *)
Lemma Score_spec features :
  Score isPrintTable features =
    (f64_lit (risk_cents isPrintTable features) 100,
     explain (triggered isPrintTable features)).
Proof.
  unfold Score, risk_cents, triggered, explain, total_cents,
    status_rule, coverage_rule, address_rule.
  cbn [omap list_omap].
  generalize (unknown_status_text isPrintTable (feature features "policy_status")).
  generalize (feature features "policy_status") (feature features "policy_coverage_type").
  destruct (ParseBool (feature features "address_valid")) as [v ok].
  intros st cov text.
  destruct (bool_decide (st = "active"%string)), (bool_decide (st = "lapsed"%string)),
    (bool_decide (st = "cancelled"%string)), (bool_decide (cov = ""%string)), v;
    cbn; (apply (f_equal2 pair); [by_compute|reflexivity]).
Qed.
End Facts.

(** ** Properties *)
Section Properties.
Context (isPrintTable : Z -> bool).
Implicit Types features : gmap string string.

(** Every score is a number between 0.05 and 0.50, whatever the feature
    map; in particular it lies in [0, 1] and the clamp to 1.0 is never the
    value returned. *)
Lemma Score_bounds features :
  f64_is_finite (Score isPrintTable features).1 = true /\
  f64_leb (f64_lit 5 100) (Score isPrintTable features).1 = true /\
  f64_leb (Score isPrintTable features).1 (f64_lit 50 100) = true /\
  f64_ltb (Score isPrintTable features).1 (f64_of_Z 1) = true.
Proof.
  rewrite Score_spec. simpl. pose proof (risk_cents_range isPrintTable features) as Hr.
  assert (Hall : forallb (λ c, f64_is_finite (f64_lit c 100)
            && f64_ltb (f64_lit c 100) (f64_of_Z 1)) (seqZ 5 46) = true) by by_compute.
  pose proof (forallb_seqZ _ _ _ Hall (risk_cents isPrintTable features) ltac:(lia)) as Hc.
  cbn beta in Hc. apply andb_true_iff in Hc as [Hfin Hlt].
  split_and!; [exact Hfin|apply cents_monotone; lia|apply cents_monotone; lia|exact Hlt].
Qed.

(** C15: [Score] implements the rule table: the binary64 computation of
    [scoring.go] (additions, [Round(score*100)/100], clamp) returns exactly
    the float64 nearest to 5 cents plus the weights of the rules that fire,
    and the explanations are the texts of those rules in order (or the one
    "no risk factors" line when none fires).  Whatever the feature map holds
    the score is a number between 0.05 and 0.50; the clamp to 1.0 is never the
    value returned. *)
Theorem Score_refines_rule_table features :
  let '(score, explanations) := Score isPrintTable features in
  score = f64_lit (risk_cents isPrintTable features) 100 /\
  explanations = explain (triggered isPrintTable features) /\
  f64_is_finite score = true /\
  f64_leb (f64_lit 5 100) score = true /\ f64_leb score (f64_lit 50 100) = true /\
  f64_ltb score (f64_of_Z 1) = true.
Proof. pose proof (Score_bounds features) as Hb. rewrite Score_spec in *. by split_and!; try apply Hb. Qed.

(** Missing features are never an advantage: a feature map that extends
    another one (the same entries and possibly more) scores at most as high,
    so withholding any enrichment result never lowers the score and the empty
    map is the riskiest. *)
Theorem Score_antitone features features' :
  features ⊆ features' ->
  f64_leb (Score isPrintTable features').1 (Score isPrintTable features).1 = true.
Proof.
  intros Hsub. rewrite !Score_spec. simpl.
  pose proof (risk_cents_antitone isPrintTable _ _ Hsub).
  pose proof (risk_cents_range isPrintTable features).
  pose proof (risk_cents_range isPrintTable features'). apply cents_monotone; lia.
Qed.

(** The explanations that the service logs are non-empty and contain no
    control character (no line break, escape or DEL), whatever bytes the
    [policy_status] feature holds. *)
Theorem Score_explanations_single_line features :
  (Score isPrintTable features).2 <> [] /\
  Forall (λ t, Forall not_control (bytes_of t)) (Score isPrintTable features).2.
Proof.
  rewrite Score_spec. simpl.
  assert (Hlit : forall t, forallb (λ b, bool_decide (not_control b)) (bytes_of t) = true ->
                   Forall not_control (bytes_of t)).
  { intros t Ht. apply Forall_forall. intros b Hb. rewrite forallb_forall in Ht.
    apply (bool_decide_unpack _), Is_true_true, Ht, list_elem_of_In, Hb. }
  assert (Hst : forall p, status_rule isPrintTable features = Some p ->
                  Forall not_control (bytes_of p.2)).
  { unfold status_rule. intros p Hp. repeat case_match; simplify_eq/=; try (by apply Hlit).
    unfold unknown_status_text. rewrite !bytes_of_app.
    repeat apply Forall_app_2; [by apply Hlit|apply Quote_not_control|by apply Hlit]. }
  unfold explain, triggered. cbn [omap list_omap].
  unfold coverage_rule, address_rule.
  destruct (status_rule isPrintTable features) as [[c t]|] eqn:E;
    [specialize (Hst _ eq_refl)|clear Hst]; simpl in *;
    repeat case_match; simplify_eq/=; (split; [done|]);
    repeat (apply Forall_cons_2; [by first [done|apply Hlit]|]); apply Forall_nil_2.
Qed.
End Properties.

Lemma Score_antitone_witness :
  let known := {["policy_status" := "active"; "policy_coverage_type" := "full"]}%string in
  f64_leb (Score (λ _, false) known).1 (Score (λ _, false) ∅).1 = true.
Proof. apply (Score_antitone (λ _, false)). apply map_empty_subseteq. Defined.

(** The scores of the unit tests, bit for bit. *)
Example Score_all_good :
  Score (λ _, false) (list_to_map [("policy_status", "active");
    ("policy_coverage_type", "full"); ("address_valid", "true")]%string)
  = (f64_lit 5 100, ["no risk factors detected"%string]).
Proof. by_compute. Qed.

Example Score_empty :
  (Score (λ _, false) ∅).1 = f64_lit 50 100 /\ length (Score (λ _, false) ∅).2 = 3%nat.
Proof. by_compute. Qed.

Example Score_policy_degraded :
  (Score (λ _, false) {["address_valid" := "true"%string]}).1 = f64_lit 40 100.
Proof. by_compute. Qed.
