(* ===== verification/Messages.v ===== *)
(** * Messages exchanged between the services

    The protobuf messages of [src/proto] as records, with the getters of the
    generated Go code, which return the zero value on a nil pointer; a pointer
    to a message is an [option].  [ScoredClaimEvent] is the Kafka payload of
    [internal/kafka/publisher.go]. *)

From S2P Require Import Prelude Float64.

(** ** claims.v1 *)
Record ClaimEvent := mkClaimEvent {
  ClaimId : string;
  CorrelationId : string;
  Product : string;
  EventType : string;
  PolicyNumber : string;
  ClaimantName : string;
  RawAddress : string }.

Definition claim_field (f : ClaimEvent -> string) (c : option ClaimEvent) : string :=
  from_option f "" c.
Definition GetClaimId := claim_field ClaimId.
Definition GetCorrelationId := claim_field CorrelationId.
Definition GetProduct := claim_field Product.
Definition GetEventType := claim_field EventType.
Definition GetPolicyNumber := claim_field PolicyNumber.
Definition GetClaimantName := claim_field ClaimantName.
Definition GetRawAddress := claim_field RawAddress.

(** ** Enrichment services *)
Record HashClaimantIdResponse := mkHashResp { hr_claimant_id_hash : string }.

Record NormalizeResponse := mkNormResp {
  nr_normalized_address : string;
  nr_line1 : string;
  nr_city : string;
  nr_state : string;
  nr_postal_code : string;
  nr_country : string;
  nr_valid : bool }.

Record LookupPolicyResponse := mkLookupResp {
  lr_found : bool;
  lr_status : string;
  lr_coverage_type : string }.

Definition GetClaimantIdHash (r : option HashClaimantIdResponse) : string :=
  from_option hr_claimant_id_hash "" r.
Definition GetNormalizedAddress (r : option NormalizeResponse) : string :=
  from_option nr_normalized_address "" r.
Definition GetValid (r : option NormalizeResponse) : bool :=
  from_option nr_valid false r.
Definition GetStatus (r : option LookupPolicyResponse) : string :=
  from_option lr_status "" r.
Definition GetCoverageType (r : option LookupPolicyResponse) : string :=
  from_option lr_coverage_type "" r.

(** ** model.v1 *)
Record ScoreResponse := mkScoreResp {
  sr_score : float64;
  sr_model_version : string }.

Definition GetScore (r : option ScoreResponse) : float64 :=
  from_option sr_score (S754_zero false) r.
Definition GetModelVersion (r : option ScoreResponse) : string :=
  from_option sr_model_version "" r.

(** ** tenantconfig.v1 *)
Record TenantContext := mkTenantContext {
  tc_tenant_id : string;
  tc_display_name : string;
  tc_status : string }.

Definition TenantContext_GetStatus (t : option TenantContext) : string :=
  from_option tc_status "" t.

(** ** orchestration.v1 *)
Record ProcessClaimRequest := mkProcessReq { pq_claim : option ClaimEvent }.
Definition GetClaim (r : option ProcessClaimRequest) : option ClaimEvent := r ≫= pq_claim.
Record ProcessClaimResponse := mkProcessClaimResponse {
  pr_claim_id : string;
  pr_correlation_id : string;
  pr_status : string;
  pr_normalized_address : string;
  pr_fraud_score : float64;
  pr_model_version : string }.

(** ** The event published to [claims.realtime] *)
Record ScoredClaimEvent := mkScoredClaimEvent {
  ev_ClaimID : string;
  ev_CorrelationID : string;
  ev_TenantID : string;
  ev_Status : string;
  ev_FraudScore : float64;
  ev_ModelVersion : string }.

Definition TopicClaimsRealtime : string := "claims.realtime".

#[export] Instance ClaimEvent_eq_dec : EqDecision ClaimEvent.
Proof. solve_decision. Defined.
#[export] Instance ScoreResponse_eq_dec : EqDecision ScoreResponse.
Proof. solve_decision. Defined.
#[export] Instance TenantContext_eq_dec : EqDecision TenantContext.
Proof. solve_decision. Defined.
#[export] Instance ProcessClaimResponse_eq_dec : EqDecision ProcessClaimResponse.
Proof. solve_decision. Defined.
#[export] Instance ScoredClaimEvent_eq_dec : EqDecision ScoredClaimEvent.
Proof. solve_decision. Defined.
