(* ===== verification/Payloads.v ===== *)
(** * The JSON payloads of the services

    The request and response bodies of the gateway
    ([claims-gateway/internal/handler/claims.go]) and the event that
    orchestration publishes ([kafka/publisher.go]), written and read as
    [encoding/json] does for those structs. *)

From stdpp Require Import sorting.
From S2P Require Import Prelude Float64 GoStrings Utf8 FormatFloat Json JsonFacts Messages.

(** ** The gateway's payloads *)

Record claimRequest := mkClaimRequest {
  q_ClaimID : string;
  q_Product : string;
  q_EventType : string;
  q_PolicyNumber : string;
  q_ClaimantName : string;
  q_RawAddress : string }.

Record claimResponse := mkClaimResponse {
  p_ClaimID : string;
  p_CorrelationID : string;
  p_Status : string;
  p_NormalizedAddress : string;
  p_FraudScore : float64;
  p_ModelVersion : string }.

(** The values the handlers encode. *)
Inductive Body :=
  | BClaim (r : claimResponse)
  | BError (Error : string)
  | BMap (m : gmap string string).

(** [json.NewEncoder(w).Encode(body)]: the bytes written, [None] on an error;
    a map is written in the order of its keys. *)
Definition key_le (a b : string * string) : Prop := String.leb a.1 b.1 = true.
#[export] Instance key_le_dec a b : Decision (key_le a b).
Proof. unfold key_le. apply _. Defined.
Definition body_fields (b : Body) : list (string * field_value) :=
  match b with
  | BClaim r =>
      [("claim_id", FString (p_ClaimID r)); ("correlation_id", FString (p_CorrelationID r));
       ("status", FString (p_Status r)); ("normalized_address", FString (p_NormalizedAddress r));
       ("fraud_score", FFloat (p_FraudScore r)); ("model_version", FString (p_ModelVersion r))]%string
  | BError e => [("error"%string, FString e)]
  | BMap m =>
      (λ kv, (kv.1, FString kv.2)) <$>
        merge_sort key_le (map_to_list m)
  end.
Definition Encode (b : Body) : option string :=
  text ← object_text (body_fields b); mret (string_of (text ++ [10])).

(** ** Decoding a request *)

(** [foldName]: ASCII letters in upper case; of the other runes only these two
    fold to a letter of a field name, and no rune else folds to ASCII. *)
Definition fold_rune (r : Z) : Z :=
  if in_range r 97 122 then r - 32
  else if r =? 0x17F then 83
  else if r =? 0x212A then 75
  else r.
Definition fold_name (name : list Z) : list Z := runes name ≫= λ r, EncodeRune (fold_rune r).

(** The fields of the struct, with their assignment. *)
Definition claim_fields : list (string * (string -> claimRequest -> claimRequest)) :=
  [("claim_id", λ s q, mkClaimRequest s (q_Product q) (q_EventType q) (q_PolicyNumber q) (q_ClaimantName q) (q_RawAddress q));
   ("product", λ s q, mkClaimRequest (q_ClaimID q) s (q_EventType q) (q_PolicyNumber q) (q_ClaimantName q) (q_RawAddress q));
   ("event_type", λ s q, mkClaimRequest (q_ClaimID q) (q_Product q) s (q_PolicyNumber q) (q_ClaimantName q) (q_RawAddress q));
   ("policy_number", λ s q, mkClaimRequest (q_ClaimID q) (q_Product q) (q_EventType q) s (q_ClaimantName q) (q_RawAddress q));
   ("claimant_name", λ s q, mkClaimRequest (q_ClaimID q) (q_Product q) (q_EventType q) (q_PolicyNumber q) s (q_RawAddress q));
   ("raw_address", λ s q, mkClaimRequest (q_ClaimID q) (q_Product q) (q_EventType q) (q_PolicyNumber q) (q_ClaimantName q) s)]%string.

(** The field a key names: exactly, else up to case. *)
Definition find_field (key : list Z) : option (string * (string -> claimRequest -> claimRequest)) :=
  match List.find (λ f, bool_decide (bytes_of f.1 = key)) claim_fields with
  | Some f => Some f
  | None => List.find (λ f, bool_decide (fold_name (bytes_of f.1) = fold_name key)) claim_fields
  end.

(** The word [UnmarshalTypeError] has for a value. *)
Definition type_word (v : json) : string :=
  match v with
  | JNull => "null" | JBool _ => "bool" | JNumber _ => "number" | JString _ => "string"
  | JArray _ => "array" | JObject _ => "object"
  end.
Definition field_type_error (v : json) (field : string) : string :=
  "json: cannot unmarshal " +:+ type_word v +:+ " into Go struct field claimRequest." +:+ field
    +:+ " of type string".

(** One member of the object: the struct so far and the first type error;
    [None]: the decoder panics on a literal the scanner should have refused. *)
Definition decode_member (acc : claimRequest * option string) (m : list Z * json)
    : option (claimRequest * option string) :=
  key ← unquote m.1;
  match find_field key with
  | None => mret acc
  | Some (name, set) =>
      match m.2 with
      | JNull => mret acc
      | JString raw => s ← unquote raw; mret (set (string_of s) acc.1, acc.2)
      | v => mret (acc.1, Some (default (field_type_error v name) acc.2))
      end
  end.
Fixpoint decode_members (acc : claimRequest * option string) (ms : list (list Z * json))
    : option (claimRequest * option string) :=
  match ms with
  | [] => Some acc
  | m :: ms' => acc' ← decode_member acc m; decode_members acc' ms'
  end.

Definition zero_request : claimRequest := mkClaimRequest "" "" "" "" "" "".

Definition unmarshal_request (v : json) : option (claimRequest + string) :=
  match v with
  | JObject ms =>
      acc ← decode_members (zero_request, None) ms;
      mret match acc.2 with Some err => inr err | None => inl acc.1 end
  | JNull => Some (inl zero_request)
  | v => Some (inr ("json: cannot unmarshal " +:+ type_word v +:+
                    " into Go value of type handler.claimRequest"))
  end.

(** [json.NewDecoder(body).Decode(&req)]: the request, or the error's text.
    The panic of the last branch never happens ([Decode_total]). *)
Definition Decode (body : string) : claimRequest + string :=
  match readValue (bytes_of body) with
  | inr err => inr err
  | inl v => default (inr "JSON decoder out of sync - data changing underfoot?"%string)
               (unmarshal_request v)
  end.

(** ** The published event *)

Definition event_fields (ev : ScoredClaimEvent) : list (string * field_value) :=
  [("claim_id", FString (ev_ClaimID ev)); ("correlation_id", FString (ev_CorrelationID ev));
   ("tenant_id", FString (ev_TenantID ev)); ("status", FString (ev_Status ev));
   ("fraud_score", FFloat (ev_FraudScore ev)); ("model_version", FString (ev_ModelVersion ev))]%string.

(** The text of an [UnsupportedValueError]. *)
Definition unsupported_value (x : float64) : string :=
  "json: unsupported value: " +:+
  match x with S754_infinity false => "+Inf" | S754_infinity true => "-Inf" | _ => "NaN" end.

(** [json.Marshal(event)]. *)
Definition Marshal (ev : ScoredClaimEvent) : result string :=
  match object_text (event_fields ev) with
  | Some text => Ok (string_of text)
  | None => Err (ErrNew (unsupported_value (ev_FraudScore ev)))
  end.

(** Payloads are evaluated by [vm_compute] only. *)
Arguments Encode : simpl never.
Arguments Decode : simpl never.
Arguments Marshal : simpl never.

Example Decode_folds :
  Decode (string_of (json_literal "{'CLAIM_ID':'C\u002d1','product':null,'product':'auto','x':[{}],'Event_Type':'claim.fnol'} {")) =
  inl (mkClaimRequest "C-1" "auto" "claim.fnol" "" "" "").
Proof. by_compute. Qed.
Example Decode_type_error :
  Decode (string_of (json_literal "{'claim_id':12,'product':{}}")) =
    inr "json: cannot unmarshal number into Go struct field claimRequest.claim_id of type string"%string /\
  Decode "null" = inl zero_request /\
  Decode "[]" = inr "json: cannot unmarshal array into Go value of type handler.claimRequest"%string.
Proof. by_compute. Qed.
Example Encode_error :
  Encode (BError "a<b") = Some (string_of (json_literal "{'error':'a\u003cb'}" ++ [10])) /\
  Encode (BMap {["status" := "ok"]}%string) = Some (string_of (json_literal "{'status':'ok'}" ++ [10])).
Proof. by_compute. Qed.
