(* ===== verification/PayloadFacts.v ===== *)
(** * The payloads are read as they were written

    What a consumer finds in an encoded event or response, what the gateway
    makes of an encoded request, and what holds of any request it decodes. *)

From Stdlib Require Ascii String.
From S2P Require Import Prelude Float64 GoStrings Utf8 FormatFloat Json JsonFacts Messages Payloads.

(** ** A consumer's view of an object *)

(** A string as JSON carries it: its invalid bytes replaced. *)
Definition clean (s : string) : string := string_of (sanitize (bytes_of s)).
Definition valid_string (s : string) : Prop := valid_utf8 (bytes_of s).

Definition object_member (v : json) (name : string) : option json :=
  match v with
  | JObject ms => snd <$> List.find (λ m, bool_decide (unquote m.1 = Some (bytes_of name))) ms
  | _ => None
  end.
Definition string_member (v : json) (name : string) : option string :=
  match object_member v name with Some (JString raw) => string_of <$> unquote raw | _ => None end.
Definition number_member (v : json) (name : string) : option (list Z) :=
  match object_member v name with Some (JNumber text) => Some text | _ => None end.

(** ** Strings and bytes *)

Lemma string_of_bytes_of s : string_of (bytes_of s) = s.
Proof.
  unfold string_of, bytes_of. rewrite <- list_fmap_compose.
  assert (Hid : forall l : list Ascii.ascii, (char_of ∘ byte_of) <$> l = l).
  { induction l as [|c l IH]; [done|]. rewrite fmap_cons, IH. f_equal.
    unfold char_of, byte_of. simpl. by rewrite N2Z.id, Ascii.ascii_N_embedding. }
  rewrite Hid. apply String.string_of_list_ascii_of_string.
Qed.

Lemma bytes_of_inj s t : bytes_of s = bytes_of t -> s = t.
Proof. intros H. by rewrite <- (string_of_bytes_of s), H, string_of_bytes_of. Qed.

Lemma valid_utf8_bytes s : valid_utf8 s -> Forall is_byte s.
Proof.
  intros (rs & Hrs & ->). apply Forall_bind. eapply Forall_impl; [exact Hrs|].
  intros r Hr. by eapply encoded_bytes, EncodeRune_encoded.
Qed.

Lemma clean_valid s : valid_string s -> clean s = s.
Proof. intros Hs. unfold clean. by rewrite sanitize_valid, string_of_bytes_of. Qed.

Lemma valid_utf8_nil : valid_utf8 [].
Proof. by exists []. Qed.
Lemma valid_utf8_app s t : valid_utf8 s -> valid_utf8 t -> valid_utf8 (s ++ t).
Proof.
  intros (rs & Hrs & ->) (rs' & Hrs' & ->). exists (rs ++ rs'). split; [by apply Forall_app_2|].
  by rewrite bind_app.
Qed.
Lemma valid_utf8_rune r : valid_utf8 (EncodeRune r).
Proof.
  assert (Hs : forall r, scalar r -> valid_utf8 (EncodeRune r)).
  { intros r' Hr'. exists [r']. split; [by apply Forall_singleton|]. by rewrite bind_singleton. }
  destruct (decide (scalar r)) as [|Hn]; [by apply Hs|].
  assert (EncodeRune r = EncodeRune RuneError) as ->.
  { unfold scalar in Hn. unfold EncodeRune at 1.
    replace (in_range r 0 0x7F) with false by (unfold in_range; lia).
    replace (in_range r 0x80 0x7FF) with false by (unfold in_range; lia).
    replace ((r <? 0) || (0x10FFFF <? r) || in_range r 0xD800 0xDFFF) with true
      by (unfold in_range; lia). done. }
  apply Hs. by apply (bool_decide_unpack _).
Qed.

Lemma simple_escape_range e b : simple_escape e = Some b -> 0 <= b < 0x80.
Proof.
  unfold simple_escape. case_bool_decide as He.
  - rewrite !elem_of_cons, elem_of_nil in He. intros [= <-]. destruct_or!; subst; done.
  - repeat case_match; naive_solver lia.
Qed.

(** Whatever a string literal holds, unquoting yields well-formed UTF-8. *)
Lemma unquote_loop_valid n s t : Forall is_byte s -> unquote_loop n s = Some t -> valid_utf8 t.
Proof.
  revert s t. induction n as [|n IH]; intros [|c s] t Hs; cbn [unquote_loop];
    [intros [= <-]; apply valid_utf8_nil|done|intros [= <-]; apply valid_utf8_nil|].
  pose proof (Forall_inv_tail Hs) as Hs'.
  assert (Hone : forall b t', 0 <= b < 0x80 -> valid_utf8 t' -> valid_utf8 (b :: t')).
  { intros b t' Hb Ht'. apply (valid_utf8_app [b]); [|done]. rewrite <- (EncodeRune_ascii b) by done.
    apply valid_utf8_rune. }
  destruct (c =? 92).
  - destruct s as [|e s]; [done|]. destruct (e =? 117).
    + destruct (getu4 (c :: e :: s)) as [rr|]; cbn [mbind option_bind]; [|done].
      set (rest := if is_surrogate rr then _ else _).
      assert (Hrest : Forall is_byte rest.2).
      { unfold rest. destruct (is_surrogate rr); [destruct (_ =? RuneError)|]; cbn [snd];
          by repeat apply Forall_drop. }
      destruct rest as [r rest]. cbn [snd] in Hrest.
      destruct (unquote_loop n rest) as [t'|] eqn:Ht'; cbn [mbind option_bind]; [|done].
      intros <-%(inj Some). apply valid_utf8_app; [apply valid_utf8_rune|by eapply IH].
    + destruct (simple_escape e) as [b|] eqn:He; cbn [mbind option_bind]; [|done].
      destruct (unquote_loop n s) as [t'|] eqn:Ht'; cbn [mbind option_bind]; [|done].
      intros <-%(inj Some). apply Hone; [|by eapply IH; [|exact Ht']; inversion Hs'].
      by eapply simple_escape_range.
  - destruct ((c =? 34) || (c <? 32)) eqn:Hc; [done|].
    destruct (Z.ltb_spec c 0x80).
    + destruct (unquote_loop n s) as [t'|] eqn:Ht'; cbn [mbind option_bind]; [|done].
      intros <-%(inj Some). apply Hone; [lia|by eapply IH].
    + destruct (DecodeRune (c :: s)) as [r w].
      destruct (unquote_loop n (drop w (c :: s))) as [t'|] eqn:Ht'; cbn [mbind option_bind]; [|done].
      intros <-%(inj Some). apply valid_utf8_app; [apply valid_utf8_rune|].
      by eapply IH; [|exact Ht']; apply Forall_drop.
Qed.

Lemma unquote_valid s t : Forall is_byte s -> unquote s = Some t -> valid_utf8 t.
Proof. apply unquote_loop_valid. Qed.

(** ** Reading an object written by the encoder *)

(** Field names that the encoder keeps as they are. *)
Definition plain_name (name : string) : Prop := sanitize (bytes_of name) = bytes_of name.

Lemma unquote_name name :
  plain_name name -> unquote (string_contents (bytes_of name)) = Some (bytes_of name).
Proof. intros Hn. by rewrite unquote_string_contents, Hn by apply bytes_of_range. Qed.

Lemma object_member_fields fields name :
  Forall (λ f, plain_name f.1) fields ->
  object_member (JObject (member_json <$> fields)) name =
    (λ f, field_json f.2) <$> List.find (λ f, bool_decide (f.1 = name)) fields.
Proof.
  intros Hf. unfold object_member. induction Hf as [|[n v] fields Hn _ IH]; [done|].
  rewrite fmap_cons. cbn [List.find member_json fst snd].
  rewrite (unquote_name n) by done.
  rewrite (bool_decide_ext (Some (bytes_of n) = Some (bytes_of name)) (n = name)).
  - case_bool_decide; [done|apply IH].
  - split; [by intros [= ?%bytes_of_inj]|by intros ->].
Qed.

Lemma string_member_field fields name s :
  Forall (λ f, plain_name f.1) fields ->
  List.find (λ f, bool_decide (f.1 = name)) fields = Some (name, FString s) ->
  string_member (JObject (member_json <$> fields)) name = Some (clean s).
Proof.
  intros Hf Hfind. unfold string_member. rewrite object_member_fields, Hfind by done. simpl.
  by rewrite unquote_string_contents by apply bytes_of_range.
Qed.

Lemma number_member_field fields name x text :
  Forall (λ f, plain_name f.1) fields -> json_float x = Some text ->
  List.find (λ f, bool_decide (f.1 = name)) fields = Some (name, FFloat x) ->
  number_member (JObject (member_json <$> fields)) name = Some text.
Proof.
  intros Hf Hx Hfind. unfold number_member. rewrite object_member_fields, Hfind by done. simpl.
  by rewrite Hx.
Qed.

(** An object is encoded exactly when its numbers are finite. *)
Lemma members_text_some fields :
  Forall (λ f, match f.2 with FString _ => True | FFloat x => is_Some (json_float x) end) fields ->
  is_Some (members_text fields).
Proof.
  induction 1 as [|[n v] fields Hv _ [rest IH]]; [by eexists|]. cbn [members_text].
  destruct v as [s|x]; cbn [value_text snd] in *; [|destruct Hv as [t ->]]; cbn [mbind option_bind];
    rewrite IH; by eexists.
Qed.

Lemma members_text_none fields name x :
  (name, FFloat x) ∈ fields -> json_float x = None -> members_text fields = None.
Proof.
  intros Hin Hx. induction fields as [|[n v] fields IH]; [by apply not_elem_of_nil in Hin|].
  cbn [members_text]. apply elem_of_cons in Hin as [[= <- <-]|Hin].
  - cbn [value_text]. by rewrite Hx.
  - destruct (value_text v); cbn [mbind option_bind]; [|done]. by rewrite IH.
Qed.

Lemma text_bytes fields text : object_text fields = Some text -> bytes_of (string_of text) = text.
Proof.
  intros Ht. apply bytes_of_string_of. eapply Forall_impl; [by eapply object_text_safe|].
  unfold json_safe, is_byte. lia.
Qed.

(** ** Events and responses *)

Lemma event_names ev : Forall (λ f, plain_name f.1) (event_fields ev).
Proof. repeat constructor; by_compute. Qed.
Lemma body_names b : (forall m, b <> BMap m) -> Forall (λ f, plain_name f.1) (body_fields b).
Proof. destruct b; [..|naive_solver]; intros _; repeat constructor; by_compute. Qed.

(** An encoded event reads back as the event, unless its score is not a
    number. *)
Lemma Marshal_event ev :
  match json_float (ev_FraudScore ev) with
  | None => Marshal ev = Err (ErrNew (unsupported_value (ev_FraudScore ev)))
  | Some score =>
      exists text v, Marshal ev = Ok text /\ Forall json_safe (bytes_of text) /\
        readValue (bytes_of text) = inl v /\
        string_member v "claim_id" = Some (clean (ev_ClaimID ev)) /\
        string_member v "correlation_id" = Some (clean (ev_CorrelationID ev)) /\
        string_member v "tenant_id" = Some (clean (ev_TenantID ev)) /\
        string_member v "status" = Some (clean (ev_Status ev)) /\
        number_member v "fraud_score" = Some score /\
        string_member v "model_version" = Some (clean (ev_ModelVersion ev))
  end.
Proof.
  unfold Marshal. destruct (json_float (ev_FraudScore ev)) as [score|] eqn:Hx.
  - destruct (members_text_some (event_fields ev)) as [ms Hms].
    { repeat apply Forall_cons_2; try done; try apply Forall_nil_2. simpl. by rewrite Hx. }
    assert (Ht : object_text (event_fields ev) = Some ([123] ++ ms ++ [125])) by (unfold object_text; by rewrite Hms).
    rewrite Ht. eexists _, _. split; [done|]. rewrite (text_bytes _ _ Ht). split; [by eapply object_text_safe|].
    split; [rewrite <- (app_nil_r (_ ++ _)); by apply readValue_object|].
    split_and!; (apply string_member_field || eapply number_member_field); try apply event_names; done.
  - unfold object_text. by rewrite (members_text_none (event_fields ev) "fraud_score" (ev_FraudScore ev))
      by (done || set_solver).
Qed.

(** What every encoded body is: one safe line. *)
Lemma Encode_line b text :
  Encode b = Some text ->
  exists body, bytes_of text = body ++ [10] /\ Forall json_safe body /\
    readValue (bytes_of text) = inl (JObject (member_json <$> body_fields b)).
Proof.
  unfold Encode. destruct (object_text (body_fields b)) as [body|] eqn:Hb; cbn [mbind option_bind]; [|done].
  intros <-%(inj Some). exists body. pose proof (object_text_safe _ _ Hb) as Hsafe.
  rewrite bytes_of_string_of.
  - split; [done|]. split; [done|]. by apply readValue_object.
  - apply Forall_app_2; [|apply Forall_singleton; unfold is_byte; lia].
    eapply Forall_impl; [exact Hsafe|]. unfold json_safe, is_byte. lia.
Qed.

Lemma Encode_claim r :
  match json_float (p_FraudScore r) with
  | None => Encode (BClaim r) = None
  | Some score =>
      exists text v, Encode (BClaim r) = Some text /\ readValue (bytes_of text) = inl v /\
        string_member v "claim_id" = Some (clean (p_ClaimID r)) /\
        string_member v "correlation_id" = Some (clean (p_CorrelationID r)) /\
        string_member v "status" = Some (clean (p_Status r)) /\
        string_member v "normalized_address" = Some (clean (p_NormalizedAddress r)) /\
        number_member v "fraud_score" = Some score /\
        string_member v "model_version" = Some (clean (p_ModelVersion r))
  end.
Proof.
  destruct (json_float (p_FraudScore r)) as [score|] eqn:Hx.
  - destruct (members_text_some (body_fields (BClaim r))) as [ms Hms].
    { repeat apply Forall_cons_2; try done; try apply Forall_nil_2. simpl. by rewrite Hx. }
    destruct (Encode (BClaim r)) as [text|] eqn:He.
    2: { unfold Encode, object_text in He. by rewrite Hms in He. }
    destruct (Encode_line _ _ He) as (body & _ & _ & Hread). eexists _, _. split; [done|].
    split; [exact Hread|].
    split_and!; (apply string_member_field || eapply number_member_field); try (by apply body_names); done.
  - unfold Encode, object_text.
    by rewrite (members_text_none (body_fields (BClaim r)) "fraud_score" (p_FraudScore r))
      by (done || set_solver).
Qed.

Lemma Encode_error_body e :
  exists text v, Encode (BError e) = Some text /\ readValue (bytes_of text) = inl v /\
    string_member v "error" = Some (clean e).
Proof.
  destruct (Encode (BError e)) as [text|] eqn:He; [|done].
  destruct (Encode_line _ _ He) as (body & _ & _ & Hread). eexists _, _. split; [done|].
  split; [exact Hread|]. apply string_member_field; [by apply body_names|done].
Qed.

(** ** Requests *)

(** A client's encoding of a request. *)
Definition request_fields (q : claimRequest) : list (string * field_value) :=
  [("claim_id", FString (q_ClaimID q)); ("product", FString (q_Product q));
   ("event_type", FString (q_EventType q)); ("policy_number", FString (q_PolicyNumber q));
   ("claimant_name", FString (q_ClaimantName q)); ("raw_address", FString (q_RawAddress q))]%string.
Definition clean_request (q : claimRequest) : claimRequest :=
  mkClaimRequest (clean (q_ClaimID q)) (clean (q_Product q)) (clean (q_EventType q))
    (clean (q_PolicyNumber q)) (clean (q_ClaimantName q)) (clean (q_RawAddress q)).
Definition valid_request (q : claimRequest) : Prop :=
  valid_string (q_ClaimID q) /\ valid_string (q_Product q) /\ valid_string (q_EventType q) /\
  valid_string (q_PolicyNumber q) /\ valid_string (q_ClaimantName q) /\ valid_string (q_RawAddress q).

Lemma decode_member_string acc name set s :
  plain_name name -> find_field (bytes_of name) = Some (name, set) ->
  decode_member acc (member_json (name, FString s)) = Some (set (clean s) acc.1, acc.2).
Proof.
  intros Hn Hf. unfold decode_member, member_json. cbn [fst snd field_json].
  rewrite (unquote_name name) by done. cbn [mbind option_bind]. rewrite Hf. cbn [mbind option_bind].
  by rewrite unquote_string_contents by apply bytes_of_range.
Qed.

(** An encoded request decodes to itself, whatever follows it in the body. *)
Lemma Decode_encoded q text rest :
  object_text (request_fields q) = Some text -> Forall is_byte rest ->
  Decode (string_of (text ++ rest)) = inl (clean_request q).
Proof.
  intros Ht Hrest. unfold Decode. rewrite bytes_of_string_of.
  2: { apply Forall_app_2; [|done]. rewrite <- (text_bytes _ _ Ht). apply bytes_of_range. }
  rewrite (readValue_object (request_fields q)) by done.
  cbn [unmarshal_request request_fields fmap list_fmap decode_members].
  do 6 (erewrite decode_member_string by (by_compute || reflexivity); cbn [mbind option_bind fst snd]).
  done.
Qed.

Lemma request_text_some q : is_Some (object_text (request_fields q)).
Proof.
  destruct (members_text_some (request_fields q)) as [ms Hms]; [by repeat constructor|].
  unfold object_text. by rewrite Hms.
Qed.

Lemma clean_request_valid q : valid_request q -> clean_request q = q.
Proof. intros (?&?&?&?&?&?). destruct q. unfold clean_request. simpl in *. by rewrite !clean_valid. Qed.

(** *** Any request *)

Lemma find_field_in key f : find_field key = Some f -> In f claim_fields.
Proof.
  unfold find_field. destruct (List.find _ claim_fields) as [g|] eqn:Hf.
  - intros <-%(inj Some). by apply find_some in Hf as [? _].
  - intros Hg. by apply find_some in Hg as [? _].
Qed.

(** Every field is assigned alone. *)
Lemma set_field_valid name set s q :
  In (name, set) claim_fields -> valid_string s -> valid_request q -> valid_request (set s q).
Proof.
  intros Hin Hs (?&?&?&?&?&?). unfold claim_fields in Hin. simpl in Hin.
  destruct_or!; simplify_eq; by repeat split.
Qed.

Lemma valid_string_of t : valid_utf8 t -> valid_string (string_of t).
Proof. intros Ht. unfold valid_string. by rewrite bytes_of_string_of by by apply valid_utf8_bytes. Qed.

Lemma decode_member_valid acc m :
  member_ok m -> valid_request acc.1 ->
  exists acc', decode_member acc m = Some acc' /\ valid_request acc'.1.
Proof.
  intros [Hk Hv] Hacc. unfold decode_member.
  destruct (contents_unquote _ Hk) as [key ->]. cbn [mbind option_bind].
  destruct (find_field key) as [[name set]|] eqn:Hf; [|by eexists].
  destruct m.2 as [|b|text|raw|es|ms]; try by eexists.
  destruct (contents_unquote _ Hv) as [s Hs]. rewrite Hs. eexists. split; [done|].
  apply (set_field_valid name); [by eapply find_field_in| |done].
  apply valid_string_of. eapply unquote_valid; [by eapply contents_bytes|done].
Qed.

Lemma decode_members_valid ms acc :
  Forall member_ok ms -> valid_request acc.1 ->
  exists acc', decode_members acc ms = Some acc' /\ valid_request acc'.1.
Proof.
  intros Hms. revert acc. induction Hms as [|m ms Hm _ IH]; intros acc Hacc; [by exists acc|].
  cbn [decode_members]. destruct (decode_member_valid acc m Hm Hacc) as (acc' & -> & Hacc'). by apply IH.
Qed.

Lemma zero_request_valid : valid_request zero_request.
Proof. repeat split; apply valid_utf8_nil. Qed.

(** The decoder never panics on what the scanner accepted, and every string of
    the request it yields is well-formed UTF-8. *)
Lemma unmarshal_request_valid buf v :
  Forall is_byte buf -> readValue buf = inl v ->
  exists r, unmarshal_request v = Some r /\ (forall q, r = inl q -> valid_request q).
Proof.
  intros Hbuf Hv. destruct (readValue_ok buf v Hbuf Hv) as [_ Hms].
  destruct v as [|b|text|raw|es|ms]; try (eexists; split; [done|naive_solver]).
  - eexists. split; [done|]. intros q [= <-]. apply zero_request_valid.
  - destruct (decode_members_valid ms (zero_request, None) Hms zero_request_valid) as ([q' err] & Hd & Hq).
    cbn [unmarshal_request]. rewrite Hd. eexists. split; [done|]. intros q. cbn [snd fst] in *.
    destruct err; naive_solver.
Qed.

Lemma Decode_valid body q : Decode body = inl q -> valid_request q.
Proof.
  unfold Decode. destruct (readValue (bytes_of body)) as [v|err] eqn:Hv; [|done].
  destruct (unmarshal_request_valid _ v (bytes_of_range body) Hv) as (r & -> & Hr). by apply Hr.
Qed.

(** The panic branch of [Decode] is never taken. *)
Lemma Decode_total body :
  Decode body = match readValue (bytes_of body) with
                | inr err => inr err
                | inl v => match unmarshal_request v with Some r => r | None => inl zero_request end
                end.
Proof.
  unfold Decode. destruct (readValue (bytes_of body)) as [v|err] eqn:Hv; [|done].
  by destruct (unmarshal_request_valid _ v (bytes_of_range body) Hv) as (r & -> & _).
Qed.
