(* ===== verification/Effects.v ===== *)
(** * Contexts, time, logging and the effect monad

    Every handler is a computation [M E A]: it reads and updates a state (the
    clock, the state [E] of the services outside the modelled component, and
    an oracle for [select] when two channels are ready at the same instant)
    and emits a list of observable events, the outgoing calls and the log
    lines in program order.  The events are write-only, so no computation can
    depend on them.

    A [Ctx] is what the program reads of a [context.Context]: the values stored
    under the package's own keys and the instant, if any, from which the
    context is done, with the error it then reports. *)

From S2P Require Import Prelude Float64 Messages.

(** ** context.Context *)

Definition contextKey : Type := Z.

Record Ctx := mkCtx {
  ctx_values : gmap contextKey string;
  ctx_done : option (Z * CtxErr) }.

Definition Background : Ctx := mkCtx ∅ None.

(** [context.WithValue] and [ctx.Value]. *)
Definition WithValue (ctx : Ctx) (k : contextKey) (v : string) : Ctx :=
  mkCtx (<[k := v]> (ctx_values ctx)) (ctx_done ctx).
Definition Value (ctx : Ctx) (k : contextKey) : option string := ctx_values ctx !! k.

(** [context.WithTimeout] called at instant [now]: the child is done at the
    earlier of the parent's end and the new deadline. *)
Definition WithTimeout (now : Z) (ctx : Ctx) (timeout : Z) : Ctx :=
  let d := now + timeout in
  mkCtx (ctx_values ctx)
    (match ctx_done ctx with
     | Some (t, e) => if t <=? d then Some (t, e) else Some (d, DeadlineExceeded)
     | None => Some (d, DeadlineExceeded)
     end).

(** [ctx.Err()] at instant [now]. *)
Definition ctx_Err (now : Z) (ctx : Ctx) : option CtxErr :=
  match ctx_done ctx with
  | Some (t, e) => if t <=? now then Some e else None
  | None => None
  end.

(** ** Observable events *)

Inductive AttrVal :=
  | AStr (s : string)
  | AInt (z : Z)
  | AFloat (x : float64)
  | AErr (e : GoErr)
  | AStrs (l : list string).

Definition attr : Type := string * AttrVal.

Inductive Level := LInfo | LWarn | LError.

(** What a process does to start and stop: creating a client connection,
    listening on an address, serving on it, closing what it opened. *)
Inductive ProcessOp :=
  | OpNewClient (target : string)
  | OpListen (addr : string)
  | OpServe (addr : string)
  | OpClose (target : string).

(** The outgoing calls of the modelled components, one constructor per method
    of the interfaces they call, and the operations of their processes. *)
Inductive Call :=
  | CallGetDagVersion (tenantID product : string)
  | CallReadFile (path : string)
  | CallHash (correlationID claimantName : string)
  | CallNormalize (correlationID rawAddress : string)
  | CallLookup (correlationID policyNumber : string)
  | CallScore (correlationID : string) (features : gmap string string)
  | CallPublish (event : ScoredClaimEvent)
  | CallGetTenant (tenantID : string)
  | CallProcessClaim (claim : option ClaimEvent)
  | CallProcess (op : ProcessOp).

Inductive Event :=
  | EvCall (ctx : Ctx) (c : Call)
  | EvLog (l : Level) (msg : string) (attrs : list attr).

(** ** The monad *)

Record St (E : Type) := mkSt {
  now : Z;
  env : E;
  coin : Z -> bool }.
Arguments mkSt {_} _ _ _.
Arguments now {_} _.
Arguments env {_} _.
Arguments coin {_} _.

Definition M (E A : Type) : Type := St E -> A * St E * list Event.

#[export] Instance M_ret E : MRet (M E) := λ A a s, (a, s, []).
#[export] Instance M_bind E : MBind (M E) := λ A B f m s,
  let '(a, s1, t1) := m s in
  let '(b, s2, t2) := f a s1 in
  (b, s2, t1 ++ t2).

Definition get_now {E} : M E Z := λ s, (now s, s, []).
Definition emit {E} (ev : Event) : M E unit := λ s, (tt, s, [ev]).

(** A call that leaves the component: the event, then the callee's effect. *)
Definition call {E A} (ctx : Ctx) (c : Call) (m : M E A) : M E A :=
  emit (EvCall ctx c) ≫= λ _, m.

(** [select { case <-time.After(d): case <-ctx.Done(): }]: [None] when the
    timer fires first, the context's error when it is done first; at a tie the
    oracle chooses, as Go's [select] does. *)
Definition select_after_done {E} (d : Z) (ctx : Ctx) : M E (option CtxErr) := λ s,
  let fire := now s + d in
  let timer := (None, mkSt fire (env s) (coin s), []) in
  match ctx_done ctx with
  | None => timer
  | Some (t, e) =>
      let done := (Some e, mkSt (Z.max (now s) t) (env s) (coin s), []) in
      if t <? fire then done
      else if t =? fire then (if coin s fire then done else timer)
      else timer
  end.

(** ** log/slog *)

(** A logger is the attributes attached to it; [None] is a nil pointer. *)
Definition Logger : Type := list attr.

Definition logger_With (lg : Logger) (attrs : list attr) : Logger := lg ++ attrs.

Definition log {E} (lvl : Level) (lg : Logger) (msg : string) (attrs : list attr) : M E unit :=
  emit (EvLog lvl msg (lg ++ attrs)).
Definition log_Info {E} := @log E LInfo.
Definition log_Warn {E} := @log E LWarn.
Definition log_Error {E} := @log E LError.

(** ** Reasoning about computations *)

Definition result_of {E A} (m : M E A) (s : St E) : A := (m s).1.1.
Definition final {E A} (m : M E A) (s : St E) : St E := (m s).1.2.
Definition trace {E A} (m : M E A) (s : St E) : list Event := (m s).2.

(** [wp m Q s]: running [m] from [s] ends in a result, a state and a trace
    that satisfy [Q]. *)
Definition wp {E A} (m : M E A) (Q : A -> St E -> list Event -> Prop) (s : St E) : Prop :=
  Q (result_of m s) (final m s) (trace m s).

(** The clock never runs backwards during [m]. *)
Definition timely {E A} (m : M E A) : Prop := forall s, now s <= now (final m s).

(** [m] finishes no later than [b] after it starts. *)
Definition within {E A} (b : Z) (m : M E A) : Prop := forall s, now (final m s) <= now s + b.

(** [m] honours the context it was given: it returns by the instant the
    context is done (or at once when it is already done). *)
Definition honours {E A} (ctx : Ctx) (m : M E A) : Prop :=
  forall s t e, ctx_done ctx = Some (t, e) -> now (final m s) <= Z.max (now s) t.

(** At least [d] is left of a context; and a callee that answers within [d]
    whenever that much is left. *)
Definition room {E} (d : Z) (ctx : Ctx) (s : St E) : Prop :=
  match ctx_done ctx with Some (t, _) => now s + d <= t | None => True end.
Definition prompt {E A} (d : Z) (m : Ctx -> M E (result A)) : Prop :=
  forall ctx s, room d ctx s ->
    is_ok (result_of (m ctx) s) = true /\ now s <= now (final (m ctx) s) <= now s + d.

(** Every event of the traces of [m] satisfies [P]. *)
Definition emits {E A} (P : Event -> Prop) (m : M E A) : Prop :=
  forall s, Forall P (trace m s).

(** Calls in a trace. *)
Definition calls_of (t : list Event) : list Call :=
  omap (λ ev, match ev with EvCall _ c => Some c | EvLog _ _ _ => None end) t.

(** ** Laws and rules *)

Section Laws.
Context {E : Type}.

Lemma M_bind_unfold {A B} (m : M E A) (f : A -> M E B) s :
  (m ≫= f) s = ((f (result_of m s) (final m s)).1,
                trace m s ++ trace (f (result_of m s)) (final m s)).
Proof.
  unfold result_of, final, trace, mbind, M_bind.
  destruct (m s) as [[a s1] t1]. simpl. by destruct (f a s1) as [[b s2] t2].
Qed.

Lemma result_bind {A B} (m : M E A) (f : A -> M E B) s :
  result_of (m ≫= f) s = result_of (f (result_of m s)) (final m s).
Proof. unfold result_of at 1. by rewrite M_bind_unfold. Qed.

Lemma final_bind {A B} (m : M E A) (f : A -> M E B) s :
  final (m ≫= f) s = final (f (result_of m s)) (final m s).
Proof. unfold final at 1. by rewrite M_bind_unfold. Qed.

Lemma trace_bind {A B} (m : M E A) (f : A -> M E B) s :
  trace (m ≫= f) s = trace m s ++ trace (f (result_of m s)) (final m s).
Proof. unfold trace at 1. by rewrite M_bind_unfold. Qed.

(** Two continuations that agree where the first computation ends. *)
Lemma bind_ext_at {A B} (m : M E A) (f g : A -> M E B) s :
  f (result_of m s) (final m s) = g (result_of m s) (final m s) -> (m ≫= f) s = (m ≫= g) s.
Proof. intros Hfg. rewrite (surjective_pairing ((m ≫= f) s)). rewrite !M_bind_unfold. unfold trace. by rewrite Hfg. Qed.

Lemma M_ret_bind {A B} (a : A) (f : A -> M E B) s : (mret a ≫= f) s = f a s.
Proof. unfold mbind, M_bind, mret, M_ret. by destruct (f a s) as [[b s2] t2]. Qed.

Lemma M_bind_ret {A} (m : M E A) s : (m ≫= mret) s = m s.
Proof.
  unfold mbind, M_bind, mret, M_ret. destruct (m s) as [[a s1] t1]. by rewrite app_nil_r.
Qed.

Lemma M_bind_assoc {A B C} (m : M E A) (f : A -> M E B) (g : B -> M E C) s :
  ((m ≫= f) ≫= g) s = (m ≫= λ a, f a ≫= g) s.
Proof.
  unfold mbind, M_bind. destruct (m s) as [[a s1] t1].
  destruct (f a s1) as [[b s2] t2]. destruct (g b s2) as [[c s3] t3].
  by rewrite app_assoc.
Qed.

Lemma wp_ret {A} (a : A) Q (s : St E) : Q a s [] -> wp (mret a) Q s.
Proof. done. Qed.

Lemma wp_bind {A B} (m : M E A) (f : A -> M E B) Q s :
  wp m (λ a s1 t1, wp (f a) (λ b s2 t2, Q b s2 (t1 ++ t2)) s1) s -> wp (m ≫= f) Q s.
Proof. unfold wp. by rewrite result_bind, final_bind, trace_bind. Qed.

Lemma wp_emit ev Q (s : St E) : Q tt s [ev] -> wp (emit ev) Q s.
Proof. done. Qed.

Lemma wp_get_now Q (s : St E) : Q (now s) s [] -> wp get_now Q s.
Proof. done. Qed.

Lemma wp_mono {A} (m : M E A) (Q Q' : A -> St E -> list Event -> Prop) s :
  (forall a s' t, Q a s' t -> Q' a s' t) -> wp m Q s -> wp m Q' s.
Proof. unfold wp. auto. Qed.

Lemma wp_run {A} (m : M E A) s :
  wp m (λ a s' t, m s = (a, s', t)) s.
Proof. unfold wp, result_of, final, trace. by destruct (m s) as [[a s'] t]. Qed.

(** *** Timing *)
Lemma timely_ret {A} (a : A) : timely (mret a : M E A).
Proof. intros s. unfold final, mret, M_ret. simpl. lia. Qed.

Lemma timely_bind {A B} (m : M E A) (f : A -> M E B) :
  timely m -> (forall a, timely (f a)) -> timely (m ≫= f).
Proof. intros Hm Hf s. rewrite final_bind. specialize (Hm s). specialize (Hf (result_of m s) (final m s)). lia. Qed.

Lemma timely_emit ev : timely (emit ev : M E unit).
Proof. intros s. unfold final, emit. simpl. lia. Qed.

Lemma timely_get_now : timely (get_now : M E Z).
Proof. intros s. unfold final, get_now. simpl. lia. Qed.

Lemma within_ret {A} (a : A) b : 0 <= b -> within b (mret a : M E A).
Proof. intros ? s. unfold final, mret, M_ret. simpl. lia. Qed.

Lemma within_emit ev b : 0 <= b -> within b (emit ev : M E unit).
Proof. intros ? s. unfold final, emit. simpl. lia. Qed.

Lemma within_bind {A B} (m : M E A) (f : A -> M E B) b1 b2 :
  within b1 m -> (forall a, within b2 (f a)) -> within (b1 + b2) (m ≫= f).
Proof.
  intros Hm Hf s. rewrite final_bind.
  specialize (Hm s). specialize (Hf (result_of m s) (final m s)). lia.
Qed.

Lemma within_mono {A} (m : M E A) b b' : within b m -> b <= b' -> within b' m.
Proof. intros Hm ? s. specialize (Hm s). lia. Qed.

(** *** Events *)
Lemma emits_ret {A} (P : Event -> Prop) (a : A) : emits P (mret a : M E A).
Proof. intros s. constructor. Qed.

Lemma emits_bind {A B} (P : Event -> Prop) (m : M E A) (f : A -> M E B) :
  emits P m -> (forall a, emits P (f a)) -> emits P (m ≫= f).
Proof. intros Hm Hf s. rewrite trace_bind. apply Forall_app_2; [apply Hm|apply Hf]. Qed.

Lemma emits_emit (P : Event -> Prop) ev : P ev -> emits P (emit ev : M E unit).
Proof. intros ? s. by constructor. Qed.

Lemma emits_call {A} (P : Event -> Prop) ctx c (m : M E A) :
  P (EvCall ctx c) -> emits P m -> emits P (call ctx c m).
Proof. intros ??. apply emits_bind; [by apply emits_emit|done]. Qed.

Lemma emits_mono {A} (P P' : Event -> Prop) (m : M E A) :
  (forall ev, P ev -> P' ev) -> emits P m -> emits P' m.
Proof. intros HP Hm s. eapply Forall_impl; [apply Hm|done]. Qed.

Lemma trace_select d ctx (s : St E) : trace (select_after_done d ctx) s = [].
Proof. unfold trace, select_after_done. by repeat case_match; simplify_eq/=. Qed.
End Laws.

Section Run.
Context {E : Type}.

Lemma result_ret {A} (a : A) (s : St E) : result_of (mret a) s = a.
Proof. done. Qed.
Lemma final_ret {A} (a : A) (s : St E) : final (mret a) s = s.
Proof. done. Qed.
Lemma trace_ret {A} (a : A) (s : St E) : trace (mret a) s = [].
Proof. done. Qed.
Lemma result_emit ev (s : St E) : result_of (emit ev) s = tt.
Proof. done. Qed.
Lemma final_emit ev (s : St E) : final (emit ev) s = s.
Proof. done. Qed.
Lemma trace_emit ev (s : St E) : trace (emit ev) s = [ev].
Proof. done. Qed.
Lemma result_get_now (s : St E) : result_of get_now s = now s.
Proof. done. Qed.
Lemma final_get_now (s : St E) : final get_now s = s.
Proof. done. Qed.
Lemma trace_get_now (s : St E) : trace get_now s = [].
Proof. done. Qed.
Lemma final_log lvl lg msg attrs (s : St E) : final (log lvl lg msg attrs) s = s.
Proof. done. Qed.
Lemma trace_log lvl lg msg attrs (s : St E) :
  trace (log lvl lg msg attrs) s = [EvLog lvl msg (lg ++ attrs)].
Proof. done. Qed.

(** A traced call: the callee's result and state, and one more event. *)
Lemma result_call {A} ctx c (m : M E A) (s : St E) : result_of (call ctx c m) s = result_of m s.
Proof. unfold call. by rewrite result_bind. Qed.
Lemma final_call {A} ctx c (m : M E A) (s : St E) : final (call ctx c m) s = final m s.
Proof. unfold call. by rewrite final_bind. Qed.
Lemma trace_call {A} ctx c (m : M E A) (s : St E) :
  trace (call ctx c m) s = EvCall ctx c :: trace m s.
Proof. unfold call. by rewrite trace_bind. Qed.
End Run.

#[export] Hint Rewrite @result_bind @final_bind @trace_bind @result_ret @final_ret @trace_ret
  @result_emit @final_emit @trace_emit @result_get_now @final_get_now @trace_get_now
  @final_log @trace_log @result_call @final_call @trace_call : m_run.

(** Symbolic execution of the three projections of a computation. *)
Ltac run := unfold log_Info, log_Warn, log_Error; autorewrite with m_run; cbv beta.

Lemma room_le {E} d d' ctx (s s' : St E) : now s' + d' <= now s + d -> room d ctx s -> room d' ctx s'.
Proof. unfold room. destruct (ctx_done ctx) as [[t e]|]; [lia|done]. Qed.

(** A child has as much room as its parent, up to its own timeout. *)
Lemma room_WithTimeout {E} d ctx (s : St E) timeout :
  d <= timeout -> room d ctx s -> room d (WithTimeout (now s) ctx timeout) s.
Proof.
  unfold room, WithTimeout. simpl. destruct (ctx_done ctx) as [[t e]|]; [|lia].
  destruct (Z.leb_spec t (now s + timeout)); lia.
Qed.

Lemma calls_of_app t1 t2 : calls_of (t1 ++ t2) = calls_of t1 ++ calls_of t2.
Proof. apply omap_app. Qed.

Lemma calls_of_nil : calls_of [] = [].
Proof. done. Qed.
Lemma calls_of_call ctx c t : calls_of (EvCall ctx c :: t) = c :: calls_of t.
Proof. done. Qed.
Lemma calls_of_log l msg attrs t : calls_of (EvLog l msg attrs :: t) = calls_of t.
Proof. done. Qed.

#[export] Hint Rewrite calls_of_app calls_of_nil calls_of_call calls_of_log @app_nil_r : m_calls.

(** The calls of a trace built by [run]. *)
Ltac run_calls := autorewrite with m_calls.

#[export] Hint Resolve timely_ret timely_bind timely_emit timely_get_now : claims.
#[export] Hint Resolve emits_ret emits_bind emits_emit emits_call : claims.

(** One step of symbolic execution of a [wp] goal. *)
Ltac wp_step :=
  first [ apply wp_ret | apply wp_emit | apply wp_get_now | apply wp_bind ].
