(* ===== verification/Telemetry.v ===== *)
(** * pkg/telemetry: context values, logger attributes, gRPC interceptors

    [context.go], [logging.go], [interceptor.go] and [warmup.go].  The gRPC
    library is not part of the repository: its metadata type and the functions
    the interceptors call are the class [GrpcMetadata], with the documented
    laws in [GrpcMetadataLaws], and a connection is the operations [WarmUp]
    calls on it. *)

From S2P Require Import Prelude Float64 GoStrings Messages Effects.

(** ** context.go *)

Definition correlationIDKey : contextKey := 0.
Definition tenantIDKey : contextKey := 1.

Definition WithCorrelationID (ctx : Ctx) (correlationID : string) : Ctx :=
  WithValue ctx correlationIDKey correlationID.
Definition CorrelationIDFrom (ctx : Ctx) : string := default "" (Value ctx correlationIDKey).
Definition WithTenantID (ctx : Ctx) (tenantID : string) : Ctx :=
  WithValue ctx tenantIDKey tenantID.
Definition TenantIDFrom (ctx : Ctx) : string := default "" (Value ctx tenantIDKey).

(** ** logging.go *)

(** [slog.Default()] carries no attribute of its own. *)
Definition slog_Default : Logger := [].

Definition NewLogger (serviceName : string) : Logger := [("service", AStr serviceName)]%string.

Definition FromContext (ctx : Ctx) (logger : option Logger) : Logger :=
  let logger := default slog_Default logger in
  let logger :=
    let id := CorrelationIDFrom ctx in
    if bool_decide (id <> "") then logger_With logger [("correlation_id"%string, AStr id)]
    else logger in
  let id := TenantIDFrom ctx in
  if bool_decide (id <> "") then logger_With logger [("tenant_id"%string, AStr id)]
  else logger.

(** ** The gRPC metadata interface *)

Class GrpcMetadata := {
  MD : Type;
  md_empty : MD;
  (** [md.Get(key)] *)
  md_Get : MD -> string -> list string;
  (** the outgoing metadata after [metadata.AppendToOutgoingContext(ctx, pairs...)] *)
  md_Append : MD -> list string -> MD;
  (** the incoming metadata of the server for an outgoing metadata of the client *)
  md_wire : MD -> MD }.

(** [k1, v1, k2, v2, ...] as pairs. *)
Fixpoint pairs_of (kv : list string) : list (string * string) :=
  match kv with
  | k :: v :: kv' => (k, v) :: pairs_of kv'
  | _ => []
  end.

Definition values_for (key : string) (kv : list string) : list string :=
  omap (λ p, if bool_decide (p.1 = key) then Some p.2 else None) (pairs_of kv).

Definition metadataTenantID : string := "x-tenant-id".
Definition metadataCorrelationID : string := "x-correlation-id".

(** A header value gRPC transmits unchanged: printable ASCII. *)
Definition header_value (v : string) : Prop := Forall (λ b, 32 <= b <= 126) (bytes_of v).

(** Documented behaviour for the two (lower-case) keys of this package:
    appending adds values after those present, and the transport delivers
    printable values as they were sent. *)
Class GrpcMetadataLaws `(GrpcMetadata) := {
  md_Get_empty key : md_Get md_empty key = [];
  md_Get_Append md kv key :
    Forall (λ p, p.1 = metadataTenantID \/ p.1 = metadataCorrelationID) (pairs_of kv) ->
    key = metadataTenantID \/ key = metadataCorrelationID ->
    md_Get (md_Append md kv) key = md_Get md key ++ values_for key kv;
  md_Get_wire md key :
    key = metadataTenantID \/ key = metadataCorrelationID ->
    Forall header_value (md_Get md key) ->
    md_Get (md_wire md) key = md_Get md key }.

(** ** interceptor.go *)
Section Interceptors.
Context `{GrpcMetadata} {E Req Resp : Type}.

Definition firstValue (md : MD) (key : string) : string :=
  match md_Get md key with [] => "" | v :: _ => v end.

(** The context handed to the handler: the incoming metadata's first values
    stored under the package keys, when they are not empty. *)
Definition incoming_ctx (ctx : Ctx) (incoming : option MD) : Ctx :=
  match incoming with
  | None => ctx
  | Some md =>
      let ctx := let v := firstValue md metadataTenantID in
                 if bool_decide (v <> "") then WithTenantID ctx v else ctx in
      let v := firstValue md metadataCorrelationID in
      if bool_decide (v <> "") then WithCorrelationID ctx v else ctx
  end.

(** [duration.Milliseconds()]. *)
Definition milliseconds (d : Z) : Z := Z.quot d Millisecond.

Definition UnaryServerInterceptor (logger : option Logger)
    (ctx : Ctx) (incoming : option MD) (req : Req) (FullMethod : string)
    (handler : Ctx -> Req -> M E (result Resp)) : M E (result Resp) :=
  let ctx := incoming_ctx ctx incoming in
  start ← get_now;
  r ← handler ctx req;
  stop ← get_now;
  let l := logger_With (FromContext ctx logger)
             [("method"%string, AStr FullMethod);
              ("duration_ms"%string, AInt (milliseconds (stop - start)))] in
  _ ← match r with
      | Err err => log_Error l "grpc request failed" [("error"%string, AErr err)]
      | Ok _ => log_Info l "grpc request" []
      end;
  mret r.

(** The metadata pairs the client interceptor adds. *)
Definition outgoing_pairs (ctx : Ctx) : list string :=
  let pairs := [] in
  let pairs := let id := TenantIDFrom ctx in
               if bool_decide (id <> "") then pairs ++ [metadataTenantID; id] else pairs in
  let id := CorrelationIDFrom ctx in
  if bool_decide (id <> "") then pairs ++ [metadataCorrelationID; id] else pairs.

(** [invoker] is the gRPC call itself, given the context and the outgoing
    metadata it carries. *)
Definition UnaryClientInterceptor (logger : option Logger)
    (ctx : Ctx) (outgoing : MD) (method : string) (req : Req)
    (invoker : Ctx -> MD -> Req -> M E (result Resp)) : M E (result Resp) :=
  let pairs := outgoing_pairs ctx in
  let outgoing := if 0 <? Z.of_nat (length pairs) then md_Append outgoing pairs else outgoing in
  start ← get_now;
  r ← invoker ctx outgoing req;
  stop ← get_now;
  let l := logger_With (FromContext ctx logger)
             [("method"%string, AStr method);
              ("duration_ms"%string, AInt (milliseconds (stop - start)))] in
  _ ← match r with
      | Err err => log_Error l "grpc call failed" [("error"%string, AErr err)]
      | Ok _ => log_Info l "grpc call" []
      end;
  mret r.
End Interceptors.

(** ** warmup.go *)
Section WarmUp.
Context {E ConnState : Type} `{EqDecision ConnState}.
(** The operations of [grpc.ClientConn] and the [Ready] state. *)
Variable Ready : ConnState.
Variable Connect : M E unit.
Variable GetState : M E ConnState.
Variable WaitForStateChange : Ctx -> ConnState -> M E bool.
Variable State_String : ConnState -> string.

(** The [for] loop; [None] when the fuel runs out. *)
Fixpoint warm_loop (fuel : nat) (ctx : Ctx) (logger : Logger) (target : string)
    : M E (option unit) :=
  match fuel with
  | O => mret None
  | S fuel' =>
      state ← GetState;
      if bool_decide (state = Ready) then mret (Some tt)
      else
        changed ← WaitForStateChange ctx state;
        if negb changed then
          st ← GetState;
          _ ← log_Warn logger "connection not ready within warm-up timeout"
                [("target"%string, AStr target); ("state"%string, AStr (State_String st))];
          mret (Some tt)
        else warm_loop fuel' ctx logger target
  end.

Definition WarmUp (fuel : nat) (logger : Logger) (target : string) (timeout : Z)
    : M E (option unit) :=
  _ ← Connect;
  t ← get_now;
  warm_loop fuel (WithTimeout t Background timeout) logger target.
End WarmUp.

(** ** Lemmas *)

Lemma TenantIDFrom_WithTenantID ctx id : TenantIDFrom (WithTenantID ctx id) = id.
Proof. unfold TenantIDFrom, WithTenantID, Value, WithValue. simpl. by rewrite lookup_insert_eq. Qed.

Lemma CorrelationIDFrom_WithCorrelationID ctx id :
  CorrelationIDFrom (WithCorrelationID ctx id) = id.
Proof.
  unfold CorrelationIDFrom, WithCorrelationID, Value, WithValue. simpl.
  by rewrite lookup_insert_eq.
Qed.

Lemma TenantIDFrom_WithCorrelationID ctx id :
  TenantIDFrom (WithCorrelationID ctx id) = TenantIDFrom ctx.
Proof. unfold TenantIDFrom, WithCorrelationID, Value, WithValue. simpl. by rewrite lookup_insert_ne. Qed.

Lemma CorrelationIDFrom_WithTenantID ctx id :
  CorrelationIDFrom (WithTenantID ctx id) = CorrelationIDFrom ctx.
Proof. unfold CorrelationIDFrom, WithTenantID, Value, WithValue. simpl. by rewrite lookup_insert_ne. Qed.

(** A timeout changes no value. *)
Lemma TenantIDFrom_WithTimeout t ctx d : TenantIDFrom (WithTimeout t ctx d) = TenantIDFrom ctx.
Proof. done. Qed.
Lemma CorrelationIDFrom_WithTimeout t ctx d :
  CorrelationIDFrom (WithTimeout t ctx d) = CorrelationIDFrom ctx.
Proof. done. Qed.

#[export] Hint Rewrite TenantIDFrom_WithTenantID CorrelationIDFrom_WithCorrelationID
  TenantIDFrom_WithCorrelationID CorrelationIDFrom_WithTenantID
  TenantIDFrom_WithTimeout CorrelationIDFrom_WithTimeout : claims_rw.

Section InterceptorFacts.
Context `{GrpcMetadataLaws} {E Req Resp : Type}.
Implicit Types s : St E.

Lemma server_interceptor_outcome logger ctx md (req : Req) method
    (handler : Ctx -> Req -> M E (result Resp)) s :
  result_of (UnaryServerInterceptor logger ctx md req method handler) s
    = result_of (handler (incoming_ctx ctx md) req) s /\
  final (UnaryServerInterceptor logger ctx md req method handler) s
    = final (handler (incoming_ctx ctx md) req) s.
Proof.
  unfold UnaryServerInterceptor. run.
  by destruct (result_of (handler (incoming_ctx ctx md) req) s).
Qed.

Lemma client_interceptor_outcome logger ctx md method (req : Req)
    (invoker : Ctx -> MD -> Req -> M E (result Resp)) s :
  let out := if 0 <? Z.of_nat (length (outgoing_pairs ctx))
             then md_Append md (outgoing_pairs ctx) else md in
  result_of (UnaryClientInterceptor logger ctx md method req invoker) s
    = result_of (invoker ctx out req) s /\
  final (UnaryClientInterceptor logger ctx md method req invoker) s
    = final (invoker ctx out req) s.
Proof.
  unfold UnaryClientInterceptor. cbv zeta. run.
  by destruct (result_of (invoker ctx _ req) s).
Qed.
End InterceptorFacts.

Section Propagation.
Context `{GrpcMetadataLaws}.

Lemma outgoing_pairs_keys ctx :
  Forall (λ p, p.1 = metadataTenantID \/ p.1 = metadataCorrelationID)
    (pairs_of (outgoing_pairs ctx)).
Proof.
  unfold outgoing_pairs.
  repeat case_bool_decide; simpl; repeat first [apply Forall_nil_2|apply Forall_cons_2]; auto.
Qed.

Lemma outgoing_pairs_tenant ctx :
  values_for metadataTenantID (outgoing_pairs ctx)
    = if bool_decide (TenantIDFrom ctx <> "") then [TenantIDFrom ctx] else [].
Proof. unfold outgoing_pairs. by repeat case_bool_decide. Qed.

Lemma outgoing_pairs_correlation ctx :
  values_for metadataCorrelationID (outgoing_pairs ctx)
    = if bool_decide (CorrelationIDFrom ctx <> "") then [CorrelationIDFrom ctx] else [].
Proof. unfold outgoing_pairs. by repeat case_bool_decide. Qed.

(** What the server reads for a key of the package, given what the client
    added for it. *)
Lemma wire_first ctx key id :
  key = metadataTenantID \/ key = metadataCorrelationID ->
  values_for key (outgoing_pairs ctx) = (if bool_decide (id <> "") then [id] else []) ->
  header_value id ->
  firstValue (md_wire (if 0 <? Z.of_nat (length (outgoing_pairs ctx))
                       then md_Append md_empty (outgoing_pairs ctx) else md_empty)) key = id.
Proof.
  intros Hkey Hvals Hid. unfold firstValue.
  assert (Hget : md_Get (if 0 <? Z.of_nat (length (outgoing_pairs ctx))
                  then md_Append md_empty (outgoing_pairs ctx) else md_empty) key
                = if bool_decide (id <> "") then [id] else []).
  { destruct (0 <? Z.of_nat (length (outgoing_pairs ctx))) eqn:Hlen.
    - rewrite md_Get_Append, md_Get_empty by (auto using outgoing_pairs_keys). done.
    - rewrite md_Get_empty, <- Hvals. by destruct (outgoing_pairs ctx). }
  rewrite md_Get_wire, Hget; [|done|].
  - case_bool_decide as Hne; [done|]. destruct (decide (id = ""%string)); naive_solver.
  - rewrite Hget. case_bool_decide; repeat constructor; done.
Qed.

(** A server context that holds neither identifier yet. *)
Definition fresh_ctx (ctx : Ctx) : Prop := TenantIDFrom ctx = "" /\ CorrelationIDFrom ctx = "".

Lemma incoming_ids ctx sctx :
  fresh_ctx sctx ->
  header_value (TenantIDFrom ctx) -> header_value (CorrelationIDFrom ctx) ->
  let out := if 0 <? Z.of_nat (length (outgoing_pairs ctx))
             then md_Append md_empty (outgoing_pairs ctx) else md_empty in
  TenantIDFrom (incoming_ctx sctx (Some (md_wire out))) = TenantIDFrom ctx /\
  CorrelationIDFrom (incoming_ctx sctx (Some (md_wire out))) = CorrelationIDFrom ctx.
Proof.
  intros [Ht Hc] Hvt Hvc out.
  assert (Hft : firstValue (md_wire out) metadataTenantID = TenantIDFrom ctx)
    by (apply wire_first; [auto|apply outgoing_pairs_tenant|done]).
  assert (Hfc : firstValue (md_wire out) metadataCorrelationID = CorrelationIDFrom ctx)
    by (apply wire_first; [auto|apply outgoing_pairs_correlation|done]).
  unfold incoming_ctx. rewrite Hft, Hfc.
  repeat case_bool_decide; autorewrite with claims_rw; rewrite ?Ht, ?Hc; dec_eq; auto.
Qed.

(** The context of the handler of a call sent from [ctx] to a server whose
    own context for the call is [sctx]. *)
Definition delivered_ctx (ctx sctx : Ctx) : Ctx :=
  incoming_ctx sctx
    (Some (md_wire (if 0 <? Z.of_nat (length (outgoing_pairs ctx))
                    then md_Append md_empty (outgoing_pairs ctx) else md_empty))).

Lemma delivered_done ctx sctx : ctx_done (delivered_ctx ctx sctx) = ctx_done sctx.
Proof. unfold delivered_ctx, incoming_ctx. by repeat case_bool_decide. Qed.

(** A call through both interceptors runs the handler there. *)
Lemma rpc_runs_handler {E Req Resp : Type} (clog slog : option Logger)
    (ctx sctx : Ctx) (method : string) (req : Req)
    (handler : Ctx -> Req -> M E (result Resp)) (s : St E) :
  let rpc := UnaryClientInterceptor clog ctx md_empty method req
               (λ _ out req, UnaryServerInterceptor slog sctx (Some (md_wire out)) req method handler) in
  result_of rpc s = result_of (handler (delivered_ctx ctx sctx) req) s /\
  final rpc s = final (handler (delivered_ctx ctx sctx) req) s /\
  calls_of (trace rpc s) = calls_of (trace (handler (delivered_ctx ctx sctx) req) s).
Proof.
  cbv zeta. unfold UnaryClientInterceptor, UnaryServerInterceptor. cbv zeta. run.
  fold (delivered_ctx ctx sctx).
  by destruct (result_of (handler (delivered_ctx ctx sctx) req) s); run; run_calls.
Qed.

(** C33: [tenant_id] and [correlation_id] set once on a context reach the
    handler of the called service: a call that goes through the client
    interceptor, the wire and the server interceptor runs the handler, with
    its result and effects unchanged, on a context carrying the caller's two
    identifiers (absent ones stay absent). *)
Theorem interceptors_propagate_ids {E Req Resp : Type} (clog slog : option Logger)
    (ctx sctx : Ctx) (method : string) (req : Req)
    (handler : Ctx -> Req -> M E (result Resp)) (s : St E) :
  fresh_ctx sctx ->
  header_value (TenantIDFrom ctx) -> header_value (CorrelationIDFrom ctx) ->
  exists hctx,
    TenantIDFrom hctx = TenantIDFrom ctx /\
    CorrelationIDFrom hctx = CorrelationIDFrom ctx /\
    ctx_done hctx = ctx_done sctx /\
    let rpc := UnaryClientInterceptor clog ctx md_empty method req
                 (λ _ out req, UnaryServerInterceptor slog sctx (Some (md_wire out)) req method handler) in
    result_of rpc s = result_of (handler hctx req) s /\
    final rpc s = final (handler hctx req) s.
Proof.
  intros Hfresh Hvt Hvc.
  destruct (incoming_ids ctx sctx Hfresh Hvt Hvc) as [Ht Hc].
  exists (delivered_ctx ctx sctx).
  destruct (rpc_runs_handler clog slog ctx sctx method req handler s) as (? & ? & _).
  by split_and!; [exact Ht|exact Hc|apply delivered_done|..].
Qed.
End Propagation.

(** ** A concrete metadata, used to exhibit the hypotheses *)

Definition append_pair (m : gmap string (list string)) (p : string * string)
    : gmap string (list string) :=
  <[p.1 := default [] (m !! p.1) ++ [p.2]]> m.

Definition map_metadata : GrpcMetadata := {|
  MD := gmap string (list string);
  md_empty := ∅;
  md_Get md key := default [] (md !! key);
  md_Append md kv := foldl append_pair md (pairs_of kv);
  md_wire md := md |}.

Lemma append_pairs_lookup (ps : list (string * string)) (m : gmap string (list string)) key :
  default [] (foldl append_pair m ps !! key) =
  default [] (m !! key) ++ omap (λ p, if bool_decide (p.1 = key) then Some p.2 else None) ps.
Proof.
  revert m. induction ps as [|[k v] ps IH]; intros m; simpl; [by rewrite app_nil_r|].
  rewrite IH. unfold append_pair. simpl. case_bool_decide as Hk.
  - subst. rewrite lookup_insert_eq. simpl. by rewrite <- app_assoc.
  - by rewrite lookup_insert_ne.
Qed.

#[export] Instance map_metadata_laws : GrpcMetadataLaws map_metadata.
Proof.
  split; simpl; [done| |done].
  intros md kv key _ _. apply append_pairs_lookup.
Qed.

Definition witness_ctx : Ctx := WithTenantID (WithCorrelationID Background "00ff") "acme".

Lemma interceptors_propagate_ids_witness :
  let handler : Ctx -> unit -> M unit (result string) := λ ctx _, mret (Ok (TenantIDFrom ctx)) in
  exists hctx,
    TenantIDFrom hctx = "acme"%string /\ CorrelationIDFrom hctx = "00ff"%string /\
    ctx_done hctx = None /\
    let rpc := UnaryClientInterceptor (H := map_metadata) None witness_ctx
      (@md_empty map_metadata) "m" tt
      (λ _ out req, UnaryServerInterceptor (H := map_metadata) None Background
         (Some (@md_wire map_metadata out)) req "m" handler) in
    result_of rpc (mkSt 0 tt (λ _, false)) = result_of (handler hctx tt) (mkSt 0 tt (λ _, false)) /\
    final rpc (mkSt 0 tt (λ _, false)) = final (handler hctx tt) (mkSt 0 tt (λ _, false)).
Proof.
  intros handler.
  apply (interceptors_propagate_ids (H := map_metadata) None None witness_ctx Background "m" tt handler).
  - by split.
  - apply (bool_decide_unpack _). by_compute.
  - apply (bool_decide_unpack _). by_compute.
Defined.

(** ** WarmUp *)
Section WarmUpFacts.
Context {E ConnState : Type} `{EqDecision ConnState}.
Context (Ready : ConnState) (Connect : M E unit) (GetState : M E ConnState)
  (WaitForStateChange : Ctx -> ConnState -> M E bool) (State_String : ConnState -> string).

(** [Connect] and [GetState] do not block; [WaitForStateChange] blocks until
    the state changes ([true], before the context is done, after at least
    [step] of time) or until the context is done ([false]). *)
Context (step : Z) (Hstep : 0 < step).
Context (Connect_instant : forall s, now (final Connect s) = now s)
  (GetState_instant : forall s, now (final GetState s) = now s)
  (Wait_changed : forall ctx st s t e,
     result_of (WaitForStateChange ctx st) s = true -> ctx_done ctx = Some (t, e) ->
     now s + step <= now (final (WaitForStateChange ctx st) s) <= t)
  (Wait_expired : forall ctx st s t e,
     result_of (WaitForStateChange ctx st) s = false -> ctx_done ctx = Some (t, e) ->
     now (final (WaitForStateChange ctx st) s) <= Z.max (now s) t).

Let loop := warm_loop Ready GetState WaitForStateChange State_String.

Lemma warm_loop_bounded fuel ctx logger target t e s :
  ctx_done ctx = Some (t, e) -> now s <= t ->
  t - now s < step * (Z.of_nat fuel - 1) ->
  result_of (loop fuel ctx logger target) s = Some tt /\
  now (final (loop fuel ctx logger target) s) <= t.
Proof.
  intros Hdone. revert s. induction fuel as [|fuel IH]; intros s Hs Hfuel.
  { simpl in Hfuel. nia. }
  unfold loop in *. cbn [warm_loop]. run.
  case_bool_decide as Hr; run; [by rewrite GetState_instant|].
  set (st := result_of GetState s) in *. set (s1 := final GetState s) in *.
  assert (Hs1 : now s1 = now s) by apply GetState_instant.
  destruct (result_of (WaitForStateChange ctx st) s1) eqn:Hw; simpl.
  - destruct (Wait_changed ctx st s1 t e Hw Hdone) as [Hlo Hhi]. apply IH; lia.
  - pose proof (Wait_expired ctx st s1 t e Hw Hdone) as Hhi.
    run. split; [done|]. rewrite GetState_instant. lia.
Qed.

(** [WarmUp] always returns, never later than its timeout: with a wait
    that returns after a state change or at the deadline, [timeout / step + 2]
    turns of its loop are enough. *)
Lemma WarmUp_returns fuel logger target timeout s :
  0 <= timeout -> timeout / step + 2 <= Z.of_nat fuel ->
  let m := WarmUp Ready Connect GetState WaitForStateChange State_String
             fuel logger target timeout in
  result_of m s = Some tt /\ now (final m s) <= now s + timeout.
Proof.
  intros Ht Hfuel. unfold WarmUp. run.
  rewrite <- (Connect_instant s) in *.
  apply (warm_loop_bounded fuel _ logger target (now (final Connect s) + timeout) DeadlineExceeded).
  - done.
  - lia.
  - pose proof (Z.mul_succ_div_gt timeout step Hstep). nia.
Qed.

(** Fuel that was enough changes nothing when there is more of it. *)
Lemma warm_loop_more fuel fuel' ctx logger target s :
  result_of (loop fuel ctx logger target) s = Some tt -> (fuel <= fuel')%nat ->
  loop fuel' ctx logger target s = loop fuel ctx logger target s.
Proof.
  revert fuel' s. induction fuel as [|fuel IH]; intros [|fuel'] s Hr Hle; try done; [lia|].
  unfold loop in *. cbn [warm_loop] in *. apply bind_ext_at. revert Hr. run.
  case_bool_decide; [done|]. run. intros Hr. apply bind_ext_at.
  destruct (result_of (WaitForStateChange ctx _) _); [|done]. apply IH; [done|lia].
Qed.

Lemma WarmUp_more fuel fuel' logger target timeout s :
  0 <= timeout -> timeout / step + 2 <= Z.of_nat fuel -> (fuel <= fuel')%nat ->
  WarmUp Ready Connect GetState WaitForStateChange State_String fuel' logger target timeout s
    = WarmUp Ready Connect GetState WaitForStateChange State_String fuel logger target timeout s.
Proof.
  intros Ht Hfuel Hle. destruct (WarmUp_returns fuel logger target timeout s Ht Hfuel) as [Hr _].
  revert Hr. unfold WarmUp. run. intros Hr. do 2 apply bind_ext_at. by apply warm_loop_more.
Qed.

(** It makes no call of its own. *)
Context (Connect_quiet : forall s, calls_of (trace Connect s) = [])
  (GetState_quiet : forall s, calls_of (trace GetState s) = [])
  (Wait_quiet : forall ctx st s, calls_of (trace (WaitForStateChange ctx st) s) = []).

Lemma WarmUp_calls fuel logger target timeout s :
  calls_of (trace (WarmUp Ready Connect GetState WaitForStateChange State_String
                     fuel logger target timeout) s) = [].
Proof.
  unfold WarmUp. run. rewrite calls_of_app, Connect_quiet. simpl.
  generalize (WithTimeout (now (final Connect s)) Background timeout) as ctx.
  generalize (final Connect s) as s0.
  induction fuel as [|fuel IH]; intros s0 ctx; [done|]. cbn [warm_loop]. run.
  rewrite calls_of_app, GetState_quiet. case_bool_decide; run; [done|].
  rewrite calls_of_app, Wait_quiet. case_match; run; [|apply IH].
  rewrite calls_of_app, GetState_quiet. by run_calls.
Qed.
End WarmUpFacts.
