(* ===== verification/TenantConfig.v ===== *)
(** * tenant-config-svc: the tenant store and its gRPC server

    [internal/store/store.go] and [internal/server/tenantconfig.go].  Reading
    the file is an operation of the environment and parsing it is the YAML
    library's, both parameters.  The specification is a directory: the list of
    tenants of the file, in which the last entry of a tenant id counts. *)

From S2P Require Import Prelude Float64 GoStrings Messages Effects Telemetry.

(** ** store.go *)

Record Tenant := mkTenant {
  t_TenantID : string;
  t_DisplayName : string;
  t_Status : string;
  t_DagVersions : gmap string Z }.

Record tenantsFile := mkTenantsFile { tf_Tenants : list Tenant }.

Record Store := mkStore { byID : gmap string Tenant }.

(** The index loop of [Load]. *)
Definition index_tenants (ts : list Tenant) : gmap string Tenant :=
  foldl (λ byID t, <[t_TenantID t := t]> byID) ∅ ts.

(** [s.byID[tenantID]] in its two-valued form. *)
Definition Get (s : Store) (tenantID : string) : option Tenant := byID s !! tenantID.

Definition DagVersion (s : Store) (tenantID product : string) : option Z :=
  match byID s !! tenantID with
  | None => None
  | Some t => t_DagVersions t !! product
  end.

Section Load.
Context {E : Type}.
Variable ReadFile : string -> M E (result string).
Variable Unmarshal : string -> result tenantsFile.

Definition LoadTenants (path : string) : M E (result Store) :=
  data ← call Background (CallReadFile path) (ReadFile path);
  match data with
  | Err err => mret (Err (ErrWrap "read tenants file" err))
  | Ok data =>
      match Unmarshal data with
      | Err err => mret (Err (ErrWrap "parse tenants file" err))
      | Ok tf => mret (Ok (mkStore (index_tenants (tf_Tenants tf))))
      end
  end.
End Load.

(** ** tenantconfig.go *)
Section Server.
Context {E : Type}.
Variable isPrintTable : Z -> bool.
Variable store : Store.
Variable srv_logger : option Logger.

(** [codes.NotFound]. *)
Definition NotFound : Z := 5.

Definition tenant_not_found (tenantID : string) : GoErr :=
  ErrStatus NotFound ("tenant " +:+ Quote isPrintTable tenantID +:+ " not found").

Definition version_not_found (tenantID product : string) : GoErr :=
  ErrStatus NotFound
    ("no dag version configured for tenant " +:+ Quote isPrintTable tenantID
       +:+ " product " +:+ Quote isPrintTable product).

Definition GetTenant (ctx : Ctx) (tenantID : string) : M E (result TenantContext) :=
  let logger := FromContext ctx srv_logger in
  match Get store tenantID with
  | None =>
      _ ← log_Warn logger "get tenant: not found" [("tenant_id"%string, AStr tenantID)];
      mret (Err (tenant_not_found tenantID))
  | Some t =>
      _ ← log_Info logger "get tenant"
            [("tenant_id"%string, AStr (t_TenantID t)); ("status"%string, AStr (t_Status t))];
      mret (Ok (mkTenantContext (t_TenantID t) (t_DisplayName t) (t_Status t)))
  end.

Definition GetDagVersion (ctx : Ctx) (tenantID product : string) : M E (result Z) :=
  let logger := FromContext ctx srv_logger in
  match DagVersion store tenantID product with
  | None =>
      _ ← log_Warn logger "get dag version: not found" [("product"%string, AStr product)];
      mret (Err (version_not_found tenantID product))
  | Some v =>
      _ ← log_Info logger "get dag version"
            [("product"%string, AStr product); ("version"%string, AInt v)];
      mret (Ok v)
  end.
End Server.

(** ** The specification: a directory of tenants *)

Definition directory (ts : list Tenant) (tenantID : string) : option Tenant :=
  last_where (λ t, bool_decide (t_TenantID t = tenantID)) ts.

Definition tenant_context (t : Tenant) : TenantContext :=
  mkTenantContext (t_TenantID t) (t_DisplayName t) (t_Status t).

(** ** Lemmas *)

Lemma index_tenants_lookup_gen ts (m : gmap string Tenant) id :
  foldl (λ byID t, <[t_TenantID t := t]> byID) m ts !! id
  = match directory ts id with Some t => Some t | None => m !! id end.
Proof.
  revert m. induction ts as [|t ts IH]; intros m; simpl; [done|].
  rewrite IH. unfold directory. simpl.
  destruct (last_where _ ts) as [t'|]; [done|].
  case_bool_decide as Hid; [by subst; rewrite lookup_insert_eq|by rewrite lookup_insert_ne].
Qed.

(** The index holds, for each id, its last entry in the file. *)
Lemma index_tenants_lookup ts id : index_tenants ts !! id = directory ts id.
Proof.
  unfold index_tenants. rewrite index_tenants_lookup_gen.
  destruct (directory ts id); [done|]. apply lookup_empty.
Qed.

Lemma directory_id ts id t : directory ts id = Some t -> t_TenantID t = id /\ t ∈ ts.
Proof.
  intros [Hin Hid]%last_where_Some. split; [|done]. by apply bool_decide_eq_true in Hid.
Qed.

(** The key of every indexed tenant is its own id. *)
Definition store_wf (s : Store) : Prop := map_Forall (λ id t, t_TenantID t = id) (byID s).

Lemma index_tenants_wf ts : store_wf (mkStore (index_tenants ts)).
Proof.
  intros id t. simpl. rewrite index_tenants_lookup. intros H. by apply directory_id in H as [? _].
Qed.

Section Properties.
Context {E : Type} (isPrintTable : Z -> bool).
Context (ReadFile : string -> M E (result string)) (Unmarshal : string -> result tenantsFile).

(** Loading the tenants file and serving [GetTenant] from the resulting
    store answers every id from the directory of the file: the last entry
    with that id when there is one, a NotFound status otherwise, whatever
    else the file holds; the store also keeps every tenant under its own
    id. *)
Theorem GetTenant_serves_directory path data ts (s0 s : St E) store logger ctx id :
  result_of (ReadFile path) s0 = Ok data ->
  Unmarshal data = Ok (mkTenantsFile ts) ->
  result_of (LoadTenants ReadFile Unmarshal path) s0 = Ok store ->
  store_wf store /\
  result_of (GetTenant (E := E) isPrintTable store logger ctx id) s =
    match directory ts id with
    | Some t => Ok (tenant_context t)
    | None => Err (tenant_not_found isPrintTable id)
    end.
Proof.
  intros Hread Hparse. unfold LoadTenants. run. rewrite Hread, Hparse.
  intros [= <-]. split; [apply index_tenants_wf|].
  unfold GetTenant, Get. simpl. rewrite index_tenants_lookup.
  by destruct (directory ts id); run.
Qed.

(** [GetDagVersion] succeeds exactly for the products listed under the
    last entry of a known tenant, with the version listed there, fails with
    NotFound otherwise, and never succeeds for a tenant [GetTenant] does not
    know. *)
Theorem GetDagVersion_serves_directory ts (s : St E) logger ctx id product :
  let store := mkStore (index_tenants ts) in
  let version := result_of (GetDagVersion (E := E) isPrintTable store logger ctx id product) s in
  version = match directory ts id ≫= λ t, t_DagVersions t !! product with
            | Some v => Ok v
            | None => Err (version_not_found isPrintTable id product)
            end /\
  implb (is_ok version)
    (is_ok (result_of (GetTenant (E := E) isPrintTable store logger ctx id) s)) = true.
Proof.
  cbv zeta. unfold GetDagVersion, DagVersion, GetTenant, Get. simpl.
  rewrite index_tenants_lookup.
  destruct (directory ts id) as [t|]; simpl; [|by run].
  by destruct (t_DagVersions t !! product); run.
Qed.

(** Startup fails, and builds no store, exactly when the file cannot be
    read or parsed; the error says which. *)
Lemma LoadTenants_errors path (s : St E) :
  result_of (LoadTenants ReadFile Unmarshal path) s =
    match result_of (ReadFile path) s with
    | Err e => Err (ErrWrap "read tenants file" e)
    | Ok data => match Unmarshal data with
                 | Err e => Err (ErrWrap "parse tenants file" e)
                 | Ok tf => Ok (mkStore (index_tenants (tf_Tenants tf)))
                 end
    end /\
  trace (LoadTenants ReadFile Unmarshal path) s
    = EvCall Background (CallReadFile path) :: trace (ReadFile path) s.
Proof.
  unfold LoadTenants. run.
  destruct (result_of (ReadFile path) s) as [data|e]; [destruct (Unmarshal data)|];
    run; simpl; by rewrite app_nil_r.
Qed.
End Properties.

(** The tenants of [config/tenants.yaml]. *)
Definition shipped_tenants : list Tenant :=
  [mkTenant "acme_insurance" "Acme Insurance Co" "active" {["auto" := 4]}%string;
   mkTenant "globex_insurance" "Globex Insurance Co" "suspended" {["auto" := 4]}%string].

Lemma GetTenant_serves_directory_witness :
  let ReadFile : string -> M unit (result string) := λ _, mret (Ok "yaml"%string) in
  let st := mkSt 0 tt (λ _, false) in
  let store := mkStore (index_tenants shipped_tenants) in
  store_wf store /\
  result_of (GetTenant (λ _, false) store None Background "globex_insurance") st
    = Ok (mkTenantContext "globex_insurance" "Globex Insurance Co" "suspended").
Proof.
  apply (GetTenant_serves_directory (λ _, false) (λ _, mret (Ok "yaml"%string))
           (λ _, Ok (mkTenantsFile shipped_tenants)) "tenants.yaml" "yaml" shipped_tenants
           (mkSt 0 tt (λ _, false)) (mkSt 0 tt (λ _, false))
           (mkStore (index_tenants shipped_tenants)) None Background "globex_insurance");
    reflexivity.
Defined.
