(* ===== verification/DagConfig.v ===== *)
(** * orchestration-service/internal/dag/config.go and the node helpers

    The DAG configuration ([Config], [Node]), the policies derived from a node
    and the helper functions at the end of [executor.go] that only read a
    configuration: [nodeTimeout], [dependsOn], [nodeFailureHandled]. *)

From S2P Require Import Prelude Float64 Messages Effects Telemetry.

(** ** config.go *)

Record Node := mkNode {
  n_ID : string;
  n_Service : string;
  n_Group : string;
  n_TimeoutMs : Z;
  n_MaxRetries : Z;
  n_OnFailure : string;
  n_DependsOn : list string;
  n_EnabledFor : list string }.

Record Config := mkConfig {
  c_TenantID : string;
  c_Product : string;
  c_EventType : string;
  c_Version : Z;
  c_TimeoutMs : Z;
  c_Nodes : list Node }.

(** The [int32] fields of a parsed configuration are in range. *)
Definition node_ranges (n : Node) : Prop := is_int32 (n_TimeoutMs n) /\ is_int32 (n_MaxRetries n).
Definition config_ranges (c : Config) : Prop :=
  is_int32 (c_Version c) /\ is_int32 (c_TimeoutMs c) /\ Forall node_ranges (c_Nodes c).

Definition OnFailureFailFast : string := "fail_fast".
Definition OnFailureSkip : string := "skip".
Definition OnFailureDegrade : string := "degrade".

Definition EffectiveOnFailure (n : Node) : string :=
  if bool_decide (n_OnFailure n = "") then OnFailureFailFast else n_OnFailure n.

(** The loop of [EnabledForTenant] over [EnabledFor]. *)
Fixpoint enabled_loop (ts : list string) (tenantID : string) : bool :=
  match ts with
  | [] => false
  | t :: ts' => if bool_decide (t = tenantID) then true else enabled_loop ts' tenantID
  end.

Definition EnabledForTenant (n : Node) (tenantID : string) : bool :=
  if bool_decide (length (n_EnabledFor n) = 0%nat) then true
  else enabled_loop (n_EnabledFor n) tenantID.

(** ** Helpers of executor.go *)

Definition defaultNodeTimeout : Z := 500 * Millisecond.
Definition retryBackoff : Z := 20 * Millisecond.

(** [time.Duration] products wrap at 64 bits. *)
Definition nodeTimeout (cfg : Config) (node : Node) : Z :=
  if 0 <? n_TimeoutMs node then wrap64 (n_TimeoutMs node * Millisecond)
  else if 0 <? c_TimeoutMs cfg then wrap64 (c_TimeoutMs cfg * Millisecond)
  else defaultNodeTimeout.

Fixpoint depends_loop (ds : list string) (name : string) : bool :=
  match ds with
  | [] => false
  | d :: ds' => if bool_decide (d = name) then true else depends_loop ds' name
  end.

Definition dependsOn (node : Node) (name : string) : bool := depends_loop (n_DependsOn node) name.

(** The decision of [nodeFailureHandled]. *)
Definition failure_tolerated (node : Node) : bool :=
  bool_decide (EffectiveOnFailure node = OnFailureSkip \/
               EffectiveOnFailure node = OnFailureDegrade).

Definition nodeFailureHandled {E} (logger : Logger) (node : Node) (err : GoErr) : M E bool :=
  let policy := EffectiveOnFailure node in
  let attrs := [("node"%string, AStr (n_ID node)); ("on_failure"%string, AStr policy);
                ("error"%string, AErr err)] in
  if bool_decide (policy = OnFailureSkip \/ policy = OnFailureDegrade) then
    _ ← log_Warn logger "dag node failed, continuing" attrs; mret true
  else
    _ ← log_Error logger "dag node failed" attrs; mret false.

(** ** Lemmas *)

(** Both loops are the membership test. *)
Ltac membership_loop l y :=
  induction l as [|x l IH]; [done|]; cbn [enabled_loop depends_loop]; rewrite IH;
  destruct (decide (x = y)) as [->|Hne];
  [rewrite !bool_decide_true by (done || left); done
  |rewrite (bool_decide_false _ Hne); apply bool_decide_ext; rewrite elem_of_cons;
   split; [by right|by intros [?|?]]].

Lemma enabled_loop_spec ts tenantID : enabled_loop ts tenantID = bool_decide (tenantID ∈ ts).
Proof. membership_loop ts tenantID. Qed.

Lemma depends_loop_spec ds name : depends_loop ds name = bool_decide (name ∈ ds).
Proof. membership_loop ds name. Qed.

Lemma dependsOn_spec node name : dependsOn node name = bool_decide (name ∈ n_DependsOn node).
Proof. apply depends_loop_spec. Qed.

Lemma EnabledForTenant_spec n tenantID :
  EnabledForTenant n tenantID = bool_decide (n_EnabledFor n = [] \/ tenantID ∈ n_EnabledFor n).
Proof.
  unfold EnabledForTenant. rewrite enabled_loop_spec.
  destruct (n_EnabledFor n) as [|t ts]; cbn [length].
  - symmetry. by apply bool_decide_true; left.
  - apply bool_decide_ext. split; [by right|]. by intros [?|?].
Qed.

Section HandledFacts.
Context {E : Type}.
Lemma result_handled logger node err (s : St E) :
  result_of (nodeFailureHandled logger node err) s = failure_tolerated node.
Proof. unfold nodeFailureHandled, failure_tolerated. by case_bool_decide; run. Qed.

Lemma final_handled logger node err (s : St E) :
  final (nodeFailureHandled logger node err) s = s.
Proof. unfold nodeFailureHandled. by case_bool_decide; run. Qed.

Lemma calls_handled logger node err (s : St E) :
  calls_of (trace (nodeFailureHandled logger node err) s) = [].
Proof. unfold nodeFailureHandled. by case_bool_decide; run. Qed.
End HandledFacts.

#[export] Hint Rewrite @result_handled @final_handled : m_run.

(** The wait of an attempt never overflows [time.Duration]. *)
Lemma duration_ms_exact (ms : Z) : is_int32 ms -> wrap64 (ms * Millisecond) = ms * Millisecond.
Proof. unfold is_int32. intros ?. apply wrap64_id. unfold is_int64, Millisecond. lia. Qed.

(** The timeout of a node of a configuration whose fields are [int32]s. *)
Lemma nodeTimeout_exact cfg node :
  config_ranges cfg -> node ∈ c_Nodes cfg ->
  0 < nodeTimeout cfg node <= (2 ^ 31 - 1) * Millisecond /\
  nodeTimeout cfg node =
    Millisecond * (if 0 <? n_TimeoutMs node then n_TimeoutMs node
                   else if 0 <? c_TimeoutMs cfg then c_TimeoutMs cfg else 500).
Proof.
  intros (_ & Hc & Hnodes) Hin.
  pose proof (proj1 (Forall_forall _ _) Hnodes node Hin) as [Ht _].
  unfold nodeTimeout. rewrite !duration_ms_exact by done.
  unfold defaultNodeTimeout, Millisecond, is_int32 in *.
  destruct (Z.ltb_spec 0 (n_TimeoutMs node)); [lia|].
  destruct (Z.ltb_spec 0 (c_TimeoutMs cfg)); lia.
Qed.

Lemma nodeTimeout_nonneg cfg node :
  config_ranges cfg -> node ∈ c_Nodes cfg -> 0 <= nodeTimeout cfg node.
Proof. intros H1 H2. destruct (nodeTimeout_exact cfg node H1 H2). lia. Qed.

(** ** Properties *)

(** A node's per-attempt timeout is always a positive duration of at most
    [MaxInt32] milliseconds, computed without overflow: its own [timeout_ms]
    when positive, else the DAG's when positive, else 500 ms; so no downstream
    call can be left without a deadline. *)
Theorem nodeTimeout_bounds cfg node :
  config_ranges cfg -> node ∈ c_Nodes cfg ->
  0 < nodeTimeout cfg node <= (2 ^ 31 - 1) * Millisecond /\
  nodeTimeout cfg node =
    Millisecond * (if 0 <? n_TimeoutMs node then n_TimeoutMs node
                   else if 0 <? c_TimeoutMs cfg then c_TimeoutMs cfg else 500).
Proof. apply nodeTimeout_exact. Qed.

(** A failing node is tolerated exactly when its [on_failure] is [skip]
    or [degrade]; an unset or misspelt policy is fail-fast; deciding it makes
    no call and takes no time. *)
Theorem nodeFailureHandled_policy {E} logger node err (s : St E) :
  result_of (nodeFailureHandled logger node err) s
    = bool_decide (n_OnFailure node ∈ [OnFailureSkip; OnFailureDegrade]) /\
  final (nodeFailureHandled logger node err) s = s /\
  calls_of (trace (nodeFailureHandled logger node err) s) = [].
Proof.
  rewrite result_handled, final_handled, calls_handled. split_and!; try done.
  unfold failure_tolerated, EffectiveOnFailure, OnFailureSkip, OnFailureDegrade, OnFailureFailFast.
  apply bool_decide_ext. rewrite !elem_of_cons, elem_of_nil.
  case_bool_decide as Hempty; [rewrite Hempty|]; naive_solver.
Qed.

(** The configuration of [config/dag/acme_insurance/auto/claim.fnol.yaml]. *)
Definition claim_fnol_config : Config :=
  mkConfig "acme_insurance" "auto" "claim.fnol" 4 250
    [mkNode "claimant_id_hash" "claimant-id-hashing-svc" "enrichment" 40 1 "fail_fast" [] [];
     mkNode "address_normalize" "address-normalization-svc" "enrichment" 40 1 "skip" [] [];
     mkNode "policy_lookup" "policy-lookup-svc" "enrichment" 40 1 "degrade" [] [];
     mkNode "model_score" "model-service" "" 80 0 "" ["enrichment"%string] [];
     mkNode "publish" "kafka-publisher" "" 100 0 "skip" ["model_score"%string] []].

Lemma claim_fnol_ranges : config_ranges claim_fnol_config.
Proof. unfold config_ranges, claim_fnol_config, node_ranges, is_int32. simpl. repeat constructor; simpl; lia. Qed.

Lemma nodeTimeout_bounds_witness :
  let node := mkNode "model_score" "model-service" "" 80 0 "" ["enrichment"%string] [] in
  0 < nodeTimeout claim_fnol_config node <= (2 ^ 31 - 1) * Millisecond /\
  nodeTimeout claim_fnol_config node = Millisecond * 80.
Proof.
  apply (nodeTimeout_bounds claim_fnol_config
           (mkNode "model_score" "model-service" "" 80 0 "" ["enrichment"%string] [])).
  - apply claim_fnol_ranges.
  - simpl. do 3 right. left.
Defined.
