(* ===== verification/Resilience.v ===== *)
(** * callWithResilience: per-attempt timeouts and bounded retries

    The generic function of [executor.go] that every node call goes through.
    The Go [for] loop over [attempt := 0; attempt <= MaxRetries] is a recursion
    over the indices [seqZ 0 (MaxRetries + 1)], which are none when
    [MaxRetries] is negative; [int] is 64 bits wide, so the counter does not
    overflow for an [int32] bound.  The theorems give its outcome, the number
    of attempts, its worst-case duration and its behaviour under a context that
    is done, and show what a negative [max_retries] does. *)

From S2P Require Import Prelude Float64 Messages Effects Telemetry DagConfig.

Section Loop.
Context {E T : Type}.
Variable zero : T.
Variable ctx : Ctx.
Variable timeout : Z.
Variable maxRetries : Z.
Variable fn : Ctx -> M E (result T).

(** One attempt: [fn] under [context.WithTimeout(ctx, timeout)]. *)
Definition attempt_once : M E (result T) :=
  t ← get_now;
  let attemptCtx := WithTimeout t ctx timeout in
  fn attemptCtx.

Fixpoint attempt_loop (attempts : list Z) (lastErr : option GoErr) : M E (result T) :=
  match attempts with
  | [] => mret (match lastErr with None => Ok zero | Some e => Err e end)
  | attempt :: rest =>
      r ← attempt_once;
      match r with
      | Ok resp => mret (Ok resp)
      | Err err =>
          if attempt <? maxRetries then
            sel ← select_after_done retryBackoff ctx;
            match sel with
            | None => attempt_loop rest (Some err)
            | Some e => mret (Err (ErrCtx e))
            end
          else attempt_loop rest (Some err)
      end
  end.
End Loop.

Definition callWithResilience {E T} (zero : T) (ctx : Ctx) (cfg : Config) (node : Node)
    (fn : Ctx -> M E (result T)) : M E (result T) :=
  attempt_loop zero ctx (nodeTimeout cfg node) (n_MaxRetries node) fn
    (seqZ 0 (n_MaxRetries node + 1)) None.

(** ** The reference: attempts until the first success or the last failure *)
Section Reference.
Context {E T : Type} (ctx : Ctx) (timeout : Z) (fn : Ctx -> M E (result T)).

(** The state after a failed attempt and the back-off that follows it. *)
Definition after_backoff (s : St E) : St E :=
  mkSt (now s + retryBackoff) (env s) (coin s).

(** [failures s errs s']: starting at [s], consecutive attempts fail with the
    errors [errs]; [s'] is the state in which the next attempt starts. *)
Inductive failures : St E -> list GoErr -> St E -> Prop :=
  | failures_nil s : failures s [] s
  | failures_cons s e errs s' :
      result_of (attempt_once ctx timeout fn) s = Err e ->
      failures (after_backoff (final (attempt_once ctx timeout fn) s)) errs s' ->
      failures s (e :: errs) s'.
End Reference.

(** ** Lemmas *)

Section Facts.
Context {E T : Type} (zero : T) (ctx : Ctx) (timeout maxRetries : Z)
  (fn : Ctx -> M E (result T)).
Let once := attempt_once ctx timeout fn.
Let loop := attempt_loop zero ctx timeout maxRetries fn.

Lemma loop_cons attempt rest lastErr :
  loop (attempt :: rest) lastErr =
  (once ≫= λ r,
     match r with
     | Ok resp => mret (Ok resp)
     | Err err =>
         if attempt <? maxRetries then
           select_after_done retryBackoff ctx ≫= λ sel,
             match sel with None => loop rest (Some err) | Some e => mret (Err (ErrCtx e)) end
         else loop rest (Some err)
     end).
Proof. done. Qed.

(** The indices from [i] to [maxRetries]. *)
Definition from (i : Z) : list Z := seqZ i (maxRetries + 1 - i).

Lemma from_cons i : i <= maxRetries -> from i = i :: from (i + 1).
Proof.
  intros ?. unfold from. rewrite seqZ_cons by lia.
  replace (Z.succ i) with (i + 1) by lia.
  by replace (Z.pred (maxRetries + 1 - i)) with (maxRetries + 1 - (i + 1)) by lia.
Qed.

Lemma from_nil i : maxRetries < i -> from i = [].
Proof. intros ?. apply seqZ_nil. lia. Qed.

Lemma select_no_deadline (s : St E) :
  ctx_done ctx = None ->
  result_of (select_after_done retryBackoff ctx) s = None /\
  final (select_after_done retryBackoff ctx) s = after_backoff s.
Proof. intros Hd. unfold result_of, final, select_after_done. by rewrite Hd. Qed.

(** The attempt of index [i]: a success ends the loop; so does the failure of
    the last attempt; another failure leads to the attempt [i + 1]. *)
Lemma loop_success i lastErr s r :
  i <= maxRetries -> result_of once s = Ok r ->
  result_of (loop (from i) lastErr) s = Ok r /\
  final (loop (from i) lastErr) s = final once s /\
  trace (loop (from i) lastErr) s = trace once s.
Proof.
  intros Hi Hr. rewrite from_cons, loop_cons by done. run. rewrite Hr. run.
  by rewrite app_nil_r.
Qed.

Lemma loop_last_failure lastErr s e :
  result_of once s = Err e ->
  result_of (loop (from maxRetries) lastErr) s = Err e /\
  final (loop (from maxRetries) lastErr) s = final once s /\
  trace (loop (from maxRetries) lastErr) s = trace once s.
Proof.
  intros Hr. rewrite from_cons, loop_cons, from_nil by lia. run.
  rewrite Hr, Z.ltb_irrefl. cbn. run. by rewrite app_nil_r.
Qed.

(** What follows a failed attempt that is not the last. *)
Definition after_failure (i : Z) (e : GoErr) : M E (result T) :=
  select_after_done retryBackoff ctx ≫= λ sel,
    match sel with
    | None => loop (from (i + 1)) (Some e)
    | Some c => mret (Err (ErrCtx c))
    end.

Lemma loop_retry i lastErr s e :
  i < maxRetries -> result_of once s = Err e ->
  result_of (loop (from i) lastErr) s = result_of (after_failure i e) (final once s) /\
  final (loop (from i) lastErr) s = final (after_failure i e) (final once s) /\
  trace (loop (from i) lastErr) s = trace once s ++ trace (after_failure i e) (final once s).
Proof.
  intros Hi Hr. rewrite from_cons, loop_cons by lia. run.
  rewrite Hr, (proj2 (Z.ltb_lt _ _) Hi). unfold after_failure. run. done.
Qed.

(** With a context that is never done, the loop from index [i] ends at the
    first success or with the error of the attempt of index [maxRetries]. *)
Lemma loop_outcome n i lastErr s :
  ctx_done ctx = None -> Z.of_nat n = maxRetries - i ->
  exists errs s', failures ctx timeout fn s errs s' /\ (length errs <= n)%nat /\
    result_of (loop (from i) lastErr) s = result_of once s' /\
    final (loop (from i) lastErr) s = final once s' /\
    (is_err (result_of once s') = true -> length errs = n) /\
    (forall x, (forall s, calls_of (trace once s) = [x]) ->
       calls_of (trace (loop (from i) lastErr) s) = replicate (S (length errs)) x).
Proof.
  intros Hd. revert i lastErr s. induction n as [|n IH]; intros i lastErr s Hn;
    (destruct (result_of once s) as [r|e] eqn:Hr;
     [destruct (loop_success i lastErr s r ltac:(lia) Hr) as (H1 & H2 & H3);
      exists [], s; rewrite Hr, H1, H2, H3;
      split_and!; [constructor|simpl; lia|done|done|done|by intros x ->]|]).
  - replace i with maxRetries by lia.
    destruct (loop_last_failure lastErr s e Hr) as (H1 & H2 & H3).
    exists [], s. rewrite Hr, H1, H2, H3.
    split_and!; [constructor|done|done|done|done|by intros x ->].
  - destruct (IH (i + 1) (Some e) (after_backoff (final once s)) ltac:(lia))
      as (errs & s' & Hf & Hlen & Hres & Hfin & Hall & Hcalls).
    destruct (loop_retry i lastErr s e ltac:(lia) Hr) as (H1 & H2 & H3).
    destruct (select_no_deadline (final once s) Hd) as [Hs1 Hs2].
    exists (e :: errs), s'. rewrite H1, H2, H3. unfold after_failure. run.
    rewrite trace_select, Hs1, Hs2.
    split_and!; [by eapply failures_cons|simpl; lia|done|done| |].
    + intros H. simpl. by rewrite Hall.
    + intros x Hx. rewrite !calls_of_app, Hx, (Hcalls x Hx). done.
Qed.

(** Whatever the context, no more than [maxRetries + 1 - i] attempts. *)
Lemma loop_attempts n i lastErr s x :
  Z.of_nat n = maxRetries - i -> (forall s, calls_of (trace once s) = [x]) ->
  exists k, (1 <= k <= S n)%nat /\
    calls_of (trace (loop (from i) lastErr) s) = replicate k x.
Proof.
  intros Hn Hx. revert i lastErr s Hn. induction n as [|n IH]; intros i lastErr s Hn;
    (destruct (result_of once s) as [r|e] eqn:Hr;
     [destruct (loop_success i lastErr s r ltac:(lia) Hr) as (_ & _ & ->);
      exists 1%nat; rewrite Hx; by split; [lia|]|]).
  - replace i with maxRetries by lia.
    destruct (loop_last_failure lastErr s e Hr) as (_ & _ & ->).
    exists 1%nat. rewrite Hx. by split; [lia|].
  - destruct (loop_retry i lastErr s e ltac:(lia) Hr) as (_ & _ & ->).
    set (s1 := final once s). unfold after_failure. run. rewrite trace_select.
    set (s2 := final (select_after_done retryBackoff ctx) s1).
    destruct (result_of (select_after_done retryBackoff ctx) s1).
    + exists 1%nat. rewrite calls_of_app, Hx. by split; [lia|].
    + destruct (IH (i + 1) (Some e) s2 ltac:(lia)) as (k & Hk & Hcalls).
      exists (S k). rewrite !calls_of_app, Hx, Hcalls. by split; [lia|].
Qed.

(** *** Duration *)
Context (fn_timely : forall c, timely (fn c)) (fn_honours : forall c, honours c (fn c)).
Context (timeout_nonneg : 0 <= timeout).

Lemma once_timely s : now s <= now (final once s).
Proof. unfold once, attempt_once. run. apply fn_timely. Qed.

Lemma once_within s : now (final once s) <= now s + timeout.
Proof.
  unfold once, attempt_once. run.
  set (c := WithTimeout (now s) ctx timeout).
  assert (Hc : exists t e, ctx_done c = Some (t, e) /\ t <= now s + timeout).
  { unfold c, WithTimeout. simpl. destruct (ctx_done ctx) as [[t e]|]; [|eauto with lia].
    destruct (Z.leb_spec t (now s + timeout)); eauto with lia. }
  destruct Hc as (t & e & Hc & Ht). pose proof (fn_honours c s t e Hc). lia.
Qed.

Lemma once_honours : honours ctx once.
Proof.
  intros s t e Hd. unfold once, attempt_once. run.
  set (c := WithTimeout (now s) ctx timeout).
  assert (Hc : exists t' e', ctx_done c = Some (t', e') /\ t' <= t).
  { unfold c, WithTimeout. simpl. rewrite Hd.
    destruct (Z.leb_spec t (now s + timeout)); eauto with lia. }
  destruct Hc as (t' & e' & Hc & Ht). pose proof (fn_honours c s t' e' Hc). lia.
Qed.

Lemma select_within (s : St E) :
  now s <= now (final (select_after_done retryBackoff ctx) s) <= now s + retryBackoff.
Proof.
  assert (0 <= retryBackoff) by (unfold retryBackoff, Millisecond; lia).
  unfold final, select_after_done.
  destruct (ctx_done ctx) as [[t e]|]; [|simpl; lia].
  destruct (Z.ltb_spec t (now s + retryBackoff)); [simpl; lia|].
  destruct (Z.eqb_spec t (now s + retryBackoff)); [|simpl; lia].
  destruct (coin s (now s + retryBackoff)); simpl; lia.
Qed.

(** The timer branch is only taken while the context is not done. *)
Lemma select_honours (s : St E) t e :
  ctx_done ctx = Some (t, e) ->
  now (final (select_after_done retryBackoff ctx) s) <= Z.max (now s) t.
Proof.
  intros Hd. unfold final, select_after_done. rewrite Hd.
  destruct (Z.ltb_spec t (now s + retryBackoff)); [simpl; lia|].
  destruct (Z.eqb_spec t (now s + retryBackoff)); [|simpl; lia].
  destruct (coin s (now s + retryBackoff)); simpl; lia.
Qed.

Lemma after_failure_final i e s :
  final (after_failure i e) s =
  match result_of (select_after_done retryBackoff ctx) s with
  | None => final (loop (from (i + 1)) (Some e)) (final (select_after_done retryBackoff ctx) s)
  | Some _ => final (select_after_done retryBackoff ctx) s
  end.
Proof. unfold after_failure. run. by destruct (result_of _ s). Qed.

Lemma loop_duration n i lastErr s :
  Z.of_nat n = maxRetries - i ->
  now s <= now (final (loop (from i) lastErr) s) <=
    now s + timeout + Z.of_nat n * (timeout + retryBackoff) /\
  (forall t e, ctx_done ctx = Some (t, e) ->
     now (final (loop (from i) lastErr) s) <= Z.max (now s) t).
Proof.
  revert i lastErr s. induction n as [|n IH]; intros i lastErr s Hn;
    pose proof (once_timely s) as Ho1; pose proof (once_within s) as Ho2;
    pose proof (once_honours s) as Ho3;
    (destruct (result_of once s) as [r|e] eqn:Hr;
     [destruct (loop_success i lastErr s r ltac:(lia) Hr) as (_ & -> & _);
      split; [|exact Ho3]; unfold retryBackoff, Millisecond; lia|]).
  - replace i with maxRetries by lia.
    destruct (loop_last_failure lastErr s e Hr) as (_ & -> & _).
    split; [lia|exact Ho3].
  - destruct (loop_retry i lastErr s e ltac:(lia) Hr) as (_ & -> & _).
    rewrite after_failure_final. set (s1 := final once s) in *.
    pose proof (select_within s1) as Hs1. pose proof (select_honours s1) as Hs2.
    destruct (IH (i + 1) (Some e) (final (select_after_done retryBackoff ctx) s1) ltac:(lia))
      as [Hb Hh].
    destruct (result_of (select_after_done retryBackoff ctx) s1).
    + split; [lia|]. intros t e' Hd. specialize (Hs2 t e' Hd). specialize (Ho3 t e' Hd). lia.
    + split; [lia|]. intros t e' Hd. specialize (Hs2 t e' Hd). specialize (Ho3 t e' Hd).
      specialize (Hh t e' Hd). lia.
Qed.
End Facts.

(** The calls of one attempt of [fn], when [fn] makes the same call [x] in
    every context. *)
Lemma once_calls {E T} ctx timeout (fn : Ctx -> M E (result T)) x :
  (forall c s, calls_of (trace (fn c) s) = [x]) ->
  forall s, calls_of (trace (attempt_once ctx timeout fn) s) = [x].
Proof. intros Hx s. unfold attempt_once. run. apply Hx. Qed.

Lemma callWithResilience_from {E T} (zero : T) ctx cfg node (fn : Ctx -> M E (result T)) :
  callWithResilience zero ctx cfg node fn =
  attempt_loop zero ctx (nodeTimeout cfg node) (n_MaxRetries node) fn
    (from (n_MaxRetries node) 0) None.
Proof. unfold callWithResilience, from. by rewrite Z.sub_0_r. Qed.

(** The calls of a node call: the same call, once per attempt. *)
(** A success is that of some attempt, or the zero value of no attempt at
    all. *)
Lemma attempt_loop_source {E T} (zero : T) ctx timeout maxRetries (fn : Ctx -> M E (result T)) attempts
    lastErr s v :
  result_of (attempt_loop zero ctx timeout maxRetries fn attempts lastErr) s = Ok v ->
  (v = zero /\ attempts = [] /\ lastErr = None) \/ exists c s', result_of (fn c) s' = Ok v.
Proof.
  revert lastErr s. induction attempts as [|attempt attempts IH]; intros lastErr s; cbn [attempt_loop].
  - destruct lastErr; [done|]. intros [= ->]. by left.
  - unfold attempt_once. run. set (c := WithTimeout _ _ _). intros H. right. revert H.
    destruct (result_of (fn c) s) as [r|err] eqn:Hr; run; [intros [= ->]; eauto|].
    assert (Hrest : forall s, result_of (attempt_loop zero ctx timeout maxRetries fn attempts (Some err)) s = Ok v ->
              exists c s', result_of (fn c) s' = Ok v) by (intros s1 [(_ & _ & ?)|]%IH; done).
    destruct (attempt <? maxRetries); run; [|apply Hrest].
    destruct (result_of (select_after_done retryBackoff ctx) _); [done|apply Hrest].
Qed.

Lemma callWithResilience_source {E T} (zero : T) ctx cfg node (fn : Ctx -> M E (result T)) s v :
  result_of (callWithResilience zero ctx cfg node fn) s = Ok v ->
  (v = zero /\ n_MaxRetries node < 0) \/ exists c s', result_of (fn c) s' = Ok v.
Proof.
  intros [(-> & Hnil & _)|?]%attempt_loop_source; [left|by right]. split; [done|].
  destruct (Z.ltb_spec (n_MaxRetries node) 0); [done|]. by rewrite seqZ_cons in Hnil by lia.
Qed.

(** A call that may be tried and succeeds is a number of failed attempts, at
    most [max_retries], and one that succeeds, whatever its context. *)
Lemma loop_success_last {E T} (zero : T) ctx timeout maxRetries (fn : Ctx -> M E (result T)) n i lastErr s v :
  let m := attempt_loop zero ctx timeout maxRetries fn (from maxRetries i) lastErr in
  let once := attempt_once ctx timeout fn in
  Z.of_nat n = maxRetries - i -> result_of m s = Ok v ->
  exists errs s', failures ctx timeout fn s errs s' /\ (length errs <= n)%nat /\
    result_of once s' = Ok v /\ final m s = final once s'.
Proof.
  cbv zeta. revert i lastErr s. induction n as [|n IH]; intros i lastErr s Hn;
    (destruct (result_of (attempt_once ctx timeout fn) s) as [r|e] eqn:Hr;
     [destruct (loop_success zero ctx timeout maxRetries fn i lastErr s r ltac:(lia) Hr) as (-> & -> & _);
      intros [= ->]; exists [], s; split_and!; [constructor|simpl; lia|done|done]|]).
  - replace i with maxRetries by lia.
    by destruct (loop_last_failure zero ctx timeout maxRetries fn lastErr s e Hr) as (-> & _ & _).
  - destruct (loop_retry zero ctx timeout maxRetries fn i lastErr s e ltac:(lia) Hr) as (-> & -> & _).
    unfold after_failure. run.
    destruct (result_of (select_after_done retryBackoff ctx) _) as [c|] eqn:Hsel; [done|].
    assert (Hb : final (select_after_done retryBackoff ctx) (final (attempt_once ctx timeout fn) s)
                 = after_backoff (final (attempt_once ctx timeout fn) s)).
    { revert Hsel. unfold result_of, final, select_after_done. by repeat case_match. }
    rewrite Hb. intros Hok. destruct (IH (i + 1) (Some e) _ ltac:(lia) Hok) as (errs & s' & ? & ? & ? & ?).
    exists (e :: errs), s'. split_and!; [by eapply failures_cons|simpl; lia|done|done].
Qed.

Lemma callWithResilience_success {E T} (zero : T) ctx cfg node (fn : Ctx -> M E (result T)) s v :
  let m := callWithResilience zero ctx cfg node fn in
  let once := attempt_once ctx (nodeTimeout cfg node) fn in
  0 <= n_MaxRetries node -> result_of m s = Ok v ->
  exists errs s', failures ctx (nodeTimeout cfg node) fn s errs s' /\
    Z.of_nat (length errs) <= n_MaxRetries node /\
    result_of once s' = Ok v /\ final m s = final once s'.
Proof.
  cbv zeta. rewrite callWithResilience_from. intros Hn Hok.
  destruct (loop_success_last zero ctx (nodeTimeout cfg node) (n_MaxRetries node) fn
              (Z.to_nat (n_MaxRetries node)) 0 None s v ltac:(lia) Hok) as (errs & s' & ? & ? & ? & ?).
  exists errs, s'. split_and!; [done|lia|done|done].
Qed.

(** A prompt callee is called once at most: the node call succeeds in the time
    of the callee. *)
Lemma callWithResilience_prompt {E T} (zero : T) cfg node (fn : Ctx -> M E (result T)) d :
  prompt d fn -> 0 <= d <= nodeTimeout cfg node ->
  prompt d (λ ctx, callWithResilience zero ctx cfg node fn).
Proof.
  intros Hfn Hd ctx s Hroom. rewrite callWithResilience_from.
  destruct (Z.leb_spec 0 (n_MaxRetries node)) as [Hn|Hn]; [|rewrite from_nil by lia; cbn [attempt_loop]; run; split; [done|lia]].
  destruct (Hfn (WithTimeout (now s) ctx (nodeTimeout cfg node)) s) as [Hok Ht]; [apply room_WithTimeout; [lia|done]|].
  set (once := attempt_once ctx (nodeTimeout cfg node) fn).
  assert (Hr : result_of once s = result_of (fn (WithTimeout (now s) ctx (nodeTimeout cfg node))) s /\
               final once s = final (fn (WithTimeout (now s) ctx (nodeTimeout cfg node))) s)
    by (unfold once, attempt_once; by run).
  destruct Hr as [Hr Hf]. rewrite <- Hr in Hok. rewrite <- Hf in Ht.
  destruct (result_of once s) as [r|err] eqn:Hres; [|done].
  by destruct (loop_success zero ctx (nodeTimeout cfg node) (n_MaxRetries node) fn 0 None s r Hn Hres)
    as (-> & -> & _).
Qed.

Lemma callWithResilience_replicate {E T} (zero : T) ctx cfg node (fn : Ctx -> M E (result T)) s x :
  (forall c s, calls_of (trace (fn c) s) = [x]) ->
  exists k, calls_of (trace (callWithResilience zero ctx cfg node fn) s) = replicate k x /\
    Z.of_nat k <= Z.max 0 (n_MaxRetries node + 1) /\
    (0 <= n_MaxRetries node -> (1 <= k)%nat).
Proof.
  intros Hx. rewrite callWithResilience_from.
  destruct (Z.leb_spec 0 (n_MaxRetries node)) as [Hr|Hr].
  - destruct (loop_attempts zero ctx (nodeTimeout cfg node) (n_MaxRetries node) fn
                (Z.to_nat (n_MaxRetries node)) 0 None s x ltac:(lia) (once_calls _ _ _ _ Hx))
      as (k & Hk & Hcalls).
    exists k. split_and!; [done|lia|lia].
  - rewrite from_nil by lia. exists 0%nat. split_and!; [done|lia|lia].
Qed.

(** A node whose attempts succeed is attempted once. *)
Lemma callWithResilience_first {E T} (zero : T) ctx cfg node (fn : Ctx -> M E (result T)) r s :
  0 <= n_MaxRetries node -> (forall c s, result_of (fn c) s = Ok r) ->
  result_of (callWithResilience zero ctx cfg node fn) s = Ok r /\
  trace (callWithResilience zero ctx cfg node fn) s
    = trace (attempt_once ctx (nodeTimeout cfg node) fn) s.
Proof.
  intros Hr Hok. rewrite callWithResilience_from.
  destruct (loop_success zero ctx (nodeTimeout cfg node) (n_MaxRetries node) fn 0 None s r
              ltac:(lia)) as (H1 & _ & H3); [|done].
  unfold attempt_once. run. apply Hok.
Qed.

(** A node call takes no time when it is not attempted. *)
Lemma callWithResilience_skipped {E T} (zero : T) ctx cfg node (fn : Ctx -> M E (result T)) s :
  n_MaxRetries node < 0 -> callWithResilience zero ctx cfg node fn s = (Ok zero, s, []).
Proof. intros Hr. by rewrite callWithResilience_from, from_nil by lia. Qed.

(** The time budget of a node. *)
Definition node_budget (cfg : Config) (node : Node) : Z :=
  (n_MaxRetries node + 1) * nodeTimeout cfg node + n_MaxRetries node * retryBackoff.

Lemma callWithResilience_budget {E T} (zero : T) ctx cfg node (fn : Ctx -> M E (result T)) :
  0 <= n_MaxRetries node -> 0 <= nodeTimeout cfg node ->
  (forall c, timely (fn c)) -> (forall c, honours c (fn c)) ->
  timely (callWithResilience zero ctx cfg node fn) /\
  within (node_budget cfg node) (callWithResilience zero ctx cfg node fn) /\
  honours ctx (callWithResilience zero ctx cfg node fn).
Proof.
  intros Hr Ht Htimely Hhon. rewrite callWithResilience_from.
  assert (Hdur : forall s,
    let f := final (attempt_loop zero ctx (nodeTimeout cfg node) (n_MaxRetries node) fn
                      (from (n_MaxRetries node) 0) None) s in
    now s <= now f <= now s + node_budget cfg node /\
    (forall t e, ctx_done ctx = Some (t, e) -> now f <= Z.max (now s) t)).
  { intros s f.
    destruct (loop_duration zero ctx (nodeTimeout cfg node) (n_MaxRetries node) fn Htimely Hhon Ht
                (Z.to_nat (n_MaxRetries node)) 0 None s ltac:(lia)) as [Hb Hh].
    rewrite Z2Nat.id in Hb by done. unfold node_budget, f. split; [nia|exact Hh]. }
  split_and!.
  - intros s. apply Hdur.
  - intros s. apply Hdur.
  - intros s t e Hd. destruct (Hdur s) as [_ Hh]. by apply (Hh t e).
Qed.

(** ** Properties *)
Section Properties.
Context {E T : Type} (zero : T).

(** C16: under a context that is never done, a node call with
    [max_retries >= 0] ends with the first successful attempt, or, when all
    [max_retries + 1] attempts fail, with the error of the last one; it makes
    one attempt more than there were failures before the end, each one
    starting 20 ms after the previous failure, and its effects are those of
    these attempts. *)
Theorem callWithResilience_outcome ctx cfg node (fn : Ctx -> M E (result T)) s :
  ctx_done ctx = None -> 0 <= n_MaxRetries node ->
  let once := attempt_once ctx (nodeTimeout cfg node) fn in
  let run := callWithResilience zero ctx cfg node fn in
  exists errs s',
    failures ctx (nodeTimeout cfg node) fn s errs s' /\
    Z.of_nat (length errs) <= n_MaxRetries node /\
    result_of run s = result_of once s' /\
    final run s = final once s' /\
    (is_err (result_of run s) = true -> Z.of_nat (length errs) = n_MaxRetries node) /\
    (forall x, (forall c s, calls_of (trace (fn c) s) = [x]) ->
       calls_of (trace run s) = replicate (S (length errs)) x).
Proof.
  intros Hd Hr. cbv zeta. rewrite callWithResilience_from.
  destruct (loop_outcome zero ctx (nodeTimeout cfg node) (n_MaxRetries node) fn
              (Z.to_nat (n_MaxRetries node)) 0 None s Hd ltac:(lia))
    as (errs & s' & Hf & Hlen & Hres & Hfin & Hall & Hcalls).
  exists errs, s'. rewrite Hres. split_and!; try done; [lia| |].
  - intros H. rewrite Hall by done. lia.
  - intros x Hx. apply Hcalls, once_calls, Hx.
Qed.

(** C32: with a negative [max_retries] the call is never made and yet
    reported as a success with the zero value: no attempt, no time spent, a
    nil error, whatever the callee and the policy of the node. *)
Theorem callWithResilience_negative_retries ctx cfg node (fn : Ctx -> M E (result T)) s :
  n_MaxRetries node < 0 ->
  callWithResilience zero ctx cfg node fn s = (Ok zero, s, []).
Proof. apply callWithResilience_skipped. Qed.

(** C31: a node call is bounded in time: with callees that return by the
    deadline of the context they are given, it takes at most
    [(max_retries + 1) * timeout + max_retries * 20 ms], never runs past the
    instant its own context is done, and the clock does not run backwards. *)
Theorem callWithResilience_duration ctx cfg node (fn : Ctx -> M E (result T)) s :
  0 <= n_MaxRetries node -> 0 <= nodeTimeout cfg node ->
  (forall c, timely (fn c)) -> (forall c, honours c (fn c)) ->
  let run := callWithResilience zero ctx cfg node fn in
  now s <= now (final run s) <=
    now s + (n_MaxRetries node + 1) * nodeTimeout cfg node + n_MaxRetries node * retryBackoff /\
  (forall t e, ctx_done ctx = Some (t, e) -> now (final run s) <= Z.max (now s) t).
Proof.
  intros Hr Ht Htimely Hhon.
  destruct (callWithResilience_budget zero ctx cfg node fn Hr Ht Htimely Hhon) as (H1 & H2 & H3).
  specialize (H1 s). specialize (H2 s). unfold node_budget in H2.
  split; [lia|]. intros t e. apply H3.
Qed.

(** A context that is already done is not retried under: when the first
    attempt fails, the call returns the context's error at once (no back-off,
    no second attempt) even if retries are left. *)
Theorem callWithResilience_cancelled ctx cfg node (fn : Ctx -> M E (result T)) s t c e :
  ctx_done ctx = Some (t, c) -> t <= now s -> 1 <= n_MaxRetries node ->
  (forall c, timely (fn c)) ->
  let once := attempt_once ctx (nodeTimeout cfg node) fn in
  let run := callWithResilience zero ctx cfg node fn in
  result_of once s = Err e ->
  result_of run s = Err (ErrCtx c) /\
  now (final run s) = now (final once s) /\
  trace run s = trace once s.
Proof.
  intros Hd Ht Hr Htimely. cbv zeta. rewrite callWithResilience_from. intros Hfail.
  destruct (loop_retry zero ctx (nodeTimeout cfg node) (n_MaxRetries node) fn 0 None s e
              ltac:(lia) Hfail) as (-> & -> & ->).
  set (s1 := final _ s).
  assert (Hs1 : now s <= now s1) by (unfold s1, attempt_once; run; apply Htimely).
  assert (Hsel : select_after_done (E := E) retryBackoff ctx s1
                 = (Some c, mkSt (Z.max (now s1) t) (env s1) (coin s1), [])).
  { unfold select_after_done. rewrite Hd. rewrite (proj2 (Z.ltb_lt _ _)); [done|].
    unfold retryBackoff, Millisecond. lia. }
  assert (Hres : result_of (select_after_done (E := E) retryBackoff ctx) s1 = Some c)
    by (unfold result_of; by rewrite Hsel).
  assert (Hfin : now (final (select_after_done (E := E) retryBackoff ctx) s1) = now s1)
    by (unfold final; rewrite Hsel; simpl; lia).
  unfold after_failure. run. rewrite trace_select, Hres. run.
  split_and!; [done|exact Hfin|by rewrite app_nil_r].
Qed.
End Properties.

(** ** A flaky callee, to exhibit the hypotheses *)

(** Fails while its state is positive, takes 1 ms per attempt, or until the
    deadline it is given. *)
Definition flaky (ctx : Ctx) : M nat (result string) := λ s,
  let t1 := now s + Millisecond in
  let t := match ctx_done ctx with Some (t, _) => Z.max (now s) (Z.min t t1) | None => t1 end in
  (match env s with O => Ok "active"%string | S _ => Err (ErrNew "transient failure") end,
   mkSt t (Nat.pred (env s)) (coin s),
   [EvCall ctx (CallLookup "corr-retry" "POL-123456")]).

Definition retry_node (maxRetries : Z) : Node :=
  mkNode "policy_lookup" "policy-lookup-svc" "enrichment" 40 maxRetries "degrade" [] [].

Lemma flaky_timely c : timely (flaky c).
Proof.
  intros s. unfold final, flaky. simpl. unfold Millisecond.
  destruct (ctx_done c) as [[t e]|]; lia.
Qed.

Lemma flaky_honours c : honours c (flaky c).
Proof. intros s t e Hd. unfold final, flaky. simpl. rewrite Hd. lia. Qed.

Definition flaky_start : St nat := mkSt 0 2%nat (λ _, false).

(** Two failures and a success with [max_retries = 2]: three attempts. *)
Example flaky_retried :
  let run := callWithResilience "" Background claim_fnol_config (retry_node 2) flaky in
  result_of run flaky_start = Ok "active"%string /\
  now (final run flaky_start) = 43 * Millisecond /\
  length (calls_of (trace run flaky_start)) = 3%nat.
Proof. by_compute. Qed.

Lemma callWithResilience_outcome_witness :
  let once := attempt_once Background (nodeTimeout claim_fnol_config (retry_node 2)) flaky in
  let run := callWithResilience "" Background claim_fnol_config (retry_node 2) flaky in
  exists errs s',
    failures Background (nodeTimeout claim_fnol_config (retry_node 2)) flaky flaky_start errs s' /\
    Z.of_nat (length errs) <= 2 /\
    result_of run flaky_start = result_of once s' /\
    final run flaky_start = final once s' /\
    (is_err (result_of run flaky_start) = true -> Z.of_nat (length errs) = 2) /\
    (forall x, (forall c s, calls_of (trace (flaky c) s) = [x]) ->
       calls_of (trace run flaky_start) = replicate (S (length errs)) x).
Proof.
  apply (callWithResilience_outcome ""%string Background claim_fnol_config (retry_node 2) flaky flaky_start);
    [reflexivity|simpl; lia].
Defined.

Lemma callWithResilience_negative_retries_witness :
  callWithResilience "" Background claim_fnol_config (retry_node (-1)) flaky flaky_start
    = (Ok ""%string, flaky_start, []).
Proof.
  apply (callWithResilience_negative_retries ""%string Background claim_fnol_config (retry_node (-1))).
  reflexivity.
Defined.

Lemma callWithResilience_duration_witness :
  let ctx := mkCtx ∅ (Some (30 * Millisecond, DeadlineExceeded)) in
  let run := callWithResilience "" ctx claim_fnol_config (retry_node 2) flaky in
  now flaky_start <= now (final run flaky_start) <=
    now flaky_start + (2 + 1) * nodeTimeout claim_fnol_config (retry_node 2) + 2 * retryBackoff /\
  (forall t e, ctx_done ctx = Some (t, e) ->
     now (final run flaky_start) <= Z.max (now flaky_start) t).
Proof.
  intros ctx.
  apply (callWithResilience_duration ""%string ctx claim_fnol_config (retry_node 2) flaky flaky_start);
    [simpl; lia|vm_compute; done|apply flaky_timely|apply flaky_honours].
Defined.

Lemma callWithResilience_cancelled_witness :
  let ctx := mkCtx ∅ (Some (0, Canceled)) in
  let once := attempt_once ctx (nodeTimeout claim_fnol_config (retry_node 2)) flaky in
  let run := callWithResilience "" ctx claim_fnol_config (retry_node 2) flaky in
  result_of run flaky_start = Err (ErrCtx Canceled) /\
  now (final run flaky_start) = now (final once flaky_start) /\
  trace run flaky_start = trace once flaky_start.
Proof.
  apply (callWithResilience_cancelled ""%string (mkCtx ∅ (Some (0, Canceled))) claim_fnol_config
           (retry_node 2) flaky flaky_start 0 Canceled (ErrNew "transient failure"));
    [reflexivity|simpl; lia|simpl; lia|apply flaky_timely|reflexivity].
Defined.
