(* ===== verification/Loader.v ===== *)
(** * orchestration-service/internal/dag/loader.go

    [Load] resolves the expected version, builds the path
    [ConfigDir/tenant/product/event.yaml] with [filepath.Join], reads and parses
    the file, and tolerates a version mismatch.  The resolver, the file system
    and the YAML parser are parameters.  The path theorems say when two lookups
    read the same file, and what an event type with [..] elements does. *)

From Stdlib Require Import Ascii String.
From S2P Require Import Prelude Float64 GoStrings Messages Effects Telemetry DagConfig.

(** The path [Load] reads. *)
Definition dag_path (ConfigDir tenantID product eventType : string) : string :=
  filepath_Join [ConfigDir; tenantID; product; eventType +:+ ".yaml"]%string.

(** The narrow interface of the loader: its one method, which the client of
    tenant-config-svc implements. *)
Definition DagVersionResolver (E : Type) : Type := Ctx -> string -> string -> M E (result Z).

(** The fields of [Loader] are the variables of the section, with the two
    libraries it calls. *)
Section Load.
Context {E : Type}.
Variable ResolveDagVersion : DagVersionResolver E.
Variable ReadFile : string -> M E (result string).
Variable Unmarshal : string -> result Config.
Variable ConfigDir : string.
Variable loader_logger : option Logger.

Definition Load (ctx : Ctx) (tenantID product eventType : string) : M E (result Config) :=
  wantVersion ← call ctx (CallGetDagVersion tenantID product)
                  (ResolveDagVersion ctx tenantID product);
  match wantVersion with
  | Err err => mret (Err (ErrWrap "resolve dag version" err))
  | Ok wantVersion =>
      let path := dag_path ConfigDir tenantID product eventType in
      data ← call Background (CallReadFile path) (ReadFile path);
      match data with
      | Err err => mret (Err (ErrWrap ("read dag config " +:+ path) err))
      | Ok data =>
          match Unmarshal data with
          | Err err => mret (Err (ErrWrap ("parse dag config " +:+ path) err))
          | Ok cfg =>
              _ ← (if bool_decide (c_Version cfg <> wantVersion)
                   then log_Warn (FromContext ctx loader_logger)
                          "dag config file version mismatch"
                          [("path"%string, AStr path);
                           ("file_version"%string, AInt (c_Version cfg));
                           ("tenant_config_version"%string, AInt wantVersion)]
                   else mret tt);
              mret (Ok cfg)
          end
      end
  end.
End Load.

(** A path element: no separator, and none of the names [Clean] treats
    specially. *)
Definition no_slash (e : string) : Prop := slash ∉ list_ascii_of_string e.
Definition safe_elem (e : string) : Prop :=
  no_slash e /\ e ∉ [""; "."; ".."]%string.

#[export] Instance no_slash_dec e : Decision (no_slash e).
Proof. unfold no_slash. apply _. Defined.
#[export] Instance safe_elem_dec e : Decision (safe_elem e).
Proof. unfold safe_elem. apply _. Defined.

(** ** Lemmas on paths *)

Lemma split_slash_not_nil s : split_slash s <> [].
Proof.
  destruct s as [|c s]; cbn [split_slash]; [done|].
  destruct (decide (c = slash)); [done|]. by destruct (split_slash s).
Qed.

Lemma split_slash_no_slash e : no_slash e -> split_slash e = [e].
Proof.
  unfold no_slash.
  induction e as [|c e IH]; cbn [split_slash list_ascii_of_string]; [done|]. intros Hns.
  rewrite not_elem_of_cons in Hns. destruct Hns as [Hc Hns].
  rewrite decide_False by congruence. by rewrite IH.
Qed.

Lemma split_slash_join a b :
  split_slash (a +:+ String slash b) = split_slash a ++ split_slash b.
Proof.
  induction a as [|c a IH].
  - change ("" +:+ String slash b)%string with (String slash b). cbn [split_slash].
    by rewrite decide_True.
  - change (String c a +:+ String slash b) with (String c (a +:+ String slash b)).
    cbn [split_slash]. rewrite IH. destruct (decide (c = slash)); [done|].
    pose proof (split_slash_not_nil a). by destruct (split_slash a).
Qed.

Lemma concat_cons e e' es :
  String.concat "/" (e :: e' :: es) = e +:+ String slash (String.concat "/" (e' :: es)).
Proof. done. Qed.

Lemma concat_app_tail e e' es x :
  String.concat "/" (e :: e' :: es) +:+ x
  = e +:+ String slash (String.concat "/" (e' :: es) +:+ x).
Proof.
  rewrite concat_cons. induction e as [|c e IH]; [done|].
  by rewrite !string_cons_app, IH.
Qed.

Lemma split_slash_concat es :
  es <> [] -> split_slash (String.concat "/" es) = es ≫= split_slash.
Proof.
  induction es as [|e [|e' es] IH]; [done| |].
  - intros _. simpl. by rewrite app_nil_r.
  - intros _. rewrite concat_cons, split_slash_join, IH by done. done.
Qed.

Lemma split_slash_concat_elems es :
  es <> [] -> Forall no_slash es -> split_slash (String.concat "/" es) = es.
Proof.
  intros Hne Hes. rewrite split_slash_concat by done. clear Hne.
  induction Hes as [|e es He _ IH]; [done|].
  rewrite bind_cons, split_slash_no_slash, IH by done. done.
Qed.

Lemma is_rooted_concat e es :
  e <> ""%string -> is_rooted (String.concat "/" (e :: es)) = is_rooted e.
Proof. destruct e as [|c e]; [done|]. by destruct es. Qed.

Lemma clean_push_safe rooted stack e :
  safe_elem e -> clean_push rooted stack e = e :: stack.
Proof.
  intros [_ He]. unfold clean_push. rewrite !not_elem_of_cons in He.
  destruct He as (Hempty & Hdot & Hdd & _).
  by rewrite !bool_decide_false by (done || by intros [?|?]).
Qed.

(** [..] removes an ordinary element. *)
Lemma clean_push_dotdot rooted top below :
  safe_elem top -> clean_push rooted (top :: below) ".." = below.
Proof.
  intros [_ He]. rewrite !not_elem_of_cons in He. destruct He as (_ & _ & Hdd & _).
  unfold clean_push. by rewrite (bool_decide_false (top = _)) by done.
Qed.

Lemma foldl_push_safe rooted stack es :
  Forall safe_elem es -> foldl (clean_push rooted) stack es = rev es ++ stack.
Proof.
  intros Hes. revert stack. induction Hes as [|e es He _ IH]; intros stack; [done|].
  simpl. rewrite clean_push_safe, IH by done. by rewrite <- app_assoc.
Qed.

(** A relative or absolute directory followed by safe elements. *)
Lemma clean_elems_app_safe rooted ds es :
  Forall safe_elem es -> clean_elems rooted (ds ++ es) = clean_elems rooted ds ++ es.
Proof.
  intros Hes. unfold clean_elems. rewrite foldl_app, foldl_push_safe by done.
  by rewrite rev_app_distr, rev_involutive.
Qed.

(** Two safe elements followed by two [..] leave the directory. *)
Lemma clean_elems_pop2 rooted ds a b es :
  safe_elem a -> safe_elem b ->
  clean_elems rooted (ds ++ [a; b; ".."; ".."]%string ++ es) = clean_elems rooted (ds ++ es).
Proof.
  intros Ha Hb. unfold clean_elems. rewrite !foldl_app. f_equal. f_equal. simpl.
  rewrite (clean_push_safe _ _ a), (clean_push_safe _ _ b) by done.
  by rewrite !clean_push_dotdot by done.
Qed.

(** [eventType + ".yaml"] is never one of the special names. *)
Lemma yaml_safe e : no_slash e -> safe_elem (e +:+ ".yaml").
Proof.
  intros He. split.
  - unfold no_slash in *. intros Hin. apply He.
    assert (Happ : list_ascii_of_string (e +:+ ".yaml")
                   = list_ascii_of_string e ++ list_ascii_of_string ".yaml").
    { clear. induction e as [|c e IH]; [done|]. simpl. f_equal. exact IH. }
    rewrite Happ, elem_of_app in Hin. destruct Hin as [|Hin]; [done|].
    assert (Hd : slash ∉ list_ascii_of_string ".yaml") by (apply (bool_decide_unpack _); by_compute).
    by apply Hd in Hin.
  - assert (Hlen : (5 <= String.length (e +:+ ".yaml"))%nat).
    { rewrite string_length_app. simpl. lia. }
    rewrite !not_elem_of_cons. split_and!; [| | |apply not_elem_of_nil];
      intros Heq; rewrite Heq in Hlen; simpl in Hlen; lia.
Qed.

(** The elements of the path for safe components. *)
Lemma dag_path_safe dir t p ev :
  dir <> ""%string -> safe_elem t -> safe_elem p -> no_slash ev ->
  dag_path dir t p ev =
    render_path (is_rooted dir)
      (clean_elems (is_rooted dir) (split_slash dir) ++ [t; p; ev +:+ ".yaml"]%string).
Proof.
  intros Hdir Ht Hp Hev. unfold dag_path. cbn [filepath_Join].
  rewrite bool_decide_false by done. unfold filepath_Clean.
  rewrite is_rooted_concat by done. f_equal.
  pose proof (yaml_safe ev Hev) as Hy.
  rewrite split_slash_concat by done. rewrite !bind_cons.
  rewrite (split_slash_no_slash t), (split_slash_no_slash p), (split_slash_no_slash (ev +:+ _))
    by (apply Ht || apply Hp || apply Hy).
  apply (clean_elems_app_safe _ _ [t; p; (ev +:+ ".yaml")%string]).
  repeat (apply Forall_cons_2; [done|]). apply Forall_nil_2.
Qed.

(** Cleaned elements hold no separator, so a rendered path determines them. *)
Lemma clean_push_no_slash rooted stack e :
  Forall no_slash stack -> no_slash e -> Forall no_slash (clean_push rooted stack e).
Proof.
  intros Hst He. unfold clean_push.
  assert (Hdd : no_slash "..") by (apply (bool_decide_unpack _); by_compute).
  destruct Hst as [|top below Htop Hbelow]; repeat case_bool_decide; repeat case_match;
    repeat first [done | apply Forall_cons_2 | apply Forall_nil_2].
Qed.

Lemma split_slash_elems_no_slash s : Forall no_slash (split_slash s).
Proof.
  assert (Hnil : no_slash "") by (apply (bool_decide_unpack _); by_compute).
  induction s as [|c s IH]; cbn [split_slash]; [by apply Forall_cons_2; [|apply Forall_nil_2]|].
  destruct (decide (c = slash)) as [|Hc]; [by apply Forall_cons_2|].
  destruct IH as [|e es He Hes]; apply Forall_cons_2; try done; try apply Forall_nil_2;
    unfold no_slash in *; cbn [list_ascii_of_string]; rewrite not_elem_of_cons; split; congruence || done.
Qed.

Lemma clean_elems_no_slash rooted es :
  Forall no_slash es -> Forall no_slash (clean_elems rooted es).
Proof.
  intros Hes. unfold clean_elems. apply Forall_rev.
  assert (Hgen : forall stack, Forall no_slash stack ->
            Forall no_slash (foldl (clean_push rooted) stack es)).
  { induction Hes as [|e es He _ IH]; intros stack Hst; [done|]. simpl.
    apply IH, clean_push_no_slash; done. }
  apply Hgen, Forall_nil_2.
Qed.

Lemma render_path_inj rooted es es' :
  es <> [] -> es' <> [] -> Forall no_slash es -> Forall no_slash es' ->
  render_path rooted es = render_path rooted es' -> es = es'.
Proof.
  intros Hne Hne' Hes Hes' Heq.
  assert (Hcat : String.concat "/" es = String.concat "/" es').
  { destruct rooted, es, es'; try done; simpl in Heq; by injection Heq. }
  rewrite <- (split_slash_concat_elems es), <- (split_slash_concat_elems es') by done.
  by rewrite Hcat.
Qed.


(** *** The loader *)
Section LoadSpec.
Context {E : Type} (ResolveDagVersion : Ctx -> string -> string -> M E (result Z))
  (ReadFile : string -> M E (result string)) (Unmarshal : string -> result Config)
  (ConfigDir : string) (logger : option Logger).

Lemma Load_spec ctx tenantID product eventType s :
  let path := dag_path ConfigDir tenantID product eventType in
  let lookup := ResolveDagVersion ctx tenantID product in
  let s1 := final lookup s in
  let m := Load ResolveDagVersion ReadFile Unmarshal ConfigDir logger ctx tenantID product eventType in
  match result_of lookup s with
  | Err e =>
      result_of m s = Err (ErrWrap "resolve dag version" e) /\ final m s = s1 /\
      trace m s = EvCall ctx (CallGetDagVersion tenantID product) :: trace lookup s
  | Ok version =>
      result_of m s =
        match result_of (ReadFile path) s1 with
        | Err e => Err (ErrWrap ("read dag config " +:+ path) e)
        | Ok data => wrap_err ("parse dag config " +:+ path) (Unmarshal data)
        end /\
      final m s = final (ReadFile path) s1 /\
      exists warnings,
        trace m s = EvCall ctx (CallGetDagVersion tenantID product) :: trace lookup s ++
                    EvCall Background (CallReadFile path) :: trace (ReadFile path) s1 ++ warnings /\
        calls_of warnings = [] /\
        length warnings =
          match result_of m s with
          | Ok cfg => if bool_decide (c_Version cfg = version) then 0%nat else 1%nat
          | Err _ => 0%nat
          end
  end.
Proof.
  cbv zeta. unfold Load. run.
  destruct (result_of (ResolveDagVersion ctx tenantID product) s) as [v|e]; run;
    [|by rewrite app_nil_r].
  set (s1 := final (ResolveDagVersion ctx tenantID product) s).
  set (path := dag_path ConfigDir tenantID product eventType).
  destruct (result_of (ReadFile path) s1) as [data|e]; run; [|by split_and!; [..|exists []]].
  destruct (Unmarshal data) as [cfg|e]; run; [|by split_and!; [..|exists []]].
  destruct (decide (c_Version cfg = v)) as [Hv|Hv].
  - rewrite (bool_decide_false (c_Version cfg <> v)) by (by intros ?).
    rewrite (bool_decide_true _ Hv). run.
    split_and!; [done..|]. by exists [].
  - rewrite (bool_decide_true (c_Version cfg <> v)) by done.
    rewrite (bool_decide_false _ Hv). run.
    split_and!; [done..|]. by eexists.
Qed.
End LoadSpec.

(** ** Properties *)

(** A triple whose parts are single path elements. *)
Definition plain_key (k : string * string * string) : Prop :=
  let '(tenantID, product, eventType) := k in
  safe_elem tenantID /\ safe_elem product /\ no_slash eventType.

Definition dag_path_of (dir : string) (k : string * string * string) : string :=
  let '(tenantID, product, eventType) := k in dag_path dir tenantID product eventType.

(** C29: tenant isolation of the configuration store, for plain keys: when
    tenant, product and event type are single path elements, the file read is
    [<dir>/<tenant>/<product>/<event>.yaml] under the cleaned directory, and
    two such keys share a file only when they are equal. *)
Theorem dag_path_isolated dir k k' :
  dir <> ""%string -> plain_key k -> plain_key k' ->
  (dag_path_of dir k = dag_path_of dir k' -> k = k') /\
  dag_path_of dir k =
    render_path (is_rooted dir)
      (clean_elems (is_rooted dir) (split_slash dir)
         ++ [k.1.1; k.1.2; k.2 +:+ ".yaml"]%string).
Proof.
  destruct k as [[t p] ev], k' as [[t' p'] ev']. intros Hdir (Ht & Hp & Hev) (Ht' & Hp' & Hev').
  simpl. split; [|by apply dag_path_safe].
  rewrite !dag_path_safe by done. intros Heq.
  assert (Hns : forall a b e, safe_elem a -> safe_elem b -> no_slash e ->
    Forall no_slash (clean_elems (is_rooted dir) (split_slash dir) ++ [a; b; e +:+ ".yaml"]%string)).
  { intros a b e [Ha _] [Hb _] He. pose proof (yaml_safe e He) as [Hy _].
    apply Forall_app_2; [apply clean_elems_no_slash, split_slash_elems_no_slash|].
    repeat (apply Forall_cons_2; [done|]). apply Forall_nil_2. }
  assert (Hne : forall (l : list string) a b c, l ++ [a; b; c] <> []) by (by intros []).
  apply render_path_inj in Heq; [|apply Hne|apply Hne|by apply Hns|by apply Hns].
  apply app_inv_head in Heq. injection Heq as -> -> Heq%string_app_inj_r. by subst.
Qed.

(** C30: the event type is not confined: it comes from the request body, and
    an event type [../../<tenant'>/<product'>/<event'>] makes the lookup of any
    tenant and product read exactly the configuration file of another tenant
    (or product): the isolation of plain keys does not hold for the keys the
    gateway accepts. *)
Theorem dag_path_traversal dir tenantID product tenantID' product' eventType' :
  dir <> ""%string -> safe_elem tenantID -> safe_elem product ->
  safe_elem tenantID' -> safe_elem product' -> no_slash eventType' ->
  dag_path dir tenantID product
    (String.concat "/" [".."; ".."; tenantID'; product'; eventType']%string)
  = dag_path dir tenantID' product' eventType'.
Proof.
  intros Hdir Ht Hp Ht' Hp' Hev'. pose proof (yaml_safe eventType' Hev') as Hy.
  assert (Hdd : no_slash "..") by (apply (bool_decide_unpack _); by_compute).
  rewrite (dag_path_safe dir tenantID' product' eventType') by done.
  rewrite <- clean_elems_app_safe
    by (repeat (apply Forall_cons_2; [done|]); apply Forall_nil_2).
  unfold dag_path. cbn [filepath_Join].
  rewrite bool_decide_false by done. unfold filepath_Clean.
  rewrite is_rooted_concat by done. f_equal.
  rewrite split_slash_concat by done. rewrite !bind_cons. cbn [mbind list_bind].
  rewrite (split_slash_no_slash tenantID), (split_slash_no_slash product)
    by (apply Ht || apply Hp).
  replace (String.concat "/" [".."; ".."; tenantID'; product'; eventType']%string +:+ ".yaml")
    with (String.concat "/" [".."; ".."; tenantID'; product'; (eventType' +:+ ".yaml")%string]%string)
    by (rewrite !concat_app_tail; done).
  rewrite split_slash_concat_elems; [|done|].
  - rewrite app_nil_r.
    apply (clean_elems_pop2 (is_rooted dir) (split_slash dir) tenantID product
             [tenantID'; product'; (eventType' +:+ ".yaml")%string]); done.
  - destruct Ht' as [? _], Hp' as [? _], Hy as [? _].
    repeat (apply Forall_cons_2; [done|]). apply Forall_nil_2.
Qed.

Section LoadProperties.
Context {E : Type} (ResolveDagVersion : Ctx -> string -> string -> M E (result Z))
  (ReadFile : string -> M E (result string)) (Unmarshal : string -> result Config)
  (ConfigDir : string) (logger : option Logger).

(** [Load] looks the version up, then reads the one file of its key:
    a failed lookup reads no file; errors name the step and the path; the
    configuration returned is the file's own, whatever version the tenant
    service answered, a difference being worth exactly one warning. *)
Theorem Load_branches ctx tenantID product eventType s :
  let path := dag_path ConfigDir tenantID product eventType in
  let lookup := ResolveDagVersion ctx tenantID product in
  let s1 := final lookup s in
  let m := Load ResolveDagVersion ReadFile Unmarshal ConfigDir logger ctx tenantID product eventType in
  match result_of lookup s with
  | Err e =>
      result_of m s = Err (ErrWrap "resolve dag version" e) /\ final m s = s1 /\
      trace m s = EvCall ctx (CallGetDagVersion tenantID product) :: trace lookup s
  | Ok version =>
      result_of m s =
        match result_of (ReadFile path) s1 with
        | Err e => Err (ErrWrap ("read dag config " +:+ path) e)
        | Ok data => wrap_err ("parse dag config " +:+ path) (Unmarshal data)
        end /\
      final m s = final (ReadFile path) s1 /\
      exists warnings,
        trace m s = EvCall ctx (CallGetDagVersion tenantID product) :: trace lookup s ++
                    EvCall Background (CallReadFile path) :: trace (ReadFile path) s1 ++ warnings /\
        calls_of warnings = [] /\
        length warnings =
          match result_of m s with
          | Ok cfg => if bool_decide (c_Version cfg = version) then 0%nat else 1%nat
          | Err _ => 0%nat
          end
  end.
Proof. apply Load_spec. Qed.
End LoadProperties.

Lemma dag_path_isolated_witness :
  let k := ("acme_insurance", "auto", "claim.fnol")%string in
  let k' := ("globex_insurance", "auto", "claim.fnol")%string in
  (dag_path_of "../../config/dag" k = dag_path_of "../../config/dag" k' -> k = k') /\
  dag_path_of "../../config/dag" k = "../../config/dag/acme_insurance/auto/claim.fnol.yaml"%string.
Proof.
  apply (dag_path_isolated "../../config/dag" ("acme_insurance", "auto", "claim.fnol")%string
           ("globex_insurance", "auto", "claim.fnol")%string).
  - done.
  - apply (bool_decide_unpack (safe_elem "acme_insurance" /\ safe_elem "auto" /\ no_slash "claim.fnol")).
    by_compute.
  - apply (bool_decide_unpack (safe_elem "globex_insurance" /\ safe_elem "auto" /\ no_slash "claim.fnol")).
    by_compute.
Defined.

Lemma dag_path_traversal_witness :
  dag_path "../../config/dag" "acme_insurance" "auto" "../../globex_insurance/auto/claim.fnol"
  = dag_path "../../config/dag" "globex_insurance" "auto" "claim.fnol".
Proof.
  apply (dag_path_traversal "../../config/dag" "acme_insurance" "auto" "globex_insurance" "auto" "claim.fnol");
    first [done | apply (bool_decide_unpack _); by_compute].
Defined.
