(* ===== verification/Kafka.v ===== *)
(** * orchestration-service/internal/kafka: publishing scored claims

    [Publish] marshals the event and writes one message, keyed by the tenant.
    The Kafka writer, a third-party client, is a parameter. *)

From S2P Require Import Prelude Float64 GoStrings FormatFloat Json JsonFacts Messages Payloads.
From S2P Require Import PayloadFacts Effects.

Record Message := mkMessage { msg_Key : list Z; msg_Value : string }.

(** The fields of [kafkago.Writer] that [NewPublisher] sets. *)
Inductive KafkaBalancer := HashBalancer | RoundRobinBalancer.
Inductive KafkaAcks := RequireNone | RequireOne | RequireAll.
Record KafkaWriter := mkKafkaWriter {
  kw_Addr : string;
  kw_Topic : string;
  kw_Balancer : KafkaBalancer;
  kw_RequiredAcks : KafkaAcks;
  kw_AllowAutoTopicCreation : bool;
  kw_BatchTimeout : Z }.
Record KafkaPublisher := mkKafkaPublisher { writer : KafkaWriter }.

Definition NewPublisher (brokerAddr : string) : KafkaPublisher :=
  mkKafkaPublisher
    (mkKafkaWriter brokerAddr TopicClaimsRealtime HashBalancer RequireOne true
       (10 * Millisecond)).

Section Publisher.
Context {E : Type}.
Variable WriteMessages : Ctx -> Message -> M E (result unit).

Definition Publish (ctx : Ctx) (event : ScoredClaimEvent) : M E (result unit) :=
  match Marshal event with
  | Err err => mret (Err (ErrWrap "marshal scored claim event" err))
  | Ok value =>
      r ← WriteMessages ctx (mkMessage (bytes_of (ev_TenantID event)) value);
      match r with
      | Err err => mret (Err (ErrWrap ("write to " +:+ TopicClaimsRealtime) err))
      | Ok _ => mret (Ok tt)
      end
  end.

(** [Close] of the publisher, over the writer's own. *)
Definition Publisher_Close (writer_Close : KafkaWriter -> M E (result unit))
    (p : KafkaPublisher) : M E (result unit) :=
  call Background (CallProcess (OpClose (kw_Addr (writer p)))) (writer_Close (writer p)).

(** C18: publishing writes one message, keyed by the tenant (so the events of
    one tenant share a partition), whose value is one line of JSON that a
    consumer reads back as the event: its strings, and its score in the
    shortest decimal form that rounds to it.  An event whose score is NaN or
    infinite cannot be encoded: nothing is written, and the error names the
    value. *)
Theorem Publish_writes_event ctx event s :
  match json_float (ev_FraudScore event) with
  | None =>
      Publish ctx event s =
        (Err (ErrWrap "marshal scored claim event" (ErrNew (unsupported_value (ev_FraudScore event)))), s, [])
  | Some score =>
      exists value v,
        (let w := WriteMessages ctx (mkMessage (bytes_of (ev_TenantID event)) value) in
         Publish ctx event s = (wrap_err "write to claims.realtime" (result_of w s), final w s, trace w s)) /\
        Forall json_safe (bytes_of value) /\ readValue (bytes_of value) = inl v /\
        string_member v "claim_id" = Some (clean (ev_ClaimID event)) /\
        string_member v "correlation_id" = Some (clean (ev_CorrelationID event)) /\
        string_member v "tenant_id" = Some (clean (ev_TenantID event)) /\
        string_member v "status" = Some (clean (ev_Status event)) /\
        number_member v "fraud_score" = Some score /\
        string_member v "model_version" = Some (clean (ev_ModelVersion event))
  end.
Proof.
  pose proof (Marshal_event event) as Hm. unfold Publish.
  destruct (json_float (ev_FraudScore event)) as [score|]; [|by rewrite Hm].
  destruct Hm as (value & v & -> & Hrest). exists value, v. split; [|exact Hrest]. cbv zeta.
  rewrite M_bind_unfold. destruct (result_of _ s) as [[]|e]; unfold mret, M_ret, trace;
    simpl; by rewrite app_nil_r.
Qed.
End Publisher.
