(* ===== verification/Executor.v ===== *)
(** * orchestration-service/internal/dag/executor.go: Executor.Run

    The three stages of the executor, each a loop over the nodes of the
    configuration with its [continue]s and early returns.  The downstream
    clients are the fields of [Executor], as in the source; each call is an
    event of the trace.  Pointers to responses are options: a callee (or
    [callWithResilience] with a negative retry count) may return nil without an
    error. *)

From S2P Require Import Prelude Float64 GoStrings Messages Effects Telemetry DagConfig Resilience.

(** ** Data *)

Record Result := mkResult {
  r_Status : string;
  r_NormalizedAddress : string;
  r_FraudScore : float64;
  r_ModelVersion : string }.

(** *** The narrow interfaces

    Each has one method: a value of the interface is that method.  The clients
    of [Servers], the loader and the Kafka publisher implement them. *)
Definition AddressNormalizer (E : Type) : Type :=
  Ctx -> string -> string -> M E (result (option NormalizeResponse)).
Definition ClaimantIDHasher (E : Type) : Type :=
  Ctx -> string -> string -> M E (result (option HashClaimantIdResponse)).
Definition PolicyLookuper (E : Type) : Type :=
  Ctx -> string -> string -> M E (result (option LookupPolicyResponse)).
Definition Scorer (E : Type) : Type :=
  Ctx -> string -> gmap string string -> M E (result (option ScoreResponse)).
Definition ConfigLoader (E : Type) : Type := Ctx -> string -> string -> string -> M E (result Config).
Definition Publisher (E : Type) : Type := Ctx -> ScoredClaimEvent -> M E (result unit).

Record Executor (E : Type) := mkExecutor {
  ex_Loader : ConfigLoader E;
  ex_AddressNorm : AddressNormalizer E;
  ex_ClaimantIDHash : ClaimantIDHasher E;
  ex_PolicyLookup : PolicyLookuper E;
  ex_Model : Scorer E;
  ex_Publisher : Publisher E;
  ex_Logger : option Logger }.
Arguments ex_Loader {_} _.
Arguments ex_AddressNorm {_} _.
Arguments ex_ClaimantIDHash {_} _.
Arguments ex_PolicyLookup {_} _.
Arguments ex_Model {_} _.
Arguments ex_Publisher {_} _.
Arguments ex_Logger {_} _.

Definition groupEnrichment : string := "enrichment".
Definition nodeModelScore : string := "model_score".

(** The service names of the [switch] statements. *)
Definition svcHash : string := "claimant-id-hashing-svc".
Definition svcNormalize : string := "address-normalization-svc".
Definition svcLookup : string := "policy-lookup-svc".
Definition svcModel : string := "model-service".
Definition svcPublish : string := "kafka-publisher".

(** The local variables of [Run] that stage 1 assigns. *)
Record Enrichment := mkEnrichment {
  e_status : string;
  e_normalizedAddress : string;
  e_claimantIDHash : string;
  e_policyStatus : string;
  e_policyCoverageType : string;
  e_addressValid : bool }.

Definition set_status (v : string) (st : Enrichment) : Enrichment :=
  mkEnrichment v (e_normalizedAddress st) (e_claimantIDHash st) (e_policyStatus st)
    (e_policyCoverageType st) (e_addressValid st).
Definition set_hash (v : string) (st : Enrichment) : Enrichment :=
  mkEnrichment (e_status st) (e_normalizedAddress st) v (e_policyStatus st)
    (e_policyCoverageType st) (e_addressValid st).
Definition set_address (a : string) (valid : bool) (st : Enrichment) : Enrichment :=
  mkEnrichment (e_status st) a (e_claimantIDHash st) (e_policyStatus st)
    (e_policyCoverageType st) valid.
Definition set_policy (s c : string) (st : Enrichment) : Enrichment :=
  mkEnrichment (e_status st) (e_normalizedAddress st) (e_claimantIDHash st) s c
    (e_addressValid st).

(** The initial values, lines 100-109 of [executor.go]. *)
Definition initial_enrichment (claim : option ClaimEvent) : Enrichment :=
  mkEnrichment "scored" (GetRawAddress claim) "" "" "" false.

(** The feature map of lines 176-186. *)
Definition features_of (tenantID : string) (claim : option ClaimEvent) (st : Enrichment)
    : gmap string string :=
  list_to_map
    [("tenant_id", tenantID);
     ("product", GetProduct claim);
     ("event_type", GetEventType claim);
     ("policy_number", GetPolicyNumber claim);
     ("claimant_id_hash", e_claimantIDHash st);
     ("normalized_address", e_normalizedAddress st);
     ("policy_status", e_policyStatus st);
     ("policy_coverage_type", e_policyCoverageType st);
     ("address_valid", FormatBool (e_addressValid st))]%string.

(** The event of lines 216-223. *)
Definition event_of (tenantID correlationID : string) (claim : option ClaimEvent)
    (status : string) (scoreResp : ScoreResponse) : ScoredClaimEvent :=
  mkScoredClaimEvent (GetClaimId claim) correlationID tenantID status
    (sr_score scoreResp) (sr_model_version scoreResp).

Section Run.
Context {E : Type}.
Variable e : Executor E.
Variable ctx : Ctx.
Variable logger : Logger.
Variable cfg : Config.
Variables tenantID correlationID : string.
Variable claim : option ClaimEvent.

Definition warn_unrecognized (node : Node) : M E unit :=
  log_Warn logger "unrecognized dag node service, skipping"
    [("node"%string, AStr (n_ID node)); ("service"%string, AStr (n_Service node))].

(** Stage 1, lines 111-162. *)
Fixpoint stage1 (nodes : list Node) (st : Enrichment) : M E (result Enrichment) :=
  match nodes with
  | [] => mret (Ok st)
  | node :: rest =>
      if bool_decide (length (n_DependsOn node) <> 0%nat) || negb (EnabledForTenant node tenantID)
      then stage1 rest st
      else if bool_decide (n_Service node = svcHash) then
        hashResp ← callWithResilience None ctx cfg node (λ ctx,
          call ctx (CallHash correlationID (GetClaimantName claim))
            (ex_ClaimantIDHash e ctx correlationID (GetClaimantName claim)));
        match hashResp with
        | Err err =>
            handled ← nodeFailureHandled logger node err;
            if negb handled then mret (Err err)
            else stage1 rest (set_status "degraded" st)
        | Ok hashResp => stage1 rest (set_hash (GetClaimantIdHash hashResp) st)
        end
      else if bool_decide (n_Service node = svcNormalize) then
        normResp ← callWithResilience None ctx cfg node (λ ctx,
          call ctx (CallNormalize correlationID (GetRawAddress claim))
            (ex_AddressNorm e ctx correlationID (GetRawAddress claim)));
        match normResp with
        | Err err =>
            handled ← nodeFailureHandled logger node err;
            if negb handled then mret (Err err)
            else stage1 rest (set_status "degraded" st)
        | Ok normResp =>
            stage1 rest (set_address (GetNormalizedAddress normResp) (GetValid normResp) st)
        end
      else if bool_decide (n_Service node = svcLookup) then
        lookupResp ← callWithResilience None ctx cfg node (λ ctx,
          call ctx (CallLookup correlationID (GetPolicyNumber claim))
            (ex_PolicyLookup e ctx correlationID (GetPolicyNumber claim)));
        match lookupResp with
        | Err err =>
            handled ← nodeFailureHandled logger node err;
            if negb handled then mret (Err err)
            else stage1 rest (set_status "degraded" st)
        | Ok lookupResp =>
            stage1 rest (set_policy (GetStatus lookupResp) (GetCoverageType lookupResp) st)
        end
      else
        _ ← warn_unrecognized node;
        stage1 rest st
  end.

(** Stage 2, lines 164-200. *)
Fixpoint stage2 (nodes : list Node) (st : Enrichment) (scoreResp : option ScoreResponse)
    : M E (result (option ScoreResponse)) :=
  match nodes with
  | [] => mret (Ok scoreResp)
  | node :: rest =>
      if negb (dependsOn node groupEnrichment) || negb (EnabledForTenant node tenantID)
      then stage2 rest st scoreResp
      else if bool_decide (n_Service node = svcModel) then
        let features := features_of tenantID claim st in
        resp ← callWithResilience None ctx cfg node (λ ctx,
          call ctx (CallScore correlationID features)
            (ex_Model e ctx correlationID features));
        match resp with
        | Err err =>
            handled ← nodeFailureHandled logger node err;
            if negb handled then mret (Err err)
            else stage2 rest st scoreResp
        | Ok resp => stage2 rest st resp
        end
      else
        _ ← warn_unrecognized node;
        stage2 rest st scoreResp
  end.

(** Stage 3, lines 205-238. *)
Fixpoint stage3 (nodes : list Node) (status : string) (scoreResp : ScoreResponse)
    : M E (result string) :=
  match nodes with
  | [] => mret (Ok status)
  | node :: rest =>
      if negb (dependsOn node nodeModelScore) || negb (EnabledForTenant node tenantID)
      then stage3 rest status scoreResp
      else if bool_decide (n_Service node = svcPublish) then
        let event := event_of tenantID correlationID claim status scoreResp in
        r ← callWithResilience tt ctx cfg node (λ ctx,
          call ctx (CallPublish event) (ex_Publisher e ctx event));
        match r with
        | Err err =>
            handled ← nodeFailureHandled logger node err;
            if negb handled then mret (Err err)
            else stage3 rest "degraded" scoreResp
        | Ok _ =>
            _ ← log_Info logger "published to kafka"
                  [("topic"%string, AStr TopicClaimsRealtime);
                   ("claim_id"%string, AStr (GetClaimId claim))];
            stage3 rest status scoreResp
        end
      else
        _ ← warn_unrecognized node;
        stage3 rest status scoreResp
  end.

(** The three stages on a loaded configuration, lines 100-245. *)
Definition run_stages : M E (result Result) :=
  r1 ← stage1 (c_Nodes cfg) (initial_enrichment claim);
  match r1 with
  | Err err => mret (Err err)
  | Ok st =>
      r2 ← stage2 (c_Nodes cfg) st None;
      match r2 with
      | Err err => mret (Err err)
      | Ok None => mret (Err (ErrNew "dag: no model_score result produced"))
      | Ok (Some scoreResp) =>
          r3 ← stage3 (c_Nodes cfg) (e_status st) scoreResp;
          match r3 with
          | Err err => mret (Err err)
          | Ok status =>
              mret (Ok (mkResult status (e_normalizedAddress st)
                          (sr_score scoreResp) (sr_model_version scoreResp)))
          end
      end
  end.
End Run.

(** [Run], lines 90-246. *)
Definition Run {E} (e : Executor E) (ctx : Ctx) (tenantID correlationID : string)
    (claim : option ClaimEvent) : M E (result Result) :=
  let ctx := WithCorrelationID ctx correlationID in
  let ctx := WithTenantID ctx tenantID in
  let logger := FromContext ctx (ex_Logger e) in
  cfg ← ex_Loader e ctx tenantID (GetProduct claim) (GetEventType claim);
  match cfg with
  | Err err => mret (Err (ErrWrap "load dag config" err))
  | Ok cfg => run_stages e ctx logger cfg tenantID correlationID claim
  end.
