(* ===== verification/Pipeline.v ===== *)
(** * The enrichment pipeline as a state machine, and its refinement by Run

    An abstract account of a run that knows nothing of time, contexts, retries
    or logging: a configuration is being enriched, scored, published, done or
    failed, and a step consumes one node with the final outcome of its call.
    [run_stages] refines it: every run is a path of the machine whose labels are
    the outcomes that the node calls really had, in the states in which the run
    made them, and the calls of the run are those of the labels, each repeated
    once per attempt.  The properties of all runs (what
    [degraded] means, fail-fast, what is published, which nodes are called) are
    then proved by induction on paths. *)

From S2P Require Import Prelude Float64 GoStrings Messages Effects Telemetry DagConfig Resilience.
From S2P Require Import Executor.

(** ** The machine *)

Inductive phase :=
  | Enriching (todo : list Node) (st : Enrichment)
  | Scoring (todo : list Node) (st : Enrichment) (score : option ScoreResponse)
  | Publishing (todo : list Node) (st : Enrichment) (status : string) (score : ScoreResponse)
  | Done (r : Result)
  | Failed (err : GoErr).

(** A label is the outcome of a node's call, after retries; [Tau] is a node
    passed over or a change of stage. *)
Inductive label :=
  | Tau
  | OHash (n : Node) (o : result (option HashClaimantIdResponse))
  | ONorm (n : Node) (o : result (option NormalizeResponse))
  | OLookup (n : Node) (o : result (option LookupPolicyResponse))
  | OScore (n : Node) (features : gmap string string) (o : result (option ScoreResponse))
  | OPublish (n : Node) (event : ScoredClaimEvent) (o : result unit).

Section Machine.
Variable cfg : Config.
Variables tenantID correlationID : string.
Variable claim : option ClaimEvent.

(** The guards of the three loops. *)
Definition active1 (n : Node) : bool :=
  bool_decide (n_DependsOn n = []) && EnabledForTenant n tenantID.
Definition active2 (n : Node) : bool :=
  dependsOn n groupEnrichment && EnabledForTenant n tenantID.
Definition active3 (n : Node) : bool :=
  dependsOn n nodeModelScore && EnabledForTenant n tenantID.

(** Where a failed call leads. *)
Definition on_error (n : Node) (err : GoErr) (continue : phase) : phase :=
  if failure_tolerated n then continue else Failed err.

Inductive pstep : phase -> label -> phase -> Prop :=
  | p_skip1 n todo st :
      active1 n = false \/ n_Service n ∉ [svcHash; svcNormalize; svcLookup] ->
      pstep (Enriching (n :: todo) st) Tau (Enriching todo st)
  | p_hash_ok n todo st r :
      active1 n = true -> n_Service n = svcHash ->
      pstep (Enriching (n :: todo) st) (OHash n (Ok r))
        (Enriching todo (set_hash (GetClaimantIdHash r) st))
  | p_hash_err n todo st err :
      active1 n = true -> n_Service n = svcHash ->
      pstep (Enriching (n :: todo) st) (OHash n (Err err))
        (on_error n err (Enriching todo (set_status "degraded" st)))
  | p_norm_ok n todo st r :
      active1 n = true -> n_Service n = svcNormalize ->
      pstep (Enriching (n :: todo) st) (ONorm n (Ok r))
        (Enriching todo (set_address (GetNormalizedAddress r) (GetValid r) st))
  | p_norm_err n todo st err :
      active1 n = true -> n_Service n = svcNormalize ->
      pstep (Enriching (n :: todo) st) (ONorm n (Err err))
        (on_error n err (Enriching todo (set_status "degraded" st)))
  | p_lookup_ok n todo st r :
      active1 n = true -> n_Service n = svcLookup ->
      pstep (Enriching (n :: todo) st) (OLookup n (Ok r))
        (Enriching todo (set_policy (GetStatus r) (GetCoverageType r) st))
  | p_lookup_err n todo st err :
      active1 n = true -> n_Service n = svcLookup ->
      pstep (Enriching (n :: todo) st) (OLookup n (Err err))
        (on_error n err (Enriching todo (set_status "degraded" st)))
  | p_enriched st :
      pstep (Enriching [] st) Tau (Scoring (c_Nodes cfg) st None)
  | p_skip2 n todo st sc :
      active2 n = false \/ n_Service n <> svcModel ->
      pstep (Scoring (n :: todo) st sc) Tau (Scoring todo st sc)
  | p_score_ok n todo st sc r :
      active2 n = true -> n_Service n = svcModel ->
      pstep (Scoring (n :: todo) st sc) (OScore n (features_of tenantID claim st) (Ok r))
        (Scoring todo st r)
  | p_score_err n todo st sc err :
      active2 n = true -> n_Service n = svcModel ->
      pstep (Scoring (n :: todo) st sc) (OScore n (features_of tenantID claim st) (Err err))
        (on_error n err (Scoring todo st sc))
  | p_no_score st :
      pstep (Scoring [] st None) Tau (Failed (ErrNew "dag: no model_score result produced"))
  | p_scored st sc :
      pstep (Scoring [] st (Some sc)) Tau (Publishing (c_Nodes cfg) st (e_status st) sc)
  | p_skip3 n todo st status sc :
      active3 n = false \/ n_Service n <> svcPublish ->
      pstep (Publishing (n :: todo) st status sc) Tau (Publishing todo st status sc)
  | p_publish_ok n todo st status sc :
      active3 n = true -> n_Service n = svcPublish ->
      pstep (Publishing (n :: todo) st status sc)
        (OPublish n (event_of tenantID correlationID claim status sc) (Ok tt))
        (Publishing todo st status sc)
  | p_publish_err n todo st status sc err :
      active3 n = true -> n_Service n = svcPublish ->
      pstep (Publishing (n :: todo) st status sc)
        (OPublish n (event_of tenantID correlationID claim status sc) (Err err))
        (on_error n err (Publishing todo st "degraded" sc))
  | p_done st status sc :
      pstep (Publishing [] st status sc) Tau
        (Done (mkResult status (e_normalizedAddress st) (sr_score sc) (sr_model_version sc))).

(** Labelled paths. *)
Inductive psteps : phase -> list label -> phase -> Prop :=
  | psteps_refl p : psteps p [] p
  | psteps_step p l p1 ls p2 : pstep p l p1 -> psteps p1 ls p2 -> psteps p (l :: ls) p2.

Definition start : phase := Enriching (c_Nodes cfg) (initial_enrichment claim).

(** The phase in which a run that returned [r] ended. *)
Definition ended (r : result Result) : phase :=
  match r with Ok r => Done r | Err err => Failed err end.

(** *** Calls of a path *)
Definition label_call (l : label) : option (Node * Call) :=
  match l with
  | Tau => None
  | OHash n _ => Some (n, CallHash correlationID (GetClaimantName claim))
  | ONorm n _ => Some (n, CallNormalize correlationID (GetRawAddress claim))
  | OLookup n _ => Some (n, CallLookup correlationID (GetPolicyNumber claim))
  | OScore n f _ => Some (n, CallScore correlationID f)
  | OPublish n ev _ => Some (n, CallPublish ev)
  end.

(** [matches ls cs]: the calls [cs] are those of the labels in order, each
    made once per attempt: between one and [max_retries + 1] times, and not at
    all when [max_retries] is negative. *)
Inductive matches : list label -> list Call -> Prop :=
  | matches_nil : matches [] []
  | matches_tau l ls cs : label_call l = None -> matches ls cs -> matches (l :: ls) cs
  | matches_call l ls cs n c k :
      label_call l = Some (n, c) ->
      Z.of_nat k <= Z.max 0 (n_MaxRetries n + 1) ->
      (0 <= n_MaxRetries n -> (1 <= k)%nat) ->
      matches ls cs -> matches (l :: ls) (replicate k c ++ cs).
End Machine.

#[export] Hint Constructors pstep psteps matches : claims.

(** ** Lemmas on paths *)
Section Paths.
Context (cfg : Config) (tenantID correlationID : string) (claim : option ClaimEvent).
Let step := pstep cfg tenantID correlationID claim.
Let steps := psteps cfg tenantID correlationID claim.

Lemma psteps_trans p1 ls1 p2 ls2 p3 :
  steps p1 ls1 p2 -> steps p2 ls2 p3 -> steps p1 (ls1 ++ ls2) p3.
Proof.
  intros H1 H2. induction H1 as [p|p l p' ls p2 Hl _ IH]; [done|].
  simpl. eapply psteps_step; [done|]. by apply IH.
Qed.
End Paths.

(** ** Refinement *)

(** The clients make no traced call of their own (they may log). *)
Class QuietClients {E} (e : Executor E) : Prop := {
  quiet_hash c a b s : calls_of (trace (ex_ClaimantIDHash e c a b) s) = [];
  quiet_norm c a b s : calls_of (trace (ex_AddressNorm e c a b) s) = [];
  quiet_lookup c a b s : calls_of (trace (ex_PolicyLookup e c a b) s) = [];
  quiet_score c a f s : calls_of (trace (ex_Model e c a f) s) = [];
  quiet_publish c ev s : calls_of (trace (ex_Publisher e c ev) s) = [] }.

(** The labels of a run are the outcomes of its node calls. *)
Section Realizes.
Context {E : Type} (e : Executor E) (ctx : Ctx) (cfg : Config) (correlationID : string)
  (claim : option ClaimEvent).

(** The resilient call [m] started in [s] has the outcome [o], ends in [s']
    and makes the calls [cs]. *)
Definition outcome {T} (m : M E (result T)) (s : St E) (o : result T) (s' : St E)
    (cs : list Call) : Prop :=
  result_of m s = o /\ final m s = s' /\ calls_of (trace m s) = cs.

Definition realizes_label (s : St E) (l : label) (s' : St E) (cs : list Call) : Prop :=
  match l with
  | Tau => s' = s /\ cs = []
  | OHash n o =>
      outcome (callWithResilience None ctx cfg n (λ c,
                 call c (CallHash correlationID (GetClaimantName claim))
                   (ex_ClaimantIDHash e c correlationID (GetClaimantName claim)))) s o s' cs
  | ONorm n o =>
      outcome (callWithResilience None ctx cfg n (λ c,
                 call c (CallNormalize correlationID (GetRawAddress claim))
                   (ex_AddressNorm e c correlationID (GetRawAddress claim)))) s o s' cs
  | OLookup n o =>
      outcome (callWithResilience None ctx cfg n (λ c,
                 call c (CallLookup correlationID (GetPolicyNumber claim))
                   (ex_PolicyLookup e c correlationID (GetPolicyNumber claim)))) s o s' cs
  | OScore n f o =>
      outcome (callWithResilience None ctx cfg n (λ c,
                 call c (CallScore correlationID f) (ex_Model e c correlationID f))) s o s' cs
  | OPublish n ev o =>
      outcome (callWithResilience tt ctx cfg n (λ c,
                 call c (CallPublish ev) (ex_Publisher e c ev))) s o s' cs
  end.

Inductive realizes : St E -> list label -> St E -> list Call -> Prop :=
  | realizes_nil s : realizes s [] s []
  | realizes_cons s l s1 cs1 ls s2 cs2 :
      realizes_label s l s1 cs1 -> realizes s1 ls s2 cs2 ->
      realizes s (l :: ls) s2 (cs1 ++ cs2).

Lemma realizes_elem s ls s' cs l :
  realizes s ls s' cs -> l ∈ ls -> exists s1 s2 cs', realizes_label s1 l s2 cs'.
Proof.
  induction 1 as [|s l' s1 cs1 ls s2 cs2 Hl _ IH]; intros Hin; [by apply not_elem_of_nil in Hin|].
  apply elem_of_cons in Hin as [->|Hin]; [by eexists _, _, _|by apply IH].
Qed.

(** A label in the middle: the run up to it, its call, and the rest of the run. *)
Lemma realizes_split s ls1 l ls2 s' cs :
  realizes s (ls1 ++ l :: ls2) s' cs ->
  exists s1 cs1 s2 csl cs2,
    realizes s ls1 s1 cs1 /\ realizes_label s1 l s2 csl /\ realizes s2 ls2 s' cs2.
Proof.
  revert s cs. induction ls1 as [|l1 ls1 IH]; intros s cs Hr; inversion Hr; subst.
  - eexists s, [], _, _, _. split_and!; [constructor|done|done].
  - destruct (IH _ _ ltac:(eassumption)) as (sa & csa & sb & csb & csc & ? & ? & ?).
    eexists sa, _, sb, csb, csc. split_and!; [by econstructor|done|done].
Qed.

Lemma realizes_tau s ls s' cs : realizes s ls s' cs -> realizes s (Tau :: ls) s' cs.
Proof. intros H. by apply (realizes_cons s Tau s [] ls s' cs). Qed.

Lemma realizes_app s ls1 s1 cs1 ls2 s2 cs2 :
  realizes s ls1 s1 cs1 -> realizes s1 ls2 s2 cs2 -> realizes s (ls1 ++ ls2) s2 (cs1 ++ cs2).
Proof.
  induction 1 as [s|s l s' cs ls s1' cs1' Hl _ IH]; [done|]. intros H2.
  rewrite <- app_assoc. simpl. econstructor; [done|]. by apply IH.
Qed.

Lemma outcome_calls {T} (zero : T) n (fn : Ctx -> M E (result T)) x s o s' cs :
  outcome (callWithResilience zero ctx cfg n fn) s o s' cs ->
  (forall c s, calls_of (trace (fn c) s) = [x]) ->
  exists k, cs = replicate k x /\ Z.of_nat k <= Z.max 0 (n_MaxRetries n + 1) /\
    (0 <= n_MaxRetries n -> (1 <= k)%nat).
Proof. intros (_ & _ & <-). apply callWithResilience_replicate. Qed.

(** With quiet clients, the calls match the labels. *)
Lemma realizes_matches `{!QuietClients e} s ls s' cs :
  realizes s ls s' cs -> matches correlationID claim ls cs.
Proof.
  induction 1 as [s|s l s1 cs1 ls s2 cs2 Hl _ IH]; [constructor|].
  destruct l as [|n o|n o|n o|n f o|n ev o]; simpl in Hl.
  { destruct Hl as [-> ->]. by apply matches_tau. }
  all: eapply outcome_calls in Hl as (k & -> & ? & ?);
    [by eapply matches_call
    |intros; run; unfold calls_of in *; simpl;
     by rewrite ?quiet_hash, ?quiet_norm, ?quiet_lookup, ?quiet_score, ?quiet_publish].
Qed.
End Realizes.

Section Refinement.
Context {E : Type} (e : Executor E).
Context (ctx : Ctx) (logger : Logger) (cfg : Config) (tenantID correlationID : string)
  (claim : option ClaimEvent).
Let steps := psteps cfg tenantID correlationID claim.
Let real := realizes e ctx cfg correlationID claim.

(** A run of a stage from [p] that ends in the phase given by its result,
    its labels being what its node calls returned. *)
Definition simulated {A} (p : phase) (ph : A -> phase) (m : M E A) (s : St E) : Prop :=
  exists ls, steps p ls (ph (result_of m s)) /\ real s ls (final m s) (calls_of (trace m s)).
Definition simulates {A} (p : phase) (ph : A -> phase) (m : M E A) : Prop :=
  forall s, simulated p ph m s.

Lemma simulates_tau {A} p p' (ph : A -> phase) (m : M E A) :
  pstep cfg tenantID correlationID claim p Tau p' ->
  simulates p' ph m -> simulates p ph m.
Proof.
  intros Hstep Hm s. destruct (Hm s) as (ls & Hls & Hcs).
  exists (Tau :: ls). split; [econstructor; eauto|by apply realizes_tau].
Qed.

(** A node call followed by a continuation that consumes its outcome. *)
Lemma simulates_call {A T} p (ph : A -> phase) (m : M E (result T))
    (k : result T -> M E A) (mk : result T -> label) :
  (forall s, realizes_label e ctx cfg correlationID claim s (mk (result_of m s)) (final m s)
               (calls_of (trace m s))) ->
  (forall o s, exists p', pstep cfg tenantID correlationID claim p (mk o) p' /\
                 simulated p' ph (k o) s) ->
  simulates p ph (m ≫= k).
Proof.
  intros Hreal Hk s. unfold simulated. run.
  destruct (Hk (result_of m s) (final m s)) as (p' & Hstep & ls & Hls & Hcs).
  exists (mk (result_of m s) :: ls). split; [econstructor; eauto|].
  rewrite calls_of_app. econstructor; [apply Hreal|done].
Qed.

(** A computation that neither calls nor changes the state, in front. *)
Lemma simulated_quiet {A B} p (ph : B -> phase) (m : M E A) (k : A -> M E B) s :
  final m s = s -> calls_of (trace m s) = [] ->
  simulated p ph (k (result_of m s)) s -> simulated p ph (m ≫= k) s.
Proof. unfold simulated. intros Hf Hc Hk. run. by rewrite calls_of_app, Hc, Hf. Qed.

(** The error branch shared by the five kinds of call. *)
Lemma error_branch {A} p' (ph : A -> phase) (bad : GoErr -> A) n err (m : M E A) s :
  (forall err, ph (bad err) = Failed err) -> simulates p' ph m ->
  simulated (on_error n err p') ph
    (nodeFailureHandled logger n err ≫= λ handled,
       if negb handled then mret (bad err) else m) s.
Proof.
  intros Hbad Hm. apply simulated_quiet; [apply final_handled|apply calls_handled|].
  rewrite result_handled. unfold on_error.
  destruct (failure_tolerated n); simpl; [apply Hm|].
  exists []. rewrite result_ret, Hbad. split; constructor.
Qed.

Definition ph1 (r : result Enrichment) : phase :=
  match r with Ok st => Enriching [] st | Err err => Failed err end.
Definition ph2 (st : Enrichment) (r : result (option ScoreResponse)) : phase :=
  match r with Ok sc => Scoring [] st sc | Err err => Failed err end.
Definition ph3 (st : Enrichment) (sc : ScoreResponse) (r : result string) : phase :=
  match r with Ok status => Publishing [] st status sc | Err err => Failed err end.

Lemma guard1 n :
  bool_decide (length (n_DependsOn n) <> 0%nat) || negb (EnabledForTenant n tenantID)
  = negb (active1 tenantID n).
Proof.
  unfold active1. rewrite negb_andb. f_equal.
  destruct (n_DependsOn n) as [|d ds]; [done|]. by rewrite bool_decide_true, bool_decide_false.
Qed.

(** One recognised service of stage 1. *)
Lemma stage1_call {T} rest st n (m : M E (result (option T)))
    (k : option T -> Enrichment) (mk : result (option T) -> label) :
  (forall st, simulates (Enriching rest st) ph1 (stage1 e ctx logger cfg tenantID correlationID claim rest st)) ->
  (forall s, realizes_label e ctx cfg correlationID claim s (mk (result_of m s)) (final m s)
               (calls_of (trace m s))) ->
  (forall r, pstep cfg tenantID correlationID claim (Enriching (n :: rest) st) (mk (Ok r))
               (Enriching rest (k r))) ->
  (forall err, pstep cfg tenantID correlationID claim (Enriching (n :: rest) st) (mk (Err err))
                 (on_error n err (Enriching rest (set_status "degraded" st)))) ->
  simulates (Enriching (n :: rest) st) ph1
    (m ≫= λ o,
       match o with
       | Err err =>
           nodeFailureHandled logger n err ≫= λ handled,
             if negb handled then mret (Err err)
             else stage1 e ctx logger cfg tenantID correlationID claim rest (set_status "degraded" st)
       | Ok r => stage1 e ctx logger cfg tenantID correlationID claim rest (k r)
       end).
Proof.
  intros IH Hreal Hok Herr. apply simulates_call with mk; [done..|].
  intros [r|err] s; eexists; (split; [by eauto|]); [apply IH|by apply error_branch].
Qed.

Lemma warn_tau {A} p p' (ph : A -> phase) n (m : M E A) :
  pstep cfg tenantID correlationID claim p Tau p' ->
  simulates p' ph m -> simulates p ph (warn_unrecognized logger n ≫= λ _, m).
Proof. intros Hstep Hm. eapply simulates_tau; [done|]. intros s. by apply simulated_quiet. Qed.

Lemma stage1_simulates nodes st :
  simulates (Enriching nodes st) ph1 (stage1 e ctx logger cfg tenantID correlationID claim nodes st).
Proof.
  revert st. induction nodes as [|n rest IH]; intros st.
  { intros s. exists []. split; constructor. }
  cbn [stage1]. rewrite guard1. destruct (active1 tenantID n) eqn:Ha; simpl negb; cbn iota.
  2: { eapply simulates_tau; [|apply IH]. apply p_skip1. auto. }
  case_bool_decide as Hs1; [|case_bool_decide as Hs2; [|case_bool_decide as Hs3]].
  - apply (stage1_call rest st n _ (λ r, set_hash (GetClaimantIdHash r) st) (OHash n));
      done || by constructor.
  - apply (stage1_call rest st n _
              (λ r, set_address (GetNormalizedAddress r) (GetValid r) st) (ONorm n));
      done || by constructor.
  - apply (stage1_call rest st n _
              (λ r, set_policy (GetStatus r) (GetCoverageType r) st) (OLookup n));
      done || by constructor.
  - eapply warn_tau; [|apply IH]. apply p_skip1. right.
    rewrite !not_elem_of_cons. repeat split; try done. apply not_elem_of_nil.
Qed.

Lemma stage2_simulates nodes st sc :
  simulates (Scoring nodes st sc) (ph2 st)
    (stage2 e ctx logger cfg tenantID correlationID claim nodes st sc).
Proof.
  revert sc. induction nodes as [|n rest IH]; intros sc.
  { intros s. exists []. split; constructor. }
  cbn [stage2]. rewrite <- negb_andb. fold (active2 tenantID n).
  destruct (active2 tenantID n) eqn:Ha; simpl negb; cbn iota.
  2: { eapply simulates_tau; [|apply IH]. apply p_skip2. auto. }
  case_bool_decide as Hs.
  2: { eapply warn_tau; [|apply IH]. apply p_skip2. auto. }
  apply simulates_call with (OScore n (features_of tenantID claim st)); [done|].
  intros [r|err] s; eexists; (split; [by constructor|]); [apply IH|by apply error_branch].
Qed.

Lemma stage3_simulates nodes st status sc :
  simulates (Publishing nodes st status sc) (ph3 st sc)
    (stage3 e ctx logger cfg tenantID correlationID claim nodes status sc).
Proof.
  revert status. induction nodes as [|n rest IH]; intros status.
  { intros s. exists []. split; constructor. }
  cbn [stage3]. rewrite <- negb_andb. fold (active3 tenantID n).
  destruct (active3 tenantID n) eqn:Ha; simpl negb; cbn iota.
  2: { eapply simulates_tau; [|apply IH]. apply p_skip3. auto. }
  case_bool_decide as Hs.
  2: { eapply warn_tau; [|apply IH]. apply p_skip3. auto. }
  apply simulates_call with (OPublish n (event_of tenantID correlationID claim status sc)); [done|].
  intros [[]|err] s; eexists; (split; [by constructor|]); [|by apply error_branch].
  apply simulated_quiet; [done..|apply IH].
Qed.

Lemma simulates_bind {A B} p (ph : A -> phase) (ph' : B -> phase) (m : M E A) (f : A -> M E B) :
  simulates p ph m -> (forall a, simulates (ph a) ph' (f a)) -> simulates p ph' (m ≫= f).
Proof.
  intros Hm Hf s. unfold simulated. run.
  destruct (Hm s) as (ls1 & H1 & C1). destruct (Hf (result_of m s) (final m s)) as (ls2 & H2 & C2).
  exists (ls1 ++ ls2). split; [by eapply psteps_trans|].
  rewrite calls_of_app. by eapply realizes_app.
Qed.

Lemma simulates_ret {A} (ph : A -> phase) (a : A) : simulates (ph a) ph (mret a).
Proof. intros s. exists []. split; constructor. Qed.

Lemma run_stages_simulates :
  simulates (start cfg claim) ended (run_stages e ctx logger cfg tenantID correlationID claim).
Proof.
  unfold run_stages, start.
  eapply simulates_bind; [apply stage1_simulates|]. intros [st|err]; simpl;
    [|apply (simulates_ret ended (Err err))].
  eapply simulates_tau; [apply p_enriched|].
  eapply simulates_bind; [apply stage2_simulates|]. intros [[sc|]|err]; simpl;
    [| |apply (simulates_ret ended (Err err))].
  - eapply simulates_tau; [apply p_scored|].
    eapply simulates_bind; [apply stage3_simulates|]. intros [status|err]; simpl;
      [|apply (simulates_ret ended (Err err))].
    eapply simulates_tau; [apply p_done|]. apply (simulates_ret ended (Ok _)).
  - eapply simulates_tau; [apply p_no_score|]. apply (simulates_ret ended (Err _)).
Qed.
End Refinement.
