(* ===== verification/PipelineFacts.v ===== *)
(** * Properties of every run of the pipeline

    Invariants of the machine of [Pipeline], by induction on paths, and the
    theorems about [Run] they give through the refinement: the exact result and
    status of a completed run, fail-fast, the events published, the features
    scored and the nodes called. *)

From S2P Require Import Prelude Float64 GoStrings Messages Effects Telemetry DagConfig Resilience.
From S2P Require Import Executor Pipeline.

(** ** What a list of labels amounts to *)

Section Labels.
Variable cfg : Config.
Variables tenantID correlationID : string.
Variable claim : option ClaimEvent.

(** The effect of an outcome on the variables of stage 1. *)
Definition enrich_effect (st : Enrichment) (l : label) : Enrichment :=
  match l with
  | OHash _ (Ok r) => set_hash (GetClaimantIdHash r) st
  | ONorm _ (Ok r) => set_address (GetNormalizedAddress r) (GetValid r) st
  | OLookup _ (Ok r) => set_policy (GetStatus r) (GetCoverageType r) st
  | OHash _ (Err _) | ONorm _ (Err _) | OLookup _ (Err _) => set_status "degraded" st
  | Tau | OScore _ _ _ | OPublish _ _ _ => st
  end.

Definition final_enrichment (ls : list label) : Enrichment :=
  foldl enrich_effect (initial_enrichment claim) ls.

Definition score_effect (sc : option ScoreResponse) (l : label) : option ScoreResponse :=
  match l with OScore _ _ (Ok r) => r | _ => sc end.

Definition final_score (ls : list label) : option ScoreResponse := foldl score_effect None ls.

(** The failures that mark a result degraded: those of enrichment and
    publish nodes, not those of scoring nodes. *)
Definition degrading (l : label) : bool :=
  match l with
  | OHash _ (Err _) | ONorm _ (Err _) | OLookup _ (Err _) | OPublish _ _ (Err _) => true
  | _ => false
  end.

Definition status_of (ls : list label) : string :=
  if existsb degrading ls then "degraded" else "scored".

(** The error of a failure that its node does not tolerate. *)
Definition fatal (l : label) : option GoErr :=
  match l with
  | OHash n (Err err) | ONorm n (Err err) | OLookup n (Err err)
  | OScore n _ (Err err) | OPublish n _ (Err err) =>
      if failure_tolerated n then None else Some err
  | _ => None
  end.

(** The guard of the node a label belongs to. *)
Definition label_guard (l : label) : Prop :=
  match l with
  | Tau => True
  | OHash n _ => n ∈ c_Nodes cfg /\ active1 tenantID n = true /\ n_Service n = svcHash
  | ONorm n _ => n ∈ c_Nodes cfg /\ active1 tenantID n = true /\ n_Service n = svcNormalize
  | OLookup n _ => n ∈ c_Nodes cfg /\ active1 tenantID n = true /\ n_Service n = svcLookup
  | OScore n _ _ => n ∈ c_Nodes cfg /\ active2 tenantID n = true /\ n_Service n = svcModel
  | OPublish n _ _ => n ∈ c_Nodes cfg /\ active3 tenantID n = true /\ n_Service n = svcPublish
  end.

(** What a label carries, given the labels before it. *)
Definition label_payload (before : list label) (l : label) : Prop :=
  match l with
  | OScore _ f _ => f = features_of tenantID claim (final_enrichment before)
  | OPublish _ ev _ =>
      exists sc, final_score before = Some sc /\
        ev = event_of tenantID correlationID claim (status_of before) sc
  | _ => True
  end.

(** Every label of the list is guarded, carries the right payload, and
    follows only failures that were tolerated. *)
Inductive wf_labels : list label -> Prop :=
  | wf_nil : wf_labels []
  | wf_snoc ls l :
      wf_labels ls -> Forall (λ l, fatal l = None) ls ->
      label_guard l -> label_payload ls l -> wf_labels (ls ++ [l]).

(** The invariant of the machine after the labels [ls]. *)
Definition no_publish (l : label) : Prop :=
  match l with OPublish _ _ _ => False | _ => True end.
Definition only_enrich (l : label) : Prop :=
  match l with OPublish _ _ _ | OScore _ _ _ => False | _ => True end.

Definition inv (ls : list label) (p : phase) : Prop :=
  wf_labels ls /\
  match p with
  | Enriching todo st =>
      Forall (λ l, fatal l = None) ls /\ incl todo (c_Nodes cfg) /\
      Forall only_enrich ls /\ st = final_enrichment ls
  | Scoring todo st sc =>
      Forall (λ l, fatal l = None) ls /\ incl todo (c_Nodes cfg) /\
      Forall no_publish ls /\ st = final_enrichment ls /\ sc = final_score ls
  | Publishing todo st status sc =>
      Forall (λ l, fatal l = None) ls /\ incl todo (c_Nodes cfg) /\
      st = final_enrichment ls /\ Some sc = final_score ls /\ status = status_of ls
  | Done r =>
      Forall (λ l, fatal l = None) ls /\
      exists sc, final_score ls = Some sc /\
        r = mkResult (status_of ls) (e_normalizedAddress (final_enrichment ls))
              (sr_score sc) (sr_model_version sc)
  | Failed err =>
      (exists ls' l, ls = ls' ++ [l] /\ fatal l = Some err) \/
      (Forall (λ l, fatal l = None) ls /\ final_score ls = None /\
       Forall no_publish ls /\ err = ErrNew "dag: no model_score result produced")
  end.
End Labels.

(** ** The invariant is preserved *)
Section Invariant.
Context (cfg : Config) (tenantID correlationID : string) (claim : option ClaimEvent).
Let step := pstep cfg tenantID correlationID claim.
Let steps := psteps cfg tenantID correlationID claim.
Let Inv := inv cfg tenantID correlationID claim.

Lemma final_enrichment_snoc ls l :
  final_enrichment claim (ls ++ [l]) = enrich_effect (final_enrichment claim ls) l.
Proof. unfold final_enrichment. by rewrite foldl_app. Qed.

Lemma final_score_snoc ls l : final_score (ls ++ [l]) = score_effect (final_score ls) l.
Proof. unfold final_score. by rewrite foldl_app. Qed.

Lemma status_of_snoc ls l :
  status_of (ls ++ [l]) = if degrading l then "degraded"%string else status_of ls.
Proof.
  unfold status_of. rewrite existsb_app. simpl. rewrite orb_false_r.
  by destruct (degrading l), (existsb degrading ls).
Qed.

Lemma Forall_snoc_2 {A} (P : A -> Prop) l x : Forall P l -> P x -> Forall P (l ++ [x]).
Proof. intros. apply Forall_app_2; [done|by apply Forall_singleton]. Qed.

(** As long as nothing was published, the status variable of stage 1 is the
    status of the labels. *)
Lemma enrichment_status ls :
  Forall no_publish ls -> e_status (final_enrichment claim ls) = status_of ls.
Proof.
  induction ls as [|l ls IH] using rev_ind; [done|].
  intros [Hls Hl%Forall_inv]%Forall_app.
  rewrite final_enrichment_snoc, status_of_snoc, <- IH by done.
  by destruct l as [|n []|n []|n []| |]; simpl in *.
Qed.

Lemma no_score_without_label ls : Forall only_enrich ls -> final_score ls = None.
Proof.
  induction ls as [|l ls IH] using rev_ind; [done|].
  intros [Hls Hl%Forall_inv]%Forall_app.
  rewrite final_score_snoc, IH by done. by destruct l; simpl in *.
Qed.

Lemma enrich_no_publish ls : Forall only_enrich ls -> Forall no_publish ls.
Proof. intros H. eapply Forall_impl; [exact H|]. by intros []. Qed.

Lemma tail_incl {A} (x : A) l l' : incl (x :: l) l' -> x ∈ l' /\ incl l l'.
Proof.
  intros H. split; [apply list_elem_of_In, H; by left|]. intros y Hy. apply H. by right.
Qed.

(** A failed call: the invariant of the phase it continues in, or of the
    failed phase. *)
Lemma inv_on_error ls l n err p :
  wf_labels cfg tenantID correlationID claim (ls ++ [l]) ->
  fatal l = (if failure_tolerated n then None else Some err) ->
  (fatal l = None -> Inv (ls ++ [l]) p) ->
  Inv (ls ++ [l]) (on_error n err p).
Proof.
  intros Hwf Hfatal Hinv. unfold on_error. destruct (failure_tolerated n); [by apply Hinv|].
  split; [done|]. left. eauto.
Qed.

Lemma inv_enrich_step todo n ls l st p :
  Inv ls (Enriching (n :: todo) st) ->
  label_guard cfg tenantID l -> only_enrich l ->
  (forall st, label_payload tenantID correlationID claim st l) ->
  (wf_labels cfg tenantID correlationID claim (ls ++ [l]) ->
   (fatal l = None -> Inv (ls ++ [l]) (Enriching todo (enrich_effect st l))) ->
   Inv (ls ++ [l]) p) ->
  Inv (ls ++ [l]) p.
Proof.
  intros (Hwf & Hnf & Hincl & Hen & ->) Hg Hone Hpay Hk.
  apply tail_incl in Hincl as [_ Hincl].
  assert (Hwf' : wf_labels cfg tenantID correlationID claim (ls ++ [l])) by (by apply wf_snoc).
  apply Hk; [done|]. intros Hf. split; [done|].
  split_and!; [by apply Forall_snoc_2|done|by apply Forall_snoc_2|by rewrite final_enrichment_snoc].
Qed.

(** The same for a node of the scoring and of the publishing stage. *)
Lemma inv_score_step todo n ls l st sc p :
  Inv ls (Scoring (n :: todo) st sc) ->
  label_guard cfg tenantID l -> no_publish l -> enrich_effect st l = st ->
  label_payload tenantID correlationID claim ls l ->
  (wf_labels cfg tenantID correlationID claim (ls ++ [l]) ->
   (fatal l = None -> Inv (ls ++ [l]) (Scoring todo st (score_effect sc l))) ->
   Inv (ls ++ [l]) p) ->
  Inv (ls ++ [l]) p.
Proof.
  intros (Hwf & Hnf & Hincl & Hnp & -> & ->) Hg Hone Heff Hpay Hk.
  apply tail_incl in Hincl as [_ Hincl].
  assert (Hwf' : wf_labels cfg tenantID correlationID claim (ls ++ [l])) by (by apply wf_snoc).
  apply Hk; [done|]. intros Hf. split; [done|].
  split_and!; [by apply Forall_snoc_2|done|by apply Forall_snoc_2|
               by rewrite final_enrichment_snoc|by rewrite final_score_snoc].
Qed.

Lemma inv_publish_step todo n ls l st status sc p :
  Inv ls (Publishing (n :: todo) st status sc) ->
  label_guard cfg tenantID l -> enrich_effect st l = st -> score_effect (Some sc) l = Some sc ->
  label_payload tenantID correlationID claim ls l ->
  (wf_labels cfg tenantID correlationID claim (ls ++ [l]) ->
   (fatal l = None ->
    Inv (ls ++ [l]) (Publishing todo st (if degrading l then "degraded"%string else status) sc)) ->
   Inv (ls ++ [l]) p) ->
  Inv (ls ++ [l]) p.
Proof.
  intros (Hwf & Hnf & Hincl & -> & Hsc & ->) Hg Heff Hseff Hpay Hk.
  apply tail_incl in Hincl as [_ Hincl].
  assert (Hwf' : wf_labels cfg tenantID correlationID claim (ls ++ [l])) by (by apply wf_snoc).
  apply Hk; [done|]. intros Hf. split; [done|].
  split_and!; [by apply Forall_snoc_2|done|by rewrite final_enrichment_snoc|
               by rewrite final_score_snoc, <- Hsc|by rewrite status_of_snoc].
Qed.

(** The node of the current step belongs to the configuration. *)
Ltac node_of HI :=
  let Hincl := fresh in
  destruct HI as (_ & _ & Hincl & _); apply tail_incl in Hincl as [? _]; done.

Lemma inv_step ls p l p' : Inv ls p -> step p l p' -> Inv (ls ++ [l]) p'.
Proof.
  intros HI Hstep. inversion Hstep; subst; clear Hstep.
  1: by eapply inv_enrich_step; try done; intros _ H'; apply H'.
  1, 3, 5: eapply inv_enrich_step; try done; [|intros _ H'; by apply H'];
    split_and!; try done; node_of HI.
  1-3: eapply inv_enrich_step; try done; [|intros Hwf H'; by apply inv_on_error];
    split_and!; try done; node_of HI.
  - destruct HI as (Hwf & Hnf & _ & Hen & ->). split; [by apply wf_snoc|].
    split_and!; [by apply Forall_snoc_2|apply incl_refl
                |apply Forall_snoc_2; [by apply enrich_no_publish|done]
                |by rewrite final_enrichment_snoc|].
    by rewrite final_score_snoc, no_score_without_label.
  - eapply inv_score_step; try done. intros _ H'. by apply H'.
  - eapply inv_score_step; try done; [split_and!; try done; node_of HI| |intros _ H'; by apply H'].
    destruct HI as (_ & _ & _ & _ & -> & _). done.
  - eapply inv_score_step; try done;
      [split_and!; try done; node_of HI| |intros Hwf H'; by apply inv_on_error].
    destruct HI as (_ & _ & _ & _ & -> & _). done.
  - destruct HI as (Hwf & Hnf & _ & Hnp & -> & Hsc). split; [by apply wf_snoc|]. right.
    split_and!; [by apply Forall_snoc_2|by rewrite final_score_snoc|by apply Forall_snoc_2|done].
  - destruct HI as (Hwf & Hnf & _ & Hnp & -> & Hsc). split; [by apply wf_snoc|].
    split_and!; [by apply Forall_snoc_2|apply incl_refl|by rewrite final_enrichment_snoc
                |by rewrite final_score_snoc|].
    by rewrite status_of_snoc, enrichment_status.
  - eapply inv_publish_step; try done. intros _ H'. by apply H'.
  - eapply inv_publish_step; try done; [split_and!; try done; node_of HI| |intros _ H'; by apply H'].
    destruct HI as (_ & _ & _ & _ & Hsc & ->). by exists sc.
  - eapply inv_publish_step; try done;
      [split_and!; try done; node_of HI| |intros Hwf H'; by apply inv_on_error].
    destruct HI as (_ & _ & _ & _ & Hsc & ->). by exists sc.
  - destruct HI as (Hwf & Hnf & _ & -> & Hsc & ->). split; [by apply wf_snoc|].
    split; [by apply Forall_snoc_2|]. exists sc.
    by rewrite final_score_snoc, status_of_snoc, final_enrichment_snoc.
Qed.

Lemma inv_steps ls0 p ls p' : Inv ls0 p -> steps p ls p' -> Inv (ls0 ++ ls) p'.
Proof.
  intros HI Hsteps. revert ls0 HI. induction Hsteps as [p|p l p1 ls p2 Hstep _ IH]; intros ls0 HI.
  - by rewrite app_nil_r.
  - replace (ls0 ++ l :: ls) with ((ls0 ++ [l]) ++ ls) by (by rewrite <- app_assoc).
    apply IH. by eapply inv_step.
Qed.

(** Every path from the start establishes the invariant. *)
Lemma inv_reachable ls p : steps (start cfg claim) ls p -> Inv ls p.
Proof.
  apply (inv_steps []). split; [constructor|].
  split_and!; [constructor|apply incl_refl|constructor|done].
Qed.

(** A label in the middle of well-formed labels. *)
Lemma wf_labels_split ls0 :
  wf_labels cfg tenantID correlationID claim ls0 ->
  forall ls l ls', ls0 = ls ++ l :: ls' ->
  Forall (λ l, fatal l = None) ls /\ label_guard cfg tenantID l /\
  label_payload tenantID correlationID claim ls l /\
  (ls' <> [] -> fatal l = None).
Proof.
  induction 1 as [|ls0 l0 Hwf IH Hnf Hg Hp]; intros ls l ls' Heq.
  { by destruct ls. }
  destruct ls' as [|l' ls' _] using rev_ind.
  - apply app_inj_tail in Heq as [-> ->]. by split_and!.
  - rewrite app_comm_cons, app_assoc in Heq. apply app_inj_tail in Heq as [-> ->].
    destruct (IH ls l ls' eq_refl) as (H1 & H2 & H3 & H4). split_and!; try done.
    intros _. by apply Forall_app in Hnf as [_ ?%Forall_inv].
Qed.
End Invariant.

(** ** The last score *)
Section LastScore.
Context (cfg : Config) (tenantID correlationID : string) (claim : option ClaimEvent).
Let step := pstep cfg tenantID correlationID claim.
Let steps := psteps cfg tenantID correlationID claim.

(** Labels that leave the enrichment as it is. *)
Definition no_enrich (l : label) : Prop :=
  match l with OHash _ _ | ONorm _ _ | OLookup _ _ => False | _ => True end.

Definition enriched (p : phase) : Prop := match p with Enriching _ _ => False | _ => True end.

Lemma step_enriched p l p' : step p l p' -> enriched p -> no_enrich l /\ enriched p'.
Proof. unfold on_error. destruct 1; simpl; try done; intros _; split; try done; unfold on_error; by case_match. Qed.

Lemma steps_enriched p ls p' : steps p ls p' -> enriched p -> Forall no_enrich ls.
Proof.
  induction 1 as [|p l p1 ls p2 Hl _ IH]; intros Hp; [constructor|].
  destruct (step_enriched _ _ _ Hl Hp). constructor; auto.
Qed.

Lemma psteps_app_inv p ls1 l ls2 p' :
  steps p (ls1 ++ l :: ls2) p' ->
  exists p1 p2, steps p ls1 p1 /\ step p1 l p2 /\ steps p2 ls2 p'.
Proof.
  revert p. induction ls1 as [|l1 ls1 IH]; intros p Hp; inversion Hp as [|? ? q ? ? Hl Hq]; subst.
  - exists p, q. split_and!; [constructor|done|done].
  - destruct (IH q Hq) as (p1 & p2 & ? & ? & ?). exists p1, p2.
    split_and!; [by econstructor|done|done].
Qed.

Lemma enrichment_kept st ls : Forall no_enrich ls -> foldl enrich_effect st ls = st.
Proof. intros Hls. revert st. induction Hls as [|l ls Hl _ IH]; intros st; [done|]. simpl. rewrite IH. by destruct l. Qed.

(** A score is that of some scoring node. *)
Lemma final_score_in ls sc : final_score ls = Some sc -> exists n f, OScore n f (Ok (Some sc)) ∈ ls.
Proof.
  induction ls as [|l ls IH] using rev_ind; [done|]. rewrite final_score_snoc. intros Hsc.
  destruct l as [| | | |n f [r|e]|]; cbn [score_effect] in Hsc;
    try (destruct (IH Hsc) as (n' & f' & ?); exists n', f'; apply elem_of_app; by left).
  subst r. exists n, f. apply elem_of_app. right. left.
Qed.

(** With a score in every scoring label, there is one as soon as there is a
    label. *)
Lemma final_score_some ls n f o :
  (forall n f o, OScore n f o ∈ ls -> exists sc, o = Ok (Some sc)) -> OScore n f o ∈ ls ->
  final_score ls <> None.
Proof.
  induction ls as [|l ls IH] using rev_ind; [by intros _ ?%not_elem_of_nil|]. intros Hall Hin.
  rewrite final_score_snoc.
  assert (IH' : OScore n f o ∈ ls -> final_score ls <> None).
  { apply IH. intros m f' o' ?. apply (Hall m f'), elem_of_app. by left. }
  apply elem_of_app in Hin as [Hin|Heq%list_elem_of_singleton].
  - destruct l as [| | | |m f' o'|]; try by apply IH'.
    destruct (Hall m f' o') as (sc & ->); [|done]. apply elem_of_app. right. left.
  - subst l. destruct (Hall n f o) as (sc & ->); [|done]. apply elem_of_app. right. left.
Qed.

(** The score of a path is that of its last successful scoring label, whose
    features are those of the whole enrichment. *)
Lemma final_score_last ls p sc :
  steps (start cfg claim) ls p -> final_score ls = Some sc ->
  exists before n after,
    ls = before ++ OScore n (features_of tenantID claim (final_enrichment claim ls)) (Ok (Some sc)) :: after.
Proof.
  intros Hls Hsc.
  destruct (final_score_in ls sc Hsc) as (n & f & Hin).
  apply list_elem_of_split in Hin as (before & after & Heq). exists before, n, after.
  assert (Hf : f = features_of tenantID claim (final_enrichment claim ls)); [|by rewrite <- Hf].
  pose proof Hls as Hinv. apply inv_reachable in Hinv as [Hwf _].
  destruct (wf_labels_split _ _ _ _ _ Hwf before (OScore n f (Ok (Some sc))) after Heq)
    as (_ & _ & Hpay & _). cbn [label_payload] in Hpay. rewrite Hpay. f_equal.
  rewrite Heq in Hls |- *. destruct (psteps_app_inv _ _ _ _ _ Hls) as (p1 & p2 & _ & Hstep & Hafter).
  assert (Henr : enriched p2) by (inversion Hstep; subst; done).
  unfold final_enrichment. rewrite foldl_app. simpl.
  by rewrite (enrichment_kept _ after) by (by eapply steps_enriched).
Qed.
End LastScore.

(** ** What a completed path went through *)
Section Visited.
Context (cfg : Config) (tenantID correlationID : string) (claim : option ClaimEvent).
Let step := pstep cfg tenantID correlationID claim.
Let steps := psteps cfg tenantID correlationID claim.

(** The label of an enrichment node. *)
Definition enriches (n : Node) (l : label) : Prop :=
  match l with OHash m _ | ONorm m _ | OLookup m _ => m = n | _ => False end.

Lemma failed_stuck err ls p : steps (Failed err) ls p -> p = Failed err.
Proof. intros Hs. inversion Hs as [|? l ? ? ? Hl]; [done|]. by inversion Hl. Qed.

(** A step of the first stage consumes a node, by its call unless it is not an
    active enrichment node. *)
Lemma enriching_step n todo st l p :
  step (Enriching (n :: todo) st) l p ->
  (enriches n l \/ active1 tenantID n = false \/ n_Service n ∉ [svcHash; svcNormalize; svcLookup]) /\
  ((exists st', p = Enriching todo st') \/ exists err, p = Failed err).
Proof.
  intros Hl. inversion Hl; subst; unfold on_error; (split; [simpl; tauto|]);
    try (destruct (failure_tolerated n)); eauto.
Qed.

(** A completed path called every active enrichment node. *)
Lemma enriching_visits n ls st todo r :
  steps (Enriching todo st) ls (Done r) -> n ∈ todo -> active1 tenantID n = true ->
  n_Service n ∈ [svcHash; svcNormalize; svcLookup] -> exists l, l ∈ ls /\ enriches n l.
Proof.
  intros Hs Hin Ha Hsvc. remember (Enriching todo st) as p eqn:Hp. remember (Done r) as p' eqn:Hp'.
  revert todo st Hp Hin. induction Hs as [p|p l p1 ls p2 Hl Hs IH]; intros todo st -> Hin; [done|].
  destruct todo as [|m todo]; [by apply not_elem_of_nil in Hin|].
  destruct (enriching_step _ _ _ _ _ Hl) as [Hlab [(st' & ->)|(err & ->)]].
  - apply elem_of_cons in Hin as [->|Hin].
    + exists l. split; [by left|]. destruct Hlab as [|[?|?]]; [done|congruence|done].
    + destruct (IH Hp' _ _ eq_refl Hin) as (l' & ? & ?). exists l'. split; [by right|done].
  - subst. by apply failed_stuck in Hs.
Qed.

(** So it has an outcome of the lookup and of the normalization, when such
    nodes are active. *)
Lemma completed_visits n ls r :
  steps (start cfg claim) ls (Done r) -> n ∈ c_Nodes cfg -> active1 tenantID n = true ->
  (n_Service n = svcLookup -> exists o, OLookup n o ∈ ls) /\
  (n_Service n = svcNormalize -> exists o, ONorm n o ∈ ls).
Proof.
  intros Hs Hin Ha.
  assert (Hlab : n_Service n ∈ [svcHash; svcNormalize; svcLookup] ->
                 exists l, l ∈ ls /\ enriches n l /\ label_guard cfg tenantID l).
  { intros Hsvc. destruct (enriching_visits n ls _ _ r Hs Hin Ha Hsvc) as (l & Hl & Hn).
    exists l. split_and!; [done..|]. apply list_elem_of_split in Hl as (l1 & l2 & Hls).
    apply inv_reachable in Hs as [Hwf _].
    by destruct (wf_labels_split _ _ _ _ _ Hwf l1 l l2 Hls) as (_ & ? & _). }
  split; intros Hsvc; rewrite Hsvc in Hlab;
    (destruct Hlab as (l & Hl & Hn & Hg); [apply (bool_decide_unpack _); by_compute|]);
    destruct l as [|m o|m o|m o| |]; simpl in Hn; try done; subst m; try (by eexists);
    destruct Hg as (_ & _ & Hg); by rewrite Hsvc in Hg.
Qed.

(** The same for the scoring stage of a path that ends, one way or the other,
    and on which nothing failed. *)
Definition over (p : phase) : Prop := match p with Done _ | Failed _ => True | _ => False end.

Lemma enriching_leads_to_scoring ls st todo p :
  steps (Enriching todo st) ls p -> over p -> Forall (λ l, fatal l = None) ls ->
  exists ls1 ls2 st', ls = ls1 ++ ls2 /\ steps (Scoring (c_Nodes cfg) st' None) ls2 p.
Proof.
  intros Hs Hover. remember (Enriching todo st) as p0 eqn:Hp0. revert todo st Hp0.
  induction Hs as [p|p l p1 ls p2 Hl Hs IH]; intros todo st -> Hnf; [done|].
  apply Forall_cons in Hnf as [Hf Hnf].
  assert (Hnext : (exists todo' st', p1 = Enriching todo' st') \/ p1 = Scoring (c_Nodes cfg) st None).
  { inversion Hl; subst; unfold on_error; simpl in Hf;
      try (destruct (failure_tolerated _); [|done]); eauto. }
  destruct Hnext as [(todo' & st' & Hp1)|Hp1].
  - destruct (IH Hover _ _ Hp1 Hnf) as (ls1 & ls2 & st2 & -> & ?). by exists (l :: ls1), ls2, st2.
  - subst p1. by exists [l], ls, st.
Qed.

Lemma scoring_visits n ls st sc todo p :
  steps (Scoring todo st sc) ls p -> over p -> Forall (λ l, fatal l = None) ls ->
  n ∈ todo -> active2 tenantID n = true -> n_Service n = svcModel -> exists f o, OScore n f o ∈ ls.
Proof.
  intros Hs Hover Hnf Hin Ha Hsvc. remember (Scoring todo st sc) as p0 eqn:Hp0. revert todo st sc Hp0 Hin.
  induction Hs as [p|p l p1 ls p2 Hl Hs IH]; intros todo st sc -> Hin; [done|].
  apply Forall_cons in Hnf as [Hf Hnf]. destruct todo as [|m todo]; [by apply not_elem_of_nil in Hin|].
  assert (Hnext : exists st' sc', p1 = Scoring todo st' sc').
  { inversion Hl; subst; unfold on_error; simpl in Hf;
      try (destruct (failure_tolerated _); [|done]); eauto. }
  destruct Hnext as (st' & sc' & Hp1). apply elem_of_cons in Hin as [->|Hin].
  - inversion Hl as [| | | | | | | |? ? ? ? Hskip| | | | | | | |]; subst; try (eexists _, _; by left).
    exfalso. destruct Hskip; congruence.
  - destruct (IH Hover Hnf _ _ _ Hp1 Hin) as (f & o & ?). exists f, o. by right.
Qed.

(** A path that ends and on which nothing failed called every active scoring
    node. *)
Lemma ended_scores n ls p :
  steps (start cfg claim) ls p -> over p -> Forall (λ l, fatal l = None) ls ->
  n ∈ c_Nodes cfg -> active2 tenantID n = true -> n_Service n = svcModel -> exists f o, OScore n f o ∈ ls.
Proof.
  intros Hs Hover Hnf Hin Ha Hsvc.
  destruct (enriching_leads_to_scoring ls _ _ p Hs Hover Hnf) as (ls1 & ls2 & st & -> & Hs2).
  apply Forall_app in Hnf as [_ Hnf].
  destruct (scoring_visits n ls2 st None (c_Nodes cfg) p Hs2 Hover Hnf Hin Ha Hsvc) as (f & o & ?).
  exists f, o. apply elem_of_app. by right.
Qed.

(** A completed path went through the publishing stage, from the first node of
    the configuration. *)
Definition before_publishing (p : phase) : Prop :=
  match p with Enriching _ _ | Scoring _ _ _ => True | _ => False end.

Lemma completed_publishing p0 ls r :
  steps p0 ls (Done r) -> before_publishing p0 ->
  exists ls1 ls2 st status sc, ls = ls1 ++ ls2 /\ Forall no_publish ls1 /\
    steps (Publishing (c_Nodes cfg) st status sc) ls2 (Done r).
Proof.
  intros Hs. remember (Done r) as p eqn:Hp. induction Hs as [p|p l p1 ls p2 Hl Hs IH]; intros Hb; [by subst|].
  assert (Hl' : no_publish l) by (destruct Hl; done).
  assert (Hnext : before_publishing p1 \/ (exists st status sc, p1 = Publishing (c_Nodes cfg) st status sc)
                  \/ exists err, p1 = Failed err).
  { inversion Hl; subst; unfold on_error; try done; simpl; try (destruct (failure_tolerated _); simpl); eauto 6. }
  destruct Hnext as [Hb1|[(st & status & sc & ->)|(err & ->)]].
  - destruct (IH Hp Hb1) as (ls1 & ls2 & st & status & sc & -> & ? & ?).
    exists (l :: ls1), ls2, st, status, sc. split_and!; [done|by constructor|done].
  - exists [l], ls, st, status, sc. subst. split_and!; [done|by constructor|done].
  - apply failed_stuck in Hs. by subst.
Qed.

(** The nodes whose publication is on a path, in order. *)
Definition published_nodes (ls : list label) : list Node :=
  omap (λ l, match l with OPublish n _ _ => Some n | _ => None end) ls.

(** The nodes that publish for the tenant. *)
Definition publishes (n : Node) : bool := active3 tenantID n && bool_decide (n_Service n = svcPublish).

Lemma no_published_nodes ls : Forall no_publish ls -> published_nodes ls = [].
Proof. induction 1 as [|[] ls Hl _ IH]; done. Qed.

Lemma filter_publishes n todo :
  active3 tenantID n = true -> n_Service n = svcPublish ->
  List.filter publishes (n :: todo) = n :: List.filter publishes todo.
Proof. intros Ha Hs. simpl. unfold publishes at 1. by rewrite Ha, Hs. Qed.

Lemma publishing_nodes ls st status sc todo r :
  steps (Publishing todo st status sc) ls (Done r) ->
  published_nodes ls = List.filter publishes todo.
Proof.
  intros Hs. remember (Publishing todo st status sc) as p eqn:Hp. remember (Done r) as p' eqn:Hp'.
  revert todo status Hp. induction Hs as [p|p l p1 ls p2 Hl Hs IH]; intros todo status ->; [done|]. subst p2.
  inversion Hl as [| | | | | | | | | | | | |n todo' ? ? ? Hskip|n todo' ? ? ? Ha Hsvc|n todo' ? ? ? err Ha Hsvc|];
    subst; unfold on_error in *.
  - cbn [List.filter]. rewrite <- (IH eq_refl todo' status eq_refl).
    assert (Hn : publishes n = false); [|by rewrite Hn].
    unfold publishes. destruct Hskip as [-> | ?]; [done|]. by rewrite bool_decide_false, andb_false_r.
  - by rewrite (filter_publishes n todo' Ha Hsvc), <- (IH eq_refl todo' status eq_refl).
  - destruct (failure_tolerated n); [|by apply failed_stuck in Hs].
    by rewrite (filter_publishes n todo' Ha Hsvc), <- (IH eq_refl todo' "degraded"%string eq_refl).
  - by inversion Hs as [|? ? ? ? ? Hd]; subst; [|inversion Hd].
Qed.

(** A completed path has an outcome of every publishing node, in the order of
    the configuration, and of no other. *)
Lemma completed_publishes ls r :
  steps (start cfg claim) ls (Done r) -> published_nodes ls = List.filter publishes (c_Nodes cfg).
Proof.
  intros Hs. destruct (completed_publishing _ ls r Hs I) as (ls1 & ls2 & st & status & sc & -> & Hno & Hs2).
  unfold published_nodes. rewrite omap_app. fold (published_nodes ls1) (published_nodes ls2).
  rewrite no_published_nodes by done. by eapply publishing_nodes.
Qed.

(** Once publishing, the score is that of the result. *)
Lemma publishing_result ls todo st status sc r :
  steps (Publishing todo st status sc) ls (Done r) ->
  r_FraudScore r = sr_score sc /\ r_ModelVersion r = sr_model_version sc.
Proof.
  intros Hs. remember (Publishing todo st status sc) as p eqn:Hp. remember (Done r) as p' eqn:Hp'.
  revert todo status Hp. induction Hs as [p|p l p1 ls p2 Hl Hs IH]; intros todo status ->; [done|].
  subst p2. inversion Hl; subst; unfold on_error in *; try (by eapply IH).
  - destruct (failure_tolerated n); [by eapply IH|]. by apply failed_stuck in Hs.
  - by inversion Hs as [|? ? ? ? ? Hd]; subst; [|inversion Hd].
Qed.

(** The event of a publication on a path that completes. *)
Lemma published_event n ev o before after r :
  steps (start cfg claim) (before ++ OPublish n ev o :: after) (Done r) ->
  ev = mkScoredClaimEvent (GetClaimId claim) correlationID tenantID (status_of before)
         (r_FraudScore r) (r_ModelVersion r) /\
  (r_Status r = "scored"%string -> status_of before = "scored"%string).
Proof.
  intros Hs. destruct (psteps_app_inv _ _ _ _ _ _ _ _ _ Hs) as (p1 & p2 & Hp1 & Hstep & Hp2). split.
  - clear Hs. apply inv_reachable in Hp1.
    inversion Hstep as [| | | | | | | | | | | | | |? todo st status sc Ha Hsvc|? todo st status sc err Ha Hsvc|];
      subst; destruct Hp1 as (_ & _ & _ & _ & _ & Hst); unfold event_of.
    + destruct (publishing_result _ _ _ _ _ _ Hp2) as [-> ->]. by rewrite Hst.
    + unfold on_error in Hp2. destruct (failure_tolerated n); [|by apply failed_stuck in Hp2].
      destruct (publishing_result _ _ _ _ _ _ Hp2) as [-> ->]. by rewrite Hst.
  - apply inv_reachable in Hs as (_ & _ & sc' & _ & ->). cbn [r_Status]. unfold status_of. rewrite existsb_app.
    by destruct (existsb degrading before).
Qed.
End Visited.
