(* ===== verification/RunProps.v ===== *)
(** * Properties of Executor.Run

    The theorems about [Run]: its refinement of the pipeline, the exact result
    of a completed run and the cause of a failed one, what is published and
    when, which nodes are called, with which features and how often, the order
    of the stages, the worst-case duration, the confidentiality of the
    claimant's name, and the run of the shipped configuration. *)

From Stdlib Require Import Sorted.
From S2P Require Import Prelude Float64 GoStrings Messages Effects Telemetry DagConfig Resilience.
From S2P Require Import Executor Pipeline PipelineFacts.

(** ** The two parts of a run *)

(** The loading of the configuration, in the context that [Run] derives. *)
Definition run_ctx (ctx : Ctx) (tenantID correlationID : string) : Ctx :=
  WithTenantID (WithCorrelationID ctx correlationID) tenantID.

Definition run_load {E} (e : Executor E) (ctx : Ctx) (tenantID correlationID : string)
    (claim : option ClaimEvent) : M E (result Config) :=
  ex_Loader e (run_ctx ctx tenantID correlationID) tenantID (GetProduct claim) (GetEventType claim).

(** The stages of a run whose configuration is [cfg]. *)
Definition run_body {E} (e : Executor E) (ctx : Ctx) (tenantID correlationID : string)
    (claim : option ClaimEvent) (cfg : Config) : M E (result Result) :=
  let ctx := run_ctx ctx tenantID correlationID in
  run_stages e ctx (FromContext ctx (ex_Logger e)) cfg tenantID correlationID claim.

(** [ls] is what happened in the run on [cfg] started in [s]: a path of the
    pipeline that ends in [p], whose labels are the outcomes the node calls had
    from the state in which the configuration was loaded to the end of the run,
    and whose calls [cs] are those the run made after loading. *)
Definition run_path {E} (e : Executor E) (ctx : Ctx) (tenantID correlationID : string)
    (claim : option ClaimEvent) (cfg : Config) (s : St E) (ls : list label) (cs : list Call)
    (p : phase) : Prop :=
  psteps cfg tenantID correlationID claim (start cfg claim) ls p /\
  realizes e (run_ctx ctx tenantID correlationID) cfg correlationID claim
    (final (run_load e ctx tenantID correlationID claim) s) ls
    (final (Run e ctx tenantID correlationID claim) s) cs /\
  calls_of (trace (Run e ctx tenantID correlationID claim) s)
    = calls_of (trace (run_load e ctx tenantID correlationID claim) s) ++ cs.

(** The stage a call belongs to. *)
Definition call_stage (c : Call) : Z :=
  match c with
  | CallHash _ _ | CallNormalize _ _ | CallLookup _ _ => 1
  | CallScore _ _ => 2
  | CallPublish _ => 3
  | CallGetDagVersion _ _ | CallReadFile _ | CallGetTenant _ | CallProcessClaim _ | CallProcess _ => 0
  end.

(** The service a call goes to. *)
Definition call_service (c : Call) : string :=
  match c with
  | CallHash _ _ => svcHash
  | CallNormalize _ _ => svcNormalize
  | CallLookup _ _ => svcLookup
  | CallScore _ _ => svcModel
  | CallPublish _ => svcPublish
  | CallGetDagVersion _ _ | CallReadFile _ | CallGetTenant _ | CallProcessClaim _ | CallProcess _ => ""
  end.

(** A call that concerns the given claim of the given tenant only. *)
Definition call_about (tenantID correlationID : string) (claim : option ClaimEvent) (c : Call) : Prop :=
  match c with
  | CallHash id name => id = correlationID /\ name = GetClaimantName claim
  | CallNormalize id address => id = correlationID /\ address = GetRawAddress claim
  | CallLookup id policy => id = correlationID /\ policy = GetPolicyNumber claim
  | CallScore id f => id = correlationID /\ f !! "tenant_id"%string = Some tenantID
  | CallPublish ev =>
      ev_TenantID ev = tenantID /\ ev_CorrelationID ev = correlationID /\ ev_ClaimID ev = GetClaimId claim
  | CallGetDagVersion t p => t = tenantID /\ p = GetProduct claim
  | CallReadFile _ | CallGetTenant _ | CallProcessClaim _ | CallProcess _ => False
  end.

(** The attempts a node may make. *)
Definition node_attempts (n : Node) : Z := Z.max 0 (n_MaxRetries n + 1).

Definition sum_over (f : Node -> Z) (l : list Node) : Z := foldr (λ n acc, f n + acc) 0 l.

(** The nodes a stage calls. *)
Definition calls1 (tenantID : string) (n : Node) : bool :=
  active1 tenantID n && bool_decide (n_Service n ∈ [svcHash; svcNormalize; svcLookup]).
Definition calls2 (tenantID : string) (n : Node) : bool :=
  active2 tenantID n && bool_decide (n_Service n = svcModel).
Definition calls3 (tenantID : string) (n : Node) : bool :=
  active3 tenantID n && bool_decide (n_Service n = svcPublish).

(** The weight of the nodes that pass a guard. *)
Definition guarded (g : Node -> bool) (f : Node -> Z) (n : Node) : Z := if g n then f n else 0.

(** ** Lemmas *)

Section Split.
Context {E : Type} (e : Executor E) (ctx : Ctx) (tenantID correlationID : string)
  (claim : option ClaimEvent).
Let load := run_load e ctx tenantID correlationID claim.
Let run := Run e ctx tenantID correlationID claim.

Lemma Run_loaded s cfg :
  result_of load s = Ok cfg ->
  let body := run_body e ctx tenantID correlationID claim cfg in
  result_of run s = result_of body (final load s) /\
  final run s = final body (final load s) /\
  trace run s = trace load s ++ trace body (final load s).
Proof.
  intros Hl body. unfold run, Run. run. fold (run_ctx ctx tenantID correlationID).
  fold (run_load e ctx tenantID correlationID claim). fold load. rewrite Hl. done.
Qed.

Lemma Run_not_loaded s err :
  result_of load s = Err err ->
  result_of run s = Err (ErrWrap "load dag config" err) /\
  final run s = final load s /\ trace run s = trace load s.
Proof.
  intros Hl. unfold run, Run. run. fold (run_ctx ctx tenantID correlationID).
  fold (run_load e ctx tenantID correlationID claim). fold load. rewrite Hl. run.
  by rewrite app_nil_r.
Qed.

(** The path of a run whose configuration was loaded. *)
Lemma Run_path s cfg :
  result_of load s = Ok cfg ->
  exists ls cs, run_path e ctx tenantID correlationID claim cfg s ls cs (ended (result_of run s)).
Proof.
  intros Hl. unfold run_path. fold load run.
  destruct (Run_loaded s cfg Hl) as (-> & -> & ->).
  destruct (run_stages_simulates e (run_ctx ctx tenantID correlationID)
              (FromContext (run_ctx ctx tenantID correlationID) (ex_Logger e))
              cfg tenantID correlationID claim (final load s)) as (ls & Hls & Hm).
  exists ls. eexists. rewrite calls_of_app. split_and!; done.
Qed.
End Split.

Section PathFacts.
Context (cfg : Config) (tenantID correlationID : string) (claim : option ClaimEvent).
Let steps := psteps cfg tenantID correlationID claim.
Let matched := matches correlationID claim.

(** A call of a run is the call of one of its labels. *)
Lemma matches_elem ls cs c :
  matched ls cs -> c ∈ cs ->
  exists ls1 l ls2 n, ls = ls1 ++ l :: ls2 /\ label_call correlationID claim l = Some (n, c).
Proof.
  intros Hm. induction Hm as [|l ls cs Hl _ IH|l ls cs n c' k Hl _ _ _ IH]; intros Hc.
  - by apply not_elem_of_nil in Hc.
  - destruct (IH Hc) as (ls1 & l' & ls2 & n & -> & ?). by exists (l :: ls1), l', ls2, n.
  - apply elem_of_app in Hc as [[-> _]%elem_of_replicate|Hc].
    + by exists [], l, ls, n.
    + destruct (IH Hc) as (ls1 & l' & ls2 & n' & -> & ?). by exists (l :: ls1), l', ls2, n'.
Qed.

(** The facts about the label of a call. *)
Lemma path_call ls p cs c :
  steps (start cfg claim) ls p -> matched ls cs -> c ∈ cs ->
  exists before l after n, ls = before ++ l :: after /\
    label_call correlationID claim l = Some (n, c) /\
    Forall (λ l, fatal l = None) before /\ label_guard cfg tenantID l /\
    label_payload tenantID correlationID claim before l.
Proof.
  intros Hls Hm Hc. destruct (matches_elem _ _ _ Hm Hc) as (ls1 & l & ls2 & n & -> & Hl).
  apply inv_reachable in Hls as [Hwf _].
  destruct (wf_labels_split _ _ _ _ _ Hwf ls1 l ls2 eq_refl) as (? & ? & ? & _).
  by exists ls1, l, ls2, n.
Qed.

Lemma path_calls_about ls p cs :
  steps (start cfg claim) ls p -> matched ls cs ->
  Forall (call_about tenantID correlationID claim) cs.
Proof.
  intros Hls Hm. apply Forall_forall. intros c Hc.
  destruct (path_call ls p cs c Hls Hm Hc) as (before & l & after & n & _ & Hlab & _ & _ & Hpay).
  destruct l; simplify_eq/=; [done..| |].
  - by split.
  - destruct Hpay as (sc & _ & ->). done.
Qed.

Lemma label_call_guard l n c :
  label_call correlationID claim l = Some (n, c) -> label_guard cfg tenantID l ->
  n ∈ c_Nodes cfg /\ n_Service n = call_service c /\ EnabledForTenant n tenantID = true /\
  (call_stage c = 1 -> n_DependsOn n = []) /\
  (call_stage c = 2 -> groupEnrichment ∈ n_DependsOn n) /\
  (call_stage c = 3 -> nodeModelScore ∈ n_DependsOn n).
Proof.
  unfold label_guard, active1, active2, active3.
  destruct l; simpl; try done; intros [= <- <-] (? & [H1 H2]%andb_true_iff & ?); simpl;
    rewrite ?dependsOn_spec in H1; apply bool_decide_eq_true in H1;
    split_and!; try done; intros; lia.
Qed.
End PathFacts.

(** *** Order of the stages *)
Section Order.
Context (cfg : Config) (tenantID correlationID : string) (claim : option ClaimEvent).

Definition phase_rank (p : phase) : Z :=
  match p with
  | Enriching _ _ => 1 | Scoring _ _ _ => 2 | Publishing _ _ _ _ => 3 | Done _ | Failed _ => 4
  end.

Lemma pstep_rank p l p' :
  pstep cfg tenantID correlationID claim p l p' ->
  phase_rank p <= phase_rank p' /\
  (forall n c, label_call correlationID claim l = Some (n, c) -> call_stage c = phase_rank p).
Proof.
  intros [] ; simpl; unfold on_error; repeat case_match; simpl; split; try lia;
    intros ?? [= <- <-]; done.
Qed.

(** The calls of a path from [p] are those of its stage and of later ones,
    in the order of the stages. *)
Lemma path_sorted p ls p' cs :
  psteps cfg tenantID correlationID claim p ls p' -> matches correlationID claim ls cs ->
  StronglySorted (λ c c', call_stage c <= call_stage c') cs /\
  Forall (λ c, phase_rank p <= call_stage c) cs.
Proof.
  intros Hls. revert cs. induction Hls as [p|p l p1 ls p2 Hstep _ IH]; intros cs Hm.
  { inversion Hm; subst; split; constructor. }
  apply pstep_rank in Hstep as [Hle Hcall].
  inversion Hm as [|l' ls' cs' _ Hm'|l' ls' cs' n c k Hl _ _ Hm']; subst;
    destruct (IH _ Hm') as [Hs Hf].
  - split; [done|]. eapply Forall_impl; [exact Hf|]. simpl. lia.
  - specialize (Hcall n c Hl).
    assert (Hall : Forall (λ c', phase_rank p <= call_stage c') (replicate k c ++ cs')).
    { apply Forall_app_2; [apply Forall_replicate; lia|].
      eapply Forall_impl; [exact Hf|]. simpl. lia. }
    split; [|done]. rewrite <- Hcall in Hall. clear Hm. induction k as [|k IHk]; [done|].
    simpl in *. apply Forall_cons in Hall as [_ Hall]. constructor; auto.
Qed.
End Order.

(** *** Sums over the nodes *)
Lemma sum_over_app f l1 l2 : sum_over f (l1 ++ l2) = sum_over f l1 + sum_over f l2.
Proof. induction l1 as [|n l1 IH]; simpl; [done|]. rewrite IH. lia. Qed.

Lemma sum_over_nonneg f l : (forall n, 0 <= f n) -> 0 <= sum_over f l.
Proof. intros Hf. induction l as [|n l IH]; simpl; [done|]. specialize (Hf n). lia. Qed.

Lemma guarded_nonneg g f n : (forall n, 0 <= f n) -> 0 <= guarded g f n.
Proof. unfold guarded. intros Hf. specialize (Hf n). destruct (g n); lia. Qed.

(** A node is called in one stage at most: its service decides which. *)
Lemma calls_disjoint tenantID n f :
  0 <= f n ->
  guarded (calls1 tenantID) f n + guarded (calls2 tenantID) f n + guarded (calls3 tenantID) f n <= f n.
Proof.
  intros Hf. unfold guarded, calls1, calls2, calls3.
  destruct (decide (n_Service n = svcModel)) as [->|H2].
  { change (bool_decide (svcModel ∈ [svcHash; svcNormalize; svcLookup])) with false.
    change (bool_decide (svcModel = svcPublish)) with false.
    rewrite !andb_false_r. case_match; lia. }
  rewrite (bool_decide_false _ H2), (andb_false_r (active2 tenantID n)).
  destruct (decide (n_Service n = svcPublish)) as [->|H3].
  { change (bool_decide (svcPublish ∈ [svcHash; svcNormalize; svcLookup])) with false.
    rewrite !andb_false_r. case_match; lia. }
  rewrite (bool_decide_false _ H3), (andb_false_r (active3 tenantID n)). case_match; lia.
Qed.

Lemma sum_stages tenantID f l :
  Forall (λ n, 0 <= f n) l ->
  sum_over (guarded (calls1 tenantID) f) l + sum_over (guarded (calls2 tenantID) f) l +
    sum_over (guarded (calls3 tenantID) f) l <= sum_over f l.
Proof.
  induction 1 as [|n l Hf _ IH]; simpl; [done|].
  pose proof (calls_disjoint tenantID n f Hf). lia.
Qed.

(** *** Number of calls *)
Section Potential.
Context (cfg : Config) (tenantID correlationID : string) (claim : option ClaimEvent)
  (f : Node -> Z) (f_nonneg : forall n, 0 <= f n).
Let sum1 := sum_over (guarded (calls1 tenantID) f).
Let sum2 := sum_over (guarded (calls2 tenantID) f).
Let sum3 := sum_over (guarded (calls3 tenantID) f).

(** What the nodes that are still to be visited may weigh. *)
Definition potential (p : phase) : Z :=
  match p with
  | Enriching todo _ => sum1 todo + sum2 (c_Nodes cfg) + sum3 (c_Nodes cfg)
  | Scoring todo _ _ => sum2 todo + sum3 (c_Nodes cfg)
  | Publishing todo _ _ _ => sum3 todo
  | Done _ | Failed _ => 0
  end.

Definition label_weight (l : label) : Z :=
  match label_call correlationID claim l with Some (n, _) => f n | None => 0 end.

Lemma potential_nonneg p : 0 <= potential p.
Proof.
  assert (H : forall g l, 0 <= sum_over (guarded g f) l)
    by (intros; apply sum_over_nonneg; intros; by apply guarded_nonneg).
  destruct p as [todo ?|todo ? ?|todo ? ? ?|?|?]; simpl; unfold sum1, sum2, sum3; try lia;
    pose proof (H (calls1 tenantID) todo); pose proof (H (calls2 tenantID) todo);
    pose proof (H (calls3 tenantID) todo); pose proof (H (calls2 tenantID) (c_Nodes cfg));
    pose proof (H (calls3 tenantID) (c_Nodes cfg)); lia.
Qed.

Lemma potential_on_error n err p : potential (on_error n err p) <= potential p.
Proof. unfold on_error. case_match; [lia|]. simpl. apply potential_nonneg. Qed.

Lemma guarded_true g n : g n = true -> guarded g f n = f n.
Proof. unfold guarded. by intros ->. Qed.

Lemma potential_step p l p' :
  pstep cfg tenantID correlationID claim p l p' -> potential p' + label_weight l <= potential p.
Proof.
  assert (Hin : forall n, n_Service n = svcHash \/ n_Service n = svcNormalize \/ n_Service n = svcLookup ->
    bool_decide (n_Service n ∈ [svcHash; svcNormalize; svcLookup]) = true)
    by (intros n [->|[->| ->]]; done).
  pose proof (guarded_nonneg (calls1 tenantID) f) as G1.
  pose proof (guarded_nonneg (calls2 tenantID) f) as G2.
  pose proof (guarded_nonneg (calls3 tenantID) f) as G3.
  intros Hstep. pose proof (potential_nonneg p) as Hp. destruct Hstep as
    [n todo st _|n todo st r Ha Hs|n todo st err Ha Hs|n todo st r Ha Hs|n todo st err Ha Hs
    |n todo st r Ha Hs|n todo st err Ha Hs|st|n todo st sc _|n todo st sc r Ha Hs
    |n todo st sc err Ha Hs|st|st sc|n todo st status sc _|n todo st status sc Ha Hs
    |n todo st status sc err Ha Hs|st status sc];
    unfold label_weight; cbn [label_call];
    try (etrans; [apply Z.add_le_mono_r, potential_on_error|]);
    try pose proof (guarded_true (calls1 tenantID) n);
    try pose proof (guarded_true (calls2 tenantID) n);
    try pose proof (guarded_true (calls3 tenantID) n);
    simpl in *; unfold sum1, sum2, sum3 in *; simpl in *;
    unfold calls1, calls2, calls3 in *; try lia;
    rewrite ?Ha, ?(bool_decide_true _ Hs), ?Hin in * by auto; try lia.
  all: specialize (G1 n f_nonneg); specialize (G2 n f_nonneg); specialize (G3 n f_nonneg); lia.
Qed.

(** The weights of the labels of a path sum to no more than the potential of
    its start. *)
Lemma potential_steps p ls p' :
  psteps cfg tenantID correlationID claim p ls p' ->
  foldr (λ l acc, label_weight l + acc) 0 ls + potential p' <= potential p.
Proof.
  induction 1 as [p|p l p1 ls p2 Hstep _ IH]; simpl; [lia|].
  apply potential_step in Hstep. lia.
Qed.

Lemma potential_start : potential (start cfg claim) <= sum_over f (c_Nodes cfg).
Proof. apply sum_stages, Forall_forall. auto. Qed.
End Potential.

Lemma node_attempts_nonneg n : 0 <= node_attempts n.
Proof. unfold node_attempts. lia. Qed.

Lemma matches_length correlationID claim ls cs :
  matches correlationID claim ls cs ->
  Z.of_nat (length cs) <=
    foldr (λ l acc, label_weight correlationID claim node_attempts l + acc) 0 ls.
Proof.
  unfold label_weight. induction 1 as [|l ls cs Hl _ IH|l ls cs n c k Hl Hle _ _ IH]; simpl; [done| |].
  - rewrite Hl. lia.
  - rewrite Hl, length_app, length_replicate. unfold node_attempts at 1. lia.
Qed.

(** *** Runs whose services answer *)

(** [m] returns [a] after the calls [cs], from every state. *)
Definition returns {E A} (m : M E A) (a : A) (cs : list Call) : Prop :=
  forall s, result_of m s = a /\ calls_of (trace m s) = cs.

Lemma returns_ret {E A} (a : A) : returns (mret a : M E A) a [].
Proof. by intros s. Qed.

Lemma returns_bind {E A B} (m : M E A) (f : A -> M E B) a b cs1 cs2 :
  returns m a cs1 -> returns (f a) b cs2 -> returns (m ≫= f) b (cs1 ++ cs2).
Proof.
  intros Hm Hf s. run. rewrite calls_of_app. destruct (Hm s) as [-> ->].
  by destruct (Hf (final m s)) as [-> ->].
Qed.

(** A node call whose client answers at the first attempt. *)
Lemma returns_call {E A T} (zero : T) ctx cfg n x (op : Ctx -> M E (result T)) r
    (k : result T -> M E A) a cs :
  0 <= n_MaxRetries n -> (forall c s, result_of (op c) s = Ok r) ->
  (forall c s, calls_of (trace (op c) s) = []) -> returns (k (Ok r)) a cs ->
  returns (callWithResilience zero ctx cfg n (λ c, call c x (op c)) ≫= k) a (x :: cs).
Proof.
  intros Hr Hop Hq Hk. apply (returns_bind _ _ (Ok r) a [x]); [|done]. intros s.
  destruct (callWithResilience_first zero ctx cfg n (λ c, call c x (op c)) r s) as [-> ->];
    [done|intros; run; apply Hop|].
  unfold attempt_once. run. unfold calls_of in *. simpl. by rewrite Hq.
Qed.

Lemma claim_fnol_returns {E} (e : Executor E) `{!QuietClients e} ctx logger correlationID claim
    hr nr lr sc :
  (forall c s, result_of (ex_ClaimantIDHash e c correlationID (GetClaimantName claim)) s = Ok (Some hr)) ->
  (forall c s, result_of (ex_AddressNorm e c correlationID (GetRawAddress claim)) s = Ok (Some nr)) ->
  (forall c s, result_of (ex_PolicyLookup e c correlationID (GetPolicyNumber claim)) s = Ok (Some lr)) ->
  (forall c a f s, result_of (ex_Model e c a f) s = Ok (Some sc)) ->
  (forall c ev s, result_of (ex_Publisher e c ev) s = Ok tt) ->
  returns (run_stages e ctx logger claim_fnol_config "acme_insurance" correlationID claim)
    (Ok (mkResult "scored" (nr_normalized_address nr) (sr_score sc) (sr_model_version sc)))
    [CallHash correlationID (GetClaimantName claim);
     CallNormalize correlationID (GetRawAddress claim);
     CallLookup correlationID (GetPolicyNumber claim);
     CallScore correlationID
       (features_of "acme_insurance" claim
          (mkEnrichment "scored" (nr_normalized_address nr) (hr_claimant_id_hash hr)
             (lr_status lr) (lr_coverage_type lr) (nr_valid nr)));
     CallPublish (mkScoredClaimEvent (GetClaimId claim) correlationID "acme_insurance" "scored"
                    (sr_score sc) (sr_model_version sc))].
Proof.
  intros Hh Hn Hlk Hsc Hpub. unfold run_stages.
  eapply (returns_bind _ _ (Ok _) _ [_; _; _] [_; _]).
  { eapply (returns_call None); [done|intros; apply Hh|intros; apply quiet_hash|].
    eapply (returns_call None); [done|intros; apply Hn|intros; apply quiet_norm|].
    eapply (returns_call None); [done|intros; apply Hlk|intros; apply quiet_lookup|].
    apply returns_ret. }
  eapply (returns_bind _ _ (Ok (Some sc)) _ [_] [_]).
  { eapply (returns_call None); [done|intros; apply Hsc|intros; apply quiet_score|].
    apply returns_ret. }
  eapply (returns_bind _ _ (Ok _) _ [_] []); [|apply returns_ret].
  eapply (returns_call tt); [done|intros; apply Hpub|intros; apply quiet_publish|].
  apply (returns_bind _ _ tt _ [] []); [by intros s|apply returns_ret].
Qed.

(** ** A set of clients, to exhibit the hypotheses *)

(** Clients that answer in [d] ns, or when their context is done; [down] lists
    the services that are unavailable. *)
Definition answer {A} (d : Z) (down : list string) (svc : string) (a : A) (ctx : Ctx)
    : M unit (result A) := λ s,
  let t := match ctx_done ctx with Some (t, _) => Z.max (now s) (Z.min t (now s + Z.abs d))
                                 | None => now s + Z.abs d end in
  ((if bool_decide (svc ∈ down) then Err (ErrStatus 14 "unavailable") else Ok a),
   mkSt t (env s) (coin s), []).

Definition demo_score : ScoreResponse := mkScoreResp (f64_lit 42 100) "rules-v1".

Definition demo_executor (cfg : Config) (d : Z) (down : list string) : Executor unit :=
  mkExecutor unit
    (λ _ _ _ _, mret (Ok cfg))
    (λ c _ addr, answer d down svcNormalize (Some (mkNormResp addr "" "" "" "" "" true)) c)
    (λ c _ name, answer d down svcHash (Some (mkHashResp ("h:" +:+ name))) c)
    (λ c _ _, answer d down svcLookup (Some (mkLookupResp true "active" "standard")) c)
    (λ c _ _, answer d down svcModel (Some demo_score) c)
    (λ c _, answer d down svcPublish tt c)
    None.

#[export] Instance demo_quiet cfg d down : QuietClients (demo_executor cfg d down).
Proof. split; done. Qed.

Definition demo_claim : ClaimEvent :=
  mkClaimEvent "CLM-1" "corr-1" "auto" "claim.fnol" "POL-123456" "Jane Doe" "1 main st".
Definition demo_start : St unit := mkSt 0 tt (λ _, true).

(** ** Properties *)

(** C7: every run whose configuration loads is a path of the pipeline: its
    result is the phase the path ends in, the labels of the path are the
    outcomes, after retries, of the node calls the run made, in order and from
    the states in which it made them, and the run makes no other call. *)
Theorem Run_refines_pipeline {E} (e : Executor E) ctx tenantID correlationID claim cfg s :
  result_of (run_load e ctx tenantID correlationID claim) s = Ok cfg ->
  exists ls cs,
    run_path e ctx tenantID correlationID claim cfg s ls cs
      (ended (result_of (Run e ctx tenantID correlationID claim) s)) /\
    (QuietClients e -> matches correlationID claim ls cs).
Proof.
  intros Hl. destruct (Run_path e ctx tenantID correlationID claim s cfg Hl) as (ls & cs & Hp).
  exists ls, cs. split; [done|]. intros ?. by eapply realizes_matches, Hp.
Qed.

(** C8: a completed run returns exactly the last score of a scoring node, the
    address of the last successful normalisation (else the raw one) and the
    status ["scored"], or ["degraded"] precisely when the call of some
    enrichment or publishing node failed; no failure of the run was one its
    node does not tolerate. *)
Theorem Run_completed {E} (e : Executor E) ctx tenantID correlationID claim cfg s r :
  result_of (run_load e ctx tenantID correlationID claim) s = Ok cfg ->
  result_of (Run e ctx tenantID correlationID claim) s = Ok r ->
  exists ls cs sc,
    run_path e ctx tenantID correlationID claim cfg s ls cs (Done r) /\
    final_score ls = Some sc /\
    r = mkResult (if existsb degrading ls then "degraded" else "scored")
          (e_normalizedAddress (final_enrichment claim ls)) (sr_score sc) (sr_model_version sc) /\
    Forall (λ l, fatal l = None) ls.
Proof.
  intros Hl Hr. destruct (Run_path e ctx tenantID correlationID claim s cfg Hl) as (ls & cs & Hp).
  rewrite Hr in Hp. exists ls, cs.
  destruct (inv_reachable cfg tenantID correlationID claim _ _ (proj1 Hp)) as (_ & Hnf & sc & Hsc & Heq).
  by exists sc.
Qed.

(** C9: a run fails only by its configuration not loading, by a node whose
    failure is not tolerated, in which case that failure is the last thing that
    happens and its error is returned unchanged, or because no scoring node
    produced a score, in which case nothing was published. *)
Theorem Run_failed {E} (e : Executor E) ctx tenantID correlationID claim s err :
  result_of (Run e ctx tenantID correlationID claim) s = Err err ->
  (exists err', result_of (run_load e ctx tenantID correlationID claim) s = Err err' /\
     err = ErrWrap "load dag config" err') \/
  (exists cfg ls cs, result_of (run_load e ctx tenantID correlationID claim) s = Ok cfg /\
     run_path e ctx tenantID correlationID claim cfg s ls cs (Failed err) /\
     ((exists ls' l, ls = ls' ++ [l] /\ fatal l = Some err /\ Forall (λ l, fatal l = None) ls') \/
      (Forall (λ l, fatal l = None) ls /\ final_score ls = None /\ Forall no_publish ls /\
       err = ErrNew "dag: no model_score result produced"))).
Proof.
  intros Hr. destruct (result_of (run_load e ctx tenantID correlationID claim) s) as [cfg|err'] eqn:Hl.
  2: { left. exists err'. split; [done|].
       destruct (Run_not_loaded e ctx tenantID correlationID claim s err' Hl) as [Heq _]. congruence. }
  right. destruct (Run_path e ctx tenantID correlationID claim s cfg Hl) as (ls & cs & Hp).
  rewrite Hr in Hp. exists cfg, ls, cs. split_and!; try done; try apply Hp.
  destruct (inv_reachable cfg tenantID correlationID claim _ _ (proj1 Hp))
    as (Hwf & [(ls' & l & -> & Hf)|H]); [left|by right].
  destruct (wf_labels_split _ _ _ _ _ Hwf ls' l [] eq_refl) as (? & _). by exists ls', l.
Qed.

(** An event is published only after the claim was scored, and carries
    the claim's id, the correlation id and the tenant of the request, the last
    score obtained before it and the status at that moment, ["degraded"]
    exactly when an enrichment or an earlier publication failed. *)
Theorem Run_publishes {E} (e : Executor E) ctx tenantID correlationID claim cfg s :
  QuietClients e ->
  result_of (run_load e ctx tenantID correlationID claim) s = Ok cfg ->
  exists ls cs,
    run_path e ctx tenantID correlationID claim cfg s ls cs
      (ended (result_of (Run e ctx tenantID correlationID claim) s)) /\
    forall ev, CallPublish ev ∈ cs ->
      exists before n o after sc,
        ls = before ++ OPublish n ev o :: after /\ final_score before = Some sc /\
        ev = mkScoredClaimEvent (GetClaimId claim) correlationID tenantID
               (if existsb degrading before then "degraded" else "scored")
               (sr_score sc) (sr_model_version sc).
Proof.
  intros Hq Hl. destruct (Run_path e ctx tenantID correlationID claim s cfg Hl) as (ls & cs & Hp).
  exists ls, cs. split; [done|]. destruct Hp as (Hls & Hreal & _). intros ev Hev.
  destruct (path_call cfg tenantID correlationID claim ls _ cs _ Hls (realizes_matches _ _ _ _ _ _ _ _ _ Hreal) Hev)
    as (before & l & after & n & -> & Hlab & _ & _ & Hpay).
  destruct l as [| | | | |n' ev' o]; simplify_eq/=.
  destruct Hpay as (sc & Hsc & ->). by exists before, n, o, after, sc.
Qed.

(** The model is called with the features of the claim and of everything
    the enrichment obtained before the call (the initial values for what failed
    or never ran): the hash in place of the claimant's name, the address and
    its validity, the policy's status and coverage. *)
Theorem Run_scores {E} (e : Executor E) ctx tenantID correlationID claim cfg s :
  QuietClients e ->
  result_of (run_load e ctx tenantID correlationID claim) s = Ok cfg ->
  exists ls cs,
    run_path e ctx tenantID correlationID claim cfg s ls cs
      (ended (result_of (Run e ctx tenantID correlationID claim) s)) /\
    forall c f, CallScore c f ∈ cs ->
      c = correlationID /\
      exists before n o after,
        ls = before ++ OScore n f o :: after /\
        f = features_of tenantID claim (final_enrichment claim before) /\
        f !! "claimant_id_hash"%string = Some (e_claimantIDHash (final_enrichment claim before)) /\
        f !! "claimant_name"%string = None /\
        f !! "address_valid"%string
          = Some (if e_addressValid (final_enrichment claim before) then "true" else "false")%string.
Proof.
  intros Hq Hl. destruct (Run_path e ctx tenantID correlationID claim s cfg Hl) as (ls & cs & Hp).
  exists ls, cs. split; [done|]. destruct Hp as (Hls & Hreal & _). intros c f Hf.
  destruct (path_call cfg tenantID correlationID claim ls _ cs _ Hls (realizes_matches _ _ _ _ _ _ _ _ _ Hreal) Hf)
    as (before & l & after & n & -> & Hlab & _ & _ & Hpay).
  destruct l as [| | | |n' f' o|]; simplify_eq/=. split; [done|].
  exists before, n, o, after. by split_and!.
Qed.

(** C22: a service is called only for a node of the loaded configuration that
    names it, is enabled for the tenant of the request and belongs to the
    call's stage: no dependency for enrichment, [enrichment] for scoring,
    [model_score] for publishing.  A tenant disabled on every node of a service
    never reaches it. *)
Theorem Run_gates_calls {E} (e : Executor E) ctx tenantID correlationID claim cfg s :
  QuietClients e ->
  result_of (run_load e ctx tenantID correlationID claim) s = Ok cfg ->
  exists cs,
    calls_of (trace (Run e ctx tenantID correlationID claim) s)
      = calls_of (trace (run_load e ctx tenantID correlationID claim) s) ++ cs /\
    forall c, c ∈ cs ->
      1 <= call_stage c <= 3 /\
      exists n, n ∈ c_Nodes cfg /\ n_Service n = call_service c /\
        (n_EnabledFor n = [] \/ tenantID ∈ n_EnabledFor n) /\
        (call_stage c = 1 -> n_DependsOn n = []) /\
        (call_stage c = 2 -> groupEnrichment ∈ n_DependsOn n) /\
        (call_stage c = 3 -> nodeModelScore ∈ n_DependsOn n).
Proof.
  intros Hq Hl. destruct (Run_path e ctx tenantID correlationID claim s cfg Hl)
    as (ls & cs & Hls & Hreal & Hcs).
  exists cs. split; [done|]. intros c Hc.
  destruct (path_call cfg tenantID correlationID claim ls _ cs c Hls (realizes_matches _ _ _ _ _ _ _ _ _ Hreal) Hc)
    as (before & l & after & n & _ & Hlab & _ & Hg & _).
  split; [by destruct l; simplify_eq/=|].
  destruct (label_call_guard cfg tenantID correlationID claim l n c Hlab Hg) as (? & ? & He & ?).
  rewrite EnabledForTenant_spec in He. apply bool_decide_eq_true in He. by exists n.
Qed.

(** C28: the stages are strictly ordered: whatever the order of the nodes in
    the file, every enrichment call (retries included) comes before every
    scoring call, and every scoring call before every publication. *)
Theorem Run_orders_stages {E} (e : Executor E) ctx tenantID correlationID claim cfg s :
  QuietClients e ->
  result_of (run_load e ctx tenantID correlationID claim) s = Ok cfg ->
  exists cs,
    calls_of (trace (Run e ctx tenantID correlationID claim) s)
      = calls_of (trace (run_load e ctx tenantID correlationID claim) s) ++ cs /\
    StronglySorted (λ c c', call_stage c <= call_stage c') cs.
Proof.
  intros Hq Hl. destruct (Run_path e ctx tenantID correlationID claim s cfg Hl)
    as (ls & cs & Hls & Hreal & Hcs).
  exists cs. split; [done|].
  by apply (path_sorted cfg tenantID correlationID claim _ ls _ cs Hls), (realizes_matches _ _ _ _ _ _ _ _ _ Hreal).
Qed.

(** A run makes at most [max_retries + 1] calls per node of its
    configuration, over all three stages: the load a claim puts on the services
    is bounded by the configuration. *)
Theorem Run_call_bound {E} (e : Executor E) ctx tenantID correlationID claim cfg s :
  QuietClients e ->
  result_of (run_load e ctx tenantID correlationID claim) s = Ok cfg ->
  exists cs,
    calls_of (trace (Run e ctx tenantID correlationID claim) s)
      = calls_of (trace (run_load e ctx tenantID correlationID claim) s) ++ cs /\
    Z.of_nat (length cs) <= sum_over (λ n, Z.max 0 (n_MaxRetries n + 1)) (c_Nodes cfg).
Proof.
  intros Hq Hl. destruct (Run_path e ctx tenantID correlationID claim s cfg Hl)
    as (ls & cs & Hls & Hreal & Hcs).
  exists cs. split; [done|]. apply realizes_matches, matches_length in Hreal; [|done].
  pose proof (potential_steps cfg tenantID correlationID claim node_attempts node_attempts_nonneg _ _ _ Hls).
  pose proof (potential_start cfg tenantID claim node_attempts node_attempts_nonneg).
  pose proof (potential_nonneg cfg tenantID node_attempts node_attempts_nonneg
                (ended (result_of (Run e ctx tenantID correlationID claim) s))).
  unfold node_attempts in *. lia.
Qed.

(** On the shipped configuration of acme_insurance, a claim whose services
    all answer is scored: the three enrichments, the model with their results
    and the publication are called once each, in this order, and the response
    is the model's score with the normalised address. *)
Theorem Run_claim_fnol {E} (e : Executor E) ctx correlationID claim hr nr lr sc s :
  result_of (run_load e ctx "acme_insurance" correlationID claim) s = Ok claim_fnol_config ->
  QuietClients e ->
  (forall c s, result_of (ex_ClaimantIDHash e c correlationID (GetClaimantName claim)) s = Ok (Some hr)) ->
  (forall c s, result_of (ex_AddressNorm e c correlationID (GetRawAddress claim)) s = Ok (Some nr)) ->
  (forall c s, result_of (ex_PolicyLookup e c correlationID (GetPolicyNumber claim)) s = Ok (Some lr)) ->
  (forall c a f s, result_of (ex_Model e c a f) s = Ok (Some sc)) ->
  (forall c ev s, result_of (ex_Publisher e c ev) s = Ok tt) ->
  result_of (Run e ctx "acme_insurance" correlationID claim) s
    = Ok (mkResult "scored" (nr_normalized_address nr) (sr_score sc) (sr_model_version sc)) /\
  calls_of (trace (Run e ctx "acme_insurance" correlationID claim) s)
    = calls_of (trace (run_load e ctx "acme_insurance" correlationID claim) s) ++
      [CallHash correlationID (GetClaimantName claim);
       CallNormalize correlationID (GetRawAddress claim);
       CallLookup correlationID (GetPolicyNumber claim);
       CallScore correlationID
         (features_of "acme_insurance" claim
            (mkEnrichment "scored" (nr_normalized_address nr) (hr_claimant_id_hash hr)
               (lr_status lr) (lr_coverage_type lr) (nr_valid nr)));
       CallPublish (mkScoredClaimEvent (GetClaimId claim) correlationID "acme_insurance" "scored"
                      (sr_score sc) (sr_model_version sc))].
Proof.
  intros Hload Hq Hh Hn Hlk Hsc Hpub.
  destruct (Run_loaded e ctx "acme_insurance" correlationID claim s _ Hload) as (-> & _ & ->).
  rewrite calls_of_app.
  destruct (claim_fnol_returns e (run_ctx ctx "acme_insurance" correlationID)
              (FromContext (run_ctx ctx "acme_insurance" correlationID) (ex_Logger e))
              correlationID claim hr nr lr sc Hh Hn Hlk Hsc Hpub
              (final (run_load e ctx "acme_insurance" correlationID claim) s)) as [H1 H2].
  unfold run_body. by rewrite H1, H2.
Qed.

(** *** Witnesses: the shipped configuration with services down *)

Definition demo_lookup_down : Executor unit :=
  demo_executor claim_fnol_config (30 * Millisecond) [svcLookup].
Definition demo_hash_down : Executor unit :=
  demo_executor claim_fnol_config (30 * Millisecond) [svcHash].
Definition demo_load (e : Executor unit) : M unit (result Config) :=
  run_load e Background "acme_insurance" "corr-1" (Some demo_claim).
Definition demo_Run (e : Executor unit) : M unit (result Result) :=
  Run e Background "acme_insurance" "corr-1" (Some demo_claim).
Definition demo_path (e : Executor unit) : Config -> St unit -> list label -> list Call -> phase -> Prop :=
  run_path e Background "acme_insurance" "corr-1" (Some demo_claim).

(** Apply a theorem about [Run] to the demonstration run. *)
Ltac demo_with thm :=
  eapply (thm Background "acme_insurance"%string "corr-1"%string (Some demo_claim));
  first [ apply demo_quiet | vm_compute; reflexivity ].

Lemma Run_refines_pipeline_witness :
  exists ls cs,
    demo_path demo_lookup_down claim_fnol_config demo_start ls cs
      (ended (result_of (demo_Run demo_lookup_down) demo_start)) /\
    (QuietClients demo_lookup_down -> matches "corr-1" (Some demo_claim) ls cs).
Proof. demo_with (@Run_refines_pipeline unit demo_lookup_down). Defined.

Lemma Run_completed_witness :
  let r := mkResult "degraded" "1 main st" (sr_score demo_score) "rules-v1" in
  exists ls cs sc,
    demo_path demo_lookup_down claim_fnol_config demo_start ls cs (Done r) /\
    final_score ls = Some sc /\
    r = mkResult (if existsb degrading ls then "degraded" else "scored")
          (e_normalizedAddress (final_enrichment (Some demo_claim) ls))
          (sr_score sc) (sr_model_version sc) /\
    Forall (λ l, fatal l = None) ls.
Proof. demo_with (@Run_completed unit demo_lookup_down). Defined.

Lemma Run_failed_witness :
  let err := ErrStatus 14 "unavailable" in
  let load := demo_load demo_hash_down in
  (exists err', result_of load demo_start = Err err' /\ err = ErrWrap "load dag config" err') \/
  (exists cfg ls cs, result_of load demo_start = Ok cfg /\
     demo_path demo_hash_down cfg demo_start ls cs (Failed err) /\
     ((exists ls' l, ls = ls' ++ [l] /\ fatal l = Some err /\ Forall (λ l, fatal l = None) ls') \/
      (Forall (λ l, fatal l = None) ls /\ final_score ls = None /\ Forall no_publish ls /\
       err = ErrNew "dag: no model_score result produced"))).
Proof. demo_with (@Run_failed unit demo_hash_down). Defined.

Lemma Run_publishes_witness :
  exists ls cs,
    demo_path demo_lookup_down claim_fnol_config demo_start ls cs
      (ended (result_of (demo_Run demo_lookup_down) demo_start)) /\
    forall ev, CallPublish ev ∈ cs ->
      exists before n o after sc,
        ls = before ++ OPublish n ev o :: after /\ final_score before = Some sc /\
        ev = mkScoredClaimEvent "CLM-1" "corr-1" "acme_insurance"
               (if existsb degrading before then "degraded" else "scored")
               (sr_score sc) (sr_model_version sc).
Proof. demo_with (@Run_publishes unit demo_lookup_down). Defined.

Lemma Run_scores_witness :
  exists ls cs,
    demo_path demo_lookup_down claim_fnol_config demo_start ls cs
      (ended (result_of (demo_Run demo_lookup_down) demo_start)) /\
    forall c f, CallScore c f ∈ cs ->
      c = "corr-1"%string /\
      exists before n o after,
        ls = before ++ OScore n f o :: after /\
        f = features_of "acme_insurance" (Some demo_claim) (final_enrichment (Some demo_claim) before) /\
        f !! "claimant_id_hash"%string
          = Some (e_claimantIDHash (final_enrichment (Some demo_claim) before)) /\
        f !! "claimant_name"%string = None /\
        f !! "address_valid"%string
          = Some (if e_addressValid (final_enrichment (Some demo_claim) before)
                  then "true" else "false")%string.
Proof. demo_with (@Run_scores unit demo_lookup_down). Defined.

Lemma Run_gates_calls_witness :
  exists cs,
    calls_of (trace (demo_Run demo_lookup_down) demo_start)
      = calls_of (trace (demo_load demo_lookup_down) demo_start) ++ cs /\
    forall c, c ∈ cs ->
      1 <= call_stage c <= 3 /\
      exists n, n ∈ c_Nodes claim_fnol_config /\ n_Service n = call_service c /\
        (n_EnabledFor n = [] \/ "acme_insurance"%string ∈ n_EnabledFor n) /\
        (call_stage c = 1 -> n_DependsOn n = []) /\
        (call_stage c = 2 -> groupEnrichment ∈ n_DependsOn n) /\
        (call_stage c = 3 -> nodeModelScore ∈ n_DependsOn n).
Proof. demo_with (@Run_gates_calls unit demo_lookup_down). Defined.

Lemma Run_orders_stages_witness :
  exists cs,
    calls_of (trace (demo_Run demo_lookup_down) demo_start)
      = calls_of (trace (demo_load demo_lookup_down) demo_start) ++ cs /\
    StronglySorted (λ c c', call_stage c <= call_stage c') cs.
Proof. demo_with (@Run_orders_stages unit demo_lookup_down). Defined.

(** Eight calls at most on the shipped configuration. *)
Lemma Run_call_bound_witness :
  exists cs,
    calls_of (trace (demo_Run demo_lookup_down) demo_start)
      = calls_of (trace (demo_load demo_lookup_down) demo_start) ++ cs /\
    Z.of_nat (length cs) <= 8.
Proof.
  apply (Run_call_bound demo_lookup_down Background "acme_insurance" "corr-1" (Some demo_claim)
           claim_fnol_config demo_start); [apply demo_quiet|vm_compute; reflexivity].
Defined.

Lemma Run_claim_fnol_witness :
  let e := demo_executor claim_fnol_config (30 * Millisecond) [] in
  result_of (demo_Run e) demo_start
    = Ok (mkResult "scored" "1 main st" (sr_score demo_score) "rules-v1") /\
  calls_of (trace (demo_Run e) demo_start)
    = calls_of (trace (demo_load e) demo_start) ++
      [CallHash "corr-1" "Jane Doe"; CallNormalize "corr-1" "1 main st"; CallLookup "corr-1" "POL-123456";
       CallScore "corr-1"
         (features_of "acme_insurance" (Some demo_claim)
            (mkEnrichment "scored" "1 main st" "h:Jane Doe" "active" "standard" true));
       CallPublish (mkScoredClaimEvent "CLM-1" "corr-1" "acme_insurance" "scored"
                      (sr_score demo_score) "rules-v1")].
Proof.
  apply (Run_claim_fnol (demo_executor claim_fnol_config (30 * Millisecond) []) Background "corr-1"
           (Some demo_claim) (mkHashResp "h:Jane Doe") (mkNormResp "1 main st" "" "" "" "" "" true)
           (mkLookupResp true "active" "standard") demo_score demo_start);
    first [reflexivity | apply demo_quiet | done].
Defined.
