(* ===== verification/RunTiming.v ===== *)
(** * The worst-case duration of a run

    Every node call is bounded by the budget of its node, and a node is called
    in one stage at most, so a run takes no longer than the sum of the budgets
    of its nodes after its configuration is loaded, and never outlives the
    context of the request. *)

From S2P Require Import Prelude Float64 GoStrings Messages Effects Telemetry DagConfig Resilience.
From S2P Require Import Executor Pipeline PipelineFacts RunProps.

(** The time the attempts of a node may take. *)
Definition call_budget (cfg : Config) (n : Node) : Z :=
  if n_MaxRetries n <? 0 then 0 else node_budget cfg n.

(** [m] started at [s] takes at most [b], does not turn the clock back and
    does not run past the end of [ctx]. *)
Definition bounded {E A} (ctx : Ctx) (b : Z) (m : M E A) : Prop :=
  timely m /\ within b m /\ honours ctx m.

(** Clients that honour the context they are given. *)
Class TimelyClients {E} (e : Executor E) : Prop := {
  timely_hash c a b : timely (ex_ClaimantIDHash e c a b) /\ honours c (ex_ClaimantIDHash e c a b);
  timely_norm c a b : timely (ex_AddressNorm e c a b) /\ honours c (ex_AddressNorm e c a b);
  timely_lookup c a b : timely (ex_PolicyLookup e c a b) /\ honours c (ex_PolicyLookup e c a b);
  timely_score c a f : timely (ex_Model e c a f) /\ honours c (ex_Model e c a f);
  timely_publish c ev : timely (ex_Publisher e c ev) /\ honours c (ex_Publisher e c ev) }.

Section Bounded.
Context {E : Type} (ctx : Ctx).

Lemma bounded_ret {A} (a : A) b : 0 <= b -> bounded ctx b (mret a : M E A).
Proof.
  intros Hb. split_and!; [apply timely_ret|by apply within_ret|].
  intros s t e _. rewrite final_ret. lia.
Qed.

Lemma bounded_bind {A B} (m : M E A) (f : A -> M E B) b1 b2 :
  bounded ctx b1 m -> (forall a, bounded ctx b2 (f a)) -> bounded ctx (b1 + b2) (m ≫= f).
Proof.
  intros (T1 & W1 & H1) Hf. split_and!.
  - apply timely_bind; [done|]. intros a. apply Hf.
  - apply within_bind; [done|]. intros a. apply Hf.
  - intros s t e Hd. rewrite final_bind. destruct (Hf (result_of m s)) as (_ & _ & H2).
    specialize (H1 s t e Hd). specialize (H2 (final m s) t e Hd). lia.
Qed.

Lemma bounded_mono {A} (m : M E A) b b' : bounded ctx b m -> b <= b' -> bounded ctx b' m.
Proof. intros (T & W & H) Hb. split_and!; [done|by eapply within_mono|done]. Qed.

(** A computation that leaves the state alone. *)
Lemma bounded_still {A} (m : M E A) b : (forall s, final m s = s) -> 0 <= b -> bounded ctx b m.
Proof.
  intros Hm Hb. split_and!; intros s; intros; rewrite Hm; lia.
Qed.

Lemma bounded_bind_still {A B} (m : M E A) (f : A -> M E B) b :
  (forall s, final m s = s) -> (forall a, bounded ctx b (f a)) -> bounded ctx b (m ≫= f).
Proof.
  intros Hm Hf. replace b with (0 + b) by lia.
  apply bounded_bind; [by apply bounded_still|done].
Qed.

Lemma call_budget_nonneg cfg n : 0 <= nodeTimeout cfg n -> 0 <= call_budget cfg n.
Proof.
  intros Ht. unfold call_budget, node_budget, retryBackoff, Millisecond.
  destruct (Z.ltb_spec (n_MaxRetries n) 0); nia.
Qed.

Lemma bounded_call {T} (zero : T) cfg n c (op : Ctx -> M E (result T)) :
  0 <= nodeTimeout cfg n -> (forall ctx, timely (op ctx) /\ honours ctx (op ctx)) ->
  bounded ctx (call_budget cfg n) (callWithResilience zero ctx cfg n (λ ctx, call ctx c (op ctx))).
Proof.
  intros Ht Hop. unfold call_budget. destruct (Z.ltb_spec (n_MaxRetries n) 0).
  { apply bounded_still; [|done]. intros s. unfold final. by rewrite callWithResilience_skipped. }
  apply callWithResilience_budget; [done|done| |].
  - intros c' s. rewrite final_call. apply Hop.
  - intros c' s t e. rewrite final_call. apply Hop.
Qed.
End Bounded.

(** ** The stages *)
Section Stages.
Context {E : Type} (e : Executor E) `{!TimelyClients e}.
Context (ctx : Ctx) (logger : Logger) (cfg : Config) (tenantID correlationID : string)
  (claim : option ClaimEvent).
Let timeouts (nodes : list Node) : Prop := Forall (λ n, 0 <= nodeTimeout cfg n) nodes.
Let budget (g : string -> Node -> bool) (nodes : list Node) : Z :=
  sum_over (guarded (g tenantID) (call_budget cfg)) nodes.

Lemma budget_cons g n nodes :
  timeouts (n :: nodes) ->
  timeouts nodes /\ 0 <= nodeTimeout cfg n /\ budget g nodes <= budget g (n :: nodes) /\
  (g tenantID n = true -> budget g (n :: nodes) = call_budget cfg n + budget g nodes).
Proof.
  intros [Hn Hns]%Forall_cons. split_and!; try done; unfold budget; simpl; unfold guarded.
  - pose proof (call_budget_nonneg cfg n Hn). case_match; lia.
  - by intros ->.
Qed.

(** The handling of a node's failure takes no time. *)
Lemma bounded_failure {A} n err (r : A) (m : M E A) b :
  bounded ctx b m -> 0 <= b ->
  bounded ctx b (nodeFailureHandled logger n err ≫= λ handled,
                   if negb handled then mret r else m).
Proof.
  intros Hm Hb. apply bounded_bind_still; [intros; apply final_handled|].
  intros [|]; [done|by apply bounded_ret].
Qed.

Lemma bounded_warn {A} n (m : M E A) b :
  bounded ctx b m -> bounded ctx b (warn_unrecognized logger n ≫= λ _, m).
Proof. intros Hm. by apply bounded_bind_still. Qed.

Lemma budget_nonneg g nodes : timeouts nodes -> 0 <= budget g nodes.
Proof.
  unfold budget. induction 1 as [|n nodes Hn _ IH]; simpl; [done|].
  unfold guarded at 1. pose proof (call_budget_nonneg cfg n Hn). case_match; lia.
Qed.

Hint Resolve bounded_failure bounded_warn bounded_ret budget_nonneg timely_hash timely_norm
  timely_lookup timely_score timely_publish : claims.

Lemma stage1_bounded nodes st :
  timeouts nodes ->
  bounded ctx (budget calls1 nodes) (stage1 e ctx logger cfg tenantID correlationID claim nodes st).
Proof.
  revert st. induction nodes as [|n rest IH]; intros st Hto; [by apply bounded_ret|].
  destruct (budget_cons calls1 n rest Hto) as (Hrest & Hn & Hle & Heq).
  assert (Hskip : forall st, bounded ctx (budget calls1 (n :: rest))
            (stage1 e ctx logger cfg tenantID correlationID claim rest st))
    by (intros; eapply bounded_mono; [by apply IH|done]).
  cbn [stage1]. rewrite guard1. destruct (active1 tenantID n) eqn:Ha; simpl negb; cbn iota;
    [|apply Hskip].
  assert (Hcall : forall svc, n_Service n = svc -> svc ∈ [svcHash; svcNormalize; svcLookup] ->
            budget calls1 (n :: rest) = call_budget cfg n + budget calls1 rest).
  { intros svc <- Hin. apply Heq. unfold calls1. by rewrite Ha, (bool_decide_true _ Hin). }
  repeat case_bool_decide; [rewrite (Hcall _ ltac:(done)) by set_solver..|by apply bounded_warn];
    (apply bounded_bind; [apply bounded_call; auto with claims|]); intros [r|err]; auto with claims.
Qed.

Lemma stage2_bounded nodes st sc :
  timeouts nodes ->
  bounded ctx (budget calls2 nodes) (stage2 e ctx logger cfg tenantID correlationID claim nodes st sc).
Proof.
  revert sc. induction nodes as [|n rest IH]; intros sc Hto; [by apply bounded_ret|].
  destruct (budget_cons calls2 n rest Hto) as (Hrest & Hn & Hle & Heq).
  assert (Hskip : forall sc, bounded ctx (budget calls2 (n :: rest))
            (stage2 e ctx logger cfg tenantID correlationID claim rest st sc))
    by (intros; eapply bounded_mono; [by apply IH|done]).
  cbn [stage2]. rewrite <- negb_andb. fold (active2 tenantID n).
  destruct (active2 tenantID n) eqn:Ha; simpl negb; cbn iota; [|apply Hskip].
  case_bool_decide as Hs; [|by apply bounded_warn].
  rewrite Heq by (unfold calls2; by rewrite Ha, bool_decide_true).
  apply bounded_bind; [apply bounded_call; auto with claims|]. intros [r|err]; auto with claims.
Qed.

Lemma stage3_bounded nodes status sc :
  timeouts nodes ->
  bounded ctx (budget calls3 nodes) (stage3 e ctx logger cfg tenantID correlationID claim nodes status sc).
Proof.
  revert status. induction nodes as [|n rest IH]; intros status Hto; [by apply bounded_ret|].
  destruct (budget_cons calls3 n rest Hto) as (Hrest & Hn & Hle & Heq).
  assert (Hskip : forall status, bounded ctx (budget calls3 (n :: rest))
            (stage3 e ctx logger cfg tenantID correlationID claim rest status sc))
    by (intros; eapply bounded_mono; [by apply IH|done]).
  cbn [stage3]. rewrite <- negb_andb. fold (active3 tenantID n).
  destruct (active3 tenantID n) eqn:Ha; simpl negb; cbn iota; [|apply Hskip].
  case_bool_decide as Hs; [|by apply bounded_warn].
  rewrite Heq by (unfold calls3; by rewrite Ha, bool_decide_true).
  apply bounded_bind; [apply bounded_call; auto with claims|]. intros [r|err]; auto with claims.
  by apply bounded_bind_still; auto.
Qed.

Lemma run_stages_bounded :
  timeouts (c_Nodes cfg) ->
  bounded ctx (sum_over (call_budget cfg) (c_Nodes cfg))
    (run_stages e ctx logger cfg tenantID correlationID claim).
Proof.
  intros Hto. set (nodes := c_Nodes cfg) in *.
  assert (Hsum : budget calls1 nodes + (budget calls2 nodes + (budget calls3 nodes + 0))
                 <= sum_over (call_budget cfg) nodes).
  { rewrite Z.add_0_r, Z.add_assoc. apply sum_stages.
    eapply Forall_impl; [exact Hto|]. intros n. apply call_budget_nonneg. }
  eapply bounded_mono; [|exact Hsum]. unfold run_stages. fold nodes.
  pose proof (budget_nonneg calls2 nodes Hto). pose proof (budget_nonneg calls3 nodes Hto).
  apply bounded_bind; [by apply stage1_bounded|]. intros [st|err]; [|apply bounded_ret; lia].
  apply bounded_bind; [by apply stage2_bounded|]. intros [[sc|]|err]; [|apply bounded_ret; lia..].
  apply bounded_bind; [by apply stage3_bounded|]. intros [status|err]; apply bounded_ret; lia.
Qed.
End Stages.

Lemma answer_timely {A} d down svc (a : A) c :
  timely (answer d down svc a c) /\ honours c (answer d down svc a c).
Proof.
  split; [intros s|intros s t e Hd]; unfold final, answer; simpl.
  - destruct (ctx_done c) as [[t e]|]; lia.
  - rewrite Hd. lia.
Qed.

#[export] Instance demo_timely cfg d down : TimelyClients (demo_executor cfg d down).
Proof. split; intros; apply answer_timely. Qed.

(** A run, once its configuration is loaded. *)
Lemma Run_bounded {E} (e : Executor E) ctx tenantID correlationID claim cfg s :
  TimelyClients e -> config_ranges cfg ->
  result_of (run_load e ctx tenantID correlationID claim) s = Ok cfg ->
  let loaded := now (final (run_load e ctx tenantID correlationID claim) s) in
  let ended := now (final (Run e ctx tenantID correlationID claim) s) in
  loaded <= ended <= loaded + sum_over (call_budget cfg) (c_Nodes cfg) /\
  (forall t err, ctx_done ctx = Some (t, err) -> ended <= Z.max loaded t).
Proof.
  intros ? Hranges Hload. cbv zeta.
  destruct (Run_loaded e ctx tenantID correlationID claim s cfg Hload) as (_ & -> & _).
  destruct (run_stages_bounded e (run_ctx ctx tenantID correlationID)
              (FromContext (run_ctx ctx tenantID correlationID) (ex_Logger e)) cfg
              tenantID correlationID claim) as (HT & HW & HH).
  { apply Forall_forall. intros n Hn. by apply nodeTimeout_nonneg. }
  split; [split; [apply HT|apply HW]|]. intros t err Hd. by apply (HH _ t err).
Qed.

(** ** Properties *)

(** Once its configuration is loaded, a run takes at most the sum over
    the nodes of [(max_retries + 1) * timeout + max_retries * 20 ms], whatever
    fails, never outlives the context it was given, and does not turn the clock
    back: with services that honour their deadline, a claim is answered in
    bounded time. *)
Theorem Run_duration {E} (e : Executor E) ctx tenantID correlationID claim cfg s :
  TimelyClients e -> config_ranges cfg ->
  result_of (run_load e ctx tenantID correlationID claim) s = Ok cfg ->
  let loaded := now (final (run_load e ctx tenantID correlationID claim) s) in
  let ended := now (final (Run e ctx tenantID correlationID claim) s) in
  loaded <= ended <= loaded + sum_over (call_budget cfg) (c_Nodes cfg) /\
  (forall t err, ctx_done ctx = Some (t, err) -> ended <= Z.max loaded t).
Proof. apply Run_bounded. Qed.

(** The shipped configuration: under half a second. *)
Lemma Run_duration_witness :
  let e := demo_executor claim_fnol_config (30 * Millisecond) [svcLookup] in
  let loaded := now (final (run_load e Background "acme_insurance" "corr-1" (Some demo_claim)) demo_start) in
  let ended := now (final (Run e Background "acme_insurance" "corr-1" (Some demo_claim)) demo_start) in
  loaded <= ended <= loaded + 480 * Millisecond /\
  (forall t err, ctx_done Background = Some (t, err) -> ended <= Z.max loaded t).
Proof.
  apply (Run_duration (demo_executor claim_fnol_config (30 * Millisecond) [svcLookup]) Background
           "acme_insurance" "corr-1" (Some demo_claim) claim_fnol_config demo_start);
    [apply demo_timely|apply claim_fnol_ranges|reflexivity].
Defined.
