(* ===== verification/RunPrivacy.v ===== *)
(** * Confidentiality of the claimant's name

    The claimant's name reaches the hashing service and nothing else: two
    claims that differ only in the name, and whose names hash alike, cannot be
    told apart by anything downstream.  The theorem is a noninterference
    statement: runs on the two claims have the same result, the same final
    state (hence the same effects on every service) and the same trace up to
    the argument of the hashing call. *)

From Stdlib Require Import Setoid Morphisms.
From S2P Require Import Prelude Float64 GoStrings Messages Effects Telemetry DagConfig Resilience.
From S2P Require Import Executor RunProps.

(** ** What an observer of everything but the claimant's name sees *)

(** The claim with another claimant. *)
Definition with_name (name : string) (c : ClaimEvent) : ClaimEvent :=
  mkClaimEvent (ClaimId c) (CorrelationId c) (Product c) (EventType c) (PolicyNumber c) name
    (RawAddress c).

Definition redact_call (c : Call) : Call :=
  match c with
  | CallHash correlationID _ => CallHash correlationID ""
  | CallProcessClaim claim => CallProcessClaim (with_name "" <$> claim)
  | CallGetDagVersion _ _ | CallReadFile _ | CallNormalize _ _ | CallLookup _ _
  | CallScore _ _ | CallPublish _ | CallGetTenant _
  | CallProcess _ => c
  end.

Definition redact (ev : Event) : Event :=
  match ev with
  | EvCall ctx c => EvCall ctx (redact_call c)
  | EvLog l msg attrs => EvLog l msg attrs
  end.

(** Computations that agree for that observer. *)
Definition indistinguishable {E A} (m1 m2 : M E A) : Prop :=
  forall s, result_of m1 s = result_of m2 s /\ final m1 s = final m2 s /\
            redact <$> trace m1 s = redact <$> trace m2 s.

(** ** A congruence of the monad *)
#[export] Instance indistinguishable_equivalence E A : Equivalence (@indistinguishable E A).
Proof.
  split.
  - intros m s. done.
  - intros m1 m2 H s. destruct (H s) as (-> & -> & ->). done.
  - intros m1 m2 m3 H1 H2 s. destruct (H1 s) as (-> & -> & ->). apply H2.
Qed.

#[export] Instance bind_indistinguishable E A B :
  Proper (pointwise_relation A indistinguishable ==> indistinguishable ==> indistinguishable)
    (@mbind (M E) _ A B).
Proof.
  intros f1 f2 Hf m1 m2 Hm s. run. rewrite !fmap_app.
  destruct (Hm s) as (-> & -> & ->).
  by destruct (Hf (result_of m2 s) (final m2 s)) as (-> & -> & ->).
Qed.

Lemma bind_cong {E A B} (m1 m2 : M E A) (f1 f2 : A -> M E B) :
  indistinguishable m1 m2 -> (forall a, indistinguishable (f1 a) (f2 a)) ->
  indistinguishable (m1 ≫= f1) (m2 ≫= f2).
Proof. intros Hm Hf. by apply bind_indistinguishable. Qed.

(** Retrying indistinguishable attempts. *)
Lemma attempt_loop_cong {E T} (zero : T) ctx timeout maxRetries
    (fn1 fn2 : Ctx -> M E (result T)) :
  (forall c, indistinguishable (fn1 c) (fn2 c)) ->
  forall attempts lastErr,
    indistinguishable (attempt_loop zero ctx timeout maxRetries fn1 attempts lastErr)
      (attempt_loop zero ctx timeout maxRetries fn2 attempts lastErr).
Proof.
  intros Hfn. induction attempts as [|a attempts IH]; intros lastErr; [done|].
  cbn [attempt_loop]. apply bind_cong.
  { unfold attempt_once. apply bind_cong; [done|]. intros t. apply Hfn. }
  intros [r|err]; [done|]. case_match; [|apply IH].
  apply bind_cong; [done|]. intros [c|]; [done|apply IH].
Qed.

Lemma callWithResilience_cong {E T} (zero : T) ctx cfg node (fn1 fn2 : Ctx -> M E (result T)) :
  (forall c, indistinguishable (fn1 c) (fn2 c)) ->
  indistinguishable (callWithResilience zero ctx cfg node fn1)
    (callWithResilience zero ctx cfg node fn2).
Proof. intros Hfn. by apply attempt_loop_cong. Qed.

Lemma call_cong {E A} ctx c1 c2 (m1 m2 : M E A) :
  redact_call c1 = redact_call c2 -> indistinguishable m1 m2 ->
  indistinguishable (call ctx c1 m1) (call ctx c2 m2).
Proof.
  intros Hc Hm s. run. destruct (Hm s) as (-> & -> & Ht).
  rewrite !fmap_cons, Ht. simpl. by rewrite Hc.
Qed.

(** ** The stages *)
Section Stages.
Context {E : Type} (e : Executor E) (ctx : Ctx) (logger : Logger) (cfg : Config)
  (tenantID correlationID : string) (claim : ClaimEvent) (name : string).
Let claim' := with_name name claim.
Hypothesis same_hash : forall c s,
  ex_ClaimantIDHash e c correlationID (ClaimantName claim) s
    = ex_ClaimantIDHash e c correlationID name s.

Lemma hash_cong c :
  indistinguishable
    (call c (CallHash correlationID (GetClaimantName (Some claim)))
       (ex_ClaimantIDHash e c correlationID (GetClaimantName (Some claim))))
    (call c (CallHash correlationID (GetClaimantName (Some claim')))
       (ex_ClaimantIDHash e c correlationID (GetClaimantName (Some claim')))).
Proof.
  apply call_cong; [done|]. intros s. unfold result_of, final, trace. simpl. by rewrite same_hash.
Qed.

Lemma stage1_cong nodes st :
  indistinguishable (stage1 e ctx logger cfg tenantID correlationID (Some claim) nodes st)
    (stage1 e ctx logger cfg tenantID correlationID (Some claim') nodes st).
Proof.
  revert st. induction nodes as [|n rest IH]; intros st; [done|].
  cbn [stage1]. repeat first [case_match; [by apply IH|] | case_bool_decide].
  all: apply bind_cong; [first [done | apply callWithResilience_cong, hash_cong]|]; try done;
    intros [r|err]; try done; apply bind_cong; try done; intros handled; by case_match.
Qed.

Lemma run_stages_cong :
  indistinguishable (run_stages e ctx logger cfg tenantID correlationID (Some claim))
    (run_stages e ctx logger cfg tenantID correlationID (Some claim')).
Proof.
  unfold run_stages. apply bind_cong; [apply stage1_cong|done].
Qed.
End Stages.

Lemma Run_cong {E} (e : Executor E) ctx tenantID correlationID claim name :
  (forall c s, ex_ClaimantIDHash e c correlationID (ClaimantName claim) s
                 = ex_ClaimantIDHash e c correlationID name s) ->
  indistinguishable (Run e ctx tenantID correlationID (Some claim))
    (Run e ctx tenantID correlationID (Some (with_name name claim))).
Proof.
  intros Hhash. unfold Run. apply bind_cong; [done|]. intros [cfg|err]; [|done]. by apply run_stages_cong.
Qed.

(** ** Property *)

(** The claimant's name reaches nothing but the hashing service: when the
    hashing service treats two names alike, claims that differ only in the name
    produce the same response, the same effects on every service, and the same
    calls, features, events and log lines, up to the name in the hashing call. *)
Theorem Run_hides_claimant_name {E} (e : Executor E) ctx tenantID correlationID claim name :
  (forall c s, ex_ClaimantIDHash e c correlationID (ClaimantName claim) s
                 = ex_ClaimantIDHash e c correlationID name s) ->
  forall s,
    let run := Run e ctx tenantID correlationID (Some claim) in
    let run' := Run e ctx tenantID correlationID (Some (with_name name claim)) in
    result_of run s = result_of run' s /\ final run s = final run' s /\
    redact <$> trace run s = redact <$> trace run' s.
Proof. apply Run_cong. Qed.

(** A hashing service that only looks at the length of the name. *)
Definition length_executor : Executor unit :=
  let e := demo_executor claim_fnol_config (30 * Millisecond) [] in
  mkExecutor unit (ex_Loader e) (ex_AddressNorm e)
    (λ c _ name, answer (30 * Millisecond) [] svcHash
                   (Some (mkHashResp (if (String.length name =? 8)%nat then "h8" else "h"))) c)
    (ex_PolicyLookup e) (ex_Model e) (ex_Publisher e) (ex_Logger e).

Lemma Run_hides_claimant_name_witness :
  let run := Run length_executor Background "acme_insurance" "corr-1" (Some demo_claim) in
  let run' := Run length_executor Background "acme_insurance" "corr-1"
                (Some (with_name "John Doe" demo_claim)) in
  result_of run demo_start = result_of run' demo_start /\
  final run demo_start = final run' demo_start /\
  redact <$> trace run demo_start = redact <$> trace run' demo_start.
Proof.
  apply (Run_hides_claimant_name length_executor Background "acme_insurance" "corr-1" demo_claim
           "John Doe").
  intros c s. reflexivity.
Defined.
