(* ===== verification/Transport.v ===== *)
(** * The gRPC transport between the Go services

    What carries a unary call from a client connection to a server and its
    answer back is not part of the repository: it is the class [Transport], two
    computations of the environment.  It may take any time, refuse a call before
    its handler runs, and lose the answer of a handler that ran; with
    [context.WithTimeout] the client gives up at its deadline.  Around it, [rpc]
    composes what the repository does install: the client interceptor of the
    connection and the server interceptor of the server. *)

From S2P Require Import Prelude Float64 GoStrings Messages Effects Telemetry.

(** ** The transport *)

Class Transport (E : Type) := {
  (** Connecting and carrying the request of a method: the end of the server's
      context for the call, if it has one, when the handler is to run, and
      otherwise the error of the call. *)
  net_request : string -> Ctx -> M E (result (option (Z * CtxErr)));
  (** Carrying the answer of the handler: [None] when it arrives, and otherwise
      the error of the call. *)
  net_reply : string -> Ctx -> M E (option GoErr);
  (** The status that the client receives for an error of the handler. *)
  net_status : GoErr -> GoErr }.

(** The transport calls nothing and logs nothing by itself. *)
Class SilentTransport {E} (tr : Transport E) : Prop := {
  request_silent m c s : trace (net_request m c) s = [];
  reply_silent m c s : trace (net_reply m c) s = [] }.

(** Documented behaviour of contexts: a call ends when its context does, whether
    or not its handler has ended (the clock then shows the instant at which the
    client gave up), and a request is only delivered before that.  A deadline
    travels with the request: the server is given no more time than the client
    had left.  (A cancellation travels by itself; nothing is assumed of when it
    arrives.) *)
Class TransportLaws {E} (tr : Transport E) : Prop := {
  request_timely m c s : now s <= now (final (net_request m c) s);
  request_honours m c : honours c (net_request m c);
  request_before m c s t e d :
    ctx_done c = Some (t, e) -> result_of (net_request m c) s = Ok d -> now (final (net_request m c) s) <= t;
  request_deadline m c s t d :
    ctx_done c = Some (t, DeadlineExceeded) -> result_of (net_request m c) s = Ok d ->
    exists t' e', d = Some (t', e') /\ t' <= now (final (net_request m c) s) + (t - now s);
  reply_timely m c s :
    match ctx_done c with
    | Some (t, _) => Z.min (now s) t <= now (final (net_reply m c) s) <= t
    | None => now s <= now (final (net_reply m c) s)
    end }.

(** ** A call between two services *)
Section Rpc.
Context `{GrpcMetadata} {E : Type} {tr : Transport E} {Req Resp : Type}.

(** The server's context of a call: its own end, and no value. *)
Definition server_side (ends : option (Z * CtxErr)) : Ctx := mkCtx ∅ ends.

(** What the client receives: the answer, unless it was lost. *)
Definition received (lost : option GoErr) (r : result Resp) : result Resp :=
  match lost, r with
  | Some err, _ => Err err
  | None, Err err => Err (net_status err)
  | None, Ok resp => Ok resp
  end.

(** A unary call over a connection with the client interceptor to a server with
    the server interceptor. *)
Definition rpc (client_name server_name method : string)
    (handler : Ctx -> Req -> M E (result Resp)) (ctx : Ctx) (req : Req) : M E (result Resp) :=
  UnaryClientInterceptor (Some (NewLogger client_name)) ctx md_empty method req
    (λ ctx out req,
       sent ← net_request method ctx;
       match sent with
       | Err err => mret (Err err)
       | Ok ends =>
           r ← UnaryServerInterceptor (Some (NewLogger server_name)) (server_side ends)
                 (Some (md_wire out)) req method handler;
           lost ← net_reply method ctx;
           mret (received lost r)
       end).

Lemma fresh_server_side ends : fresh_ctx (server_side ends).
Proof. done. Qed.
End Rpc.

(** The server's handling of a call delivered with the given end. *)
Definition handling `{GrpcMetadata} {E Req Resp : Type} (handler : Ctx -> Req -> M E (result Resp))
    (ctx : Ctx) (ends : option (Z * CtxErr)) (req : Req) : M E (result Resp) :=
  handler (delivered_ctx ctx (server_side ends)) req.

Section RpcFacts.
Context `{GrpcMetadata} {E : Type} {tr : Transport E} {Req Resp : Type}.
Context (client_name server_name method : string) (handler : Ctx -> Req -> M E (result Resp))
  (ctx : Ctx) (req : Req).
Let m := rpc client_name server_name method handler ctx req.
Let request := net_request method ctx.
Let reply := net_reply method ctx.

(** A call that is not delivered runs no handler. *)
Lemma rpc_undelivered s err :
  result_of request s = Err err -> result_of m s = Err err /\ final m s = final request s.
Proof.
  intros Hs. unfold m, rpc.
  match goal with |- context [UnaryClientInterceptor ?l ?c ?o ?n ?r ?inv] =>
    destruct (client_interceptor_outcome l c o n r inv s) as [-> ->] end.
  cbv zeta beta. run. fold request. by rewrite Hs.
Qed.

(** A call that is delivered runs it once. *)
Lemma rpc_delivered s ends :
  result_of request s = Ok ends ->
  let run := handling handler ctx ends req in
  let s1 := final request s in
  result_of m s = received (result_of reply (final run s1)) (result_of run s1) /\
  final m s = final reply (final run s1).
Proof.
  intros Hs. cbv zeta. unfold m, rpc.
  match goal with |- context [UnaryClientInterceptor ?l ?c ?o ?n ?r ?inv] =>
    destruct (client_interceptor_outcome l c o n r inv s) as [-> ->] end.
  cbv zeta beta. run. fold request. rewrite Hs. run.
  match goal with |- context [UnaryServerInterceptor ?l ?c ?md ?r ?n ?h] =>
    destruct (server_interceptor_outcome l c md r n h (final request s)) as [-> ->] end.
  by split.
Qed.

(** Its calls are those of the handler. *)
Lemma rpc_calls `{!SilentTransport tr} s :
  calls_of (trace m s) =
    match result_of request s with
    | Err _ => []
    | Ok ends => calls_of (trace (handling handler ctx ends req) (final request s))
    end.
Proof.
  unfold m, rpc, UnaryClientInterceptor, UnaryServerInterceptor. cbv zeta. run. rewrite !calls_of_app.
  fold request. unfold request at 1. rewrite request_silent.
  destruct (result_of request s) as [ends|err]; run; [|done].
  rewrite !calls_of_app, reply_silent. fold (delivered_ctx ctx (server_side ends)).
  fold (handling handler ctx ends req).
  repeat case_match; run; run_calls; by rewrite ?app_nil_r.
Qed.

(** When a call succeeds, it was delivered, the handler succeeded with that
    answer, and the answer arrived. *)
Lemma rpc_ok s resp :
  result_of m s = Ok resp ->
  exists ends, result_of request s = Ok ends /\
    let run := handling handler ctx ends req in
    let s1 := final request s in
    result_of run s1 = Ok resp /\ result_of reply (final run s1) = None /\
    final m s = final reply (final run s1).
Proof.
  intros Hok. destruct (result_of request s) as [ends|err] eqn:Hs.
  - exists ends. split; [done|]. cbv zeta. destruct (rpc_delivered s ends Hs) as [Hr Hf].
    rewrite Hr in Hok. unfold received in Hok.
    destruct (result_of reply _) as [lost|] eqn:Hl; [done|].
    destruct (result_of (handling handler ctx ends req) _) eqn:Hh; [|done]. split_and!; congruence.
  - destruct (rpc_undelivered s err Hs) as [Hr _]. congruence.
Qed.

(** A call ends by the deadline of its context, and takes time. *)
Lemma rpc_time `{!TransportLaws tr} :
  (forall ends, timely (handling handler ctx ends req)) -> timely m /\ honours ctx m.
Proof.
  intros Hh.
  assert (Hcase : forall s, now s <= now (final m s) /\
            forall t e, ctx_done ctx = Some (t, e) -> now (final m s) <= Z.max (now s) t).
  { intros s. pose proof (request_timely method ctx s) as Ht. fold request in Ht.
    destruct (result_of request s) as [ends|err] eqn:Hs.
    - destruct (rpc_delivered s ends Hs) as [_ ->]. pose proof (Hh ends (final request s)) as Hrun.
      pose proof (reply_timely method ctx (final (handling handler ctx ends req) (final request s))) as Hr.
      fold reply in Hr. destruct (ctx_done ctx) as [[t e]|] eqn:Hd; [|by split; [lia|]].
      pose proof (request_before method ctx s t e ends Hd Hs) as Hle. fold request in Hle.
      split; [lia|]. intros t' e' [= <- <-]. lia.
    - destruct (rpc_undelivered s err Hs) as [_ ->]. split; [done|]. intros t e Hd.
      by apply (request_honours method ctx s t e). }
  split; [intros s|intros s t e]; by apply Hcase.
Qed.
End RpcFacts.

(** ** A transport that works *)

(** Each way takes at most [d], when that much is left; and the server has the
    time that is left to the client. *)
Class PromptTransport {E} (tr : Transport E) (d : Z) : Prop := {
  request_prompt m : prompt d (net_request m);
  request_leaves m c s x ends :
    result_of (net_request m c) s = Ok ends -> room x c s ->
    room (x - (now (final (net_request m c) s) - now s)) (server_side ends) (final (net_request m c) s);
  reply_prompt m c s :
    room d c s ->
    result_of (net_reply m c) s = None /\ now s <= now (final (net_reply m c) s) <= now s + d }.

Section PromptRpc.
Context `{GrpcMetadata} {E : Type} {tr : Transport E} {Req Resp : Type}.
Context (client_name server_name method : string) (handler : Ctx -> Req -> M E (result Resp)).

(** A handler that needs [x] answers within [x] and both ways. *)
Lemma rpc_prompt d x ctx req s :
  PromptTransport tr d -> 0 <= d -> 0 <= x ->
  (forall ends s', result_of (net_request method ctx) s = Ok ends -> s' = final (net_request method ctx) s ->
     room x (server_side ends) s' ->
     is_ok (result_of (handling handler ctx ends req) s') = true /\
     now s' <= now (final (handling handler ctx ends req) s') <= now s' + x) ->
  room (x + 2 * d) ctx s ->
  let m := rpc client_name server_name method handler ctx req in
  is_ok (result_of m s) = true /\ now s <= now (final m s) <= now s + (x + 2 * d).
Proof.
  intros Htr Hd Hx Hh Hroom. cbv zeta.
  destruct (request_prompt method ctx s) as [Hok Ht].
  { eapply room_le; [|exact Hroom]. lia. }
  destruct (result_of (net_request method ctx) s) as [ends|err] eqn:Hs; [|done].
  pose proof (request_leaves method ctx s _ ends Hs Hroom) as Hleft.
  destruct (Hh ends (final (net_request method ctx) s) eq_refl eq_refl) as [Hr Hrun].
  { eapply room_le; [|exact Hleft]. lia. }
  destruct (rpc_delivered client_name server_name method handler ctx req s ends Hs) as [-> ->].
  destruct (reply_prompt method ctx (final (handling handler ctx ends req) (final (net_request method ctx) s)))
    as [-> Hreply].
  { eapply room_le; [|exact Hroom]. lia. }
  split; [|lia]. unfold received. by destruct (result_of (handling handler ctx ends req) _).
Qed.
End PromptRpc.

(** ** A concrete transport *)

(** [d] each way, or until the deadline; the client's remaining time becomes the
    server's. *)
Definition steady_transport {E} (d : Z) : Transport E := {|
  net_request _ c := λ s,
    match ctx_done c with
    | Some (t, e) =>
        if now s + d <=? t
        then (Ok (Some (t + d, e)), mkSt (now s + d) (env s) (coin s), [])
        else (Err (ErrCtx e), mkSt (Z.max (now s) t) (env s) (coin s), [])
    | None => (Ok None, mkSt (now s + d) (env s) (coin s), [])
    end;
  net_reply _ c := λ s,
    match ctx_done c with
    | Some (t, e) =>
        if now s + d <=? t
        then (None, mkSt (now s + d) (env s) (coin s), [])
        else (Some (ErrCtx e), mkSt t (env s) (coin s), [])
    | None => (None, mkSt (now s + d) (env s) (coin s), [])
    end;
  net_status err := err |}.

(** A transport over which one method cannot be reached. *)
Definition without_method {E} (method : string) (tr : Transport E) : Transport E := {|
  net_request m c := if bool_decide (m = method) then mret (Err (ErrStatus 14 "connection refused")) else net_request m c;
  net_reply := net_reply;
  net_status := net_status |}.

Ltac steady :=
  intros; unfold result_of, final, trace, room in *; simpl in *;
  repeat (case_match; simplify_eq/=; rewrite ?Z.leb_le, ?Z.leb_gt in *); try done; try lia.

#[export] Instance steady_silent {E} d : SilentTransport (steady_transport (E := E) d).
Proof. split; steady. Qed.

#[export] Instance steady_laws {E} d : 0 <= d -> TransportLaws (steady_transport (E := E) d).
Proof.
  intros Hd. split.
  - steady.
  - intros m c s t e Hc. steady.
  - intros m c s t e x Hc. steady.
  - intros m c s t x Hc. steady. eexists _, _. split; [done|lia].
  - steady.
Qed.

Lemma steady_prompt {E} d : 0 <= d -> PromptTransport (steady_transport (E := E) d) d.
Proof.
  intros Hd. split.
  - intros m c s Hr. steady; (split; [done|lia]).
  - steady.
  - intros m c s Hr. steady; (split; [done|lia]).
Qed.

(** The transport of the examples: one millisecond each way. *)
Definition demo_transport {E} : Transport E := steady_transport Millisecond.
#[export] Instance demo_transport_silent {E} : SilentTransport (demo_transport (E := E)).
Proof. apply steady_silent. Qed.
#[export] Instance demo_transport_laws {E} : TransportLaws (demo_transport (E := E)).
Proof. by apply steady_laws. Qed.
