(* ===== verification/Servers.v ===== *)
(** * The gRPC servers and clients around the executor

    [model-service/internal/server/model.go],
    [orchestration-service/internal/server/orchestration.go], the client
    wrappers of [orchestration-service/internal/client] and the wiring of
    [cmd/orchestration/main.go].  The generated stubs (package [proto/gen]) are
    parameters: a stub takes the context and the request message and returns
    the response or an error. *)

From S2P Require Import Prelude Float64 GoStrings Messages Payloads Effects Telemetry Scoring DagConfig.
From S2P Require Import Resilience Loader Kafka Executor Pipeline PipelineFacts RunProps RunTiming.

(** ** Request messages *)
Record HashClaimantIdRequest := mkHashReq { hq_correlation_id : string; hq_claimant_name : string }.
Record NormalizeRequest := mkNormReq { nq_correlation_id : string; nq_raw_address : string }.
Record LookupPolicyRequest := mkLookupReq { lq_correlation_id : string; lq_policy_number : string }.
Record ScoreRequest := mkScoreReq { sq_correlation_id : string; sq_features : gmap string string }.
Record GetDagVersionRequest := mkDagVersionReq { dq_tenant_id : string; dq_product : string }.
Record GetDagVersionResponse := mkDagVersionResp { dr_version : Z }.
Record GetTenantRequest := mkGetTenantReq { tq_tenant_id : string }.

(** Getters, nil-safe as the generated ones. *)
Definition GetFeatures (r : option ScoreRequest) : gmap string string := from_option sq_features ∅ r.
Definition GetVersion (r : option GetDagVersionResponse) : Z := from_option dr_version 0 r.
Definition GetTenantId (r : option GetTenantRequest) : string := from_option tq_tenant_id "" r.

(** ** model.go *)
Module ModelServer.
Section Model.
Context {E : Type} (isPrintTable : Z -> bool) (Logger : option Logger).

Definition Score (ctx : Ctx) (req : option ScoreRequest) : M E (result ScoreResponse) :=
  let '(score, explanations) := Scoring.Score isPrintTable (GetFeatures req) in
  _ ← log_Info (FromContext ctx Logger) "scored claim"
        [("score"%string, AFloat score); ("reasons"%string, AStrs explanations)];
  mret (Ok (mkScoreResp score ModelVersion)).
End Model.
End ModelServer.

(** ** orchestration.go *)
Module OrchestrationServer.
Section Orchestration.
Context {E : Type} (executor : Executor E).

Definition ProcessClaim (ctx : Ctx) (req : option ProcessClaimRequest)
    : M E (result ProcessClaimResponse) :=
  let tenantID := TenantIDFrom ctx in
  let correlationID := GetCorrelationId (GetClaim req) in
  let correlationID :=
    if bool_decide (correlationID = "") then CorrelationIDFrom ctx else correlationID in
  r ← Run executor ctx tenantID correlationID (GetClaim req);
  match r with
  | Err err => mret (Err err)
  | Ok result =>
      mret (Ok (mkProcessClaimResponse (GetClaimId (GetClaim req)) correlationID
                  (r_Status result) (r_NormalizedAddress result) (r_FraudScore result)
                  (r_ModelVersion result)))
  end.
End Orchestration.
End OrchestrationServer.

(** ** The client wrappers *)
Section Clients.
Context {E : Type}.
Definition Stub (Req Resp : Type) : Type := Ctx -> option Req -> M E (result (option Resp)).

Definition AddressNorm_Normalize (rpc : Stub NormalizeRequest NormalizeResponse)
    (ctx : Ctx) (correlationID rawAddress : string) : M E (result (option NormalizeResponse)) :=
  rpc ctx (Some (mkNormReq correlationID rawAddress)).

Definition ClaimantIDHash_Hash (rpc : Stub HashClaimantIdRequest HashClaimantIdResponse)
    (ctx : Ctx) (correlationID claimantName : string) : M E (result (option HashClaimantIdResponse)) :=
  rpc ctx (Some (mkHashReq correlationID claimantName)).

Definition PolicyLookup_Lookup (rpc : Stub LookupPolicyRequest LookupPolicyResponse)
    (ctx : Ctx) (correlationID policyNumber : string) : M E (result (option LookupPolicyResponse)) :=
  rpc ctx (Some (mkLookupReq correlationID policyNumber)).

Definition Model_Score (rpc : Stub ScoreRequest ScoreResponse)
    (ctx : Ctx) (correlationID : string) (features : gmap string string)
    : M E (result (option ScoreResponse)) :=
  rpc ctx (Some (mkScoreReq correlationID features)).

Definition TenantConfig_GetDagVersion (rpc : Stub GetDagVersionRequest GetDagVersionResponse)
    (ctx : Ctx) (tenantID product : string) : M E (result Z) :=
  resp ← rpc ctx (Some (mkDagVersionReq tenantID product));
  match resp with
  | Err err => mret (Err err)
  | Ok resp => mret (Ok (GetVersion resp))
  end.

(** The gateway's two clients. *)
Definition TenantConfig_GetTenant
    (rpc : Ctx -> option GetTenantRequest -> M E (result TenantContext))
    (ctx : Ctx) (tenantID : string) : M E (result TenantContext) :=
  rpc ctx (Some (mkGetTenantReq tenantID)).

Definition Orchestration_ProcessClaim
    (rpc : Ctx -> option ProcessClaimRequest -> M E (result ProcessClaimResponse))
    (ctx : Ctx) (req : option ProcessClaimRequest) : M E (result ProcessClaimResponse) :=
  rpc ctx req.
End Clients.

(** ** cmd/orchestration/main.go: the executor of the service *)
Record Stubs (E : Type) := mkStubs {
  st_norm : Ctx -> option NormalizeRequest -> M E (result (option NormalizeResponse));
  st_hash : Ctx -> option HashClaimantIdRequest -> M E (result (option HashClaimantIdResponse));
  st_lookup : Ctx -> option LookupPolicyRequest -> M E (result (option LookupPolicyResponse));
  st_model : Ctx -> option ScoreRequest -> M E (result (option ScoreResponse));
  st_version : Ctx -> option GetDagVersionRequest -> M E (result (option GetDagVersionResponse)) }.
Arguments st_norm {_} _.
Arguments st_hash {_} _.
Arguments st_lookup {_} _.
Arguments st_model {_} _.
Arguments st_version {_} _.

Section Wiring.
Context {E : Type} (stubs : Stubs E).
Variable ReadFile : string -> M E (result string).
Variable Unmarshal : string -> result Config.
Variable WriteMessages : Ctx -> Message -> M E (result unit).
Variable dagConfigDir : string.

Definition orchestration_executor : Executor E :=
  let logger := NewLogger "orchestration-service" in
  mkExecutor E
    (Load (TenantConfig_GetDagVersion (st_version stubs)) ReadFile Unmarshal dagConfigDir (Some logger))
    (AddressNorm_Normalize (st_norm stubs))
    (ClaimantIDHash_Hash (st_hash stubs))
    (PolicyLookup_Lookup (st_lookup stubs))
    (Model_Score (st_model stubs))
    (Publish WriteMessages)
    (Some logger).

(** Stubs and a Kafka writer that make no traced call of their own, and
    that honour their context, give clients that do. *)
Class QuietStubs : Prop := {
  quiet_stubs_norm c r s : calls_of (trace (st_norm stubs c r) s) = [];
  quiet_stubs_hash c r s : calls_of (trace (st_hash stubs c r) s) = [];
  quiet_stubs_lookup c r s : calls_of (trace (st_lookup stubs c r) s) = [];
  quiet_stubs_model c r s : calls_of (trace (st_model stubs c r) s) = [];
  quiet_writer c m s : calls_of (trace (WriteMessages c m) s) = [] }.

Class TimelyStubs : Prop := {
  timely_stubs_norm c r : timely (st_norm stubs c r) /\ honours c (st_norm stubs c r);
  timely_stubs_hash c r : timely (st_hash stubs c r) /\ honours c (st_hash stubs c r);
  timely_stubs_lookup c r : timely (st_lookup stubs c r) /\ honours c (st_lookup stubs c r);
  timely_stubs_model c r : timely (st_model stubs c r) /\ honours c (st_model stubs c r);
  timely_writer c m : timely (WriteMessages c m) /\ honours c (WriteMessages c m) }.

(** [Publish] takes the time of the write, and makes its calls. *)
Lemma Publish_time c ev :
  (forall m, timely (WriteMessages c m) /\ honours c (WriteMessages c m)) ->
  timely (Publish WriteMessages c ev) /\ honours c (Publish WriteMessages c ev).
Proof.
  intros Hw. unfold Publish. destruct (Marshal ev) as [v|err].
  - destruct (Hw (mkMessage (bytes_of (ev_TenantID ev)) v)) as [Ht Hh]. split.
    + intros s. run. specialize (Ht s). by case_match.
    + intros s t e Hd. run. specialize (Hh s t e Hd). by case_match.
  - split; [apply timely_ret|]. intros s t e _. rewrite final_ret. lia.
Qed.

#[export] Instance orchestration_quiet `{!QuietStubs} : QuietClients orchestration_executor.
Proof.
  split; intros; simpl;
    [apply quiet_stubs_hash|apply quiet_stubs_norm|apply quiet_stubs_lookup|apply quiet_stubs_model|].
  unfold Publish. destruct (Marshal ev) as [v|err]; [|done].
  run. rewrite calls_of_app, quiet_writer. by case_match.
Qed.

#[export] Instance orchestration_timely `{!TimelyStubs} : TimelyClients orchestration_executor.
Proof.
  split; intros; simpl;
    [apply timely_stubs_hash|apply timely_stubs_norm|apply timely_stubs_lookup|apply timely_stubs_model
    |apply Publish_time; intros; apply timely_writer].
Qed.
End Wiring.

(** ** What the model is told *)

(** The risk, in cents, of an enrichment outcome. *)
Definition enrichment_cents (st : Enrichment) : Z :=
  5 + (if bool_decide (e_policyStatus st = "active"%string) then 0
       else if bool_decide (e_policyStatus st = "lapsed"%string) then 15
       else if bool_decide (e_policyStatus st = "cancelled"%string) then 25 else 30)
    + (if bool_decide (e_policyCoverageType st = ""%string) then 5 else 0)
    + (if e_addressValid st then 0 else 10).

Lemma features_lookup tenantID claim st :
  feature (features_of tenantID claim st) "policy_status" = e_policyStatus st /\
  feature (features_of tenantID claim st) "policy_coverage_type" = e_policyCoverageType st /\
  feature (features_of tenantID claim st) "address_valid" = FormatBool (e_addressValid st).
Proof. done. Qed.

(** The orchestration server runs the DAG for the tenant of its context, under
    the correlation id of the claim or, when that is empty, of the context; a
    run's error is returned as it is, and its result is returned with the
    claim's id and that correlation id. *)
Lemma ProcessClaim_run {E} (executor : Executor E) ctx req s :
  let correlationID :=
    if bool_decide (GetCorrelationId (GetClaim req) = "") then CorrelationIDFrom ctx
    else GetCorrelationId (GetClaim req) in
  let run := Run executor ctx (TenantIDFrom ctx) correlationID (GetClaim req) in
  let m := OrchestrationServer.ProcessClaim executor ctx req in
  result_of m s =
    match result_of run s with
    | Ok r => Ok (mkProcessClaimResponse (GetClaimId (GetClaim req)) correlationID
                    (r_Status r) (r_NormalizedAddress r) (r_FraudScore r) (r_ModelVersion r))
    | Err err => Err err
    end /\
  final m s = final run s /\ trace m s = trace run s.
Proof.
  cbv zeta. unfold OrchestrationServer.ProcessClaim. run.
  destruct (result_of (Run _ _ _ _ _) s); run; by rewrite ?app_nil_r.
Qed.

(** The model service answers every request, a nil one included: with the
    score of the request's features and the model version [rules-v1]; it makes
    no call, takes no time, changes no state, and logs one line. *)
Lemma ModelServer_Score_total {E} isPrintTable logger ctx req (s : St E) :
  let m := ModelServer.Score isPrintTable logger ctx req in
  result_of m s = Ok (mkScoreResp (Scoring.Score isPrintTable (GetFeatures req)).1 "rules-v1") /\
  final m s = s /\ calls_of (trace m s) = [] /\ length (trace m s) = 1%nat.
Proof.
  unfold ModelServer.Score. destruct (Scoring.Score _ _) as [score reasons]. by split_and!.
Qed.

(** The model sees exactly the enrichment: the score of the features the
    executor builds is the [float64] nearest to five cents plus the surcharges
    of the policy status, of an unknown coverage and of an unverified address,
    as the enrichment left them (the validity flag survives its passage as
    text); nothing else of the claim or of the tenant counts.  In particular an
    enrichment of which nothing succeeded scores 0.50. *)
Lemma enrichment_score isPrintTable tenantID claim st :
  (Scoring.Score isPrintTable (features_of tenantID claim st)).1 = f64_lit (enrichment_cents st) 100.
Proof.
  rewrite Score_spec. simpl. f_equal.
  destruct (features_lookup tenantID claim st) as (Hs & Hc & Ha).
  destruct (risk_cents_cases isPrintTable (features_of tenantID claim st))
    as (s & c & a & -> & -> & -> & ->).
  unfold enrichment_cents, status_rule, coverage_rule, address_rule.
  rewrite Hs, Hc, Ha, ParseBool_FormatBool. f_equal; [f_equal; [f_equal|]|].
  - by repeat case_bool_decide.
  - by case_bool_decide.
  - simpl. by destruct (e_addressValid st).
Qed.

Lemma enrichment_cents_range st : 5 <= enrichment_cents st <= 50.
Proof. unfold enrichment_cents. repeat case_bool_decide; destruct (e_addressValid st); lia. Qed.

(** ** Properties *)

(** A claim is processed in bounded time by the service as it is wired:
    when the stubs and the broker honour their deadlines, [ProcessClaim] ends,
    once the configuration is loaded, within the sum of the node budgets, and
    by the deadline the gateway set. *)
Theorem ProcessClaim_duration {E} (stubs : Stubs E) ReadFile Unmarshal WriteMessages dir
    ctx req cfg s :
  TimelyStubs stubs WriteMessages -> config_ranges cfg ->
  let executor := orchestration_executor stubs ReadFile Unmarshal WriteMessages dir in
  let correlationID :=
    if bool_decide (GetCorrelationId (GetClaim req) = "") then CorrelationIDFrom ctx
    else GetCorrelationId (GetClaim req) in
  let load := run_load executor ctx (TenantIDFrom ctx) correlationID (GetClaim req) in
  result_of load s = Ok cfg ->
  let loaded := now (final load s) in
  let ended := now (final (OrchestrationServer.ProcessClaim executor ctx req) s) in
  loaded <= ended <= loaded + sum_over (call_budget cfg) (c_Nodes cfg) /\
  (forall t err, ctx_done ctx = Some (t, err) -> ended <= Z.max loaded t).
Proof.
  intros ? Hranges. cbv zeta. intros Hload.
  destruct (ProcessClaim_run (orchestration_executor stubs ReadFile Unmarshal WriteMessages dir)
              ctx req s) as (_ & -> & _).
  apply Run_bounded; [by apply orchestration_timely|done|done].
Qed.

(** Stubs whose services answer after 30 ms, and the files of the shipped
    configuration. *)
Definition demo_stubs : Stubs unit :=
  let d := 30 * Millisecond in
  mkStubs unit
    (λ c _, answer d [] svcNormalize (Some (mkNormResp "1 MAIN ST" "" "" "" "" "" true)) c)
    (λ c _, answer d [] svcHash (Some (mkHashResp "5f2c")) c)
    (λ c _, answer d [] svcLookup (Some (mkLookupResp true "active" "standard")) c)
    (λ c _, answer d [] svcModel (Some demo_score) c)
    (λ c _, answer d [] "tenant-config-svc" (Some (mkDagVersionResp 4)) c).

Definition demo_orchestration : Executor unit :=
  orchestration_executor demo_stubs (λ _, mret (Ok "file"%string)) (λ _, Ok claim_fnol_config)
    (λ c _, answer (30 * Millisecond) [] svcPublish tt c) "../../config/dag".

Definition demo_request_ctx : Ctx :=
  mkCtx {[correlationIDKey := "corr-1"; tenantIDKey := "acme_insurance"]}%string
    (Some (5 * Second, DeadlineExceeded)).

Lemma ProcessClaim_duration_witness :
  let loaded := now (final (run_load demo_orchestration demo_request_ctx "acme_insurance" "corr-1"
                              (Some demo_claim)) demo_start) in
  let ended := now (final (OrchestrationServer.ProcessClaim demo_orchestration demo_request_ctx
                             (Some (mkProcessReq (Some demo_claim)))) demo_start) in
  loaded <= ended <= loaded + sum_over (call_budget claim_fnol_config) (c_Nodes claim_fnol_config) /\
  (forall t err, Some (5 * Second, DeadlineExceeded) = Some (t, err) -> ended <= Z.max loaded t).
Proof.
  apply (ProcessClaim_duration demo_stubs (λ _, mret (Ok "file"%string)) (λ _, Ok claim_fnol_config)
           (λ c _, answer (30 * Millisecond) [] svcPublish tt c) "../../config/dag"
           demo_request_ctx (Some (mkProcessReq (Some demo_claim))) claim_fnol_config demo_start).
  - split; intros; apply answer_timely.
  - apply claim_fnol_ranges.
  - vm_compute. reflexivity.
Defined.
