(* ===== verification/JavaGrpc.v ===== *)
(** * The gRPC adapters of the Java services, and their server's life

    [AddressNormalizationGrpcService], [ClaimantIdHashingGrpcService] and
    [PolicyLookupGrpcService]: a handler puts the correlation id in the thread's
    MDC, logs, answers through the response observer, logs, and removes the id
    in a [finally] block.  The observer belongs to gRPC and may throw (a
    cancelled call does); what a handler did is a trace of log lines, each with
    the MDC of its moment, and of observer calls.  [GrpcServerLifecycle] is a
    state machine. *)

From S2P Require Import Prelude Float64 GoStrings Utf8 JavaStrings Sha256 JavaServices Messages.
From S2P Require Import Servers.

(** ** Computations of a thread *)

Inductive Throwable := StatusRuntimeException (code : Z) | IllegalStateException (msg : string).

Inductive JEvent (Resp : Type) :=
  | JLog (mdc : gmap string jstring) (msg : string) (args : list jstring)
  | JNext (resp : Resp)
  | JCompleted.
Arguments JLog {_} _ _ _.
Arguments JNext {_} _.
Arguments JCompleted {_}.

(** The MDC of the thread, threaded through; an exception ends the
    computation. *)
Definition J (Resp A : Type) : Type :=
  gmap string jstring -> (A + Throwable) * gmap string jstring * list (JEvent Resp).

#[export] Instance J_ret Resp : MRet (J Resp) := λ A a mdc, (inl a, mdc, []).
#[export] Instance J_bind Resp : MBind (J Resp) := λ A B f m mdc,
  let '(r, mdc1, t1) := m mdc in
  match r with
  | inr e => (inr e, mdc1, t1)
  | inl a => let '(r2, mdc2, t2) := f a mdc1 in (r2, mdc2, t1 ++ t2)
  end.

(** [try { m } finally { f }]: [f] runs in any case, and its exception wins. *)
Definition try_finally {Resp A} (m : J Resp A) (f : J Resp unit) : J Resp A := λ mdc,
  let '(r, mdc1, t1) := m mdc in
  let '(r2, mdc2, t2) := f mdc1 in
  (match r2 with inr e => inr e | inl _ => r end, mdc2, t1 ++ t2).

Definition MDC_put {Resp} (key : string) (v : jstring) : J Resp unit := λ mdc, (inl tt, <[key := v]> mdc, []).
Definition MDC_remove {Resp} (key : string) : J Resp unit := λ mdc, (inl tt, delete key mdc, []).
Definition log_info {Resp} (msg : string) (args : list jstring) : J Resp unit := λ mdc,
  (inl tt, mdc, [JLog mdc msg args]).

(** An [io.grpc.stub.StreamObserver]: what each call throws, if it does. *)
Record StreamObserver (Resp : Type) := mkObserver {
  onNext_throws : Resp -> option Throwable;
  onCompleted_throws : option Throwable }.
Arguments onNext_throws {_} _ _.
Arguments onCompleted_throws {_} _.

Definition onNext {Resp} (obs : StreamObserver Resp) (r : Resp) : J Resp unit := λ mdc,
  match onNext_throws obs r with
  | Some e => (inr e, mdc, [])
  | None => (inl tt, mdc, [JNext r])
  end.
Definition onCompleted {Resp} (obs : StreamObserver Resp) : J Resp unit := λ mdc,
  match onCompleted_throws obs with
  | Some e => (inr e, mdc, [])
  | None => (inl tt, mdc, [JCompleted])
  end.

Definition bool_text (b : bool) : jstring := lit (FormatBool b).

(** ** The handlers *)
Section Handlers.
Context `{CaseTables}.

Definition hashClaimantId (request : HashClaimantIdRequest)
    (responseObserver : StreamObserver HashClaimantIdResponse) : J HashClaimantIdResponse unit :=
  _ ← MDC_put "correlation_id" (java_of (hq_correlation_id request));
  try_finally
    (_ ← log_info "hashClaimantId request received" [];
     let hash := ClaimantIdHasher.hash (Some (java_of (hq_claimant_name request))) in
     _ ← onNext responseObserver (mkHashResp (go_of hash));
     _ ← onCompleted responseObserver;
     log_info "hashClaimantId request completed" [])
    (MDC_remove "correlation_id").

Definition normalize_response (result : AddressNormalizer.Normalized) : NormalizeResponse :=
  mkNormResp (go_of (AddressNormalizer.normalizedAddress result))
    (go_of (AddressNormalizer.line1 result)) (go_of (AddressNormalizer.city result))
    (go_of (AddressNormalizer.state result)) (go_of (AddressNormalizer.postalCode result))
    (go_of (AddressNormalizer.country result)) (AddressNormalizer.valid result).

Definition normalize (request : NormalizeRequest)
    (responseObserver : StreamObserver NormalizeResponse) : J NormalizeResponse unit :=
  _ ← MDC_put "correlation_id" (java_of (nq_correlation_id request));
  try_finally
    (_ ← log_info "normalize request received" [];
     let result := AddressNormalizer.normalize (Some (java_of (nq_raw_address request))) in
     _ ← onNext responseObserver (normalize_response result);
     _ ← onCompleted responseObserver;
     log_info "normalize request completed, valid={}" [bool_text (AddressNormalizer.valid result)])
    (MDC_remove "correlation_id").

Definition lookup_response (result : PolicyLookup.Result) : LookupPolicyResponse :=
  mkLookupResp (PolicyLookup.found result) (go_of (PolicyLookup.status result))
    (go_of (PolicyLookup.coverageType result)).

Definition lookupPolicy (request : LookupPolicyRequest)
    (responseObserver : StreamObserver LookupPolicyResponse) : J LookupPolicyResponse unit :=
  _ ← MDC_put "correlation_id" (java_of (lq_correlation_id request));
  try_finally
    (_ ← log_info "lookupPolicy request received" [];
     let result := PolicyLookup.lookup (Some (java_of (lq_policy_number request))) in
     _ ← onNext responseObserver (lookup_response result);
     _ ← onCompleted responseObserver;
     log_info "lookupPolicy request completed, found={}, status={}"
       [bool_text (PolicyLookup.found result); PolicyLookup.status result])
    (MDC_remove "correlation_id").
End Handlers.

(** ** What the client is answered *)

(** What gRPC makes of a handler that ran: a parameter, with the one thing the
    services rely on.  A unary call whose observer was given one message and
    completed is answered with that message. *)
Definition observed {Resp} (t : list (JEvent Resp)) : list (JEvent Resp) :=
  List.filter (λ ev, match ev with JLog _ _ _ => false | _ => true end) t.

Class JavaServer :=
  client_answer : forall Resp : Type, (unit + Throwable) * gmap string jstring * list (JEvent Resp) -> result Resp.
Arguments client_answer {_} {_} _.
Class JavaServerLaws (R : JavaServer) : Prop :=
  answer_completed : forall (Resp : Type) out (r : Resp),
    observed out.2 = [JNext r; JCompleted] -> client_answer out = Ok r.

(** An instance: anything else is the status [UNKNOWN]. *)
Definition plain_server : JavaServer := λ Resp out,
  match observed out.2 with [JNext r; JCompleted] => Ok r | _ => Err (ErrStatus 2 "") end.
#[export] Instance plain_server_laws : JavaServerLaws plain_server.
Proof. intros Resp out r Ho. unfold client_answer, plain_server. by rewrite Ho. Qed.

(** The observer of a call that is not cancelled. *)
Definition open_call {Resp} : StreamObserver Resp := mkObserver Resp (λ _, None) None.

(** ** Lemmas *)

(** The shape the three handlers share. *)
Definition adapter {Resp} (id : jstring) (received : string) (resp : Resp) (completed : string)
    (args : list jstring) (obs : StreamObserver Resp) : J Resp unit :=
  _ ← MDC_put "correlation_id" id;
  try_finally
    (_ ← log_info received []; _ ← onNext obs resp; _ ← onCompleted obs; log_info completed args)
    (MDC_remove "correlation_id").

(** Its outcomes. *)
Lemma adapter_run {Resp} id received (resp : Resp) completed args obs mdc :
  let mdc1 := <["correlation_id"%string := id]> mdc in
  adapter id received resp completed args obs mdc =
    match onNext_throws obs resp, onCompleted_throws obs with
    | Some e, _ => (inr e, delete "correlation_id"%string mdc, [JLog mdc1 received []])
    | None, Some e => (inr e, delete "correlation_id"%string mdc, [JLog mdc1 received []; JNext resp])
    | None, None =>
        (inl tt, delete "correlation_id"%string mdc,
         [JLog mdc1 received []; JNext resp; JCompleted; JLog mdc1 completed args])
    end.
Proof.
  cbv zeta. unfold adapter, try_finally, onNext, onCompleted, mbind, J_bind, MDC_put, log_info, MDC_remove.
  destruct (onNext_throws obs resp), (onCompleted_throws obs); simpl; by rewrite delete_insert_eq.
Qed.

(** The log lines of a trace, and what they say. *)
Definition log_line {Resp} (ev : JEvent Resp) : option (option jstring * string * list jstring) :=
  match ev with JLog mdc msg args => Some (mdc !! "correlation_id"%string, msg, args) | _ => None end.

Section Facts.
Context `{CaseTables}.

Lemma hashClaimantId_adapter r obs :
  hashClaimantId r obs =
    adapter (java_of (hq_correlation_id r)) "hashClaimantId request received"
      (mkHashResp (go_of (ClaimantIdHasher.hash (Some (java_of (hq_claimant_name r))))))
      "hashClaimantId request completed" [] obs.
Proof. done. Qed.
Lemma normalize_adapter r obs :
  normalize r obs =
    adapter (java_of (nq_correlation_id r)) "normalize request received"
      (normalize_response (AddressNormalizer.normalize (Some (java_of (nq_raw_address r)))))
      "normalize request completed, valid={}"
      [bool_text (AddressNormalizer.valid (AddressNormalizer.normalize (Some (java_of (nq_raw_address r)))))] obs.
Proof. done. Qed.
Lemma lookupPolicy_adapter r obs :
  lookupPolicy r obs =
    adapter (java_of (lq_correlation_id r)) "lookupPolicy request received"
      (lookup_response (PolicyLookup.lookup (Some (java_of (lq_policy_number r)))))
      "lookupPolicy request completed, found={}, status={}"
      [bool_text (PolicyLookup.found (PolicyLookup.lookup (Some (java_of (lq_policy_number r)))));
       PolicyLookup.status (PolicyLookup.lookup (Some (java_of (lq_policy_number r))))] obs.
Proof. done. Qed.

(** An open call is answered with the response. *)
Lemma adapter_answer `{JavaServerLaws} {Resp} id received (resp : Resp) completed args mdc :
  client_answer (adapter id received resp completed args open_call mdc) = Ok resp.
Proof. apply answer_completed. by rewrite adapter_run. Qed.

(** What the three handlers promise of their thread and of their log. *)
Definition tidy {Resp} (id : jstring) (out : (unit + Throwable) * gmap string jstring * list (JEvent Resp))
    (mdc : gmap string jstring) (lines : list (string * list jstring)) : Prop :=
  out.1.2 = delete "correlation_id"%string mdc /\
  exists k, omap log_line out.2 = (λ l, (Some id, l.1, l.2)) <$> take k lines.

Lemma adapter_tidy {Resp} id received (resp : Resp) completed args obs mdc :
  tidy id (adapter id received resp completed args obs mdc) mdc [(received, []); (completed, args)].
Proof.
  unfold tidy. rewrite adapter_run.
  destruct (onNext_throws obs resp), (onCompleted_throws obs); (split; [done|]);
    [exists 1%nat..|exists 2%nat]; simpl; by rewrite lookup_insert_eq.
Qed.

(** Whatever the observer throws, the three handlers leave the thread's MDC
    without a correlation id and otherwise as it was, so that no later request
    logs under this one; every line they log carries the correlation id of
    their request; and what they log is fixed text, the validity of an address,
    and whether a policy was found with its status, never a name, an address or
    a policy number. *)
Theorem handlers_tidy hr nr lr hobs nobs lobs mdc :
  let address := AddressNormalizer.normalize (Some (java_of (nq_raw_address nr))) in
  let policy := PolicyLookup.lookup (Some (java_of (lq_policy_number lr))) in
  tidy (java_of (hq_correlation_id hr)) (hashClaimantId hr hobs mdc) mdc
    [("hashClaimantId request received"%string, []); ("hashClaimantId request completed"%string, [])] /\
  tidy (java_of (nq_correlation_id nr)) (normalize nr nobs mdc) mdc
    [("normalize request received"%string, []);
     ("normalize request completed, valid={}"%string, [bool_text (AddressNormalizer.valid address)])] /\
  tidy (java_of (lq_correlation_id lr)) (lookupPolicy lr lobs mdc) mdc
    [("lookupPolicy request received"%string, []);
     ("lookupPolicy request completed, found={}, status={}"%string,
      [bool_text (PolicyLookup.found policy); PolicyLookup.status policy])].
Proof.
  cbv zeta. rewrite hashClaimantId_adapter, normalize_adapter, lookupPolicy_adapter.
  split_and!; apply adapter_tidy.
Qed.
End Facts.
