(* ===== verification/JavaThreads.v ===== *)
(** * The threads of the Java services

    gRPC runs the handlers of a Java service on the threads of a pool.  A
    thread runs one handler at a time, and its MDC outlives the call; the log
    of the process interleaves the lines of its threads in any order.  The
    pool is a labelled transition system; a handler touches nothing shared but
    its own thread's MDC, so what it logs is fixed when it starts and its lines
    come out one at a time. *)

From S2P Require Import Prelude GoStrings JavaStrings JavaServices Messages Servers JavaGrpc.

(** ** Calls *)

(** A call of one of the three services, with the observer gRPC made for it. *)
Inductive JavaCall :=
  | HashCall (r : HashClaimantIdRequest) (obs : StreamObserver HashClaimantIdResponse)
  | NormalizeCall (r : NormalizeRequest) (obs : StreamObserver NormalizeResponse)
  | LookupCall (r : LookupPolicyRequest) (obs : StreamObserver LookupPolicyResponse).

(** A line: the correlation id in the MDC of its moment, if any, the message
    and its arguments. *)
Definition line : Type := option jstring * string * list jstring.

Section Threads.
Context `{CaseTables}.

(** What running a handler leaves: the thread's MDC and the lines. *)
Definition left_by {Resp} (out : (unit + Throwable) * gmap string jstring * list (JEvent Resp))
    : gmap string jstring * list line := (out.1.2, omap log_line out.2).

Definition serve (q : JavaCall) (mdc : gmap string jstring) : gmap string jstring * list line :=
  match q with
  | HashCall r obs => left_by (hashClaimantId r obs mdc)
  | NormalizeCall r obs => left_by (normalize r obs mdc)
  | LookupCall r obs => left_by (lookupPolicy r obs mdc)
  end.

(** ** The pool *)
Record Pool := mkPool { mdcs : gmap nat (gmap string jstring); pending : gmap nat (list line) }.
Definition mdc_of (p : Pool) (t : nat) : gmap string jstring := default ∅ (mdcs p !! t).
Definition pending_of (p : Pool) (t : nat) : list line := default [] (pending p !! t).
Definition fresh_pool : Pool := mkPool ∅ ∅.

Inductive pool_label := Accept (t : nat) (q : JavaCall) | Line (t : nat) (l : line).

(** A thread with nothing left to do takes a call; a busy one logs its next
    line. *)
Inductive pool_step (p : Pool) : pool_label -> Pool -> Prop :=
  | ps_accept t q :
      pending_of p t = [] ->
      pool_step p (Accept t q)
        (mkPool (<[t := (serve q (mdc_of p t)).1]> (mdcs p)) (<[t := (serve q (mdc_of p t)).2]> (pending p)))
  | ps_line t l rest :
      pending_of p t = l :: rest -> pool_step p (Line t l) (mkPool (mdcs p) (<[t := rest]> (pending p))).

Inductive pool_run : list pool_label -> Pool -> Prop :=
  | pr_fresh : pool_run [] fresh_pool
  | pr_step ls p l p' : pool_run ls p -> pool_step p l p' -> pool_run (ls ++ [l]) p'.

(** ** The specification *)

(** What a call is logged as: a line when it is received, and one when it was
    answered, both under its own correlation id; the second says whether the
    address was valid, or whether the policy was found and its status. *)
Definition answered {Resp} (obs : StreamObserver Resp) (resp : Resp) : bool :=
  match onNext_throws obs resp, onCompleted_throws obs with None, None => true | _, _ => false end.

Definition call_lines (id : string) (received : string) (answered : bool) (completed : string)
    (args : list jstring) : list line :=
  (Some (java_of id), received, []) :: (if answered then [(Some (java_of id), completed, args)] else []).

Definition expected (q : JavaCall) : list line :=
  match q with
  | HashCall r obs =>
      call_lines (hq_correlation_id r) "hashClaimantId request received"
        (answered obs (mkHashResp (go_of (ClaimantIdHasher.hash (Some (java_of (hq_claimant_name r)))))))
        "hashClaimantId request completed" []
  | NormalizeCall r obs =>
      let address := AddressNormalizer.normalize (Some (java_of (nq_raw_address r))) in
      call_lines (nq_correlation_id r) "normalize request received"
        (answered obs (normalize_response address))
        "normalize request completed, valid={}" [bool_text (AddressNormalizer.valid address)]
  | LookupCall r obs =>
      let policy := PolicyLookup.lookup (Some (java_of (lq_policy_number r))) in
      call_lines (lq_correlation_id r) "lookupPolicy request received"
        (answered obs (lookup_response policy))
        "lookupPolicy request completed, found={}, status={}"
        [bool_text (PolicyLookup.found policy); PolicyLookup.status policy]
  end.

(** The calls and the lines of one thread. *)
Definition calls_on (t : nat) (ls : list pool_label) : list JavaCall :=
  omap (λ l, match l with Accept t' q => if bool_decide (t' = t) then Some q else None | _ => None end) ls.
Definition lines_on (t : nat) (ls : list pool_label) : list line :=
  omap (λ l, match l with Line t' x => if bool_decide (t' = t) then Some x else None | _ => None end) ls.

(** ** Lemmas *)
Lemma adapter_serve {Resp} id received (resp : Resp) completed args obs mdc :
  left_by (adapter (java_of id) received resp completed args obs mdc)
    = (delete "correlation_id"%string mdc, call_lines id received (answered obs resp) completed args).
Proof.
  rewrite adapter_run. unfold left_by, call_lines, answered.
  destruct (onNext_throws obs resp), (onCompleted_throws obs); simpl; by rewrite lookup_insert_eq.
Qed.

Lemma serve_spec q mdc : serve q mdc = (delete "correlation_id"%string mdc, expected q).
Proof.
  destruct q as [r obs|r obs|r obs]; unfold serve;
    [rewrite hashClaimantId_adapter|rewrite normalize_adapter|rewrite lookupPolicy_adapter];
    apply adapter_serve.
Qed.

Lemma pending_insert ms ps t t' x :
  pending_of (mkPool ms (<[t := x]> ps)) t' = if bool_decide (t = t') then x else default [] (ps !! t').
Proof.
  unfold pending_of. simpl. case_bool_decide as Ht; [subst; by rewrite lookup_insert_eq|by rewrite lookup_insert_ne].
Qed.

(** ** Property *)

(** C26: whatever threads gRPC gives the calls of the Java services, in whatever
    order they come and their lines interleave, and whatever the observers of
    cancelled calls throw: the lines of a thread are, call after call, those of
    the calls it took, each under the correlation id of its own call and none
    under another's; what is not yet logged is the end of the last call's; and
    no call leaves anything in a thread's MDC.  Nothing is logged of a request
    but whether its address is valid, or its policy found and its status: never
    a name, an address or a policy number. *)
Theorem pool_attributes_lines ls p t :
  pool_run ls p ->
  lines_on t ls ++ pending_of p t = calls_on t ls ≫= expected /\ mdc_of p t = ∅.
Proof.
  induction 1 as [|ls p l p' _ [IH Hmdc] Hstep]; [done|]. unfold lines_on, calls_on in *. rewrite !omap_app.
  destruct Hstep as [t' q Hidle|t' x rest Hp]; rewrite pending_insert; simpl;
    case_bool_decide as Ht; simpl; rewrite ?app_nil_r.
  - subst t'. rewrite Hidle, app_nil_r in IH. rewrite IH, serve_spec, bind_app. simpl. rewrite app_nil_r.
    split; [done|]. unfold mdc_of. simpl. rewrite lookup_insert_eq. simpl. fold (mdc_of p t). by rewrite Hmdc.
  - split; [exact IH|]. unfold mdc_of in *. simpl. by rewrite lookup_insert_ne.
  - subst t'. split; [|exact Hmdc]. by rewrite <- IH, Hp, <- app_assoc.
  - split; [exact IH|exact Hmdc].
Qed.
End Threads.

(** ** Two threads *)

Definition cancelled {Resp} : StreamObserver Resp :=
  mkObserver Resp (λ _, Some (StatusRuntimeException 1)) None.
Definition lookup_c1 : JavaCall := LookupCall (mkLookupReq "c1" "POL-123456") cancelled.
Definition normalize_c2 : JavaCall := NormalizeCall (mkNormReq "c2" "12 Oak Ave, Springfield, IL 62704") open_call.
Definition hash_c3 : JavaCall := HashCall (mkHashReq "c3" "Jane Doe") open_call.

(** A cancelled lookup on thread 0, a normalization on thread 1 whose lines
    interleave with it, then a hash on thread 0. *)
Definition demo_labels : list pool_label :=
  [Accept 0 lookup_c1; Accept 1 normalize_c2;
   Line 1 (Some (lit "c2"), "normalize request received"%string, []);
   Line 0 (Some (lit "c1"), "lookupPolicy request received"%string, []);
   Accept 0 hash_c3;
   Line 1 (Some (lit "c2"), "normalize request completed, valid={}"%string, [lit "true"]);
   Line 0 (Some (lit "c3"), "hashClaimantId request received"%string, [])].

(** The run of the first [n + 1] labels, backwards. *)
Ltac steps n :=
  eapply (pr_step (H := ascii_tables) (take n demo_labels));
  [lazymatch n with O => apply pr_fresh | S ?m => steps m end
  |first [apply ps_accept|eapply ps_line]; vm_compute; reflexivity].

Lemma pool_attributes_lines_witness :
  exists p, pool_run (H := ascii_tables) demo_labels p /\
    (lines_on 0 demo_labels ++ pending_of p 0 = calls_on 0 demo_labels ≫= expected (H := ascii_tables) /\
     mdc_of p 0 = ∅) /\
    pending_of p 0 = [(Some (lit "c3"), "hashClaimantId request completed"%string, [])] /\
    pending_of p 1 = [].
Proof.
  assert (Hrun : exists p, pool_run (H := ascii_tables) demo_labels p /\
    pending_of p 0 = [(Some (lit "c3"), "hashClaimantId request completed"%string, [])] /\ pending_of p 1 = []).
  { eexists. split.
    - steps 6%nat.
    - vm_compute. by split. }
  destruct Hrun as (p & Hrun & Hp0 & Hp1). exists p. split; [exact Hrun|]. split; [|done].
  exact (pool_attributes_lines demo_labels p 0 Hrun).
Defined.
