(* ===== verification/JavaLifecycle.v ===== *)
(** * GrpcServerLifecycle: the life of the Java services' servers

    The class that each Java service starts and stops with its Spring context;
    the three copies differ in the names of the service and of the port only.
    The servers that were started are kept in order, the field [server] being
    the last one; each has a non-daemon thread that waits for its end, and the
    JVM lives as long as one of them. *)

From S2P Require Import Prelude JavaGrpc.

Inductive server_phase := Serving | ShutDown | Terminated.
#[export] Instance server_phase_eq_dec : EqDecision server_phase.
Proof. solve_decision. Defined.

Record GrpcServerLifecycle := mkLifecycle { servers : list server_phase; running : bool }.
Definition created : GrpcServerLifecycle := mkLifecycle [] false.

(** [start]: the port is bound or [ServerBuilder.start] throws an
    [IOException]. *)
Definition start_server (port : string) (bound : bool) (s : GrpcServerLifecycle)
    : GrpcServerLifecycle * option Throwable :=
  if bound then (mkLifecycle (servers s ++ [Serving]) true, None)
  else (s, Some (IllegalStateException ("failed to start gRPC server on port " +:+ port))).

(** [Server.shutdown], which does nothing the second time. *)
Definition shutdown (p : server_phase) : server_phase :=
  match p with Serving => ShutDown | _ => p end.

Definition stop_server (s : GrpcServerLifecycle) : GrpcServerLifecycle :=
  mkLifecycle (alter shutdown (length (servers s) - 1)%nat (servers s)) false.

Definition isRunning (s : GrpcServerLifecycle) : bool := running s.
Definition getPhase : Z := 2 ^ 31 - 1.

(** The non-daemon threads that are alive. *)
Definition awaiting (s : GrpcServerLifecycle) : list server_phase :=
  List.filter (λ p, negb (bool_decide (p = Terminated))) (servers s).

(** What happens to the object: Spring starts it when it is not running and
    stops it at any time; a server that was shut down terminates when its last
    call ends. *)
Inductive lifecycle_step (port : string) : GrpcServerLifecycle -> GrpcServerLifecycle -> Prop :=
  | ls_start bound s :
      isRunning s = false -> lifecycle_step port s (start_server port bound s).1
  | ls_stop s : lifecycle_step port s (stop_server s)
  | ls_terminated s i :
      servers s !! i = Some ShutDown ->
      lifecycle_step port s (mkLifecycle (<[i := Terminated]> (servers s)) (running s)).

Inductive lifecycle_reachable (port : string) : GrpcServerLifecycle -> Prop :=
  | lr_created : lifecycle_reachable port created
  | lr_step s s' : lifecycle_reachable port s -> lifecycle_step port s s' -> lifecycle_reachable port s'.

(** The invariant, over the list of servers. *)
Definition lifecycle_inv (s : GrpcServerLifecycle) : Prop :=
  if running s then exists old, servers s = old ++ [Serving] /\ Serving ∉ old
  else Serving ∉ servers s.

Lemma shutdown_not_serving p : shutdown p <> Serving.
Proof. by destruct p. Qed.

Lemma stop_inv s : lifecycle_inv s -> lifecycle_inv (stop_server s).
Proof.
  unfold lifecycle_inv, stop_server. simpl. destruct (running s).
  - intros (old & -> & Hold). rewrite length_app. simpl.
    replace (length old + 1 - 1)%nat with (length old + 0)%nat by lia.
    rewrite alter_app_r. simpl. set_solver.
  - intros Hs [i Hi]%list_elem_of_lookup. destruct (decide (i = length (servers s) - 1)%nat) as [->|Hne].
    + rewrite list_lookup_alter_eq in Hi. apply fmap_Some in Hi as (p & _ & Hp).
      by destruct (shutdown_not_serving p).
    + rewrite list_lookup_alter_ne in Hi by done. by apply Hs, (list_elem_of_lookup_2 _ i).
Qed.

Lemma terminated_inv s i :
  servers s !! i = Some ShutDown -> lifecycle_inv s ->
  lifecycle_inv (mkLifecycle (<[i := Terminated]> (servers s)) (running s)).
Proof.
  unfold lifecycle_inv. simpl. intros Hi.
  assert (Hins : forall l : list server_phase, Serving ∉ l -> Serving ∉ <[i := Terminated]> l).
  { intros l Hl [j Hj]%list_elem_of_lookup. apply list_lookup_insert_Some in Hj as [(_ & Ht & _)|[_ Hj]]; [done|].
    by apply Hl, (list_elem_of_lookup_2 _ j). }
  destruct (running s); [|apply Hins]. intros (old & Heq & Hold). rewrite Heq in Hi |- *.
  assert (Hlt : (i < length old)%nat).
  { destruct (decide (i < length old)%nat) as [|Hge]; [done|].
    rewrite lookup_app_r in Hi by lia. apply list_lookup_singleton_Some in Hi as [_ ?]. done. }
  rewrite insert_app_l by done. exists (<[i := Terminated]> old). split; [done|by apply Hins].
Qed.

(** C27: whatever Spring and the calls do, [isRunning] tells the truth: at any
    reachable point it holds exactly when the server started last accepts
    calls, no other server ever does, and the JVM has a non-daemon thread as
    long as one does; a start that fails leaves everything as it was. *)
Theorem isRunning_truthful port s :
  lifecycle_reachable port s ->
  (isRunning s = true <-> last (servers s) = Some Serving) /\
  (Serving ∈ servers s -> isRunning s = true /\ awaiting s <> []) /\
  (forall i, servers s !! i = Some Serving -> S i = length (servers s)) /\
  start_server port false s
    = (s, Some (IllegalStateException ("failed to start gRPC server on port " +:+ port))).
Proof.
  intros Hr. assert (Hinv : lifecycle_inv s).
  { induction Hr as [|s s' _ IH Hstep]; [apply not_elem_of_nil|].
    destruct Hstep as [[] s Hrun|s|s i Hi]; simpl; [|done|by apply stop_inv|by apply terminated_inv].
    unfold lifecycle_inv, isRunning in *. rewrite Hrun in IH. simpl. by eexists. }
  unfold lifecycle_inv, isRunning in *. destruct (running s) eqn:Hrun.
  - destruct Hinv as (old & Heq & Hold). rewrite Heq, last_snoc, length_app. split_and!; try done.
    + intros _. split; [done|]. unfold awaiting. rewrite Heq, List.filter_app. simpl. by intros [_ ?]%app_eq_nil.
    + intros i Hi. destruct (decide (i < length old)%nat) as [Hlt|Hge].
      * rewrite lookup_app_l in Hi by done. by destruct Hold; apply (list_elem_of_lookup_2 _ i).
      * rewrite lookup_app_r in Hi by lia. apply list_lookup_singleton_Some in Hi as [? _]. simpl. lia.
  - split_and!; try done.
    + split; [done|]. intros Hl. destruct Hinv. by apply last_Some_elem_of.
    + intros i Hi. destruct Hinv. by apply (list_elem_of_lookup_2 _ i).
Qed.

(** Started on port 9095, then stopped. *)
Lemma isRunning_truthful_witness :
  let s := stop_server (start_server "9095" true created).1 in
  (isRunning s = true <-> last (servers s) = Some Serving) /\
  (Serving ∈ servers s -> isRunning s = true /\ awaiting s <> []) /\
  (forall i, servers s !! i = Some Serving -> S i = length (servers s)) /\
  start_server "9095" false s
    = (s, Some (IllegalStateException ("failed to start gRPC server on port " +:+ "9095"))).
Proof.
  apply (isRunning_truthful "9095"). eapply lr_step; [eapply lr_step; [apply lr_created|]|].
  - by apply (ls_start "9095" true).
  - apply ls_stop.
Defined.
