(* ===== verification/Gateway.v ===== *)
(** * claims-gateway: the REST handler

    [internal/handler/claims.go] and [internal/correlation/id.go].  The HTTP
    response is the writer's state: the header map, the status fixed by the
    first [WriteHeader] and the bytes written.  The bodies are read and
    written as [Payloads] says; the two clients and the system's random source
    are parameters.  The specification is a decision table from the request and
    the answers of the two services to the response and the calls made. *)

From S2P Require Import Prelude Float64 GoStrings Json Messages Payloads Effects Telemetry.

(** ** correlation/id.go *)

Definition correlation_unavailable : string := "correlation-id-unavailable".

Section Correlation.
Context {E : Type}.
(** [rand.Read] on a slice of the given length: the bytes, or an error. *)
Variable rand_Read : Z -> M E (result (list Z)).

Definition New : M E string :=
  b ← rand_Read 16;
  match b with
  | Err _ => mret correlation_unavailable
  | Ok b => mret (hex_EncodeToString b)
  end.
End Correlation.

(** ** Data *)

(** An [http.Request], as far as the handler reads it. *)
Record HttpRequest := mkHttpRequest { rq_Method : string; rq_Body : string; rq_Context : Ctx }.

(** An [http.ResponseWriter]: headers until the status is written, the status,
    the body so far. *)
Record Writer := mkWriter {
  w_header : gmap string string;
  w_status : option Z;
  w_body : string }.
Definition new_writer : Writer := mkWriter ∅ None "".

Definition Header_Set (k v : string) (w : Writer) : Writer :=
  mkWriter (<[k := v]> (w_header w)) (w_status w) (w_body w).
(** A second [WriteHeader] is ignored. *)
Definition WriteHeader (status : Z) (w : Writer) : Writer :=
  mkWriter (w_header w) (Some (default status (w_status w))) (w_body w).
Definition Write (bytes : string) (w : Writer) : Writer :=
  mkWriter (w_header w) (Some (default 200 (w_status w))) (w_body w +:+ bytes).

Definition MethodPost : string := "POST".
Definition StatusOK : Z := 200.
Definition StatusBadRequest : Z := 400.
Definition StatusForbidden : Z := 403.
Definition StatusMethodNotAllowed : Z := 405.
Definition StatusBadGateway : Z := 502.

Definition hardcodedTenantID : string := "acme_insurance".
Definition orchestrationTimeout : Z := 5 * Second.
Definition tenantConfigTimeout : Z := 2 * Second.

Section Handler.
Context {E : Type}.
Variable rand_Read : Z -> M E (result (list Z)).
Variable h_TenantConfig : Ctx -> string -> M E (result TenantContext).
Variable h_Orchestration : Ctx -> option ProcessClaimRequest -> M E (result ProcessClaimResponse).
Variable h_Logger : option Logger.

Definition writeJSON (status : Z) (body : Body) (w : Writer) : Writer :=
  let w := Header_Set "Content-Type" "application/json" w in
  let w := WriteHeader status w in
  match Encode body with
  | Some bytes => Write bytes w
  | None => w
  end.

Definition writeError (status : Z) (msg : string) (w : Writer) : Writer :=
  writeJSON status (BError msg) w.

Definition Healthz (w : Writer) : Writer := writeJSON StatusOK (BMap {["status" := "ok"]}%string) w.

Definition resolveTenant (parent : Ctx) : M E (result TenantContext) :=
  t ← get_now;
  let ctx := WithTimeout t parent tenantConfigTimeout in
  call ctx (CallGetTenant hardcodedTenantID) (h_TenantConfig ctx hardcodedTenantID).

Definition handler_log (ctx : Ctx) : Logger := FromContext ctx h_Logger.

Definition SubmitClaim (w : Writer) (r : HttpRequest) : M E Writer :=
  if bool_decide (rq_Method r <> MethodPost) then
    let w := Header_Set "Allow" MethodPost w in
    mret (writeError StatusMethodNotAllowed "method not allowed" w)
  else
  match Decode (rq_Body r) with
  | inr err => mret (writeError StatusBadRequest ("invalid request body: " +:+ err) w)
  | inl req =>
      if bool_decide (q_ClaimID req = "") || bool_decide (q_Product req = "")
         || bool_decide (q_EventType req = "")
      then mret (writeError StatusBadRequest "claim_id, product, and event_type are required" w)
      else
      correlationID ← New rand_Read;
      let ctx := WithCorrelationID (rq_Context r) correlationID in
      tenantCtx ← resolveTenant ctx;
      match tenantCtx with
      | Err err =>
          _ ← log_Error (handler_log ctx) "tenant resolution failed"
                [("tenant_id"%string, AStr hardcodedTenantID); ("error"%string, AErr err)];
          mret (writeError StatusForbidden "tenant not found or unavailable" w)
      | Ok tenantCtx =>
          if bool_decide (TenantContext_GetStatus (Some tenantCtx) <> "active"%string) then
            _ ← log_Warn (handler_log ctx) "tenant not active"
                  [("tenant_id"%string, AStr hardcodedTenantID);
                   ("status"%string, AStr (TenantContext_GetStatus (Some tenantCtx)))];
            mret (writeError StatusForbidden "tenant is not active" w)
          else
          let ctx := WithTenantID ctx hardcodedTenantID in
          t ← get_now;
          let orchCtx := WithTimeout t ctx orchestrationTimeout in
          let claim := mkClaimEvent (q_ClaimID req) correlationID (q_Product req)
                         (q_EventType req) (q_PolicyNumber req) (q_ClaimantName req)
                         (q_RawAddress req) in
          resp ← call orchCtx (CallProcessClaim (Some claim))
                   (h_Orchestration orchCtx (Some (mkProcessReq (Some claim))));
          match resp with
          | Err err =>
              _ ← log_Error (handler_log ctx) "orchestration call failed" [("error"%string, AErr err)];
              mret (writeError StatusBadGateway "orchestration call failed" w)
          | Ok resp =>
              mret (writeJSON StatusOK
                      (BClaim (mkClaimResponse (pr_claim_id resp) (pr_correlation_id resp)
                                 (pr_status resp) (pr_normalized_address resp)
                                 (pr_fraud_score resp) (pr_model_version resp))) w)
          end
      end
  end.
End Handler.

(** ** The specification *)

(** The requests the handler forwards. *)
Definition accepted (r : HttpRequest) : option claimRequest :=
  if bool_decide (rq_Method r = MethodPost) then
    match Decode (rq_Body r) with
    | inl req =>
        if bool_decide (q_ClaimID req <> "" /\ q_Product req <> "" /\ q_EventType req <> "")
        then Some req else None
    | inr _ => None
    end
  else None.

(** The answer to any other request: its status and its message. *)
Definition refusal (r : HttpRequest) : Z * string :=
  if bool_decide (rq_Method r = MethodPost) then
    match Decode (rq_Body r) with
    | inr err => (StatusBadRequest, "invalid request body: " +:+ err)
    | inl _ => (StatusBadRequest, "claim_id, product, and event_type are required"%string)
    end
  else (StatusMethodNotAllowed, "method not allowed"%string).

(** The claim forwarded for a request. *)
Definition claim_of (req : claimRequest) (correlationID : string) : ClaimEvent :=
  mkClaimEvent (q_ClaimID req) correlationID (q_Product req) (q_EventType req)
    (q_PolicyNumber req) (q_ClaimantName req) (q_RawAddress req).

(** The response of the gateway to an orchestration response. *)
Definition claim_response (resp : ProcessClaimResponse) : claimResponse :=
  mkClaimResponse (pr_claim_id resp) (pr_correlation_id resp) (pr_status resp)
    (pr_normalized_address resp) (pr_fraud_score resp) (pr_model_version resp).

Lemma accepted_decode r req : accepted r = Some req -> Decode (rq_Body r) = inl req.
Proof.
  unfold accepted. case_bool_decide; [|done]. destruct (Decode (rq_Body r)) as [q|]; [|done].
  case_bool_decide; [|done]. by intros [= ->].
Qed.

Section Facts.
Context {E : Type} (rand_Read : Z -> M E (result (list Z)))
  (h_TenantConfig : Ctx -> string -> M E (result TenantContext))
  (h_Orchestration : Ctx -> option ProcessClaimRequest -> M E (result ProcessClaimResponse))
  (h_Logger : option Logger).
Let submit := SubmitClaim rand_Read h_TenantConfig h_Orchestration h_Logger.
Let respond := writeError.

(** The two downstream calls of an accepted request, with the contexts the
    handler gives them. *)
Definition tenant_ctx (r : HttpRequest) (s : St E) : Ctx :=
  WithTimeout (now (final (New rand_Read) s))
    (WithCorrelationID (rq_Context r) (result_of (New rand_Read) s)) tenantConfigTimeout.
Definition tenant_call (r : HttpRequest) (s : St E) : M E (result TenantContext) :=
  h_TenantConfig (tenant_ctx r s) hardcodedTenantID.
Definition tenant_answer (r : HttpRequest) (s : St E) : result TenantContext :=
  result_of (tenant_call r s) (final (New rand_Read) s).
Definition resolved (r : HttpRequest) (s : St E) : St E :=
  final (tenant_call r s) (final (New rand_Read) s).

Definition claim_ctx (r : HttpRequest) (s : St E) : Ctx :=
  WithTimeout (now (resolved r s))
    (WithTenantID (WithCorrelationID (rq_Context r) (result_of (New rand_Read) s)) hardcodedTenantID)
    orchestrationTimeout.
Definition claim_call (r : HttpRequest) (req : claimRequest) (s : St E)
    : M E (result ProcessClaimResponse) :=
  h_Orchestration (claim_ctx r s)
    (Some (mkProcessReq (Some (claim_of req (result_of (New rand_Read) s))))).

Definition is_active (t : result TenantContext) : bool :=
  match t with Ok t => bool_decide (tc_status t = "active"%string) | Err _ => false end.

(** What the handler answers an accepted request. *)
Definition verdict (r : HttpRequest) (req : claimRequest) (s : St E) (w : Writer) : Writer :=
  match tenant_answer r s with
  | Err _ => respond StatusForbidden "tenant not found or unavailable" w
  | Ok t =>
      if is_active (Ok t) then
        match result_of (claim_call r req s) (resolved r s) with
        | Err _ => respond StatusBadGateway "orchestration call failed" w
        | Ok resp => writeJSON StatusOK (BClaim (claim_response resp)) w
        end
      else respond StatusForbidden "tenant is not active" w
  end.

(** An accepted request: the identifier, the tenant gate, then the claim if
    and only if the tenant is active. *)
Lemma submit_accepted w r req s :
  accepted r = Some req ->
  result_of (submit w r) s = verdict r req s w /\
  final (submit w r) s =
    (if is_active (tenant_answer r s)
     then final (claim_call r req s) (resolved r s) else resolved r s) /\
  calls_of (trace (submit w r) s) =
    calls_of (trace (New rand_Read) s) ++
    CallGetTenant hardcodedTenantID ::
    calls_of (trace (tenant_call r s) (final (New rand_Read) s)) ++
    (if is_active (tenant_answer r s) then
       CallProcessClaim (Some (claim_of req (result_of (New rand_Read) s))) ::
       calls_of (trace (claim_call r req s) (resolved r s))
     else []).
Proof.
  unfold accepted, submit, SubmitClaim. intros Hacc.
  rewrite bool_decide_not. destruct (bool_decide (rq_Method r = MethodPost)); [|done]. simpl.
  destruct (Decode (rq_Body r)) as [q|]; [|done].
  case_bool_decide as Hf; [|done]. destruct Hf as (H1 & H2 & H3). simplify_eq.
  rewrite !bool_decide_false by done. cbn [orb]. cbv iota.
  unfold resolveTenant, is_active, verdict. run.
  fold (tenant_ctx r s). fold (tenant_call r s). fold (tenant_answer r s) (resolved r s).
  rewrite !calls_of_app.
  destruct (tenant_answer r s) as [t|err]; run; [|done].
  rewrite bool_decide_not. unfold is_active.
  destruct (bool_decide (tc_status t = "active"%string)); simpl negb; cbv iota; run; [|done].
  fold (claim_of req (result_of (New rand_Read) s)). fold (claim_ctx r s). fold (claim_call r req s).
  destruct (result_of (claim_call r req s) (resolved r s)) as [resp|err]; run;
    split_and!; try done; by run_calls.
Qed.

Lemma submit_refused w r s :
  accepted r = None ->
  exists w', submit w r s = (respond (refusal r).1 (refusal r).2 w', s, []) /\
    w_status w' = w_status w /\ w_body w' = w_body w.
Proof.
  unfold accepted, refusal, submit, SubmitClaim. intros Hacc. rewrite bool_decide_not.
  case_bool_decide as Hm; simpl; [|by eexists (Header_Set "Allow" MethodPost w)].
  destruct (Decode (rq_Body r)) as [req|err]; [|by exists w].
  case_bool_decide as Hf; [done|].
  assert (Hb : bool_decide (q_ClaimID req = ""%string) || bool_decide (q_Product req = ""%string)
               || bool_decide (q_EventType req = ""%string) = true).
  { repeat case_bool_decide; try done. by destruct Hf. }
  rewrite Hb. by exists w.
Qed.

Lemma writeJSON_status code body w :
  w_status w = None -> w_status (writeJSON code body w) = Some code.
Proof. intros Hw. unfold writeJSON. case_match; simpl; by rewrite Hw. Qed.

Lemma writeJSON_body code body w :
  w_body (writeJSON code body w) = w_body w +:+ default ""%string (Encode body).
Proof.
  unfold writeJSON. destruct (Encode body); [done|]. simpl.
  induction (w_body w) as [|c b IH]; [done|]. by rewrite string_cons_app, <- IH.
Qed.

Lemma writeJSON_content_type code body w :
  w_header (writeJSON code body w) !! "Content-Type"%string = Some "application/json"%string.
Proof. unfold writeJSON. case_match; simpl; by rewrite lookup_insert_eq. Qed.
End Facts.

Lemma New_calls {E} (rand_Read : Z -> M E (result (list Z))) s :
  calls_of (trace (New rand_Read) s) = calls_of (trace (rand_Read 16) s).
Proof. unfold New. run. rewrite calls_of_app. by destruct (result_of _ s); run; run_calls. Qed.

Lemma New_final {E} (rand_Read : Z -> M E (result (list Z))) s :
  final (New rand_Read) s = final (rand_Read 16) s.
Proof. unfold New. run. by destruct (result_of _ s). Qed.

(** Hexadecimal digits are a header value. *)
Lemma hex_header_value bs : Forall is_byte bs -> header_value (hex_EncodeToString bs).
Proof.
  intros Hbs. unfold header_value, hex_EncodeToString.
  assert (Hall : forallb (λ z, forallb (λ d, (32 <=? d) && (d <=? 126)) (hex_byte z)) (seqZ 0 256) = true)
    by by_compute.
  assert (Hdigits : Forall (λ b, 32 <= b <= 126) (bs ≫= hex_byte)).
  { apply Forall_bind. eapply Forall_impl; [exact Hbs|]. intros b Hb. apply Forall_forall. intros d Hd.
    pose proof (forallb_seqZ _ _ _ Hall b ltac:(unfold is_byte in Hb; lia)) as Hbyte. cbv beta in Hbyte.
    rewrite forallb_forall in Hbyte. specialize (Hbyte d (proj1 (list_elem_of_In _ _) Hd)). lia. }
  rewrite bytes_of_string_of; [done|].
  eapply Forall_impl; [exact Hdigits|]. unfold is_byte. intros; lia.
Qed.

(** A timeout of [d] set at [t0] ends by [t0 + d], and by the end of the parent. *)
Lemma WithTimeout_done t0 ctx d :
  exists t e, ctx_done (WithTimeout t0 ctx d) = Some (t, e) /\ t <= t0 + d /\
    (forall t' e', ctx_done ctx = Some (t', e') -> t <= t').
Proof.
  unfold WithTimeout. simpl. destruct (ctx_done ctx) as [[t e]|].
  - destruct (Z.leb_spec t (t0 + d)); eexists _, _; (split; [done|]); split; try lia;
      intros ?? [= <- <-]; lia.
  - eexists _, _. split; [done|]. split; [lia|]. by intros.
Qed.
