(* ===== verification/GatewayProps.v ===== *)
(** * claims-gateway: properties of the REST handler

    What [SubmitClaim] answers on every branch, the tenant gate, its time bound,
    the identifiers it draws, and its bodies: what they are read as, and what
    reaches orchestration. *)

From S2P Require Import Prelude Float64 GoStrings Utf8 FormatFloat Json JsonFacts Messages.
From S2P Require Import Payloads PayloadFacts Effects Telemetry Gateway.

(** ** Properties *)
Section Properties.
Context {E : Type} (rand_Read : Z -> M E (result (list Z)))
  (h_TenantConfig : Ctx -> string -> M E (result TenantContext))
  (h_Orchestration : Ctx -> option ProcessClaimRequest -> M E (result ProcessClaimResponse))
  (h_Logger : option Logger).
Let submit := SubmitClaim rand_Read h_TenantConfig h_Orchestration h_Logger.

(** C40: a request that is not a POST, whose body does not decode, or that
    lacks one of [claim_id], [product] and [event_type] is refused at once: 405
    or 400, with no downstream call, no effect and no log line, and a JSON body
    whose [error] member reads as the message, the decoder's error included. *)
Theorem SubmitClaim_refuses r s :
  accepted r = None ->
  let out := result_of (submit new_writer r) s in
  trace (submit new_writer r) s = [] /\ final (submit new_writer r) s = s /\
  w_status out = Some (refusal r).1 /\
  w_header out !! "Content-Type"%string = Some "application/json"%string /\
  (exists v, readValue (bytes_of (w_body out)) = inl v /\
     string_member v "error" = Some (clean (refusal r).2)).
Proof.
  intros Hacc.
  destruct (submit_refused rand_Read h_TenantConfig h_Orchestration h_Logger
              new_writer r s Hacc) as (w' & Heq & Hw & Hbody).
  unfold trace, final, result_of. unfold submit. rewrite Heq. cbn [fst snd]. unfold writeError.
  rewrite writeJSON_status, writeJSON_body, Hbody by done.
  destruct (Encode_error_body (refusal r).2) as (text & v & -> & Hread & Hmsg).
  split_and!; [done|done|done|apply writeJSON_content_type|eauto].
Qed.

(** C12: a claim reaches orchestration only for an active tenant: an accepted
    request asks tenant-config-svc for the tenant exactly once, and forwards
    the claim exactly when that answers [active], once, with the fields of
    the request and the generated correlation id, in a context that carries
    the tenant and the correlation id and ends within 5 seconds. *)
Theorem SubmitClaim_gates_tenant r req s :
  accepted r = Some req ->
  (forall n s, calls_of (trace (rand_Read n) s) = []) ->
  (forall c t s, calls_of (trace (h_TenantConfig c t) s) = []) ->
  (forall c q s, calls_of (trace (h_Orchestration c q) s) = []) ->
  let id := result_of (New rand_Read) s in
  let active := is_active (tenant_answer rand_Read h_TenantConfig r s) in
  let ctx := claim_ctx rand_Read h_TenantConfig r s in
  calls_of (trace (submit new_writer r) s) =
    CallGetTenant "acme_insurance" ::
    (if active then [CallProcessClaim (Some (claim_of req id))] else []) /\
  TenantIDFrom ctx = "acme_insurance"%string /\ CorrelationIDFrom ctx = id /\
  (exists t e, ctx_done ctx = Some (t, e) /\
     t <= now (resolved rand_Read h_TenantConfig r s) + 5 * Second).
Proof.
  intros Hacc Hrand Htenant Horch. cbv zeta.
  destruct (submit_accepted rand_Read h_TenantConfig h_Orchestration h_Logger
              new_writer r req s Hacc) as (_ & _ & Hcalls).
  unfold submit. rewrite Hcalls, New_calls, Hrand. unfold tenant_call, claim_call.
  rewrite Htenant, Horch. split_and!; [done|..].
  - unfold claim_ctx. by autorewrite with claims_rw.
  - unfold claim_ctx. by autorewrite with claims_rw.
  - unfold claim_ctx. edestruct WithTimeout_done as (t & e & Hd & Ht & _). eauto.
Qed.

(** The response to an accepted request: 403 when the tenant cannot be
    resolved or is not active, 502 when orchestration fails, and 200 with the
    fields of orchestration's response, written once as JSON, exactly when
    the tenant is active and orchestration answers. *)
Theorem SubmitClaim_answers r req s :
  accepted r = Some req ->
  let out := result_of (submit new_writer r) s in
  let tenant := tenant_answer rand_Read h_TenantConfig r s in
  let orch := result_of (claim_call rand_Read h_TenantConfig h_Orchestration r req s)
                (resolved rand_Read h_TenantConfig r s) in
  w_status out =
    Some (if is_active tenant then if is_ok orch then 200 else 502 else 403) /\
  w_header out !! "Content-Type"%string = Some "application/json"%string /\
  (forall resp, is_active tenant = true -> orch = Ok resp ->
     w_body out = default ""%string (Encode (BClaim (claim_response resp)))).
Proof.
  intros Hacc. cbv zeta.
  destruct (submit_accepted rand_Read h_TenantConfig h_Orchestration h_Logger
              new_writer r req s Hacc) as (Hres & _ & _).
  unfold submit. rewrite Hres. unfold verdict.
  destruct (tenant_answer rand_Read h_TenantConfig r s) as [t|err];
    [destruct (is_active (Ok t)) eqn:Ha;
     [destruct (result_of (claim_call _ _ _ r req s) _) as [resp|err] eqn:Ho|]|];
    unfold writeError; rewrite writeJSON_status, writeJSON_content_type by done;
    split_and!; try done.
  intros resp' _ [= <-]. unfold writeJSON. by case_match.
Qed.

(** A request is answered within 7 seconds when the two clients honour
    the contexts they are given (and drawing the id takes no time), however
    slow the services are: 2 seconds to resolve the tenant, 5 for the claim. *)
Theorem SubmitClaim_duration w r s :
  (forall n s, now (final (rand_Read n) s) = now s) ->
  (forall c t, timely (h_TenantConfig c t) /\ honours c (h_TenantConfig c t)) ->
  (forall c q, timely (h_Orchestration c q) /\ honours c (h_Orchestration c q)) ->
  now s <= now (final (submit w r) s) <= now s + 7 * Second.
Proof.
  intros Hrand Htenant Horch. unfold submit.
  destruct (accepted r) as [req|] eqn:Hacc.
  2: { destruct (submit_refused rand_Read h_TenantConfig h_Orchestration h_Logger
                   w r s Hacc) as (w' & Heq & _).
       unfold final. rewrite Heq. simpl. unfold Second, Millisecond. lia. }
  destruct (submit_accepted rand_Read h_TenantConfig h_Orchestration h_Logger
              w r req s Hacc) as (_ & -> & _).
  assert (Hres : now s <= now (resolved rand_Read h_TenantConfig r s) <= now s + 2 * Second).
  { unfold resolved, tenant_call. rewrite New_final. pose proof (Hrand 16 s) as Hn.
    destruct (Htenant (tenant_ctx rand_Read r s) hardcodedTenantID) as [Ht Hh].
    edestruct (WithTimeout_done (now (final (New rand_Read) s))
                 (WithCorrelationID (rq_Context r) (result_of (New rand_Read) s))
                 tenantConfigTimeout) as (t & e & Hd & Hle & _).
    specialize (Hh (final (rand_Read 16) s) t e Hd). specialize (Ht (final (rand_Read 16) s)).
    rewrite New_final in Hle. unfold tenantConfigTimeout, Second, Millisecond in *. lia. }
  case_match; [|unfold Second, Millisecond in *; lia].
  unfold claim_call.
  destruct (Horch (claim_ctx rand_Read h_TenantConfig r s)
              (Some (mkProcessReq (Some (claim_of req (result_of (New rand_Read) s)))))) as [Ht Hh].
  edestruct (WithTimeout_done (now (resolved rand_Read h_TenantConfig r s))
               (WithTenantID (WithCorrelationID (rq_Context r) (result_of (New rand_Read) s))
                  hardcodedTenantID) orchestrationTimeout) as (t & e & Hd & Hle & _).
  specialize (Hh (resolved rand_Read h_TenantConfig r s) t e Hd).
  specialize (Ht (resolved rand_Read h_TenantConfig r s)).
  unfold orchestrationTimeout, Second, Millisecond in *. lia.
Qed.

(** A correlation id is the 32 lower-case hexadecimal digits of the 16
    random bytes, from which they can be read back, so distinct draws give
    distinct ids; if the random source fails it is a fixed marker.  Either way
    it is a value gRPC transmits unchanged. *)
Theorem New_identifies s bs :
  length bs = 16%nat -> Forall is_byte bs ->
  (result_of (rand_Read 16) s = Ok bs ->
   String.length (result_of (New rand_Read) s) = 32%nat /\
   hex_decode (bytes_of (result_of (New rand_Read) s)) = bs /\
   header_value (result_of (New rand_Read) s)) /\
  (is_ok (result_of (rand_Read 16) s) = false ->
   result_of (New rand_Read) s = "correlation-id-unavailable"%string /\
   header_value (result_of (New rand_Read) s)).
Proof.
  intros Hlen Hbs. unfold New. split; run.
  - intros ->. run. split_and!; [by rewrite length_hex_EncodeToString, Hlen|by apply hex_decode_encode|].
    by apply hex_header_value.
  - destruct (result_of (rand_Read 16) s); [done|]. intros _. run. split; [done|].
    apply (bool_decide_unpack _). by_compute.
Qed.
(** *** Bodies *)

(** C14: a client's JSON encoding of a request, whatever follows it in the
    body, is read back exactly: with well-formed strings and its three
    mandatory fields, the claim that reaches orchestration for an active tenant
    has exactly its fields, under the generated correlation id. *)
Theorem SubmitClaim_reads_request q text rest ctx s :
  object_text (request_fields q) = Some text -> Forall is_byte rest -> valid_request q ->
  q_ClaimID q <> ""%string -> q_Product q <> ""%string -> q_EventType q <> ""%string ->
  let r := mkHttpRequest "POST" (string_of (text ++ rest)) ctx in
  accepted r = Some q /\
  (is_active (tenant_answer rand_Read h_TenantConfig r s) = true ->
   CallProcessClaim (Some (claim_of q (result_of (New rand_Read) s)))
     ∈ calls_of (trace (submit new_writer r) s)).
Proof.
  intros Ht Hrest Hq H1 H2 H3 r. assert (Hacc : accepted r = Some q).
  { unfold accepted, r. cbn [rq_Method rq_Body]. rewrite bool_decide_true by done.
    rewrite (Decode_encoded q) by done. rewrite clean_request_valid by done.
    by rewrite bool_decide_true. }
  split; [done|]. intros Ha.
  destruct (submit_accepted rand_Read h_TenantConfig h_Orchestration h_Logger new_writer r q s Hacc)
    as (_ & _ & Hc). unfold submit. rewrite Hc, Ha. set_solver.
Qed.

(** C38: every claim the gateway forwards is well-formed: whatever bytes the
    body holds, each string of the claim is valid UTF-8, as a protobuf string
    must be for the call to be sent at all. *)
Theorem SubmitClaim_forwards_valid w r s claim :
  header_value (result_of (New rand_Read) s) ->
  (forall n s, calls_of (trace (rand_Read n) s) = []) ->
  (forall c t s, calls_of (trace (h_TenantConfig c t) s) = []) ->
  (forall c q s, calls_of (trace (h_Orchestration c q) s) = []) ->
  CallProcessClaim claim ∈ calls_of (trace (submit w r) s) ->
  exists c, claim = Some c /\
    Forall valid_string [ClaimId c; CorrelationId c; Product c; EventType c; PolicyNumber c;
                         ClaimantName c; RawAddress c].
Proof.
  intros Hid Hrand Htenant Horch Hin.
  destruct (accepted r) as [q|] eqn:Hacc.
  2: { destruct (submit_refused rand_Read h_TenantConfig h_Orchestration h_Logger w r s Hacc)
         as (w' & Heq & _). unfold submit, trace in Hin. rewrite Heq in Hin.
       by apply not_elem_of_nil in Hin. }
  destruct (submit_accepted rand_Read h_TenantConfig h_Orchestration h_Logger w r q s Hacc) as (_ & _ & Hc).
  unfold submit in Hin. rewrite Hc, New_calls, Hrand in Hin. unfold tenant_call, claim_call in Hin.
  rewrite Htenant, Horch in Hin.
  assert (Hclaim : claim = Some (claim_of q (result_of (New rand_Read) s)))
    by (case_match; set_solver).
  eexists. split; [exact Hclaim|].
  destruct (Decode_valid _ _ (accepted_decode _ _ Hacc)) as (?&?&?&?&?&?).
  repeat apply Forall_cons_2; try done.
  apply ascii_valid. eapply Forall_impl; [exact Hid|]. simpl. lia.
Qed.

(** C13: the body of a 200 answer: when the score is a number, a JSON object
    whose members read as the fields of orchestration's response, the score in
    its shortest decimal form; when it is NaN or infinite the encoder fails
    after the status is sent, and the client gets a 200 with an empty body. *)
Theorem SubmitClaim_body r req s resp :
  accepted r = Some req ->
  is_active (tenant_answer rand_Read h_TenantConfig r s) = true ->
  result_of (claim_call rand_Read h_TenantConfig h_Orchestration r req s)
    (resolved rand_Read h_TenantConfig r s) = Ok resp ->
  let out := result_of (submit new_writer r) s in
  w_status out = Some 200 /\
  match json_float (pr_fraud_score resp) with
  | None => w_body out = ""%string
  | Some score =>
      exists v, readValue (bytes_of (w_body out)) = inl v /\
        string_member v "claim_id" = Some (clean (pr_claim_id resp)) /\
        string_member v "correlation_id" = Some (clean (pr_correlation_id resp)) /\
        string_member v "status" = Some (clean (pr_status resp)) /\
        string_member v "normalized_address" = Some (clean (pr_normalized_address resp)) /\
        number_member v "fraud_score" = Some score /\
        string_member v "model_version" = Some (clean (pr_model_version resp))
  end.
Proof.
  intros Hacc Ha Ho. cbv zeta.
  destruct (submit_accepted rand_Read h_TenantConfig h_Orchestration h_Logger new_writer r req s Hacc)
    as (Hres & _). unfold submit. rewrite Hres. unfold verdict.
  destruct (tenant_answer rand_Read h_TenantConfig r s) as [t|err]; [|done]. rewrite Ha, Ho.
  split; [by rewrite writeJSON_status|]. rewrite writeJSON_body. cbn [w_body new_writer].
  pose proof (Encode_claim (claim_response resp)) as He. cbn [claim_response p_FraudScore] in He.
  destruct (json_float (pr_fraud_score resp)) as [score|]; [|by rewrite He].
  destruct He as (text & v & -> & Hread & Hmem). by exists v.
Qed.

(** C39: whatever a client sends, the response body is empty or one line of
    JSON without any control character or HTML metacharacter, although it may
    quote the client's bytes. *)
Theorem SubmitClaim_body_safe r s :
  let body := bytes_of (w_body (result_of (submit new_writer r) s)) in
  body = [] \/ exists line, body = line ++ [10] /\ Forall json_safe line.
Proof.
  assert (Hjson : forall code b w, w_body w = ""%string ->
    let body := bytes_of (w_body (writeJSON code b w)) in
    body = [] \/ exists line, body = line ++ [10] /\ Forall json_safe line).
  { intros code b w Hw. cbv zeta. rewrite writeJSON_body, Hw.
    destruct (Encode b) as [text|] eqn:He; [|by left]. right.
    destruct (Encode_line _ _ He) as (line & Hl & Hsafe & _). by exists line. }
  cbv zeta. unfold submit. destruct (accepted r) as [req|] eqn:Hacc.
  - destruct (submit_accepted rand_Read h_TenantConfig h_Orchestration h_Logger new_writer r req s Hacc)
      as (-> & _). unfold verdict. repeat case_match; by apply Hjson.
  - destruct (submit_refused rand_Read h_TenantConfig h_Orchestration h_Logger new_writer r s Hacc)
      as (w' & Heq & _ & Hb). unfold result_of. rewrite Heq. by apply Hjson.
Qed.
End Properties.

(** *** Witnesses *)

(** A request with its body, services that answer after a while. *)
Definition demo_body : claimRequest :=
  mkClaimRequest "CLM-1" "auto" "claim.fnol" "POL-123456" "Jane Doe" "1 main st".
Definition demo_text : string := string_of (json_literal
  "{'claim_id':'CLM-1','product':'auto','event_type':'claim.fnol','policy_number':'POL-123456','claimant_name':'Jane Doe','raw_address':'1 main st'}").
Definition demo_rand (n : Z) : M unit (result (list Z)) := mret (Ok (replicate 16 171)).
Definition until (c : Ctx) (d : Z) (s : St unit) : St unit :=
  mkSt (match ctx_done c with Some (t, _) => Z.max (now s) (Z.min t (now s + Z.abs d))
                            | None => now s + Z.abs d end) (env s) (coin s).
Definition demo_tenant_svc (status : string) (c : Ctx) (t : string) : M unit (result TenantContext) := λ s,
  (Ok (mkTenantContext t "Acme" status), until c Millisecond s, []).
Definition demo_orch (c : Ctx) (q : option ProcessClaimRequest) : M unit (result ProcessClaimResponse) := λ s,
  (Ok (mkProcessClaimResponse (GetClaimId (GetClaim q)) (GetCorrelationId (GetClaim q)) "scored" "1 MAIN ST"
         (f64_lit 5 100) "rules-v1"), until c (600 * Millisecond) s, []).
Definition demo_post (b : string) : HttpRequest := mkHttpRequest "POST" b Background.
Definition demo_st : St unit := mkSt 0 tt (λ _, false).

Lemma SubmitClaim_refuses_witness :
  let m := SubmitClaim demo_rand (demo_tenant_svc "active") demo_orch None
             new_writer (demo_post "{") in
  trace m demo_st = [] /\ final m demo_st = demo_st /\
  w_status (result_of m demo_st) = Some 400 /\
  w_header (result_of m demo_st) !! "Content-Type"%string = Some "application/json"%string /\
  (exists v, readValue (bytes_of (w_body (result_of m demo_st))) = inl v /\
     string_member v "error" = Some (clean "invalid request body: unexpected EOF")).
Proof.
  apply (SubmitClaim_refuses demo_rand (demo_tenant_svc "active") demo_orch
           None (demo_post "{") demo_st). reflexivity.
Defined.

Lemma SubmitClaim_gates_tenant_witness :
  let svc := demo_tenant_svc "suspended" in
  let m := SubmitClaim demo_rand svc demo_orch None
             new_writer (demo_post demo_text) in
  let ctx := claim_ctx demo_rand svc (demo_post demo_text) demo_st in
  let id := "abababababababababababababababab"%string in
  calls_of (trace m demo_st) = [CallGetTenant "acme_insurance"] /\
  TenantIDFrom ctx = "acme_insurance"%string /\ CorrelationIDFrom ctx = id /\
  (exists t e, ctx_done ctx = Some (t, e) /\
     t <= now (resolved demo_rand svc (demo_post demo_text) demo_st) + 5 * Second).
Proof.
  apply (SubmitClaim_gates_tenant demo_rand (demo_tenant_svc "suspended")
           demo_orch None (demo_post demo_text) demo_body demo_st); reflexivity.
Defined.

Lemma SubmitClaim_answers_witness :
  let svc := demo_tenant_svc "active" in
  let out := result_of (SubmitClaim demo_rand svc demo_orch None
                          new_writer (demo_post demo_text)) demo_st in
  let orch := result_of (claim_call demo_rand svc demo_orch (demo_post demo_text) demo_body demo_st)
                (resolved demo_rand svc (demo_post demo_text) demo_st) in
  w_status out = Some 200 /\
  w_header out !! "Content-Type"%string = Some "application/json"%string /\
  (forall resp, is_active (tenant_answer demo_rand svc (demo_post demo_text) demo_st) = true -> orch = Ok resp ->
     w_body out = default ""%string (Encode (BClaim (claim_response resp)))).
Proof.
  apply (SubmitClaim_answers demo_rand (demo_tenant_svc "active") demo_orch
           None (demo_post demo_text) demo_body demo_st). reflexivity.
Defined.

Lemma until_timely c d (s : St unit) :
  now s <= now (until c d s) /\
  (forall t e, ctx_done c = Some (t, e) -> now (until c d s) <= Z.max (now s) t).
Proof.
  unfold until. simpl. destruct (ctx_done c) as [[t e]|]; split; intros; simplify_eq; lia.
Qed.

Lemma SubmitClaim_duration_witness :
  let m := SubmitClaim demo_rand (demo_tenant_svc "active") demo_orch None
             new_writer (demo_post demo_text) in
  0 <= now (final m demo_st) <= 0 + 7 * Second.
Proof.
  apply (SubmitClaim_duration demo_rand (demo_tenant_svc "active") demo_orch
           None new_writer (demo_post demo_text) demo_st); [reflexivity|..];
    intros c q; split; [intros s|intros s t e|intros s|intros s t e]; apply until_timely.
Defined.

Lemma New_identifies_witness :
  (result_of (demo_rand 16) demo_st = Ok (replicate 16 171) ->
   String.length (result_of (New demo_rand) demo_st) = 32%nat /\
   hex_decode (bytes_of (result_of (New demo_rand) demo_st)) = replicate 16 171 /\
   header_value (result_of (New demo_rand) demo_st)) /\
  (is_ok (result_of (demo_rand 16) demo_st) = false ->
   result_of (New demo_rand) demo_st = "correlation-id-unavailable"%string /\
   header_value (result_of (New demo_rand) demo_st)).
Proof.
  apply (New_identifies demo_rand demo_st (replicate 16 171)); [reflexivity|].
  apply Forall_replicate. unfold is_byte. lia.
Defined.

Lemma SubmitClaim_reads_request_witness :
  let text := default [] (object_text (request_fields demo_body)) in
  let r := mkHttpRequest "POST" (string_of (text ++ bytes_of " and more")) Background in
  accepted r = Some demo_body /\
  (is_active (tenant_answer demo_rand (demo_tenant_svc "active") r demo_st) = true ->
   CallProcessClaim (Some (claim_of demo_body (result_of (New demo_rand) demo_st)))
     ∈ calls_of (trace (SubmitClaim demo_rand (demo_tenant_svc "active") demo_orch None new_writer r)
                   demo_st)).
Proof.
  apply (SubmitClaim_reads_request demo_rand (demo_tenant_svc "active") demo_orch None demo_body _
           (bytes_of " and more") Background demo_st).
  - by_compute.
  - apply bytes_of_range.
  - repeat split; apply ascii_valid; apply (bool_decide_unpack _); by_compute.
  - done.
  - done.
  - done.
Defined.

Lemma SubmitClaim_forwards_valid_witness :
  let id := "abababababababababababababababab"%string in
  exists c, Some (claim_of demo_body id) = Some c /\
    Forall valid_string [ClaimId c; CorrelationId c; Product c; EventType c; PolicyNumber c;
                         ClaimantName c; RawAddress c].
Proof.
  apply (SubmitClaim_forwards_valid demo_rand (demo_tenant_svc "active") demo_orch None new_writer
           (demo_post demo_text) demo_st).
  - apply (bool_decide_unpack _). by_compute.
  - done.
  - done.
  - done.
  - vm_compute. right. left.
Defined.

(** A service that answers with a NaN score. *)
Definition nan_orch (c : Ctx) (q : option ProcessClaimRequest) : M unit (result ProcessClaimResponse) :=
  mret (Ok (mkProcessClaimResponse (GetClaimId (GetClaim q)) (GetCorrelationId (GetClaim q))
              "scored" "" S754_nan "rules-v1")).

Lemma SubmitClaim_body_witness :
  let out := result_of (SubmitClaim demo_rand (demo_tenant_svc "active") nan_orch None new_writer
                          (demo_post demo_text)) demo_st in
  w_status out = Some 200 /\ w_body out = ""%string.
Proof.
  apply (SubmitClaim_body demo_rand (demo_tenant_svc "active") nan_orch None (demo_post demo_text)
           demo_body demo_st
           (mkProcessClaimResponse "CLM-1" "abababababababababababababababab" "scored" "" S754_nan "rules-v1")).
  - vm_compute. reflexivity.
  - vm_compute. reflexivity.
  - vm_compute. reflexivity.
Defined.
