(* ===== verification/Startup.v ===== *)
(** * Process start-up: dialling, wiring, listening and serving

    The four [main] functions, the [Dial*] constructors of the gRPC clients and
    their [Close] methods.  A [main] is a computation that ends by returning or
    by [log.Fatalf], which exits at once and runs no deferred call.  What gRPC,
    [net] and [net/http] do is a parameter; [GrpcConn] is the interface of a
    client connection, [GrpcConnLaws] its documented behaviour. *)

From S2P Require Import Prelude Float64 GoStrings Messages Payloads Effects Telemetry TenantConfig.
From S2P Require Import DagConfig.
From S2P Require Import Loader Kafka Executor Servers Gateway.

(** ** Processes *)

(** How a process stops: [log.Fatalf] with its error, or (in the model only)
    a warm-up loop whose fuel ran out. *)
Inductive Stop := Fatal (err : GoErr) | OutOfFuel.

(** A stretch of [main]: it goes on with a value, or the process stops. *)
Abbreviation Proc E A := (M E (Stop + A)%type).

Definition stop {E A} (e : Stop) : Proc E A := mret (inl e).

(** [x, err := m; if err != nil { log.Fatalf(prefix + ": %v", err) }; k(x)]. *)
Definition or_fatal {E A B} (prefix : string) (m : M E (option (result A))) (k : A -> Proc E B)
    : Proc E B :=
  r ← m;
  match r with
  | None => stop OutOfFuel
  | Some (Err err) => stop (Fatal (ErrWrap prefix err))
  | Some (Ok a) => k a
  end.

(** An operation whose result is an error pair, in place of [m] above. *)
Definition checked {E A} (m : M E (result A)) : M E (option (result A)) := r ← m; mret (Some r).

(** [defer close(); body]: the deferred call runs when [body] returns, and not
    when the process stops in it. *)
Definition deferring {E} (close : M E (result unit)) (body : Proc E unit) : Proc E unit :=
  r ← body;
  match r with
  | inl e => stop e
  | inr _ => _ ← close; mret (inr tt)
  end.

(** [getenv] over the process environment. *)
Definition Env : Type := gmap string string.
Definition os_Getenv (env : Env) (key : string) : string := default "" (env !! key).
Definition getenv (env : Env) (key fallback : string) : string :=
  let v := os_Getenv env key in if bool_decide (v <> "") then v else fallback.

(** ** Client connections *)

(** [grpc.WithTransportCredentials(insecure.NewCredentials())] and
    [grpc.WithUnaryInterceptor(telemetry.UnaryClientInterceptor(logger))]. *)
Record DialOptions := mkDialOptions { insecure_credentials : bool; unary_interceptor : Logger }.

(** What the services use of [grpc.ClientConn]. *)
Class GrpcConn (E Conn ConnState : Type) := {
  grpc_NewClient : string -> DialOptions -> M E (result Conn);
  conn_Target : Conn -> string;
  conn_Connect : Conn -> M E unit;
  conn_GetState : Conn -> M E ConnState;
  conn_WaitForStateChange : Conn -> Ctx -> ConnState -> M E bool;
  conn_Close : Conn -> M E (result unit);
  connectivity_Ready : ConnState;
  state_String : ConnState -> string }.

(** The constructors that protoc generates: a client over a connection. *)
Class GeneratedClients (E Conn : Type) := {
  NewAddressNormalizationServiceClient :
    Conn -> Ctx -> option NormalizeRequest -> M E (result (option NormalizeResponse));
  NewClaimantIdHashingServiceClient :
    Conn -> Ctx -> option HashClaimantIdRequest -> M E (result (option HashClaimantIdResponse));
  NewPolicyLookupServiceClient :
    Conn -> Ctx -> option LookupPolicyRequest -> M E (result (option LookupPolicyResponse));
  NewModelServiceClient :
    Conn -> Ctx -> option ScoreRequest -> M E (result (option ScoreResponse));
  NewTenantConfigServiceClient_GetDagVersion :
    Conn -> Ctx -> option GetDagVersionRequest -> M E (result (option GetDagVersionResponse));
  NewTenantConfigServiceClient_GetTenant :
    Conn -> Ctx -> option GetTenantRequest -> M E (result TenantContext);
  NewOrchestrationServiceClient :
    Conn -> Ctx -> option ProcessClaimRequest -> M E (result ProcessClaimResponse) }.

(** A client: its connection and the generated client over it. *)
Record Client (Conn Rpc : Type) := mkClient { c_conn : Conn; c_rpc : Rpc }.
Arguments mkClient {_ _} _ _.
Arguments c_conn {_ _} _.
Arguments c_rpc {_ _} _.

(** The client structs: a connection and the generated client they call. *)
Definition AddressNormClient (E Conn : Type) : Type :=
  Client Conn (Ctx -> option NormalizeRequest -> M E (result (option NormalizeResponse))).
Definition ClaimantIDHashClient (E Conn : Type) : Type :=
  Client Conn (Ctx -> option HashClaimantIdRequest -> M E (result (option HashClaimantIdResponse))).
Definition PolicyLookupClient (E Conn : Type) : Type :=
  Client Conn (Ctx -> option LookupPolicyRequest -> M E (result (option LookupPolicyResponse))).
Definition ModelClient (E Conn : Type) : Type :=
  Client Conn (Ctx -> option ScoreRequest -> M E (result (option ScoreResponse))).
Definition TenantConfigClient (E Conn : Type) : Type :=
  Client Conn (Ctx -> option GetDagVersionRequest -> M E (result (option GetDagVersionResponse))).
Definition gateway_TenantConfigClient (E Conn : Type) : Type :=
  Client Conn (Ctx -> option GetTenantRequest -> M E (result TenantContext)).
Definition OrchestrationClient (E Conn : Type) : Type :=
  Client Conn (Ctx -> option ProcessClaimRequest -> M E (result ProcessClaimResponse)).

Section Dial.
Context {E Conn ConnState : Type} `{EqDecision ConnState} `{!GrpcConn E Conn ConnState}
  `{!GeneratedClients E Conn}.
(** The turns the warm-up loop may take. *)
Variable fuel : nat.

Definition warmUpTimeout : Z := 5 * Second.

(** The body the seven [Dial*] functions share: create the connection, warm it
    up, wrap it. *)
Definition dial {Rpc} (newRpc : Conn -> Rpc) (addr : string) (logger : Logger)
    : M E (option (result (Client Conn Rpc))) :=
  conn ← call Background (CallProcess (OpNewClient addr)) (grpc_NewClient addr (mkDialOptions true logger));
  match conn with
  | Err err => mret (Some (Err err))
  | Ok conn =>
      warm ← WarmUp connectivity_Ready (conn_Connect conn) (conn_GetState conn)
               (conn_WaitForStateChange conn) state_String fuel logger addr warmUpTimeout;
      match warm with
      | None => mret None
      | Some _ => mret (Some (Ok (mkClient conn (newRpc conn))))
      end
  end.

Definition DialAddressNorm := dial NewAddressNormalizationServiceClient.
Definition DialClaimantIDHash := dial NewClaimantIdHashingServiceClient.
Definition DialPolicyLookup := dial NewPolicyLookupServiceClient.
Definition DialModel := dial NewModelServiceClient.
Definition DialTenantConfig := dial NewTenantConfigServiceClient_GetDagVersion.
Definition gateway_DialTenantConfig := dial NewTenantConfigServiceClient_GetTenant.
Definition DialOrchestration := dial NewOrchestrationServiceClient.

(** [Close] of a client. *)
Definition Close {Rpc} (c : Client Conn Rpc) : M E (result unit) :=
  call Background (CallProcess (OpClose (conn_Target (c_conn c)))) (conn_Close (c_conn c)).

(** [Close] of each. *)
Definition AddressNormClient_Close (c : AddressNormClient E Conn) : M E (result unit) := Close c.
Definition ClaimantIDHashClient_Close (c : ClaimantIDHashClient E Conn) : M E (result unit) := Close c.
Definition PolicyLookupClient_Close (c : PolicyLookupClient E Conn) : M E (result unit) := Close c.
Definition ModelClient_Close (c : ModelClient E Conn) : M E (result unit) := Close c.
Definition TenantConfigClient_Close (c : TenantConfigClient E Conn) : M E (result unit) := Close c.
Definition gateway_TenantConfigClient_Close (c : gateway_TenantConfigClient E Conn) : M E (result unit) := Close c.
Definition OrchestrationClient_Close (c : OrchestrationClient E Conn) : M E (result unit) := Close c.
End Dial.

(** ** cmd/orchestration/main.go *)
Section OrchestrationMain.
Context {E Conn ConnState Listener : Type} `{EqDecision ConnState} `{!GrpcConn E Conn ConnState}
  `{!GeneratedClients E Conn}.
Variable fuel : nat.
Variable ReadFile : string -> M E (result string).
Variable Unmarshal : string -> result Config.
Variable WriteMessages : KafkaWriter -> Ctx -> Message -> M E (result unit).
Variable writer_Close : KafkaWriter -> M E (result unit).
(** [net.Listen] on TCP, and [Serve] of a gRPC server with the given
    interceptor and the given registered service. *)
Variable net_Listen : string -> M E (result Listener).
Variable Serve : Listener -> Logger ->
  (Ctx -> option ProcessClaimRequest -> M E (result ProcessClaimResponse)) -> M E (result unit).

Definition orchestration_stubs
    (addressNorm : AddressNormClient E Conn) (claimantIDHash : ClaimantIDHashClient E Conn)
    (policyLookup : PolicyLookupClient E Conn) (model : ModelClient E Conn)
    (tenantConfig : TenantConfigClient E Conn)
    : Stubs E :=
  mkStubs E (c_rpc addressNorm) (c_rpc claimantIDHash) (c_rpc policyLookup) (c_rpc model)
    (c_rpc tenantConfig).

Definition orchestration_main (env : Env) : Proc E unit :=
  let grpcAddr := getenv env "ORCHESTRATION_GRPC_ADDR" ":9091" in
  let addressNormAddr := getenv env "ADDRESS_NORMALIZATION_ADDR" "localhost:9092" in
  let modelAddr := getenv env "MODEL_SERVICE_ADDR" "localhost:9093" in
  let tenantConfigAddr := getenv env "TENANT_CONFIG_ADDR" "localhost:9094" in
  let claimantIDHashAddr := getenv env "CLAIMANT_ID_HASHING_ADDR" "localhost:9095" in
  let policyLookupAddr := getenv env "POLICY_LOOKUP_ADDR" "localhost:9096" in
  let kafkaBrokerAddr := getenv env "KAFKA_BROKER_ADDR" "localhost:19092" in
  let dagConfigDir := getenv env "DAG_CONFIG_DIR" "../../config/dag" in
  let logger := NewLogger "orchestration-service" in
  or_fatal ("dial tenant-config-svc at " +:+ tenantConfigAddr)
    (DialTenantConfig fuel tenantConfigAddr logger) (λ tenantConfig,
  deferring (TenantConfigClient_Close tenantConfig) (
  or_fatal ("dial address-normalization-svc at " +:+ addressNormAddr)
    (DialAddressNorm fuel addressNormAddr logger) (λ addressNorm,
  deferring (AddressNormClient_Close addressNorm) (
  or_fatal ("dial claimant-id-hashing-svc at " +:+ claimantIDHashAddr)
    (DialClaimantIDHash fuel claimantIDHashAddr logger) (λ claimantIDHash,
  deferring (ClaimantIDHashClient_Close claimantIDHash) (
  or_fatal ("dial policy-lookup-svc at " +:+ policyLookupAddr)
    (DialPolicyLookup fuel policyLookupAddr logger) (λ policyLookup,
  deferring (PolicyLookupClient_Close policyLookup) (
  or_fatal ("dial model-service at " +:+ modelAddr) (DialModel fuel modelAddr logger) (λ model,
  deferring (ModelClient_Close model) (
  let publisher := NewPublisher kafkaBrokerAddr in
  deferring (Publisher_Close writer_Close publisher) (
  let srv := OrchestrationServer.ProcessClaim
    (orchestration_executor
       (orchestration_stubs addressNorm claimantIDHash policyLookup model tenantConfig)
       ReadFile Unmarshal (WriteMessages (writer publisher)) dagConfigDir) in
  or_fatal ("listen on " +:+ grpcAddr)
    (checked (call Background (CallProcess (OpListen grpcAddr)) (net_Listen grpcAddr))) (λ lis,
  _ ← log_Info logger "orchestration-service starting"
        [("grpc_addr"%string, AStr grpcAddr); ("address_norm_addr"%string, AStr addressNormAddr);
         ("claimant_id_hash_addr"%string, AStr claimantIDHashAddr);
         ("policy_lookup_addr"%string, AStr policyLookupAddr);
         ("model_addr"%string, AStr modelAddr); ("tenant_config_addr"%string, AStr tenantConfigAddr);
         ("kafka_broker_addr"%string, AStr kafkaBrokerAddr);
         ("dag_config_dir"%string, AStr dagConfigDir)];
  or_fatal "orchestration-service server failed"
    (checked (call Background (CallProcess (OpServe grpcAddr)) (Serve lis logger srv))) (λ _,
  mret (inr tt)))))))))))))).
End OrchestrationMain.

(** ** cmd/gateway/main.go *)

(** An [http.ServeMux] with the patterns registered in it; a pattern without a
    trailing slash matches its path only.  [None]: [net/http] answers itself. *)
Definition HandlerFunc (E : Type) : Type := Writer -> HttpRequest -> M E Writer.
Definition ServeMux (E : Type) : Type := list (string * HandlerFunc E).
Definition HandleFunc {E} (mux : ServeMux E) (pattern : string) (h : HandlerFunc E) : ServeMux E :=
  mux ++ [(pattern, h)].
Definition mux_handler {E} (mux : ServeMux E) (path : string) : option (HandlerFunc E) :=
  (λ iph, iph.2.2) <$> list_find (λ ph, ph.1 = path) mux.

Section GatewayMain.
Context {E Conn ConnState : Type} `{EqDecision ConnState} `{!GrpcConn E Conn ConnState}
  `{!GeneratedClients E Conn}.
Variable fuel : nat.
Variable rand_Read : Z -> M E (result (list Z)).
Variable http_ListenAndServe : string -> ServeMux E -> M E (result unit).

Definition gateway_mux (tenantConfig : Ctx -> option GetTenantRequest -> M E (result TenantContext))
    (orchestration : Ctx -> option ProcessClaimRequest -> M E (result ProcessClaimResponse))
    (logger : Logger) : ServeMux E :=
  let h := SubmitClaim rand_Read (TenantConfig_GetTenant tenantConfig)
             (Orchestration_ProcessClaim orchestration) (Some logger) in
  let mux := HandleFunc [] "/v1/claims" h in
  HandleFunc mux "/healthz" (λ w _, mret (Healthz w)).

Definition gateway_main (env : Env) : Proc E unit :=
  let httpAddr := getenv env "GATEWAY_HTTP_ADDR" ":8080" in
  let orchestrationAddr := getenv env "ORCHESTRATION_ADDR" "localhost:9091" in
  let tenantConfigAddr := getenv env "TENANT_CONFIG_ADDR" "localhost:9094" in
  let logger := NewLogger "claims-gateway" in
  or_fatal ("dial tenant-config-svc at " +:+ tenantConfigAddr)
    (gateway_DialTenantConfig fuel tenantConfigAddr logger) (λ tenantConfig,
  deferring (gateway_TenantConfigClient_Close tenantConfig) (
  or_fatal ("dial orchestration service at " +:+ orchestrationAddr)
    (DialOrchestration fuel orchestrationAddr logger) (λ orchestration,
  deferring (OrchestrationClient_Close orchestration) (
  let mux := gateway_mux (c_rpc tenantConfig) (c_rpc orchestration) logger in
  _ ← log_Info logger "claims-gateway starting"
        [("http_addr"%string, AStr httpAddr); ("orchestration_addr"%string, AStr orchestrationAddr);
         ("tenant_config_addr"%string, AStr tenantConfigAddr)];
  or_fatal "claims-gateway server failed"
    (checked (call Background (CallProcess (OpServe httpAddr)) (http_ListenAndServe httpAddr mux)))
    (λ _, mret (inr tt)))))).
End GatewayMain.

(** ** cmd/tenantconfig/main.go and cmd/model/main.go *)

(** The services registered with these servers. *)
Record TenantConfigService (E : Type) := mkTenantConfigService {
  svc_GetTenant : Ctx -> option GetTenantRequest -> M E (result TenantContext);
  svc_GetDagVersion : Ctx -> option GetDagVersionRequest -> M E (result (option GetDagVersionResponse)) }.
Arguments mkTenantConfigService {_} _ _.
Arguments svc_GetTenant {_} _.
Arguments svc_GetDagVersion {_} _.

Section PlainMains.
Context {E Listener : Type}.
Variable isPrintTable : Z -> bool.
Variable net_Listen : string -> M E (result Listener).

Definition tenantconfig_service (st : Store) (logger : Logger) : TenantConfigService E :=
  mkTenantConfigService
    (λ ctx req, GetTenant isPrintTable st (Some logger) ctx (GetTenantId req))
    (λ ctx req,
       r ← GetDagVersion isPrintTable st (Some logger) ctx
             (from_option dq_tenant_id "" req) (from_option dq_product "" req);
       mret match r with Ok v => Ok (Some (mkDagVersionResp v)) | Err e => Err e end).

Definition tenantconfig_main (ReadFile : string -> M E (result string))
    (Unmarshal : string -> result tenantsFile)
    (Serve : Listener -> Logger -> TenantConfigService E -> M E (result unit)) (env : Env)
    : Proc E unit :=
  let grpcAddr := getenv env "TENANT_CONFIG_GRPC_ADDR" ":9094" in
  let tenantsFile := getenv env "TENANTS_FILE" "../../config/tenants.yaml" in
  let logger := NewLogger "tenant-config-svc" in
  or_fatal ("load tenants file " +:+ tenantsFile)
    (checked (LoadTenants ReadFile Unmarshal tenantsFile)) (λ st,
  or_fatal ("listen on " +:+ grpcAddr)
    (checked (call Background (CallProcess (OpListen grpcAddr)) (net_Listen grpcAddr))) (λ lis,
  _ ← log_Info logger "tenant-config-svc starting"
        [("grpc_addr"%string, AStr grpcAddr); ("tenants_file"%string, AStr tenantsFile)];
  or_fatal "tenant-config-svc server failed"
    (checked (call Background (CallProcess (OpServe grpcAddr))
                (Serve lis logger (tenantconfig_service st logger)))) (λ _,
  mret (inr tt)))).

Definition model_main
    (Serve : Listener -> Logger -> (Ctx -> option ScoreRequest -> M E (result ScoreResponse)) ->
             M E (result unit)) (env : Env) : Proc E unit :=
  let grpcAddr := getenv env "MODEL_GRPC_ADDR" ":9093" in
  let logger := NewLogger "model-service" in
  or_fatal ("listen on " +:+ grpcAddr)
    (checked (call Background (CallProcess (OpListen grpcAddr)) (net_Listen grpcAddr))) (λ lis,
  _ ← log_Info logger "model-service starting"
        [("grpc_addr"%string, AStr grpcAddr); ("scoring_mode"%string, AStr "rules-based")];
  or_fatal "model-service server failed"
    (checked (call Background (CallProcess (OpServe grpcAddr))
                (Serve lis logger (ModelServer.Score isPrintTable (Some logger))))) (λ _,
  mret (inr tt))).
End PlainMains.

(** ** The behaviour of a connection *)

(** Creating, starting and inspecting a connection do not block; waiting for a
    state change returns [true] after a change, which takes at least [step] and
    comes before the context is done, or [false] by the time it is done.  None
    of them is a call of another service of the platform. *)
Class GrpcConnLaws (E Conn ConnState : Type) `{!GrpcConn E Conn ConnState} (step : Z) : Prop := {
  conn_step_pos : 0 < step;
  NewClient_instant addr opts s : now (final (grpc_NewClient (E := E) addr opts) s) = now s;
  NewClient_target addr opts c (s : St E) :
    result_of (grpc_NewClient addr opts) s = Ok c -> conn_Target c = addr;
  Connect_instant c (s : St E) : now (final (conn_Connect c) s) = now s;
  GetState_instant c (s : St E) : now (final (conn_GetState c) s) = now s;
  Wait_changed c ctx st (s : St E) t e :
    result_of (conn_WaitForStateChange c ctx st) s = true -> ctx_done ctx = Some (t, e) ->
    now s + step <= now (final (conn_WaitForStateChange c ctx st) s) <= t;
  Wait_expired c ctx st (s : St E) t e :
    result_of (conn_WaitForStateChange c ctx st) s = false -> ctx_done ctx = Some (t, e) ->
    now (final (conn_WaitForStateChange c ctx st) s) <= Z.max (now s) t;
  NewClient_quiet addr opts (s : St E) : calls_of (trace (grpc_NewClient addr opts) s) = [];
  Connect_quiet c (s : St E) : calls_of (trace (conn_Connect c) s) = [];
  GetState_quiet c (s : St E) : calls_of (trace (conn_GetState c) s) = [];
  Wait_quiet c ctx st (s : St E) : calls_of (trace (conn_WaitForStateChange c ctx st) s) = [];
  Close_quiet c (s : St E) : calls_of (trace (conn_Close c) s) = [] }.

(** ** Lemmas *)
Section DialFacts.
Context {E Conn ConnState : Type} `{EqDecision ConnState} `{!GrpcConn E Conn ConnState}
  `{!GeneratedClients E Conn} {step : Z} `{!GrpcConnLaws E Conn ConnState step}.
Context (fuel : nat) (Hfuel : warmUpTimeout / step + 2 <= Z.of_nat fuel).

Definition new_client (addr : string) (logger : Logger) : M E (result Conn) :=
  grpc_NewClient addr (mkDialOptions true logger).

(** A dial succeeds exactly when the connection can be created, whether or not
    the peer is up, and takes at most the warm-up timeout. *)
Lemma dial_run {Rpc} (newRpc : Conn -> Rpc) addr logger s :
  let m := dial fuel newRpc addr logger in
  result_of m s = Some match result_of (new_client addr logger) s with
                       | Err e => Err e
                       | Ok c => Ok (mkClient c (newRpc c))
                       end /\
  now (final m s) <= now s + warmUpTimeout /\
  calls_of (trace m s) = [CallProcess (OpNewClient addr)].
Proof.
  unfold dial. fold (new_client addr logger). run. run_calls.
  assert (Hq : calls_of (trace (new_client addr logger) s) = []) by apply NewClient_quiet.
  rewrite Hq. simpl.
  assert (Hn : now (final (new_client addr logger) s) = now s) by apply NewClient_instant.
  destruct (result_of (new_client addr logger) s) as [c|e]; run.
  - edestruct (WarmUp_returns connectivity_Ready (conn_Connect c) (conn_GetState c)
                 (conn_WaitForStateChange c) state_String step conn_step_pos
                 (Connect_instant c) (GetState_instant c) (Wait_changed c) (Wait_expired c)
                 fuel logger addr warmUpTimeout (final (new_client addr logger) s)) as [Hr Ht];
      [done|done|].
    rewrite Hr. run. run_calls. split_and!; [done|lia|].
    by rewrite WarmUp_calls by (apply Connect_quiet || apply GetState_quiet || apply Wait_quiet).
  - split_and!; [done| |done]. unfold warmUpTimeout, Second, Millisecond. lia.
Qed.

(** C34: dialling terminates: whatever the peer does, the warm-up loop ends, at
    the latest when its 5 seconds are over; a fuel of one turn per [step] of
    them and two more is never used up, and any larger one gives the very same
    computation.  The dial fails exactly when the connection cannot be created,
    never because the peer is down. *)
Theorem dial_terminates {Rpc} (newRpc : Conn -> Rpc) fuel' addr logger s :
  (fuel <= fuel')%nat ->
  dial fuel' newRpc addr logger s = dial fuel newRpc addr logger s /\
  result_of (dial fuel newRpc addr logger) s =
    Some (match result_of (grpc_NewClient addr (mkDialOptions true logger)) s with
          | Err e => Err e
          | Ok c => Ok (mkClient c (newRpc c))
          end) /\
  now (final (dial fuel newRpc addr logger) s) <= now s + 5 * Second.
Proof.
  intros Hle. destruct (dial_run newRpc addr logger s) as (Hr & Ht & _). split_and!; [|done|done].
  unfold dial. apply bind_ext_at. destruct (result_of (call _ _ _) s) as [c|e]; [|done].
  unfold mbind, M_bind.
  by rewrite (WarmUp_more connectivity_Ready (conn_Connect c) (conn_GetState c)
           (conn_WaitForStateChange c) state_String step conn_step_pos
           (Connect_instant c) (GetState_instant c) (Wait_changed c) (Wait_expired c) fuel fuel').
Qed.

(** A dial followed by the rest of a [main]. *)
Lemma dial_then {Rpc} prefix (newRpc : Conn -> Rpc) addr logger (k : Client Conn Rpc -> Proc E unit) s :
  let m := or_fatal prefix (dial fuel newRpc addr logger) (λ c, deferring (Close c) (k c)) in
  let s1 := final (dial fuel newRpc addr logger) s in
  now s1 <= now s + warmUpTimeout /\
  match result_of (new_client addr logger) s with
  | Err e => result_of m s = inl (Fatal (ErrWrap prefix e)) /\
             calls_of (trace m s) = [CallProcess (OpNewClient addr)]
  | Ok c => let rest := k (mkClient c (newRpc c)) in
            result_of m s = result_of rest s1 /\
            calls_of (trace m s) =
              CallProcess (OpNewClient addr) :: calls_of (trace rest s1) ++
              (if result_of rest s1 is inl _ then [] else [CallProcess (OpClose addr)])
  end.
Proof.
  destruct (dial_run newRpc addr logger s) as (Hr & Ht & Hc). cbv zeta. split; [done|].
  unfold or_fatal, deferring. run. rewrite calls_of_app, Hc, Hr.
  destruct (result_of (new_client addr logger) s) as [c|e] eqn:Hn; run; [|done]. simpl.
  rewrite calls_of_app. destruct (result_of (k _) _) as [st|[]]; [done|].
  unfold Close, stop. run. run_calls. simpl.
  by rewrite (NewClient_target _ _ _ _ Hn), Close_quiet.
Qed.

(** The process performs [op], and stops or returns as [Q] says. *)
Definition attains (Q : Stop + unit -> Prop) (op : Call) (m : Proc E unit) (s : St E) : Prop :=
  op ∈ calls_of (trace m s) /\ Q (result_of m s).

(** When the connection can be created, the rest of the [main] runs, at most
    5 seconds later. *)
Lemma attains_dial {Rpc} prefix (newRpc : Conn -> Rpc) addr logger
    (k : Client Conn Rpc -> Proc E unit) Q op s :
  is_ok (result_of (new_client addr logger) s) = true ->
  (forall c s1, conn_Target c = addr -> now s1 <= now s + warmUpTimeout ->
     attains Q op (k (mkClient c (newRpc c))) s1) ->
  attains Q op (or_fatal prefix (dial fuel newRpc addr logger) (λ c, deferring (Close c) (k c))) s.
Proof.
  intros Hok Hk. destruct (dial_then prefix newRpc addr logger k s) as [Ht Hm].
  destruct (result_of (new_client addr logger) s) as [c|e] eqn:Hn; [|done].
  destruct Hm as [Hr Hc]. destruct (Hk c _ (NewClient_target _ _ _ _ Hn) Ht) as [Hop HQ].
  split; [|by rewrite Hr]. rewrite Hc. apply elem_of_cons. right. apply elem_of_app. by left.
Qed.
End DialFacts.

(** A checked operation of a [main], then the rest. *)
Lemma or_fatal_checked {E A B} prefix (m : M E (result A)) (k : A -> Proc E B) s :
  or_fatal prefix (checked m) k s =
    match result_of m s with
    | Ok a => ((k a (final m s)).1, trace m s ++ trace (k a) (final m s))
    | Err e => (inl (Fatal (ErrWrap prefix e)), final m s, trace m s)
    end.
Proof.
  unfold or_fatal, checked, stop. rewrite M_bind_unfold. run. rewrite app_nil_r.
  destruct (result_of m s) as [a|e]; [done|]. unfold mret, M_ret, trace. simpl. by rewrite app_nil_r.
Qed.

(** *** Opening a list of connections, then serving *)

(** The result and the calls of a [main] that dials the targets in order, each
    with its message, defers their closing, and goes on as [P] says. *)
Fixpoint opened (targets : list (string * string)) (P : Stop + unit -> list Call -> Prop)
    (r : Stop + unit) (cs : list Call) : Prop :=
  match targets with
  | [] => P r cs
  | (prefix, addr) :: targets' =>
      (exists e, r = inl (Fatal (ErrWrap prefix e)) /\ cs = [CallProcess (OpNewClient addr)]) \/
      (exists cs', opened targets' P r cs' /\
         cs = CallProcess (OpNewClient addr) :: cs' ++
              (if r is inl _ then [] else [CallProcess (OpClose addr)]))
  end.

Lemma opened_spec targets P r cs :
  opened targets P r cs ->
  (exists k prefix addr e, targets !! k = Some (prefix, addr) /\
     r = inl (Fatal (ErrWrap prefix e)) /\
     cs = CallProcess ∘ OpNewClient <$> take (S k) targets.*2) \/
  (exists cs', P r cs' /\
     cs = (CallProcess ∘ OpNewClient <$> targets.*2) ++ cs' ++
          (if r is inl _ then [] else CallProcess ∘ OpClose <$> reverse targets.*2)).
Proof.
  revert cs. induction targets as [|[prefix addr] targets IH]; intros cs; cbn [opened].
  { intros HP. right. exists cs. split; [done|]. destruct r; by rewrite app_nil_r. }
  intros [(e & -> & ->)|(cs' & Ho & ->)]; [left; by exists 0%nat, prefix, addr, e|].
  destruct (IH _ Ho) as [(k & prefix' & addr' & e & Hk & -> & ->)|(cs'' & HP & ->)].
  - left. exists (S k), prefix', addr', e. split_and!; [done|done|]. by rewrite app_nil_r.
  - right. exists cs''. split; [done|]. destruct r as [st|[]]; csimpl; [by rewrite !app_nil_r|].
    rewrite reverse_cons, fmap_app, <- !app_assoc. done.
Qed.

Section OpenFacts.
Context {E Conn ConnState : Type} `{EqDecision ConnState} `{!GrpcConn E Conn ConnState}
  `{!GeneratedClients E Conn} {step : Z} `{!GrpcConnLaws E Conn ConnState step}.
Context (fuel : nat) (Hfuel : warmUpTimeout / step + 2 <= Z.of_nat fuel).

Lemma opened_dial {Rpc} prefix (newRpc : Conn -> Rpc) addr logger
    (k : Client Conn Rpc -> Proc E unit) targets P :
  (forall c s, opened targets P (result_of (k c) s) (calls_of (trace (k c) s))) ->
  forall s, let m := or_fatal prefix (dial fuel newRpc addr logger) (λ c, deferring (Close c) (k c)) in
  opened ((prefix, addr) :: targets) P (result_of m s) (calls_of (trace m s)).
Proof.
  intros Hk s. cbv zeta. cbn [opened].
  destruct (dial_then fuel Hfuel prefix newRpc addr logger k s) as [_ Hm].
  destruct (result_of (new_client addr logger) s) as [c|e].
  - destruct Hm as [-> ->]. right. eexists. split; [apply Hk|done].
  - destruct Hm as [-> ->]. left. eauto.
Qed.
End OpenFacts.

(** The end of a gRPC [main]: listen, log, serve. *)
Lemma listen_serve {E Listener} (prefix_l prefix_s addr msg : string) logger attrs
    (net_Listen : string -> M E (result Listener)) (serve : Listener -> M E (result unit)) s :
  (forall s, calls_of (trace (net_Listen addr) s) = []) ->
  (forall l s, calls_of (trace (serve l) s) = []) ->
  let m := or_fatal prefix_l
    (checked (call Background (CallProcess (OpListen addr)) (net_Listen addr))) (λ lis,
    _ ← log_Info logger msg attrs;
    or_fatal prefix_s (checked (call Background (CallProcess (OpServe addr)) (serve lis)))
      (λ _, mret (inr tt) : Proc E unit)) in
  let s1 := final (net_Listen addr) s in
  match result_of (net_Listen addr) s with
  | Err e => result_of m s = inl (Fatal (ErrWrap prefix_l e)) /\
             calls_of (trace m s) = [CallProcess (OpListen addr)]
  | Ok lis =>
      result_of m s = (if result_of (serve lis) s1 is Err e
                       then inl (Fatal (ErrWrap prefix_s e)) else inr tt) /\
      calls_of (trace m s) = [CallProcess (OpListen addr); CallProcess (OpServe addr)]
  end.
Proof.
  intros Hl Hs. cbv zeta. unfold or_fatal, checked, stop. run. rewrite calls_of_app. run_calls. rewrite Hl.
  destruct (result_of (net_Listen addr) s) as [lis|e]; run; [|done]. run_calls. rewrite Hs.
  destruct (result_of (serve lis) _) as [[]|e]; run; by run_calls.
Qed.

(** How such a [main] ends, [closes] being the deferred calls it makes when it
    returns. *)
Definition served (addr failed : string) (closes : list Call) (r : Stop + unit) (cs : list Call)
    : Prop :=
  (exists e, r = inl (Fatal (ErrWrap ("listen on " +:+ addr) e)) /\ cs = [CallProcess (OpListen addr)]) \/
  (exists e, r = inl (Fatal (ErrWrap failed e)) /\
     cs = [CallProcess (OpListen addr); CallProcess (OpServe addr)]) \/
  (r = inr tt /\ cs = [CallProcess (OpListen addr); CallProcess (OpServe addr)] ++ closes).

Lemma listen_serve_served {E Listener} (addr failed msg : string) logger attrs closes
    (net_Listen : string -> M E (result Listener)) (serve : Listener -> M E (result unit))
    (close : M E (result unit)) s :
  (forall s, calls_of (trace (net_Listen addr) s) = []) ->
  (forall l s, calls_of (trace (serve l) s) = []) ->
  (forall s, calls_of (trace close s) = closes) ->
  let m := deferring close (or_fatal ("listen on " +:+ addr)
    (checked (call Background (CallProcess (OpListen addr)) (net_Listen addr))) (λ lis,
    _ ← log_Info logger msg attrs;
    or_fatal failed (checked (call Background (CallProcess (OpServe addr)) (serve lis)))
      (λ _, mret (inr tt) : Proc E unit))) in
  served addr failed closes (result_of m s) (calls_of (trace m s)).
Proof.
  intros Hl Hs Hc. cbv zeta. unfold deferring. run. rewrite calls_of_app.
  pose proof (listen_serve ("listen on " +:+ addr) failed addr msg logger attrs net_Listen serve s Hl Hs)
    as Hls. cbv zeta in Hls. unfold log_Info in Hls.
  destruct (result_of (net_Listen addr) s) as [lis|e]; destruct Hls as [-> ->]; unfold stop.
  - destruct (result_of (serve lis) _) as [[]|e]; run; run_calls.
    + right. right. by rewrite Hc.
    + right. left. eauto.
  - run. left. eauto.
Qed.

(** Listening succeeds at once: the server runs. *)
Lemma attains_serve {E Listener} (prefix_l prefix_s addr msg : string) logger attrs
    (net_Listen : string -> M E (result Listener)) (serve : Listener -> M E (result unit)) Q s :
  is_ok (result_of (net_Listen addr) s) = true ->
  (forall lis, result_of (net_Listen addr) s = Ok lis -> let s1 := final (net_Listen addr) s in
     Q (if result_of (serve lis) s1 is Err e then inl (Fatal (ErrWrap prefix_s e)) else inr tt)) ->
  attains Q (CallProcess (OpServe addr)) (or_fatal prefix_l
    (checked (call Background (CallProcess (OpListen addr)) (net_Listen addr))) (λ lis,
    _ ← log_Info logger msg attrs;
    or_fatal prefix_s (checked (call Background (CallProcess (OpServe addr)) (serve lis)))
      (λ _, mret (inr tt) : Proc E unit))) s.
Proof.
  intros Hok HQ. unfold attains, or_fatal, checked, stop. run. rewrite calls_of_app. run_calls.
  destruct (result_of (net_Listen addr) s) as [lis|e]; run; [|done]. run_calls. specialize (HQ lis eq_refl). cbv zeta in HQ.
  split.
  - apply elem_of_cons. right. apply elem_of_app. right. left.
  - destruct (result_of (serve lis) _) as [[]|e]; by run.
Qed.

Lemma attains_checked {E A} prefix (m : M E (result A)) a (k : A -> Proc E unit) Q op s :
  result_of m s = Ok a -> attains Q op (k a) (final m s) ->
  attains Q op (or_fatal prefix (checked m) k) s.
Proof.
  intros Hm [Hop HQ]. unfold attains, result_of at 1, trace at 1.
  rewrite or_fatal_checked, Hm. simpl. rewrite calls_of_app. split; [|done].
  apply elem_of_app. by right.
Qed.

Lemma attains_deferring {E} (close : M E (result unit)) Q op (body : Proc E unit) s :
  attains Q op body s -> attains Q op (deferring close body) s.
Proof.
  intros [Hop HQ]. unfold attains, deferring, stop. run. rewrite calls_of_app. split.
  - apply elem_of_app. by left.
  - destruct (result_of body s) as [e|[]]; by run.
Qed.

(** ** Properties of the orchestration service's [main] *)
Section OrchestrationFacts.
Context {E Conn ConnState Listener : Type} `{EqDecision ConnState} `{!GrpcConn E Conn ConnState}
  `{!GeneratedClients E Conn} {step : Z} `{!GrpcConnLaws E Conn ConnState step}.
Context (fuel : nat) (Hfuel : warmUpTimeout / step + 2 <= Z.of_nat fuel).
Context (ReadFile : string -> M E (result string)) (Unmarshal : string -> result Config)
  (WriteMessages : KafkaWriter -> Ctx -> Message -> M E (result unit))
  (writer_Close : KafkaWriter -> M E (result unit))
  (net_Listen : string -> M E (result Listener))
  (Serve : Listener -> Logger ->
     (Ctx -> option ProcessClaimRequest -> M E (result ProcessClaimResponse)) -> M E (result unit)).
Let main := orchestration_main fuel ReadFile Unmarshal WriteMessages writer_Close net_Listen Serve.

(** What it dials, in order, and the message of each failure. *)
Definition orchestration_targets (env : Env) : list (string * string) :=
  let target name key fallback :=
    let addr := getenv env key fallback in ("dial " +:+ name +:+ " at " +:+ addr, addr) in
  [target "tenant-config-svc" "TENANT_CONFIG_ADDR" "localhost:9094";
   target "address-normalization-svc" "ADDRESS_NORMALIZATION_ADDR" "localhost:9092";
   target "claimant-id-hashing-svc" "CLAIMANT_ID_HASHING_ADDR" "localhost:9095";
   target "policy-lookup-svc" "POLICY_LOOKUP_ADDR" "localhost:9096";
   target "model-service" "MODEL_SERVICE_ADDR" "localhost:9093"]%string.

(** C19: the life of the orchestration process: it dials its five services in
    order and stops at the first connection that cannot be created, having
    listened on nothing; otherwise it listens, then serves.  Each failure is
    fatal under its own message and closes nothing (the deferred calls are
    lost); only when serving ends without an error are the Kafka writer and
    then the connections closed, in the reverse order of their creation. *)
Theorem orchestration_main_lifecycle env s :
  (forall a s, calls_of (trace (net_Listen a) s) = []) ->
  (forall l lg h s, calls_of (trace (Serve l lg h) s) = []) ->
  (forall w s, calls_of (trace (writer_Close w) s) = []) ->
  let addr := getenv env "ORCHESTRATION_GRPC_ADDR" ":9091" in
  let broker := getenv env "KAFKA_BROKER_ADDR" "localhost:19092" in
  let targets := orchestration_targets env in
  let dials := CallProcess ∘ OpNewClient <$> targets.*2 in
  let r := result_of (main env) s in
  let cs := calls_of (trace (main env) s) in
  (exists k prefix a e, targets !! k = Some (prefix, a) /\ r = inl (Fatal (ErrWrap prefix e)) /\
     cs = CallProcess ∘ OpNewClient <$> take (S k) targets.*2) \/
  (exists e, r = inl (Fatal (ErrWrap ("listen on " +:+ addr) e)) /\
     cs = dials ++ [CallProcess (OpListen addr)]) \/
  (exists e, r = inl (Fatal (ErrWrap "orchestration-service server failed" e)) /\
     cs = dials ++ [CallProcess (OpListen addr); CallProcess (OpServe addr)]) \/
  (r = inr tt /\
   cs = dials ++ [CallProcess (OpListen addr); CallProcess (OpServe addr)] ++
        (CallProcess ∘ OpClose <$> broker :: reverse targets.*2)).
Proof.
  intros Hlisten Hserve Hclose. cbv zeta.
  assert (Ho : opened (orchestration_targets env)
                 (served (getenv env "ORCHESTRATION_GRPC_ADDR" ":9091") "orchestration-service server failed"
                    [CallProcess (OpClose (getenv env "KAFKA_BROKER_ADDR" "localhost:19092"))])
                 (result_of (main env) s)
                 (calls_of (trace (main env) s))).
  { unfold main, orchestration_main, orchestration_targets.
    repeat (apply (opened_dial fuel Hfuel); intros ??). cbn [opened].
    apply listen_serve_served; eauto.
    intros ?. unfold Publisher_Close. run. run_calls. by rewrite Hclose. }
  destruct (opened_spec _ _ _ _ Ho) as [Hd|(cs & [(e & -> & ->)|[(e & -> & ->)|[-> ->]]] & ->)].
  - by left.
  - right. left. eauto.
  - right. right. left. eauto.
  - right. right. right. done.
Qed.

(** C20: a service that is down does not keep orchestration from starting: if
    connections can be created (which involves no peer) and the address can be
    listened on, then within 25 seconds of its start (5 per connection),
    whatever the states of the connections do, the process serves
    [ProcessClaim] over the executor wired to the five configured addresses. *)
Theorem orchestration_main_serves env s :
  (forall a o s, is_ok (result_of (grpc_NewClient a o) s) = true) ->
  (forall a s, is_ok (result_of (net_Listen a) s) = true) ->
  (forall a s, now (final (net_Listen a) s) = now s) ->
  attains (λ r, exists lis s1 (norm hash lookup model tenant : Conn),
    now s1 <= now s + 25 * Second /\
    conn_Target norm = getenv env "ADDRESS_NORMALIZATION_ADDR" "localhost:9092" /\
    conn_Target hash = getenv env "CLAIMANT_ID_HASHING_ADDR" "localhost:9095" /\
    conn_Target lookup = getenv env "POLICY_LOOKUP_ADDR" "localhost:9096" /\
    conn_Target model = getenv env "MODEL_SERVICE_ADDR" "localhost:9093" /\
    conn_Target tenant = getenv env "TENANT_CONFIG_ADDR" "localhost:9094" /\
    let executor := orchestration_executor
      (mkStubs E (NewAddressNormalizationServiceClient norm) (NewClaimantIdHashingServiceClient hash)
         (NewPolicyLookupServiceClient lookup) (NewModelServiceClient model)
         (NewTenantConfigServiceClient_GetDagVersion tenant))
      ReadFile Unmarshal
      (WriteMessages (writer (NewPublisher (getenv env "KAFKA_BROKER_ADDR" "localhost:19092"))))
      (getenv env "DAG_CONFIG_DIR" "../../config/dag") in
    r = (if result_of (Serve lis (NewLogger "orchestration-service")
                       (OrchestrationServer.ProcessClaim executor)) s1 is Err e
         then inl (Fatal (ErrWrap "orchestration-service server failed" e)) else inr tt))
    (CallProcess (OpServe (getenv env "ORCHESTRATION_GRPC_ADDR" ":9091"))) (main env) s.
Proof.
  intros Hdial Hlisten Hinstant. unfold main, orchestration_main.
  do 5 (eapply (attains_dial fuel Hfuel); [apply Hdial|]; intros ?c ?s ??).
  apply attains_deferring, attains_serve; [apply Hlisten|]. intros lis _. cbv zeta.
  eexists lis, _, _, _, _, _, _.
  split_and!; [|done..|reflexivity].
  rewrite Hinstant. unfold warmUpTimeout in *. lia.
Qed.
End OrchestrationFacts.

(** ** Properties of the gateway's [main] *)
Section GatewayFacts.
Context {E Conn ConnState : Type} `{EqDecision ConnState} `{!GrpcConn E Conn ConnState}
  `{!GeneratedClients E Conn} {step : Z} `{!GrpcConnLaws E Conn ConnState step}.
Context (fuel : nat) (Hfuel : warmUpTimeout / step + 2 <= Z.of_nat fuel).
Context (rand_Read : Z -> M E (result (list Z)))
  (http_ListenAndServe : string -> ServeMux E -> M E (result unit)).
Let main := gateway_main fuel rand_Read http_ListenAndServe.

Definition gateway_targets (env : Env) : list (string * string) :=
  let target name key fallback :=
    let addr := getenv env key fallback in ("dial " +:+ name +:+ " at " +:+ addr, addr) in
  [target "tenant-config-svc" "TENANT_CONFIG_ADDR" "localhost:9094";
   target "orchestration service" "ORCHESTRATION_ADDR" "localhost:9091"]%string.

(** C36: the gateway's process ends only by [log.Fatalf]: at the first of its
    two connections that cannot be created, or when serving ends, since
    [http.ListenAndServe] always returns an error; so the deferred [Close] of
    its connections is never performed. *)
Theorem gateway_main_never_closes env s :
  (forall a m s, is_ok (result_of (http_ListenAndServe a m) s) = false) ->
  (forall a m s, calls_of (trace (http_ListenAndServe a m) s) = []) ->
  let targets := gateway_targets env in
  let r := result_of (main env) s in
  let cs := calls_of (trace (main env) s) in
  (exists k prefix a e, targets !! k = Some (prefix, a) /\ r = inl (Fatal (ErrWrap prefix e)) /\
     cs = CallProcess ∘ OpNewClient <$> take (S k) targets.*2) \/
  (exists e, r = inl (Fatal (ErrWrap "claims-gateway server failed" e)) /\
     cs = (CallProcess ∘ OpNewClient <$> targets.*2) ++
          [CallProcess (OpServe (getenv env "GATEWAY_HTTP_ADDR" ":8080"))]).
Proof.
  intros Herr Hquiet. cbv zeta.
  pose (P := λ (r : Stop + unit) cs,
    exists e, r = inl (Fatal (ErrWrap "claims-gateway server failed" e)) /\
      cs = [CallProcess (OpServe (getenv env "GATEWAY_HTTP_ADDR" ":8080"))]).
  assert (Ho : opened (gateway_targets env) P (result_of (main env) s) (calls_of (trace (main env) s))).
  { unfold main, gateway_main, gateway_targets.
    repeat (apply (opened_dial fuel Hfuel); intros ??). cbn [opened].
    unfold or_fatal, checked, stop, P. run. run_calls. rewrite Hquiet.
    match goal with |- context [result_of (http_ListenAndServe ?a ?m) ?s] =>
      specialize (Herr a m s); destruct (result_of (http_ListenAndServe a m) s) as [|e] end; [done|].
    run. run_calls. eauto. }
  destruct (opened_spec _ _ _ _ Ho) as [Hd|(cs & (e & -> & ->) & ->)]; [by left|right; eauto].
Qed.

(** C35: the gateway serves within 10 seconds of its start, even when both
    services are down, and routes [/v1/claims] to [SubmitClaim] over clients
    connected to the configured addresses and [/healthz] to [Healthz]. *)
Theorem gateway_main_serves env s :
  (forall a o s, is_ok (result_of (grpc_NewClient a o) s) = true) ->
  attains (λ r, exists mux s1 (tenant orch : Conn),
    now s1 <= now s + 10 * Second /\
    conn_Target tenant = getenv env "TENANT_CONFIG_ADDR" "localhost:9094" /\
    conn_Target orch = getenv env "ORCHESTRATION_ADDR" "localhost:9091" /\
    mux_handler mux "/v1/claims" =
      Some (SubmitClaim rand_Read
              (TenantConfig_GetTenant (NewTenantConfigServiceClient_GetTenant tenant))
              (Orchestration_ProcessClaim (NewOrchestrationServiceClient orch))
              (Some (NewLogger "claims-gateway"))) /\
    mux_handler mux "/healthz" = Some (λ w _, mret (Healthz w)) /\
    (forall path, path <> "/v1/claims"%string -> path <> "/healthz"%string -> mux_handler mux path = None) /\
    r = (if result_of (http_ListenAndServe (getenv env "GATEWAY_HTTP_ADDR" ":8080") mux) s1 is Err e
         then inl (Fatal (ErrWrap "claims-gateway server failed" e)) else inr tt))
    (CallProcess (OpServe (getenv env "GATEWAY_HTTP_ADDR" ":8080"))) (main env) s.
Proof.
  intros Hdial. unfold main, gateway_main.
  eapply (attains_dial fuel Hfuel); [apply Hdial|]; intros tenant s1 ??.
  eapply (attains_dial fuel Hfuel); [apply Hdial|]; intros orch s2 ??.
  set (mux := gateway_mux _ _ _ _).
  unfold attains, or_fatal, checked, stop. run. run_calls. split; [left|].
  exists mux, s2, tenant, orch. split_and!; [|done..| |].
  - unfold warmUpTimeout in *. lia.
  - intros path Hp1 Hp2. unfold mux, gateway_mux, mux_handler, HandleFunc. simpl.
    by rewrite !decide_False by (intros <-; done).
  - by destruct (result_of (http_ListenAndServe _ mux) _) as [[]|e].
Qed.
End GatewayFacts.

(** ** Properties of the other two [main]s *)
Section PlainFacts.
Context {E Listener : Type} (isPrintTable : Z -> bool) (net_Listen : string -> M E (result Listener)).

(** C37: tenant-config-svc serves the directory of its file or does not start:
    if the file cannot be read or parsed the process stops under that message
    before it listens; otherwise, once it can listen, the service answers
    [GetTenant] and [GetDagVersion] from the tenants of the file, the last
    entry of an id winning. *)
Theorem tenantconfig_main_serves ReadFile Unmarshal
    (Serve : Listener -> Logger -> TenantConfigService E -> M E (result unit)) env s :
  (forall a s, is_ok (result_of (net_Listen a) s) = true) ->
  (forall p s, calls_of (trace (ReadFile p) s) = []) ->
  let file := getenv env "TENANTS_FILE" "../../config/tenants.yaml" in
  let addr := getenv env "TENANT_CONFIG_GRPC_ADDR" ":9094" in
  let m := tenantconfig_main isPrintTable net_Listen ReadFile Unmarshal Serve env in
  match result_of (ReadFile file) s with
  | Err e =>
      result_of m s = inl (Fatal (ErrWrap ("load tenants file " +:+ file) (ErrWrap "read tenants file" e))) /\
      calls_of (trace m s) = [CallReadFile file]
  | Ok data =>
      match Unmarshal data with
      | Err e =>
          result_of m s = inl (Fatal (ErrWrap ("load tenants file " +:+ file) (ErrWrap "parse tenants file" e))) /\
          calls_of (trace m s) = [CallReadFile file]
      | Ok ts =>
          exists lis svc s1,
            attains (λ r, r = (if result_of (Serve lis (NewLogger "tenant-config-svc") svc) s1 is Err e
                               then inl (Fatal (ErrWrap "tenant-config-svc server failed" e)) else inr tt))
              (CallProcess (OpServe addr)) m s /\
            forall ctx s2 id product,
              result_of (svc_GetTenant svc ctx (Some (mkGetTenantReq id))) s2 =
                match directory (tf_Tenants ts) id with
                | Some t => Ok (tenant_context t)
                | None => Err (tenant_not_found isPrintTable id)
                end /\
              result_of (svc_GetDagVersion svc ctx (Some (mkDagVersionReq id product))) s2 =
                match directory (tf_Tenants ts) id ≫= (λ t, t_DagVersions t !! product) with
                | Some v => Ok (Some (mkDagVersionResp v))
                | None => Err (version_not_found isPrintTable id product)
                end
      end
  end.
Proof.
  intros Hlisten Hread. cbv zeta.
  destruct (LoadTenants_errors ReadFile Unmarshal (getenv env "TENANTS_FILE" "../../config/tenants.yaml") s)
    as [Hres Htrace].
  destruct (result_of (ReadFile _) s) as [data|e]; [destruct (Unmarshal data) as [ts|e]|].
  2, 3: unfold tenantconfig_main, result_of at 1, trace at 1; cbv zeta;
    rewrite or_fatal_checked, Hres, Htrace; simpl; by rewrite Hread.
  set (st := mkStore (index_tenants (tf_Tenants ts))) in *. set (logger := NewLogger "tenant-config-svc").
  set (load := LoadTenants _ _ _) in *. set (s1 := final load s).
  pose proof (Hlisten (getenv env "TENANT_CONFIG_GRPC_ADDR" ":9094") s1) as Hl.
  destruct (result_of (net_Listen _) s1) as [lis|] eqn:Hlis; [|done].
  exists lis, (tenantconfig_service isPrintTable st logger),
    (final (net_Listen (getenv env "TENANT_CONFIG_GRPC_ADDR" ":9094")) s1). split.
  - unfold tenantconfig_main. cbv zeta. fold logger load.
    apply (attains_checked _ _ st); [done|]. apply attains_serve; [apply Hlisten|].
    cbv zeta. fold s1. intros lis'. rewrite Hlis. by intros [= ->].
  - intros ctx s2 id product. unfold tenantconfig_service, GetTenant, GetDagVersion, Get, DagVersion. simpl.
    rewrite index_tenants_lookup. destruct (directory (tf_Tenants ts) id) as [t|]; [|by run]. simpl.
    by destruct (t_DagVersions t !! product); run.
Qed.
(** The model service needs nothing but its address: once it can listen, it
    serves the rules and ends as serving ends. *)
Lemma model_main_serves
    (Serve : Listener -> Logger -> (Ctx -> option ScoreRequest -> M E (result ScoreResponse)) ->
             M E (result unit)) env s :
  let addr := getenv env "MODEL_GRPC_ADDR" ":9093" in
  is_ok (result_of (net_Listen addr) s) = true ->
  attains (λ r, exists lis s1,
    r = (if result_of (Serve lis (NewLogger "model-service")
                         (ModelServer.Score isPrintTable (Some (NewLogger "model-service")))) s1 is Err e
         then inl (Fatal (ErrWrap "model-service server failed" e)) else inr tt))
    (CallProcess (OpServe addr)) (model_main isPrintTable net_Listen Serve env) s.
Proof.
  cbv zeta. intros Hlisten. unfold model_main. apply attains_serve; [done|].
  intros lis _. by eexists lis, _.
Qed.

End PlainFacts.

(** ** Witnesses: every peer is down *)

(** Connections that never become ready: waiting lasts until the context is
    done. *)
#[export] Instance down_conn : GrpcConn unit string Z := {
  grpc_NewClient addr _ := mret (Ok addr);
  conn_Target c := c;
  conn_Connect _ := mret tt;
  conn_GetState _ := mret 3;
  conn_WaitForStateChange _ ctx _ := λ s,
    (false, mkSt (from_option (λ te, Z.max (now s) te.1) (now s) (ctx_done ctx)) (env s) (coin s), []);
  conn_Close _ := mret (Ok tt);
  connectivity_Ready := 2;
  state_String _ := "TRANSIENT_FAILURE"%string }.

#[export] Instance down_conn_laws : GrpcConnLaws unit string Z Second.
Proof.
  split; try done.
  - intros addr opts c s. by intros [= ->].
  - intros c ctx st s t e _ Hd. unfold final. simpl. rewrite Hd. simpl. lia.
Qed.

Definition unavailable {A} : M unit (result A) := mret (Err (ErrStatus 14 "connection refused")).
#[export] Instance down_clients : GeneratedClients unit string := {
  NewAddressNormalizationServiceClient _ _ _ := unavailable;
  NewClaimantIdHashingServiceClient _ _ _ := unavailable;
  NewPolicyLookupServiceClient _ _ _ := unavailable;
  NewModelServiceClient _ _ _ := unavailable;
  NewTenantConfigServiceClient_GetDagVersion _ _ _ := unavailable;
  NewTenantConfigServiceClient_GetTenant _ _ _ := unavailable;
  NewOrchestrationServiceClient _ _ _ := unavailable }.

(** A process environment, a file system and servers that stop with an error. *)
Definition demo_env : Env := {["KAFKA_BROKER_ADDR" := "broker:9092"]}%string.
Definition demo_start : St unit := mkSt 0 tt (λ _, false).
Definition demo_file (path : string) : M unit (result string) := mret (Ok "tenants"%string).
Definition demo_listen (addr : string) : M unit (result string) := mret (Ok addr).
Definition demo_serve {A} (lis : string) (lg : Logger) (svc : A) : M unit (result unit) :=
  mret (Err (ErrNew "closed")).
Definition demo_http (addr : string) (mux : ServeMux unit) : M unit (result unit) :=
  mret (Err (ErrNew "address already in use")).

Lemma dial_terminates_witness :
  let dial fuel := DialOrchestration (Conn := string) fuel "localhost:9091" (NewLogger "claims-gateway") in
  dial 1000%nat demo_start = dial 7%nat demo_start /\
  is_Some (result_of (dial 7%nat) demo_start) /\
  now (final (dial 7%nat) demo_start) <= 0 + 5 * Second.
Proof.
  destruct (dial_terminates (step := Second) 7 ltac:(by_compute) NewOrchestrationServiceClient 1000
              "localhost:9091" (NewLogger "claims-gateway") demo_start) as (H1 & H2 & H3); [lia|].
  split_and!; [exact H1|by eexists|exact H3].
Defined.

Lemma orchestration_main_lifecycle_witness :
  let main := orchestration_main 7 demo_file (λ _, Err (ErrNew "yaml"))
                (λ _ _ _, mret (Ok tt)) (λ _, mret (Ok tt)) demo_listen demo_serve demo_env in
  result_of main demo_start
    = inl (Fatal (ErrWrap "orchestration-service server failed" (ErrNew "closed"))) /\
  let addr := getenv demo_env "ORCHESTRATION_GRPC_ADDR" ":9091" in
  let broker := getenv demo_env "KAFKA_BROKER_ADDR" "localhost:19092" in
  let targets := orchestration_targets demo_env in
  let dials := CallProcess ∘ OpNewClient <$> targets.*2 in
  let r := result_of main demo_start in
  let cs := calls_of (trace main demo_start) in
  (exists k prefix a e, targets !! k = Some (prefix, a) /\ r = inl (Fatal (ErrWrap prefix e)) /\
     cs = CallProcess ∘ OpNewClient <$> take (S k) targets.*2) \/
  (exists e, r = inl (Fatal (ErrWrap ("listen on " +:+ addr) e)) /\
     cs = dials ++ [CallProcess (OpListen addr)]) \/
  (exists e, r = inl (Fatal (ErrWrap "orchestration-service server failed" e)) /\
     cs = dials ++ [CallProcess (OpListen addr); CallProcess (OpServe addr)]) \/
  (r = inr tt /\
   cs = dials ++ [CallProcess (OpListen addr); CallProcess (OpServe addr)] ++
        (CallProcess ∘ OpClose <$> broker :: reverse targets.*2)).
Proof.
  split; [reflexivity|].
  apply (orchestration_main_lifecycle (step := Second) 7 ltac:(by_compute)); done.
Defined.

Lemma orchestration_main_serves_witness :
  CallProcess (OpServe ":9091") ∈
    calls_of (trace (orchestration_main 7 demo_file (λ _, Err (ErrNew "yaml"))
                       (λ _ _ _, mret (Ok tt)) (λ _, mret (Ok tt)) demo_listen demo_serve demo_env)
                demo_start).
Proof.
  apply (orchestration_main_serves (step := Second) 7 ltac:(by_compute) demo_file (λ _, Err (ErrNew "yaml"))
           (λ _ _ _, mret (Ok tt)) (λ _, mret (Ok tt)) demo_listen demo_serve
           demo_env demo_start); done.
Defined.

Lemma gateway_main_never_closes_witness :
  let m := gateway_main 7 (λ _, mret (Ok [])) demo_http demo_env in
  let targets := gateway_targets demo_env in
  let r := result_of m demo_start in
  let cs := calls_of (trace m demo_start) in
  (exists k prefix a e, targets !! k = Some (prefix, a) /\ r = inl (Fatal (ErrWrap prefix e)) /\
     cs = CallProcess ∘ OpNewClient <$> take (S k) targets.*2) \/
  (exists e, r = inl (Fatal (ErrWrap "claims-gateway server failed" e)) /\
     cs = (CallProcess ∘ OpNewClient <$> targets.*2) ++
          [CallProcess (OpServe (getenv demo_env "GATEWAY_HTTP_ADDR" ":8080"))]).
Proof.
  apply (gateway_main_never_closes (step := Second) 7 ltac:(by_compute) (λ _, mret (Ok [])) demo_http demo_env demo_start); done.
Defined.

Lemma gateway_main_serves_witness :
  CallProcess (OpServe ":8080") ∈
    calls_of (trace (gateway_main 7 (λ _, mret (Ok [])) demo_http
                       demo_env) demo_start).
Proof.
  apply (gateway_main_serves (step := Second) 7 ltac:(by_compute) (λ _, mret (Ok [])) demo_http demo_env demo_start); done.
Defined.

Lemma tenantconfig_main_serves_witness :
  exists (lis : string) (svc : TenantConfigService unit) (s1 : St unit),
    attains (λ r, r = (if result_of (E := unit) (demo_serve lis (NewLogger "tenant-config-svc") svc) s1 is Err e
                       then inl (Fatal (ErrWrap "tenant-config-svc server failed" e)) else inr tt))
      (CallProcess (OpServe ":9094"))
      (tenantconfig_main (λ _, false) demo_listen demo_file (λ _, Ok (mkTenantsFile shipped_tenants)) demo_serve demo_env)
      demo_start /\
    forall ctx s2 id product,
      result_of (svc_GetTenant svc ctx (Some (mkGetTenantReq id))) s2 =
        match directory shipped_tenants id with
        | Some t => Ok (tenant_context t)
        | None => Err (tenant_not_found (λ _, false) id)
        end /\
      result_of (svc_GetDagVersion svc ctx (Some (mkDagVersionReq id product))) s2 =
        match directory shipped_tenants id ≫= (λ t, t_DagVersions t !! product) with
        | Some v => Ok (Some (mkDagVersionResp v))
        | None => Err (version_not_found (λ _, false) id product)
        end.
Proof.
  apply (tenantconfig_main_serves (λ _, false) demo_listen demo_file (λ _, Ok (mkTenantsFile shipped_tenants))
           demo_serve demo_env demo_start); done.
Defined.
