(* ===== verification/System.v ===== *)
(** * The platform: gateway, tenant service and orchestration together

    The three Go services composed as deployed: the gateway's clients reach the
    handlers of tenant-config-svc and of the orchestration service through the
    interceptors of [pkg/telemetry], over any [Transport].  [exchange] is the
    specification of a request: which calls it makes, under which contexts, and
    what becomes of each.  The theorems show that the platform implements it,
    and follow one request from the REST handler to the executor. *)

From S2P Require Import Prelude Float64 GoStrings Json Messages Payloads Effects Telemetry TenantConfig.
From S2P Require Import DagConfig.
From S2P Require Import Resilience Loader Kafka Executor Pipeline PipelineFacts RunProps RunTiming.
From S2P Require Import Transport Servers Gateway GatewayProps.

(** ** The fate of a request *)

(** What becomes of an accepted request. *)
Inductive fate :=
  | TenantUnreachable (err : GoErr)
  | TenantUnknown
  | TenantNotActive (status : string)
  | ClaimUndelivered (err : GoErr)
  | RunFailed (err : GoErr)
  | AnswerLost (err : GoErr)
  | RunAnswered (res : Result).

(** The status of the answer, and the message of an error. *)
Definition fate_status (f : fate) : Z :=
  match f with
  | TenantUnreachable _ | TenantUnknown | TenantNotActive _ => 403
  | ClaimUndelivered _ | RunFailed _ | AnswerLost _ => 502
  | RunAnswered _ => 200
  end.
Definition fate_message (f : fate) : string :=
  match f with
  | TenantUnreachable _ | TenantUnknown => "tenant not found or unavailable"
  | TenantNotActive _ => "tenant is not active"
  | ClaimUndelivered _ | RunFailed _ | AnswerLost _ => "orchestration call failed"
  | RunAnswered _ => ""
  end.

(** ** Composition *)
Section Platform.
Context `{GrpcMetadataLaws} {E : Type} {tr : Transport E}.
Variable isPrintTable : Z -> bool.
Variable store : Store.
Variable executor : Executor E.
Variable rand_Read : Z -> M E (result (list Z)).

Definition tenant_method : string := "/tenantconfig.v1.TenantConfigService/GetTenant".
Definition claim_method : string := "/orchestration.v1.OrchestrationService/ProcessClaim".

Definition tenant_client : Ctx -> string -> M E (result TenantContext) :=
  TenantConfig_GetTenant
    (rpc "claims-gateway" "tenant-config-svc" tenant_method
       (λ ctx req, GetTenant isPrintTable store (Some (NewLogger "tenant-config-svc")) ctx
                     (GetTenantId req))).

Definition orchestration_client : Ctx -> option ProcessClaimRequest -> M E (result ProcessClaimResponse) :=
  Orchestration_ProcessClaim
    (rpc "claims-gateway" "orchestration-service" claim_method
       (OrchestrationServer.ProcessClaim executor)).

Definition platform (w : Writer) (r : HttpRequest) : M E Writer :=
  SubmitClaim rand_Read tenant_client orchestration_client
    (Some (NewLogger "claims-gateway")) w r.

(** ** The specification *)

(** Looking a tenant up: the request to tenant-config-svc, its store, and the
    answer. *)
Definition tenant_exchange (ctx : Ctx) (tenantID : string) : M E (fate + Tenant) :=
  sent ← net_request tenant_method ctx;
  match sent with
  | Err err => mret (inl (TenantUnreachable err))
  | Ok _ =>
      lost ← net_reply tenant_method ctx;
      mret match lost, Get store tenantID with
           | Some err, _ => inl (TenantUnreachable err)
           | None, None => inl TenantUnknown
           | None, Some t =>
               if bool_decide (t_Status t = "active"%string) then inr t
               else inl (TenantNotActive (t_Status t))
           end
  end.

(** Having a claim processed: the request to orchestration, one run of the
    executor in the server's context, and the answer. *)
Definition claim_exchange (ctx : Ctx) (run : Ctx -> M E (result Result)) : M E fate :=
  sent ← net_request claim_method ctx;
  match sent with
  | Err err => mret (ClaimUndelivered err)
  | Ok ends =>
      r ← run (delivered_ctx ctx (server_side ends));
      lost ← net_reply claim_method ctx;
      mret match lost, r with
           | Some err, _ => AnswerLost err
           | None, Err err => RunFailed err
           | None, Ok res => RunAnswered res
           end
  end.

(** An accepted request: the id, the hard-coded tenant within 2 seconds, then
    the claim within 5. *)
Definition exchange (r : HttpRequest) (req : claimRequest) : M E fate :=
  id ← New rand_Read;
  let ctx := WithCorrelationID (rq_Context r) id in
  t ← get_now;
  tenant ← tenant_exchange (WithTimeout t ctx (2 * Second)) "acme_insurance";
  match tenant with
  | inl f => mret f
  | inr _ =>
      t ← get_now;
      claim_exchange (WithTimeout t (WithTenantID ctx "acme_insurance") (5 * Second))
        (λ ctx, Run executor ctx "acme_insurance" id (Some (claim_of req id)))
  end.

(** The run of the claim of a request: the delivery that starts it, its
    context, its state, and the computation of the executor. *)
Definition run_sent (r : HttpRequest) (s : St E) : M E (result (option (Z * CtxErr))) :=
  net_request claim_method (claim_ctx rand_Read tenant_client r s).
Definition run_start (r : HttpRequest) (s : St E) : St E :=
  final (run_sent r s) (resolved rand_Read tenant_client r s).
Definition run_end (r : HttpRequest) (s : St E) : option (Z * CtxErr) :=
  match result_of (run_sent r s) (resolved rand_Read tenant_client r s) with
  | Ok ends => ends
  | Err _ => None
  end.
Definition run_request_ctx (r : HttpRequest) (s : St E) : Ctx :=
  delivered_ctx (claim_ctx rand_Read tenant_client r s) (server_side (run_end r s)).
Definition request_run (r : HttpRequest) (req : claimRequest) (s : St E) : M E (result Result) :=
  Run executor (run_request_ctx r s) hardcodedTenantID (result_of (New rand_Read) s)
    (Some (claim_of req (result_of (New rand_Read) s))).

(** ** Lemmas *)

(** What the gateway's tenant client answers, and what it makes of it. *)
Lemma tenant_client_exchange ctx id s :
  let m := tenant_exchange ctx id in
  final (tenant_client ctx id) s = final m s /\
  match result_of m s with
  | inr t => result_of (tenant_client ctx id) s = Ok (tenant_context t) /\
             Get store id = Some t /\ t_Status t = "active"%string
  | inl (TenantNotActive st) =>
      exists t, result_of (tenant_client ctx id) s = Ok (tenant_context t) /\
                Get store id = Some t /\ t_Status t = st /\ st <> "active"%string
  | inl f => is_ok (result_of (tenant_client ctx id) s) = false /\
             fate_message f = "tenant not found or unavailable"%string /\ fate_status f = 403
  end.
Proof.
  cbv zeta. unfold tenant_exchange, tenant_client, TenantConfig_GetTenant. run.
  set (h := λ ctx req, GetTenant isPrintTable store (Some (NewLogger "tenant-config-svc")) ctx (GetTenantId req)).
  destruct (result_of (net_request tenant_method ctx) s) as [ends|err] eqn:Hs; run.
  2: { by destruct (rpc_undelivered "claims-gateway" "tenant-config-svc" tenant_method h ctx
                      (Some (mkGetTenantReq id)) s err Hs) as [-> ->]. }
  destruct (rpc_delivered "claims-gateway" "tenant-config-svc" tenant_method h ctx
              (Some (mkGetTenantReq id)) s ends Hs) as [-> ->].
  assert (Hh : forall s', final (handling h ctx ends (Some (mkGetTenantReq id))) s' = s' /\
            result_of (handling h ctx ends (Some (mkGetTenantReq id))) s'
            = match Get store id with Some t => Ok (tenant_context t) | None => Err (tenant_not_found isPrintTable id) end).
  { intros s'. unfold handling, h, GetTenant, GetTenantId. simpl. by destruct (Get store id); run. }
  destruct (Hh (final (net_request tenant_method ctx) s)) as [-> ->]. split; [done|].
  unfold received. destruct (result_of (net_reply tenant_method ctx) _) as [lost|]; [done|].
  destruct (Get store id) as [t|]; [|done]. case_bool_decide; [done|]. by exists t.
Qed.

(** The claim of a request runs under the tenant and the correlation id of
    the gateway, until the end that the transport gives it. *)
Lemma run_request_ids r s :
  header_value (result_of (New rand_Read) s) ->
  TenantIDFrom (run_request_ctx r s) = hardcodedTenantID /\
  CorrelationIDFrom (run_request_ctx r s) = result_of (New rand_Read) s /\
  ctx_done (run_request_ctx r s) = run_end r s.
Proof.
  intros Hid. unfold run_request_ctx, delivered_ctx.
  destruct (incoming_ids (claim_ctx rand_Read tenant_client r s)
              (server_side (run_end r s)) (fresh_server_side _)) as [-> ->].
  - unfold claim_ctx. autorewrite with claims_rw. apply (bool_decide_unpack _). by_compute.
  - unfold claim_ctx. by autorewrite with claims_rw.
  - split_and!; [unfold claim_ctx; by autorewrite with claims_rw..|].
    exact (delivered_done (claim_ctx rand_Read tenant_client r s) (server_side (run_end r s))).
Qed.

Lemma request_run_unfold r req s :
  request_run r req s =
    Run executor (run_request_ctx r s) "acme_insurance" (result_of (New rand_Read) s)
      (Some (claim_of req (result_of (New rand_Read) s))).
Proof. done. Qed.

(** The tenant is looked up first. *)
Definition tenant_outcome (r : HttpRequest) (s : St E) : fate + Tenant :=
  result_of (tenant_exchange (tenant_ctx rand_Read r s) hardcodedTenantID) (final (New rand_Read) s).

Lemma resolved_exchange r s :
  resolved rand_Read tenant_client r s =
    final (tenant_exchange (tenant_ctx rand_Read r s) hardcodedTenantID) (final (New rand_Read) s).
Proof.
  unfold resolved, tenant_call.
  by destruct (tenant_client_exchange (tenant_ctx rand_Read r s) hardcodedTenantID (final (New rand_Read) s))
    as [-> _].
Qed.

(** The exchange, in terms of the run that starts in [run_start]. *)
Lemma exchange_outcome r req s :
  let run := request_run r req s in
  let reply := net_reply claim_method (claim_ctx rand_Read tenant_client r s) in
  let s1 := resolved rand_Read tenant_client r s in
  (result_of (exchange r req) s, final (exchange r req) s) =
    match tenant_outcome r s, result_of (run_sent r s) s1 with
    | inl f, _ => (f, s1)
    | inr _, Err err => (ClaimUndelivered err, run_start r s)
    | inr _, Ok _ =>
        let s2 := final run (run_start r s) in
        (match result_of reply s2, result_of run (run_start r s) with
         | Some err, _ => AnswerLost err
         | None, Err err => RunFailed err
         | None, Ok res => RunAnswered res
         end, final reply s2)
    end.
Proof.
  cbv zeta. unfold exchange. run. change "acme_insurance"%string with hardcodedTenantID.
  change (WithTimeout _ _ (2 * Second)) with (tenant_ctx rand_Read r s). fold (tenant_outcome r s).
  rewrite <- resolved_exchange.
  destruct (tenant_outcome r s) as [f|t]; run; [done|].
  unfold claim_exchange. run. change (WithTimeout (now (resolved rand_Read tenant_client r s)) _ _)
    with (claim_ctx rand_Read tenant_client r s). fold (run_sent r s). fold (run_start r s).
  unfold request_run, run_request_ctx, run_end.
  by destruct (result_of (run_sent r s) (resolved rand_Read tenant_client r s)) as [ends|err]; run.
Qed.

(** What the platform makes of a fate. *)
Definition fate_answer (req : claimRequest) (id : string) (f : fate) : Writer :=
  match f with
  | RunAnswered res =>
      writeJSON StatusOK
        (BClaim (mkClaimResponse (q_ClaimID req) id (r_Status res) (r_NormalizedAddress res)
                   (r_FraudScore res) (r_ModelVersion res))) new_writer
  | _ => writeError (fate_status f) (fate_message f) new_writer
  end.

(** The call of the gateway to orchestration. *)
Lemma orchestration_handling r req s s' :
  header_value (result_of (New rand_Read) s) ->
  let h := handling (OrchestrationServer.ProcessClaim executor) (claim_ctx rand_Read tenant_client r s)
             (run_end r s) (Some (mkProcessReq (Some (claim_of req (result_of (New rand_Read) s))))) in
  result_of h s' =
    match result_of (request_run r req s) s' with
    | Ok res => Ok (mkProcessClaimResponse (q_ClaimID req) (result_of (New rand_Read) s)
                      (r_Status res) (r_NormalizedAddress res) (r_FraudScore res) (r_ModelVersion res))
    | Err err => Err err
    end /\
  final h s' = final (request_run r req s) s' /\
  calls_of (trace h s') = calls_of (trace (request_run r req s) s').
Proof.
  intros Hid. cbv zeta. unfold handling. fold (run_request_ctx r s).
  destruct (ProcessClaim_run executor (run_request_ctx r s)
              (Some (mkProcessReq (Some (claim_of req (result_of (New rand_Read) s))))) s')
    as (-> & -> & ->).
  destruct (run_request_ids r s Hid) as (-> & -> & _). simpl.
  unfold request_run, GetCorrelationId. simpl.
  case_bool_decide as He; [rewrite He|]; done.
Qed.

(** An accepted request: the platform is its exchange. *)
Lemma platform_exchange r req s :
  accepted r = Some req -> header_value (result_of (New rand_Read) s) ->
  result_of (platform new_writer r) s
    = fate_answer req (result_of (New rand_Read) s) (result_of (exchange r req) s) /\
  final (platform new_writer r) s = final (exchange r req) s.
Proof.
  intros Hacc Hid. unfold platform.
  destruct (submit_accepted rand_Read tenant_client orchestration_client
              (Some (NewLogger "claims-gateway")) new_writer r req s Hacc) as (-> & -> & _).
  pose proof (exchange_outcome r req s) as Hx. cbv zeta in Hx. revert Hx.
  unfold verdict, tenant_outcome. unfold tenant_answer, tenant_call.
  destruct (tenant_client_exchange (tenant_ctx rand_Read r s) hardcodedTenantID (final (New rand_Read) s))
    as [_ Hm].
  destruct (result_of (tenant_exchange _ _) _) as [f|t].
  { intros [= -> ->]. destruct (result_of (tenant_client _ _) _) as [t|err] eqn:Ht.
    - destruct f; try (by destruct Hm). destruct Hm as (t' & [= ->] & _ & Hst & Hne).
      unfold is_active. simpl. rewrite Hst. by rewrite bool_decide_false.
    - destruct f; try (by destruct Hm as (? & ? & _)); destruct Hm as (_ & Hmsg & Hst); try done.
      all: unfold fate_answer; by rewrite ?Hmsg, ?Hst. }
  destruct Hm as (-> & _ & Hst). unfold is_active. simpl. rewrite Hst, bool_decide_true by done.
  unfold claim_call, orchestration_client, Orchestration_ProcessClaim.
  unfold run_start, run_sent. fold (run_sent r s).
  destruct (result_of (run_sent r s) (resolved rand_Read tenant_client r s)) as [ends|err] eqn:Hsent.
  2: { intros [= -> ->].
       destruct (rpc_undelivered "claims-gateway" "orchestration-service" claim_method
                   (OrchestrationServer.ProcessClaim executor) (claim_ctx rand_Read tenant_client r s)
                   (Some (mkProcessReq (Some (claim_of req (result_of (New rand_Read) s)))))
                   (resolved rand_Read tenant_client r s) err Hsent) as [-> ->]. done. }
  destruct (rpc_delivered "claims-gateway" "orchestration-service" claim_method
              (OrchestrationServer.ProcessClaim executor) (claim_ctx rand_Read tenant_client r s)
              (Some (mkProcessReq (Some (claim_of req (result_of (New rand_Read) s)))))
              (resolved rand_Read tenant_client r s) ends Hsent) as [-> ->].
  fold (run_sent r s). fold (run_start r s).
  assert (Hend : ends = run_end r s) by (unfold run_end; by rewrite Hsent). rewrite Hend.
  destruct (orchestration_handling r req s (run_start r s) Hid) as (-> & -> & _).
  intros [= -> ->]. split; [|done]. unfold received.
  destruct (result_of (net_reply _ _) _); [done|]. by destruct (result_of (request_run r req s) _).
Qed.

(** A request answered 200 was resolved, delivered, run and answered. *)
Lemma exchange_answered r req s res :
  result_of (exchange r req) s = RunAnswered res ->
  is_ok (result_of (run_sent r s) (resolved rand_Read tenant_client r s)) = true /\
  result_of (request_run r req s) (run_start r s) = Ok res /\
  final (exchange r req) s =
    final (net_reply claim_method (claim_ctx rand_Read tenant_client r s))
      (final (request_run r req s) (run_start r s)).
Proof.
  intros Hx. pose proof (exchange_outcome r req s) as Ho. cbv zeta in Ho. rewrite Hx in Ho. revert Ho.
  destruct (tenant_outcome r s) as [f|t] eqn:Ht.
  { intros [= <- _]. exfalso. revert Ht. unfold tenant_outcome, tenant_exchange. run.
    destruct (result_of (net_request _ _) _); run; [|done]. by repeat case_match. }
  destruct (result_of (run_sent r s) _) as [ends|err]; [|done].
  destruct (result_of (net_reply _ _) _); [done|].
  destruct (result_of (request_run r req s) _); [|done]. by intros [= -> ->].
Qed.

Lemma fate_answer_status req id f : w_status (fate_answer req id f) = Some (fate_status f).
Proof. destruct f; unfold fate_answer, writeError; by rewrite writeJSON_status. Qed.

Lemma platform_200 r req s :
  accepted r = Some req -> header_value (result_of (New rand_Read) s) ->
  w_status (result_of (platform new_writer r) s) = Some 200 ->
  exists res, result_of (exchange r req) s = RunAnswered res.
Proof.
  intros Hacc Hid. destruct (platform_exchange r req s Hacc Hid) as [-> _].
  rewrite fate_answer_status. destruct (result_of (exchange r req) s) as [| | | | | |res]; try done.
  by exists res.
Qed.

(** The tenant is looked up within 2 seconds. *)
Lemma tenant_time `{!TransportLaws tr} r s :
  let s1 := final (New rand_Read) s in
  now s1 <= now (resolved rand_Read tenant_client r s) <= now s1 + 2 * Second.
Proof.
  cbv zeta. unfold resolved, tenant_call.
  edestruct (WithTimeout_done (now (final (New rand_Read) s))
               (WithCorrelationID (rq_Context r) (result_of (New rand_Read) s))
               tenantConfigTimeout) as (t & e & Hd & Hle & _).
  unfold tenant_client, TenantConfig_GetTenant.
  match goal with |- context [rpc ?c ?sv ?m ?h ?ctx ?req] =>
    destruct (rpc_time c sv m h ctx req) as [Ht Hh] end.
  { intros ends s'. unfold handling, GetTenant. simpl. destruct (Get store _); run; lia. }
  specialize (Ht (final (New rand_Read) s)). specialize (Hh (final (New rand_Read) s) t e Hd).
  unfold tenantConfigTimeout, Second, Millisecond in *. lia.
Qed.

(** A request whose client stays: its context ends, if at all, by a deadline. *)
Definition uncancelled (ctx : Ctx) : Prop :=
  match ctx_done ctx with Some (_, Canceled) => False | _ => True end.

(** The run of a claim starts within 5 seconds of that, and, when the client
    stays, with at most 5 seconds left. *)
Lemma run_start_time `{!TransportLaws tr} r s :
  let s1 := resolved rand_Read tenant_client r s in
  is_ok (result_of (run_sent r s) s1) = true ->
  now s1 <= now (run_start r s) <= now s1 + 5 * Second /\
  (uncancelled (rq_Context r) ->
   exists t e, run_end r s = Some (t, e) /\ t <= now (run_start r s) + 5 * Second).
Proof.
  cbv zeta. intros Hok. unfold run_start, run_end.
  destruct (result_of (run_sent r s) _) as [ends|err] eqn:Hsent; [|done].
  edestruct (WithTimeout_done (now (resolved rand_Read tenant_client r s))
    (WithTenantID (WithCorrelationID (rq_Context r) (result_of (New rand_Read) s)) hardcodedTenantID)
    orchestrationTimeout) as (t & e & Hd & Hle & _).
  fold (claim_ctx rand_Read tenant_client r s) in Hd. unfold run_sent in *.
  pose proof (request_timely claim_method (claim_ctx rand_Read tenant_client r s)
                (resolved rand_Read tenant_client r s)).
  pose proof (request_before claim_method _ _ t e ends Hd Hsent). unfold orchestrationTimeout in Hle.
  split; [lia|]. intros Hstay. assert (He : e = DeadlineExceeded).
  { revert Hstay Hd. unfold uncancelled, claim_ctx, WithTimeout. simpl.
    destruct (ctx_done (rq_Context r)) as [[t1 []]|]; [done| |by intros _ [= _ ->]].
    destruct (t1 <=? _); by intros _ [= _ ->]. }
  rewrite He in Hd. destruct (request_deadline claim_method _ _ t ends Hd Hsent) as (t' & e' & -> & Ht').
  exists t', e'. split; [done|lia].
Qed.

(** The calls of a request: the tenant's, and those of the run of the claim, if
    it is delivered. *)
Lemma platform_trace `{!SilentTransport tr} r req s :
  accepted r = Some req -> header_value (result_of (New rand_Read) s) ->
  calls_of (trace (platform new_writer r) s) =
    calls_of (trace (rand_Read 16) s) ++
    CallGetTenant "acme_insurance" ::
    (if is_active (tenant_answer rand_Read tenant_client r s) then
       CallProcessClaim (Some (claim_of req (result_of (New rand_Read) s))) ::
       (if is_ok (result_of (run_sent r s) (resolved rand_Read tenant_client r s))
        then calls_of (trace (request_run r req s) (run_start r s)) else [])
     else []).
Proof.
  intros Hacc Hid. unfold platform.
  destruct (submit_accepted rand_Read tenant_client orchestration_client
              (Some (NewLogger "claims-gateway")) new_writer r req s Hacc) as (_ & _ & ->).
  rewrite New_calls. f_equal.
  assert (Ht : calls_of (trace (tenant_call rand_Read tenant_client r s) (final (New rand_Read) s)) = []).
  { unfold tenant_call, tenant_client, TenantConfig_GetTenant. rewrite rpc_calls by apply _.
    destruct (result_of (net_request _ _) _) as [ends|err]; [|done]. unfold handling, GetTenant. simpl.
    by destruct (Get store _); run. }
  rewrite Ht. unfold hardcodedTenantID. f_equal. simpl. case_match; [|done]. f_equal.
  unfold claim_call, orchestration_client, Orchestration_ProcessClaim. rewrite rpc_calls by apply _.
  fold (run_sent r s). fold (run_start r s).
  destruct (result_of (run_sent r s) (resolved rand_Read tenant_client r s)) as [ends|err] eqn:Hsent; [|done].
  simpl. assert (Hend : ends = run_end r s) by (unfold run_end; by rewrite Hsent). rewrite Hend.
  by destruct (orchestration_handling r req s (run_start r s) Hid) as (_ & _ & ->).
Qed.

(** ** Properties *)

(** C10: the platform does for an accepted request what its exchange says: it
    draws a correlation id, looks up the tenant [acme_insurance] with 2 seconds
    for it, and, when the lookup finds it active, hands the claim with its own
    fields to one run of the DAG for that tenant and that id, with 5 seconds for
    it.  The effects are those of the exchange.  The answer is a 403 when the
    tenant could not be looked up, is unknown or is not active; a 502 when the
    claim was not delivered, its run failed or its answer was lost; and otherwise
    a 200 with the request's claim id, the correlation id and the run's result.
    Over a transport that keeps its contract the lookup ends within its 2
    seconds, and the run starts within 5 more, with at most 5 seconds left when
    the client of the request stays. *)
Theorem platform_processes_claim r req s :
  accepted r = Some req ->
  header_value (result_of (New rand_Read) s) ->
  let f := result_of (exchange r req) s in
  let out := result_of (platform new_writer r) s in
  final (platform new_writer r) s = final (exchange r req) s /\
  w_status out = Some (fate_status f) /\
  w_body out = default ""%string (Encode
    match f with
    | RunAnswered res =>
        BClaim (mkClaimResponse (q_ClaimID req) (result_of (New rand_Read) s)
          (r_Status res) (r_NormalizedAddress res) (r_FraudScore res) (r_ModelVersion res))
    | _ => BError (fate_message f)
    end) /\
  (TransportLaws tr ->
   let s1 := final (New rand_Read) s in
   let s2 := resolved rand_Read tenant_client r s in
   now s1 <= now s2 <= now s1 + 2 * Second /\
   (is_ok (result_of (run_sent r s) s2) = true ->
    now s2 <= now (run_start r s) <= now s2 + 5 * Second /\
    (uncancelled (rq_Context r) ->
     exists t e, ctx_done (run_request_ctx r s) = Some (t, e) /\ t <= now (run_start r s) + 5 * Second))).
Proof.
  intros Hacc Hid. cbv zeta. destruct (platform_exchange r req s Hacc Hid) as [-> ->].
  split; [done|]. split; [apply fate_answer_status|]. split.
  - destruct (result_of (exchange r req) s); unfold fate_answer, writeError; by rewrite writeJSON_body.
  - intros Htr. split; [apply tenant_time|]. intros Hok.
    destruct (run_request_ids r s Hid) as (_ & _ & ->). by apply run_start_time.
Qed.
End Platform.

(** ** One request, one tenant *)
Section Isolation.
Context `{GrpcMetadataLaws} {E : Type} {tr : Transport E} `{!SilentTransport tr}.
Context (isPrintTable : Z -> bool) (store : Store) (stubs : Stubs E).
Context (ReadFile : string -> M E (result string)) (Unmarshal : string -> result Config)
  (WriteMessages : Ctx -> Message -> M E (result unit)) (dir : string).
Context (rand_Read : Z -> M E (result (list Z))).
Let executor := orchestration_executor stubs ReadFile Unmarshal WriteMessages dir.

(** What the platform may call for a request whose correlation id is [id]. *)
Definition call_for (req : claimRequest) (id : string) (c : Call) : Prop :=
  match c with
  | CallGetTenant t => t = "acme_insurance"%string
  | CallProcessClaim claim => claim = Some (claim_of req id)
  | CallReadFile path => path = dag_path dir "acme_insurance" (q_Product req) (q_EventType req)
  | CallGetDagVersion _ _ | CallHash _ _ | CallNormalize _ _ | CallLookup _ _ | CallScore _ _
  | CallPublish _ | CallProcess _ => call_about "acme_insurance" id (Some (claim_of req id)) c
  end.

Context (quiet_version : forall c q s, calls_of (trace (st_version stubs c q) s) = [])
  (quiet_read : forall path s, calls_of (trace (ReadFile path) s) = [])
  (quiet_rand : forall n s, calls_of (trace (rand_Read n) s) = [])
  `{!QuietStubs stubs WriteMessages}.

(** Loading asks for the version of the key, then reads its file. *)
Lemma load_trace ctx correlationID req s :
  exists reads,
    calls_of (trace (run_load executor ctx "acme_insurance" correlationID
                      (Some (claim_of req correlationID))) s)
      = CallGetDagVersion "acme_insurance" (q_Product req) :: reads /\
    (reads = [] \/ reads = [CallReadFile (dag_path dir "acme_insurance" (q_Product req) (q_EventType req))]).
Proof.
  unfold run_load, executor. cbn [orchestration_executor ex_Loader].
  pose proof (Load_spec (TenantConfig_GetDagVersion (st_version stubs)) ReadFile Unmarshal dir
    (Some (NewLogger "orchestration-service")) (run_ctx ctx "acme_insurance" correlationID)
    "acme_insurance" (q_Product req) (q_EventType req) s) as Hload.
  assert (Hq : forall c p s, calls_of (trace (TenantConfig_GetDagVersion (st_version stubs) c
                                            "acme_insurance" p) s) = []).
  { intros c p s'. unfold TenantConfig_GetDagVersion. run. rewrite calls_of_app, quiet_version.
    by case_match. }
  cbv zeta in Hload. change (GetProduct (Some (claim_of req correlationID))) with (q_Product req).
  change (GetEventType (Some (claim_of req correlationID))) with (q_EventType req).
  destruct (result_of (TenantConfig_GetDagVersion _ _ _ _) s) as [v|e].
  - destruct Hload as (_ & _ & warnings & -> & Hw & _). run_calls.
    rewrite Hq, quiet_read, Hw. eexists. split; [done|]. by right.
  - destruct Hload as (_ & _ & ->). run_calls. rewrite Hq. eexists. split; [done|]. by left.
Qed.

Lemma load_calls ctx correlationID req s :
  Forall (call_for req correlationID)
    (calls_of (trace (run_load executor ctx "acme_insurance" correlationID
                        (Some (claim_of req correlationID))) s)).
Proof.
  destruct (load_trace ctx correlationID req s) as (reads & -> & [-> | ->]); by repeat constructor.
Qed.

Lemma run_calls ctx correlationID req s :
  Forall (call_for req correlationID)
    (calls_of (trace (Run executor ctx "acme_insurance" correlationID
                        (Some (claim_of req correlationID))) s)).
Proof.
  destruct (result_of (run_load executor ctx "acme_insurance" correlationID
                         (Some (claim_of req correlationID))) s) as [cfg|err] eqn:Hl.
  - destruct (Run_path executor ctx "acme_insurance" correlationID
                (Some (claim_of req correlationID)) s cfg Hl) as (ls & cs & Hls & Hreal & ->).
    apply Forall_app_2; [apply load_calls|].
    apply realizes_matches in Hreal; [|by apply orchestration_quiet].
    eapply Forall_impl; [by eapply path_calls_about|]. by intros [].
  - destruct (Run_not_loaded executor ctx "acme_insurance" correlationID
                (Some (claim_of req correlationID)) s err Hl) as (_ & _ & ->). apply load_calls.
Qed.

Lemma platform_calls r req s :
  accepted r = Some req -> header_value (result_of (New rand_Read) s) ->
  Forall (call_for req (result_of (New rand_Read) s))
    (calls_of (trace (platform isPrintTable store executor rand_Read new_writer r) s)).
Proof.
  intros Hacc Hid. rewrite (platform_trace isPrintTable store executor rand_Read r req s Hacc Hid).
  rewrite quiet_rand. apply Forall_cons_2; [done|]. case_match; [|constructor].
  apply Forall_cons_2; [done|]. case_match; [|constructor]. apply run_calls.
Qed.

(** C11: whatever the services answer, everything the platform does for a
    request concerns that request: the tenant asked for, the version looked
    up, the features, the events are those of the tenant [acme_insurance]; ids,
    names, addresses and policies are the request's own; every call carries the
    generated correlation id; and the only file read is that of the tenant's
    key. *)
Theorem platform_isolated r s :
  header_value (result_of (New rand_Read) s) ->
  forall c, c ∈ calls_of (trace (platform isPrintTable store executor rand_Read new_writer r) s) ->
  exists req, accepted r = Some req /\ call_for req (result_of (New rand_Read) s) c.
Proof.
  intros Hid c Hc. destruct (accepted r) as [req|] eqn:Hacc.
  - exists req. split; [done|]. by eapply Forall_forall in Hc; [|by apply platform_calls].
  - destruct (submit_refused rand_Read (tenant_client isPrintTable store)
                (orchestration_client executor) (Some (NewLogger "claims-gateway")) new_writer r s Hacc)
      as (w' & Heq & _).
    unfold platform, trace in Hc. rewrite Heq in Hc. by apply not_elem_of_nil in Hc.
Qed.
End Isolation.

(** ** The shipped tenants, the demonstration services and a real request *)

#[local] Existing Instance map_metadata.
Definition shipped_store : Store := mkStore (index_tenants shipped_tenants).

Lemma platform_processes_claim_witness :
  let tr := demo_transport in
  let r := demo_post demo_text in
  let p := platform (λ _, false) shipped_store demo_orchestration demo_rand in
  let x := exchange shipped_store demo_orchestration demo_rand r demo_body in
  let f := result_of x demo_st in
  let out := result_of (p new_writer r) demo_st in
  final (p new_writer r) demo_st = final x demo_st /\
  w_status out = Some (fate_status f) /\
  w_body out = default ""%string (Encode
    match f with
    | RunAnswered res =>
        BClaim (mkClaimResponse "CLM-1" "abababababababababababababababab"
          (r_Status res) (r_NormalizedAddress res) (r_FraudScore res) (r_ModelVersion res))
    | _ => BError (fate_message f)
    end) /\
  (TransportLaws tr ->
   let s2 := resolved demo_rand (tenant_client (λ _, false) shipped_store) r demo_st in
   0 <= now s2 <= 0 + 2 * Second /\
   (is_ok (result_of (run_sent (λ _, false) shipped_store demo_rand r demo_st) s2) = true ->
    let s3 := run_start (λ _, false) shipped_store demo_rand r demo_st in
    now s2 <= now s3 <= now s2 + 5 * Second /\
    (uncancelled Background ->
     exists t e, ctx_done (run_request_ctx (λ _, false) shipped_store demo_rand r demo_st) = Some (t, e) /\
                 t <= now s3 + 5 * Second))).
Proof.
  apply (platform_processes_claim (tr := demo_transport) (λ _, false) shipped_store
           demo_orchestration demo_rand (demo_post demo_text) demo_body demo_st).
  - vm_compute. reflexivity.
  - apply (bool_decide_unpack _). by_compute.
Defined.

(** The whole platform on the shipped configuration, over a given transport. *)
Definition demo_platform (tr : Transport unit) : M unit Writer :=
  platform (λ _, false) shipped_store demo_orchestration demo_rand new_writer (demo_post demo_text).

(** One millisecond each way: scored, in 184 ms. *)
Example platform_scores :
  let m := demo_platform demo_transport in
  w_status (result_of m demo_st) = Some 200 /\ w_body (result_of m demo_st) = string_of (json_literal
    "{'claim_id':'CLM-1','correlation_id':'abababababababababababababababab','status':'scored','normalized_address':'1 MAIN ST','fraud_score':0.42,'model_version':'rules-v1'}"
    ++ [10]) /\
  now (final m demo_st) = 184 * Millisecond /\
  length (calls_of (trace m demo_st)) = 9%nat.
Proof. by_compute. Qed.

(** A transport that cannot reach a service, or that is too slow for it: 403 for
    the tenant's, at the latest after 2 seconds, and 502 for the claim's. *)
Example platform_cut_off :
  let answer tr := (w_status (result_of (demo_platform tr) demo_st), now (final (demo_platform tr) demo_st)) in
  answer (without_method tenant_method demo_transport) = (Some 403, 0) /\
  answer (steady_transport (1500 * Millisecond)) = (Some 403, 2 * Second) /\
  answer (without_method claim_method demo_transport) = (Some 502, 2 * Millisecond) /\
  answer (steady_transport (900 * Millisecond)) = (Some 200, 3780 * Millisecond).
Proof. by_compute. Qed.

Lemma platform_isolated_witness :
  exists req, accepted (demo_post demo_text) = Some req /\
    call_for "../../config/dag" req "abababababababababababababababab"
      (CallReadFile "../../config/dag/acme_insurance/auto/claim.fnol.yaml").
Proof.
  apply (platform_isolated (tr := demo_transport) (λ _, false) (mkStore (index_tenants shipped_tenants))
           demo_stubs (λ _, mret (Ok "file"%string)) (λ _, Ok claim_fnol_config)
           (λ c _, answer (30 * Millisecond) [] svcPublish tt c) "../../config/dag"
           demo_rand) with (r := demo_post demo_text) (s := demo_st).
  - reflexivity.
  - reflexivity.
  - reflexivity.
  - split; reflexivity.
  - apply (bool_decide_unpack _). by_compute.
  - vm_compute. do 3 right. left.
Defined.
