(* ===== verification/PlatformPrivacy.v ===== *)
(** * Confidentiality of the claimant's name over the platform

    The noninterference of [RunPrivacy], carried through the interceptors, the
    orchestration server and the gateway's handler: requests that differ only
    in the claimant's name get the same response, and the three services log the
    same lines. *)

From Stdlib Require Import Setoid Morphisms.
From S2P Require Import Prelude Float64 GoStrings Json Messages Payloads Effects Telemetry TenantConfig.
From S2P Require Import DagConfig Resilience Executor RunProps RunPrivacy Transport Servers Gateway.
From S2P Require Import GatewayProps System.

(** ** Congruence of the transport *)
Section Congruence.
Context `{GrpcMetadata} {E : Type} {tr : Transport E} {Req Resp : Type}.

Lemma server_interceptor_cong logger ctx incoming (req1 req2 : Req) method
    (handler : Ctx -> Req -> M E (result Resp)) :
  (forall c, indistinguishable (handler c req1) (handler c req2)) ->
  indistinguishable (UnaryServerInterceptor logger ctx incoming req1 method handler)
    (UnaryServerInterceptor logger ctx incoming req2 method handler).
Proof. intros Hh. apply bind_cong; [done|]. intros start. by apply bind_cong. Qed.

Lemma rpc_cong client_name server_name method (handler : Ctx -> Req -> M E (result Resp)) ctx req1 req2 :
  (forall c, indistinguishable (handler c req1) (handler c req2)) ->
  indistinguishable (rpc client_name server_name method handler ctx req1)
    (rpc client_name server_name method handler ctx req2).
Proof.
  intros Hh. unfold rpc, UnaryClientInterceptor. cbv zeta.
  apply bind_cong; [done|]. intros start. apply bind_cong; [|done].
  apply bind_cong; [done|]. intros [ends|err]; [|done].
  apply bind_cong; [by apply server_interceptor_cong|done].
Qed.
End Congruence.

(** ** The handlers *)
Section Handlers.
Context `{GrpcMetadataLaws} {E : Type} {tr : Transport E} (isPrintTable : Z -> bool) (store : Store)
  (executor : Executor E) (rand_Read : Z -> M E (result (list Z))).
Context (name name' : string)
  (same_hash : forall c id s, ex_ClaimantIDHash executor c id name s = ex_ClaimantIDHash executor c id name' s).

(** The request with another claimant. *)
Definition rename (n : string) (q : claimRequest) : claimRequest :=
  mkClaimRequest (q_ClaimID q) (q_Product q) (q_EventType q) (q_PolicyNumber q) n (q_RawAddress q).

Lemma ProcessClaim_cong ctx claim :
  ClaimantName claim = name ->
  indistinguishable (OrchestrationServer.ProcessClaim executor ctx (Some (mkProcessReq (Some claim))))
    (OrchestrationServer.ProcessClaim executor ctx (Some (mkProcessReq (Some (with_name name' claim))))).
Proof.
  intros Hname. unfold OrchestrationServer.ProcessClaim. cbv zeta. apply bind_cong; [|done].
  apply Run_cong. by rewrite Hname.
Qed.

Lemma orchestration_call_cong ctx claim :
  ClaimantName claim = name ->
  indistinguishable
    (call ctx (CallProcessClaim (Some claim))
       (orchestration_client executor ctx (Some (mkProcessReq (Some claim)))))
    (call ctx (CallProcessClaim (Some (with_name name' claim)))
       (orchestration_client executor ctx (Some (mkProcessReq (Some (with_name name' claim)))))).
Proof.
  intros Hname. apply call_cong; [done|]. apply rpc_cong. intros c. by apply ProcessClaim_cong.
Qed.

(** ** Property *)

(** Requests that differ only in the claimant's name, for names that the
    hashing service treats alike, are indistinguishable. *)
Lemma names_indistinguishable w method ctx body body' q :
  Decode body = inl q -> q_ClaimantName q = name -> Decode body' = inl (rename name' q) ->
  indistinguishable
    (platform isPrintTable store executor rand_Read w (mkHttpRequest method body ctx))
    (platform isPrintTable store executor rand_Read w (mkHttpRequest method body' ctx)).
Proof.
  intros Hq Hname Hq'.
  unfold platform, SubmitClaim. cbn [rq_Method rq_Body rq_Context]. case_bool_decide; [done|].
  rewrite Hq, Hq'. cbn [rename q_ClaimID q_Product q_EventType q_PolicyNumber q_ClaimantName q_RawAddress].
  destruct (_ || _); [done|]. apply bind_cong; [done|]. intros id. apply bind_cong; [done|].
  intros [t|err]; [|done]. destruct (bool_decide _); [done|]. apply bind_cong; [done|]. intros now.
  apply bind_cong; [|done].
  by apply (orchestration_call_cong _ (mkClaimEvent _ _ _ _ _ _ _)).
Qed.
End Handlers.
