(* ===== verification/Platform.v ===== *)
(** * The platform with its own model and configuration services

    [System] leaves the services behind orchestration open.  Here the model
    service and the version lookup are those of the repository, reached through
    the interceptors and the transport like the others; what remains a parameter
    are that transport, the three Java services, the Kafka writer, the file
    system and the YAML library.  The
    theorem follows a request to the bytes of its answer. *)

From S2P Require Import Prelude Float64 GoStrings Utf8 FormatFloat Json JsonFacts Scoring Messages.
From S2P Require Import Payloads PayloadFacts Effects Telemetry TenantConfig DagConfig Resilience.
From S2P Require Import Loader Kafka Executor Pipeline PipelineFacts RunProps RunTiming Transport.
From S2P Require Import Servers Gateway GatewayProps Startup System.

(** ** The text of a score *)

(** The decimal of a number of cents below one. *)
Definition cents_text (c : Z) : list Z :=
  [48; 46; 48 + c / 10] ++ (if c mod 10 =? 0 then [] else [48 + c mod 10]).

Lemma json_float_cents c : 5 <= c <= 50 -> json_float (f64_lit c 100) = Some (cents_text c).
Proof.
  intros Hc.
  pose proof (forallb_seqZ (λ c, bool_decide (json_float (f64_lit c 100) = Some (cents_text c))) 5 46
                ltac:(by_compute) c ltac:(lia)) as Hall.
  by apply bool_decide_eq_true in Hall.
Qed.

(** ** Composition *)
Section GoPlatform.
Context `{GrpcMetadataLaws} {E : Type} {tr : Transport E}.
Context (isPrintTable : Z -> bool) (store : Store).
(** The Java services. *)
Context (norm : Ctx -> option NormalizeRequest -> M E (result (option NormalizeResponse)))
  (hash : Ctx -> option HashClaimantIdRequest -> M E (result (option HashClaimantIdResponse)))
  (lookup : Ctx -> option LookupPolicyRequest -> M E (result (option LookupPolicyResponse))).
Context (ReadFile : string -> M E (result string)) (Unmarshal : string -> result Config)
  (WriteMessages : Ctx -> Message -> M E (result unit)) (dir : string).
Context (rand_Read : Z -> M E (result (list Z))).

(** A generated client returns a pointer to the response it allocated. *)
Definition pointer {Req Resp} (m : Ctx -> Req -> M E (result Resp)) (ctx : Ctx) (req : Req)
    : M E (result (option Resp)) :=
  r ← m ctx req; mret match r with Ok a => Ok (Some a) | Err e => Err e end.

Definition score_method : string := "/model.v1.ModelService/Score".
Definition version_method : string := "/tenantconfig.v1.TenantConfigService/GetDagVersion".

Definition go_stubs : Stubs E :=
  mkStubs E norm hash lookup
    (pointer (rpc "orchestration-service" "model-service" score_method
                (ModelServer.Score isPrintTable (Some (NewLogger "model-service")))))
    (rpc "orchestration-service" "tenant-config-svc" version_method
       (svc_GetDagVersion (tenantconfig_service isPrintTable store (NewLogger "tenant-config-svc")))).

Definition go_executor : Executor E :=
  orchestration_executor go_stubs ReadFile Unmarshal WriteMessages dir.

Definition go_platform (w : Writer) (r : HttpRequest) : M E Writer :=
  platform isPrintTable store go_executor rand_Read w r.

(** ** Lemmas *)

(** The model handles every call at once. *)
Lemma model_handling ctx ends req (s : St E) :
  let h := handling (ModelServer.Score isPrintTable (Some (NewLogger "model-service"))) ctx ends req in
  result_of h s = Ok (mkScoreResp (Scoring.Score isPrintTable (GetFeatures req)).1 "rules-v1") /\
  final h s = s /\ calls_of (trace h s) = [].
Proof.
  cbv zeta. unfold handling.
  by destruct (ModelServer_Score_total isPrintTable (Some (NewLogger "model-service"))
                 (delivered_ctx ctx (server_side ends)) req s) as (-> & -> & -> & _).
Qed.

(** A call to the model that succeeds returns the score of its features. *)
Lemma model_answers c id f s v :
  result_of (ex_Model go_executor c id f) s = Ok v ->
  v = Some (mkScoreResp (Scoring.Score isPrintTable f).1 "rules-v1").
Proof.
  cbn [go_executor orchestration_executor ex_Model go_stubs st_model]. unfold Model_Score, pointer. run.
  destruct (result_of (rpc _ _ _ _ _ _) s) as [resp|err] eqn:Hr; [|done]. intros [= <-].
  apply rpc_ok in Hr as (ends & _ & Hr & _ & _). revert Hr.
  destruct (model_handling c ends (Some (mkScoreReq id f)) (final (net_request score_method c) s)) as (-> & _).
  by intros [= <-].
Qed.

(** Over a transport that keeps its contract, the services honour the deadlines
    of their calls when the Java services and the broker do. *)
Lemma go_stubs_timely `{!TransportLaws tr} :
  (forall c r, timely (norm c r) /\ honours c (norm c r)) ->
  (forall c r, timely (hash c r) /\ honours c (hash c r)) ->
  (forall c r, timely (lookup c r) /\ honours c (lookup c r)) ->
  (forall c m, timely (WriteMessages c m) /\ honours c (WriteMessages c m)) ->
  TimelyStubs go_stubs WriteMessages /\
  (forall c q, timely (st_version go_stubs c q) /\ honours c (st_version go_stubs c q)).
Proof.
  intros Hn Hh Hl Hw. split; [split; try done|]; intros c q; cbn [go_stubs st_model st_version].
  - destruct (rpc_time "orchestration-service" "model-service" score_method
                (ModelServer.Score isPrintTable (Some (NewLogger "model-service"))) c q) as [Ht Hd].
    { intros ends s. destruct (model_handling c ends q s) as (_ & -> & _). lia. }
    split; [intros s|intros s t e Hc]; unfold pointer; run; [apply Ht|by apply (Hd s t e)].
  - apply rpc_time; [done|]. intros ends s. unfold handling, tenantconfig_service, svc_GetDagVersion, GetDagVersion.
    destruct (DagVersion store _ _); run; lia.
Qed.

Lemma realized_score ctx cfg id claim s ls s' cs n f sc :
  realizes go_executor ctx cfg id claim s ls s' cs -> OScore n f (Ok (Some sc)) ∈ ls ->
  sc = mkScoreResp (Scoring.Score isPrintTable f).1 "rules-v1".
Proof.
  intros Hreal Hin. destruct (realizes_elem _ _ _ _ _ _ _ _ _ _ Hreal Hin) as (s1 & s2 & cs' & Hr & _ & _).
  apply callWithResilience_source in Hr as [[? _]|(c & s0 & Hr)]; [done|].
  revert Hr. run. intros Hr%model_answers. congruence.
Qed.

(** ** The path of a completed run *)

(** A completed run of the service is the path of a loaded configuration; its
    result is what the labels of the path amount to, with the score that the
    rules give their enrichment. *)
Lemma completed_path ctx tenantID id claim s res :
  result_of (Run go_executor ctx tenantID id claim) s = Ok res ->
  exists cfg ls cs,
    result_of (run_load go_executor ctx tenantID id claim) s = Ok cfg /\
    run_path go_executor ctx tenantID id claim cfg s ls cs (Done res) /\
    res = mkResult (status_of ls) (e_normalizedAddress (final_enrichment claim ls))
            (f64_lit (enrichment_cents (final_enrichment claim ls)) 100) "rules-v1".
Proof.
  intros Hres.
  destruct (result_of (run_load go_executor ctx tenantID id claim) s) as [cfg|err] eqn:Hl.
  2: { destruct (Run_not_loaded go_executor ctx tenantID id claim s err Hl) as (Herr & _). congruence. }
  destruct (Run_path go_executor ctx tenantID id claim s cfg Hl) as (ls & cs & Hpath).
  rewrite Hres in Hpath. pose proof Hpath as (Hls & Hreal & _).
  pose proof Hls as (_ & _ & sc & Hsc & ->)%inv_reachable. exists cfg, ls, cs. split; [done|]. split; [done|].
  destruct (final_score_last cfg tenantID id claim ls _ sc Hls Hsc) as (before & n & after & Hlast).
  rewrite <- (enrichment_score isPrintTable tenantID claim).
  rewrite (realized_score _ _ _ _ _ _ _ _ n (features_of tenantID claim (final_enrichment claim ls)) sc Hreal);
    [done|]. rewrite Hlast at 2. apply elem_of_app. right. left.
Qed.

(** An error is read back with its message. *)
Lemma error_answer code msg :
  clean msg = msg ->
  exists v, readValue (bytes_of (w_body (writeError code msg new_writer))) = inl v /\
    w_status (writeError code msg new_writer) = Some code /\ string_member v "error" = Some msg.
Proof.
  intros Hc. unfold writeError. rewrite writeJSON_body, writeJSON_status by done.
  destruct (Encode_error_body msg) as (text & v & -> & Hread & Hm). exists v.
  split; [exact Hread|]. split; [done|]. by rewrite Hm, Hc.
Qed.

(** The answer to a request whose run completed and was received. *)
Lemma completed_answer r req s res :
  accepted r = Some req -> header_value (result_of (New rand_Read) s) ->
  result_of (exchange store go_executor rand_Read r req) s = RunAnswered res ->
  let id := result_of (New rand_Read) s in
  let claim := Some (claim_of req id) in
  let ctx := run_request_ctx isPrintTable store rand_Read r s in
  let s1 := run_start isPrintTable store rand_Read r s in
  let out := result_of (go_platform new_writer r) s in
  exists v cfg ls cs,
    w_status out = Some 200 /\ readValue (bytes_of (w_body out)) = inl v /\
    result_of (run_load go_executor ctx "acme_insurance" id claim) s1 = Ok cfg /\
    run_path go_executor ctx "acme_insurance" id claim cfg s1 ls cs (Done res) /\
    let enrichment := final_enrichment claim ls in
    string_member v "claim_id" = Some (q_ClaimID req) /\
    string_member v "correlation_id" = Some id /\
    string_member v "status" = Some (status_of ls) /\
    string_member v "normalized_address" = Some (clean (e_normalizedAddress enrichment)) /\
    number_member v "fraud_score" = Some (cents_text (enrichment_cents enrichment)) /\
    string_member v "model_version" = Some "rules-v1"%string /\
    r_FraudScore res = f64_lit (enrichment_cents enrichment) 100 /\
    r_ModelVersion res = "rules-v1"%string.
Proof.
  intros Hacc Hid Hx. cbv zeta. unfold go_platform.
  destruct (platform_exchange isPrintTable store go_executor rand_Read r req s Hacc Hid) as [-> _].
  destruct (exchange_answered isPrintTable store go_executor rand_Read r req s res Hx) as (_ & Hres & _).
  rewrite Hx. unfold fate_answer. destruct (completed_path _ _ _ _ _ _ Hres) as (cfg & ls & cs & Hload & Hpath & ->).
  rewrite writeJSON_body, writeJSON_status by done.
  match goal with |- context [Encode (BClaim ?resp)] => pose proof (Encode_claim resp) as He end.
  cbn [p_FraudScore p_ClaimID p_CorrelationID p_Status p_NormalizedAddress p_ModelVersion
       r_Status r_NormalizedAddress r_FraudScore r_ModelVersion] in *.
  rewrite json_float_cents in He by apply enrichment_cents_range.
  destruct He as (text & v & -> & Hread & H1 & H2 & H3 & H4 & H5 & H6).
  exists v, cfg, ls, cs. do 4 (split; [done|]). cbv zeta. rewrite H1, H2, H3, H4, H5, H6.
  unfold status_of. destruct (Decode_valid _ _ (accepted_decode _ _ Hacc)) as (? & _).
  split_and!; [by rewrite clean_valid| |by destruct (existsb _ _); by_compute|done|done|by_compute|done|done].
  rewrite clean_valid; [done|]. apply ascii_valid. eapply Forall_impl; [exact Hid|]. simpl. lia.
Qed.

(** ** Property *)

(** C5: every accepted request is answered in JSON, according to its exchange.
    When the tenant could not be looked up or is unknown, or is not active, it
    is a 403, and when the claim could not be delivered, its run failed or its
    answer was lost, it is a 502, each with the error text of the gateway.  When
    the run's answer arrived, there is a path of the pipeline that ends in its
    result, and the answer is a 200 whose body holds the request's claim id and
    the generated correlation id, unaltered; [degraded] when an enrichment or
    publish node of the path failed and [scored] otherwise; the address the path
    normalized; [rules-v1]; and, whatever the Java services answered, the score
    that the rules give the enrichment of the path, printed as the exact decimal
    of its cents. *)
Theorem platform_answers r req s :
  accepted r = Some req ->
  header_value (result_of (New rand_Read) s) ->
  let id := result_of (New rand_Read) s in
  let claim := Some (claim_of req id) in
  let out := result_of (go_platform new_writer r) s in
  exists v, readValue (bytes_of (w_body out)) = inl v /\
  match result_of (exchange store go_executor rand_Read r req) s with
  | TenantUnreachable _ | TenantUnknown =>
      w_status out = Some 403 /\
      string_member v "error" = Some "tenant not found or unavailable"%string
  | TenantNotActive _ =>
      w_status out = Some 403 /\
      string_member v "error" = Some "tenant is not active"%string
  | ClaimUndelivered _ | RunFailed _ | AnswerLost _ =>
      w_status out = Some 502 /\
      string_member v "error" = Some "orchestration call failed"%string
  | RunAnswered res =>
      w_status out = Some 200 /\
      exists cfg ls cs,
        run_path go_executor (run_request_ctx isPrintTable store rand_Read r s) "acme_insurance" id
          claim cfg (run_start isPrintTable store rand_Read r s) ls cs (Done res) /\
        let enrichment := final_enrichment claim ls in
        string_member v "claim_id" = Some (q_ClaimID req) /\
        string_member v "correlation_id" = Some id /\
        string_member v "status"
          = Some (if existsb degrading ls then "degraded" else "scored")%string /\
        string_member v "normalized_address" = Some (clean (e_normalizedAddress enrichment)) /\
        number_member v "fraud_score" = Some (cents_text (enrichment_cents enrichment)) /\
        string_member v "model_version" = Some "rules-v1"%string
  end.
Proof.
  intros Hacc Hid. cbv zeta.
  destruct (result_of (exchange store go_executor rand_Read r req) s) as [| | | | | |res] eqn:Hx.
  7: { destruct (completed_answer r req s res Hacc Hid Hx)
         as (v & cfg & ls & cs & ? & ? & _ & ? & ? & ? & ?).
       exists v. split; [done|]. split; [done|]. exists cfg, ls, cs. tauto. }
  all: unfold go_platform;
    destruct (platform_exchange isPrintTable store go_executor rand_Read r req s Hacc Hid) as [-> _];
    rewrite Hx; apply error_answer; by_compute.
Qed.
End GoPlatform.

(** ** The shipped configuration *)

(** Java services that answer in 30 ms. *)
Definition demo_norm (c : Ctx) (_ : option NormalizeRequest) : M unit (result (option NormalizeResponse)) :=
  answer (30 * Millisecond) [] svcNormalize (Some (mkNormResp "1 MAIN ST" "" "" "" "" "" true)) c.
Definition demo_hash (c : Ctx) (_ : option HashClaimantIdRequest)
    : M unit (result (option HashClaimantIdResponse)) :=
  answer (30 * Millisecond) [] svcHash (Some (mkHashResp "5f2c")) c.
Definition demo_lookup (c : Ctx) (_ : option LookupPolicyRequest)
    : M unit (result (option LookupPolicyResponse)) :=
  answer (30 * Millisecond) [] svcLookup (Some (mkLookupResp true "lapsed" "standard")) c.

#[local] Existing Instances map_metadata demo_transport.

Definition demo_go_executor : Executor unit :=
  go_executor (λ _, false) shipped_store demo_norm demo_hash demo_lookup
    (λ _, mret (Ok "file"%string)) (λ _, Ok claim_fnol_config)
    (λ c _, answer (30 * Millisecond) [] svcPublish tt c) "../../config/dag".
Definition demo_go_platform : Writer -> HttpRequest -> M unit Writer :=
  go_platform (λ _, false) shipped_store demo_norm demo_hash demo_lookup
    (λ _, mret (Ok "file"%string)) (λ _, Ok claim_fnol_config)
    (λ c _, answer (30 * Millisecond) [] svcPublish tt c) "../../config/dag" demo_rand.

(** A lapsed policy: 0.20. *)
Example go_platform_scores :
  let m := demo_go_platform new_writer (demo_post demo_text) in
  w_status (result_of m demo_st) = Some 200 /\ w_body (result_of m demo_st) = string_of (json_literal
    "{'claim_id':'CLM-1','correlation_id':'abababababababababababababababab','status':'scored','normalized_address':'1 MAIN ST','fraud_score':0.2,'model_version':'rules-v1'}"
    ++ [10]) /\
  now (final m demo_st) = 128 * Millisecond.
Proof. by_compute. Qed.

(** Its exchange, and its answer. *)
Example go_platform_exchange :
  match result_of (exchange shipped_store demo_go_executor demo_rand (demo_post demo_text) demo_body) demo_st with
  | RunAnswered res => r_Status res = "scored"%string
  | _ => False
  end.
Proof. by_compute. Qed.

Lemma platform_answers_witness :
  let id := result_of (New demo_rand) demo_st in
  let claim := Some (claim_of demo_body id) in
  let out := result_of (demo_go_platform new_writer (demo_post demo_text)) demo_st in
  exists v, readValue (bytes_of (w_body out)) = inl v /\
  match result_of (exchange shipped_store demo_go_executor demo_rand (demo_post demo_text) demo_body) demo_st with
  | TenantUnreachable _ | TenantUnknown =>
      w_status out = Some 403 /\
      string_member v "error" = Some "tenant not found or unavailable"%string
  | TenantNotActive _ =>
      w_status out = Some 403 /\
      string_member v "error" = Some "tenant is not active"%string
  | ClaimUndelivered _ | RunFailed _ | AnswerLost _ =>
      w_status out = Some 502 /\
      string_member v "error" = Some "orchestration call failed"%string
  | RunAnswered res =>
      w_status out = Some 200 /\
      exists cfg ls cs,
        run_path demo_go_executor
          (run_request_ctx (λ _, false) shipped_store demo_rand (demo_post demo_text) demo_st)
          "acme_insurance" id claim cfg
          (run_start (λ _, false) shipped_store demo_rand (demo_post demo_text) demo_st) ls cs (Done res) /\
        let enrichment := final_enrichment claim ls in
        string_member v "claim_id" = Some (q_ClaimID demo_body) /\
        string_member v "correlation_id" = Some id /\
        string_member v "status"
          = Some (if existsb degrading ls then "degraded" else "scored")%string /\
        string_member v "normalized_address" = Some (clean (e_normalizedAddress enrichment)) /\
        number_member v "fraud_score" = Some (cents_text (enrichment_cents enrichment)) /\
        string_member v "model_version" = Some "rules-v1"%string
  end.
Proof.
  unfold demo_go_platform, demo_go_executor. apply platform_answers.
  - vm_compute. reflexivity.
  - apply (bool_decide_unpack _). by_compute.
Defined.
