(* ===== verification/PlatformTiming.v ===== *)
(** * The latency of the platform

    The deadlines of the gateway and the budgets of the nodes, followed through
    the interceptors and the transport: how long a client waits for its answer,
    and how long the run of its claim works. *)

From S2P Require Import Prelude Float64 GoStrings Messages Payloads Effects Telemetry TenantConfig.
From S2P Require Import DagConfig Resilience Loader Kafka Executor Pipeline PipelineFacts RunProps.
From S2P Require Import RunTiming Transport Servers Gateway GatewayProps System Platform.

Section Timing.
Context `{GrpcMetadataLaws} {E : Type} {tr : Transport E} `{!TransportLaws tr}.
Context (isPrintTable : Z -> bool) (store : Store).
Context (norm : Ctx -> option NormalizeRequest -> M E (result (option NormalizeResponse)))
  (hash : Ctx -> option HashClaimantIdRequest -> M E (result (option HashClaimantIdResponse)))
  (lookup : Ctx -> option LookupPolicyRequest -> M E (result (option LookupPolicyResponse))).
Context (ReadFile : string -> M E (result string)) (Unmarshal : string -> result Config)
  (WriteMessages : Ctx -> Message -> M E (result unit)) (dir : string).
Context (rand_Read : Z -> M E (result (list Z))).

Notation stubs := (go_stubs isPrintTable store norm hash lookup).
Notation executor := (go_executor isPrintTable store norm hash lookup ReadFile Unmarshal WriteMessages dir).
Notation platform_of :=
  (go_platform isPrintTable store norm hash lookup ReadFile Unmarshal WriteMessages dir rand_Read).

(** The Java services and the broker honour their deadlines; a file is read
    within [disk]; parsed fields are [int32]s; randomness is there at once. *)
Class TimelyWorld (disk : Z) : Prop := {
  timely_world_norm c r : timely (norm c r) /\ honours c (norm c r);
  timely_world_hash c r : timely (hash c r) /\ honours c (hash c r);
  timely_world_lookup c r : timely (lookup c r) /\ honours c (lookup c r);
  timely_world_write c m : timely (WriteMessages c m) /\ honours c (WriteMessages c m);
  read_within p s : now s <= now (final (ReadFile p) s) <= now s + disk;
  parsed_ranges data cfg : Unmarshal data = Ok cfg -> config_ranges cfg;
  rand_instant n s : now (final (rand_Read n) s) = now s }.
Context (disk : Z) `{!TimelyWorld disk}.

Lemma go_timely :
  TimelyStubs stubs WriteMessages /\
  (forall c q, timely (st_version stubs c q) /\ honours c (st_version stubs c q)).
Proof.
  apply go_stubs_timely;
    [done|apply timely_world_norm|apply timely_world_hash|apply timely_world_lookup|apply timely_world_write].
Qed.

Lemma version_final ctx tenantID product s :
  exists q, final (TenantConfig_GetDagVersion (st_version stubs) ctx tenantID product) s
              = final (st_version stubs ctx q) s.
Proof.
  exists (Some (mkDagVersionReq tenantID product)). unfold TenantConfig_GetDagVersion. run.
  by case_match.
Qed.

(** Loading takes the version lookup, which ends by the deadline, and one file
    read. *)
Lemma load_time ctx tenantID id claim s :
  let s' := final (run_load executor ctx tenantID id claim) s in
  now s <= now s' /\
  (forall t e, ctx_done ctx = Some (t, e) -> now s' <= Z.max (now s) t + disk).
Proof.
  cbv zeta. unfold run_load. cbn [go_executor orchestration_executor ex_Loader].
  set (c := run_ctx ctx tenantID id).
  pose proof (Load_spec (TenantConfig_GetDagVersion (st_version stubs)) ReadFile Unmarshal dir
    (Some (NewLogger "orchestration-service")) c tenantID (GetProduct claim) (GetEventType claim) s) as Hl.
  cbv zeta in Hl. destruct (version_final c tenantID (GetProduct claim) s) as (q & Hq). rewrite Hq in Hl.
  destruct go_timely as [_ Hv]. destruct (Hv c q) as [Ht Hh]. specialize (Ht s).
  pose proof (read_within (dag_path dir tenantID (GetProduct claim) (GetEventType claim))
                (final (st_version stubs c q) s)) as Hr.
  assert (Hd : forall t e, ctx_done ctx = Some (t, e) -> now (final (st_version stubs c q) s) <= Z.max (now s) t)
    by (intros t e Hc; by apply (Hh s t e)).
  destruct (result_of _ s); destruct Hl as (_ & -> & _);
    (split; [lia|]; intros t e Hc; specialize (Hd t e Hc); lia).
Qed.

(** What was loaded was parsed. *)
Lemma loaded_ranges ctx tenantID id claim s cfg :
  result_of (run_load executor ctx tenantID id claim) s = Ok cfg -> config_ranges cfg.
Proof.
  unfold run_load. cbn [go_executor orchestration_executor ex_Loader].
  match goal with |- result_of (Load ?v ?rf ?u ?d ?l ?c ?t ?p ?ev) s = _ -> _ =>
    pose proof (Load_spec v rf u d l c t p ev s) as Hl end.
  cbv zeta in Hl. destruct (result_of (TenantConfig_GetDagVersion _ _ _ _) s) as [v|err];
    destruct Hl as (-> & _); [|done].
  destruct (result_of (ReadFile _) _) as [data|err]; [|done]. unfold wrap_err.
  destruct (Unmarshal data) as [cfg'|err] eqn:Hu; [|done]. intros [= <-]. by eapply parsed_ranges.
Qed.

Lemma run_time ctx tenantID id claim s :
  let s' := final (Run executor ctx tenantID id claim) s in
  now s <= now s' /\
  (forall t e, ctx_done ctx = Some (t, e) -> now s' <= Z.max (now s) t + disk).
Proof.
  cbv zeta. destruct (load_time ctx tenantID id claim s) as [Hlo Hhi]. destruct go_timely as [Hst _].
  destruct (result_of (run_load executor ctx tenantID id claim) s) as [cfg|err] eqn:Hl.
  - destruct (Run_bounded executor ctx tenantID id claim cfg s) as [Hb Ht];
      [by apply orchestration_timely|by eapply loaded_ranges|done|].
    pose proof (read_within "" s). split; [lia|]. intros t e Hd. specialize (Ht t e Hd). specialize (Hhi t e Hd). lia.
  - by destruct (Run_not_loaded executor ctx tenantID id claim s err Hl) as (_ & -> & _).
Qed.

(** The gateway's two clients give up at their deadlines. *)
Lemma tenant_client_time c t :
  timely (tenant_client isPrintTable store c t) /\ honours c (tenant_client isPrintTable store c t).
Proof.
  unfold tenant_client, TenantConfig_GetTenant. apply rpc_time; [done|].
  intros ends s. unfold handling, GetTenant. destruct (Get store _); run; lia.
Qed.

Lemma orchestration_client_time c q :
  timely (orchestration_client executor c q) /\ honours c (orchestration_client executor c q).
Proof.
  unfold orchestration_client, Orchestration_ProcessClaim. apply rpc_time; [done|].
  intros ends s. unfold handling.
  match goal with |- context [OrchestrationServer.ProcessClaim ?x ?c ?r] =>
    destruct (ProcessClaim_run x c r s) as (_ & -> & _) end.
  apply run_time.
Qed.

(** ** Property *)

(** C17: whatever the request, and however slow the services and the transport
    are, a client has its answer within 7 seconds: 2 to look the tenant up and 5
    for the claim, after which the gateway gives up.  The deadline crosses the
    wire and bounds the version lookup and every attempt of every node, retries
    and back-offs included; so the run of a claim, which the server may finish
    after the client has its answer, ends within 5 seconds of its start and the
    time of one file read, which alone is outside of the deadline (for a client
    that does not cancel its request).  The transport
    keeps its contract, and the Java services and the broker honour the deadlines
    they are given. *)
Theorem platform_duration r s :
  now s <= now (final (platform_of new_writer r) s) <= now s + 7 * Second /\
  (forall req,
     header_value (result_of (New rand_Read) s) -> uncancelled (rq_Context r) ->
     is_ok (result_of (run_sent isPrintTable store rand_Read r s)
              (resolved rand_Read (tenant_client isPrintTable store) r s)) = true ->
     let started := run_start isPrintTable store rand_Read r s in
     now started <= now (final (request_run isPrintTable store executor rand_Read r req s) started)
                 <= now started + 5 * Second + disk).
Proof.
  split.
  - apply SubmitClaim_duration; [apply rand_instant|apply tenant_client_time|apply orchestration_client_time].
  - intros req Hid Hstay Hsent started.
    destruct (run_start_time isPrintTable store rand_Read r s Hsent) as [_ Hdeadline].
    destruct (Hdeadline Hstay) as (t & e & Hend & Ht).
    destruct (run_request_ids isPrintTable store rand_Read r s Hid) as (_ & _ & Hd). rewrite Hend in Hd.
    destruct (run_time (run_request_ctx isPrintTable store rand_Read r s) hardcodedTenantID
                (result_of (New rand_Read) s) (Some (claim_of req (result_of (New rand_Read) s))) started)
      as [Hlo Hhi].
    specialize (Hhi t e Hd). pose proof (read_within "" s). unfold request_run, started, Second, Millisecond in *. lia.
Qed.
End Timing.

(** Services that take 30 ms and a disk that takes one second. *)
Definition slow_read (p : string) : M unit (result string) := λ s,
  (Ok "file"%string, mkSt (now s + Second) (env s) (coin s), []).

#[export] Instance demo_world_timely :
  TimelyWorld demo_norm demo_hash demo_lookup slow_read (λ _, Ok claim_fnol_config)
    (λ c _, answer (30 * Millisecond) [] svcPublish tt c) demo_rand Second.
Proof.
  split; try (intros; apply answer_timely); [|intros data cfg [= <-]; apply claim_fnol_ranges|done].
  intros p s. unfold final. simpl. unfold Second, Millisecond. lia.
Qed.

#[local] Existing Instances map_metadata demo_transport.
Lemma platform_duration_witness :
  let p := go_platform (λ _, false) shipped_store demo_norm demo_hash demo_lookup slow_read
             (λ _, Ok claim_fnol_config) (λ c _, answer (30 * Millisecond) [] svcPublish tt c)
             "../../config/dag" demo_rand in
  let executor := go_executor (λ _, false) shipped_store demo_norm demo_hash demo_lookup slow_read
             (λ _, Ok claim_fnol_config) (λ c _, answer (30 * Millisecond) [] svcPublish tt c)
             "../../config/dag" in
  let r := demo_post demo_text in
  let started := run_start (λ _, false) shipped_store demo_rand r demo_st in
  0 <= now (final (p new_writer r) demo_st) <= 0 + 7 * Second /\
  now started <= now (final (request_run (λ _, false) shipped_store executor demo_rand r demo_body demo_st) started)
              <= now started + 5 * Second + Second.
Proof.
  destruct (platform_duration (λ _, false) shipped_store demo_norm demo_hash demo_lookup slow_read
    (λ _, Ok claim_fnol_config) (λ c _, answer (30 * Millisecond) [] svcPublish tt c)
    "../../config/dag" demo_rand Second (demo_post demo_text) demo_st) as [Hanswer Hrun].
  split; [exact Hanswer|]. apply Hrun.
  - apply (bool_decide_unpack _). by_compute.
  - exact I.
  - vm_compute. reflexivity.
Defined.
