(* ===== verification/PlatformEvents.v ===== *)
(** * What the platform publishes is what it answers

    The event that a request leaves on the topic, against the answer that its
    client receives. *)

From S2P Require Import Prelude Float64 GoStrings Utf8 FormatFloat Json JsonFacts Scoring Messages.
From S2P Require Import Payloads PayloadFacts Effects Telemetry TenantConfig DagConfig Resilience.
From S2P Require Import Loader Kafka Executor Pipeline PipelineFacts RunProps RunTiming Transport.
From S2P Require Import Servers Gateway GatewayProps Startup System Platform.

Section Events.
Context `{GrpcMetadataLaws} {E : Type} {tr : Transport E} `{!SilentTransport tr}.
Context (isPrintTable : Z -> bool) (store : Store).
Context (norm : Ctx -> option NormalizeRequest -> M E (result (option NormalizeResponse)))
  (hash : Ctx -> option HashClaimantIdRequest -> M E (result (option HashClaimantIdResponse)))
  (lookup : Ctx -> option LookupPolicyRequest -> M E (result (option LookupPolicyResponse))).
Context (ReadFile : string -> M E (result string)) (Unmarshal : string -> result Config)
  (WriteMessages : Ctx -> Message -> M E (result unit)) (dir : string).
Context (rand_Read : Z -> M E (result (list Z))).

(** The services, the broker and the libraries make no traced call of their
    own. *)
Class QuietWorld : Prop := {
  quiet_world_norm c r s : calls_of (trace (norm c r) s) = [];
  quiet_world_hash c r s : calls_of (trace (hash c r) s) = [];
  quiet_world_lookup c r s : calls_of (trace (lookup c r) s) = [];
  quiet_world_read path s : calls_of (trace (ReadFile path) s) = [];
  quiet_world_write c m s : calls_of (trace (WriteMessages c m) s) = [];
  quiet_world_rand n s : calls_of (trace (rand_Read n) s) = [] }.
Context `{!QuietWorld}.

Notation stubs := (go_stubs isPrintTable store norm hash lookup).
Notation executor := (go_executor isPrintTable store norm hash lookup ReadFile Unmarshal WriteMessages dir).
Notation platform_of :=
  (go_platform isPrintTable store norm hash lookup ReadFile Unmarshal WriteMessages dir rand_Read).

Instance go_quiet : QuietStubs stubs WriteMessages.
Proof.
  split; cbn [go_stubs st_norm st_hash st_lookup st_model];
    [apply quiet_world_norm|apply quiet_world_hash|apply quiet_world_lookup| |apply quiet_world_write].
  intros c r s. unfold pointer. run. rewrite calls_of_app, rpc_calls by apply _.
  destruct (result_of (net_request _ _) _) as [ends|err]; [|done].
  destruct (model_handling isPrintTable c ends r (final (net_request score_method c) s)) as (_ & _ & ->).
  done.
Qed.

Lemma quiet_version c q s : calls_of (trace (st_version stubs c q) s) = [].
Proof.
  cbn [go_stubs st_version]. rewrite rpc_calls by apply _.
  destruct (result_of (net_request _ _) _) as [ends|err]; [|done].
  unfold handling, tenantconfig_service, svc_GetDagVersion, GetDagVersion.
  destruct (DagVersion store _ _); run; by run_calls.
Qed.

(** A publication of a request is one of the labels of its run. *)
Lemma platform_publication r req s ev :
  accepted r = Some req -> header_value (result_of (New rand_Read) s) ->
  CallPublish ev ∈ calls_of (trace (platform_of new_writer r) s) ->
  forall cfg ls cs p,
    run_path executor (run_request_ctx isPrintTable store rand_Read r s) "acme_insurance"
      (result_of (New rand_Read) s) (Some (claim_of req (result_of (New rand_Read) s))) cfg
      (run_start isPrintTable store rand_Read r s) ls cs p ->
    exists before n o after, ls = before ++ OPublish n ev o :: after.
Proof.
  intros Hacc Hid Hev cfg ls cs p (Hpath & Hreal & Hcalls). unfold go_platform in Hev.
  rewrite (platform_trace isPrintTable store executor rand_Read r req s Hacc Hid), quiet_world_rand in Hev.
  destruct (load_trace stubs ReadFile Unmarshal WriteMessages dir quiet_version quiet_world_read
              (run_request_ctx isPrintTable store rand_Read r s) (result_of (New rand_Read) s) req
              (run_start isPrintTable store rand_Read r s)) as (reads & Hload & Hreads).
  assert (Hrun : CallPublish ev ∈ calls_of (trace (request_run isPrintTable store executor rand_Read r req s)
                                              (run_start isPrintTable store rand_Read r s))).
  { simpl in Hev. apply elem_of_cons in Hev as [?|Hev]; [done|]. case_match; [|by apply elem_of_nil in Hev].
    apply elem_of_cons in Hev as [?|Hev]; [done|]. case_match; [done|by apply elem_of_nil in Hev]. }
  rewrite request_run_unfold, Hcalls in Hrun. unfold go_executor in Hrun. rewrite Hload in Hrun.
  assert (Hcs : CallPublish ev ∈ cs) by (destruct Hreads as [-> | ->]; set_solver).
  destruct (path_call cfg _ _ _ ls _ cs _ Hpath (realizes_matches _ _ _ _ _ _ _ _ _ Hreal) Hcs)
    as (before & l & after & n & -> & Hlab & _).
  destruct l as [| | | | |n' ev' o]; simplify_eq/=. by exists before, n, o, after.
Qed.

(** C4: a client and the consumers of the topic are told the same.  An event
    that a request publishes carries, when the request is answered 200, the
    tenant that the gateway resolved, the claim id, the correlation id and the
    model version of the answer, and exactly its score; and it is marked
    [scored] whenever the answer is. *)
Theorem platform_publishes_answer r req s ev :
  accepted r = Some req -> header_value (result_of (New rand_Read) s) ->
  let m := platform_of new_writer r in
  CallPublish ev ∈ calls_of (trace m s) -> w_status (result_of m s) = Some 200 ->
  ev_TenantID ev = "acme_insurance"%string /\
  exists v, readValue (bytes_of (w_body (result_of m s))) = inl v /\
    string_member v "claim_id" = Some (ev_ClaimID ev) /\
    string_member v "correlation_id" = Some (ev_CorrelationID ev) /\
    is_Some (json_float (ev_FraudScore ev)) /\
    number_member v "fraud_score" = json_float (ev_FraudScore ev) /\
    string_member v "model_version" = Some (ev_ModelVersion ev) /\
    (string_member v "status" = Some "scored"%string -> ev_Status ev = "scored"%string).
Proof.
  intros Hacc Hid m Hev H200. unfold m in *.
  destruct (platform_200 isPrintTable store executor rand_Read r req s Hacc Hid H200) as (res & Hx).
  destruct (completed_answer isPrintTable store _ _ _ _ _ _ _ _ r req s res Hacc Hid Hx)
    as (v & cfg & ls & cs & _ & Hread & _ & Hpath & Hclaim & Hcorr & Hstatus & _ & Hscore & Hver & Hrs & Hrv).
  destruct (platform_publication r req s ev Hacc Hid Hev _ _ _ _ Hpath)
    as (before & n & o & after & Hls). pose proof Hpath as (Hsteps & _ & _). rewrite Hls in Hsteps.
  pose proof Hsteps as (_ & _ & sc & _ & Hdone)%inv_reachable.
  destruct (published_event _ _ _ _ _ _ _ _ _ _ Hsteps) as [Heq Hst].
  rewrite Hrs, Hrv in Heq. rewrite Heq. cbn [ev_TenantID ev_ClaimID ev_CorrelationID ev_FraudScore ev_ModelVersion ev_Status].
  split; [done|]. exists v. rewrite (json_float_cents _ (enrichment_cents_range _)), Hstatus.
  split_and!; try done. intros [= Hs]. apply Hst. by rewrite Hdone, <- Hls.
Qed.
End Events.

(** The shipped configuration publishes the score it answers. *)
#[export] Instance demo_quiet :
  QuietWorld demo_norm demo_hash demo_lookup (λ _, mret (Ok "file"%string))
    (λ c _, answer (30 * Millisecond) [] svcPublish tt c) demo_rand.
Proof. by split. Qed.

#[local] Existing Instances map_metadata demo_transport.
Lemma platform_publishes_answer_witness :
  let m := demo_go_platform new_writer (demo_post demo_text) in
  let ev := mkScoredClaimEvent "CLM-1" "abababababababababababababababab" "acme_insurance" "scored"
              (f64_lit 20 100) "rules-v1" in
  ev_TenantID ev = "acme_insurance"%string /\
  exists v, readValue (bytes_of (w_body (result_of m demo_st))) = inl v /\
    string_member v "claim_id" = Some (ev_ClaimID ev) /\
    string_member v "correlation_id" = Some (ev_CorrelationID ev) /\
    is_Some (json_float (ev_FraudScore ev)) /\
    number_member v "fraud_score" = json_float (ev_FraudScore ev) /\
    string_member v "model_version" = Some (ev_ModelVersion ev) /\
    (string_member v "status" = Some "scored"%string -> ev_Status ev = "scored"%string).
Proof.
  intros m ev. unfold m, demo_go_platform. apply platform_publishes_answer with (req := demo_body).
  - apply demo_quiet.
  - vm_compute. reflexivity.
  - apply (bool_decide_unpack _). by_compute.
  - vm_compute. do 8 right. left.
  - vm_compute. reflexivity.
Defined.
