(* ===== verification/PlatformDelivery.v ===== *)
(** * An answer marked [scored] has been delivered

    What the status of an answer says about the topic: when it is [scored], the
    run of the request had a message with the same content acknowledged by the
    broker for every publishing node, in the order of the configuration. *)

From S2P Require Import Prelude Float64 GoStrings Utf8 FormatFloat Json JsonFacts Scoring Messages.
From S2P Require Import Payloads PayloadFacts Effects Telemetry TenantConfig DagConfig Resilience.
From S2P Require Import Loader Kafka Executor Pipeline PipelineFacts RunProps RunTiming Transport.
From S2P Require Import Servers Gateway GatewayProps Startup System Platform.

(** ** A publication that succeeds *)

(** A message that holds an event, as a consumer reads it. *)
Definition holds_event (msg : Message) (ev : ScoredClaimEvent) : Prop :=
  msg_Key msg = bytes_of (ev_TenantID ev) /\
  exists v, readValue (bytes_of (msg_Value msg)) = inl v /\
    string_member v "claim_id" = Some (clean (ev_ClaimID ev)) /\
    string_member v "correlation_id" = Some (clean (ev_CorrelationID ev)) /\
    string_member v "tenant_id" = Some (clean (ev_TenantID ev)) /\
    string_member v "status" = Some (clean (ev_Status ev)) /\
    number_member v "fraud_score" = json_float (ev_FraudScore ev) /\
    string_member v "model_version" = Some (clean (ev_ModelVersion ev)).

(** A message from which a consumer of the topic reads what the answer [v]
    says: keyed by the tenant, marked [scored], with the claim id, the
    correlation id, the score and the model version of the answer. *)
Definition tells (v : json) (msg : Message) : Prop :=
  msg_Key msg = bytes_of "acme_insurance" /\
  exists event, readValue (bytes_of (msg_Value msg)) = inl event /\
    string_member event "tenant_id" = Some "acme_insurance"%string /\
    string_member event "status" = Some "scored"%string /\
    (forall member, member ∈ ["claim_id"; "correlation_id"; "model_version"]%string ->
       is_Some (string_member v member) /\ string_member event member = string_member v member) /\
    is_Some (number_member v "fraud_score") /\
    number_member event "fraud_score" = number_member v "fraud_score".

(** [Publish] succeeds when the broker took a message with the event. *)
Lemma Publish_ok {E} (WriteMessages : Ctx -> Message -> M E (result unit)) c ev (s : St E) :
  result_of (Publish WriteMessages c ev) s = Ok tt ->
  exists msg, result_of (WriteMessages c msg) s = Ok tt /\
    final (Publish WriteMessages c ev) s = final (WriteMessages c msg) s /\ holds_event msg ev.
Proof.
  pose proof (Marshal_event ev) as Hm. unfold Publish. destruct (json_float (ev_FraudScore ev)) as [score|] eqn:Hs;
    [|by rewrite Hm].
  destruct Hm as (text & v & -> & _ & Hread & H1 & H2 & H3 & H4 & H5 & H6). run.
  set (msg := mkMessage _ _). destruct (result_of (WriteMessages c msg) s) as [[]|err] eqn:Hw; [|done].
  intros _. exists msg. split; [done|]. split; [done|]. split; [done|]. exists v. rewrite Hs. by split_and!.
Qed.

Section Delivery.
Context `{GrpcMetadataLaws} {E : Type} {tr : Transport E}.
Context (isPrintTable : Z -> bool) (store : Store).
Context (norm : Ctx -> option NormalizeRequest -> M E (result (option NormalizeResponse)))
  (hash : Ctx -> option HashClaimantIdRequest -> M E (result (option HashClaimantIdResponse)))
  (lookup : Ctx -> option LookupPolicyRequest -> M E (result (option LookupPolicyResponse))).
Context (ReadFile : string -> M E (result string)) (Unmarshal : string -> result Config)
  (WriteMessages : Ctx -> Message -> M E (result unit)) (dir : string).
Context (rand_Read : Z -> M E (result (list Z))).

Notation executor := (go_executor isPrintTable store norm hash lookup ReadFile Unmarshal WriteMessages dir).
Notation platform_of :=
  (go_platform isPrintTable store norm hash lookup ReadFile Unmarshal WriteMessages dir rand_Read).

(** What the node [n] did with [ev] from the state [s1] to the state [s2]: after
    at most [max_retries] attempts that failed, one under the node's timeout in
    which the broker acknowledged a message that satisfies [P]. *)
Definition acknowledged (ctx : Ctx) (cfg : Config) (n : Node) (ev : ScoredClaimEvent)
    (P : Message -> Prop) (s1 s2 : St E) : Prop :=
  exists errs s0 msg,
    let attempt := WithTimeout (now s0) ctx (nodeTimeout cfg n) in
    failures ctx (nodeTimeout cfg n) (λ c, call c (CallPublish ev) (Publish WriteMessages c ev)) s1 errs s0 /\
    Z.of_nat (length errs) <= n_MaxRetries n /\
    result_of (WriteMessages attempt msg) s0 = Ok tt /\
    final (WriteMessages attempt msg) s0 = s2 /\ P msg.

(** A publication on a path without a failure had its message acknowledged. *)
Lemma publication_delivers ctx cfg id claim s1 n ev o s2 cs ls :
  realizes_label executor ctx cfg id claim s1 (OPublish n ev o) s2 cs ->
  OPublish n ev o ∈ ls -> existsb degrading ls = false -> 0 <= n_MaxRetries n ->
  acknowledged ctx cfg n ev (λ msg, holds_event msg ev) s1 s2.
Proof.
  intros (Hr & Hf & _) Hin Hd Hn. destruct o as [[]|err].
  2: { assert (existsb degrading ls = true); [|congruence].
       apply existsb_exists. eexists. split; [by apply list_elem_of_In|done]. }
  destruct (callWithResilience_success _ _ _ _ _ _ _ Hn Hr) as (errs & s0 & Hfail & Hlen & Hok & Hfin).
  revert Hok Hfin. unfold attempt_once. run. intros (msg & Hw & Hpub & Hev)%Publish_ok Hfin.
  exists errs, s0, msg. split_and!; [exact Hfail|done|exact Hw| |done].
  exact (eq_trans (eq_sym Hpub) (eq_trans (eq_sym Hfin) Hf)).
Qed.

Lemma acknowledged_mono ctx cfg n ev (P Q : Message -> Prop) s1 s2 :
  (forall msg, P msg -> Q msg) -> acknowledged ctx cfg n ev P s1 s2 -> acknowledged ctx cfg n ev Q s1 s2.
Proof. intros HPQ (errs & s0 & msg & ? & ? & ? & ? & ?). exists errs, s0, msg. split_and!; auto. Qed.

(** A node that published has its label on the path. *)
Lemma published_split n ls nodes :
  published_nodes ls = n :: nodes -> exists before ev o after, ls = before ++ OPublish n ev o :: after.
Proof.
  induction ls as [|l ls IH]; [done|]. destruct l as [| | | | |m ev o]; cbn.
  1-5: intros (before & ev' & o' & after & ->)%IH; by eexists (_ :: before), ev', o', after.
  intros [= -> _]. by exists [], ev, o, ls.
Qed.

(** The configuration of the run of a request. *)
Definition request_config (r : HttpRequest) (req : claimRequest) (s : St E) : result Config :=
  let id := result_of (New rand_Read) s in
  result_of (run_load executor (run_request_ctx isPrintTable store rand_Read r s) "acme_insurance" id
               (Some (claim_of req id))) (run_start isPrintTable store rand_Read r s).

(** ** Property *)

(** C3: a claim answered as [scored] has reached the topic.  When a request is
    answered 200, its answer is that of a run whose publications are those of the
    nodes of its configuration that publish for the tenant, each once and in
    their order.  When the answer says [scored], every one of them that may be
    tried at all was acknowledged in that run: from the state that the run had
    reached, after no more failed attempts than the node has retries, the broker
    acknowledged, under the timeout of the node, a message from which a consumer
    reads the tenant, the claim id, the correlation id, the score and the model
    version of the answer and the status [scored]; and the run went on from
    there.  A message the broker never acknowledged shows as [degraded] or as an
    error. *)
Theorem platform_scored_is_delivered r req s :
  accepted r = Some req -> header_value (result_of (New rand_Read) s) ->
  let out := result_of (platform_of new_writer r) s in
  w_status out = Some 200 ->
  let id := result_of (New rand_Read) s in
  let claim := Some (claim_of req id) in
  let ctx := run_request_ctx isPrintTable store rand_Read r s in
  let started := run_start isPrintTable store rand_Read r s in
  exists v cfg ls cs res,
    readValue (bytes_of (w_body out)) = inl v /\ request_config r req s = Ok cfg /\
    run_path executor ctx "acme_insurance" id claim cfg started ls cs (Done res) /\
    published_nodes ls = List.filter (publishes "acme_insurance") (c_Nodes cfg) /\
    (string_member v "status" = Some "scored"%string ->
     forall before n ev o after, ls = before ++ OPublish n ev o :: after -> 0 <= n_MaxRetries n ->
       let loaded := final (run_load executor ctx "acme_insurance" id claim) started in
       let ended := final (request_run isPrintTable store executor rand_Read r req s) started in
       let realized := realizes executor (run_ctx ctx "acme_insurance" id) cfg id claim in
       exists s1 cs1 s2 cs2,
         realized loaded before s1 cs1 /\
         acknowledged (run_ctx ctx "acme_insurance" id) cfg n ev (tells v) s1 s2 /\
         realized s2 after ended cs2).
Proof.
  intros Hacc Hid out H200. unfold out in *. cbv zeta.
  destruct (platform_200 isPrintTable store executor rand_Read r req s Hacc Hid H200) as (res & Hx).
  destruct (completed_answer isPrintTable store _ _ _ _ _ _ _ _ r req s res Hacc Hid Hx)
    as (v & cfg & ls & cs & _ & Hread & Hload & Hpath & Hclaim & Hcorr & Hstatus & _ & Hscore & Hver & Hrs & Hrv).
  exists v, cfg, ls, cs, res. split; [exact Hread|]. split; [exact Hload|]. split; [exact Hpath|].
  pose proof Hpath as (Hsteps & Hreal & _). split; [by eapply completed_publishes|].
  rewrite Hstatus. unfold status_of. destruct (existsb degrading ls) eqn:Hd; [done|].
  intros _ before n ev o after Hls Hretry. rewrite Hls in Hreal, Hsteps.
  destruct (realizes_split _ _ _ _ _ _ _ _ _ _ _ Hreal) as (s1 & cs1 & s2 & csl & cs2 & Hbefore & Hlabel & Hafter).
  exists s1, cs1, s2, cs2. split; [exact Hbefore|]. split; [|exact Hafter].
  eapply acknowledged_mono; [|eapply publication_delivers; [exact Hlabel| |exact Hd|done]];
    [|rewrite Hls; apply elem_of_app; right; left].
  intros msg (Hkey & event & Hev & E1 & E2 & E3 & E4 & E5 & E6).
  pose proof Hsteps as (_ & _ & sc & _ & Hdone)%inv_reachable.
  destruct (published_event _ _ _ _ _ _ _ _ _ _ Hsteps) as [Heq Hst].
  rewrite Hrs, Hrv in Heq. rewrite Heq in *.
  cbn [ev_TenantID ev_ClaimID ev_CorrelationID ev_FraudScore ev_ModelVersion ev_Status GetClaimId claim_of ClaimId] in *.
  rewrite Hst in E4 by (rewrite Hdone, <- Hls; unfold status_of; simpl; by rewrite Hd).
  rewrite json_float_cents in E5 by apply enrichment_cents_range.
  destruct (Decode_valid _ _ (accepted_decode _ _ Hacc)) as (? & _).
  assert (Hvid : valid_string (result_of (New rand_Read) s)).
  { apply ascii_valid. eapply Forall_impl; [exact Hid|]. simpl. lia. }
  rewrite clean_valid in E1 by done. rewrite clean_valid in E2 by done.
  split; [done|]. exists event. rewrite E3, E4, E5, Hscore.
  split_and!; try done. intros member Hm. repeat (apply elem_of_cons in Hm as [->|Hm]); [..|by apply elem_of_nil in Hm];
    rewrite ?E1, ?E2, ?E6, ?Hclaim, ?Hcorr, ?Hver; by split.
Qed.
End Delivery.

(** ** The shipped configuration, and a broker that keeps what it accepts *)
Module Recording.
#[local] Existing Instances map_metadata demo_transport.

(** What the broker holds. *)
Definition log : Type := list Message.
Definition quick {Req Resp} (resp : Resp) (_ : Ctx) (_ : Req) : M log (result (option Resp)) :=
  mret (Ok (Some resp)).
Definition write (up : bool) (_ : Ctx) (msg : Message) : M log (result unit) := λ s,
  if up then (Ok tt, mkSt (now s + 30 * Millisecond) (env s ++ [msg]) (coin s), [])
  else (Err (ErrNew "dial tcp: connection refused"), s, []).
Definition random (_ : Z) : M log (result (list Z)) := mret (Ok (replicate 16 171)).
Definition nothing : St log := mkSt 0 [] (λ _, false).

Definition norm := quick (Req := option NormalizeRequest) (mkNormResp "1 MAIN ST" "" "" "" "" "" true).
Definition hash := quick (Req := option HashClaimantIdRequest) (mkHashResp "5f2c").
Definition lookup := quick (Req := option LookupPolicyRequest) (mkLookupResp true "lapsed" "standard").
Definition read (_ : string) : M log (result string) := mret (Ok "file"%string).
Definition parse (_ : string) : result Config := Ok claim_fnol_config.
Definition r : HttpRequest := demo_post demo_text.

Definition platform (up : bool) : M log Writer :=
  go_platform (λ _, false) shipped_store norm hash lookup read parse (write up) "../../config/dag" random
    new_writer r.

(** The message of the answer of 0.20. *)
Example recorded :
  w_body (result_of (platform true) nothing) = string_of (json_literal
    "{'claim_id':'CLM-1','correlation_id':'abababababababababababababababab','status':'scored','normalized_address':'1 MAIN ST','fraud_score':0.2,'model_version':'rules-v1'}"
    ++ [10]) /\
  env (final (platform true) nothing) =
    [mkMessage (bytes_of "acme_insurance") (string_of (json_literal
      "{'claim_id':'CLM-1','correlation_id':'abababababababababababababababab','tenant_id':'acme_insurance','status':'scored','fraud_score':0.2,'model_version':'rules-v1'}"))].
Proof. by_compute. Qed.

(** A broker that takes nothing: the answer is [degraded]. *)
Example not_recorded :
  w_body (result_of (platform false) nothing) = string_of (json_literal
    "{'claim_id':'CLM-1','correlation_id':'abababababababababababababababab','status':'degraded','normalized_address':'1 MAIN ST','fraud_score':0.2,'model_version':'rules-v1'}"
    ++ [10]) /\
  env (final (platform false) nothing) = [].
Proof. by_compute. Qed.
End Recording.

#[local] Existing Instances map_metadata demo_transport.
Lemma platform_scored_is_delivered_witness :
  let ctx := run_request_ctx (λ _, false) shipped_store Recording.random Recording.r Recording.nothing in
  exists v ev s1 s2,
    readValue (bytes_of (w_body (result_of (Recording.platform true) Recording.nothing))) = inl v /\
    string_member v "status" = Some "scored"%string /\
    acknowledged (Recording.write true)
      (run_ctx ctx "acme_insurance" "abababababababababababababababab") claim_fnol_config
      (mkNode "publish" svcPublish "" 100 0 "skip" ["model_score"]%string []) ev (tells v) s1 s2.
Proof.
  destruct (platform_scored_is_delivered (λ _, false) shipped_store Recording.norm Recording.hash Recording.lookup
              Recording.read Recording.parse (Recording.write true) "../../config/dag" Recording.random
              Recording.r demo_body Recording.nothing) as (v & cfg & ls & cs & res & Hread & Hcfg & _ & Hnodes & Hdelivered).
  - vm_compute. reflexivity.
  - apply (bool_decide_unpack _). by_compute.
  - vm_compute. reflexivity.
  - assert (Hs : match readValue (bytes_of (w_body (result_of (Recording.platform true) Recording.nothing)))
                 with inl v => string_member v "status" | inr _ => None end = Some "scored"%string)
      by (vm_compute; reflexivity).
    unfold Recording.platform in Hs. rewrite Hread in Hs.
    assert (Hc : request_config (λ _, false) shipped_store Recording.norm Recording.hash Recording.lookup
                   Recording.read Recording.parse (Recording.write true) "../../config/dag" Recording.random
                   Recording.r demo_body Recording.nothing = Ok claim_fnol_config) by (vm_compute; reflexivity).
    rewrite Hcfg in Hc. injection Hc as ->.
    destruct (published_split _ ls [] Hnodes) as (before & ev & o & after & Hls).
    destruct (Hdelivered Hs before _ ev o after Hls (Z.le_refl _)) as (s1 & cs1 & s2 & cs2 & _ & Hack & _).
    exists v, ev, s1, s2. exact (conj Hread (conj Hs Hack)).
Defined.
