(* ===== verification/JavaPlatform.v ===== *)
(** * The whole platform: four Go and three Java services

    [Platform], over any transport, with the repository's own enrichment services in place of its
    last parameters.  Between orchestration and a Java service lies a network
    that may delay a call and fail it in any way; when it lets a call through,
    the answer is that of the service.  The score of a request is then a
    function of the request, up to what the network kept from the pipeline. *)

From S2P Require Import Prelude Float64 GoStrings Utf8 FormatFloat Json JsonFacts JavaStrings Sha256.
From S2P Require Import JavaServices JavaServiceFacts Scoring Messages Payloads PayloadFacts Effects.
From S2P Require Import Telemetry.
From S2P Require Import TenantConfig DagConfig Resilience Loader Kafka Executor Pipeline PipelineFacts.
From S2P Require Import RunProps RunTiming Transport Servers JavaGrpc Gateway GatewayProps Startup.
From S2P Require Import System Platform.

(** ** The stubs *)
Section JavaStubs.
Context `{GrpcMetadata} `{CaseTables} `{JavaServerLaws} {E : Type}.
(** The network to a service, and the error of gRPC for a string that is not
    valid UTF-8. *)
Context (net : string -> Ctx -> M E (result unit)) (marshal_error : GoErr).

Definition valid_field (s : string) : bool := bool_decide (sanitize (bytes_of s) = bytes_of s).

(** A call to a Java service, through orchestration's client interceptor: the
    fields of the request are checked, the network crossed, the handler run on
    some thread. *)
Definition java_call {Req Resp} (svc method : string) (fields : Req -> list string)
    (handler : Req -> StreamObserver Resp -> J Resp unit) (zero : Req) (ctx : Ctx) (req : option Req)
    : M E (result (option Resp)) :=
  UnaryClientInterceptor (Some (NewLogger "orchestration-service")) ctx md_empty method (default zero req)
    (λ ctx _ req,
       if negb (forallb valid_field (fields req)) then mret (Err marshal_error)
       else
         r ← net svc ctx;
         mret match r with
              | Err err => Err err
              | Ok _ =>
                  match client_answer (handler req open_call ∅) with
                  | Ok resp => Ok (Some resp)
                  | Err err => Err err
                  end
              end).

Definition java_hash : Ctx -> option HashClaimantIdRequest -> M E (result (option HashClaimantIdResponse)) :=
  java_call svcHash "/claimantidhash.v1.ClaimantIdHashingService/HashClaimantId"
    (λ r, [hq_correlation_id r; hq_claimant_name r]) hashClaimantId (mkHashReq "" "").
Definition java_norm : Ctx -> option NormalizeRequest -> M E (result (option NormalizeResponse)) :=
  java_call svcNormalize "/addressnorm.v1.AddressNormalizationService/Normalize"
    (λ r, [nq_correlation_id r; nq_raw_address r]) normalize (mkNormReq "" "").
Definition java_lookup : Ctx -> option LookupPolicyRequest -> M E (result (option LookupPolicyResponse)) :=
  java_call svcLookup "/policylookup.v1.PolicyLookupService/LookupPolicy"
    (λ r, [lq_correlation_id r; lq_policy_number r]) lookupPolicy (mkLookupReq "" "").

(** The answers of the services. *)
Definition norm_answer (rawAddress : string) : NormalizeResponse :=
  normalize_response (AddressNormalizer.normalize (Some (java_of rawAddress))).
Definition lookup_answer (policyNumber : string) : LookupPolicyResponse :=
  lookup_response (PolicyLookup.lookup (Some (java_of policyNumber))).

Lemma java_call_ok {Req Resp} svc method fields (handler : Req -> StreamObserver Resp -> J Resp unit) zero
    ctx req resp s v :
  client_answer (handler req open_call ∅) = Ok resp ->
  result_of (java_call svc method fields handler zero ctx (Some req)) s = Ok v -> v = Some resp.
Proof.
  intros Hans. unfold java_call.
  match goal with |- context [UnaryClientInterceptor ?l ?c ?o ?m ?r ?inv] =>
    destruct (client_interceptor_outcome l c o m r inv s) as [-> _] end.
  cbv zeta beta. change (default zero (Some req)) with req. destruct (negb _); [done|]. run.
  destruct (result_of (net svc ctx) s); [|done]. rewrite Hans. by intros [= <-].
Qed.

(** A call over a prompt network, with fields that are UTF-8. *)
Lemma java_call_prompt {Req Resp} svc method fields (handler : Req -> StreamObserver Resp -> J Resp unit)
    zero req resp d :
  forallb valid_field (fields req) = true -> prompt d (net svc) ->
  client_answer (handler req open_call ∅) = Ok resp ->
  prompt d (λ ctx, java_call svc method fields handler zero ctx (Some req)).
Proof.
  intros Hf Hnet Hans ctx s Hroom. destruct (Hnet ctx s Hroom) as [Hok Ht]. unfold java_call.
  match goal with |- context [UnaryClientInterceptor ?l ?c ?o ?m ?r ?inv] =>
    destruct (client_interceptor_outcome l c o m r inv s) as [-> ->] end.
  cbv zeta beta. change (default zero (Some req)) with req. rewrite Hf. simpl. run. rewrite Hans.
  by destruct (result_of (net svc ctx) s).
Qed.

Lemma valid_field_valid s : valid_string s -> valid_field s = true.
Proof. intros Hs. apply bool_decide_eq_true. by apply sanitize_valid. Qed.

Section Prompt.
Context (d : Z) (prompt_net : forall svc, prompt d (net svc)).

Lemma java_hash_prompt id name :
  valid_string id -> valid_string name -> prompt d (λ ctx, java_hash ctx (Some (mkHashReq id name))).
Proof.
  intros Hi Hn. eapply java_call_prompt; [|done|rewrite hashClaimantId_adapter; apply adapter_answer].
  simpl. by rewrite !valid_field_valid.
Qed.
Lemma java_norm_prompt id raw :
  valid_string id -> valid_string raw -> prompt d (λ ctx, java_norm ctx (Some (mkNormReq id raw))).
Proof.
  intros Hi Hn. eapply java_call_prompt; [|done|rewrite normalize_adapter; apply adapter_answer].
  simpl. by rewrite !valid_field_valid.
Qed.
Lemma java_lookup_prompt id number :
  valid_string id -> valid_string number -> prompt d (λ ctx, java_lookup ctx (Some (mkLookupReq id number))).
Proof.
  intros Hi Hn. eapply java_call_prompt; [|done|rewrite lookupPolicy_adapter; apply adapter_answer].
  simpl. by rewrite !valid_field_valid.
Qed.
End Prompt.

Lemma java_norm_ok ctx id raw s v :
  result_of (java_norm ctx (Some (mkNormReq id raw))) s = Ok v -> v = Some (norm_answer raw).
Proof. apply java_call_ok. rewrite normalize_adapter. apply adapter_answer. Qed.
Lemma java_lookup_ok ctx id number s v :
  result_of (java_lookup ctx (Some (mkLookupReq id number))) s = Ok v -> v = Some (lookup_answer number).
Proof. apply java_call_ok. rewrite lookupPolicy_adapter. apply adapter_answer. Qed.
End JavaStubs.

(** ** What the services make of a request *)
Section Answers.
Context `{CaseTables}.

Definition request_policy (q : claimRequest) : PolicyLookup.Result :=
  PolicyLookup.lookup (Some (java_of (q_PolicyNumber q))).
Definition request_address (q : claimRequest) : AddressNormalizer.Normalized :=
  AddressNormalizer.normalize (Some (java_of (q_RawAddress q))).

(** The score of a request, in cents: a function of the policy and of the
    validity of the address. *)
Definition policy_cents (r : PolicyLookup.Result) : Z :=
  if PolicyLookup.found r then
    if bool_decide (PolicyLookup.status r = lit "active") then 0
    else if bool_decide (PolicyLookup.status r = lit "lapsed") then 15 else 25
  else 35.
Definition request_cents (q : claimRequest) : Z :=
  5 + policy_cents (request_policy q) + (if AddressNormalizer.valid (request_address q) then 0 else 10).

(** The surcharges of a status and of a coverage, as the model has them. *)
Lemma cents_of_policy q :
  let stat := go_of (PolicyLookup.status (request_policy q)) in
  let cov := go_of (PolicyLookup.coverageType (request_policy q)) in
  (if bool_decide (stat = "active"%string) then 0
   else if bool_decide (stat = "lapsed"%string) then 15
   else if bool_decide (stat = "cancelled"%string) then 25 else 30)
  + (if bool_decide (cov = ""%string) then 5 else 0) = policy_cents (request_policy q).
Proof.
  cbv zeta. unfold request_policy.
  destruct (lookup_answers (Some (java_of (q_PolicyNumber q)))) as [->|(n & _ & _ & Hr%known_policy)];
    [by_compute|].
  set (r := PolicyLookup.lookup _) in *. set_unfold. destruct_or!; rewrite Hr; by_compute.
Qed.

(** What an enrichment of the request may hold. *)
Definition policy_from (q : claimRequest) (st : Enrichment) : Prop :=
  e_policyStatus st = go_of (PolicyLookup.status (request_policy q)) /\
  e_policyCoverageType st = go_of (PolicyLookup.coverageType (request_policy q)).
Definition address_from (q : claimRequest) (st : Enrichment) : Prop :=
  e_addressValid st = AddressNormalizer.valid (request_address q) /\
  e_normalizedAddress st = go_of (AddressNormalizer.normalizedAddress (request_address q)).
Definition no_policy (st : Enrichment) : Prop :=
  (e_policyStatus st = "" /\ e_policyCoverageType st = "")%string.

Lemma policy_cents_range q : 0 <= policy_cents (request_policy q) <= 35.
Proof. unfold policy_cents. repeat case_match; lia. Qed.

Lemma cents_from q st :
  policy_from q st -> e_addressValid st = AddressNormalizer.valid (request_address q) ->
  enrichment_cents st = request_cents q.
Proof.
  intros [Hs Hc] Ha. unfold enrichment_cents, request_cents. rewrite Hs, Hc, Ha.
  pose proof (cents_of_policy q) as Hp. cbv zeta in Hp. lia.
Qed.

(** Less enrichment, more risk. *)
Lemma cents_at_least q st :
  policy_from q st \/ no_policy st ->
  e_addressValid st = AddressNormalizer.valid (request_address q) \/ e_addressValid st = false ->
  request_cents q <= enrichment_cents st.
Proof.
  intros Hp Ha.
  pose proof (policy_cents_range q) as Hr. pose proof (cents_of_policy q) as Hq. cbv zeta in Hq.
  unfold enrichment_cents, request_cents.
  assert (Hav : (if AddressNormalizer.valid (request_address q) then 0 else 10)
                <= (if e_addressValid st then 0 else 10)) by (destruct Ha as [-> | ->]; [done|destruct (AddressNormalizer.valid _); lia]).
  destruct Hp as [[-> ->]|[-> ->]]; [lia|]. simpl. lia.
Qed.
End Answers.

(** ** Composition *)
Section JavaPlatform.
Context `{GrpcMetadataLaws} `{CaseTablesLaws} `{JavaServerLaws} {E : Type} {tr : Transport E}.
Context (isPrintTable : Z -> bool) (store : Store).
Context (net : string -> Ctx -> M E (result unit)) (marshal_error : GoErr).
Context (ReadFile : string -> M E (result string)) (Unmarshal : string -> result Config)
  (WriteMessages : Ctx -> Message -> M E (result unit)) (dir : string).
Context (rand_Read : Z -> M E (result (list Z))).

Definition java_executor : Executor E :=
  go_executor isPrintTable store (java_norm net marshal_error)
    (java_hash net marshal_error) (java_lookup net marshal_error)
    ReadFile Unmarshal WriteMessages dir.
Definition java_platform (w : Writer) (r : HttpRequest) : M E Writer :=
  go_platform isPrintTable store (java_norm net marshal_error)
    (java_hash net marshal_error) (java_lookup net marshal_error)
    ReadFile Unmarshal WriteMessages dir rand_Read w r.

(** *** What the labels of a run hold *)

(** A success of a node is the answer of its service, or the nil response of a
    node that may not be tried even once. *)
Definition label_from (q : claimRequest) (l : label) : Prop :=
  match l with
  | ONorm n (Ok v) => v = Some (norm_answer (q_RawAddress q)) \/ (v = None /\ n_MaxRetries n < 0)
  | OLookup n (Ok v) => v = Some (lookup_answer (q_PolicyNumber q)) \/ (v = None /\ n_MaxRetries n < 0)
  | _ => True
  end.

Lemma realized_from ctx cfg id q s ls s' cs :
  realizes java_executor ctx cfg id (Some (claim_of q id)) s ls s' cs -> Forall (label_from q) ls.
Proof.
  intros Hreal. apply Forall_forall. intros l Hin.
  destruct (realizes_elem _ _ _ _ _ _ _ _ _ _ Hreal Hin) as (s1 & s2 & cs' & Hl).
  destruct l as [|n o|n [v|err]|n [v|err]|n f o|n ev o]; try done;
    destruct Hl as (Hr & _ & _); apply callWithResilience_source in Hr as [[-> Hn]|(c & s0 & Hr)];
    [by right|left|by right|left]; revert Hr; run.
  - exact (java_norm_ok net marshal_error c id (q_RawAddress q) s0 v).
  - exact (java_lookup_ok net marshal_error c id (q_PolicyNumber q) s0 v).
Qed.

(** What an enrichment holds comes from the services or is a zero value. *)
Lemma enrichment_from q claim ls :
  Forall (label_from q) ls ->
  let st := final_enrichment claim ls in
  (policy_from q st \/ no_policy st) /\
  (e_addressValid st = AddressNormalizer.valid (request_address q) \/ e_addressValid st = false).
Proof.
  cbv zeta. induction ls as [|l ls IH] using rev_ind; [by repeat split; right|].
  intros [Hls Hl%Forall_inv]%Forall_app. destruct (IH Hls) as [Hp Ha].
  rewrite final_enrichment_snoc.
  destruct l as [|n [v|err]|n [v|err]|n [v|err]|n f o|n ev o]; try by split.
  - split; [exact Hp|]. destruct Hl as [->|[-> _]]; [by left|by right].
  - split; [|exact Ha]. destruct Hl as [->|[-> _]]; [by left|by right].
Qed.

(** A success of a node that is tried. *)
Definition tried (l : label) : Prop :=
  match l with ONorm n _ | OLookup n _ => 0 <= n_MaxRetries n | _ => True end.

(** When nothing failed, what was called was answered. *)
Lemma enrichment_exact q claim ls :
  Forall (label_from q) ls -> Forall tried ls -> existsb degrading ls = false ->
  let st := final_enrichment claim ls in
  (forall n o, OLookup n o ∈ ls -> policy_from q st) /\ (forall n o, ONorm n o ∈ ls -> address_from q st).
Proof.
  cbv zeta. induction ls as [|l ls IH] using rev_ind.
  { intros _ _ _. by split; intros n o ?%not_elem_of_nil. }
  intros [Hls Hl%Forall_inv]%Forall_app [Ht Htl%Forall_inv]%Forall_app.
  rewrite existsb_app. intros [Hd Hdl]%orb_false_iff. destruct (IH Hls Ht Hd) as [Hp Ha].
  rewrite final_enrichment_snoc. setoid_rewrite elem_of_app. setoid_rewrite list_elem_of_singleton.
  destruct l as [|n [v|err]|n [v|err]|n [v|err]|n f o|n ev o]; try done;
    try (split; intros m o' [?|?]; by eauto).
  - destruct Hl as [->|[_ ?]]; [|by simpl in *; lia]. split; [|done]. intros m o' [Hin|?]; [|done].
    by apply (Hp _ _ Hin).
  - destruct Hl as [->|[_ ?]]; [|by simpl in *; lia]. split; [done|]. intros m o' [Hin|?]; [|done].
    by apply (Ha _ _ Hin).
Qed.

(** A configuration that looks up the policy and normalizes the address for
    the tenant, and tries every node. *)
Definition enriching_config (tenantID : string) (cfg : Config) : Prop :=
  Forall (λ n, 0 <= n_MaxRetries n) (c_Nodes cfg) /\
  Exists (λ n, n_Service n = svcLookup /\ active1 tenantID n = true) (c_Nodes cfg) /\
  Exists (λ n, n_Service n = svcNormalize /\ active1 tenantID n = true) (c_Nodes cfg).

(** The enrichment of a run that completes without a failure. *)
Lemma scored_enrichment ctx tenantID id q cfg s ls cs res :
  enriching_config tenantID cfg ->
  run_path java_executor ctx tenantID id (Some (claim_of q id)) cfg s ls cs (Done res) ->
  existsb degrading ls = false ->
  let st := final_enrichment (Some (claim_of q id)) ls in policy_from q st /\ address_from q st.
Proof.
  intros (Hretry & [nl [Hnl [Hl Hal]]]%Exists_exists & [nn [Hnn [Hn Han]]]%Exists_exists)
    (Hpath & Hreal & _) Hd. cbv zeta.
  assert (Ht : Forall tried ls).
  { apply Forall_forall. intros l (ls1 & ls2 & Hls)%list_elem_of_split.
    apply inv_reachable in Hpath as [Hwf _].
    destruct (wf_labels_split _ _ _ _ _ Hwf ls1 l ls2 Hls) as (_ & Hg & _).
    rewrite Forall_forall in Hretry. destruct l; try done; simpl in *; by apply Hretry, Hg. }
  destruct (enrichment_exact q (Some (claim_of q id)) ls (realized_from _ _ _ _ _ _ _ _ Hreal) Ht Hd)
    as [Hp Ha].
  destruct (completed_visits _ _ _ _ nl ls res Hpath Hnl Hal) as [Hvl _].
  destruct (completed_visits _ _ _ _ nn ls res Hpath Hnn Han) as [_ Hvn].
  destruct (Hvl Hl) as (o & Ho). destruct (Hvn Hn) as (o' & Ho'). split; eauto.
Qed.

(** *** Strings *)

Lemma java_of_scalar s : valid_string s -> Forall scalar (java_of s).
Proof. intros (rs & Hrs & Hs). unfold java_of. rewrite Hs. by rewrite runes_encode. Qed.
Lemma go_of_valid s : Forall scalar s -> valid_string (go_of s).
Proof.
  intros Hs. exists s. split; [done|]. unfold go_of. by rewrite bytes_of_string_of by by apply getBytes_range.
Qed.

(** The address of an accepted request comes through the JSON encoder as it
    is. *)
Lemma address_clean r q :
  accepted r = Some q ->
  clean (go_of (AddressNormalizer.normalizedAddress (request_address q)))
    = go_of (AddressNormalizer.normalizedAddress (request_address q)).
Proof.
  intros Hacc. destruct (Decode_valid _ _ (accepted_decode _ _ Hacc)) as (_ & _ & _ & _ & _ & Ha).
  by apply clean_valid, go_of_valid, normalize_scalar, java_of_scalar.
Qed.

(** *** The answer *)

(** Loading the configuration of the run of a request. *)
Definition java_load (r : HttpRequest) (q : claimRequest) (s : St E) : M E (result Config) :=
  let id := result_of (New rand_Read) s in
  run_load java_executor (run_request_ctx isPrintTable store rand_Read r s) "acme_insurance" id
    (Some (claim_of q id)).

(** C2: whatever the network and the services behind it do, the score of a 200
    answer is never below the one that the policy and the address of the
    request deserve: a failure only raises it, and to no more than 0.50.  An
    answer [scored] under a configuration that looks up the policy and
    normalizes the address has exactly that score, and carries the normalized
    address. *)
Theorem platform_degrades_upward r req s :
  accepted r = Some req ->
  header_value (result_of (New rand_Read) s) ->
  let out := result_of (java_platform new_writer r) s in
  w_status out = Some 200 ->
  exists v cents cfg,
    readValue (bytes_of (w_body out)) = inl v /\
    result_of (java_load r req s) (run_start isPrintTable store rand_Read r s) = Ok cfg /\
    number_member v "fraud_score" = Some (cents_text cents) /\
    request_cents req <= cents <= 50 /\
    (string_member v "status" = Some "scored"%string -> enriching_config "acme_insurance" cfg ->
       cents = request_cents req /\
       string_member v "normalized_address"
         = Some (go_of (AddressNormalizer.normalizedAddress (request_address req)))).
Proof.
  intros Hacc Hid. cbv zeta. intros H200. unfold java_platform, go_platform in H200.
  destruct (platform_200 isPrintTable store _ rand_Read r req s Hacc Hid H200) as (res & Hx).
  destruct (completed_answer isPrintTable store _ _ _ _ _ _ _ _ r req s res Hacc Hid Hx)
    as (v & cfg & ls & cs & _ & Hread & Hload & Hpath & _ & _ & Hstatus & Haddr & Hscore & _).
  set (st := final_enrichment _ ls) in *. exists v, (enrichment_cents st), cfg.
  split; [exact Hread|]. split; [exact Hload|]. split; [exact Hscore|]. split.
  - pose proof (enrichment_cents_range st). pose proof Hpath as (_ & Hreal & _).
    destruct (enrichment_from req (Some (claim_of req (result_of (New rand_Read) s))) ls
                (realized_from _ _ _ _ _ _ _ _ Hreal)) as [Hp Ha].
    split; [|lia]. by apply cents_at_least.
  - rewrite Hstatus, Haddr. unfold status_of. destruct (existsb degrading ls) eqn:Hd; [done|].
    intros _ Hcfg. destruct (scored_enrichment _ _ _ _ _ _ _ _ _ Hcfg Hpath Hd) as [Hp [Hv Hn]].
    split; [by apply cents_from|]. unfold st in *. rewrite Hn. by erewrite address_clean.
Qed.
End JavaPlatform.

(** ** The shipped configuration *)

(** A network that takes 30 ms, or until the deadline, and one on which
    policy-lookup-svc is down. *)
Definition net_up (svc : string) (c : Ctx) : M unit (result unit) := λ s,
  match ctx_done c with
  | Some (t, e) =>
      if now s + 30 * Millisecond <=? t
      then (Ok tt, mkSt (now s + 30 * Millisecond) (env s) (coin s), [])
      else (Err (ErrCtx e), mkSt (Z.max (now s) t) (env s) (coin s), [])
  | None => (Ok tt, mkSt (now s + 30 * Millisecond) (env s) (coin s), [])
  end.
Definition net_no_lookup (svc : string) (c : Ctx) : M unit (result unit) :=
  if bool_decide (svc = svcLookup) then mret (Err (ErrStatus 14 "connection refused")) else net_up svc c.

#[local] Existing Instances map_metadata ascii_tables plain_server demo_transport.

Definition demo_java_platform (net : string -> Ctx -> M unit (result unit)) : Writer -> HttpRequest -> M unit Writer :=
  java_platform (λ _, false) shipped_store
    net (ErrStatus 13 "string field contains invalid UTF-8")
    (λ _, mret (Ok "file"%string)) (λ _, Ok claim_fnol_config) (λ _ _, mret (Ok tt)) "../../config/dag" demo_rand.

Definition lapsed_body : claimRequest :=
  mkClaimRequest "CLM-2" "auto" "claim.fnol" " pol-654321" "Jane Doe" "12 Oak Ave, Springfield, il 62704".
Definition lapsed_text : string := string_of (json_literal
  "{'claim_id':'CLM-2','product':'auto','event_type':'claim.fnol','policy_number':' pol-654321','claimant_name':'Jane Doe','raw_address':'12 Oak Ave, Springfield, il 62704'}").

(** A lapsed policy, a valid address: 0.20; and 0.40 when the lookup is down. *)
Example java_platform_scores :
  let m net := demo_java_platform net new_writer (demo_post lapsed_text) in
  w_body (result_of (m net_up) demo_st) = string_of (json_literal
    "{'claim_id':'CLM-2','correlation_id':'abababababababababababababababab','status':'scored','normalized_address':'12 OAK AVE, SPRINGFIELD, IL, 62704, US','fraud_score':0.2,'model_version':'rules-v1'}"
    ++ [10]) /\
  w_body (result_of (m net_no_lookup) demo_st) = string_of (json_literal
    "{'claim_id':'CLM-2','correlation_id':'abababababababababababababababab','status':'degraded','normalized_address':'12 OAK AVE, SPRINGFIELD, IL, 62704, US','fraud_score':0.4,'model_version':'rules-v1'}"
    ++ [10]).
Proof. by_compute. Qed.

Lemma platform_degrades_upward_witness :
  let out := result_of (demo_java_platform net_no_lookup new_writer (demo_post lapsed_text)) demo_st in
  exists v cents cfg,
    readValue (bytes_of (w_body out)) = inl v /\
    result_of (java_load (λ _, false) shipped_store
      net_no_lookup (ErrStatus 13 "string field contains invalid UTF-8")
      (λ _, mret (Ok "file"%string)) (λ _, Ok claim_fnol_config) (λ _ _, mret (Ok tt)) "../../config/dag" demo_rand
      (demo_post lapsed_text) lapsed_body demo_st) (run_start (λ _, false) shipped_store demo_rand (demo_post lapsed_text) demo_st) = Ok cfg /\
    number_member v "fraud_score" = Some (cents_text cents) /\
    request_cents lapsed_body <= cents <= 50 /\
    (string_member v "status" = Some "scored"%string -> enriching_config "acme_insurance" cfg ->
       cents = request_cents lapsed_body /\
       string_member v "normalized_address"
         = Some (go_of (AddressNormalizer.normalizedAddress (request_address lapsed_body)))).
Proof.
  unfold demo_java_platform. apply platform_degrades_upward.
  - vm_compute. reflexivity.
  - apply (bool_decide_unpack _). by_compute.
  - vm_compute. reflexivity.
Defined.
