(* ===== verification/JavaPrivacy.v ===== *)
(** * Confidentiality of the claimant's name, with the real hash

    The noninterference of [PlatformPrivacy] for the platform whose hashing
    service is the repository's: names that agree up to case and surrounding
    spaces are indistinguishable. *)

From S2P Require Import Prelude Float64 GoStrings Utf8 Json JavaStrings Sha256 JavaServices.
From S2P Require Import JavaServiceFacts Messages Payloads PayloadFacts Effects Telemetry TenantConfig.
From S2P Require Import DagConfig Resilience Loader Kafka Executor RunPrivacy Transport Servers.
From S2P Require Import JavaGrpc Gateway GatewayProps Startup System PlatformPrivacy Platform JavaPlatform.

(** ** The hash of two names *)
Section Names.
Context `{GrpcMetadata} `{CaseTables} `{JavaServerLaws} {E : Type}.
Context (net : string -> Ctx -> M E (result unit)) (marshal_error : GoErr).

(** The same claimant, for the hashing service. *)
Definition same_claimant (name name' : string) : Prop :=
  isBlank (java_of name) = isBlank (java_of name') /\
  claimant_form (java_of name) = claimant_form (java_of name').

Lemma hash_same name name' :
  same_claimant name name' ->
  ClaimantIdHasher.hash (Some (java_of name)) = ClaimantIdHasher.hash (Some (java_of name')).
Proof.
  intros [Hb Hf]. unfold ClaimantIdHasher.hash. rewrite Hb. unfold claimant_form in Hf. by rewrite Hf.
Qed.

(** The service answers both alike, and so does the call to it. *)
Lemma java_hash_same ctx id name name' :
  valid_string name -> valid_string name' -> same_claimant name name' ->
  java_hash net marshal_error ctx (Some (mkHashReq id name))
    = java_hash net marshal_error ctx (Some (mkHashReq id name')).
Proof.
  intros Hv Hv' Hsame. unfold java_hash, java_call, UnaryClientInterceptor. cbv zeta.
  unfold default, from_option, Datatypes.id. cbn [forallb hq_correlation_id hq_claimant_name]. rewrite (valid_field_valid name), (valid_field_valid name') by done.
  rewrite !hashClaimantId_adapter. cbn [hq_correlation_id hq_claimant_name].
  by rewrite (hash_same name name' Hsame), !adapter_answer.
Qed.
End Names.

(** ** Property *)
Section Privacy.
Context `{GrpcMetadataLaws} `{CaseTables} `{JavaServerLaws} {E : Type} {tr : Transport E}.
Context (isPrintTable : Z -> bool) (store : Store).
Context (net : string -> Ctx -> M E (result unit)) (marshal_error : GoErr).
Context (ReadFile : string -> M E (result string)) (Unmarshal : string -> result Config)
  (WriteMessages : Ctx -> Message -> M E (result unit)) (dir : string).
Context (rand_Read : Z -> M E (result (list Z))).

(** C21: requests that differ only in the claimant's name, for names that agree
    up to case and surrounding spaces, cannot be told apart by anything but the
    name in the call that forwards the claim and in the calls to the hashing
    service: the response (status, headers and body), the state in which every
    service is left, the other calls, and every log line of the gateway, of
    tenant-config and of orchestration are the same. *)
Theorem platform_hides_claimant_name w method ctx body body' q name' :
  Decode body = inl q -> Decode body' = inl (rename name' q) -> same_claimant (q_ClaimantName q) name' ->
  let p := java_platform isPrintTable store net marshal_error ReadFile Unmarshal WriteMessages
             dir rand_Read w in
  forall s,
    result_of (p (mkHttpRequest method body ctx)) s = result_of (p (mkHttpRequest method body' ctx)) s /\
    final (p (mkHttpRequest method body ctx)) s = final (p (mkHttpRequest method body' ctx)) s /\
    redact <$> trace (p (mkHttpRequest method body ctx)) s
      = redact <$> trace (p (mkHttpRequest method body' ctx)) s.
Proof.
  intros Hq Hq' Hsame. cbv zeta. unfold java_platform, go_platform.
  destruct (Decode_valid _ _ Hq) as (_ & _ & _ & _ & Hv & _).
  destruct (Decode_valid _ _ Hq') as (_ & _ & _ & _ & Hv' & _).
  apply (names_indistinguishable isPrintTable store _ rand_Read (q_ClaimantName q) name') with q; try done.
  intros c id s.
  exact (f_equal (λ m, m s) (java_hash_same net marshal_error c id _ _ Hv Hv' Hsame)).
Qed.
End Privacy.

(** Jane Doe, in another spelling. *)
Definition jane_text : string := string_of (json_literal
  "{'claim_id':'CLM-2','product':'auto','event_type':'claim.fnol','policy_number':' pol-654321','claimant_name':'  JANE doe ','raw_address':'12 Oak Ave, Springfield, il 62704'}").

Lemma platform_hides_claimant_name_witness :
  let p := demo_java_platform net_up new_writer in
  w_status (result_of (p (demo_post lapsed_text)) demo_st) = Some 200 /\
  forall s,
    result_of (p (demo_post lapsed_text)) s = result_of (p (demo_post jane_text)) s /\
    final (p (demo_post lapsed_text)) s = final (p (demo_post jane_text)) s /\
    redact <$> trace (p (demo_post lapsed_text)) s = redact <$> trace (p (demo_post jane_text)) s.
Proof.
  split; [vm_compute; reflexivity|]. unfold demo_java_platform.
  apply platform_hides_claimant_name with (q := lapsed_body) (name' := "  JANE doe "%string).
  - vm_compute. reflexivity.
  - vm_compute. reflexivity.
  - split; vm_compute; reflexivity.
Defined.
