(* ===== verification/JavaHealthy.v ===== *)
(** * A platform that works

    When the transport, the Java services and Kafka answer promptly, and the
    tenant, its version and its configuration are there, a claim is scored,
    rightly and in time: the lookup of the tenant gets the time it needs out of
    its two seconds, and the loading of the configuration, the enrichment
    services, the model, the publisher and the answer out of the five seconds of
    the claim. *)

From S2P Require Import Prelude Float64 GoStrings Utf8 FormatFloat Json JsonFacts JavaStrings Sha256.
From S2P Require Import JavaServices JavaServiceFacts Scoring Messages Payloads PayloadFacts Effects.
From S2P Require Import Telemetry.
From S2P Require Import TenantConfig DagConfig Resilience Loader Kafka Executor Pipeline PipelineFacts.
From S2P Require Import RunProps RunTiming Transport Servers JavaGrpc Gateway GatewayProps Startup.
From S2P Require Import System Platform JavaPlatform.

Section Healthy.
Context `{GrpcMetadataLaws} `{CaseTablesLaws} `{JavaServerLaws} {E : Type} {tr : Transport E}.
Context (isPrintTable : Z -> bool) (store : Store).
Context (net : string -> Ctx -> M E (result unit)) (marshal_error : GoErr).
Context (ReadFile : string -> M E (result string)) (Unmarshal : string -> result Config)
  (WriteMessages : Ctx -> Message -> M E (result unit)) (dir : string).
Context (rand_Read : Z -> M E (result (list Z))).

Notation executor :=
  (java_executor isPrintTable store net marshal_error ReadFile Unmarshal WriteMessages dir).
Notation load_of :=
  (run_load (java_executor isPrintTable store net marshal_error ReadFile Unmarshal WriteMessages dir)).

(** A transport, Java services and a Kafka that answer within [d]: the two ways
    of the transport, a call to a Java service, a write. *)
Class Healthy (d : Z) : Prop := {
  healthy_transport : exists leg, 0 <= leg /\ 2 * leg <= d /\ PromptTransport tr leg;
  healthy_net svc : prompt d (net svc);
  healthy_kafka m : prompt d (λ c, WriteMessages c m);
  healthy_nonneg : 0 <= d }.

(** A file that is read within [disk] and holds the configuration [cfg]. *)
Definition configured (disk : Z) (path : string) (cfg : Config) : Prop :=
  forall s, (exists data, result_of (ReadFile path) s = Ok data /\ Unmarshal data = Ok cfg) /\
    now s <= now (final (ReadFile path) s) <= now s + disk.

(** ** One node call *)

Lemma traced_prompt {A} d x (m : Ctx -> M E (result A)) : prompt d m -> prompt d (λ c, call c x (m c)).
Proof. intros Hm c s Hr. run. by apply Hm. Qed.

(** A call between two of the Go services whose handler answers at once. *)
Lemma go_call_prompt {Req Resp} d client_name server_name method (handler : Ctx -> Req -> M E (result Resp)) req :
  Healthy d ->
  (forall c ends s, is_ok (result_of (handling handler c ends req) s) = true /\
                    now (final (handling handler c ends req) s) = now s) ->
  prompt d (λ c, rpc client_name server_name method handler c req).
Proof.
  intros Hh Hhandler c s Hr. destruct healthy_transport as (leg & Hleg & Hd & Htr).
  destruct (rpc_prompt client_name server_name method handler leg 0 c req s Htr Hleg (Z.le_refl 0)) as [Hok Ht].
  - intros ends s' _ _ _. destruct (Hhandler c ends s') as [-> ->]. split; [done|lia].
  - eapply room_le; [|exact Hr]. lia.
  - split; [exact Hok|lia].
Qed.

Lemma model_prompt d id f : Healthy d -> prompt d (λ c, ex_Model executor c id f).
Proof.
  intros Hh c s Hr. unfold java_executor, go_executor. cbn [orchestration_executor ex_Model go_stubs st_model].
  unfold Model_Score, pointer. run.
  match goal with |- context [rpc ?a ?b ?m ?h c ?q] =>
    destruct (go_call_prompt d a b m h q Hh) with (ctx := c) (s := s) as [Hok Ht];
      [|exact Hr|destruct (result_of (rpc a b m h c q) s); [by split|done]] end.
  intros c' ends s'. by destruct (model_handling isPrintTable c' ends (Some (mkScoreReq id f)) s') as (-> & -> & _).
Qed.

(** The version of the configuration of a product that has one. *)
Lemma version_prompt d product v :
  Healthy d -> DagVersion store "acme_insurance" product = Some v ->
  prompt d (λ c, TenantConfig_GetDagVersion
                   (st_version (go_stubs isPrintTable store (java_norm net marshal_error)
                      (java_hash net marshal_error) (java_lookup net marshal_error)))
                   c "acme_insurance" product).
Proof.
  intros Hh Hv c s Hr. unfold TenantConfig_GetDagVersion. cbn [go_stubs st_version]. run.
  match goal with |- context [rpc ?a ?b ?m ?h c ?q] =>
    destruct (go_call_prompt d a b m h q Hh) with (ctx := c) (s := s) as [Hok Ht];
      [|exact Hr|destruct (result_of (rpc a b m h c q) s); [by split|done]] end.
  intros c' ends s'. unfold handling, tenantconfig_service, svc_GetDagVersion, GetDagVersion. simpl.
  rewrite Hv. by run.
Qed.

(** Loading the configuration of a request. *)
Lemma load_prompt d disk ctx id q s cfg v :
  Healthy d -> DagVersion store "acme_insurance" (q_Product q) = Some v ->
  configured disk (dag_path dir "acme_insurance" (q_Product q) (q_EventType q)) cfg -> room d ctx s ->
  let load := load_of ctx "acme_insurance" id (Some (claim_of q id)) in
  result_of load s = Ok cfg /\ now s <= now (final load s) <= now s + d + disk.
Proof.
  intros Hh Hv Hfile Hr. cbv zeta. unfold run_load, java_executor, go_executor.
  cbn [orchestration_executor ex_Loader].
  match goal with |- context [Load ?rv ?rf ?u ?d ?l ?c ?t ?p ?ev] =>
    pose proof (Load_spec rv rf u d l c t p ev s) as Hl;
    destruct (version_prompt _ (q_Product q) v Hh Hv c s Hr) as [Hok Ht] end.
  cbv zeta in Hl. change (GetProduct (Some (claim_of q id))) with (q_Product q) in *.
  change (GetEventType (Some (claim_of q id))) with (q_EventType q) in *.
  destruct (result_of (TenantConfig_GetDagVersion _ _ _ _) s) as [v'|err]; [|done].
  match type of Hl with context [final (ReadFile _) ?s1] =>
    destruct (Hfile s1) as [(data & Hread & Hparse) Hd] end.
  destruct Hl as (-> & -> & _). rewrite Hread, Hparse. split; [done|lia].
Qed.

(** An event with a score of the rules is published. *)
Lemma Publish_prompt d ev f :
  Healthy d -> ev_FraudScore ev = (Scoring.Score isPrintTable f).1 ->
  prompt d (λ c, Publish WriteMessages c ev).
Proof.
  intros Hh Hev c s Hr. unfold Publish. pose proof (Marshal_event ev) as Hm.
  rewrite Hev, Score_spec in Hm. cbn [fst] in Hm.
  rewrite json_float_cents in Hm by apply risk_cents_range.
  destruct Hm as (text & v & -> & _). run.
  destruct (healthy_kafka (mkMessage (bytes_of (ev_TenantID ev)) text) c s Hr) as [Hok Ht].
  destruct (result_of (WriteMessages c _) s); [|done]. by run.
Qed.

Definition answered (l : label) : bool :=
  match l with
  | Tau => true
  | OHash _ o => is_ok o
  | ONorm _ o => is_ok o
  | OLookup _ o => is_ok o
  | OScore _ _ o => is_ok o
  | OPublish _ _ o => is_ok o
  end.

Lemma answered_not_fatal l : answered l = true -> fatal l = None /\ degrading l = false.
Proof. by destruct l as [|n []|n []|n []|n f []|n ev []]. Qed.

(** A call that has the time of its callee, and that can be answered. *)
Definition answerable (cfg : Config) (d : Z) (l : label) : Prop :=
  match l with
  | Tau => True
  | OHash n _ | ONorm n _ | OLookup n _ | OScore n _ _ => d <= nodeTimeout cfg n
  | OPublish n ev _ => d <= nodeTimeout cfg n /\ exists f, ev_FraudScore ev = (Scoring.Score isPrintTable f).1
  end.

(** The number of calls of a path. *)
Definition one (n : Node) : Z := 1.
Definition weight (id : string) (claim : option ClaimEvent) (ls : list label) : Z :=
  foldr (λ l acc, label_weight id claim one l + acc) 0 ls.

Lemma weight_nonneg id claim ls : 0 <= weight id claim ls.
Proof. induction ls as [|l ls IH]; simpl; [done|]. unfold label_weight. case_match; unfold one; [case_match|]; lia. Qed.

Lemma weight_cons id claim l ls : weight id claim (l :: ls) = label_weight id claim one l + weight id claim ls.
Proof. done. Qed.

Lemma label_prompt d ctx cfg id q s l s' cs :
  Healthy d -> valid_request q -> valid_string id -> answerable cfg d l ->
  let claim := Some (claim_of q id) in
  realizes_label executor ctx cfg id claim s l s' cs ->
  room (d * label_weight id claim one l) ctx s ->
  answered l = true /\ now s <= now s' <= now s + d * label_weight id claim one l.
Proof.
  intros Hh (_ & _ & _ & Hvp & Hvn & Hva) Hvi Hgood claim Hl Hr. pose proof healthy_nonneg as Hd.
  destruct l as [|n o|n o|n o|n f o|n ev o]; unfold label_weight, one in *; cbn [label_call] in *.
  { destruct Hl as [-> _]. split; [done|lia]. }
  all: rewrite Z.mul_1_r in *; destruct Hl as (<- & <- & _); cbn [answerable answered] in *.
  - refine (callWithResilience_prompt None cfg n _ d (traced_prompt d _ _ _) (conj Hd Hgood) ctx s Hr).
    exact (java_hash_prompt net marshal_error d healthy_net id (q_ClaimantName q) Hvi Hvn).
  - refine (callWithResilience_prompt None cfg n _ d (traced_prompt d _ _ _) (conj Hd Hgood) ctx s Hr).
    exact (java_norm_prompt net marshal_error d healthy_net id (q_RawAddress q) Hvi Hva).
  - refine (callWithResilience_prompt None cfg n _ d (traced_prompt d _ _ _) (conj Hd Hgood) ctx s Hr).
    exact (java_lookup_prompt net marshal_error d healthy_net id (q_PolicyNumber q) Hvi Hvp).
  - refine (callWithResilience_prompt None cfg n _ d (traced_prompt d _ _ _) (conj Hd Hgood) ctx s Hr).
    by apply model_prompt.
  - destruct Hgood as [Hgood [f Hf]].
    refine (callWithResilience_prompt tt cfg n _ d (traced_prompt d _ _ _) (conj Hd Hgood) ctx s Hr).
    exact (Publish_prompt d ev f Hh Hf).
Qed.

(** ** A path *)

Lemma path_prompt d ctx cfg id q s ls s' cs :
  Healthy d -> valid_request q -> valid_string id -> (forall l, l ∈ ls -> answerable cfg d l) ->
  realizes executor ctx cfg id (Some (claim_of q id)) s ls s' cs ->
  room (d * weight id (Some (claim_of q id)) ls) ctx s ->
  (forall l, l ∈ ls -> answered l = true) /\
  now s <= now s' <= now s + d * weight id (Some (claim_of q id)) ls.
Proof.
  intros Hh Hq Hi Hgood Hreal. revert Hgood. set (claim := Some (claim_of q id)) in *.
  induction Hreal as [s|s l s1 cs1 ls s2 cs2 Hl _ IH]; intros Hgood Hr.
  { split; [by intros l ?%not_elem_of_nil|simpl; lia]. }
  pose proof healthy_nonneg as Hd. pose proof (weight_nonneg id claim ls) as Hw.
  pose proof (weight_nonneg id claim [l]) as Hlw.
  rewrite weight_cons in *. change (weight id claim []) with 0 in Hlw.
  destruct (label_prompt d ctx cfg id q s l s1 cs1 Hh Hq Hi) as [Ha Ht]; [|exact Hl| |].
  { apply Hgood. left. }
  { eapply room_le; [|exact Hr]. fold claim. nia. }
  fold claim in Ht. destruct IH as [Has Hts].
  { intros l' ?. apply Hgood. by right. }
  { eapply room_le; [|exact Hr]. nia. }
  split; [|nia]. intros l' [->|?]%elem_of_cons; [done|by apply Has].
Qed.

(** The calls of a path are answerable, and there are no more of them than
    nodes. *)
Lemma path_answerable d ctx tenantID cfg id q s ls s' cs p :
  Forall (λ n, d <= nodeTimeout cfg n) (c_Nodes cfg) ->
  psteps cfg tenantID id (Some (claim_of q id)) (start cfg (Some (claim_of q id))) ls p ->
  realizes executor ctx cfg id (Some (claim_of q id)) s ls s' cs ->
  forall l, l ∈ ls -> answerable cfg d l.
Proof.
  intros Ht Hpath Hreal l Hin. rewrite Forall_forall in Ht.
  pose proof Hin as (ls1 & ls2 & Hls)%list_elem_of_split. apply inv_reachable in Hpath as [Hwf _].
  destruct (wf_labels_split _ _ _ _ _ Hwf ls1 _ ls2 Hls) as (_ & Hg & Hpay & _).
  destruct l as [|n o|n o|n o|n f o|n ev o]; simpl in *; try (by apply Ht, Hg); [done|].
  split; [by apply Ht, Hg|]. destruct Hpay as (sc & Hsc & ->).
  destruct (final_score_in _ _ Hsc) as (m & f & Hm). exists f.
  assert (Hms : OScore m f (Ok (Some sc)) ∈ ls) by (rewrite Hls; apply elem_of_app; by left).
  rewrite (realized_score _ _ _ _ _ _ _ _ _ _ _ _ _ _ _ _ _ m f sc Hreal Hms). reflexivity.
Qed.

Lemma sum_one l : sum_over one l = Z.of_nat (length l).
Proof.
  induction l as [|n l IH]; [done|]. change (sum_over one (n :: l)) with (1 + sum_over one l).
  rewrite IH. simpl length. lia.
Qed.

Lemma weight_nodes tenantID cfg id claim ls p :
  psteps cfg tenantID id claim (start cfg claim) ls p ->
  weight id claim ls <= Z.of_nat (length (c_Nodes cfg)).
Proof.
  intros Hpath. assert (Hone : forall n, 0 <= one n) by done.
  pose proof (potential_steps cfg tenantID id claim one Hone _ _ _ Hpath) as Hs.
  pose proof (potential_nonneg cfg tenantID one Hone p).
  pose proof (potential_start cfg tenantID claim one Hone) as Hst.
  rewrite sum_one in Hst. unfold weight. lia.
Qed.

(** A configuration that also has a model node for the tenant. *)
Definition scoring_config (tenantID : string) (cfg : Config) : Prop :=
  enriching_config tenantID cfg /\
  Exists (λ n, n_Service n = svcModel /\ active2 tenantID n = true) (c_Nodes cfg).

(** The model node of such a run has a score. *)
Lemma scores_some ctx tenantID cfg id q s ls s' cs p n f o :
  Forall (λ n, 0 <= n_MaxRetries n) (c_Nodes cfg) ->
  psteps cfg tenantID id (Some (claim_of q id)) (start cfg (Some (claim_of q id))) ls p ->
  realizes executor ctx cfg id (Some (claim_of q id)) s ls s' cs -> OScore n f o ∈ ls ->
  is_ok o = true -> exists sc, o = Ok (Some sc).
Proof.
  intros Hretry Hpath Hreal Hin Hok. destruct o as [v|]; [|done].
  destruct (realizes_elem _ _ _ _ _ _ _ _ _ _ Hreal Hin) as (s1 & s2 & cs' & Hr & _ & _).
  apply callWithResilience_source in Hr as [[_ Hneg]|(c & s0 & Hr)].
  - apply list_elem_of_split in Hin as (ls1 & ls2 & Hls). apply inv_reachable in Hpath as [Hwf _].
    destruct (wf_labels_split _ _ _ _ _ Hwf ls1 _ ls2 Hls) as (_ & (Hn & _) & _).
    rewrite Forall_forall in Hretry. specialize (Hretry _ Hn). lia.
  - revert Hr. run. intros ->%model_answers. by eexists.
Qed.


(** A run with time for every node: it completes, nothing degrades it, and it
    takes no longer than that. *)
Lemma healthy_run d ctx tenantID id q s cfg :
  Healthy d -> valid_request q -> valid_string id -> scoring_config tenantID cfg ->
  Forall (λ n, d <= nodeTimeout cfg n) (c_Nodes cfg) ->
  let claim := Some (claim_of q id) in
  let loaded := final (load_of ctx tenantID id claim) s in
  result_of (load_of ctx tenantID id claim) s = Ok cfg ->
  room (d * Z.of_nat (length (c_Nodes cfg))) ctx loaded ->
  (exists res, result_of (Run executor ctx tenantID id claim) s = Ok res) /\
  now (final (Run executor ctx tenantID id claim) s)
    <= now loaded + d * Z.of_nat (length (c_Nodes cfg)) /\
  (forall ls cs p, run_path executor ctx tenantID id claim cfg s ls cs p -> existsb degrading ls = false).
Proof.
  intros Hh Hq Hi ([Hretry _] & [nm [Hnm [Hm Ham]]]%Exists_exists) Ht claim loaded Hl Hroom.
  assert (Hpath : forall ls cs p, run_path executor ctx tenantID id claim cfg s ls cs p ->
    (forall l, l ∈ ls -> answered l = true) /\
    now (final (Run executor ctx tenantID id claim) s)
      <= now loaded + d * Z.of_nat (length (c_Nodes cfg))).
  { intros ls cs p (Hpath & Hreal & _). pose proof (weight_nodes _ _ _ _ _ _ Hpath) as Hw.
    pose proof (weight_nonneg id claim ls). pose proof healthy_nonneg as Hd.
    destruct (path_prompt d (run_ctx ctx tenantID id) cfg id q _ ls _ cs Hh Hq Hi
                (path_answerable d _ _ _ _ _ _ _ _ _ _ Ht Hpath Hreal) Hreal) as [Ha Htime].
    - eapply room_le; [|exact Hroom]. fold claim loaded. nia.
    - split; [done|]. fold claim loaded in Htime. nia. }
  assert (Hnf : forall ls cs p, run_path executor ctx tenantID id claim cfg s ls cs p ->
    Forall (λ l, fatal l = None) ls).
  { intros ls cs p Hp. apply Forall_forall. intros l Hin. by apply answered_not_fatal, (Hpath _ _ _ Hp). }
  destruct (Run_path executor ctx tenantID id claim s cfg Hl) as (ls & cs & Hrun).
  destruct (Hpath _ _ _ Hrun) as [Hans Htime]. split_and!; [|done|].
  - destruct (result_of (Run executor ctx tenantID id claim) s) as [res|err]; [by exists res|exfalso].
    pose proof (Hnf _ _ _ Hrun) as Hf. pose proof Hrun as (Hsteps & Hreal & _).
    pose proof Hsteps as [_ [(ls' & l & -> & He)|(_ & Hnone & _)]]%inv_reachable.
    + apply Forall_app in Hf as [_ Hf%Forall_inv]. congruence.
    + destruct (ended_scores _ _ _ _ nm ls _ Hsteps I Hf Hnm Ham Hm) as (f & o & Hin).
      destruct (final_score_some ls nm f o); [|done..]. intros n f' o' Hin'.
      eapply scores_some; [done..|exact Hin'|exact (Hans _ Hin')].
  - intros ls' cs' p Hp. apply not_true_iff_false. intros (l & Hin%list_elem_of_In & Hd)%existsb_exists.
    destruct (answered_not_fatal l); [by apply (Hpath _ _ _ Hp)|congruence].
Qed.

(** ** The exchange of a request *)

(** The tenant is found, in the time of a call. *)
Lemma tenant_found d r s t :
  Healthy d -> Get store "acme_insurance" = Some t -> t_Status t = "active"%string ->
  d <= 2 * Second -> room d (rq_Context r) (final (New rand_Read) s) ->
  let s1 := final (New rand_Read) s in
  let s2 := resolved rand_Read (tenant_client isPrintTable store) r s in
  tenant_outcome store rand_Read r s = inr t /\ now s1 <= now s2 <= now s1 + d.
Proof.
  intros Hh Ht Hact Hd Hroom. cbv zeta. destruct healthy_transport as (leg & Hleg & Hsmall & Htr).
  rewrite (resolved_exchange isPrintTable store rand_Read r s).
  assert (Hr : room d (tenant_ctx rand_Read r s) (final (New rand_Read) s)) by by apply room_WithTimeout.
  unfold tenant_outcome, tenant_exchange. run.
  destruct (request_prompt tenant_method (tenant_ctx rand_Read r s) (final (New rand_Read) s)) as [Hok Hreq].
  { eapply room_le; [|exact Hr]. lia. }
  destruct (result_of (net_request _ _) _) as [ends|err]; [|done]. run.
  destruct (reply_prompt tenant_method (tenant_ctx rand_Read r s)
              (final (net_request tenant_method (tenant_ctx rand_Read r s)) (final (New rand_Read) s))) as [-> Hrep].
  { eapply room_le; [|exact Hr]. lia. }
  change (Get store hardcodedTenantID) with (Get store "acme_insurance"). rewrite Ht, bool_decide_true by done.
  split; [done|]. lia.
Qed.

(** The claim is delivered, with the time that its run needs. *)
Lemma claim_delivered d x r s :
  Healthy d -> 0 <= x -> d + x <= 5 * Second ->
  let s2 := resolved rand_Read (tenant_client isPrintTable store) r s in
  room (d + x) (rq_Context r) s2 -> header_value (result_of (New rand_Read) s) ->
  let s3 := run_start isPrintTable store rand_Read r s in
  exists leg, 2 * leg <= d /\ PromptTransport tr leg /\
    is_ok (result_of (run_sent isPrintTable store rand_Read r s) s2) = true /\
    now s2 <= now s3 <= now s2 + leg /\
    room x (run_request_ctx isPrintTable store rand_Read r s) s3 /\
    room (d + x) (claim_ctx rand_Read (tenant_client isPrintTable store) r s) s2.
Proof.
  intros Hh Hx Hlarge s2 Hroom Hid s3. destruct healthy_transport as (leg & Hleg & Hsmall & Htr). exists leg.
  assert (Hr : room (d + x) (claim_ctx rand_Read (tenant_client isPrintTable store) r s) s2) by by apply room_WithTimeout.
  destruct (run_request_ids isPrintTable store rand_Read r s Hid) as (_ & _ & Hend).
  unfold s3, run_start, run_end, run_sent in *.
  destruct (request_prompt claim_method (claim_ctx rand_Read (tenant_client isPrintTable store) r s) s2) as [Hok Hreq].
  { eapply room_le; [|exact Hr]. lia. }
  fold s2 in Hend |- *. destruct (result_of (net_request claim_method _) s2) as [ends|err] eqn:Hsent; [|done].
  pose proof (request_leaves claim_method _ s2 (d + x) ends Hsent Hr) as Hleft.
  do 2 (split; [done|]). split; [done|]. split; [lia|]. split; [|exact Hr].
  unfold room. rewrite Hend. change ends with (ctx_done (server_side ends)).
  eapply room_le; [|exact Hleft]. lia.
Qed.

(** The whole exchange: it is answered in time, by a run that nothing
    degraded. *)
Lemma claim_exchange_prompt d disk r req s t version cfg :
  accepted r = Some req ->
  header_value (result_of (New rand_Read) s) ->
  Get store "acme_insurance" = Some t -> t_Status t = "active"%string ->
  DagVersion store "acme_insurance" (q_Product req) = Some version ->
  configured disk (dag_path dir "acme_insurance" (q_Product req) (q_EventType req)) cfg ->
  Healthy d -> scoring_config "acme_insurance" cfg -> Forall (λ n, d <= nodeTimeout cfg n) (c_Nodes cfg) ->
  let s1 := final (New rand_Read) s in
  let claim_time := d * (Z.of_nat (length (c_Nodes cfg)) + 2) + disk in
  d <= 2 * Second -> claim_time <= 5 * Second -> room (d + claim_time) (rq_Context r) s1 ->
  let id := result_of (New rand_Read) s in
  let ctx := run_request_ctx isPrintTable store rand_Read r s in
  let started := run_start isPrintTable store rand_Read r s in
  exists res, result_of (exchange store executor rand_Read r req) s = RunAnswered res /\
    now (final (exchange store executor rand_Read r req) s) <= now s1 + d + claim_time /\
    (forall cfg' ls cs p,
       result_of (load_of ctx "acme_insurance" id (Some (claim_of req id))) started = Ok cfg' ->
       run_path executor ctx "acme_insurance" id (Some (claim_of req id)) cfg' started ls cs p ->
       cfg' = cfg /\ existsb degrading ls = false).
Proof.
  intros Hacc Hid Ht Hact Hv Hfile Hh Hcfg Hn s1 claim_time Hsmall Hlarge Hroom id ctx started.
  pose proof healthy_nonneg as Hd. pose proof (Hfile s1) as [_ Hdisk].
  set (n := Z.of_nat (length (c_Nodes cfg))) in *. assert (0 <= d * n) by nia.
  assert (Hct : claim_time = d + (d + disk + d * n)) by (unfold claim_time; lia).
  pose proof (Decode_valid _ _ (accepted_decode _ _ Hacc)) as Hq.
  assert (Hvid : valid_string id) by (apply ascii_valid; eapply Forall_impl; [exact Hid|simpl; lia]).
  destruct (tenant_found d r s t Hh Ht Hact Hsmall) as [Hten Htime]; [eapply room_le; [|exact Hroom]; fold s1; lia|].
  fold s1 in Htime.
  destruct (claim_delivered d (d + disk + d * n) r s Hh ltac:(lia) ltac:(lia)) as
    (leg & Hleg & Htr & Hsent & Hstart & Hrun & Hreply); [|done|]; [eapply room_le; [|exact Hroom]; lia|].
  fold ctx started in Hstart, Hrun.
  destruct (load_prompt d disk ctx id req started cfg version Hh Hv Hfile) as [Hload Hlt];
    [eapply room_le; [|exact Hrun]; lia|].
  destruct (healthy_run d ctx "acme_insurance" id req started cfg Hh Hq Hvid Hcfg Hn Hload)
    as ((res & Hres) & Hdone & Hundeg); [eapply room_le; [|exact Hrun]; fold n; lia|].
  pose proof (exchange_outcome isPrintTable store executor rand_Read r req s) as Hx. cbv zeta in Hx.
  rewrite Hten in Hx. destruct (result_of (run_sent _ _ _ _ _) _) as [ends|err]; [|done].
  fold started in Hx. rewrite request_run_unfold in Hx. fold id ctx in Hx. rewrite Hres in Hx.
  destruct (reply_prompt claim_method (claim_ctx rand_Read (tenant_client isPrintTable store) r s)
              (final (Run executor ctx "acme_insurance" id (Some (claim_of req id))) started)) as [Hrep Hrt].
  { eapply room_le; [|exact Hreply]. fold n in Hdone. lia. }
  rewrite Hrep in Hx. injection Hx as Hx1 Hx2. exists res. split; [exact Hx1|]. split.
  - rewrite Hx2. fold n in Hdone. lia.
  - intros cfg' ls cs p Hl Hp. rewrite Hload in Hl. injection Hl as <-. split; [done|]. by apply (Hundeg _ _ _ Hp).
Qed.

(** ** Property *)

(** C1: on a platform that works, every claim is scored, with the right score
    and in time.  Let the calls between the services and Kafka take at most [d]
    each, the tenant be active with a version for the product of the request,
    and the file of its key be read within [disk] and hold a configuration that
    looks up the policy, normalizes the address and scores, with [d] or more for
    every node.  Let [d] be at most the 2 seconds of the tenant lookup, and the
    claim need at most its 5 seconds: [d] for its delivery and its answer, [d]
    for the version, [disk] for the file and [d] for each node.  Then the request
    is answered within that time and the [d] of the lookup, with 200, its claim
    id, the generated correlation id, the status [scored], the address that the
    normalizer makes of its raw address, and, in the exact decimal, 5 cents plus
    0, 15, 25 or 35 for a policy that is active, lapsed, cancelled or unknown,
    plus 10 for an address that is not valid. *)
Theorem platform_scores_claim d disk r req s t version cfg :
  accepted r = Some req ->
  header_value (result_of (New rand_Read) s) ->
  Get store "acme_insurance" = Some t -> t_Status t = "active"%string ->
  DagVersion store "acme_insurance" (q_Product req) = Some version ->
  configured disk (dag_path dir "acme_insurance" (q_Product req) (q_EventType req)) cfg ->
  Healthy d -> scoring_config "acme_insurance" cfg -> Forall (λ n, d <= nodeTimeout cfg n) (c_Nodes cfg) ->
  let s1 := final (New rand_Read) s in
  let claim_time := d * (Z.of_nat (length (c_Nodes cfg)) + 2) + disk in
  d <= 2 * Second -> claim_time <= 5 * Second -> room (d + claim_time) (rq_Context r) s1 ->
  let m := java_platform isPrintTable store net marshal_error ReadFile Unmarshal WriteMessages dir
             rand_Read new_writer r in
  w_status (result_of m s) = Some 200 /\ now (final m s) <= now s1 + d + claim_time /\
  exists v, readValue (bytes_of (w_body (result_of m s))) = inl v /\
    string_member v "claim_id" = Some (q_ClaimID req) /\
    string_member v "correlation_id" = Some (result_of (New rand_Read) s) /\
    string_member v "status" = Some "scored"%string /\
    string_member v "normalized_address"
      = Some (go_of (AddressNormalizer.normalizedAddress (request_address req))) /\
    number_member v "fraud_score" = Some (cents_text (request_cents req)) /\
    string_member v "model_version" = Some "rules-v1"%string.
Proof.
  intros Hacc Hid Ht Hact Hv Hfile Hh Hcfg Hn s1 claim_time Hsmall Hlarge Hroom. cbv zeta.
  pose proof healthy_nonneg as Hd. pose proof (Hfile s1) as [_ Hdisk].
  destruct (claim_exchange_prompt d disk r req s t version cfg Hacc Hid Ht Hact Hv Hfile Hh Hcfg Hn Hsmall Hlarge Hroom)
    as (res & Hx & Hdone & Hundeg).
  destruct (completed_answer isPrintTable store _ _ _ _ _ _ _ _ r req s res Hacc Hid Hx)
    as (v & cfg' & ls & cs & H200 & Hread & Hload' & Hpath & ? & ? & Hstatus & Haddr & Hscore & ? & _).
  destruct (Hundeg _ _ _ _ Hload' Hpath) as [-> Hdeg].
  destruct (scored_enrichment _ _ _ _ _ _ _ _ _ _ _ _ _ _ _ _ _ (proj1 Hcfg) Hpath Hdeg) as [Hp [Hav Haddr']].
  rewrite Haddr', (address_clean r req Hacc) in Haddr.
  rewrite (cents_from req _ Hp Hav) in Hscore. unfold status_of in Hstatus. rewrite Hdeg in Hstatus.
  split; [exact H200|]. split; [|by exists v].
  destruct (platform_exchange isPrintTable store executor rand_Read r req s Hacc Hid) as [_ Hfin].
  unfold java_platform, go_platform. fold executor. rewrite Hfin. exact Hdone.
Qed.
End Healthy.

(** ** The shipped configuration *)

Lemma net_up_prompt svc : prompt (30 * Millisecond) (net_up svc).
Proof.
  intros c s. unfold room, net_up, result_of, final, Millisecond. destruct (ctx_done c) as [[t e]|]; [|simpl; split; [done|lia]].
  intros Hr. rewrite (proj2 (Z.leb_le _ _)) by lia. simpl. split; [done|lia].
Qed.
#[local] Existing Instances map_metadata ascii_tables plain_server demo_transport.

#[export] Instance demo_healthy :
  Healthy net_up (λ (c : Ctx) (_ : Message), net_up svcPublish c) (30 * Millisecond).
Proof.
  split; [|apply net_up_prompt|intros _; apply net_up_prompt|done].
  exists Millisecond. split_and!; [done|done|by apply steady_prompt].
Qed.

Definition demo_working_platform : Writer -> HttpRequest -> M unit Writer :=
  java_platform (λ _, false) shipped_store net_up (ErrStatus 13 "string field contains invalid UTF-8")
    (λ _, mret (Ok "file"%string)) (λ _, Ok claim_fnol_config) (λ c _, net_up svcPublish c)
    "../../config/dag" demo_rand.

(** The shipped configuration, on a platform whose calls take 30 ms: 5 nodes, the
    version, the delivery and the lookup of the tenant. *)
Lemma platform_scores_claim_witness :
  let m := demo_working_platform new_writer (demo_post lapsed_text) in
  w_status (result_of m demo_st) = Some 200 /\
  now (final m demo_st) <= 0 + 30 * Millisecond + (30 * Millisecond * (5 + 2) + 0) /\
  exists v, readValue (bytes_of (w_body (result_of m demo_st))) = inl v /\
    string_member v "claim_id" = Some (q_ClaimID lapsed_body) /\
    string_member v "correlation_id" = Some (result_of (New demo_rand) demo_st) /\
    string_member v "status" = Some "scored"%string /\
    string_member v "normalized_address"
      = Some (go_of (AddressNormalizer.normalizedAddress (request_address lapsed_body))) /\
    number_member v "fraud_score" = Some (cents_text (request_cents lapsed_body)) /\
    string_member v "model_version" = Some "rules-v1"%string.
Proof.
  unfold demo_working_platform.
  refine (platform_scores_claim (λ _, false) shipped_store net_up
            (ErrStatus 13 "string field contains invalid UTF-8") (λ _, mret (Ok "file"%string))
            (λ _, Ok claim_fnol_config) (λ c _, net_up svcPublish c) "../../config/dag" demo_rand
            (30 * Millisecond) 0 (demo_post lapsed_text) lapsed_body demo_st _ 4 claim_fnol_config
            _ _ _ _ _ _ _ _ _ _ _ _).
  - vm_compute. reflexivity.
  - apply (bool_decide_unpack _). by_compute.
  - vm_compute. reflexivity.
  - vm_compute. reflexivity.
  - vm_compute. reflexivity.
  - intros s. split; [by exists "file"%string|]. rewrite final_ret. lia.
  - apply (bool_decide_unpack _). by_compute.
  - apply (bool_decide_unpack _). by_compute.
  - vm_compute. discriminate.
  - vm_compute. discriminate.
  - vm_compute. exact I.
Defined.
