(* ===== verification/PlatformLogs.v ===== *)
(** * Every log line names its request

    Correlation across the platform: the id the gateway draws for a request is
    attached once to every line that the gateway, tenant-config, orchestration
    and the model service log for it, and every call among them is made under
    a context that carries it. *)

From S2P Require Import Prelude Float64 GoStrings Json JavaStrings JavaServices Messages Payloads.
From S2P Require Import Effects Telemetry TenantConfig DagConfig Resilience Loader Kafka Executor.
From S2P Require Import RunProps Transport Servers JavaGrpc Gateway GatewayProps Startup System.
From S2P Require Import Platform JavaPlatform.

(** ** What is asked of an event *)

(** The values logged under a key, in order. *)
Definition attr_values (key : string) (attrs : list attr) : list AttrVal :=
  omap (λ a, if bool_decide (a.1 = key) then Some a.2 else None) attrs.

Definition go_services : list string :=
  ["claims-gateway"; "tenant-config-svc"; "orchestration-service"; "model-service"]%string.

(** The service a line comes from, which heads its attributes. *)
Definition line_service (attrs : list attr) : option AttrVal :=
  a ← head attrs; if bool_decide (a.1 = "service"%string) then Some a.2 else None.

(** A logger of one of the services for the request [id]. *)
Definition logger_for (id : string) (lg : Logger) : Prop :=
  attr_values "correlation_id" lg = [AStr id] /\
  exists svc, svc ∈ go_services /\ line_service lg = Some (AStr svc).

(** The correlation id that the message of a call holds, if it has one. *)
Definition message_id (c : Call) : option string :=
  match c with
  | CallHash id _ | CallNormalize id _ | CallLookup id _ | CallScore id _ => Some id
  | CallPublish ev => Some (ev_CorrelationID ev)
  | CallProcessClaim claim => CorrelationId <$> claim
  | CallGetDagVersion _ _ | CallGetTenant _ | CallReadFile _ | CallProcess _ => None
  end.

(** An event of the request [id]: a line that names its service and carries
    that correlation id and no other; a call made under it, whose message holds
    it when it has a place for it (reading a file involves neither). *)
Definition traceable (id : string) (ev : Event) : Prop :=
  match ev with
  | EvLog _ _ attrs => logger_for id attrs
  | EvCall _ (CallReadFile _) => True
  | EvCall ctx c => CorrelationIDFrom ctx = id /\ from_option (λ i, i = id) True (message_id c)
  end.

(** A computation that logs nothing and calls nothing. *)
Definition silent {E A} (m : M E A) : Prop := forall s, trace m s = [].

Lemma emits_silent {E A} P (m : M E A) : silent m -> emits P m.
Proof. intros Hm s. by rewrite Hm. Qed.
#[export] Hint Resolve emits_silent : claims.

Lemma emits_get_now {E} P : emits P (get_now : M E Z).
Proof. by apply emits_silent. Qed.
#[export] Hint Resolve emits_get_now : claims.

(** ** Loggers *)
Section Loggers.
Context (id : string) (id_set : id <> ""%string).

Lemma attr_values_app key l1 l2 : attr_values key (l1 ++ l2) = attr_values key l1 ++ attr_values key l2.
Proof. apply omap_app. Qed.

Lemma line_service_app lg attrs v : line_service lg = Some v -> line_service (lg ++ attrs) = Some v.
Proof. by destruct lg. Qed.

Lemma logger_for_app lg attrs :
  logger_for id lg -> attr_values "correlation_id" attrs = [] -> logger_for id (lg ++ attrs).
Proof.
  intros [Hid (svc & Hin & Hsvc)] Hattrs. split; [by rewrite attr_values_app, Hid, Hattrs|].
  exists svc. split; [done|by apply line_service_app].
Qed.

(** The logger of a request's context. *)
Lemma logger_for_ctx ctx svc :
  CorrelationIDFrom ctx = id -> svc ∈ go_services -> logger_for id (FromContext ctx (Some (NewLogger svc))).
Proof.
  intros Hctx Hsvc. unfold FromContext, logger_With. simpl default.
  rewrite Hctx, (bool_decide_true (id <> "")) by done.
  assert (Hbase : logger_for id (NewLogger svc ++ [("correlation_id"%string, AStr id)])) by (split; [done|by exists svc]).
  case_bool_decide; [|done]. by apply logger_for_app.
Qed.

Lemma emits_log {E} lvl lg msg attrs :
  logger_for id lg -> attr_values "correlation_id" attrs = [] ->
  emits (traceable id) (log lvl lg msg attrs : M E unit).
Proof. intros ??. apply emits_emit. by apply logger_for_app. Qed.
End Loggers.

#[export] Hint Resolve logger_for_app logger_for_ctx emits_log : claims.
#[export] Hint Extern 2 (attr_values _ _ = []) => reflexivity : claims.
#[export] Hint Extern 2 (_ ∈ go_services) => (apply (bool_decide_unpack _); reflexivity) : claims.

(** A computation step by step: its calls, its lines, its branches. *)
Ltac traced :=
  repeat first
    [ apply emits_bind; [|intros ?] | apply emits_ret | apply emits_get_now
    | progress (unfold log_Info, log_Warn, log_Error) | case_match | case_bool_decide
    | eauto 4 with claims ].

(** ** The interceptors and the transport *)
Section Calls.
Context `{GrpcMetadataLaws} {E : Type} {tr : Transport E} `{!SilentTransport tr} {Req Resp : Type}.
Context (id : string) (id_set : id <> ""%string).

Lemma delivered_correlation ctx sctx :
  CorrelationIDFrom sctx = ""%string -> header_value (CorrelationIDFrom ctx) ->
  CorrelationIDFrom (delivered_ctx ctx sctx) = CorrelationIDFrom ctx.
Proof.
  intros Hs Hv. unfold delivered_ctx, incoming_ctx.
  rewrite (wire_first ctx metadataCorrelationID (CorrelationIDFrom ctx));
    [|by right|apply outgoing_pairs_correlation|done].
  repeat case_bool_decide; autorewrite with claims_rw; dec_eq; congruence.
Qed.

Lemma client_interceptor_traced svc ctx out method (req : Req) (invoker : Ctx -> MD -> Req -> M E (result Resp)) :
  CorrelationIDFrom ctx = id -> svc ∈ go_services ->
  (forall out, emits (traceable id) (invoker ctx out req)) ->
  emits (traceable id) (UnaryClientInterceptor (Some (NewLogger svc)) ctx out method req invoker).
Proof.
  intros Hctx Hsvc Hinv. unfold UnaryClientInterceptor, logger_With. cbv zeta. traced.
Qed.

(** A call between two of the services. *)
Lemma rpc_traced client_name server_name method (handler : Ctx -> Req -> M E (result Resp)) ctx req :
  header_value id -> CorrelationIDFrom ctx = id ->
  client_name ∈ go_services -> server_name ∈ go_services ->
  (forall c, CorrelationIDFrom c = id -> emits (traceable id) (handler c req)) ->
  emits (traceable id) (rpc client_name server_name method handler ctx req).
Proof.
  intros Hv Hctx Hcl Hsv Hh.
  assert (Hd : forall ends, CorrelationIDFrom (delivered_ctx ctx (server_side ends)) = id)
    by (intros ends; rewrite delivered_correlation; by subst).
  unfold rpc, UnaryClientInterceptor, UnaryServerInterceptor, logger_With. cbv zeta.
  apply emits_bind; [apply emits_get_now|]. intros start. apply emits_bind; [|intros res; traced].
  apply emits_bind; [apply emits_silent; intros s; apply request_silent|].
  intros [ends|err]; [|apply emits_ret]. fold (delivered_ctx ctx (server_side ends)). specialize (Hd ends).
  apply emits_bind; [traced|intros res].
  apply emits_bind; [apply emits_silent; intros s; apply reply_silent|intros lost; apply emits_ret].
Qed.
End Calls.

(** ** A run *)

(** Clients that leave a traceable record of every call made for [id]. *)
Class TracedClients {E} (id : string) (e : Executor E) : Prop := {
  traced_load c t p ev : CorrelationIDFrom c = id -> emits (traceable id) (ex_Loader e c t p ev);
  traced_norm c a : CorrelationIDFrom c = id -> emits (traceable id) (ex_AddressNorm e c id a);
  traced_hash c n : CorrelationIDFrom c = id -> emits (traceable id) (ex_ClaimantIDHash e c id n);
  traced_lookup c p : CorrelationIDFrom c = id -> emits (traceable id) (ex_PolicyLookup e c id p);
  traced_model c f : CorrelationIDFrom c = id -> emits (traceable id) (ex_Model e c id f);
  traced_publish c ev : CorrelationIDFrom c = id -> emits (traceable id) (ex_Publisher e c ev) }.
#[export] Hint Resolve traced_load traced_norm traced_hash traced_lookup traced_model traced_publish : claims.

Lemma nodeFailureHandled_traced {E} id lg node err :
  logger_for id lg -> emits (traceable id) (nodeFailureHandled lg node err : M E bool).
Proof. intros Hlg. unfold nodeFailureHandled. cbv zeta. traced. Qed.
#[export] Hint Resolve nodeFailureHandled_traced : claims.

Lemma callWithResilience_emits {E T} P (zero : T) ctx cfg node (fn : Ctx -> M E (result T)) :
  (forall c, CorrelationIDFrom c = CorrelationIDFrom ctx -> emits P (fn c)) ->
  emits P (callWithResilience zero ctx cfg node fn).
Proof.
  intros Hfn. unfold callWithResilience. generalize (None : option GoErr).
  induction (seqZ 0 (n_MaxRetries node + 1)) as [|a rest IH]; intros lastErr; [apply emits_ret|].
  cbn [attempt_loop]. apply emits_bind.
  { apply emits_bind; [apply emits_get_now|]. intros t. by apply Hfn. }
  intros [r|err]; [apply emits_ret|]. case_match; [|apply IH].
  apply emits_bind; [apply emits_silent; intros s; apply trace_select|].
  intros [c|]; [apply emits_ret|apply IH].
Qed.

Section Run.
Context {E : Type} (e : Executor E) (id : string) `{!TracedClients id e}.
Context (ctx : Ctx) (lg : Logger) (cfg : Config) (tenantID : string) (claim : option ClaimEvent).
Context (ctx_id : CorrelationIDFrom ctx = id) (lg_id : logger_for id lg).

Ltac node := repeat first
  [ apply callWithResilience_emits; intros ? Hc; rewrite ctx_id in Hc; apply emits_call; [by split|eauto with claims]
  | progress traced | apply emits_bind; [|intros ?] | done ].

Lemma stage1_traced nodes st : emits (traceable id) (stage1 e ctx lg cfg tenantID id claim nodes st).
Proof.
  revert st. induction nodes as [|n rest IH]; intros st; cbn [stage1]; unfold warn_unrecognized; node.
Qed.

Lemma stage2_traced nodes st sc : emits (traceable id) (stage2 e ctx lg cfg tenantID id claim nodes st sc).
Proof.
  revert sc. induction nodes as [|n rest IH]; intros sc; cbn [stage2]; unfold warn_unrecognized; node.
Qed.

Lemma stage3_traced nodes status sc :
  emits (traceable id) (stage3 e ctx lg cfg tenantID id claim nodes status sc).
Proof.
  revert status. induction nodes as [|n rest IH]; intros status; cbn [stage3]; unfold warn_unrecognized; node.
Qed.

Lemma run_stages_traced : emits (traceable id) (run_stages e ctx lg cfg tenantID id claim).
Proof.
  unfold run_stages. apply emits_bind; [apply stage1_traced|]. intros [st|err]; [|apply emits_ret].
  apply emits_bind; [apply stage2_traced|]. intros [[sc|]|err]; try apply emits_ret.
  apply emits_bind; [apply stage3_traced|]. intros [status|err]; apply emits_ret.
Qed.
End Run.

Lemma Run_traced {E} (e : Executor E) id ctx tenantID claim :
  TracedClients id e -> id <> ""%string -> ex_Logger e = Some (NewLogger "orchestration-service") ->
  emits (traceable id) (Run e ctx tenantID id claim).
Proof.
  intros He Hid Hlg. unfold Run. rewrite Hlg.
  assert (Hctx : CorrelationIDFrom (WithTenantID (WithCorrelationID ctx id) tenantID) = id)
    by (by autorewrite with claims_rw).
  apply emits_bind; [by apply traced_load|]. intros [cfg|err]; [|apply emits_ret].
  apply run_stages_traced; [done|exact Hctx|]. by apply logger_for_ctx; [..|auto with claims].
Qed.

(** ** The services *)

(** The lines of [GetTenant] and [GetDagVersion]. *)
Section TenantLines.
Context {E : Type} (isPrintTable : Z -> bool) (store : Store) (id : string) (id_set : id <> ""%string).
Let lg := Some (NewLogger "tenant-config-svc").

Lemma GetTenant_traced ctx t :
  CorrelationIDFrom ctx = id -> emits (traceable id) (GetTenant isPrintTable store lg ctx t : M E _).
Proof. intros Hctx. unfold GetTenant. cbv zeta. traced. Qed.

Lemma GetDagVersion_traced ctx t p :
  CorrelationIDFrom ctx = id -> emits (traceable id) (GetDagVersion isPrintTable store lg ctx t p : M E _).
Proof. intros Hctx. unfold GetDagVersion. cbv zeta. traced. Qed.
End TenantLines.

Section JavaPlatform.
Context `{GrpcMetadataLaws} `{CaseTables} `{JavaServer} {E : Type} {tr : Transport E} `{!SilentTransport tr}.
Context (isPrintTable : Z -> bool) (store : Store).
Context (net : string -> Ctx -> M E (result unit)) (marshal_error : GoErr).
Context (ReadFile : string -> M E (result string)) (Unmarshal : string -> result Config)
  (WriteMessages : Ctx -> Message -> M E (result unit)) (dir : string).
Context (rand_Read : Z -> M E (result (list Z))).
(** What is not the platform's own adds nothing to its record. *)
Context (silent_net : forall svc c, silent (net svc c)) (silent_read : forall path, silent (ReadFile path))
  (silent_write : forall c m, silent (WriteMessages c m)) (silent_rand : forall n, silent (rand_Read n)).
Let executor := java_executor isPrintTable store net marshal_error ReadFile Unmarshal WriteMessages dir.

Section Request.
Context (id : string) (id_header : header_value id) (id_set : id <> ""%string).

Lemma java_call_traced {Req Resp} svc method fields (handler : Req -> StreamObserver Resp -> J Resp unit) zero ctx req :
  CorrelationIDFrom ctx = id ->
  emits (traceable id) (java_call net marshal_error svc method fields handler zero ctx req).
Proof.
  intros Hctx. unfold java_call. apply client_interceptor_traced; [done|done|eauto with claims|].
  intros out. case_match; [apply emits_ret|]. apply emits_bind; [auto with claims|intros r; apply emits_ret].
Qed.

Lemma Load_traced ctx t p ev :
  CorrelationIDFrom ctx = id -> emits (traceable id) (ex_Loader executor ctx t p ev).
Proof.
  intros Hctx. cbn [executor java_executor go_executor orchestration_executor ex_Loader go_stubs st_version].
  unfold Load, TenantConfig_GetDagVersion. apply emits_bind.
  - apply emits_call; [done|]. apply emits_bind; [|intros [r|err]; apply emits_ret].
    apply rpc_traced; [done..|auto with claims|auto with claims|].
    intros c Hc. cbn [tenantconfig_service svc_GetDagVersion].
    apply emits_bind; [by apply GetDagVersion_traced|intros [v|err]; apply emits_ret].
  - intros [v|err]; [|apply emits_ret]. cbv zeta. apply emits_bind; [apply emits_call; [done|by apply emits_silent]|].
    intros [data|err]; [|apply emits_ret]. traced.
Qed.

Lemma model_traced ctx f : CorrelationIDFrom ctx = id -> emits (traceable id) (ex_Model executor ctx id f).
Proof.
  intros Hctx. cbn [executor java_executor go_executor orchestration_executor ex_Model go_stubs st_model].
  unfold Model_Score, pointer. apply emits_bind; [|intros [r|err]; apply emits_ret].
  apply rpc_traced; [done..|auto with claims|auto with claims|].
  intros c Hc. unfold ModelServer.Score. traced.
Qed.

#[local] Instance java_traced : TracedClients id executor.
Proof.
  split.
  - exact Load_traced.
  - intros c a Hc. exact (java_call_traced _ _ _ _ _ c (Some (mkNormReq id a)) Hc).
  - intros c n Hc. exact (java_call_traced _ _ _ _ _ c (Some (mkHashReq id n)) Hc).
  - intros c p Hc. exact (java_call_traced _ _ _ _ _ c (Some (mkLookupReq id p)) Hc).
  - exact model_traced.
  - intros c ev Hc. cbn [executor java_executor go_executor orchestration_executor ex_Publisher].
    unfold Publish. case_match; [|apply emits_ret].
    apply emits_bind; [by apply emits_silent|intros [r|err]; apply emits_ret].
Qed.

Lemma ProcessClaim_traced ctx claim :
  CorrelationIDFrom ctx = id -> CorrelationId claim = id ->
  emits (traceable id) (OrchestrationServer.ProcessClaim executor ctx (Some (mkProcessReq (Some claim)))).
Proof.
  intros Hctx Hclaim. unfold OrchestrationServer.ProcessClaim. cbn [GetClaim GetCorrelationId from_option].
  unfold GetCorrelationId. simpl. rewrite Hclaim, bool_decide_false by done.
  apply emits_bind; [exact (Run_traced executor id ctx _ _ java_traced id_set eq_refl)|intros [r|err]; apply emits_ret].
Qed.

Lemma tenant_client_traced ctx t :
  CorrelationIDFrom ctx = id -> emits (traceable id) (tenant_client isPrintTable store ctx t : M E _).
Proof.
  intros Hctx. unfold tenant_client, TenantConfig_GetTenant.
  apply rpc_traced; [done..|auto with claims|auto with claims|].
  intros c Hc. by apply GetTenant_traced.
Qed.

Lemma orchestration_client_traced ctx claim :
  CorrelationIDFrom ctx = id -> CorrelationId claim = id ->
  emits (traceable id) (orchestration_client executor ctx (Some (mkProcessReq (Some claim)))).
Proof.
  intros Hctx Hclaim. unfold orchestration_client, Orchestration_ProcessClaim.
  apply rpc_traced; [done..|auto with claims|auto with claims|].
  intros c Hc. by apply ProcessClaim_traced.
Qed.
End Request.

(** ** The request *)

(** The gateway's handler, once the id is drawn. *)
Lemma New_silent : silent (New rand_Read).
Proof. intros s. unfold New. run. rewrite silent_rand. by destruct (result_of _ s). Qed.

Lemma java_platform_traced w r s :
  let id := result_of (New rand_Read) s in
  header_value id -> id <> ""%string ->
  Forall (traceable id)
    (trace (java_platform isPrintTable store net marshal_error ReadFile Unmarshal WriteMessages dir
              rand_Read w r) s).
Proof.
  cbv zeta. intros Hid Hne. unfold java_platform, go_platform, platform, SubmitClaim. fold executor.
  repeat case_match; try constructor. rewrite trace_bind, New_silent. simpl app.
  set (id := result_of (New rand_Read) s) in *. generalize (final (New rand_Read) s) as s1.
  assert (Hctx : CorrelationIDFrom (WithCorrelationID (rq_Context r) id) = id) by (by autorewrite with claims_rw).
  match goal with |- forall s1, Forall ?P (trace ?m s1) => enough (emits P m) by done end.
  unfold handler_log.
  assert (Hlg : logger_for id (FromContext (WithCorrelationID (rq_Context r) id) (Some (NewLogger "claims-gateway"))))
    by auto with claims.
  apply emits_bind.
  { unfold resolveTenant. apply emits_bind; [apply emits_get_now|]. intros t.
    apply emits_call; [by split|]. by apply tenant_client_traced. }
  intros [t|err]; [|apply emits_bind; [by apply emits_log|intros; apply emits_ret]].
  case_match; [apply emits_bind; [by apply emits_log|intros; apply emits_ret]|].
  apply emits_bind; [apply emits_get_now|]. intros t1. cbv zeta.
  apply emits_bind.
  { apply emits_call; [split; [by autorewrite with claims_rw|done]|].
    apply orchestration_client_traced; [done|done| |done]. by autorewrite with claims_rw. }
  intros [resp|err]; [apply emits_ret|]. apply emits_bind; [|intros; apply emits_ret].
  apply emits_log; [|done]. apply logger_for_ctx; [done| |auto with claims]. by autorewrite with claims_rw.
Qed.
End JavaPlatform.

(** ** Who logs *)

(** A line of a service is in the trace. *)
Definition logged (svc : string) (t : list Event) : Prop :=
  Exists (λ ev, match ev with
                | EvLog _ _ attrs => line_service attrs = Some (AStr svc)
                | EvCall _ _ => False
                end) t.

Lemma logged_app svc t1 t2 : logged svc (t1 ++ t2) <-> logged svc t1 \/ logged svc t2.
Proof. apply Exists_app. Qed.

Lemma logged_call svc ctx c t : logged svc (EvCall ctx c :: t) <-> logged svc t.
Proof. unfold logged. rewrite Exists_cons. tauto. Qed.

Lemma logged_FromContext lvl svc msg ctx attrs t :
  logged svc (EvLog lvl msg (FromContext ctx (Some (NewLogger svc)) ++ attrs) :: t).
Proof. left. unfold FromContext, logger_With. simpl. by repeat case_bool_decide. Qed.

(** The client of a call logs it, and so does its server when it is delivered. *)
Section Ends.
Context `{GrpcMetadata} {E : Type} {tr : Transport E} {Req Resp : Type}.

Lemma server_logged svc ctx incoming (req : Req) method (handler : Ctx -> Req -> M E (result Resp)) s :
  logged svc (trace (UnaryServerInterceptor (Some (NewLogger svc)) ctx incoming req method handler) s).
Proof.
  unfold UnaryServerInterceptor, logger_With. cbv zeta. run. rewrite !logged_app. do 3 right. left.
  case_match; run; rewrite <- app_assoc; apply logged_FromContext.
Qed.

Lemma client_logged svc ctx out method (req : Req) (invoker : Ctx -> MD -> Req -> M E (result Resp)) s :
  let t := trace (UnaryClientInterceptor (Some (NewLogger svc)) ctx out method req invoker) s in
  logged svc t /\
  forall svc', (forall out, logged svc' (trace (invoker ctx out req) s)) -> logged svc' t.
Proof.
  cbv zeta. unfold UnaryClientInterceptor, logger_With. cbv zeta. run. split.
  - rewrite !logged_app. do 3 right. left. case_match; run; rewrite <- app_assoc; apply logged_FromContext.
  - intros svc' Hinv. rewrite !logged_app. right. left. apply Hinv.
Qed.

Lemma rpc_logged client_name server_name method (handler : Ctx -> Req -> M E (result Resp)) ctx req s :
  let t := trace (rpc client_name server_name method handler ctx req) s in
  logged client_name t /\
  (is_ok (result_of (net_request method ctx) s) = true -> logged server_name t).
Proof.
  cbv zeta. unfold rpc.
  edestruct client_logged as [Hc Hs]. split; [exact Hc|]. intros Hok. apply Hs. intros out. cbv beta. run.
  rewrite logged_app. right. destruct (result_of (net_request method ctx) s); [|done]. run.
  rewrite !logged_app. left. apply server_logged.
Qed.
End Ends.

(** The trace of an accepted request. *)
Lemma submit_trace {E} (rand_Read : Z -> M E (result (list Z))) h_TenantConfig h_Orchestration lg w r req s :
  accepted r = Some req ->
  exists rest,
    trace (SubmitClaim rand_Read h_TenantConfig h_Orchestration lg w r) s =
      trace (New rand_Read) s ++
      EvCall (tenant_ctx rand_Read r s) (CallGetTenant hardcodedTenantID) ::
      trace (tenant_call rand_Read h_TenantConfig r s) (final (New rand_Read) s) ++
      (if is_active (tenant_answer rand_Read h_TenantConfig r s) then
         EvCall (claim_ctx rand_Read h_TenantConfig r s)
           (CallProcessClaim (Some (claim_of req (result_of (New rand_Read) s)))) ::
         trace (claim_call rand_Read h_TenantConfig h_Orchestration r req s) (resolved rand_Read h_TenantConfig r s)
       else []) ++ rest.
Proof.
  unfold accepted, SubmitClaim. intros Hacc.
  rewrite bool_decide_not. destruct (bool_decide (rq_Method r = MethodPost)); [|done]. simpl negb. cbv iota.
  destruct (Decode (rq_Body r)) as [q|]; [|done].
  case_bool_decide as Hf; [|done]. destruct Hf as (H1 & H2 & H3). simplify_eq.
  rewrite !bool_decide_false by done. cbn [orb]. cbv iota.
  unfold resolveTenant, is_active. run.
  fold (tenant_ctx rand_Read r s). fold (tenant_call rand_Read h_TenantConfig r s).
  fold (tenant_answer rand_Read h_TenantConfig r s) (resolved rand_Read h_TenantConfig r s).
  destruct (tenant_answer rand_Read h_TenantConfig r s) as [t|err]; run.
  2: { eexists. by rewrite app_nil_l. }
  unfold is_active. change (TenantContext_GetStatus (Some t)) with (tc_status t).
  destruct (decide (tc_status t = "active"%string)) as [Ha|Ha].
  2: { rewrite bool_decide_true, bool_decide_false by done. cbv iota. by eexists. }
  rewrite (bool_decide_false (tc_status t <> _)), bool_decide_true by (done || by intros []). cbv iota. run.
  eexists. rewrite <- app_assoc. simpl. reflexivity.
Qed.

(** ** Property *)
Section Traceability.
Context `{GrpcMetadataLaws} `{CaseTables} `{JavaServer} {E : Type} {tr : Transport E} `{!SilentTransport tr}.
Context (isPrintTable : Z -> bool) (store : Store).
Context (net : string -> Ctx -> M E (result unit)) (marshal_error : GoErr).
Context (ReadFile : string -> M E (result string)) (Unmarshal : string -> result Config)
  (WriteMessages : Ctx -> Message -> M E (result unit)) (dir : string).
Context (rand_Read : Z -> M E (result (list Z))).

Lemma platform_logged w r req s :
  accepted r = Some req ->
  let t := trace (java_platform isPrintTable store net marshal_error ReadFile Unmarshal WriteMessages dir
                    rand_Read w r) s in
  let tenant := tenant_client isPrintTable store in
  logged "claims-gateway" t /\
  (is_ok (result_of (net_request tenant_method (tenant_ctx rand_Read r s)) (final (New rand_Read) s)) = true ->
   logged "tenant-config-svc" t) /\
  (is_active (tenant_answer rand_Read tenant r s) = true ->
   is_ok (result_of (run_sent isPrintTable store rand_Read r s) (resolved rand_Read tenant r s)) = true ->
   logged "orchestration-service" t).
Proof.
  intros Hacc. cbv zeta. unfold java_platform, go_platform, platform. set (ex := go_executor _ _ _ _ _ _ _ _ _).
  destruct (submit_trace rand_Read (tenant_client isPrintTable store) (orchestration_client ex)
              (Some (NewLogger "claims-gateway")) w r req s Hacc) as (rest & ->).
  pose proof (rpc_logged "claims-gateway" "tenant-config-svc" tenant_method
    (λ ctx req, GetTenant isPrintTable store (Some (NewLogger "tenant-config-svc")) ctx (GetTenantId req))
    (tenant_ctx rand_Read r s) (Some (mkGetTenantReq hardcodedTenantID)) (final (New rand_Read) s)) as [Hg Ht].
  rewrite !logged_app, !logged_call, !logged_app. split; [right; left; exact Hg|].
  split; [intros Hok; right; left; exact (Ht Hok)|].
  intros Hact Hsent. rewrite Hact, logged_call. right. right. left.
  exact (proj2 (rpc_logged _ _ _ _ _ _ _) Hsent).
Qed.

(** C6: every event of a request can be traced to it: each line that the
    gateway, tenant-config, orchestration and the model service log for it
    names the service it comes from and carries the generated correlation id,
    once and beside no other; every call among the services is made under a
    context that carries that id, through retries and timeouts and on failures
    too.  A request that reaches the tenant gate leaves such lines of the
    gateway; of tenant-config, when the lookup was delivered to it; and of
    orchestration, when the tenant is active and the claim was delivered.  A
    request that is refused before leaves none. *)
Theorem platform_logs_traceable w r s :
  (forall svc c, silent (net svc c)) -> (forall path, silent (ReadFile path)) ->
  (forall c m, silent (WriteMessages c m)) -> (forall n, silent (rand_Read n)) ->
  let id := result_of (New rand_Read) s in
  header_value id -> id <> ""%string ->
  let t := trace (java_platform isPrintTable store net marshal_error ReadFile Unmarshal WriteMessages dir
                    rand_Read w r) s in
  Forall (traceable id) t /\
  match accepted r with
  | Some _ =>
      let tenant := tenant_client isPrintTable store in
      logged "claims-gateway" t /\
      (is_ok (result_of (net_request tenant_method (tenant_ctx rand_Read r s)) (final (New rand_Read) s)) = true ->
       logged "tenant-config-svc" t) /\
      (is_active (tenant_answer rand_Read tenant r s) = true ->
       is_ok (result_of (run_sent isPrintTable store rand_Read r s) (resolved rand_Read tenant r s)) = true ->
       logged "orchestration-service" t)
  | None => t = []
  end.
Proof.
  intros ???? id Hid Hne t. split; [by apply java_platform_traced|].
  destruct (accepted r) as [req|] eqn:Hacc; [by eapply platform_logged|].
  unfold t, java_platform, go_platform, platform.
  set (ex := go_executor _ _ _ _ _ _ _ _ _).
  destruct (submit_refused rand_Read (tenant_client isPrintTable store) (orchestration_client ex)
              (Some (NewLogger "claims-gateway")) w r s Hacc) as (w' & Heq & _).
  unfold trace. by rewrite Heq.
Qed.
End Traceability.

#[local] Existing Instances map_metadata ascii_tables plain_server demo_transport.

(** The record of a request, with policy-lookup down: every line has the id, and
    the three services have logged it. *)
Lemma platform_logs_traceable_witness :
  let t := trace (demo_java_platform net_no_lookup new_writer (demo_post lapsed_text)) demo_st in
  result_of (New demo_rand) demo_st = "abababababababababababababababab"%string /\
  Forall (traceable (result_of (New demo_rand) demo_st)) t /\
  logged "claims-gateway" t /\ logged "tenant-config-svc" t /\ logged "orchestration-service" t.
Proof.
  intros t. split; [vm_compute; reflexivity|].
  destruct (platform_logs_traceable (λ _, false) shipped_store net_no_lookup
              (ErrStatus 13 "string field contains invalid UTF-8") (λ _, mret (Ok "file"%string))
              (λ _, Ok claim_fnol_config) (λ _ _, mret (Ok tt)) "../../config/dag" demo_rand
              new_writer (demo_post lapsed_text) demo_st) as [Hall Hlogged].
  - intros svc c s. unfold net_no_lookup, net_up, trace. case_match; [done|]. by repeat case_match.
  - done.
  - done.
  - done.
  - apply (bool_decide_unpack _). by_compute.
  - vm_compute. discriminate.
  - assert (Hacc : accepted (demo_post lapsed_text) = Some lapsed_body) by (vm_compute; reflexivity).
    rewrite Hacc in Hlogged. destruct Hlogged as (Hgateway & Htenant & Horchestration).
    split; [exact Hall|]. split; [exact Hgateway|]. split.
    + apply Htenant. vm_compute. reflexivity.
    + apply Horchestration; vm_compute; reflexivity.
Defined.
