(* ===== verification/RepoTests.v ===== *)
(** * The repository's own tests, run on the model

    [scoring_test.go], [config_test.go], [executor_test.go] and the Java unit
    tests, case by case and under their own names, with the fakes they use;
    then the requests and failures that the manual test cases and the runbook
    describe.
    Each case is evaluated by the kernel: what the authors expect of the code
    is what the definitions compute. *)

From S2P Require Import Prelude Float64 GoStrings Json JavaStrings JavaServices Scoring Messages.
From S2P Require Import Payloads Effects Telemetry TenantConfig DagConfig Resilience Kafka Executor.
From S2P Require Import Pipeline RunProps Transport Servers JavaGrpc Gateway GatewayProps System.
From S2P Require Import Platform JavaPlatform.

(** ** model-service/internal/scoring/scoring_test.go *)
Module ScoringTests.

Definition features (status coverage valid : string) : gmap string string :=
  {["policy_status" := status; "policy_coverage_type" := coverage; "address_valid" := valid]}%string.

(** The score and the number of explanations of the features. *)
Definition outcome (f : gmap string string) : float64 * nat :=
  let '(score, reasons) := Score (λ _, false) f in (score, length reasons).

Example TestScore :
  outcome (features "active" "full" "true") = (f64_lit 5 100, 1%nat) /\
  outcome (features "lapsed" "full" "true") = (f64_lit 20 100, 1%nat) /\
  outcome (features "cancelled" "full" "true") = (f64_lit 30 100, 1%nat) /\
  outcome (features "unknown" "" "true") = (f64_lit 40 100, 2%nat) /\
  outcome (features "active" "full" "false") = (f64_lit 15 100, 1%nat) /\
  outcome ∅ = (f64_lit 50 100, 3%nat) /\
  outcome (features "cancelled" "" "false") = (f64_lit 45 100, 3%nat).
Proof. by_compute. Qed.

Example TestScoreNeverExceedsOne :
  outcome (features "totally-bogus-value" "" "not-a-bool") = (f64_lit 50 100, 3%nat).
Proof. by_compute. Qed.
End ScoringTests.

(** ** orchestration-service/internal/dag/config_test.go *)
Module ConfigTests.

Definition zero_node : Node := mkNode "" "" "" 0 0 "" [] [].

Example TestEffectiveOnFailureDefaultsToFailFast : EffectiveOnFailure zero_node = OnFailureFailFast.
Proof. by_compute. Qed.
Example TestEffectiveOnFailureRespectsExplicitValue :
  EffectiveOnFailure (mkNode "" "" "" 0 0 OnFailureSkip [] []) = OnFailureSkip.
Proof. by_compute. Qed.
Example TestEnabledForTenantEmptyMeansAllTenants : EnabledForTenant zero_node "any_tenant" = true.
Proof. by_compute. Qed.
Example TestEnabledForTenantGatesToListedTenants :
  let n := mkNode "" "" "" 0 0 "" [] ["acme_insurance"]%string in
  EnabledForTenant n "acme_insurance" = true /\ EnabledForTenant n "globex_insurance" = false.
Proof. by_compute. Qed.
End ConfigTests.

(** ** orchestration-service/internal/dag/executor_test.go *)
Module ExecutorTests.

(** The state counts the calls of the fake that fails at first. *)
Definition fake {A} (r : result A) : M nat (result A) := mret r.
Definition successfulClaimantIDHash : ClaimantIDHasher nat := λ _ _ _, fake (Ok (Some (mkHashResp "deadbeef"))).
Definition successfulPolicyLookup : PolicyLookuper nat :=
  λ _ _ _, fake (Ok (Some (mkLookupResp true "active" "full"))).
Definition normalized (a : string) : AddressNormalizer nat :=
  λ _ _ _, fake (Ok (Some (mkNormResp a "" "" "" "" "" false))).
Definition scored (cents : Z) (version : string) : Scorer nat :=
  λ _ _ _, fake (Ok (Some (mkScoreResp (f64_lit cents 100) version))).
Definition successfulPublisher : Publisher nat := λ _ _, fake (Ok tt).
Definition unavailable {A} (what : string) : M nat (result A) := fake (Err (ErrNew what)).

(** [testConfig], with the nodes that the tests change as arguments. *)
Definition address_normalize : Node := mkNode "address_normalize" svcNormalize groupEnrichment 0 0 OnFailureSkip [] [].
Definition policy_lookup : Node := mkNode "policy_lookup" svcLookup groupEnrichment 0 0 OnFailureDegrade [] [].
Definition testConfig (normalize lookup : Node) : Config :=
  mkConfig "acme_insurance" "auto" "claim.fnol" 3 0
    [mkNode "claimant_id_hash" svcHash groupEnrichment 0 0 OnFailureFailFast [] [];
     normalize; lookup;
     mkNode "model_score" svcModel "" 0 0 "" [groupEnrichment] [];
     mkNode "publish" svcPublish "" 0 0 OnFailureSkip [nodeModelScore] []].

Definition executor_with (cfg : Config) (norm : AddressNormalizer nat) (hash : ClaimantIDHasher nat)
    (lookup : PolicyLookuper nat) (model : Scorer nat) (pub : Publisher nat) : Executor nat :=
  mkExecutor nat (λ _ _ _ _, fake (Ok cfg)) norm hash lookup model pub None.

Definition claim (id name policy address : string) : option ClaimEvent :=
  Some (mkClaimEvent id "" "auto" "claim.fnol" policy name address).
Definition start : St nat := mkSt 0 0%nat (λ _, false).

(** A run under the tenant of the tests: its result and its calls. *)
Definition run (e : Executor nat) (correlationID : string) (c : option ClaimEvent) : M nat (result Result) :=
  Run e Background "acme_insurance" correlationID c.

Example TestExecutorRunHappyPath :
  let e := executor_with (testConfig address_normalize policy_lookup) (normalized "123 MAIN ST")
             successfulClaimantIDHash successfulPolicyLookup (scored 42 "stub-v0") successfulPublisher in
  result_of (run e "corr-1" (claim "clm-1" "Jane Doe" "POL-123456" "raw")) start
    = Ok (mkResult "scored" "123 MAIN ST" (f64_lit 42 100) "stub-v0").
Proof. by_compute. Qed.

Example TestExecutorRunAddressNormalizeFailureDegradesWithSkipPolicy :
  let e := executor_with (testConfig address_normalize policy_lookup)
             (λ _ _ _, unavailable "address-norm unavailable")
             successfulClaimantIDHash successfulPolicyLookup (scored 50 "v1") successfulPublisher in
  result_of (run e "corr-2" (claim "clm-1" "" "" "raw address")) start
    = Ok (mkResult "degraded" "raw address" (f64_lit 50 100) "v1").
Proof. by_compute. Qed.

Example TestExecutorRunModelScoreFailureFailsFastByDefault :
  let e := executor_with (testConfig address_normalize policy_lookup) (normalized "x")
             successfulClaimantIDHash successfulPolicyLookup (λ _ _ _, unavailable "model-service unavailable")
             successfulPublisher in
  result_of (run e "corr-3" (claim "clm-1" "" "" "")) start = Err (ErrNew "model-service unavailable").
Proof. by_compute. Qed.

Example TestExecutorRunClaimantIdHashFailureFailsFast :
  let e := executor_with (testConfig address_normalize policy_lookup) (normalized "x")
             (λ _ _ _, unavailable "claimant-id-hashing-svc unavailable") successfulPolicyLookup
             (scored 10 "v1") successfulPublisher in
  result_of (run e "corr-5" (claim "clm-1" "" "" "")) start
    = Err (ErrNew "claimant-id-hashing-svc unavailable").
Proof. by_compute. Qed.

Example TestExecutorRunPolicyNotFoundStillScores :
  let e := executor_with (testConfig address_normalize policy_lookup) (normalized "x")
             successfulClaimantIDHash (λ _ _ _, fake (Ok (Some (mkLookupResp false "unknown" ""))))
             (scored 90 "v1") successfulPublisher in
  result_of (run e "corr-6" (claim "clm-1" "" "POL-DOES-NOT-EXIST" "")) start
    = Ok (mkResult "scored" "x" (f64_lit 90 100) "v1").
Proof. by_compute. Qed.

Example TestExecutorRunPublishesScoredEvent :
  let e := executor_with (testConfig address_normalize policy_lookup) (normalized "123 MAIN ST")
             successfulClaimantIDHash successfulPolicyLookup (scored 42 "stub-v0") successfulPublisher in
  last (calls_of (trace (run e "corr-7" (claim "clm-7" "" "" "")) start))
    = Some (CallPublish (mkScoredClaimEvent "clm-7" "corr-7" "acme_insurance" "scored" (f64_lit 42 100) "stub-v0")).
Proof. by_compute. Qed.

Example TestExecutorRunPublishFailureDegradesWithSkipPolicy :
  let e := executor_with (testConfig address_normalize policy_lookup) (normalized "x")
             successfulClaimantIDHash successfulPolicyLookup (scored 42 "stub-v0")
             (λ _ _, unavailable "broker unavailable") in
  result_of (run e "corr-8" (claim "clm-8" "" "" "")) start
    = Ok (mkResult "degraded" "x" (f64_lit 42 100) "stub-v0").
Proof. by_compute. Qed.

Example TestExecutorRunSkipsNodeNotEnabledForTenant :
  let gated := mkNode "address_normalize" svcNormalize groupEnrichment 0 0 OnFailureSkip [] ["other_tenant"]%string in
  let e := executor_with (testConfig gated policy_lookup) (normalized "should not be used")
             successfulClaimantIDHash successfulPolicyLookup (scored 10 "v1") successfulPublisher in
  let m := run e "corr-4" (claim "clm-1" "" "" "untouched raw address") in
  result_of m start = Ok (mkResult "scored" "untouched raw address" (f64_lit 10 100) "v1") /\
  existsb (λ c, match c with CallNormalize _ _ => true | _ => false end) (calls_of (trace m start)) = false.
Proof. by_compute. Qed.

(** A callee that blocks until its context is done. *)
Definition slowAddressNorm : AddressNormalizer nat := λ c _ _ s,
  match ctx_done c with
  | Some (t, e) => (Err (ErrCtx e), mkSt (Z.max (now s) t) (S (env s)) (coin s), [])
  | None => (Err (ErrNew "blocked forever"), s, [])
  end.

(** 5 ms, and one call. *)
Example TestExecutorRunNodeTimeoutIsEnforced :
  let bounded := mkNode "address_normalize" svcNormalize groupEnrichment 5 0 OnFailureSkip [] [] in
  let e := executor_with (testConfig bounded policy_lookup) slowAddressNorm
             successfulClaimantIDHash successfulPolicyLookup (scored 10 "v1") successfulPublisher in
  let m := run e "corr-timeout" (claim "clm-1" "" "" "raw") in
  result_of m start = Ok (mkResult "degraded" "raw" (f64_lit 10 100) "v1") /\
  now (final m start) = 5 * Millisecond /\ env (final m start) = 1%nat.
Proof. by_compute. Qed.

(** A callee that fails [failures] times, then succeeds. *)
Definition flakyPolicyLookup (failures : nat) : PolicyLookuper nat := λ _ _ _ s,
  let s' := mkSt (now s) (S (env s)) (coin s) in
  if (env s <? failures)%nat then (Err (ErrNew "transient failure"), s', [])
  else (Ok (Some (mkLookupResp true "active" "full")), s', []).

(** Three calls and two back-offs. *)
Example TestExecutorRunRetriesTransientFailureIntoSuccess :
  let retried := mkNode "policy_lookup" svcLookup groupEnrichment 0 2 OnFailureDegrade [] [] in
  let e := executor_with (testConfig address_normalize retried) (normalized "x")
             successfulClaimantIDHash (flakyPolicyLookup 2) (scored 10 "v1") successfulPublisher in
  let m := run e "corr-retry" (claim "clm-1" "" "POL-123456" "") in
  result_of m start = Ok (mkResult "scored" "x" (f64_lit 10 100) "v1") /\
  env (final m start) = 3%nat /\ now (final m start) = 40 * Millisecond.
Proof. by_compute. Qed.
End ExecutorTests.

(** ** The Java unit tests *)
Module JavaTests.
#[local] Existing Instance ascii_tables.

Definition hash (s : string) : jstring := ClaimantIdHasher.hash (Some (lit s)).
Definition normalize (s : string) : AddressNormalizer.Normalized := AddressNormalizer.normalize (Some (lit s)).
Definition lookup (s : string) : PolicyLookup.Result := PolicyLookup.lookup (Some (lit s)).

Example ClaimantIdHasherTest :
  hash "Jane Doe" = lit "7b9d77204ff21b167f8936bf0deefef40eee95574b6c9432fa890e5b6135065f" /\
  bool_decide (hash "Jane Doe" = hash "John Roe") = false /\
  hash "Jane Doe" = hash "  jane doe  " /\ hash "  " = [].
Proof. by_compute. Qed.

Example AddressNormalizerTest :
  normalize "123 Main St, Springfield, IL 62704" =
    AddressNormalizer.mkNormalized (lit "123 MAIN ST, SPRINGFIELD, IL, 62704, US") (lit "123 MAIN ST")
      (lit "SPRINGFIELD") (lit "IL") (lit "62704") (lit "US") true /\
  AddressNormalizer.valid (normalize "not a real address") = false /\
  AddressNormalizer.normalizedAddress (normalize "not a real address") = lit "NOT A REAL ADDRESS" /\
  AddressNormalizer.valid (normalize "  ") = false /\ AddressNormalizer.normalizedAddress (normalize "  ") = [].
Proof. by_compute. Qed.

Example PolicyLookupTest :
  lookup "POL-123456" = PolicyLookup.mkResult true (lit "active") (lit "full") /\
  PolicyLookup.found (lookup "POL-654321") = true /\ PolicyLookup.status (lookup "POL-654321") = lit "lapsed" /\
  PolicyLookup.found (lookup "POL-DOES-NOT-EXIST") = false /\
  PolicyLookup.status (lookup "POL-DOES-NOT-EXIST") = lit "unknown" /\
  PolicyLookup.found (lookup "  ") = false /\ PolicyLookup.found (lookup "pol-123456") = true.
Proof. by_compute. Qed.
End JavaTests.

(** ** docs/manual-test-cases.md *)
Module ManualTests.
#[local] Existing Instances map_metadata ascii_tables plain_server demo_transport.

(** Text with its quotes written as apostrophes. *)
Definition text (s : string) : string := string_of (json_literal s).
Definition line (s : string) : string := string_of (json_literal s ++ [10]).

(** The claim of TC-01 and of the runbook. *)
Definition smoke : HttpRequest := demo_post (text
  "{'claim_id':'clm-console-001','product':'auto','event_type':'claim.fnol','policy_number':'POL-123456','claimant_name':'Jane Doe','raw_address':'123 Main St, Springfield, IL 62704'}").

(** The events of the lookup node, and whether a line reports a node as failed
    with a policy. *)
Definition lookups (t : list Event) : nat :=
  length (List.filter (λ c, match c with CallLookup _ _ => true | _ => false end) (calls_of t)).
Definition reports_failure (node policy : string) (ev : Event) : bool :=
  match ev with
  | EvLog LWarn "dag node failed, continuing" attrs =>
      existsb (λ a, match a with ("node", AStr n) => bool_decide (n = node) | _ => false end)%string attrs
      && existsb (λ a, match a with ("on_failure", AStr p) => bool_decide (p = policy) | _ => false end)%string attrs
  | _ => false
  end.

Example TC_01 :
  let m := demo_java_platform net_up new_writer smoke in
  w_status (result_of m demo_st) = Some 200 /\
  w_body (result_of m demo_st) = line
    "{'claim_id':'clm-console-001','correlation_id':'abababababababababababababababab','status':'scored','normalized_address':'123 MAIN ST, SPRINGFIELD, IL, 62704, US','fraud_score':0.05,'model_version':'rules-v1'}".
Proof. by_compute. Qed.

(** TC-02 to TC-03b: tenant-config-svc. *)
Definition ask {A} (m : M unit A) : A := result_of m demo_st.
Example TC_02 :
  ask (GetTenant (λ _, false) shipped_store None Background "acme_insurance")
    = Ok (mkTenantContext "acme_insurance" "Acme Insurance Co" "active").
Proof. by_compute. Qed.
Example TC_02b :
  ask (GetTenant (λ _, false) shipped_store None Background "acme_insuranc")
    = Err (ErrStatus NotFound (text "tenant 'acme_insuranc' not found")).
Proof. by_compute. Qed.
Example TC_03 : ask (GetDagVersion (λ _, false) shipped_store None Background "acme_insurance" "auto") = Ok 4.
Proof. by_compute. Qed.
Example TC_03b :
  ask (GetDagVersion (λ _, false) shipped_store None Background "acme_insurance" "")
    = Err (ErrStatus NotFound
             (text "no dag version configured for tenant 'acme_insurance' product ''")).
Proof. by_compute. Qed.

(** TC-04 to TC-07: the Java services, as a client is answered. *)
Example TC_04 :
  client_answer (JavaGrpc.normalize (mkNormReq "console-test-1" "123 Main St, Springfield, IL 62704") open_call ∅)
    = Ok (mkNormResp "123 MAIN ST, SPRINGFIELD, IL, 62704, US" "123 MAIN ST" "SPRINGFIELD" "IL" "62704" "US" true).
Proof. by_compute. Qed.
Example TC_05 :
  client_answer (hashClaimantId (mkHashReq "console-test-1" "Jane Doe") open_call ∅)
    = Ok (mkHashResp "7b9d77204ff21b167f8936bf0deefef40eee95574b6c9432fa890e5b6135065f").
Proof. by_compute. Qed.
Example TC_06 :
  client_answer (lookupPolicy (mkLookupReq "console-test-1" "POL-123456") open_call ∅)
    = Ok (mkLookupResp true "active" "full").
Proof. by_compute. Qed.
Example TC_07 :
  client_answer (lookupPolicy (mkLookupReq "console-test-2" "POL-BOGUS-999") open_call ∅)
    = Ok (mkLookupResp false "unknown" "").
Proof. by_compute. Qed.

(** TC-08: the model on a request that sets the tenant only. *)
Example TC_08 :
  ask (ModelServer.Score (λ _, false) None Background
         (Some (mkScoreReq "console-test-1" {["tenant_id" := "acme_insurance"]}%string)))
    = Ok (mkScoreResp (f64_lit 50 100) "rules-v1").
Proof. by_compute. Qed.

(** TC-09: orchestration called directly, with the identifiers as metadata. *)
Example TC_09 :
  let executor := java_executor (λ _, false) shipped_store net_up (ErrStatus 13 "") (λ _, mret (Ok "file"%string))
                    (λ _, Ok claim_fnol_config) (λ _ _, mret (Ok tt)) "../../config/dag" in
  let md := md_Append md_empty [metadataTenantID; "acme_insurance"; metadataCorrelationID; "tc09-test-1"]%string in
  let claim := mkClaimEvent "clm-console-002" "" "auto" "claim.fnol" "POL-123456" "Jane Doe"
                 "123 Main St, Springfield, IL 62704" in
  ask (UnaryServerInterceptor None Background (Some (md_wire md)) (Some (mkProcessReq (Some claim)))
         "/orchestration.v1.OrchestrationService/ProcessClaim" (OrchestrationServer.ProcessClaim executor))
    = Ok (mkProcessClaimResponse "clm-console-002" "tc09-test-1" "scored"
            "123 MAIN ST, SPRINGFIELD, IL, 62704, US" (f64_lit 5 100) "rules-v1").
Proof. by_compute. Qed.

(** TC-10: the message that TC-01 leaves on the topic. *)
Example TC_10 :
  match last (calls_of (trace (demo_java_platform net_up new_writer smoke) demo_st)) with
  | Some (CallPublish ev) =>
      ev_TenantID ev = "acme_insurance"%string /\
      Marshal ev = Ok (text
        "{'claim_id':'clm-console-001','correlation_id':'abababababababababababababababab','tenant_id':'acme_insurance','status':'scored','fraud_score':0.05,'model_version':'rules-v1'}")
  | _ => False
  end.
Proof. by_compute. Qed.

(** TC-11: policy-lookup-svc stopped. *)
Example TC_11 :
  let m := demo_java_platform net_no_lookup new_writer smoke in
  w_status (result_of m demo_st) = Some 200 /\
  w_body (result_of m demo_st) = line
    "{'claim_id':'clm-console-001','correlation_id':'abababababababababababababababab','status':'degraded','normalized_address':'123 MAIN ST, SPRINGFIELD, IL, 62704, US','fraud_score':0.4,'model_version':'rules-v1'}" /\
  lookups (trace m demo_st) = 2%nat /\
  existsb (reports_failure "policy_lookup" "degrade") (trace m demo_st) = true /\
  now (final m demo_st) = 88 * Millisecond.
Proof. by_compute. Qed.

(** RUNBOOK.md and DECISIONS.md: what happens when a part is down or the tenant
    is suspended. *)
Definition platform_with (tenants : list Tenant) (net : string -> Ctx -> M unit (result unit))
    (write : M unit (result unit)) : M unit Writer :=
  java_platform (λ _, false) (mkStore (index_tenants tenants)) net (ErrStatus 13 "")
    (λ _, mret (Ok "file"%string)) (λ _, Ok claim_fnol_config) (λ _ _, write) "../../config/dag" demo_rand
    new_writer smoke.

Definition down (svc : string) (svc' : string) (c : Ctx) : M unit (result unit) :=
  if bool_decide (svc' = svc) then mret (Err (ErrStatus 14 "connection refused")) else net_up svc' c.

(** The status of the answer, and its body up to the fields that vary. *)
Definition answer_of (m : M unit Writer) : option Z * string := (w_status (ask m), w_body (ask m)).

Example suspended_tenant :
  let m := platform_with [mkTenant "acme_insurance" "Acme" "suspended" ∅] net_up (mret (Ok tt)) in
  answer_of m = (Some 403, line "{'error':'tenant is not active'}") /\
  calls_of (trace m demo_st) = [CallGetTenant "acme_insurance"].
Proof. by_compute. Qed.

(** [claimant_id_hash] is [fail_fast]: two attempts, then the request fails,
    before any other service is called. *)
Example hashing_down :
  let m := platform_with shipped_tenants (down svcHash) (mret (Ok tt)) in
  answer_of m = (Some 502, line "{'error':'orchestration call failed'}") /\
  omap (λ c, match c with CallHash _ _ => Some 1 | CallNormalize _ _ => Some 2 | CallLookup _ _ => Some 3
             | CallScore _ _ => Some 4 | CallPublish _ => Some 5 | _ => None end) (calls_of (trace m demo_st)) = [1; 1].
Proof. by_compute. Qed.

(** [address_normalize] is [skip] and the address stays as it was sent, unverified. *)
Example normalization_down :
  answer_of (platform_with shipped_tenants (down svcNormalize) (mret (Ok tt))) =
    (Some 200, line
      "{'claim_id':'clm-console-001','correlation_id':'abababababababababababababababab','status':'degraded','normalized_address':'123 Main St, Springfield, IL 62704','fraud_score':0.15,'model_version':'rules-v1'}").
Proof. by_compute. Qed.

(** [publish] is [skip]: the client has its score though the broker is down. *)
Example broker_down :
  let m := platform_with shipped_tenants net_up (mret (Err (ErrNew "dial tcp: connection refused"))) in
  answer_of m = (Some 200, line
    "{'claim_id':'clm-console-001','correlation_id':'abababababababababababababababab','status':'degraded','normalized_address':'123 MAIN ST, SPRINGFIELD, IL, 62704, US','fraud_score':0.05,'model_version':'rules-v1'}") /\
  existsb (reports_failure "publish" "skip") (trace m demo_st) = true.
Proof. by_compute. Qed.
(** A Go service that cannot be reached: the tenant's fails the gate, and each of
    the others the claim. *)
Example go_services_down :
  let without method := java_platform (tr := without_method method demo_transport) (λ _, false) shipped_store net_up
    (ErrStatus 13 "") (λ _, mret (Ok "file"%string)) (λ _, Ok claim_fnol_config) (λ _ _, mret (Ok tt))
    "../../config/dag" demo_rand new_writer smoke in
  answer_of (without tenant_method) = (Some 403, line "{'error':'tenant not found or unavailable'}") /\
  answer_of (without claim_method) = (Some 502, line "{'error':'orchestration call failed'}") /\
  answer_of (without version_method) = (Some 502, line "{'error':'orchestration call failed'}") /\
  answer_of (without score_method) = (Some 502, line "{'error':'orchestration call failed'}").
Proof. by_compute. Qed.
End ManualTests.
